(* ===== verification/_CoqProject ===== *)
-Q . S2P
Prelude.v
Memory.v
Machine.v
Bits.v
AsmWrapper.v
Lists.v
Allocator.v
AllocRep.v
AllocReq.v
AllocHeap.v
AllocInit.v
AllocRel.v
AllocSafety.v
AllocIface.v
AllocRoom.v
Queues.v
Console.v
Pic.v
Segment.v
Interrupt.v
Paging.v
PagingSpec.v
Thread.v
ContextSwitch.v
Scheduler.v
ThreadSpec.v
Process.v
HeapInit.v
Footprint.v
ProcessSpec.v
Timer.v
Poll.v
Keyboard.v
Ide.v
IdeSpec.v
Kernel.v
Layout.v
LayoutSpec.v
KernelSpec.v
IntrEntry.v
IntrEntrySpec.v
Preempt.v
Vectors.v
BootSteps.v
Launch.v
Boot.v
