(* ===== verification/Prelude.v ===== *)
(** * XyOS: a verification library for the kernel under src/kernel

    XyOS is a small 32-bit x86 kernel. A boot loader enters [kernel_start] (init.c), which
    copies the memory map, turns paging on (memory/paging.c), sets up segments
    (memory/segment.c) and the buddy allocator (memory/direct_mapping_allocator.c), the
    interrupt table and controllers (interrupt/), processes (process/), threads (thread/) and
    the drivers for timer, keyboard and disk (driver/). From then on interrupts drive it: a
    stub and _alltraps save the registers (interrupt/intr_vec.S, intr_entry.S),
    [IntrHandlerSel] calls the handler, the timer switches threads (thread/switch_reg.S).
    lib/ holds bits, bitmaps, lists, queues, maps and wrappers of assembly instructions.

    ** The model

    Prelude.v (this file): machine integers as [Z] with their wrap-around written out
    ([u8], [u16], [u32], [i32], [shl32], [shr32]), and the monad of the code. A computation
    takes a state and ends in [Done], in [Crash] (undefined behaviour of C without a meaning
    in the model, such as an array index out of bounds), in [NoFuel], in [Enter], a context
    switch to the start of a new thread, or in [Fault], an exception of the processor.
    [runs c s a s'] says that it returns [a] in [s'].
    Memory.v: memory is a map from physical byte addresses to bytes. A pointer below
    [0xc0000000] is its own physical address, one above is [0xc0000000] more than it
    ([phys]); [paging_init_translates] proves that this is the address map that the
    kernel's own page tables set up, for the first 4 MB and the 64 MB direct mapping
    area. Beyond them the flat map still answers where the machine would raise a page fault;
    pointers that the code makes from physical addresses of pages and page tables therefore go
    through the page walk instead ([paged] in Paging.v), which raises it. Words are little
    endian. Layout.v has the C declarations of all structures as data, with gcc's layout rules,
    and LayoutSpec.v compares the model's accessors, literal offsets and sizes with them.
    Machine.v: the record [kstate] (memory, processor registers, history of port
    accesses, one sub-record of global variables per C file) and the class [Platform] of
    what is outside the sources: linker symbols, addresses of functions, and devices, which
    answer a port read as any function of the accesses made so far.

    ** Source and library, one function of the code per definition of the same name

    - lib/bit.h, bitmap.h: Bits.v. lib/asm_wrapper.c, .h: AsmWrapper.v. lib/list.h: Lists.v.
      lib/queue.h, map.h and the constructors of list.h: Queues.v.
    - memory/direct_mapping_allocator.c: Allocator.v (code); AllocRep.v, AllocReq.v,
      AllocHeap.v, AllocInit.v, AllocRel.v (representation in memory, specification, abstract
      heap, initialisation, release); AllocSafety.v (theorems); AllocIface.v (the class
      [ByteAllocator] of what clients rely on, with the buddy allocator as its instance);
      AllocRoom.v (how many requests succeed, and the class [RoomyAllocator] for clients that do
      not check for failure).
    - memory/paging.c: Paging.v (code), PagingSpec.v; its page fault handler is in Process.v.
      memory/segment.c: Segment.v. memory/memory_manager.c: Kernel.v.
    - driver/console.c: Console.v. driver/timer.c: Timer.v. driver/keyboard.c: Keyboard.v.
      driver/ide.c: Ide.v, IdeSpec.v. Poll.v: busy waiting on a device. driver/driver.c: Kernel.v.
    - interrupt/pic.c: Pic.v. interrupt/idt.c, interrupt.c: Interrupt.v (the dispatcher
      [IntrHandlerSel] in Kernel.v). interrupt/intr_vec.S, intr_entry.S and boot/boot.S:
      IntrEntry.v, IntrEntrySpec.v, with the processor's checks of gates and selectors;
      Vectors.v (which vectors pass them after [IntrInit]).
    - thread/thread.c, switch_reg.S: Thread.v (code), ContextSwitch.v, Scheduler.v,
      ThreadSpec.v (thread creation against the allocator's interface); Preempt.v (multitasking
      as the composition of entry code, dispatcher, timer, queue and context switch); Launch.v
      (threads created and started in a multitasking kernel).
    - process/process.c: Process.v (code), ProcessSpec.v; HeapInit.v (the pools of processes
      and threads, set up against [RoomyAllocator]).
    - init.c, syscall/syscall.c, file_system/fs.c: Kernel.v, KernelSpec.v. The whole start:
      Footprint.v (which bytes a function writes), BootSteps.v (the components one by one), Boot.v.
    - the structure declarations of all headers, boot/multiboot.h and file_system/ included:
      Layout.v.

    ** What the theorems show

    - Allocator: requests and releases refine a specification on an abstract heap of
      disjoint blocks ([ReqBytes_refines], [RelBytes_refines]); initialisation establishes the
      invariant ([init_establishes]); any sequence of requests hands out disjoint memory
      ([requests_safe]), and 5000 requests of up to a page are all served ([requests_served]).
    - Paging: the page walk over the built tables ([paging_init_translates]); the page
      allocator ([req_page_first_free], [req_page_distinct]); a page fault maps the page if its table is mapped at its physical
      address ([pf_maps_page]), but a new table is not ([pf_new_table_faults]); copy on write of
      a page directory ([upd_clone]).
    - Threads: a context switch is exact and switching back restores the saved context
      ([switch_context]); a new thread gets a stack of its own ([create_thread]); the
      scheduler is round robin within a process ([thread_switch_round_robin], [thread_wake]).
    - Multitasking: a whole timer interrupt refines an abstract scheduler, a list of threads
      with their registers ([timer_interrupt_refines]), so every waiting thread gets the
      processor after a known number of interrupts, with its registers intact or, if it is
      new, at its start function ([every_thread_runs]); threads that are created and started join
      the others and run in their turn ([threads_start]).
    - Start: on a compliant machine the kernel boots, from the first instruction of boot.S to
      the invariants of paging, interrupts, allocator and multitasking ([kernel_boots]), and
      threads started then run ([boot_to_threads]); without a compliant boot loader it stops
      having written only the screen and its boot stack ([boot_rejects]).
    - Interrupts: gates and handlers agree in every reachable state
      ([gates_match_handlers]); the entry code restores every register
      ([interrupt_transparent]), and a keyboard interrupt is followed from the processor to
      the driver and back ([keyboard_interrupt]); after the start every vector with a handler is
      taken except the system call's, which the processor refuses ([vectors_after_boot]).
    - Data structures: the queue is a FIFO for every sequence of operations ([queue_fifo]);
      lists, bits and bitmaps.
    - Devices: the console prints the text of a format and writes only the screen
      ([printf_on_screen]), numbers read back ([itoa_roundtrip]); the disk command encodes the
      sector address ([ide_lba]), an interrupt moves one sector ([ide_handler_transfers]);
      the keyboard refines its byte-by-byte specification.
    - Defects that the model makes precise: releases that complete a pair of buddies, the
      search of a release, the bitmap index modulo 4 and its consequences for pages and
      interrupt vectors, map lookups, the process pool, sleeping threads, key releases, new
      page tables, the gate of the system call, and the missing breaks of its handler.

    ** Fuel

    Loops over lists, memory regions and devices take fuel, one unit per iteration; a
    theorem that a function returns states how much is enough: more than the number of nodes,
    of regions, of polls until the device is ready, or 2^20 for the loops over all pages.
    Counted loops run exactly as often as the C loops. The endless loop of the disk
    thread has no result for any fuel.

    ** Not modelled

    The stack frames of compiled C functions (the stack is modelled in the assembly code and
    where data structures live on it); interrupts that arrive in the middle of C code (each
    handler runs as one step); user mode and privilege changes on interrupts, since there is no user
    program yet; page faults of accesses through the flat map (above), the TLB, and the accessed bit
    that the processor sets in a descriptor it loads; constants that no code uses.

    ** Not proved

    Modelled, without a theorem of their own beyond the defects above: closing a process
    ([CloseProc], [DestructAllSons]), a new process from its creation to its first run, the
    disk thread's loop (it sleeps with [ThreadSleep], which leaves it scheduled). The boot
    theorem is for a machine without a disk; with one, [IdeInit] makes the calls that
    [threads_start] is about. *)

From Stdlib Require Import ZArith Lia ZifyBool.
From stdpp Require Import base numbers gmap list.

#[global] Open Scope Z_scope.

(** ** Machine integers *)

(** Two to the 32nd: the size of the address space and of [uint32_t]. *)
Notation "'W32'" := 4294967296 (at level 0, only parsing).

Definition u8 (x : Z) : Z := x mod 256.
Definition u16 (x : Z) : Z := x mod 65536.
Definition u32 (x : Z) : Z := x mod W32.

(** Conversion to [int]: two's complement, 32 bits. *)
Definition i32 (x : Z) : Z :=
  let u := u32 x in if u <? 2147483648 then u else u - W32.

(** Shifts of a [uint32_t] by a count below 32 (larger counts are undefined in C;
    every use in the kernel is below 32 or has its result discarded). *)
Definition shl32 (x k : Z) : Z := u32 (Z.shiftl (u32 x) k).
Definition shr32 (x k : Z) : Z := Z.shiftr (u32 x) k.

(** [~x] on [uint32_t]. *)
Definition not32 (x : Z) : Z := u32 (Z.lnot x).

(** ** Outcomes and the kernel's monad

    [Done] is a normal return; [Crash] is undefined behaviour of C that the model
    does not give a meaning to (an array index out of its bounds); [NoFuel] is a
    loop or recursion that has used up its fuel; [Enter] is a context switch to the start
    of a new thread: the code after the call is not executed then, it belongs to the thread
    that was suspended. [Fault] is an exception of the processor, with its vector: an
    interrupt or a segment load that its checks refuse. *)
Inductive outcome (S A : Type) : Type :=
| Done (r : A * S)
| Crash
| NoFuel
| Enter (s : S)
| Fault (v : Z).
Arguments Done {S A} _.
Arguments Crash {S A}.
Arguments NoFuel {S A}.
Arguments Enter {S A} _.
Arguments Fault {S A} _.

Definition M (S A : Type) : Type := S -> outcome S A.

Definition ret {S A} (a : A) : M S A := fun s => Done (a, s).

Definition bind {S A B} (c : M S A) (k : A -> M S B) : M S B := fun s =>
  match c s with
  | Done (a, s') => k a s'
  | Crash => Crash
  | NoFuel => NoFuel
  | Enter s' => Enter s'
  | Fault v => Fault v
  end.

Definition crash {S A} : M S A := fun _ => Crash.
Definition nofuel {S A} : M S A := fun _ => NoFuel.
Definition enter {S A} : M S A := fun s => Enter s.
Definition fault {S A} (v : Z) : M S A := fun _ => Fault v.
Definition gets {S A} (f : S -> A) : M S A := fun s => Done (f s, s).
Definition modify {S} (f : S -> S) : M S unit := fun s => Done (tt, f s).

Declare Scope xy_scope.
Delimit Scope xy_scope with xy.
#[global] Open Scope xy_scope.

Notation "x <- c ;; k" := (bind c (fun x => k))
  (at level 100, c at next level, right associativity) : xy_scope.
Notation "c ;;; k" := (bind c (fun _ => k))
  (at level 100, right associativity) : xy_scope.

(** A C loop: the body either continues with a new loop variable ([inl]) or leaves
    the loop with a value ([inr]). One unit of fuel per iteration. *)
Fixpoint loop {S X Y} (fuel : nat) (body : X -> M S (X + Y)) (x : X) : M S Y :=
  match fuel with
  | O => nofuel
  | Datatypes.S f =>
      r <- body x ;;
      match r with
      | inl x' => loop f body x'
      | inr y => ret y
      end
  end.

(** A counted C loop [for (i = i0; ...; ++i)] of [n] iterations. *)
Fixpoint for_ {S} (n : nat) (i : Z) (body : Z -> M S unit) : M S unit :=
  match n with
  | O => ret tt
  | Datatypes.S n' => body i ;;; for_ n' (i + 1) body
  end.

(** [runs c s a s']: from [s], [c] terminates normally with value [a] in [s']. *)
Definition runs {S A} (c : M S A) (s : S) (a : A) (s' : S) : Prop :=
  c s = Done (a, s').

(** [yields c s o]: from [s], [c] ends with the outcome [o]; the general form of both. *)
Definition yields {S A} (c : M S A) (s : S) (o : outcome S A) : Prop := c s = o.

(** [enters c s s']: from [s], [c] gives the processor to a new thread, in [s']. *)
Definition enters {S A} (c : M S A) (s s' : S) : Prop := c s = Enter s'.

Section Runs.
Context {S : Type}.
Implicit Types s : S.

Lemma runs_ret {A} (a : A) s : runs (ret a) s a s.
Proof. reflexivity. Qed.

Lemma runs_gets {A} (f : S -> A) s : runs (gets f) s (f s) s.
Proof. reflexivity. Qed.

Lemma runs_modify (f : S -> S) s : runs (modify f) s tt (f s).
Proof. reflexivity. Qed.

Lemma runs_bind {A B} (c : M S A) (k : A -> M S B) s a s1 b s2 :
  runs c s a s1 -> runs (k a) s1 b s2 -> runs (bind c k) s b s2.
Proof. unfold runs, bind. intros ->. done. Qed.

Lemma runs_bind_inv {A B} (c : M S A) (k : A -> M S B) s b s2 :
  runs (bind c k) s b s2 -> exists a s1, runs c s a s1 /\ runs (k a) s1 b s2.
Proof.
  unfold runs, bind. destruct (c s) as [[a s1]| | | |]; [|discriminate..]. intros Hk. by exists a, s1.
Qed.

Lemma runs_skip_inv (c : M S unit) s s' : runs (bind c (fun _ => ret tt)) s tt s' -> runs c s tt s'.
Proof. unfold runs, bind, ret. by destruct (c s) as [[[] s1]| | | |]. Qed.

Lemma yields_bind {A B} (c : M S A) (k : A -> M S B) s a s1 o :
  runs c s a s1 -> yields (k a) s1 o -> yields (bind c k) s o.
Proof. unfold runs, yields, bind. intros ->. done. Qed.

Lemma enters_bind {A B} (c : M S A) (k : A -> M S B) s a s1 s2 :
  runs c s a s1 -> enters (k a) s1 s2 -> enters (bind c k) s s2.
Proof. unfold runs, enters, bind. intros ->. done. Qed.

Lemma enters_first {A B} (c : M S A) (k : A -> M S B) s s1 : enters c s s1 -> enters (bind c k) s s1.
Proof. unfold enters, bind. intros ->. done. Qed.

Lemma runs_det {A} (c : M S A) s a1 s1 a2 s2 :
  runs c s a1 s1 -> runs c s a2 s2 -> a1 = a2 /\ s1 = s2.
Proof. unfold runs. intros -> [= -> ->]. done. Qed.

Lemma loop_step {X Y} fuel (body : X -> M S (X + Y)) x x' s s1 y s2 :
  runs (body x) s (inl x') s1 -> runs (loop fuel body x') s1 y s2 ->
  runs (loop (Datatypes.S fuel) body x) s y s2.
Proof. intros. eapply runs_bind; eauto. Qed.

Lemma loop_exit {X Y} fuel (body : X -> M S (X + Y)) x s y s1 :
  runs (body x) s (inr y) s1 -> runs (loop (Datatypes.S fuel) body x) s y s1.
Proof. intros. eapply runs_bind; [eauto | reflexivity]. Qed.

Lemma for_step n i (body : Z -> M S unit) s s1 s2 :
  runs (body i) s tt s1 -> runs (for_ n (i + 1) body) s1 tt s2 ->
  runs (for_ (Datatypes.S n) i body) s tt s2.
Proof. intros. eapply runs_bind; eauto. Qed.

(** The rule for counted loops: an invariant indexed by the loop variable. *)
Lemma for_inv (I : Z -> S -> Prop) n i (body : Z -> M S unit) s :
  I i s ->
  (forall j s1, i <= j < i + Z.of_nat n -> I j s1 ->
     exists s2, runs (body j) s1 tt s2 /\ I (j + 1) s2) ->
  exists s', runs (for_ n i body) s tt s' /\ I (i + Z.of_nat n) s'.
Proof.
  revert i s; induction n as [|n IH]; intros i s HI Hb.
  - exists s. split; [reflexivity|]. by replace (i + Z.of_nat 0) with i by lia.
  - destruct (Hb i s) as (s1 & Hr & HI1); [lia|done|].
    destruct (IH (i + 1) s1) as (s2 & Hr2 & HI2); [done| |].
    + intros j s3 Hj. apply Hb; lia.
    + exists s2. split; [by eapply for_step|].
      by replace (i + Z.of_nat (Datatypes.S n)) with (i + 1 + Z.of_nat n) by lia.
Qed.

(** Divergence: a loop whose body returns to the same configuration never ends. *)
Lemma loop_diverges {X Y} (body : X -> M S (X + Y)) x s :
  runs (body x) s (inl x) s -> forall fuel, loop fuel body x s = NoFuel.
Proof.
  intros Hb fuel; induction fuel as [|f IH]; [done|].
  cbn. unfold bind. unfold runs in Hb. by rewrite Hb.
Qed.

End Runs.

(** ** Equal computations

    Computations that agree on every state; the laws of the monad hold up to this
    equivalence, and [bind] and [runs] respect it. *)
Definition meq {S A} (c d : M S A) : Prop := forall s, c s = d s.
Infix "≈" := meq (at level 70, no associativity) : xy_scope.

#[export] Instance meq_equiv {S A} : Equivalence (@meq S A).
Proof.
  split; [by intros c s|by intros c d H s|]. intros c d e H1 H2 s. by rewrite H1.
Qed.

#[export] Instance bind_meq {S A B} :
  Proper (meq ==> pointwise_relation A meq ==> meq) (@bind S A B).
Proof.
  intros c d Hc k l Hk s. unfold bind. rewrite Hc. destruct (d s) as [[a s1]| | | |]; [apply Hk|done..].
Qed.

#[export] Instance runs_meq {S A} : Proper (meq ==> eq ==> eq ==> eq ==> iff) (@runs S A).
Proof. intros c d Hc s ? <- a ? <- s' ? <-. unfold runs. by rewrite Hc. Qed.

Lemma bind_assoc {S A B C} (c : M S A) (f : A -> M S B) (g : B -> M S C) :
  bind (bind c f) g ≈ bind c (fun x => bind (f x) g).
Proof. intros s. unfold bind. destruct (c s) as [[x s1]| | | |]; done. Qed.

Lemma bind_ret_r {S A} (c : M S A) : bind c ret ≈ c.
Proof. intros s. unfold bind, ret. destruct (c s) as [[x s1]| | | |]; done. Qed.

(** Symbolic execution: peel one bind after another. *)
Ltac run_step :=
  lazymatch goal with
  | |- runs (bind _ _) _ _ _ => eapply runs_bind
  | |- runs (ret _) _ _ _ => reflexivity
  | |- runs (gets _) _ _ _ => reflexivity
  | |- runs (modify _) _ _ _ => reflexivity
  end.

(** ** Functions updated at one point *)

Definition upd {A B} `{EqDecision A} (f : A -> B) (a : A) (b : B) : A -> B :=
  fun x => if decide (x = a) then b else f x.

Lemma upd_eq {A B} `{EqDecision A} (f : A -> B) a b : upd f a b a = b.
Proof. unfold upd. by rewrite decide_True. Qed.

Lemma upd_ne {A B} `{EqDecision A} (f : A -> B) a b x : x <> a -> upd f a b x = f x.
Proof. intros. unfold upd. by rewrite decide_False. Qed.

(** ** Arithmetic lemmas shared by the components *)

Lemma u32_range x : 0 <= u32 x < W32.
Proof. unfold u32. apply Z.mod_pos_bound. lia. Qed.

Lemma u8_range x : 0 <= u8 x < 256.
Proof. unfold u8. apply Z.mod_pos_bound. lia. Qed.

Lemma u16_range x : 0 <= u16 x < 65536.
Proof. unfold u16. apply Z.mod_pos_bound. lia. Qed.

Lemma u32_small x : 0 <= x < W32 -> u32 x = x.
Proof. unfold u32. intros. by apply Z.mod_small. Qed.

Lemma u8_small x : 0 <= x < 256 -> u8 x = x.
Proof. unfold u8. intros. by apply Z.mod_small. Qed.

Lemma u16_small x : 0 <= x < 65536 -> u16 x = x.
Proof. unfold u16. intros. by apply Z.mod_small. Qed.

Lemma u32_idem x : u32 (u32 x) = u32 x.
Proof. apply u32_small, u32_range. Qed.

Lemma i32_small x : 0 <= x < 2147483648 -> i32 x = x.
Proof.
  intros. unfold i32. rewrite u32_small by lia.
  destruct (Z.ltb_spec x 2147483648); lia.
Qed.

Lemma u32_i32 x : u32 (i32 x) = u32 x.
Proof.
  unfold i32. destruct (_ <? _); [apply u32_idem|].
  unfold u32. rewrite <- Zminus_mod_idemp_r, Z_mod_same_full, Z.sub_0_r.
  apply Zmod_mod.
Qed.

Lemma pow2_pos k : 0 <= k -> 0 < 2 ^ k.
Proof. intros. by apply Z.pow_pos_nonneg. Qed.

(** Powers of two with a [nat] exponent: block sizes. *)
Lemma pow_nat_succ k : 2 ^ Z.of_nat (k + 1) = 2 * 2 ^ Z.of_nat k.
Proof. rewrite <- Z.pow_succ_r by lia. f_equal. lia. Qed.

Lemma pow_nat_le k l : (k <= l)%nat -> 2 ^ Z.of_nat k <= 2 ^ Z.of_nat l.
Proof. intros. apply Z.pow_le_mono_r; lia. Qed.

Lemma pow_nat_lt k l : (k < l)%nat -> 2 * 2 ^ Z.of_nat k <= 2 ^ Z.of_nat l.
Proof. intros. rewrite <- pow_nat_succ. apply pow_nat_le. lia. Qed.

Lemma pow_nat_pos k : 0 < 2 ^ Z.of_nat k.
Proof. apply pow2_pos. lia. Qed.

Lemma shl32_1 k : 0 <= k < 32 -> shl32 1 k = 2 ^ k.
Proof.
  intros. unfold shl32. rewrite (u32_small 1) by lia.
  rewrite Z.shiftl_1_l. apply u32_small. split; [lia|].
  change W32 with (2 ^ 32). apply Z.pow_lt_mono_r; lia.
Qed.

Create HintDb xy.
Create Rewrite HintDb xyr.
#[export] Hint Resolve runs_ret runs_gets runs_modify : xy.
#[export] Hint Rewrite u32_idem : xyr.
