(* ===== verification/Memory.v ===== *)
(** * Byte memory

    The kernel's memory as the processor sees it: bytes addressed by a 32-bit
    virtual address. The two ranges the kernel uses are the first 4 MB, mapped to
    themselves, and the direct mapping area from [0xc0000000], mapped to physical
    address 0 upwards (src/kernel/memory/paging.c, [PagingInit]); both are views of the
    same physical bytes, so a cell is named by its physical address [phys a]. Words
    are little endian, as on the i386. [phys] is total: it extends the two views to all
    addresses, so a load or store here never faults. On the machine an access between 4 MB and
    3 GB or above the 64 MB of the direct mapping area needs an entry in the page tables;
    where the kernel uses a pointer that may lie there (the page fault handler, [RelPages],
    [ClearPage]) the model goes through the page walk ([paged] in Paging). *)

From Stdlib Require Import ZArith Lia ZifyBool.
From stdpp Require Import base numbers gmap list.
From S2P Require Import Prelude.

(** kKVirtualAddr of direct_mapping_allocator.h *)
Notation "'KVA'" := 3221225472 (at level 0, only parsing).

(** Physical address of the cell a pointer denotes. *)
Definition phys (a : Z) : Z :=
  let v := u32 a in if v <? KVA then v else v - KVA.

Definition load8 (m : gmap Z Z) (a : Z) : Z := u8 (default 0 (m !! phys a)).
Definition store8 (m : gmap Z Z) (a v : Z) : gmap Z Z := <[phys a := u8 v]> m.

(** Little-endian access of [n] bytes. *)
Fixpoint load (n : nat) (m : gmap Z Z) (a : Z) : Z :=
  match n with
  | O => 0
  | S n' => load8 m a + 256 * load n' m (a + 1)
  end.

Fixpoint store (n : nat) (m : gmap Z Z) (a v : Z) : gmap Z Z :=
  match n with
  | O => m
  | S n' => store n' (store8 m a v) (a + 1) (v / 256)
  end.

Definition load16 := load 2.
Definition store16 := store 2.
Definition load32 := load 4.
Definition store32 := store 4.

(** [span a n]: the [n] bytes from [a] lie in one of the two views, without
    wrapping around. *)
Definition span (a n : Z) : Prop :=
  (0 <= a /\ a + n <= KVA) \/ (KVA <= a /\ a + n <= W32).

(** [kspan a n]: they lie in the kernel's part of the address space. *)
Definition kspan (a n : Z) : Prop := KVA <= a /\ a + n <= W32.

(** [apart a n b k]: the two byte ranges do not overlap. *)
Definition apart (a n b k : Z) : Prop := a + n <= b \/ b + k <= a.

Lemma apart_sym a n b k : apart a n b k -> apart b k a n.
Proof. unfold apart. tauto. Qed.

Lemma kspan_span a n : kspan a n -> span a n.
Proof. unfold kspan, span. lia. Qed.

Lemma phys_low a : 0 <= a < KVA -> phys a = a.
Proof.
  intros. unfold phys. rewrite u32_small by lia. destruct (Z.ltb_spec a KVA); lia.
Qed.

Lemma phys_high a : KVA <= a < W32 -> phys a = a - KVA.
Proof.
  intros. unfold phys. rewrite u32_small by lia. destruct (Z.ltb_spec a KVA); lia.
Qed.

Lemma phys_u32 a : phys (u32 a) = phys a.
Proof. unfold phys. by rewrite u32_idem. Qed.

Lemma phys_span a n i : span a n -> 0 <= i < n -> phys (a + i) = phys a + i.
Proof.
  intros [H|H] Hi.
  - rewrite !phys_low; lia.
  - rewrite !phys_high; lia.
Qed.

Lemma phys_inj a n i j :
  span a n -> 0 <= i < n -> 0 <= j < n -> phys (a + i) = phys (a + j) -> i = j.
Proof. intros Hs Hi Hj E. rewrite !(phys_span a n) in E by done. lia. Qed.

Lemma load8_range m a : 0 <= load8 m a < 256.
Proof. apply u8_range. Qed.

Lemma load_range n m a : 0 <= load n m a < 256 ^ Z.of_nat n.
Proof.
  revert a; induction n as [|n IH]; intros a; [cbn; lia|].
  cbn [load]. specialize (IH (a + 1)). pose proof (load8_range m a).
  rewrite Nat2Z.inj_succ, Z.pow_succ_r by lia. nia.
Qed.

Lemma load32_range m a : 0 <= load32 m a < W32.
Proof. apply (load_range 4). Qed.

Lemma u32_load32 m a : u32 (load32 m a) = load32 m a.
Proof. apply u32_small, load32_range. Qed.

Lemma load8_store8_same m a v : load8 (store8 m a v) a = u8 v.
Proof.
  unfold load8, store8. rewrite lookup_insert_eq. cbn.
  apply u8_small, u8_range.
Qed.

Lemma load8_store8_ne m a b v :
  phys a <> phys b -> load8 (store8 m a v) b = load8 m b.
Proof. intros. unfold load8, store8. by rewrite lookup_insert_ne. Qed.

(** Frame: bytes outside the written range are unchanged. *)
Lemma load8_store_ne n m a v b :
  (forall i, 0 <= i < Z.of_nat n -> phys (a + i) <> phys b) ->
  load8 (store n m a v) b = load8 m b.
Proof.
  revert m a v; induction n as [|n IH]; intros m a v H; [done|].
  cbn [store]. rewrite IH.
  - apply load8_store8_ne. specialize (H 0). rewrite Z.add_0_r in H. apply H. lia.
  - intros i Hi. replace (a + 1 + i) with (a + (i + 1)) by lia. apply H. lia.
Qed.

Lemma load_ext n m m' a :
  (forall i, 0 <= i < Z.of_nat n -> load8 m (a + i) = load8 m' (a + i)) ->
  load n m a = load n m' a.
Proof.
  revert a; induction n as [|n IH]; intros a H; [done|]. cbn [load].
  rewrite (IH (a + 1)).
  - specialize (H 0). rewrite Z.add_0_r in H. rewrite H by lia. done.
  - intros i Hi. replace (a + 1 + i) with (a + (i + 1)) by lia. apply H. lia.
Qed.

(** Read back: a store followed by a load of the same cells. *)
Lemma load_store_same n m a v :
  span a (Z.of_nat n) -> load n (store n m a v) a = v mod 256 ^ Z.of_nat n.
Proof.
  revert m a v; induction n as [|n IH]; intros m a v H.
  - cbn. by rewrite Z.mod_1_r.
  - cbn [load store]. rewrite load8_store_ne, load8_store8_same, IH.
    + unfold u8. rewrite Nat2Z.inj_succ, Z.pow_succ_r by lia.
      rewrite Z.rem_mul_r by lia. lia.
    + unfold span in *. lia.
    + intros i Hi. replace (a + 1 + i) with (a + (i + 1)) by lia.
      rewrite (phys_span a (Z.of_nat (S n)) (i + 1)) by (done || lia). lia.
Qed.

Lemma load_store_ne_phys n k m a b v :
  span a (Z.of_nat k) -> span b (Z.of_nat n) ->
  apart (phys a) (Z.of_nat k) (phys b) (Z.of_nat n) ->
  load n (store k m a v) b = load n m b.
Proof.
  intros Ha Hb Hd. apply load_ext. intros i Hi. apply load8_store_ne.
  intros j Hj. rewrite (phys_span a (Z.of_nat k)), (phys_span b (Z.of_nat n)) by done.
  unfold apart in Hd. lia.
Qed.

Lemma load_store_ne n k m a b v :
  kspan a (Z.of_nat k) -> kspan b (Z.of_nat n) ->
  apart a (Z.of_nat k) b (Z.of_nat n) ->
  load n (store k m a v) b = load n m b.
Proof.
  intros Ha Hb Hd. destruct n as [|n]; [done|]. destruct k as [|k]; [done|].
  apply load_store_ne_phys; try by apply kspan_span.
  unfold kspan, apart in *. rewrite !phys_high by lia. lia.
Qed.

Lemma load32_store32_same m a v : kspan a 4 -> load32 (store32 m a v) a = u32 v.
Proof. intros. apply (load_store_same 4). by apply kspan_span. Qed.

Lemma load32_store32_ne m a b v :
  kspan a 4 -> kspan b 4 -> apart a 4 b 4 -> load32 (store32 m a v) b = load32 m b.
Proof. apply (load_store_ne 4 4). Qed.

(** A byte read at offset [j] of a span after a byte write at offset [i] of it. *)
Lemma load8_store8_at m a n i j v :
  span a n -> 0 <= i < n -> 0 <= j < n ->
  load8 (store8 m (a + i) v) (a + j) = if i =? j then u8 v else load8 m (a + j).
Proof.
  intros Hs Hi Hj. destruct (Z.eqb_spec i j) as [->|Hne]; [apply load8_store8_same|].
  apply load8_store8_ne. intros E. apply Hne. by apply (phys_inj a n).
Qed.

(** 16-bit accesses as bytes. *)
Lemma store16_bytes m a v : store16 m a v = store8 (store8 m a v) (a + 1) (v / 256).
Proof. reflexivity. Qed.

Lemma load16_bytes m a : load16 m a = load8 m a + 256 * load8 m (a + 1).
Proof. unfold load16. cbn [load]. lia. Qed.

(** [same_except ws m m']: the memories agree on every range of kernel addresses
    that is apart from the 4-byte words at [ws]. *)
Definition same_except (ws : list Z) (m m' : gmap Z Z) : Prop :=
  forall n b, kspan b (Z.of_nat n) ->
    Forall (fun w => apart w 4 b (Z.of_nat n)) ws -> load n m' b = load n m b.

Lemma same_except_refl ws m : same_except ws m m.
Proof. by intros n b _ _. Qed.

Lemma same_except_trans ws1 ws2 m1 m2 m3 :
  same_except ws1 m1 m2 -> same_except ws2 m2 m3 -> same_except (ws1 ++ ws2) m1 m3.
Proof.
  intros H1 H2 n b Hb Hw. apply Forall_app in Hw as [Hw1 Hw2].
  rewrite H2, H1; done.
Qed.

Lemma same_except_weaken ws ws' m m' :
  same_except ws m m' -> (forall w, w ∈ ws -> w ∈ ws') -> same_except ws' m m'.
Proof.
  intros H Hin n b Hb Hw. apply H; [done|]. rewrite Forall_forall in *.
  intros w Hw'. apply Hw, Hin, Hw'.
Qed.

Lemma same_except_store32 m a v : kspan a 4 -> same_except [a] m (store32 m a v).
Proof.
  intros Ha n b Hb Hw. apply Forall_cons in Hw as [Hw _].
  apply (load_store_ne n 4); done.
Qed.

Lemma same_except_load32 ws m m' b :
  same_except ws m m' -> kspan b 4 -> Forall (fun w => apart w 4 b 4) ws ->
  load32 m' b = load32 m b.
Proof. intros H Hb Hw. apply (H 4%nat); done. Qed.

#[global] Typeclasses Opaque load32 store32 load16 store16.
#[global] Opaque load32 store32 load16 store16.
#[export] Hint Resolve kspan_span same_except_refl same_except_store32 : xy.
#[export] Hint Rewrite u32_load32 : xyr.
