(* ===== verification/Machine.v ===== *)
(** * The machine and the kernel's global state

    The record [kstate] gathers the byte memory, the processor registers, the
    history of port accesses and the global variables of every component (one
    sub-record per C file). The platform, what the linker and the devices provide,
    is the class [Platform]. *)

From Stdlib Require Import ZArith Lia ZifyBool.
From stdpp Require Import base numbers gmap list.
From S2P Require Import Prelude Memory.

(** The functions the kernel registers as interrupt handlers: the values of the
    function pointers in [intr_handler]. *)
Inductive handler_id : Type :=
| ExcHandlerId
| PfHandlerId
| TimerHandlerId
| KeyboardHandlerId
| IdeHandlerId
| SyscallId.

#[export] Instance handler_id_eq_dec : EqDecision handler_id.
Proof. solve_decision. Defined.

(** One port access: the history, newest first, is what the devices have seen. *)
Inductive IoEvent : Type :=
| Inb (port v : Z)
| Outb (port v : Z)
| Inl (port v : Z)
| Outl (port v : Z).

#[export] Instance IoEvent_eq_dec : EqDecision IoEvent.
Proof. solve_decision. Defined.

(** What is fixed outside the C sources: the address of the linker symbol [K_END]
    (scripts/kernel.ld), the table of interrupt prehandlers (intr_vec.S), the
    addresses in the image of the functions [GdtLimit] and [RunIde] and of the
    instruction after the call of [SwitchReg] in [ThreadSwitch], and the devices, which
    answer a port read as a function of the accesses made so far. *)
Class Platform := {
  K_END : Z;
  intr_vec : Z -> Z;
  GdtLimit_fn : Z;
  RunIde_fn : Z;
  ThreadSwitch_ret : Z;
  device : list IoEvent -> Z -> Z;
}.

(** The processor registers the kernel reads or writes with assembly: control
    registers, EFLAGS, the general registers and the instruction pointer (which only
    assembly code sets; C code leaves them to the compiler), the segment registers, and
    GDTR, IDTR (limit, base) and TR. *)
Record Cpu : Type := mk_Cpu {
  cr0 : Z;
  cr1 : Z;
  cr2 : Z;
  cr3 : Z;
  cr4 : Z;
  eflags : Z;
  esp : Z;
  ebx : Z;
  esi : Z;
  edi : Z;
  ebp : Z;
  eip : Z;
  eax : Z;
  ecx : Z;
  edx : Z;
  cs : Z;
  ds : Z;
  es : Z;
  fs : Z;
  gs : Z;
  ss : Z;
  gdtr : Z * Z;
  idtr : Z * Z;
  tr : Z;
}.

(** Globals of direct_mapping_allocator.c. *)
Record AllocG : Type := mk_AllocG {
  mem_block_pool : Z;
  free_mem_list : list Z;
  allocated_mem_list : list Z;
}.

(** Globals of interrupt.c. *)
Record IntrG : Type := mk_IntrG {
  IntrVecMap : gmap Z Z;
  intr_handler : gmap Z handler_id;
}.

(** Globals of console.c (console.h declares them static; console.c owns the copies that are used). *)
Record ConG : Type := mk_ConG {
  xpos : Z;
  ypos : Z;
  video : Z;
}.

(** Globals of keyboard.c. *)
Record KbdG : Type := mk_KbdG {
  keymap : Z;
  key_counter : Z;
  input_buf : gmap Z Z;
  cur : Z;
}.

(** Globals of thread.c. *)
Record ThrG : Type := mk_ThrG {
  free_thread_list : Z;
  wait_thread_queue : Z;
  block_thread_list : Z;
}.

(** Globals of process.c. *)
Record ProcG : Type := mk_ProcG {
  k_pcb : Z;
  free_proc_list : Z;
}.

(** The machine and the kernel's global variables. Everything the C code reaches through a pointer is in [mem]; the globals whose address is never taken are fields. *)
Record kstate : Type := mk_kstate {
  mem : gmap Z Z;
  cpu : Cpu;
  io : list IoEvent;
  alloc : AllocG;
  page_state : gmap Z Z;
  intr : IntrG;
  tss : Z;
  con : ConG;
  timer : Z;
  kbd : KbdG;
  thr : ThrG;
  proc : ProcG;
  block_queue : Z;
  kSuperBlock : Z;
}.

Definition set_cr0 (x : Z) (c : Cpu) : Cpu :=
  mk_Cpu x (cr1 c) (cr2 c) (cr3 c) (cr4 c) (eflags c) (esp c) (ebx c) (esi c) (edi c) (ebp c) (eip c) (eax c) (ecx c) (edx c) (cs c) (ds c) (es c) (fs c) (gs c) (ss c) (gdtr c) (idtr c) (tr c).
Definition set_cr1 (x : Z) (c : Cpu) : Cpu :=
  mk_Cpu (cr0 c) x (cr2 c) (cr3 c) (cr4 c) (eflags c) (esp c) (ebx c) (esi c) (edi c) (ebp c) (eip c) (eax c) (ecx c) (edx c) (cs c) (ds c) (es c) (fs c) (gs c) (ss c) (gdtr c) (idtr c) (tr c).
Definition set_cr2 (x : Z) (c : Cpu) : Cpu :=
  mk_Cpu (cr0 c) (cr1 c) x (cr3 c) (cr4 c) (eflags c) (esp c) (ebx c) (esi c) (edi c) (ebp c) (eip c) (eax c) (ecx c) (edx c) (cs c) (ds c) (es c) (fs c) (gs c) (ss c) (gdtr c) (idtr c) (tr c).
Definition set_cr3 (x : Z) (c : Cpu) : Cpu :=
  mk_Cpu (cr0 c) (cr1 c) (cr2 c) x (cr4 c) (eflags c) (esp c) (ebx c) (esi c) (edi c) (ebp c) (eip c) (eax c) (ecx c) (edx c) (cs c) (ds c) (es c) (fs c) (gs c) (ss c) (gdtr c) (idtr c) (tr c).
Definition set_cr4 (x : Z) (c : Cpu) : Cpu :=
  mk_Cpu (cr0 c) (cr1 c) (cr2 c) (cr3 c) x (eflags c) (esp c) (ebx c) (esi c) (edi c) (ebp c) (eip c) (eax c) (ecx c) (edx c) (cs c) (ds c) (es c) (fs c) (gs c) (ss c) (gdtr c) (idtr c) (tr c).
Definition set_eflags (x : Z) (c : Cpu) : Cpu :=
  mk_Cpu (cr0 c) (cr1 c) (cr2 c) (cr3 c) (cr4 c) x (esp c) (ebx c) (esi c) (edi c) (ebp c) (eip c) (eax c) (ecx c) (edx c) (cs c) (ds c) (es c) (fs c) (gs c) (ss c) (gdtr c) (idtr c) (tr c).
Definition set_esp (x : Z) (c : Cpu) : Cpu :=
  mk_Cpu (cr0 c) (cr1 c) (cr2 c) (cr3 c) (cr4 c) (eflags c) x (ebx c) (esi c) (edi c) (ebp c) (eip c) (eax c) (ecx c) (edx c) (cs c) (ds c) (es c) (fs c) (gs c) (ss c) (gdtr c) (idtr c) (tr c).
Definition set_ebx (x : Z) (c : Cpu) : Cpu :=
  mk_Cpu (cr0 c) (cr1 c) (cr2 c) (cr3 c) (cr4 c) (eflags c) (esp c) x (esi c) (edi c) (ebp c) (eip c) (eax c) (ecx c) (edx c) (cs c) (ds c) (es c) (fs c) (gs c) (ss c) (gdtr c) (idtr c) (tr c).
Definition set_esi (x : Z) (c : Cpu) : Cpu :=
  mk_Cpu (cr0 c) (cr1 c) (cr2 c) (cr3 c) (cr4 c) (eflags c) (esp c) (ebx c) x (edi c) (ebp c) (eip c) (eax c) (ecx c) (edx c) (cs c) (ds c) (es c) (fs c) (gs c) (ss c) (gdtr c) (idtr c) (tr c).
Definition set_edi (x : Z) (c : Cpu) : Cpu :=
  mk_Cpu (cr0 c) (cr1 c) (cr2 c) (cr3 c) (cr4 c) (eflags c) (esp c) (ebx c) (esi c) x (ebp c) (eip c) (eax c) (ecx c) (edx c) (cs c) (ds c) (es c) (fs c) (gs c) (ss c) (gdtr c) (idtr c) (tr c).
Definition set_ebp (x : Z) (c : Cpu) : Cpu :=
  mk_Cpu (cr0 c) (cr1 c) (cr2 c) (cr3 c) (cr4 c) (eflags c) (esp c) (ebx c) (esi c) (edi c) x (eip c) (eax c) (ecx c) (edx c) (cs c) (ds c) (es c) (fs c) (gs c) (ss c) (gdtr c) (idtr c) (tr c).
Definition set_eip (x : Z) (c : Cpu) : Cpu :=
  mk_Cpu (cr0 c) (cr1 c) (cr2 c) (cr3 c) (cr4 c) (eflags c) (esp c) (ebx c) (esi c) (edi c) (ebp c) x (eax c) (ecx c) (edx c) (cs c) (ds c) (es c) (fs c) (gs c) (ss c) (gdtr c) (idtr c) (tr c).
Definition set_eax (x : Z) (c : Cpu) : Cpu :=
  mk_Cpu (cr0 c) (cr1 c) (cr2 c) (cr3 c) (cr4 c) (eflags c) (esp c) (ebx c) (esi c) (edi c) (ebp c) (eip c) x (ecx c) (edx c) (cs c) (ds c) (es c) (fs c) (gs c) (ss c) (gdtr c) (idtr c) (tr c).
Definition set_ecx (x : Z) (c : Cpu) : Cpu :=
  mk_Cpu (cr0 c) (cr1 c) (cr2 c) (cr3 c) (cr4 c) (eflags c) (esp c) (ebx c) (esi c) (edi c) (ebp c) (eip c) (eax c) x (edx c) (cs c) (ds c) (es c) (fs c) (gs c) (ss c) (gdtr c) (idtr c) (tr c).
Definition set_edx (x : Z) (c : Cpu) : Cpu :=
  mk_Cpu (cr0 c) (cr1 c) (cr2 c) (cr3 c) (cr4 c) (eflags c) (esp c) (ebx c) (esi c) (edi c) (ebp c) (eip c) (eax c) (ecx c) x (cs c) (ds c) (es c) (fs c) (gs c) (ss c) (gdtr c) (idtr c) (tr c).
Definition set_cs (x : Z) (c : Cpu) : Cpu :=
  mk_Cpu (cr0 c) (cr1 c) (cr2 c) (cr3 c) (cr4 c) (eflags c) (esp c) (ebx c) (esi c) (edi c) (ebp c) (eip c) (eax c) (ecx c) (edx c) x (ds c) (es c) (fs c) (gs c) (ss c) (gdtr c) (idtr c) (tr c).
Definition set_ds (x : Z) (c : Cpu) : Cpu :=
  mk_Cpu (cr0 c) (cr1 c) (cr2 c) (cr3 c) (cr4 c) (eflags c) (esp c) (ebx c) (esi c) (edi c) (ebp c) (eip c) (eax c) (ecx c) (edx c) (cs c) x (es c) (fs c) (gs c) (ss c) (gdtr c) (idtr c) (tr c).
Definition set_es (x : Z) (c : Cpu) : Cpu :=
  mk_Cpu (cr0 c) (cr1 c) (cr2 c) (cr3 c) (cr4 c) (eflags c) (esp c) (ebx c) (esi c) (edi c) (ebp c) (eip c) (eax c) (ecx c) (edx c) (cs c) (ds c) x (fs c) (gs c) (ss c) (gdtr c) (idtr c) (tr c).
Definition set_fs (x : Z) (c : Cpu) : Cpu :=
  mk_Cpu (cr0 c) (cr1 c) (cr2 c) (cr3 c) (cr4 c) (eflags c) (esp c) (ebx c) (esi c) (edi c) (ebp c) (eip c) (eax c) (ecx c) (edx c) (cs c) (ds c) (es c) x (gs c) (ss c) (gdtr c) (idtr c) (tr c).
Definition set_gs (x : Z) (c : Cpu) : Cpu :=
  mk_Cpu (cr0 c) (cr1 c) (cr2 c) (cr3 c) (cr4 c) (eflags c) (esp c) (ebx c) (esi c) (edi c) (ebp c) (eip c) (eax c) (ecx c) (edx c) (cs c) (ds c) (es c) (fs c) x (ss c) (gdtr c) (idtr c) (tr c).
Definition set_ss (x : Z) (c : Cpu) : Cpu :=
  mk_Cpu (cr0 c) (cr1 c) (cr2 c) (cr3 c) (cr4 c) (eflags c) (esp c) (ebx c) (esi c) (edi c) (ebp c) (eip c) (eax c) (ecx c) (edx c) (cs c) (ds c) (es c) (fs c) (gs c) x (gdtr c) (idtr c) (tr c).
Definition set_gdtr (x : Z * Z) (c : Cpu) : Cpu :=
  mk_Cpu (cr0 c) (cr1 c) (cr2 c) (cr3 c) (cr4 c) (eflags c) (esp c) (ebx c) (esi c) (edi c) (ebp c) (eip c) (eax c) (ecx c) (edx c) (cs c) (ds c) (es c) (fs c) (gs c) (ss c) x (idtr c) (tr c).
Definition set_idtr (x : Z * Z) (c : Cpu) : Cpu :=
  mk_Cpu (cr0 c) (cr1 c) (cr2 c) (cr3 c) (cr4 c) (eflags c) (esp c) (ebx c) (esi c) (edi c) (ebp c) (eip c) (eax c) (ecx c) (edx c) (cs c) (ds c) (es c) (fs c) (gs c) (ss c) (gdtr c) x (tr c).
Definition set_tr (x : Z) (c : Cpu) : Cpu :=
  mk_Cpu (cr0 c) (cr1 c) (cr2 c) (cr3 c) (cr4 c) (eflags c) (esp c) (ebx c) (esi c) (edi c) (ebp c) (eip c) (eax c) (ecx c) (edx c) (cs c) (ds c) (es c) (fs c) (gs c) (ss c) (gdtr c) (idtr c) x.

Definition set_mem_block_pool (x : Z) (g : AllocG) : AllocG :=
  mk_AllocG x (free_mem_list g) (allocated_mem_list g).
Definition set_free_mem_list (x : list Z) (g : AllocG) : AllocG :=
  mk_AllocG (mem_block_pool g) x (allocated_mem_list g).
Definition set_allocated_mem_list (x : list Z) (g : AllocG) : AllocG :=
  mk_AllocG (mem_block_pool g) (free_mem_list g) x.

Definition set_IntrVecMap (x : gmap Z Z) (g : IntrG) : IntrG :=
  mk_IntrG x (intr_handler g).
Definition set_intr_handler (x : gmap Z handler_id) (g : IntrG) : IntrG :=
  mk_IntrG (IntrVecMap g) x.

Definition set_xpos (x : Z) (g : ConG) : ConG :=
  mk_ConG x (ypos g) (video g).
Definition set_ypos (x : Z) (g : ConG) : ConG :=
  mk_ConG (xpos g) x (video g).
Definition set_video (x : Z) (g : ConG) : ConG :=
  mk_ConG (xpos g) (ypos g) x.

Definition set_keymap (x : Z) (g : KbdG) : KbdG :=
  mk_KbdG x (key_counter g) (input_buf g) (cur g).
Definition set_key_counter (x : Z) (g : KbdG) : KbdG :=
  mk_KbdG (keymap g) x (input_buf g) (cur g).
Definition set_input_buf (x : gmap Z Z) (g : KbdG) : KbdG :=
  mk_KbdG (keymap g) (key_counter g) x (cur g).
Definition set_cur (x : Z) (g : KbdG) : KbdG :=
  mk_KbdG (keymap g) (key_counter g) (input_buf g) x.

Definition set_free_thread_list (x : Z) (g : ThrG) : ThrG :=
  mk_ThrG x (wait_thread_queue g) (block_thread_list g).
Definition set_wait_thread_queue (x : Z) (g : ThrG) : ThrG :=
  mk_ThrG (free_thread_list g) x (block_thread_list g).
Definition set_block_thread_list (x : Z) (g : ThrG) : ThrG :=
  mk_ThrG (free_thread_list g) (wait_thread_queue g) x.

Definition set_k_pcb (x : Z) (g : ProcG) : ProcG :=
  mk_ProcG x (free_proc_list g).
Definition set_free_proc_list (x : Z) (g : ProcG) : ProcG :=
  mk_ProcG (k_pcb g) x.

Definition set_mem (x : gmap Z Z) (s : kstate) : kstate :=
  mk_kstate x (cpu s) (io s) (alloc s) (page_state s) (intr s) (tss s) (con s) (timer s) (kbd s) (thr s) (proc s) (block_queue s) (kSuperBlock s).
Definition set_cpu (x : Cpu) (s : kstate) : kstate :=
  mk_kstate (mem s) x (io s) (alloc s) (page_state s) (intr s) (tss s) (con s) (timer s) (kbd s) (thr s) (proc s) (block_queue s) (kSuperBlock s).
Definition set_io (x : list IoEvent) (s : kstate) : kstate :=
  mk_kstate (mem s) (cpu s) x (alloc s) (page_state s) (intr s) (tss s) (con s) (timer s) (kbd s) (thr s) (proc s) (block_queue s) (kSuperBlock s).
Definition set_alloc (x : AllocG) (s : kstate) : kstate :=
  mk_kstate (mem s) (cpu s) (io s) x (page_state s) (intr s) (tss s) (con s) (timer s) (kbd s) (thr s) (proc s) (block_queue s) (kSuperBlock s).
Definition set_page_state (x : gmap Z Z) (s : kstate) : kstate :=
  mk_kstate (mem s) (cpu s) (io s) (alloc s) x (intr s) (tss s) (con s) (timer s) (kbd s) (thr s) (proc s) (block_queue s) (kSuperBlock s).
Definition set_intr (x : IntrG) (s : kstate) : kstate :=
  mk_kstate (mem s) (cpu s) (io s) (alloc s) (page_state s) x (tss s) (con s) (timer s) (kbd s) (thr s) (proc s) (block_queue s) (kSuperBlock s).
Definition set_tss (x : Z) (s : kstate) : kstate :=
  mk_kstate (mem s) (cpu s) (io s) (alloc s) (page_state s) (intr s) x (con s) (timer s) (kbd s) (thr s) (proc s) (block_queue s) (kSuperBlock s).
Definition set_con (x : ConG) (s : kstate) : kstate :=
  mk_kstate (mem s) (cpu s) (io s) (alloc s) (page_state s) (intr s) (tss s) x (timer s) (kbd s) (thr s) (proc s) (block_queue s) (kSuperBlock s).
Definition set_timer (x : Z) (s : kstate) : kstate :=
  mk_kstate (mem s) (cpu s) (io s) (alloc s) (page_state s) (intr s) (tss s) (con s) x (kbd s) (thr s) (proc s) (block_queue s) (kSuperBlock s).
Definition set_kbd (x : KbdG) (s : kstate) : kstate :=
  mk_kstate (mem s) (cpu s) (io s) (alloc s) (page_state s) (intr s) (tss s) (con s) (timer s) x (thr s) (proc s) (block_queue s) (kSuperBlock s).
Definition set_thr (x : ThrG) (s : kstate) : kstate :=
  mk_kstate (mem s) (cpu s) (io s) (alloc s) (page_state s) (intr s) (tss s) (con s) (timer s) (kbd s) x (proc s) (block_queue s) (kSuperBlock s).
Definition set_proc (x : ProcG) (s : kstate) : kstate :=
  mk_kstate (mem s) (cpu s) (io s) (alloc s) (page_state s) (intr s) (tss s) (con s) (timer s) (kbd s) (thr s) x (block_queue s) (kSuperBlock s).
Definition set_block_queue (x : Z) (s : kstate) : kstate :=
  mk_kstate (mem s) (cpu s) (io s) (alloc s) (page_state s) (intr s) (tss s) (con s) (timer s) (kbd s) (thr s) (proc s) x (kSuperBlock s).
Definition set_kSuperBlock (x : Z) (s : kstate) : kstate :=
  mk_kstate (mem s) (cpu s) (io s) (alloc s) (page_state s) (intr s) (tss s) (con s) (timer s) (kbd s) (thr s) (proc s) (block_queue s) x.

(** The kernel's code: state-passing over [kstate]. *)
Definition K (A : Type) : Type := M kstate A.

(** Memory accesses through a pointer. *)
Definition ld8 (a : Z) : K Z := gets (fun s => load8 (mem s) a).
Definition ld16 (a : Z) : K Z := gets (fun s => load16 (mem s) a).
Definition ld32 (a : Z) : K Z := gets (fun s => load32 (mem s) a).
Definition st8 (a v : Z) : K unit := modify (fun s => set_mem (store8 (mem s) a v) s).
Definition st16 (a v : Z) : K unit := modify (fun s => set_mem (store16 (mem s) a v) s).
Definition st32 (a v : Z) : K unit := modify (fun s => set_mem (store32 (mem s) a v) s).

(** [arr[i]] for a global array of pointers: an index outside the array is
    undefined behaviour. *)
Definition arr_get (f : kstate -> list Z) (i : Z) : K Z := fun s =>
  if i <? 0 then Crash
  else match f s !! Z.to_nat i with
       | Some v => Done (v, s)
       | None => Crash
       end.

(** A platform for evaluation: devices that always answer 0. *)
Definition null_platform : Platform := {|
  K_END := 1572864;
  intr_vec := fun i => 1048576 + 16 * i;
  GdtLimit_fn := 1050000;
  RunIde_fn := 1060000;
  ThreadSwitch_ret := 1070000;
  device := fun _ _ => 0;
|}.

Definition zero_cpu : Cpu :=
  mk_Cpu 0 0 0 0 0 0 0 0 0 0 0 0 0 0 0 0 0 0 0 0 0 (0, 0) (0, 0) 0.

(** The state at power-up of the model: memory and globals zero. *)
Definition zero_state : kstate :=
  mk_kstate ∅ zero_cpu [] (mk_AllocG 0 (replicate 26 0) (replicate 26 0)) ∅
    (mk_IntrG ∅ ∅) 0 (mk_ConG 0 0 0) 0 (mk_KbdG 0 0 ∅ 0) (mk_ThrG 0 0 0)
    (mk_ProcG 0 0) 0 0.

Lemma set_mem_mem s : set_mem (mem s) s = s.
Proof. by destruct s. Qed.

Lemma runs_ld32 a s : runs (ld32 a) s (load32 (mem s) a) s.
Proof. reflexivity. Qed.

Lemma runs_ld8 a s : runs (ld8 a) s (load8 (mem s) a) s.
Proof. reflexivity. Qed.

Lemma runs_st32 a v s : runs (st32 a v) s tt (set_mem (store32 (mem s) a v) s).
Proof. reflexivity. Qed.

Lemma runs_st8 a v s : runs (st8 a v) s tt (set_mem (store8 (mem s) a v) s).
Proof. reflexivity. Qed.

Lemma runs_arr_get f i s v :
  0 <= i -> f s !! Z.to_nat i = Some v -> runs (arr_get f i) s v s.
Proof.
  intros Hi Hv. unfold runs, arr_get. rewrite Hv.
  destruct (Z.ltb_spec i 0); [lia|done].
Qed.

#[export] Hint Resolve runs_ld32 runs_ld8 runs_st32 runs_st8 : xy.
