(* ===== verification/Bits.v ===== *)
(** * Bit operations: lib/bit.h and lib/bitmap.h

    Single bits of an [int] and bitmaps kept in arrays of [unsigned int]. A bitmap is
    a finite map from word index to word; an absent word is 0, as in a C array of
    static storage. *)

From Stdlib Require Import ZArith Lia ZifyBool.
From stdpp Require Import base numbers gmap list.
From S2P Require Import Prelude.

(** ** lib/bit.h *)

Definition IsBitSet (data i : Z) : bool :=
  negb (Z.land (u32 data) (shl32 1 i) =? 0).

Definition SetBit (data i : Z) : Z := i32 (Z.lor (u32 data) (shl32 1 i)).

Definition ClearBit (data i : Z) : Z := i32 (Z.land (u32 data) (not32 (shl32 1 i))).

(** ** lib/bitmap.h *)

Definition not64 (x : Z) : Z := Z.lnot x mod 2 ^ 64.

Definition bm_get (bitmap : gmap Z Z) (k : Z) : Z := u32 (default 0 (bitmap !! k)).

(** [Bitmap(bitmap, arr_size, state)]: the loop over the words, [n] of them left. *)
Fixpoint Bitmap_from (n : nat) (i : Z) (bitmap : gmap Z Z) (state : bool) : gmap Z Z :=
  match n with
  | O => bitmap
  | S n' =>
      let bitmap := <[i := 0]> bitmap in
      let bitmap := if state then <[i := not32 (bm_get bitmap i)]> bitmap else bitmap in
      Bitmap_from n' (i + 1) bitmap state
  end.

Definition Bitmap (bitmap : gmap Z Z) (arr_size : Z) (state : bool) : gmap Z Z :=
  Bitmap_from (Z.to_nat arr_size) 0 bitmap state.

Definition SetBitmap (bitmap : gmap Z Z) (i : Z) : gmap Z Z :=
  let arr_i := u32 i / (4 * 8) in
  let i := u32 i mod 4 in
  <[arr_i := u32 (Z.lor (bm_get bitmap arr_i) (Z.shiftl 1 i))]> bitmap.

Definition ClearBitmap (bitmap : gmap Z Z) (i : Z) : gmap Z Z :=
  let arr_i := u32 i / (4 * 8) in
  let i := u32 i mod 4 in
  <[arr_i := u32 (Z.land (bm_get bitmap arr_i) (not64 (Z.shiftl 1 i)))]> bitmap.

Definition IsBitmapSet (bitmap : gmap Z Z) (i : Z) : bool :=
  let arr_i := u32 i / (4 * 8) in
  let i := u32 i mod 4 in
  negb (Z.land (bm_get bitmap arr_i) (Z.shiftl 1 i) =? 0).

(** The bit an index really denotes: the word is chosen by [i / 32] but the bit in
    it by [i % 4]. Two indices share a bit exactly when they have the same slot. *)
Definition same_slot (i j : Z) : bool :=
  (u32 i / 32 =? u32 j / 32) && (u32 i mod 4 =? u32 j mod 4).

(** ** Lemmas *)

Lemma land_pow2_eqb x k : 0 <= k -> (Z.land x (2 ^ k) =? 0) = negb (Z.testbit x k).
Proof.
  intros Hk. destruct (Z.testbit x k) eqn:E; cbn.
  - apply Z.eqb_neq. intros H. apply (f_equal (fun z => Z.testbit z k)) in H.
    rewrite Z.land_spec, E, Z.pow2_bits_true, Z.testbit_0_l in H by done. done.
  - apply Z.eqb_eq. apply Z.bits_inj_0. intros n. rewrite Z.land_spec.
    destruct (Z.eq_dec k n) as [->|Hn]; [by rewrite E|].
    rewrite Z.pow2_bits_false by done. apply andb_false_r.
Qed.

Lemma testbit_above x n k : 0 <= x < 2 ^ n -> 0 <= n <= k -> Z.testbit x k = false.
Proof.
  intros Hx Hk. destruct (Z.eq_dec x 0) as [->|]; [apply Z.bits_0|].
  apply Z.bits_above_log2; [lia|]. apply Z.lt_le_trans with n; [|lia]. apply Z.log2_lt_pow2; lia.
Qed.

(** Disjoint fields: or is addition. *)
Lemma lor_shiftl lo hi n : 0 <= lo < 2 ^ n -> 0 <= n -> Z.lor lo (Z.shiftl hi n) = lo + 2 ^ n * hi.
Proof.
  intros Hlo Hn. rewrite Z.shiftl_mul_pow2 by lia.
  assert (Z.land lo (hi * 2 ^ n) = 0) as E; [|pose proof (Z.add_lor_land lo (hi * 2 ^ n)); lia].
  apply Z.bits_inj'. intros k Hk. rewrite Z.land_spec, Z.bits_0. destruct (Z.lt_ge_cases k n).
  - rewrite Z.mul_pow2_bits_low by lia. apply andb_false_r.
  - by rewrite (testbit_above lo n) by lia.
Qed.

Lemma testbit_u32 x k : Z.testbit (u32 x) k = Z.testbit x k && (k <? 32).
Proof.
  unfold u32. change W32 with (2 ^ 32).
  destruct (Z.ltb_spec k 32) as [H|H].
  - destruct (Z.lt_ge_cases k 0); [by rewrite !Z.testbit_neg_r by lia|].
    rewrite Z.mod_pow2_bits_low by lia. by rewrite andb_true_r.
  - rewrite Z.mod_pow2_bits_high by lia. by rewrite andb_false_r.
Qed.

Lemma testbit_not32 x k :
  0 <= k < 32 -> Z.testbit (not32 x) k = negb (Z.testbit x k).
Proof.
  intros. unfold not32. rewrite testbit_u32, Z.lnot_spec by lia.
  destruct (Z.ltb_spec k 32); [|lia]. by rewrite andb_true_r.
Qed.

Lemma IsBitSet_testbit d i : 0 <= i < 32 -> IsBitSet d i = Z.testbit (u32 d) i.
Proof.
  intros. unfold IsBitSet. rewrite shl32_1, land_pow2_eqb by lia.
  apply negb_involutive.
Qed.

Lemma IsBitSet_SetBit d i j :
  0 <= i < 32 -> 0 <= j < 32 ->
  IsBitSet (SetBit d i) j = (i =? j) || IsBitSet d j.
Proof.
  intros. rewrite !IsBitSet_testbit by lia. unfold SetBit.
  rewrite u32_i32, testbit_u32, Z.lor_spec, shl32_1, Z.pow2_bits_eqb by lia.
  destruct (Z.ltb_spec j 32); [|lia]. rewrite andb_true_r. apply orb_comm.
Qed.

Lemma IsBitSet_ClearBit d i j :
  0 <= i < 32 -> 0 <= j < 32 ->
  IsBitSet (ClearBit d i) j = negb (i =? j) && IsBitSet d j.
Proof.
  intros. rewrite !IsBitSet_testbit by lia. unfold ClearBit.
  rewrite u32_i32, testbit_u32, Z.land_spec, testbit_not32, shl32_1,
    Z.pow2_bits_eqb by lia.
  destruct (Z.ltb_spec j 32); [|lia]. rewrite andb_true_r. apply andb_comm.
Qed.

Lemma bm_get_insert bm k l w :
  bm_get (<[k := w]> bm) l = if k =? l then u32 w else bm_get bm l.
Proof.
  unfold bm_get. destruct (Z.eqb_spec k l) as [->|H].
  - by rewrite lookup_insert_eq.
  - by rewrite lookup_insert_ne.
Qed.

Lemma IsBitmapSet_testbit bm i :
  IsBitmapSet bm i = Z.testbit (bm_get bm (u32 i / 32)) (u32 i mod 4).
Proof.
  unfold IsBitmapSet. change (4 * 8) with 32. rewrite Z.shiftl_1_l.
  pose proof (Z.mod_pos_bound (u32 i) 4).
  rewrite land_pow2_eqb by lia. apply negb_involutive.
Qed.

Lemma IsBitmapSet_SetBitmap bm i j :
  IsBitmapSet (SetBitmap bm i) j = same_slot i j || IsBitmapSet bm j.
Proof.
  rewrite !IsBitmapSet_testbit. unfold SetBitmap, same_slot. change (4 * 8) with 32.
  pose proof (Z.mod_pos_bound (u32 i) 4). pose proof (Z.mod_pos_bound (u32 j) 4).
  rewrite bm_get_insert. destruct (Z.eqb_spec (u32 i / 32) (u32 j / 32)) as [->|]; [|done].
  rewrite !testbit_u32, Z.lor_spec, Z.shiftl_1_l, Z.pow2_bits_eqb by lia.
  destruct (Z.ltb_spec (u32 j mod 4) 32); [|lia]. rewrite !andb_true_r.
  cbn. apply orb_comm.
Qed.

Lemma IsBitmapSet_ClearBitmap bm i j :
  IsBitmapSet (ClearBitmap bm i) j = negb (same_slot i j) && IsBitmapSet bm j.
Proof.
  rewrite !IsBitmapSet_testbit. unfold ClearBitmap, same_slot. change (4 * 8) with 32.
  pose proof (Z.mod_pos_bound (u32 i) 4). pose proof (Z.mod_pos_bound (u32 j) 4).
  rewrite bm_get_insert. destruct (Z.eqb_spec (u32 i / 32) (u32 j / 32)) as [->|]; [|done].
  rewrite !testbit_u32, Z.land_spec. unfold not64.
  rewrite Z.mod_pow2_bits_low, Z.lnot_spec, Z.shiftl_1_l, Z.pow2_bits_eqb by lia.
  destruct (Z.ltb_spec (u32 j mod 4) 32); [|lia]. rewrite !andb_true_r.
  cbn. apply andb_comm.
Qed.

Lemma same_slot_refl i : same_slot i i = true.
Proof. unfold same_slot. by rewrite !Z.eqb_refl. Qed.

Lemma same_slot_spec i j :
  0 <= i < W32 -> 0 <= j < W32 ->
  same_slot i j = true <-> i / 32 = j / 32 /\ i mod 4 = j mod 4.
Proof.
  intros. unfold same_slot. rewrite andb_true_iff, !Z.eqb_eq, !u32_small by lia. done.
Qed.

(** Every word an index below [32 * n] touches is inside an array of [n] words. *)
Lemma slot_in_bounds i n : 0 <= i < 32 * n -> 32 * n <= W32 -> 0 <= u32 i / 32 < n.
Proof.
  intros. rewrite u32_small by lia. split; [apply Z.div_pos; lia|].
  apply Z.div_lt_upper_bound; lia.
Qed.

Lemma bm_get_Bitmap_from n i bm st k :
  0 <= k ->
  bm_get (Bitmap_from n i bm st) k =
    if (i <=? k) && (k <? i + Z.of_nat n) then (if st then W32 - 1 else 0) else bm_get bm k.
Proof.
  revert i bm; induction n as [|n IH]; intros i bm Hk; cbn [Bitmap_from].
  - destruct (Z.leb_spec i k), (Z.ltb_spec k (i + Z.of_nat 0)); cbn; done || lia.
  - rewrite IH by done.
    destruct (Z.eq_dec i k) as [->|Hne].
    + assert ((k <=? k) && (k <? k + Z.of_nat (S n)) = true) as -> by lia.
      assert ((k + 1 <=? k) && (k <? k + 1 + Z.of_nat n) = false) as -> by lia.
      destruct st; rewrite !bm_get_insert, ?Z.eqb_refl; done.
    + assert ((i <=? k) && (k <? i + Z.of_nat (S n)) =
              (i + 1 <=? k) && (k <? i + 1 + Z.of_nat n)) as -> by lia.
      destruct (_ && _); [done|].
      destruct st; rewrite !bm_get_insert; rewrite (proj2 (Z.eqb_neq i k)); done.
Qed.

Lemma IsBitmapSet_Bitmap bm n st i :
  0 <= i < 32 * n -> 32 * n <= W32 -> IsBitmapSet (Bitmap bm n st) i = st.
Proof.
  intros Hi Hn. rewrite IsBitmapSet_testbit. unfold Bitmap.
  pose proof (slot_in_bounds i n Hi Hn). pose proof (Z.mod_pos_bound (u32 i) 4).
  rewrite bm_get_Bitmap_from by lia. rewrite Z2Nat.id by lia.
  assert ((0 <=? u32 i / 32) && (u32 i / 32 <? 0 + n) = true) as -> by lia.
  destruct st; [|apply Z.testbit_0_l].
  change (W32 - 1) with (Z.ones 32). rewrite Z.ones_spec_low by lia. done.
Qed.

(** ** Properties *)

(** On the 32 bits of an [int], [SetBit] and [ClearBit] change exactly the bit
    they name: [IsBitSet] reads 1, respectively 0, there and the old value at every
    other position. *)
Theorem bit_set_clear (d i j : Z) :
  0 <= i < 32 -> 0 <= j < 32 ->
  IsBitSet (SetBit d i) j = (i =? j) || IsBitSet d j /\
  IsBitSet (ClearBit d i) j = negb (i =? j) && IsBitSet d j.
Proof. split; [by apply IsBitSet_SetBit | by apply IsBitSet_ClearBit]. Qed.

Lemma bit_set_clear_witness :
  IsBitSet (SetBit (-8) 1) 31 = (1 =? 31) || IsBitSet (-8) 31 /\
  IsBitSet (ClearBit (-8) 31) 31 = negb (31 =? 31) && IsBitSet (-8) 31.
Proof.
  split.
  - exact (proj1 (bit_set_clear (-8) 1 31 ltac:(lia) ltac:(lia))).
  - exact (proj2 (bit_set_clear (-8) 31 31 ltac:(lia) ltac:(lia))).
Defined.

(** The bitmap operations act on slots. Setting or clearing index [i] changes
    what [IsBitmapSet] reports for [j] exactly when [j] has the same word and the same
    remainder modulo 4, and nothing else. *)
Theorem bitmap_set_clear (bm : gmap Z Z) (i j : Z) :
  IsBitmapSet (SetBitmap bm i) j = same_slot i j || IsBitmapSet bm j /\
  IsBitmapSet (ClearBitmap bm i) j = negb (same_slot i j) && IsBitmapSet bm j.
Proof. split; [apply IsBitmapSet_SetBitmap | apply IsBitmapSet_ClearBitmap]. Qed.

(** Distinct bits collide. [SetBitmap] selects the bit with [i % sizeof(unsigned)]
    instead of [i % 32], so setting any index also sets the index 4 further on in
    the same word, whatever it was before. *)
Theorem bitmap_alias (bm : gmap Z Z) (i : Z) :
  0 <= i < W32 - 4 -> i mod 32 < 28 ->
  IsBitmapSet (SetBitmap bm i) (i + 4) = true.
Proof.
  intros Hi Hm. rewrite IsBitmapSet_SetBitmap.
  assert (same_slot i (i + 4) = true) as ->; [|done].
  apply same_slot_spec; [lia|lia|]. split.
  - pose proof (Z.mod_pos_bound i 32). pose proof (Z.div_mod i 32 ltac:(lia)).
    apply (Z.div_unique_pos _ _ _ (i mod 32 + 4)); lia.
  - replace (i + 4) with (i + 1 * 4) by lia. by rewrite Z.mod_add.
Qed.

Lemma bitmap_alias_witness :
  IsBitmapSet ∅ (10 + 4) = false /\ IsBitmapSet (SetBitmap ∅ 10) (10 + 4) = true.
Proof. split; [reflexivity | apply (bitmap_alias ∅ 10); [lia | reflexivity]]. Defined.
