(* ===== verification/AsmWrapper.v ===== *)
(** * lib/asm_wrapper.c, lib/asm_wrapper.h: the wrappers of inline assembly

    Port accesses extend the history [io]; a read returns what the platform's
    [device] answers to that history. Control, segment and flag registers are fields
    of [cpu]. *)

From Stdlib Require Import ZArith Lia ZifyBool.
From stdpp Require Import base numbers gmap list.
From S2P Require Import Prelude Memory Machine Bits.

Section AsmWrapper.
Context `{Platform}.

Definition inb (port : Z) : K Z := fun s =>
  let data := u8 (device (io s) (u16 port)) in
  Done (data, set_io (Inb (u16 port) data :: io s) s).

Definition outb (port data : Z) : K unit :=
  modify (fun s => set_io (Outb (u16 port) (u8 data) :: io s) s).

(** [repne; insl]: [word_num] 32-bit words from [port] to [addr] upwards. *)
Definition insl (port addr word_num : Z) : K unit :=
  for_ (Z.to_nat word_num) 0 (fun i s =>
    let w := u32 (device (io s) (u16 port)) in
    Done (tt, set_mem (store32 (mem s) (addr + 4 * i) w)
                (set_io (Inl (u16 port) w :: io s) s))).

(** [repne; outsl] *)
Definition outsl (port addr word_num : Z) : K unit :=
  for_ (Z.to_nat word_num) 0 (fun i =>
    w <- ld32 (addr + 4 * i) ;;
    modify (fun s => set_io (Outl (u16 port) w :: io s) s)).

Definition get_cr (cr_no : Z) : K Z := gets (fun s =>
  match cr_no with
  | 0 => cr0 (cpu s)
  | 1 => cr1 (cpu s)
  | 2 => cr2 (cpu s)
  | 3 => cr3 (cpu s)
  | 4 => cr4 (cpu s)
  | _ => 0
  end).

(** The [mov %crN, %eax; op mem, %eax; mov %eax, %crN] sequences. *)
Definition update_cr (cr_no : Z) (f : Z -> Z) (c : Cpu) : Cpu :=
  match cr_no with
  | 0 => set_cr0 (f (cr0 c)) c
  | 1 => set_cr1 (f (cr1 c)) c
  | 2 => set_cr2 (f (cr2 c)) c
  | 3 => set_cr3 (f (cr3 c)) c
  | 4 => set_cr4 (f (cr4 c)) c
  | _ => c
  end.

Definition set_cr (cr_no i : Z) : K unit :=
  let cr := shl32 1 i in
  modify (fun s => set_cpu (update_cr cr_no (fun x => Z.lor x cr) (cpu s)) s).

Definition clear_cr (cr_no i : Z) : K unit :=
  let cr := not32 (shl32 1 i) in
  modify (fun s => set_cpu (update_cr cr_no (fun x => Z.land x cr) (cpu s)) s).

Definition get_eflags : K Z := gets (fun s => eflags (cpu s)).

(** [c] is the character code: 'c' 'd' 'e' 'f' 'g' 's'. *)
Definition get_seg_reg (c : Z) : K Z := gets (fun s =>
  match c with
  | 99 => cs (cpu s)
  | 100 => ds (cpu s)
  | 101 => es (cpu s)
  | 102 => fs (cpu s)
  | 103 => gs (cpu s)
  | 115 => ss (cpu s)
  | _ => 0
  end).

Definition get_esp : K Z := gets (fun s => esp (cpu s)).

(** [sti] and [cli]: the interrupt flag is bit 9 of EFLAGS. *)
Definition intr_enable : K unit :=
  modify (fun s => set_cpu (set_eflags (Z.lor (eflags (cpu s)) (2 ^ 9)) (cpu s)) s).

Definition intr_disable : K unit :=
  modify (fun s => set_cpu (set_eflags (Z.land (eflags (cpu s)) (not32 (2 ^ 9))) (cpu s)) s).

(** The value of control register [cr_no]. *)
Definition cr_val (cr_no : Z) (s : kstate) : Z :=
  match get_cr cr_no s with Done (v, _) => v | _ => 0 end.

Lemma cr_val_update n k f s :
  0 <= n <= 4 -> 0 <= k <= 4 ->
  cr_val n (set_cpu (update_cr k f (cpu s)) s) =
    if k =? n then f (cr_val n s) else cr_val n s.
Proof.
  intros Hn Hk.
  assert (n = 0 \/ n = 1 \/ n = 2 \/ n = 3 \/ n = 4) as Cn by lia.
  assert (k = 0 \/ k = 1 \/ k = 2 \/ k = 3 \/ k = 4) as Ck by lia.
  destruct Cn as [->|[->|[->|[->| ->]]]], Ck as [->|[->|[->|[->| ->]]]]; reflexivity.
Qed.

(** [set_cr(k, i)] and [clear_cr(k, i)] set and clear exactly bit [i] of
    control register [k]: the other bits of it and the other control registers keep
    their values, and nothing but the processor state changes. *)
Theorem cr_set_clear (k i n j : Z) (s : kstate) :
  0 <= k <= 4 -> 0 <= n <= 4 -> 0 <= i < 32 -> 0 <= j < 32 ->
  exists c1 c2,
    runs (set_cr k i) s tt (set_cpu c1 s) /\
    runs (clear_cr k i) s tt (set_cpu c2 s) /\
    Z.testbit (cr_val n (set_cpu c1 s)) j =
      ((k =? n) && (i =? j)) || Z.testbit (cr_val n s) j /\
    Z.testbit (cr_val n (set_cpu c2 s)) j =
      negb ((k =? n) && (i =? j)) && Z.testbit (cr_val n s) j.
Proof.
  intros Hk Hn Hi Hj. do 2 eexists. split; [reflexivity|]. split; [reflexivity|].
  rewrite !cr_val_update by lia. destruct (k =? n); cbn [andb orb negb]; [|done].
  rewrite Z.lor_spec, Z.land_spec, testbit_not32, shl32_1, Z.pow2_bits_eqb by lia.
  split; [apply orb_comm | apply andb_comm].
Qed.

(** Data written to one port is the newest event the devices see. *)
Lemma runs_outb port data s :
  runs (outb port data) s tt (set_io (Outb (u16 port) (u8 data) :: io s) s).
Proof. reflexivity. Qed.

Lemma runs_inb port s :
  runs (inb port) s (u8 (device (io s) (u16 port)))
    (set_io (Inb (u16 port) (u8 (device (io s) (u16 port))) :: io s) s).
Proof. reflexivity. Qed.

End AsmWrapper.

#[export] Hint Resolve runs_outb runs_inb : xy.

Lemma cr_set_clear_witness :
  exists c1 c2,
    runs (set_cr 0 31) zero_state tt (set_cpu c1 zero_state) /\
    runs (clear_cr 0 31) zero_state tt (set_cpu c2 zero_state) /\
    Z.testbit (cr_val 0 (set_cpu c1 zero_state)) 31 =
      ((0 =? 0) && (31 =? 31)) || Z.testbit (cr_val 0 zero_state) 31 /\
    Z.testbit (cr_val 0 (set_cpu c2 zero_state)) 31 =
      negb ((0 =? 0) && (31 =? 31)) && Z.testbit (cr_val 0 zero_state) 31.
Proof. apply (cr_set_clear 0 31 0 31 zero_state); lia. Defined.
