(* ===== verification/Lists.v ===== *)
(** * lib/list.h: intrusive circular lists

    [ListNode] is one pointer, [next]; [DoublyListNode] is [prev] at offset 0 and
    [next] at offset 4. The list functions are translated as they are, on memory.
    The abstract view is a list of node addresses: [circ nx h xs] says that from the
    head [h] the successor function [nx] runs through [xs] and back to [h]. The
    constructors [List] and [DoublyList] and the destructors use the allocator and are
    in Queues.v. *)

From Stdlib Require Import ZArith Lia ZifyBool.
From stdpp Require Import base numbers gmap list.
From S2P Require Import Prelude Memory Machine.

(** ** The code *)

Definition ListAdd (prev new_node : Z) : K unit :=
  next <- ld32 prev ;;
  st32 prev new_node ;;;
  st32 new_node next.

Definition ListRemove (prev : Z) : K Z :=
  del <- ld32 prev ;;
  dnext <- ld32 del ;;
  st32 prev dnext ;;;
  st32 del 0 ;;;
  ret del.

Definition IsListEmpty (head : Z) : K bool :=
  next <- ld32 head ;;
  ret (next =? head).

Definition DoublyListAdd (prev new_node : Z) : K unit :=
  next <- ld32 (prev + 4) ;;
  st32 (prev + 4) new_node ;;;
  st32 new_node prev ;;;
  st32 (new_node + 4) next ;;;
  st32 next new_node.

Definition DoublyListRemove (node : Z) : K Z :=
  p <- ld32 node ;;
  n <- ld32 (node + 4) ;;
  st32 (p + 4) n ;;;
  n' <- ld32 (node + 4) ;;
  p' <- ld32 node ;;
  st32 n' p' ;;;
  st32 node 0 ;;;
  st32 (node + 4) 0 ;;;
  ret node.

Definition IsDoublyListEmpty (head : Z) : K bool :=
  next <- ld32 (head + 4) ;;
  ret (next =? head).

(** [GET_STRUCT(ptr, type, member)]: [ptr] minus the member's offset. *)
Definition GET_STRUCT (ptr off : Z) : Z := u32 (ptr - off).

(** ** Circular chains of a successor function *)

Fixpoint tail_of (h : Z) (xs : list Z) : Z :=
  match xs with
  | [] => h
  | x :: xs' => tail_of x xs'
  end.

Fixpoint path (nx : Z -> Z) (a : Z) (xs : list Z) : Prop :=
  match xs with
  | [] => True
  | x :: xs' => nx a = x /\ path nx x xs'
  end.

Definition circ (nx : Z -> Z) (h : Z) (xs : list Z) : Prop :=
  path nx h xs /\ nx (tail_of h xs) = h.

Lemma tail_of_app h xs ys : tail_of h (xs ++ ys) = tail_of (tail_of h xs) ys.
Proof. revert h; induction xs; intros h; cbn; auto. Qed.

Lemma tail_of_in h xs : tail_of h xs ∈ h :: xs.
Proof.
  revert h; induction xs as [|x xs IH]; intros h; cbn; [set_solver|].
  specialize (IH x). set_solver.
Qed.

Lemma path_app nx a xs ys :
  path nx a (xs ++ ys) <-> path nx a xs /\ path nx (tail_of a xs) ys.
Proof. revert a; induction xs as [|x xs IH]; intros a; cbn; [tauto|]. rewrite IH. tauto. Qed.

(** A path is unaffected by a change of the successor of its last node. *)
Lemma path_frame nx nx' a xs :
  NoDup (a :: xs) ->
  (forall q, q ∈ a :: xs -> q <> tail_of a xs -> nx' q = nx q) ->
  path nx a xs -> path nx' a xs.
Proof.
  revert a; induction xs as [|x xs IH]; intros a Hnd Hq; [done|].
  intros [H1 H2]. apply NoDup_cons in Hnd as [Ha Hnd]. split.
  - rewrite Hq; [done|set_solver|]. cbn. intros E. apply Ha. rewrite E. apply tail_of_in.
  - apply IH; [done| |done]. intros q Hin Hne. apply Hq; [set_solver|done].
Qed.

Lemma circ_frame nx nx' h xs :
  (forall q, q ∈ h :: xs -> nx' q = nx q) -> circ nx h xs -> circ nx' h xs.
Proof.
  intros Hq [Hp Ht]. split; [|by rewrite Hq; [|apply tail_of_in]].
  clear Ht. revert h Hq Hp. induction xs as [|x xs IH]; intros h Hq; [done|].
  intros [H1 H2]. split; [rewrite Hq; set_solver|]. apply IH; [|done]. set_solver.
Qed.

Lemma circ_nil nx h : circ nx h [] <-> nx h = h.
Proof. unfold circ. cbn. tauto. Qed.

Lemma circ_head nx h x xs : circ nx h (x :: xs) -> nx h = x.
Proof. by intros [[H _] _]. Qed.

(** The successor of the last node of a prefix is the next element. *)
Lemma circ_next nx h pre x post :
  circ nx h (pre ++ x :: post) -> nx (tail_of h pre) = x.
Proof. intros [Hp _]. apply path_app in Hp as [_ [H _]]. done. Qed.

Lemma circ_next_end nx h xs : circ nx h xs -> nx (tail_of h xs) = h.
Proof. by intros [_ H]. Qed.

Lemma tail_in_prefix h pre post : tail_of h pre ∈ h :: pre ++ post.
Proof. pose proof (tail_of_in h pre). set_solver. Qed.

Lemma tail_not_in_suffix h pre post :
  NoDup (h :: pre ++ post) -> tail_of h pre ∉ post.
Proof.
  intros Hnd Hin. change (h :: pre ++ post) with ((h :: pre) ++ post) in Hnd.
  apply NoDup_app in Hnd as (_ & Hd & _). exact (Hd _ (tail_of_in h pre) Hin).
Qed.

Lemma NoDup_mid (h : Z) pre x post :
  NoDup (h :: pre ++ x :: post) <-> x ∉ h :: pre ++ post /\ NoDup (h :: pre ++ post).
Proof.
  rewrite <- NoDup_cons. apply NoDup_Permutation_proper. solve_Permutation.
Qed.

Lemma circ_insert nx nx' h pre post new :
  NoDup (h :: pre ++ post) -> new ∉ h :: pre ++ post ->
  circ nx h (pre ++ post) ->
  nx' (tail_of h pre) = new -> nx' new = nx (tail_of h pre) ->
  (forall q, q ∈ h :: pre ++ post -> q <> tail_of h pre -> nx' q = nx q) ->
  circ nx' h (pre ++ new :: post).
Proof.
  intros Hnd Hnew [Hp Ht] Hpn Hnn Hq. apply path_app in Hp as [Hp1 Hp2].
  pose proof (tail_not_in_suffix _ _ _ Hnd) as Hts.
  assert (NoDup (h :: pre)) as Hnd1.
  { apply (NoDup_app (h :: pre) post) in Hnd. tauto. }
  assert (path nx' h pre) as Hp1'.
  { apply (path_frame nx); [done| |done]. intros q Hin. apply Hq. set_solver. }
  split.
  - apply path_app. split; [done|]. cbn. split; [done|].
    destruct post as [|y ys]; [done|]. destruct Hp2 as [Hy Hys]. cbn.
    split; [by rewrite Hnn|]. apply (path_frame nx); [| |done].
    + apply (NoDup_app (h :: pre) (y :: ys)) in Hnd. tauto.
    + intros q Hin _. apply Hq; set_solver.
  - rewrite tail_of_app. cbn. rewrite tail_of_app in Ht.
    destruct post as [|y ys]; cbn in Ht |- *; [by rewrite Hnn|].
    pose proof (tail_of_in y ys) as Hy. rewrite Hq; [done|set_solver|].
    intros E. apply Hts. rewrite <- E. set_solver.
Qed.

Lemma circ_delete nx nx' h pre x post :
  NoDup (h :: pre ++ x :: post) ->
  circ nx h (pre ++ x :: post) ->
  nx' (tail_of h pre) = nx x ->
  (forall q, q ∈ h :: pre ++ post -> q <> tail_of h pre -> nx' q = nx q) ->
  circ nx' h (pre ++ post).
Proof.
  intros Hnd [Hp Ht] Hpn Hq. apply path_app in Hp as [Hp1 [Hx Hp2]].
  pose proof (tail_not_in_suffix _ _ _ Hnd) as Hts.
  apply (NoDup_app (h :: pre) (x :: post)) in Hnd as (Hnd1 & Hd & Hnd2).
  assert (path nx' h pre) as Hp1'.
  { apply (path_frame nx); [done| |done]. intros q Hin. apply Hq. set_solver. }
  rewrite tail_of_app in Ht. cbn in Ht. split.
  - apply path_app. split; [done|]. destruct post as [|y ys]; [done|].
    destruct Hp2 as [Hy Hys]. split; [by rewrite Hpn|].
    apply (path_frame nx); [| |done].
    + by apply NoDup_cons in Hnd2 as [_ ?].
    + intros q Hin _. apply Hq; set_solver.
  - rewrite tail_of_app. destruct post as [|y ys]; cbn in Ht |- *; [by rewrite Hpn|].
    pose proof (tail_of_in y ys) as Hy. rewrite Hq; [done|set_solver|].
    intros E. apply Hts. rewrite <- E. set_solver.
Qed.

(** ** Lists in memory *)

(** Nodes of [sz] bytes in kernel memory that do not overlap. *)
Definition nodes_ok (sz : Z) (l : list Z) : Prop :=
  NoDup l /\ Forall (fun a => kspan a sz) l /\
  (forall x y, x ∈ l -> y ∈ l -> x <> y -> apart x sz y sz).

(** [clist m h xs]: memory [m] holds a circular list with head [h] and nodes [xs]. *)
Definition clist (m : gmap Z Z) (h : Z) (xs : list Z) : Prop :=
  circ (load32 m) h xs /\ nodes_ok 4 (h :: xs).

(** [dclist m h xs]: a doubly linked circular list; the [prev] chain runs backwards. *)
Definition dclist (m : gmap Z Z) (h : Z) (xs : list Z) : Prop :=
  circ (fun a => load32 m (a + 4)) h xs /\ circ (load32 m) h (rev xs) /\
  nodes_ok 8 (h :: xs).

Lemma nodes_ok_kspan sz l a : nodes_ok sz l -> a ∈ l -> kspan a sz.
Proof. intros (_ & H & _) Ha. rewrite Forall_forall in H. auto. Qed.

Lemma nodes_ok_u32 sz l a : 0 < sz -> nodes_ok sz l -> a ∈ l -> u32 a = a.
Proof.
  intros Hs H Ha. apply (nodes_ok_kspan _ _ _ H) in Ha. unfold kspan in Ha.
  apply u32_small. lia.
Qed.

Lemma nodes_ok_perm sz l l' : l ≡ₚ l' -> nodes_ok sz l -> nodes_ok sz l'.
Proof.
  intros Hp (H1 & H2 & H3). split_and!; [by rewrite <- Hp..|].
  intros x y Hx Hy. apply H3; by rewrite Hp.
Qed.

Lemma nodes_ok_sub sz l l' :
  nodes_ok sz l -> NoDup l' -> (forall x, x ∈ l' -> x ∈ l) -> nodes_ok sz l'.
Proof.
  intros (H1 & H2 & H3) Hnd Hin. rewrite Forall_forall in H2.
  split_and!; [done| |auto]. rewrite Forall_forall. auto.
Qed.

(** A word that [nodes_ok] keeps apart from the others is unaffected by writes there. *)
Lemma load32_frame ws m m' q l :
  same_except ws m m' -> nodes_ok 4 l -> (forall w, w ∈ ws -> w ∈ l) ->
  q ∈ l -> q ∉ ws -> load32 m' q = load32 m q.
Proof.
  intros Hse Hok Hws Hq Hn. eapply same_except_load32; [done| |].
  - by eapply nodes_ok_kspan.
  - rewrite Forall_forall. intros w Hw. apply Hok; auto. intros ->. done.
Qed.

Lemma clist_frame ws m m' h xs l :
  same_except ws m m' -> nodes_ok 4 l -> (forall w, w ∈ ws -> w ∈ l) ->
  (forall q, q ∈ h :: xs -> q ∈ l /\ q ∉ ws) ->
  clist m h xs -> clist m' h xs.
Proof.
  intros Hse Hok Hws Hq [Hc Hn]. split; [|done].
  apply (circ_frame (load32 m)); [|done]. intros q Hin.
  destruct (Hq q Hin) as [Hl Hn']. exact (load32_frame ws m m' q l Hse Hok Hws Hl Hn').
Qed.

Lemma ListAdd_runs p n s :
  exists m', runs (ListAdd p n) s tt (set_mem m' s) /\
    m' = store32 (store32 (mem s) p n) n (load32 (mem s) p).
Proof. eexists. split; reflexivity. Qed.

(** [ListAdd] inserts the new node after the given one. *)
Lemma ListAdd_spec s h pre post new :
  clist (mem s) h (pre ++ post) -> nodes_ok 4 (new :: h :: pre ++ post) ->
  exists m', runs (ListAdd (tail_of h pre) new) s tt (set_mem m' s) /\
    clist m' h (pre ++ new :: post) /\ same_except [tail_of h pre; new] (mem s) m'.
Proof.
  intros [Hc Hn] Hok. set (p := tail_of h pre) in *.
  destruct (ListAdd_runs p new s) as (m' & Hr & Hm'). exists m'. split; [done|].
  assert (p ∈ h :: pre ++ post) as Hp by apply tail_in_prefix.
  assert (new ∉ h :: pre ++ post) as Hnew by (apply NoDup_cons, Hok).
  assert (kspan p 4 /\ kspan new 4) as [Hpk Hnk].
  { split; eapply nodes_ok_kspan; set_solver. }
  assert (apart p 4 new 4) as Hap by (apply Hok; set_solver).
  assert (same_except [p; new] (mem s) m') as Hse.
  { subst m'. apply (same_except_trans [p] [new] _ (store32 (mem s) p new));
      auto with xy. }
  split; [|done]. split.
  - apply (circ_insert (load32 (mem s))); [apply Hn|done|done| | |].
    + fold p. subst m'. rewrite load32_store32_ne; [|done|done|by apply apart_sym].
      rewrite load32_store32_same by done. eapply (nodes_ok_u32 4); [lia|done|set_solver].
    + fold p. subst m'. rewrite load32_store32_same by done. apply u32_load32.
    + intros q Hq Hne. eapply load32_frame; [done|done|set_solver|set_solver|].
      fold p in Hne. set_solver.
  - eapply nodes_ok_perm; [|done]. solve_Permutation.
Qed.

Lemma ListRemove_runs p s :
  exists m', runs (ListRemove p) s (load32 (mem s) p) (set_mem m' s) /\
    m' = store32 (store32 (mem s) p (load32 (mem s) (load32 (mem s) p)))
           (load32 (mem s) p) 0.
Proof. eexists. split; reflexivity. Qed.

(** [ListRemove] unlinks the node after the given one, clears its link and returns
    it. *)
Lemma ListRemove_spec s h pre x post :
  clist (mem s) h (pre ++ x :: post) ->
  exists m', runs (ListRemove (tail_of h pre)) s x (set_mem m' s) /\
    clist m' h (pre ++ post) /\ load32 m' x = 0 /\
    same_except [tail_of h pre; x] (mem s) m'.
Proof.
  intros [Hc Hok]. set (p := tail_of h pre) in *.
  destruct (ListRemove_runs p s) as (m' & Hr & Hm'). exists m'.
  assert (load32 (mem s) p = x) as Hx by (eapply circ_next; exact Hc).
  rewrite Hx in Hr, Hm'. split; [done|].
  assert (p ∈ h :: pre ++ x :: post) as Hp by apply tail_in_prefix.
  assert (p <> x) as Hpx.
  { intros E. apply (tail_not_in_suffix _ _ _ (proj1 Hok)). fold p. set_solver. }
  assert (x ∈ h :: pre ++ x :: post) as Hxin by set_solver.
  pose proof (nodes_ok_kspan _ _ _ Hok Hp) as Hpk.
  pose proof (nodes_ok_kspan _ _ _ Hok Hxin) as Hxk.
  assert (apart p 4 x 4) as Hap by (by apply Hok).
  assert (same_except [p; x] (mem s) m') as Hse.
  { subst m'. eapply (same_except_trans [p] [x]); by apply same_except_store32. }
  assert (nodes_ok 4 (h :: pre ++ post)) as Hok'.
  { eapply nodes_ok_sub; [exact Hok| |set_solver].
    apply (NoDup_mid h pre x post), Hok. }
  split_and!; [split; [|done]| |done].
  - apply (circ_delete (load32 (mem s)) _ _ _ x); [apply Hok|done| |].
    + fold p. subst m'. rewrite load32_store32_ne; [|done|done|by apply apart_sym].
      rewrite load32_store32_same by done. apply u32_load32.
    + fold p. intros q Hq Hne. eapply load32_frame; [done|exact Hok|set_solver|set_solver|].
      destruct (proj1 (NoDup_mid h pre x post) (proj1 Hok)) as [Hxn _]. set_solver.
  - subst m'. by rewrite load32_store32_same.
Qed.

Lemma IsListEmpty_spec s h xs :
  clist (mem s) h xs ->
  runs (IsListEmpty h) s (match xs with [] => true | _ => false end) s.
Proof.
  intros [Hc Hok]. unfold runs, IsListEmpty, bind, ld32, gets, ret.
  do 2 f_equal. f_equal. destruct xs as [|x xs].
  - apply circ_nil in Hc. rewrite Hc. apply Z.eqb_refl.
  - apply circ_head in Hc. rewrite Hc. apply Z.eqb_neq. intros ->.
    destruct Hok as (Hnd & _). apply NoDup_cons in Hnd. set_solver.
Qed.

(** ** Doubly linked lists *)

(** The words of two-word nodes. *)
Definition words (l : list Z) : list Z := concat (map (fun a => [a; a + 4]) l).

Lemma elem_of_words l w : w ∈ words l <-> exists a, a ∈ l /\ (w = a \/ w = a + 4).
Proof.
  unfold words. induction l as [|a l IH]; cbn; [set_solver|].
  rewrite !elem_of_cons, IH. set_solver.
Qed.

Lemma words_ok l : nodes_ok 8 l -> nodes_ok 4 (words l).
Proof.
  intros (Hnd & Hk & Ha). rewrite Forall_forall in Hk. split_and!.
  - clear Hk. unfold words. induction l as [|a l IH]; [constructor|].
    apply NoDup_cons in Hnd as [Hal Hnd]. cbn.
    assert (forall b, b ∈ l -> apart a 8 b 8) as Hab.
    { intros b Hb. apply Ha; [set_solver|set_solver|]. intros ->. done. }
    unfold apart in Hab. rewrite !NoDup_cons. fold (words l) in *. split_and!.
    + rewrite elem_of_cons, elem_of_words. intros [?|(b & Hb & E)]; [lia|].
      specialize (Hab b Hb). lia.
    + rewrite elem_of_words. intros (b & Hb & E). specialize (Hab b Hb). lia.
    + apply IH; [done|]. intros x y Hx Hy. apply Ha; set_solver.
  - rewrite Forall_forall. intros w (a & Hal & Hw)%elem_of_words.
    specialize (Hk a Hal). unfold kspan in *. lia.
  - intros x y (a & Hal & Hx)%elem_of_words (b & Hbl & Hy)%elem_of_words Hne.
    destruct (Z.eq_dec a b) as [->|Hab]; [unfold apart; lia|].
    specialize (Ha a b Hal Hbl Hab). unfold apart in *. lia.
Qed.

Definition first_of (h : Z) (xs : list Z) : Z :=
  match xs with
  | [] => h
  | x :: _ => x
  end.

Lemma circ_succ nx h xs ys : circ nx h (xs ++ ys) -> nx (tail_of h xs) = first_of h ys.
Proof.
  destruct ys as [|y ys]; intros Hc; cbn.
  - rewrite app_nil_r in Hc. by apply circ_next_end.
  - by apply circ_next in Hc.
Qed.

Lemma tail_of_rev h xs : tail_of h (rev xs) = first_of h xs.
Proof. destruct xs as [|x xs]; [done|]. cbn. by rewrite tail_of_app. Qed.

Lemma first_of_rev h xs : first_of h (rev xs) = tail_of h xs.
Proof. rewrite <- tail_of_rev. by rewrite rev_involutive. Qed.

Lemma first_of_in h xs : first_of h xs ∈ h :: xs.
Proof. destruct xs; set_solver. Qed.

Lemma rev_nodes_ok sz h l : nodes_ok sz (h :: l) -> nodes_ok sz (h :: rev l).
Proof. apply nodes_ok_perm. f_equiv. apply Permutation_rev. Qed.

(** The five stores of [DoublyListAdd], with the node [nx] that follows [p]. *)
Lemma DoublyListAdd_runs p new s :
  let nx := load32 (mem s) (p + 4) in
  runs (DoublyListAdd p new) s tt
    (set_mem (store32 (store32 (store32 (store32 (mem s) (p + 4) new) new p) (new + 4) nx)
                nx new) s).
Proof. reflexivity. Qed.

Section FourStores.
(** Reading back four stores to pairwise different words of a well-formed set. *)
Context (l : list Z) (Hok : nodes_ok 4 l) (w1 w2 w3 w4 : Z).
Context (Hw1 : w1 ∈ l) (Hw2 : w2 ∈ l) (Hw3 : w3 ∈ l) (Hw4 : w4 ∈ l).
Context (Hnd : NoDup [w1; w2; w3; w4]).

Lemma four_stores m v1 v2 v3 v4 (m' := store32 (store32 (store32 (store32 m w1 v1) w2 v2) w3 v3) w4 v4) :
  load32 m' w1 = u32 v1 /\ load32 m' w2 = u32 v2 /\ load32 m' w3 = u32 v3 /\
  load32 m' w4 = u32 v4 /\ same_except [w1; w2; w3; w4] m m'.
Proof.
  pose proof Hok as (_ & Hk & Ha). rewrite Forall_forall in Hk.
  rewrite !NoDup_cons, !not_elem_of_cons in Hnd.
  destruct Hnd as ((N12 & N13 & N14 & _) & (N23 & N24 & _) & (N34 & _) & _).
  pose proof (Ha _ _ Hw1 Hw2 N12). pose proof (Ha _ _ Hw1 Hw3 N13).
  pose proof (Ha _ _ Hw1 Hw4 N14). pose proof (Ha _ _ Hw2 Hw3 N23).
  pose proof (Ha _ _ Hw2 Hw4 N24). pose proof (Ha _ _ Hw3 Hw4 N34).
  apply Hk in Hw1, Hw2, Hw3, Hw4. clear Hk Ha. subst m'. split_and!.
  - rewrite 3!load32_store32_ne by auto using apart_sym. by apply load32_store32_same.
  - rewrite 2!load32_store32_ne by auto using apart_sym. by apply load32_store32_same.
  - rewrite load32_store32_ne by auto using apart_sym. by apply load32_store32_same.
  - by apply load32_store32_same.
  - change [w1; w2; w3; w4] with ((([w1] ++ [w2]) ++ [w3]) ++ [w4]).
    do 3 (eapply same_except_trans; [|by apply same_except_store32]).
    by apply same_except_store32.
Qed.
End FourStores.

Lemma words_prev l a : a ∈ l -> a ∈ words l.
Proof. intros. apply elem_of_words. eauto. Qed.

Lemma words_next l a : a ∈ l -> a + 4 ∈ words l.
Proof. intros. apply elem_of_words. eauto. Qed.

Lemma elem_of_rev (l : list Z) x : x ∈ rev l <-> x ∈ l.
Proof. by rewrite <- Permutation_rev. Qed.

(** A [prev] word is never a [next] word. *)
Lemma prev_ne_next l a b : nodes_ok 8 l -> a ∈ l -> b ∈ l -> a + 4 <> b.
Proof.
  intros (_ & _ & H3) Ha Hb E. destruct (Z.eq_dec a b) as [->|Hab]; [lia|].
  specialize (H3 a b Ha Hb Hab). unfold apart in H3. lia.
Qed.

(** The memory after the four stores of an insertion of [new] between [p] and [nx]. *)
Lemma dlist_link l p new nx m (m' := store32 (store32 (store32 (store32 m (p + 4) new) new p) (new + 4) nx) nx new) :
  nodes_ok 8 l -> p ∈ l -> new ∈ l -> nx ∈ l -> new <> p -> new <> nx ->
  load32 m' (p + 4) = new /\ load32 m' new = p /\ load32 m' (new + 4) = nx /\
  load32 m' nx = new /\
  (forall q, q ∈ l -> q <> p -> q <> new -> load32 m' (q + 4) = load32 m (q + 4)) /\
  (forall q, q ∈ l -> q <> nx -> q <> new -> load32 m' q = load32 m q).
Proof.
  intros Hok Hp Hn Hx Hnp Hnx. pose proof (words_ok l Hok) as Hwok.
  pose proof (fun a b => prev_ne_next l a b Hok) as Hpn.
  destruct (four_stores (words l) Hwok (p + 4) new (new + 4) nx) with (m := m)
    (v1 := new) (v2 := p) (v3 := nx) (v4 := new) as (L1 & L2 & L3 & L4 & Hse);
    auto using words_prev, words_next.
  { rewrite !NoDup_cons, !not_elem_of_cons.
    split_and!; try apply not_elem_of_nil; auto using NoDup_nil_2; lia. }
  fold m' in L1, L2, L3, L4, Hse.
  rewrite !(nodes_ok_u32 8 l) in * by (lia || done).
  split_and!; try done; intros q Hq N1 N2.
  - eapply load32_frame; [exact Hse|exact Hwok| |by apply words_next|].
    + intros w. rewrite !elem_of_cons, elem_of_nil.
      intros [->|[->|[->|[->|[]]]]]; auto using words_prev, words_next.
    + rewrite !not_elem_of_cons. split_and!; auto using not_elem_of_nil; lia.
  - eapply load32_frame; [exact Hse|exact Hwok| |by apply words_prev|].
    + intros w. rewrite !elem_of_cons, elem_of_nil.
      intros [->|[->|[->|[->|[]]]]]; auto using words_prev, words_next.
    + rewrite !not_elem_of_cons. split_and!; auto using not_elem_of_nil;
        intros E; symmetry in E; revert E; by apply Hpn.
Qed.

(** [DoublyListAdd] inserts the new node after the given one in both chains. *)
Lemma DoublyListAdd_spec s h pre post new :
  dclist (mem s) h (pre ++ post) -> nodes_ok 8 (new :: h :: pre ++ post) ->
  exists m', runs (DoublyListAdd (tail_of h pre) new) s tt (set_mem m' s) /\
    dclist m' h (pre ++ new :: post).
Proof.
  intros (Hf & Hb & Hn) Hok. set (p := tail_of h pre) in *.
  set (nx := first_of h post). set (l := new :: h :: pre ++ post) in *.
  assert (load32 (mem s) (p + 4) = nx) as Hnx by exact (circ_succ _ _ _ _ Hf).
  assert (new ∉ h :: pre ++ post) as Hnew by (apply NoDup_cons, Hok).
  assert (p ∈ h :: pre ++ post) as Hp by apply tail_in_prefix.
  assert (nx ∈ h :: pre ++ post) as Hx by (pose proof (first_of_in h post); set_solver).
  eexists. split; [apply DoublyListAdd_runs|]. cbn zeta. rewrite Hnx.
  destruct (dlist_link l p new nx (mem s)) as (L1 & L2 & L3 & L4 & F1 & F2);
    [done|set_solver..|]. set (m' := store32 _ nx new) in *.
  split_and!.
  - apply (circ_insert (fun a => load32 (mem s) (a + 4))); [apply Hn|done|done|done| |].
    + fold p. by rewrite L3, Hnx.
    + fold p. intros q Hq Hne. apply F1; set_solver.
  - rewrite rev_app_distr. cbn [rev]. rewrite <- app_assoc. cbn [app].
    rewrite rev_app_distr in Hb.
    apply (circ_insert (load32 (mem s))); rewrite <- ?rev_app_distr; [| | | | |].
    + apply (rev_nodes_ok 8). done.
    + rewrite elem_of_cons, elem_of_rev. set_solver.
    + by rewrite rev_app_distr.
    + by rewrite tail_of_rev.
    + by rewrite tail_of_rev, <- tail_of_rev, (circ_succ _ _ _ _ Hb), first_of_rev.
    + rewrite tail_of_rev. fold nx. intros q Hq Hne.
      rewrite elem_of_cons, elem_of_rev in Hq. apply F2; set_solver.
  - eapply nodes_ok_perm; [|exact Hok]. solve_Permutation.
Qed.

(** The memory after the unlinking of [x] between [p] and [nx]. *)
Lemma dlist_unlink l p x nx m (m' := store32 (store32 (store32 (store32 m (p + 4) nx) nx p) x 0) (x + 4) 0) :
  nodes_ok 8 l -> p ∈ l -> x ∈ l -> nx ∈ l -> x <> p -> x <> nx ->
  load32 m' (p + 4) = nx /\ load32 m' nx = p /\ load32 m' x = 0 /\ load32 m' (x + 4) = 0 /\
  (forall q, q ∈ l -> q <> p -> q <> x -> load32 m' (q + 4) = load32 m (q + 4)) /\
  (forall q, q ∈ l -> q <> nx -> q <> x -> load32 m' q = load32 m q).
Proof.
  intros Hok Hp Hn Hx Hnp Hnx. pose proof (words_ok l Hok) as Hwok.
  pose proof (fun a b => prev_ne_next l a b Hok) as Hpn.
  destruct (four_stores (words l) Hwok (p + 4) nx x (x + 4)) with (m := m)
    (v1 := nx) (v2 := p) (v3 := 0) (v4 := 0) as (L1 & L2 & L3 & L4 & Hse);
    auto using words_prev, words_next.
  { rewrite !NoDup_cons, !not_elem_of_cons.
    split_and!; try apply not_elem_of_nil; auto using NoDup_nil_2; try lia.
    intros E. symmetry in E. revert E. by apply Hpn. }
  fold m' in L1, L2, L3, L4, Hse.
  rewrite (nodes_ok_u32 8 l) in L1, L2 by (lia || done).
  split_and!; try done; intros q Hq N1 N2.
  - eapply load32_frame; [exact Hse|exact Hwok| |by apply words_next|].
    + intros w. rewrite !elem_of_cons, elem_of_nil.
      intros [->|[->|[->|[->|[]]]]]; auto using words_prev, words_next.
    + rewrite !not_elem_of_cons. split_and!; auto using not_elem_of_nil; lia.
  - eapply load32_frame; [exact Hse|exact Hwok| |by apply words_prev|].
    + intros w. rewrite !elem_of_cons, elem_of_nil.
      intros [->|[->|[->|[->|[]]]]]; auto using words_prev, words_next.
    + rewrite !not_elem_of_cons. split_and!; auto using not_elem_of_nil;
        intros E; symmetry in E; revert E; by apply Hpn.
Qed.

Lemma DoublyListRemove_runs l p x nx s :
  nodes_ok 8 l -> p ∈ l -> x ∈ l -> x <> p ->
  load32 (mem s) x = p -> load32 (mem s) (x + 4) = nx ->
  runs (DoublyListRemove x) s x
    (set_mem (store32 (store32 (store32 (store32 (mem s) (p + 4) nx) nx p) x 0) (x + 4) 0) s).
Proof.
  intros Hok Hp Hx Hne E1 E2. pose proof (words_ok l Hok) as (_ & Hk & Ha).
  rewrite Forall_forall in Hk. pose proof (words_next l p Hp) as Hp4.
  pose proof (words_next l x Hx) as Hx4. pose proof (words_prev l x Hx) as Hx0.
  unfold runs, DoublyListRemove, bind, ld32, st32, gets, modify, ret. cbn.
  rewrite E1, E2. rewrite !load32_store32_ne, E1, E2; auto; apply Ha; auto.
  - by apply (prev_ne_next l).
  - lia.
Qed.

Lemma rev_mid (pre : list Z) x post : rev (pre ++ x :: post) = rev post ++ x :: rev pre.
Proof. rewrite rev_app_distr. cbn. by rewrite <- app_assoc. Qed.

(** The links of a node inside the list. *)
Lemma dclist_mid m h pre x post :
  dclist m h (pre ++ x :: post) ->
  load32 m x = tail_of h pre /\ load32 m (x + 4) = first_of h post.
Proof.
  intros (Hf & Hb & _). rewrite rev_mid in Hb. split.
  - rewrite <- first_of_rev. replace x with (tail_of h (rev post ++ [x])) at 1.
    + apply circ_succ. by rewrite <- app_assoc.
    + by rewrite tail_of_app.
  - replace x with (tail_of h (pre ++ [x])) at 1; [|by rewrite tail_of_app].
    apply (circ_succ (fun a => load32 m (a + 4))). by rewrite <- app_assoc.
Qed.

(** [DoublyListRemove] unlinks the node from both chains and clears its links. *)
Lemma DoublyListRemove_spec s h pre x post :
  dclist (mem s) h (pre ++ x :: post) ->
  exists m', runs (DoublyListRemove x) s x (set_mem m' s) /\
    dclist m' h (pre ++ post) /\ load32 m' x = 0 /\ load32 m' (x + 4) = 0.
Proof.
  intros Hd. destruct (dclist_mid _ _ _ _ _ Hd) as [E0 E4].
  destruct Hd as (Hf & Hb & Hok). set (p := tail_of h pre) in *.
  set (nx := first_of h post) in *.
  destruct (proj1 (NoDup_mid h pre x post) (proj1 Hok)) as [Hxn Hnd'].
  assert (p ∈ h :: pre ++ post) as Hp by apply tail_in_prefix.
  assert (nx ∈ h :: pre ++ post) as Hx by (pose proof (first_of_in h post); set_solver).
  pose proof (rev_nodes_ok 8 _ _ Hok) as Hokr. rewrite rev_mid in Hb, Hokr.
  set (l := h :: pre ++ x :: post) in *.
  destruct (dlist_unlink l p x nx (mem s)) as (L1 & L2 & L3 & L4 & F1 & F2);
    [done|set_solver..|]. eexists. split.
  { apply (DoublyListRemove_runs l p x nx); [done|set_solver..|done|done]. }
  set (m' := store32 _ (x + 4) 0) in *. split_and!; [split_and!| |]; try done.
  - apply (circ_delete (fun a => load32 (mem s) (a + 4)) _ _ _ x); [apply Hok|done| |].
    + fold p. by rewrite L1, E4.
    + fold p. intros q Hq Hne. apply F1; set_solver.
  - rewrite rev_app_distr.
    apply (circ_delete (load32 (mem s)) _ _ _ x); [apply Hokr|done| |].
    + rewrite tail_of_rev. fold nx. by rewrite L2, E0.
    + rewrite tail_of_rev. fold nx. intros q Hq Hne.
      rewrite <- rev_app_distr, elem_of_cons, elem_of_rev in Hq. apply F2; set_solver.
  - eapply nodes_ok_sub; [exact Hok|done|set_solver].
Qed.

(** ** Deciding the representation predicates on concrete memories *)

Definition apartb (a n b k : Z) : bool := (a + n <=? b) || (b + k <=? a).
Definition kspanb (a n : Z) : bool := (KVA <=? a) && (a + n <=? W32).

Fixpoint nodes_okb (sz : Z) (l : list Z) : bool :=
  match l with
  | [] => true
  | x :: l' => kspanb x sz && forallb (fun y => apartb x sz y sz) l' && nodes_okb sz l'
  end.

Fixpoint pathb (nx : Z -> Z) (a : Z) (xs : list Z) : bool :=
  match xs with
  | [] => true
  | x :: xs' => (nx a =? x) && pathb nx x xs'
  end.

Definition clistb (m : gmap Z Z) (h : Z) (xs : list Z) : bool :=
  pathb (load32 m) h xs && (load32 m (tail_of h xs) =? h) && nodes_okb 4 (h :: xs).

Definition dclistb (m : gmap Z Z) (h : Z) (xs : list Z) : bool :=
  pathb (fun a => load32 m (a + 4)) h xs && (load32 m (tail_of h xs + 4) =? h) &&
  pathb (load32 m) h (rev xs) && (load32 m (tail_of h (rev xs)) =? h) &&
  nodes_okb 8 (h :: xs).

Lemma nodes_okb_sound sz l : 0 < sz -> nodes_okb sz l = true -> nodes_ok sz l.
Proof.
  intros Hsz. induction l as [|x l IH]; cbn.
  - intros _. split_and!; [constructor|constructor|set_solver].
  - rewrite !andb_true_iff. intros ((Hk & Hf) & Hr).
    destruct (IH Hr) as (H1 & H2 & H3). unfold kspanb in Hk.
    assert (forall y, y ∈ l -> apart x sz y sz) as Hx.
    { intros y Hy. rewrite forallb_forall in Hf. apply list_elem_of_In in Hy.
      specialize (Hf y Hy). unfold apartb in Hf. unfold apart. lia. }
    split_and!.
    + constructor; [|done]. intros Hin. specialize (Hx x Hin). unfold apart in Hx. lia.
    + constructor; [unfold kspan; lia|done].
    + intros a b. rewrite !elem_of_cons. intros [->|Ha] [->|Hb] Hne; [done| | |auto].
      * by apply Hx.
      * by apply apart_sym, Hx.
Qed.

Lemma pathb_sound nx a xs : pathb nx a xs = true -> path nx a xs.
Proof.
  revert a; induction xs as [|x xs IH]; intros a; cbn; [done|].
  rewrite andb_true_iff, Z.eqb_eq. intros [-> H]. auto.
Qed.

Lemma clistb_sound m h xs : clistb m h xs = true -> clist m h xs.
Proof.
  unfold clistb. rewrite !andb_true_iff, Z.eqb_eq. intros ((H1 & H2) & H3).
  split; [split; [by apply pathb_sound|done]|]. apply nodes_okb_sound; [lia|done].
Qed.

Lemma dclistb_sound m h xs : dclistb m h xs = true -> dclist m h xs.
Proof.
  unfold dclistb. rewrite !andb_true_iff, !Z.eqb_eq. intros ((((H1 & H2) & H3) & H4) & H5).
  split_and!; [split; [by apply pathb_sound|done]..|]. apply nodes_okb_sound; [lia|done].
Qed.

(** ** Properties *)

(** Adding a node after any position of a circular list and removing the node
    after that position are inverse. [ListAdd] puts the node there and keeps the rest
    in order, the list is then not empty, and [ListRemove] hands the same node
    back, unlinked, and restores the list. *)
Theorem list_add_remove (s : kstate) (h new : Z) (pre post : list Z) :
  clist (mem s) h (pre ++ post) -> nodes_ok 4 (new :: h :: pre ++ post) ->
  exists m1 m2,
    runs (ListAdd (tail_of h pre) new) s tt (set_mem m1 s) /\
    clist m1 h (pre ++ new :: post) /\
    runs (IsListEmpty h) (set_mem m1 s) false (set_mem m1 s) /\
    runs (ListRemove (tail_of h pre)) (set_mem m1 s) new (set_mem m2 s) /\
    clist m2 h (pre ++ post) /\ load32 m2 new = 0.
Proof.
  intros Hc Hok. destruct (ListAdd_spec s h pre post new Hc Hok) as (m1 & R1 & C1 & _).
  destruct (ListRemove_spec (set_mem m1 s) h pre new post C1) as (m2 & R2 & C2 & L2 & _).
  exists m1, m2. split_and!; try done.
  pose proof (IsListEmpty_spec (set_mem m1 s) h _ C1) as E. by destruct pre.
Qed.

(** The same for doubly linked lists: [DoublyListAdd] links the node into the
    [next] chain and, in reverse order, into the [prev] chain, and [DoublyListRemove]
    undoes it and clears both of the node's links. *)
Theorem doubly_list_add_remove (s : kstate) (h new : Z) (pre post : list Z) :
  dclist (mem s) h (pre ++ post) -> nodes_ok 8 (new :: h :: pre ++ post) ->
  exists m1 m2,
    runs (DoublyListAdd (tail_of h pre) new) s tt (set_mem m1 s) /\
    dclist m1 h (pre ++ new :: post) /\
    runs (DoublyListRemove new) (set_mem m1 s) new (set_mem m2 s) /\
    dclist m2 h (pre ++ post) /\ load32 m2 new = 0 /\ load32 m2 (new + 4) = 0.
Proof.
  intros Hc Hok. destruct (DoublyListAdd_spec s h pre post new Hc Hok) as (m1 & R1 & C1).
  destruct (DoublyListRemove_spec (set_mem m1 s) h pre new post C1) as (m2 & R2 & C2 & L2).
  exists m1, m2. split_and!; tauto.
Qed.

(** A list of one node, its head at [0xc1000000]. *)
Definition list_example : kstate :=
  set_mem (store32 (store32 ∅ 3238002688 3238002704) 3238002704 3238002688) zero_state.

Lemma list_add_remove_witness :
  exists m1 m2,
    runs (ListAdd 3238002704 3238002720) list_example tt (set_mem m1 list_example) /\
    clist m1 3238002688 [3238002704; 3238002720] /\
    runs (IsListEmpty 3238002688) (set_mem m1 list_example) false (set_mem m1 list_example) /\
    runs (ListRemove 3238002704) (set_mem m1 list_example) 3238002720
      (set_mem m2 list_example) /\
    clist m2 3238002688 [3238002704] /\ load32 m2 3238002720 = 0.
Proof.
  apply (list_add_remove list_example 3238002688 3238002720 [3238002704] []).
  - apply clistb_sound. vm_compute. reflexivity.
  - apply nodes_okb_sound; [lia|]. vm_compute. reflexivity.
Defined.

(** The same list, doubly linked. *)
Definition dlist_example : kstate :=
  set_mem (store32 (store32 (store32 (store32 ∅ 3238002688 3238002704)
    3238002692 3238002704) 3238002704 3238002688) 3238002708 3238002688) zero_state.

Lemma doubly_list_add_remove_witness :
  exists m1 m2,
    runs (DoublyListAdd 3238002704 3238002720) dlist_example tt (set_mem m1 dlist_example) /\
    dclist m1 3238002688 [3238002704; 3238002720] /\
    runs (DoublyListRemove 3238002720) (set_mem m1 dlist_example) 3238002720
      (set_mem m2 dlist_example) /\
    dclist m2 3238002688 [3238002704] /\ load32 m2 3238002720 = 0 /\
    load32 m2 (3238002720 + 4) = 0.
Proof.
  apply (doubly_list_add_remove dlist_example 3238002688 3238002720 [3238002704] []).
  - apply dclistb_sound. vm_compute. reflexivity.
  - apply nodes_okb_sound; [lia|]. vm_compute. reflexivity.
Defined.
