(* ===== verification/Allocator.v ===== *)
(** * memory/direct_mapping_allocator.c: the buddy allocator, the code

    Every function of the file, on memory. [MemBlock] is the address of a block at
    offset 0 and a [ListNode] at offset 4, 8 bytes in all. The lists of free and of
    allocated blocks are circular lists of such nodes, one pair per size class. Loops
    and recursions over lists take fuel; the theorems give the amount that is enough. *)

From Stdlib Require Import ZArith Lia ZifyBool.
From stdpp Require Import base numbers gmap list.
From S2P Require Import Prelude Memory Machine Lists.

Definition kMemBlockTypeNum : Z := 26.
Definition kNodePoolSize : Z := 1048576.
Definition kDirectMappingSize : Z := 67108864.
Definition kKVirtualAddr : Z := i32 3221225472.

Definition DirectMappingVirtualAddr (physical_addr : Z) : Z :=
  u32 (physical_addr + kKVirtualAddr).

Definition DirectMappingPhysAddr (virtual_addr : Z) : Z :=
  u32 (virtual_addr - kKVirtualAddr).

Definition GetMemBlockSize (size_type : Z) : Z := i32 (shl32 1 size_type).

(** The loop [for (; i < 32; ++i)] with its break, [n] iterations left. *)
Fixpoint size_type_loop (n : nat) (i size : Z) : Z :=
  match n with
  | O => i
  | S n' => if shr32 size i =? 1 then i else size_type_loop n' (i + 1) size
  end.

Definition GetMemBlockSizeType (size : Z) : Z :=
  let i := size_type_loop 32 0 size in
  if Z.land (u32 size) (shl32 1 i) =? u32 size then i else i + 1.

(** [free_mem_list[i] = v] and [allocated_mem_list[i] = v]. *)
Definition set_free_head (i v : Z) : K unit :=
  modify (fun s => set_alloc (set_free_mem_list
    (<[Z.to_nat i := v]> (free_mem_list (alloc s))) (alloc s)) s).

Definition set_allocated_head (i v : Z) : K unit :=
  modify (fun s => set_alloc (set_allocated_mem_list
    (<[Z.to_nat i := v]> (allocated_mem_list (alloc s))) (alloc s)) s).

Definition free_head (i : Z) : K Z := arr_get (fun s => free_mem_list (alloc s)) i.
Definition allocated_head (i : Z) : K Z := arr_get (fun s => allocated_mem_list (alloc s)) i.

(** [&block->node] *)
Definition node_of (block : Z) : Z := u32 (block + 4).

Definition ReqMemBlock : K Z :=
  pool <- gets (fun s => mem_block_pool (alloc s)) ;;
  e <- IsListEmpty pool ;;
  if e then ret 0
  else n <- ListRemove pool ;; ret (GET_STRUCT n 4).

Definition RelMemBlock (mem_block : Z) : K unit :=
  st32 (node_of mem_block) 0 ;;;
  pool <- gets (fun s => mem_block_pool (alloc s)) ;;
  ListAdd pool (node_of mem_block).

Definition MemBlockPoolInit (addr size : Z) : K unit :=
  modify (fun s => set_alloc (set_mem_block_pool (node_of addr) (alloc s)) s) ;;;
  pool <- gets (fun s => mem_block_pool (alloc s)) ;;
  st32 pool pool ;;;
  for_ (Z.to_nat ((size + 7) / 8)) 0 (fun i => ListAdd pool (node_of (addr + 8 * i))).

(** [while (tmp->next != head && GET_STRUCT(tmp->next, MemBlock, node)->addr < addr)
    tmp = tmp->next;] from [tmp = head]: the node after which a block at [addr] goes. *)
Definition find_pos (fuel : nat) (head addr : Z) : K Z :=
  loop fuel (fun tmp =>
    nxt <- ld32 tmp ;;
    if nxt =? head then ret (inr tmp)
    else a <- ld32 (GET_STRUCT nxt 4) ;;
         if a <? addr then ret (inl nxt) else ret (inr tmp)) head.

(** The branch of [DivBlock] for a size type that has a block: take it out, halve it
    and put both halves into the next smaller list. *)
Definition divide_head (size_type head : Z) : K bool :=
  n <- ListRemove head ;;
  let new_block1 := GET_STRUCT n 4 in
  new_block2 <- ReqMemBlock ;;
  a1 <- ld32 new_block1 ;;
  st32 new_block2 (a1 + GetMemBlockSize (size_type - 1)) ;;;
  head' <- free_head (size_type - 1) ;;
  ListAdd head' (node_of new_block1) ;;;
  ListAdd head' (node_of new_block2) ;;;
  ret true.

Fixpoint DivBlock (fuel : nat) (size_type : Z) : K bool :=
  match fuel with
  | O => nofuel
  | S f =>
      if (size_type =? 0) || (size_type =? kMemBlockTypeNum) then ret false
      else
        head <- free_head size_type ;;
        e <- IsListEmpty head ;;
        if negb e then divide_head size_type head
        else
          r <- DivBlock f (size_type + 1) ;;
          if r then DivBlock f size_type else ret false
  end.

Fixpoint ReqBytes (fuel : nat) (size : Z) : K Z :=
  match fuel with
  | O => nofuel
  | S f =>
      let size_type := GetMemBlockSizeType size in
      head <- free_head size_type ;;
      e <- IsListEmpty head ;;
      if e then
        r <- DivBlock f (size_type + 1) ;;
        if r then ReqBytes f size else ret 0
      else
        n <- ListRemove head ;;
        let free_block := GET_STRUCT n 4 in
        ahead <- allocated_head size_type ;;
        a <- ld32 free_block ;;
        tmp <- find_pos f ahead a ;;
        ListAdd tmp (node_of free_block) ;;;
        ld32 free_block
  end.

Section WithPlatform.
Context `{Platform}.

(** The body of [MergeBlock]'s loop: [inr true] when a pair was merged. *)
Definition merge_body (fuel : nat) (size_type head tmp : Z) : K (Z + bool) :=
  let size := GetMemBlockSize size_type in
  nxt <- ld32 tmp ;;
  if nxt =? head then ret (inr false)
  else
    nn <- ld32 nxt ;;
    let block1 := GET_STRUCT nxt 4 in
    let block2 := GET_STRUCT nn 4 in
    a1 <- ld32 block1 ;;
    a2 <- ld32 block2 ;;
    let reserved_size := GetMemBlockSize (GetMemBlockSizeType (i32 K_END)) in
    if negb (nn =? head) && (u32 (a1 + size) =? a2) &&
       ((u32 (a1 - reserved_size) / u32 size) mod 2 =? 0)
    then
      ListRemove tmp ;;;
      t2 <- ld32 tmp ;;
      ListRemove t2 ;;;
      RelMemBlock block2 ;;;
      head' <- free_head (size_type + 1) ;;
      pos <- find_pos fuel head' a1 ;;
      ListAdd pos (node_of block1) ;;;
      ret (inr true)
    else ret (inl nxt).

Fixpoint MergeBlock (fuel : nat) (size_type : Z) : K unit :=
  match fuel with
  | O => nofuel
  | S f =>
      if size_type =? kMemBlockTypeNum - 1 then ret tt
      else
        head <- free_head size_type ;;
        merged <- loop f (merge_body f size_type head) head ;;
        if merged then MergeBlock f (size_type + 1) else ret tt
  end.

(** The search of [RelBytes] in one list of allocated blocks: the node removed or
    reached when it jumps to [out], [None] when the list is exhausted. *)
Definition rel_scan (fuel : nat) (head addr : Z) : K (option Z) :=
  loop fuel (fun rem =>
    nxt <- ld32 rem ;;
    if nxt =? head then ret (inr None)
    else
      a <- ld32 (GET_STRUCT nxt 4) ;;
      if a =? addr then x <- ListRemove rem ;; ret (inr (Some x))
      else if addr <? a then ret (inr (Some rem))
      else ret (inl nxt)) head.

(** [for (; size_type < kMemBlockTypeNum; ++size_type)], [n] size types left. *)
Fixpoint rel_search (n : nat) (fuel : nat) (size_type addr : Z) : K (option (Z * Z)) :=
  match n with
  | O => ret None
  | S n' =>
      head <- allocated_head size_type ;;
      e <- IsListEmpty head ;;
      r <- (if e then ret None else rel_scan fuel head addr) ;;
      match r with
      | Some rem => ret (Some (size_type, rem))
      | None => rel_search n' fuel (size_type + 1) addr
      end
  end.

Definition RelBytes (fuel : nat) (addr : Z) : K unit :=
  r <- rel_search 26 fuel 0 (u32 addr) ;;
  match r with
  | None => ret tt
  | Some (size_type, remove) =>
      head <- free_head size_type ;;
      tmp <- find_pos fuel head (u32 addr) ;;
      ListAdd tmp remove ;;;
      MergeBlock fuel size_type
  end.

(** The inner loop of [DirectMappingInit]: blocks of type [j] while they fit. *)
Definition init_blocks (fuel : nat) (j : Z) (i : Z) : K Z :=
  loop fuel (fun i =>
    if i + GetMemBlockSize j <=? kDirectMappingSize - kNodePoolSize then
      new_block <- ReqMemBlock ;;
      st32 new_block (DirectMappingVirtualAddr i) ;;;
      head <- free_head j ;;
      ListAdd head (node_of new_block) ;;;
      ret (inl (i + GetMemBlockSize j))
    else ret (inr i)) i.

(** The outer loop, [j = n - 1] first. *)
Fixpoint init_free (n : nat) (fuel : nat) (i : Z) : K unit :=
  match n with
  | O => ret tt
  | S n' =>
      if i <? kDirectMappingSize - kNodePoolSize then
        i' <- init_blocks fuel (Z.of_nat n') i ;;
        init_free n' fuel i'
      else ret tt
  end.

Definition init_heads (i : Z) : K unit :=
  b <- ReqMemBlock ;;
  set_free_head i (node_of b) ;;;
  h <- free_head i ;;
  st32 h h ;;;
  b' <- ReqMemBlock ;;
  set_allocated_head i (node_of b') ;;;
  h' <- allocated_head i ;;
  st32 h' h'.

Definition DirectMappingInit (fuel : nat) : K unit :=
  MemBlockPoolInit (DirectMappingVirtualAddr (kDirectMappingSize - kNodePoolSize))
    kNodePoolSize ;;;
  for_ 26 0 init_heads ;;;
  let size_type := GetMemBlockSizeType (i32 K_END) in
  let size := GetMemBlockSize size_type in
  reserved <- ReqMemBlock ;;
  st32 reserved kKVirtualAddr ;;;
  head <- allocated_head size_type ;;
  ListAdd head (node_of reserved) ;;;
  init_free 26 fuel size.

End WithPlatform.
