(* ===== verification/AllocRep.v ===== *)
(** * The allocator's lists in memory

    A memory represents a family of circular lists: the pool of spare [MemBlock]s and
    the free and allocated lists of the 26 size classes. All nodes lie in the pool
    area and no node is in two lists. The lemmas here move nodes between the lists;
    the functions of the allocator are built from them. *)

From Stdlib Require Import ZArith Lia ZifyBool.
From stdpp Require Import base numbers gmap list.
From S2P Require Import Prelude Memory Machine Lists Allocator.

(** The names of the lists. *)
Inductive lid : Type :=
| LPool
| LFree (k : nat)
| LAlloc (k : nat).

#[export] Instance lid_eq_dec : EqDecision lid.
Proof. solve_decision. Defined.

Definition vlid (id : lid) : Prop :=
  match id with
  | LPool => True
  | LFree k | LAlloc k => (k < 26)%nat
  end.

Definition head_of (g : AllocG) (id : lid) : Z :=
  match id with
  | LPool => mem_block_pool g
  | LFree k => nth k (free_mem_list g) 0
  | LAlloc k => nth k (allocated_mem_list g) 0
  end.

(** The pool area [0xc3f00000, 0xc4000000): the last MB of the direct mapping. *)
Notation "'POOL'" := 3287285760 (at level 0, only parsing).
Notation "'POOL_END'" := 3288334336 (at level 0, only parsing).

(** The nodes of the [MemBlock]s of the pool area. *)
Definition mbnode (n : Z) : Prop :=
  POOL + 4 <= n /\ n + 4 <= POOL_END /\ (n - POOL) mod 8 = 4.

Lemma mbnode_kspan n : mbnode n -> kspan n 4.
Proof. unfold mbnode, kspan. lia. Qed.

Lemma mbnode_addr_kspan n : mbnode n -> kspan (n - 4) 4.
Proof. unfold mbnode, kspan. lia. Qed.

Lemma mbnode_apart a b : mbnode a -> mbnode b -> a <> b -> apart a 4 b 4.
Proof.
  unfold mbnode, apart. intros (_ & _ & Ha) (_ & _ & Hb) Hne.
  pose proof (Z.div_mod (a - POOL) 8 ltac:(lia)).
  pose proof (Z.div_mod (b - POOL) 8 ltac:(lia)). lia.
Qed.

(** The address word of one block is apart from the link of every block. *)
Lemma mbnode_addr_apart a b : mbnode a -> mbnode b -> apart a 4 (b - 4) 4.
Proof.
  unfold mbnode, apart. intros (_ & _ & Ha) (_ & _ & Hb).
  pose proof (Z.div_mod (a - POOL) 8 ltac:(lia)).
  pose proof (Z.div_mod (b - POOL) 8 ltac:(lia)). lia.
Qed.

Lemma mbnode_ok l : NoDup l -> (forall n, n ∈ l -> mbnode n) -> nodes_ok 4 l.
Proof.
  intros Hnd Hm. split_and!; [done| |].
  - rewrite Forall_forall. intros. by apply mbnode_kspan, Hm.
  - intros x y Hx Hy. apply mbnode_apart; auto.
Qed.

Lemma GET_STRUCT_mb n : mbnode n -> GET_STRUCT n 4 = n - 4.
Proof. unfold mbnode, GET_STRUCT. intros. apply u32_small. lia. Qed.

Lemma node_of_mb n : mbnode n -> node_of (n - 4) = n.
Proof. unfold mbnode, node_of. intros. replace (n - 4 + 4) with n by lia. apply u32_small. lia. Qed.

(** [rep s L]: the lists are [L]. *)
Record rep (s : kstate) (L : lid -> list Z) : Prop := {
  rep_lenf : length (free_mem_list (alloc s)) = 26%nat;
  rep_lena : length (allocated_mem_list (alloc s)) = 26%nat;
  rep_circ id : vlid id -> circ (load32 (mem s)) (head_of (alloc s) id) (L id);
  rep_node id n : vlid id -> n ∈ head_of (alloc s) id :: L id -> mbnode n;
  rep_nodup id : vlid id -> NoDup (head_of (alloc s) id :: L id);
  rep_sep id1 id2 n : vlid id1 -> vlid id2 ->
    n ∈ head_of (alloc s) id1 :: L id1 -> n ∈ head_of (alloc s) id2 :: L id2 -> id1 = id2;
}.

Lemma rep_ext s L L' : rep s L -> (forall id, L' id = L id) -> rep s L'.
Proof.
  intros R E. constructor; try apply R; intros *; rewrite ?E; apply R.
Qed.

(** A node of the pool area that is in none of the lists. *)
Definition loose (s : kstate) (L : lid -> list Z) (x : Z) : Prop :=
  mbnode x /\ forall id, vlid id -> x ∉ head_of (alloc s) id :: L id.

(** [links_only m m']: only links of the pool area differ. *)
Definition links_only (m m' : gmap Z Z) : Prop :=
  forall n b, kspan b (Z.of_nat n) ->
    (forall x, mbnode x -> apart x 4 b (Z.of_nat n)) -> load n m' b = load n m b.

(** The address a block's [MemBlock] holds. *)
Definition baddr (m : gmap Z Z) (n : Z) : Z := load32 m (n - 4).

Lemma links_only_refl m : links_only m m.
Proof. by intros n b _ _. Qed.

Lemma links_only_trans m1 m2 m3 : links_only m1 m2 -> links_only m2 m3 -> links_only m1 m3.
Proof. intros H1 H2 n b Hb Hx. by rewrite H2, H1. Qed.

Lemma links_only_except ws m m' :
  (forall w, w ∈ ws -> mbnode w) -> same_except ws m m' -> links_only m m'.
Proof.
  intros Hw Hse n b Hb Hx. apply Hse; [done|]. rewrite Forall_forall. auto.
Qed.

Lemma links_only_baddr m m' n : links_only m m' -> mbnode n -> baddr m' n = baddr m n.
Proof.
  intros Hl Hn. apply (Hl 4%nat (n - 4)); [by apply mbnode_addr_kspan|].
  intros x Hx. by apply mbnode_addr_apart.
Qed.

(** [pool_only m m']: nothing outside the pool area differs. *)
Definition pool_only (m m' : gmap Z Z) : Prop :=
  forall n b, kspan b (Z.of_nat n) ->
    apart POOL (POOL_END - POOL) b (Z.of_nat n) -> load n m' b = load n m b.

Lemma pool_only_refl m : pool_only m m.
Proof. by intros n b _ _. Qed.

Lemma pool_only_trans m1 m2 m3 : pool_only m1 m2 -> pool_only m2 m3 -> pool_only m1 m3.
Proof. intros H1 H2 n b Hb Hx. by rewrite H2, H1. Qed.

Lemma links_pool_only m m' : links_only m m' -> pool_only m m'.
Proof.
  intros Hl n b Hb Ha. apply Hl; [done|]. intros x Hx. unfold mbnode, apart in *. lia.
Qed.

Lemma addr_pool_only m x v : mbnode x -> pool_only m (store32 m (x - 4) v).
Proof.
  intros Hx n b Hb Ha. apply (same_except_store32 m (x - 4) v); [by apply mbnode_addr_kspan|done|].
  constructor; [|constructor]. unfold mbnode, apart in *. lia.
Qed.

Lemma rep_clist s L id : rep s L -> vlid id -> clist (mem s) (head_of (alloc s) id) (L id).
Proof.
  intros R Hv. split; [by apply R|]. apply mbnode_ok; [by apply R|].
  intros n. by eapply rep_node.
Qed.

(** Writes to links of one list leave the chains of the others. *)
Lemma rep_circ_frame s L m' ws id id' :
  rep s L -> same_except ws (mem s) m' -> (forall w, w ∈ ws -> mbnode w) ->
  vlid id' -> id' <> id ->
  (forall w, w ∈ ws -> w ∈ head_of (alloc s) id' :: L id' -> False) ->
  circ (load32 m') (head_of (alloc s) id') (L id').
Proof.
  intros R Hse Hw Hv Hne Hd. apply (circ_frame (load32 (mem s))); [|by apply R].
  intros q Hq. assert (mbnode q) as Hmq by (by eapply rep_node).
  eapply same_except_load32; [done|by apply mbnode_kspan|].
  rewrite Forall_forall. intros w Hin. apply mbnode_apart; auto. intros ->. eauto.
Qed.

(** Replacing one list of the family. *)
Lemma rep_update s L m' id l' :
  rep s L -> vlid id ->
  circ (load32 m') (head_of (alloc s) id) l' ->
  NoDup (head_of (alloc s) id :: l') ->
  (forall n, n ∈ l' -> mbnode n /\
     forall id', vlid id' -> id' <> id -> n ∉ head_of (alloc s) id' :: L id') ->
  (forall id', vlid id' -> id' <> id ->
     circ (load32 m') (head_of (alloc s) id') (L id')) ->
  rep (set_mem m' s) (upd L id l').
Proof.
  intros R Hv Hc Hnd Hl Hf.
  assert (forall id1 id2 n, vlid id1 -> vlid id2 -> id1 <> id2 ->
    n ∈ head_of (alloc s) id1 :: upd L id l' id1 ->
    n ∈ head_of (alloc s) id2 :: upd L id l' id2 -> id1 = id -> False) as Hsep.
  { intros id1 id2 n V1 V2 Hne H1 H2 ->. rewrite upd_eq in H1.
    rewrite upd_ne in H2 by done. apply elem_of_cons in H1 as [->|H1].
    - apply Hne. apply (rep_sep _ _ R id id2 (head_of (alloc s) id)); [done|done|set_solver|done].
    - destruct (Hl n H1) as [_ Hn]. by apply (Hn id2). }
  constructor; cbn [alloc set_mem mem]; [apply R|apply R|..].
  - intros id' V. destruct (decide (id' = id)) as [->|Hne]; [by rewrite upd_eq|].
    rewrite upd_ne by done. auto.
  - intros id' n V. destruct (decide (id' = id)) as [->|Hne].
    + rewrite upd_eq, elem_of_cons. intros [->|Hn]; [|by apply Hl].
      apply (rep_node _ _ R id); [done|set_solver].
    + rewrite upd_ne by done. by apply (rep_node _ _ R).
  - intros id' V. destruct (decide (id' = id)) as [->|Hne]; [by rewrite upd_eq|].
    rewrite upd_ne by done. by apply (rep_nodup _ _ R).
  - intros id1 id2 n V1 V2 H1 H2. destruct (decide (id1 = id2)) as [|Hne]; [done|exfalso].
    destruct (decide (id1 = id)) as [E1|N1]; [by apply (Hsep id1 id2 n)|].
    destruct (decide (id2 = id)) as [E2|N2]; [by apply (Hsep id2 id1 n)|].
    rewrite upd_ne in H1, H2 by done. apply Hne. by apply (rep_sep _ _ R _ _ n).
Qed.

(** [ListRemove] on a node of list [id]. *)
Lemma rep_pop s L id pre x post :
  rep s L -> vlid id -> L id = pre ++ x :: post ->
  exists m', runs (ListRemove (tail_of (head_of (alloc s) id) pre)) s x (set_mem m' s) /\
    rep (set_mem m' s) (upd L id (pre ++ post)) /\
    loose (set_mem m' s) (upd L id (pre ++ post)) x /\ links_only (mem s) m'.
Proof.
  intros R Hv HL. pose proof (rep_clist _ _ _ R Hv) as Hc. rewrite HL in Hc.
  set (h := head_of (alloc s) id) in *.
  destruct (ListRemove_spec s h pre x post Hc) as (m' & Hr & [Hc' Hok'] & _ & Hse).
  destruct (proj1 (NoDup_mid h pre x post) (proj1 (proj2 Hc))) as [Hxn _].
  assert (forall w, w ∈ [tail_of h pre; x] -> w ∈ h :: L id) as Hws.
  { intros w. rewrite HL. pose proof (tail_in_prefix h pre (x :: post)). set_solver. }
  assert (forall w, w ∈ [tail_of h pre; x] -> mbnode w) as Hwm.
  { intros w Hw. eapply (rep_node _ _ R id); auto. }
  exists m'. split_and!; [done| | |by eapply links_only_except].
  - apply rep_update; [done|done|done|apply Hok'| |].
    + intros n Hn. split; [eapply (rep_node _ _ R id); [done|]; rewrite HL; set_solver|].
      intros id' V Hne Hin. apply Hne. symmetry.
      eapply (rep_sep _ _ R id id' n); [done|done|rewrite HL; set_solver|done].
    + intros id' V Hne. eapply rep_circ_frame; [done|done|done|done|exact Hne|].
      intros w Hw Hin. apply Hne. symmetry. eapply (rep_sep _ _ R id id' w); auto.
  - split; [apply Hwm; set_solver|]. cbn [alloc set_mem]. intros id' V Hin.
    destruct (decide (id' = id)) as [->|Hne].
    + rewrite upd_eq in Hin. done.
    + rewrite upd_ne in Hin by done. apply Hne. symmetry.
      eapply (rep_sep _ _ R id id' x); [done|done|rewrite HL; set_solver|done].
Qed.

(** [ListAdd] of a loose node into list [id]. *)
Lemma rep_push s L id pre x post :
  rep s L -> vlid id -> L id = pre ++ post -> loose s L x ->
  exists m', runs (ListAdd (tail_of (head_of (alloc s) id) pre) x) s tt (set_mem m' s) /\
    rep (set_mem m' s) (upd L id (pre ++ x :: post)) /\ links_only (mem s) m'.
Proof.
  intros R Hv HL [Hxm Hxl]. pose proof (rep_clist _ _ _ R Hv) as Hc. rewrite HL in Hc.
  pose proof (Hxl id Hv) as Hxn. rewrite HL in Hxn.
  set (h := head_of (alloc s) id) in *.
  assert (nodes_ok 4 (x :: h :: pre ++ post)) as Hok.
  { apply mbnode_ok; [constructor; [done|apply Hc]|].
    intros n [->|Hn]%elem_of_cons; [done|].
    eapply (rep_node _ _ R id); [done|]. by rewrite HL. }
  destruct (ListAdd_spec s h pre post x Hc Hok) as (m' & Hr & [Hc' Hok'] & Hse).
  assert (tail_of h pre ∈ h :: L id) as Ht by (rewrite HL; apply tail_in_prefix).
  assert (forall w, w ∈ [tail_of h pre; x] -> mbnode w) as Hwm.
  { intros w. rewrite !elem_of_cons, elem_of_nil. intros [->|[->|[]]]; [|done].
    by eapply (rep_node _ _ R id). }
  exists m'. split_and!; [done| |by eapply links_only_except].
  apply rep_update; [done|done|done|apply Hok'| |].
  - intros n Hn. apply elem_of_app in Hn. rewrite elem_of_cons in Hn.
    destruct (decide (n = x)) as [->|Hnx]; [split; [done|auto]|].
    assert (n ∈ h :: L id) as Hin by (rewrite HL; set_solver).
    split; [by eapply (rep_node _ _ R id)|]. intros id' V Hne Hin'. apply Hne.
    symmetry. by eapply (rep_sep _ _ R id id' n).
  - intros id' V Hne. eapply rep_circ_frame; [done|done|done|done|exact Hne|].
    intros w. rewrite !elem_of_cons, elem_of_nil. intros [->|[->|[]]] Hin.
    + apply Hne. symmetry. apply (rep_sep _ _ R id id' (tail_of h pre)); auto.
      by apply elem_of_cons.
    + by apply (Hxl id' V), elem_of_cons.
Qed.

(** ** Addresses of the blocks

    [alloc_inv s L f g]: the lists are [L], and the blocks of the free and allocated
    lists of size class [k] start at [f k] and [g k]. *)
Record alloc_inv (s : kstate) (L : lid -> list Z) (f g : nat -> list Z) : Prop := {
  ai_rep : rep s L;
  ai_free k : (k < 26)%nat -> map (baddr (mem s)) (L (LFree k)) = f k;
  ai_alloc k : (k < 26)%nat -> map (baddr (mem s)) (L (LAlloc k)) = g k;
}.

Lemma alloc_inv_ext s L f f' g g' :
  alloc_inv s L f g -> (forall k, (k < 26)%nat -> f' k = f k) ->
  (forall k, (k < 26)%nat -> g' k = g k) -> alloc_inv s L f' g'.
Proof.
  intros [R Hf Hg] Ef Eg. constructor; [done| |]; intros k Hk.
  - rewrite Ef by done. auto.
  - rewrite Eg by done. auto.
Qed.

(** Insertion before the first element that is not smaller: what the loops that look
    for a position compute. *)
Fixpoint insert_pos (a : Z) (l : list Z) : list Z :=
  match l with
  | [] => [a]
  | x :: l' => if x <? a then x :: insert_pos a l' else a :: l
  end.

Lemma map_baddr_links m m' l :
  links_only m m' -> (forall n, n ∈ l -> mbnode n) -> map (baddr m') l = map (baddr m) l.
Proof.
  intros Hl Hn. induction l as [|n l IH]; [done|]. cbn. f_equal.
  - apply links_only_baddr; set_solver.
  - apply IH. set_solver.
Qed.

Lemma rep_mb s L id n : rep s L -> vlid id -> n ∈ L id -> mbnode n.
Proof. intros R V H. apply (rep_node _ _ R id); set_solver. Qed.

(** Only links changed: the addresses of the listed blocks are the same. *)
Lemma map_baddr_rep s L m' id :
  rep s L -> vlid id -> links_only (mem s) m' ->
  map (baddr m') (L id) = map (baddr (mem s)) (L id).
Proof. intros R V Hl. apply map_baddr_links; [done|]. intros n. by eapply rep_mb. Qed.

(** Setting the address of a loose block. *)
Lemma rep_set_addr s L x v (m' := store32 (mem s) (x - 4) v) :
  rep s L -> loose s L x ->
  rep (set_mem m' s) L /\ loose (set_mem m' s) L x /\ baddr m' x = u32 v /\
  (forall n, mbnode n -> n <> x -> baddr m' n = baddr (mem s) n).
Proof.
  intros R [Hxm Hxl]. pose proof (mbnode_addr_kspan x Hxm) as Hk.
  split_and!; [constructor; cbn; try apply R|split; [done|exact Hxl]|by apply load32_store32_same|].
  - intros id V. apply (circ_frame (load32 (mem s))); [|by apply R].
    intros q Hq. assert (mbnode q) as Hmq by (by eapply rep_node).
    apply load32_store32_ne; [done|by apply mbnode_kspan|].
    by apply apart_sym, mbnode_addr_apart.
  - intros n Hn Hne. apply load32_store32_ne; [done|by apply mbnode_addr_kspan|].
    pose proof (mbnode_apart n x Hn Hxm Hne). unfold apart in *. lia.
Qed.

Lemma ReqMemBlock_spec s L x xs :
  rep s L -> L LPool = x :: xs ->
  exists m', runs ReqMemBlock s (x - 4) (set_mem m' s) /\
    rep (set_mem m' s) (upd L LPool xs) /\ loose (set_mem m' s) (upd L LPool xs) x /\
    links_only (mem s) m'.
Proof.
  intros R HL. destruct (rep_pop s L LPool [] x xs R I HL) as (m' & Hr & R' & Hx & Hl).
  exists m'. split_and!; try done. unfold ReqMemBlock.
  eapply runs_bind; [reflexivity|]. cbv beta.
  eapply runs_bind; [apply (IsListEmpty_spec s _ _ (rep_clist s L LPool R I))|].
  rewrite HL. cbv beta iota. eapply runs_bind; [exact Hr|].
  rewrite GET_STRUCT_mb by apply Hx. reflexivity.
Qed.

Lemma nth_in_bounds (l : list Z) k n : length l = n -> (k < n)%nat -> l !! k = Some (nth k l 0).
Proof. intros. destruct (nth_lookup_or_length l k 0); [done|lia]. Qed.

Lemma free_head_runs s L k :
  rep s L -> (k < 26)%nat ->
  runs (free_head (Z.of_nat k)) s (head_of (alloc s) (LFree k)) s.
Proof.
  intros R Hk. apply runs_arr_get; [lia|]. rewrite Nat2Z.id.
  eapply nth_in_bounds; [apply R|done].
Qed.

Lemma allocated_head_runs s L k :
  rep s L -> (k < 26)%nat ->
  runs (allocated_head (Z.of_nat k)) s (head_of (alloc s) (LAlloc k)) s.
Proof.
  intros R Hk. apply runs_arr_get; [lia|]. rewrite Nat2Z.id.
  eapply nth_in_bounds; [apply R|done].
Qed.

(** Where [insert_pos] splits a list. *)
Lemma insert_pos_split m a l :
  exists pre post, l = pre ++ post /\ Forall (fun n => baddr m n < a) pre /\
    (forall y ys, post = y :: ys -> a <= baddr m y) /\
    insert_pos a (map (baddr m) l) = map (baddr m) pre ++ a :: map (baddr m) post.
Proof.
  induction l as [|n l (pre & post & -> & H1 & H2 & H3)].
  - exists [], []. split_and!; [done|constructor|done|done].
  - destruct (Z.ltb_spec (baddr m n) a) as [Hlt|Hge].
    + exists (n :: pre), post. split_and!; [done|by constructor|done|].
      cbn. destruct (Z.ltb_spec (baddr m n) a); [|lia]. by rewrite H3.
    + exists [], (n :: pre ++ post). split_and!; [done|constructor| |].
      * by intros y ys [= -> _].
      * cbn. destruct (Z.ltb_spec (baddr m n) a); [lia|done].
Qed.

Lemma rep_succ s L id pre post :
  rep s L -> vlid id -> L id = pre ++ post ->
  load32 (mem s) (tail_of (head_of (alloc s) id) pre) = first_of (head_of (alloc s) id) post.
Proof. intros R V HL. apply (circ_succ (load32 (mem s))). rewrite <- HL. by apply R. Qed.

Lemma rep_ne_head s L id x : rep s L -> vlid id -> x ∈ L id -> x <> head_of (alloc s) id.
Proof.
  intros R V Hx ->. pose proof (rep_nodup _ _ R id V) as Hnd.
  apply NoDup_cons in Hnd. tauto.
Qed.

(** Reading the node after a prefix: [tmp->next], which is a listed node, and its
    address. Every loop over the lists starts with this. *)
Lemma rep_read s L id pre x post {A} (kh : K A) (k : Z -> Z -> K A) r s' :
  rep s L -> vlid id -> L id = pre ++ x :: post ->
  runs (k x (baddr (mem s) x)) s r s' ->
  runs (nxt <- ld32 (tail_of (head_of (alloc s) id) pre) ;;
        if nxt =? head_of (alloc s) id then kh
        else a' <- ld32 (GET_STRUCT nxt 4) ;; k nxt a') s r s'.
Proof.
  intros R V HL Hk. assert (x ∈ L id) as Hx by (rewrite HL; set_solver).
  eapply runs_bind; [reflexivity|]. cbv beta. rewrite (rep_succ s L id _ _ R V HL). cbn.
  destruct (Z.eqb_spec x (head_of (alloc s) id)) as [E|_];
    [by apply (rep_ne_head s L id x) in E|].
  eapply runs_bind; [reflexivity|]. cbv beta.
  rewrite GET_STRUCT_mb by (by eapply rep_mb). done.
Qed.

Lemma rep_read_end s L id {A} (c : A) (k : Z -> K A) :
  rep s L -> vlid id ->
  runs (nxt <- ld32 (tail_of (head_of (alloc s) id) (L id)) ;;
        if nxt =? head_of (alloc s) id then ret c else k nxt) s c s.
Proof.
  intros R V. eapply runs_bind; [reflexivity|]. cbv beta.
  rewrite (rep_succ s L id (L id) [] R V) by (by rewrite app_nil_r). cbn.
  by rewrite Z.eqb_refl.
Qed.

(** The walk of [find_pos] over the blocks with a smaller address. *)
Lemma find_pos_walk fuel s L id a pre p q :
  rep s L -> vlid id -> L id = pre ++ p ++ q ->
  Forall (fun n => baddr (mem s) n < a) p ->
  (forall y ys, q = y :: ys -> a <= baddr (mem s) y) ->
  (length p < fuel)%nat ->
  runs (loop fuel (fun tmp =>
    nxt <- ld32 tmp ;;
    if nxt =? head_of (alloc s) id then ret (inr tmp)
    else a' <- ld32 (GET_STRUCT nxt 4) ;;
         if a' <? a then ret (inl nxt) else ret (inr tmp))
    (tail_of (head_of (alloc s) id) pre)) s (tail_of (head_of (alloc s) id) (pre ++ p)) s.
Proof.
  intros R V. set (h := head_of (alloc s) id).
  revert pre fuel. induction p as [|x p IH]; intros pre fuel HL Hp Hq Hf;
    (destruct fuel as [|fuel]; [cbn in Hf; lia|]).
  - rewrite app_nil_r. cbn [app] in HL. apply loop_exit. destruct q as [|y q].
    + rewrite app_nil_r in HL. subst pre. by apply (rep_read_end s L id).
    + apply (rep_read s L id pre y q); [done|done|done|].
      specialize (Hq y q eq_refl).
      destruct (Z.ltb_spec (baddr (mem s) y) a); [lia|reflexivity].
  - apply Forall_cons in Hp as [Hx Hp]. eapply loop_step.
    + apply (rep_read s L id pre x (p ++ q)); [done|done|done|].
      destruct (Z.ltb_spec (baddr (mem s) x) a); [reflexivity|lia].
    + replace (pre ++ x :: p) with ((pre ++ [x]) ++ p) by (by rewrite <- app_assoc).
      replace x with (tail_of h (pre ++ [x])) at 1 by (by rewrite tail_of_app).
      apply IH; [by rewrite <- app_assoc|done|done|cbn in Hf; lia].
Qed.

(** The search stops where [insert_pos] inserts. *)
Lemma find_pos_spec fuel s L id a :
  rep s L -> vlid id -> (length (L id) < fuel)%nat ->
  exists pre post, L id = pre ++ post /\
    runs (find_pos fuel (head_of (alloc s) id) a) s (tail_of (head_of (alloc s) id) pre) s /\
    insert_pos a (map (baddr (mem s)) (L id)) =
      map (baddr (mem s)) pre ++ a :: map (baddr (mem s)) post.
Proof.
  intros R V Hf. destruct (insert_pos_split (mem s) a (L id)) as (pre & post & HL & H1 & H2 & H3).
  exists pre, post. split_and!; [done| |done].
  apply (find_pos_walk fuel s L id a [] pre post); [done|done|done|done|done|].
  rewrite HL, length_app in Hf. lia.
Qed.

(** Inserting a loose block at its place: the search followed by [ListAdd]. *)
Lemma insert_block fuel s L id x :
  rep s L -> vlid id -> loose s L x -> (length (L id) < fuel)%nat ->
  exists p m' l', runs (find_pos fuel (head_of (alloc s) id) (baddr (mem s) x)) s p s /\
    runs (ListAdd p x) s tt (set_mem m' s) /\
    rep (set_mem m' s) (upd L id l') /\ links_only (mem s) m' /\
    map (baddr m') l' = insert_pos (baddr (mem s) x) (map (baddr (mem s)) (L id)).
Proof.
  intros R V Lx Hf.
  destruct (find_pos_spec fuel s L id (baddr (mem s) x) R V Hf) as (pre & post & EL & Hr & Ei).
  destruct (rep_push s L id pre x post R V EL Lx) as (m' & Hr' & R' & Hl).
  exists (tail_of (head_of (alloc s) id) pre), m', (pre ++ x :: post).
  split_and!; [done|done|done|done|]. rewrite Ei, map_app. cbn.
  assert (forall n, n ∈ pre ++ post -> mbnode n) as Hmb.
  { intros n. rewrite <- EL. by apply (rep_mb _ _ _ _ R). }
  rewrite !(map_baddr_links (mem s) m') by (done || intros; apply Hmb; set_solver).
  by rewrite (links_only_baddr (mem s) m') by (done || apply Lx).
Qed.
