(* ===== verification/AllocReq.v ===== *)
(** * Allocation: ReqBytes against its specification

    The specification works on the addresses of the free and allocated blocks of each
    size class. A request of class [t] takes the first block of the smallest class
    [j >= t] that has one and returns its last [2^t] bytes; what is left of the block
    goes back as one free block of each class from [t] to [j - 1]. *)

From Stdlib Require Import ZArith Lia ZifyBool.
From stdpp Require Import base numbers gmap list.
From S2P Require Import Prelude Memory Machine Lists Allocator AllocRep.

(** ** Size classes *)

Lemma GetMemBlockSize_pow t : 0 <= t <= 30 -> GetMemBlockSize t = 2 ^ t.
Proof.
  intros. unfold GetMemBlockSize. rewrite shl32_1 by lia. apply i32_small.
  split; [pose proof (pow2_pos t); lia|]. change 2147483648 with (2 ^ 31).
  apply Z.pow_lt_mono_r; lia.
Qed.

Lemma shr32_one size i :
  0 < size < 2147483648 -> 0 <= i -> shr32 size i = 1 <-> Z.log2 size = i.
Proof.
  intros Hs Hi. unfold shr32. rewrite u32_small, Z.shiftr_div_pow2 by lia.
  pose proof (pow2_pos i Hi) as Hp. split.
  - intros Hd. apply Z.log2_unique; [lia|]. rewrite Z.pow_succ_r by lia.
    pose proof (Z.div_mod size (2 ^ i)). pose proof (Z.mod_pos_bound size (2 ^ i)). lia.
  - intros <-. pose proof (Z.log2_spec size ltac:(lia)) as Hl.
    rewrite Z.pow_succ_r in Hl by apply Z.log2_nonneg. symmetry.
    apply (Z.div_unique_pos _ _ _ (size - 2 ^ Z.log2 size)); lia.
Qed.

Lemma size_type_loop_log2 n i size :
  0 < size < 2147483648 -> 0 <= i <= Z.log2 size -> Z.log2 size < i + Z.of_nat n ->
  size_type_loop n i size = Z.log2 size.
Proof.
  revert i; induction n as [|n IH]; intros i Hs Hi Hn; [lia|]. cbn [size_type_loop].
  destruct (Z.eqb_spec (shr32 size i) 1) as [E|E].
  - apply shr32_one in E; lia.
  - apply IH; [done| |lia]. assert (i <> Z.log2 size); [|lia].
    intros ->. apply E. apply shr32_one; lia.
Qed.

(** The size class is the binary logarithm, rounded up. *)
Lemma GetMemBlockSizeType_log2_up size :
  0 < size < 2147483648 -> GetMemBlockSizeType size = Z.log2_up size.
Proof.
  intros Hs. unfold GetMemBlockSizeType. pose proof (Z.log2_nonneg size) as H0.
  assert (Z.log2 size < 31) as H31 by (apply Z.log2_lt_pow2; lia).
  rewrite size_type_loop_log2 by lia. rewrite shl32_1, u32_small by lia.
  pose proof (Z.log2_spec size ltac:(lia)) as Hl. set (i := Z.log2 size) in *.
  assert (Z.land size (2 ^ i) = 2 ^ i) as ->.
  { apply Z.bits_inj'. intros k Hk. rewrite Z.land_spec, Z.pow2_bits_eqb by lia.
    destruct (Z.eqb_spec i k) as [<-|]; [|apply andb_false_r].
    rewrite andb_true_r. apply Z.bit_log2. lia. }
  destruct (Z.eqb_spec (2 ^ i) size) as [E|E].
  - rewrite <- E. by rewrite Z.log2_up_pow2.
  - symmetry. apply Z.log2_up_unique; [lia|].
    replace (Z.pred (i + 1)) with i by lia. replace (i + 1) with (Z.succ i) by lia. lia.
Qed.

(** The size class of a request as an index. *)
Definition class_of (size : Z) : nat := Z.to_nat (Z.log2_up size).

Lemma class_of_spec size :
  0 < size <= 33554432 ->
  GetMemBlockSizeType size = Z.of_nat (class_of size) /\ (class_of size < 26)%nat /\
  size <= 2 ^ Z.of_nat (class_of size) < 2 * size.
Proof.
  intros Hs. unfold class_of. pose proof (Z.log2_up_nonneg size).
  rewrite Z2Nat.id by done. rewrite GetMemBlockSizeType_log2_up by lia. split_and!; [done| | |].
  - assert (Z.log2_up size <= 25); [|lia]. change 33554432 with (2 ^ 25) in Hs.
    rewrite <- (Z.log2_up_pow2 25) by lia. apply Z.log2_up_le_mono. lia.
  - destruct (Z.eq_dec size 1) as [->|]; [done|].
    apply Z.log2_up_spec. lia.
  - destruct (Z.eq_dec size 1) as [->|]; [done|].
    pose proof (Z.log2_up_spec size ltac:(lia)) as [Hlt _].
    assert (0 < Z.log2_up size) by (apply Z.log2_up_pos; lia).
    replace (Z.log2_up size) with (Z.succ (Z.pred (Z.log2_up size))) by lia.
    rewrite Z.pow_succ_r by lia. lia.
Qed.

(** ** Dividing a block *)

Lemma loose_mono s s' L L' x :
  loose s L x -> alloc s' = alloc s ->
  (forall id n, vlid id -> n ∈ L' id -> n ∈ L id \/ n <> x) -> loose s' L' x.
Proof.
  intros [Hm Hl] E Hsub. split; [done|]. intros id V Hin. rewrite E in Hin.
  apply (Hl id V). apply elem_of_cons in Hin as [->|Hin]; [set_solver|].
  destruct (Hsub id x V Hin); [set_solver|done].
Qed.

Lemma loose_upd s m L id l' x :
  loose s L x -> (forall n, n ∈ l' -> n ∈ L id \/ n <> x) ->
  loose (set_mem m s) (upd L id l') x.
Proof.
  intros Hx Hl. eapply loose_mono; [exact Hx|done|]. intros id' n V.
  destruct (decide (id' = id)) as [->|Hne]; [rewrite upd_eq; auto|].
  rewrite upd_ne by done. auto.
Qed.

Lemma loose_ne s L id x y : loose s L x -> vlid id -> y ∈ L id -> y <> x.
Proof. intros [_ Hl] V Hy ->. apply (Hl id V). set_solver. Qed.

(** The lists after a division of the first block [x] of class [k], with the spare
    [MemBlock] [y]. *)
Definition divide_lists (L : lid -> list Z) (k : nat) (x : Z) (xs : list Z) (y : Z) (ys : list Z) :
    lid -> list Z :=
  upd (upd (upd L (LFree k) xs) LPool ys) (LFree (k - 1)) (y :: x :: L (LFree (k - 1))).

(** First half: the block and a spare [MemBlock] are taken out of their lists. *)
Lemma divide_pops s L k x xs y ys (L2 := upd (upd L (LFree k) xs) LPool ys) :
  rep s L -> (1 <= k < 26)%nat -> L (LFree k) = x :: xs -> L LPool = y :: ys ->
  exists m1 m2, runs (ListRemove (head_of (alloc s) (LFree k))) s x (set_mem m1 s) /\
    runs ReqMemBlock (set_mem m1 s) (y - 4) (set_mem m2 s) /\
    rep (set_mem m2 s) L2 /\ loose (set_mem m2 s) L2 x /\ loose (set_mem m2 s) L2 y /\
    x <> y /\ links_only (mem s) m2.
Proof.
  intros R Hk HL HP. assert (vlid (LFree k)) as Vk by (cbn; lia).
  destruct (rep_pop s L (LFree k) [] x xs R Vk HL) as (m1 & Hr1 & R1 & Lx1 & Hl1).
  cbn [app] in R1, Lx1. set (L1 := upd L (LFree k) xs) in *.
  assert (L1 LPool = y :: ys) as HP1 by (unfold L1; by rewrite upd_ne).
  destruct (ReqMemBlock_spec (set_mem m1 s) L1 y ys R1 HP1) as (m2 & Hr2 & R2 & Ly2 & Hl2).
  exists m1, m2. split_and!; try done.
  - eapply (loose_upd (set_mem m1 s)); [exact Lx1|]. intros n Hn. left. rewrite HP1. set_solver.
  - intros E. apply (loose_ne _ L1 LPool x y Lx1); [done|rewrite HP1; set_solver|done].
  - by eapply links_only_trans.
Qed.

(** Second half: both halves are put into the list of the next smaller class. *)
Lemma divide_pushes s L k x y :
  rep s L -> (k < 26)%nat -> loose s L x -> loose s L y -> x <> y ->
  exists m1 m2, runs (ListAdd (head_of (alloc s) (LFree k)) x) s tt (set_mem m1 s) /\
    runs (ListAdd (head_of (alloc s) (LFree k)) y) (set_mem m1 s) tt (set_mem m2 s) /\
    rep (set_mem m2 s) (upd L (LFree k) (y :: x :: L (LFree k))) /\ links_only (mem s) m2.
Proof.
  intros R Hk Lx Ly Hxy. assert (vlid (LFree k)) as Vk by (cbn; lia).
  destruct (rep_push s L (LFree k) [] x (L (LFree k)) R Vk eq_refl Lx) as (m1 & Hr1 & R1 & Hl1).
  cbn [app] in R1. set (L1 := upd L (LFree k) (x :: L (LFree k))) in *.
  destruct (rep_push (set_mem m1 s) L1 (LFree k) [] y (x :: L (LFree k)) R1 Vk)
    as (m2 & Hr2 & R2 & Hl2); [by unfold L1; rewrite upd_eq| |].
  { eapply loose_upd; [exact Ly|]. intros n [->|Hn]%elem_of_cons; auto. }
  exists m1, m2. split_and!; [done|done| |by eapply links_only_trans].
  eapply rep_ext; [exact R2|]. intros id. unfold L1, upd. by destruct (decide _).
Qed.

(** The whole branch, on the node lists. *)
Lemma divide_head_rep s L k x xs y ys :
  rep s L -> (1 <= k < 26)%nat -> L (LFree k) = x :: xs -> L LPool = y :: ys ->
  exists m', runs (divide_head (Z.of_nat k) (head_of (alloc s) (LFree k))) s true (set_mem m' s) /\
    rep (set_mem m' s) (divide_lists L k x xs y ys) /\
    baddr m' y = u32 (baddr (mem s) x + 2 ^ Z.of_nat (k - 1)) /\
    (forall n, mbnode n -> n <> y -> baddr m' n = baddr (mem s) n) /\
    pool_only (mem s) m'.
Proof.
  intros R Hk HL HP.
  destruct (divide_pops s L k x xs y ys R Hk HL HP)
    as (m1 & m2 & Hr1 & Hr2 & R2 & Lx2 & Ly2 & Hxy & Hl2).
  set (L2 := upd (upd L (LFree k) xs) LPool ys) in *.
  pose proof (proj1 Lx2) as Mx. pose proof (proj1 Ly2) as My.
  destruct (rep_set_addr (set_mem m2 s) L2 y (baddr m2 x + GetMemBlockSize (Z.of_nat (k - 1))) R2 Ly2)
    as (R3 & Ly3 & E3 & F3). set (m3 := store32 _ _ _) in *.
  destruct (divide_pushes (set_mem m3 s) L2 (k - 1) x y R3) as (m4 & m5 & Hr4 & Hr5 & R5 & Hl5);
    [lia|by (eapply loose_mono; [exact Lx2|done|auto])|done|done|].
  assert (L2 (LFree (k - 1)) = L (LFree (k - 1))) as EL.
  { unfold L2. rewrite !upd_ne by (done || intros [=]; lia). done. }
  rewrite EL in R5. exists m5. split_and!; [|exact R5| | |].
  - unfold divide_head. replace (Z.of_nat k - 1) with (Z.of_nat (k - 1)) by lia.
    eapply runs_bind; [exact Hr1|]. cbv beta zeta. rewrite GET_STRUCT_mb by done.
    eapply runs_bind; [exact Hr2|]. cbv beta.
    do 2 (eapply runs_bind; [reflexivity|]; cbv beta). rewrite !node_of_mb by done.
    eapply runs_bind; [apply (free_head_runs (set_mem m3 s) L2); [exact R3|lia]|].
    cbv beta. eapply runs_bind; [exact Hr4|]. cbv beta. eapply runs_bind; [exact Hr5|]. reflexivity.
  - rewrite (links_only_baddr m3 m5), E3 by done. cbn [mem set_mem].
    by rewrite GetMemBlockSize_pow, (links_only_baddr (mem s) m2) by (done || lia).
  - intros n Hn Hne. rewrite (links_only_baddr m3 m5), F3 by done. cbn [mem set_mem].
    by rewrite (links_only_baddr (mem s) m2).
  - eapply pool_only_trans; [by apply links_pool_only|].
    eapply pool_only_trans; [|by apply links_pool_only]. by apply addr_pool_only.
Qed.

(** The free blocks after a division of the first block [b] of class [k]. *)
Definition divide_free (f : nat -> list Z) (k : nat) (b : Z) : nat -> list Z :=
  upd (upd f k (tl (f k))) (k - 1)%nat ((b + 2 ^ Z.of_nat (k - 1)) :: b :: f (k - 1)%nat).

Lemma map_baddr_ext m m' l :
  (forall n, n ∈ l -> baddr m' n = baddr m n) -> map (baddr m') l = map (baddr m) l.
Proof. intros Hn. induction l as [|n l IH]; cbn; [done|]. f_equal; [|apply IH]; set_solver. Qed.

Lemma divide_head_inv s L f g k b rest y ys :
  alloc_inv s L f g -> (1 <= k < 26)%nat -> f k = b :: rest -> L LPool = y :: ys ->
  0 <= b -> b + 2 ^ Z.of_nat k <= W32 ->
  exists m' L', runs (divide_head (Z.of_nat k) (head_of (alloc s) (LFree k))) s true (set_mem m' s) /\
    alloc_inv (set_mem m' s) L' (divide_free f k b) g /\ L' LPool = ys /\
    pool_only (mem s) m'.
Proof.
  intros [R Hf Hg] Hk Hfk HP Hb Hbk. pose proof (Hf k ltac:(lia)) as Ek. rewrite Hfk in Ek.
  destruct (L (LFree k)) as [|x xs] eqn:HL; [done|]. cbn in Ek. injection Ek as Ex Exs.
  destruct (divide_head_rep s L k x xs y ys R Hk HL HP) as (m' & Hr & R' & Ey & En & Hp).
  exists m', (divide_lists L k x xs y ys).
  assert (2 ^ Z.of_nat k = 2 * 2 ^ Z.of_nat (k - 1)) as Epow.
  { rewrite <- Z.pow_succ_r by lia. f_equal. lia. }
  pose proof (pow2_pos (Z.of_nat (k - 1)) ltac:(lia)) as Hp2.
  assert (forall id n, id <> LPool -> vlid id -> n ∈ L id -> baddr m' n = baddr (mem s) n) as Ekeep.
  { intros id n Hid V Hn. apply En; [by eapply (rep_mb s L)|]. intros ->. apply Hid.
    apply (rep_sep _ _ R id LPool y); [done|done|set_solver|rewrite HP; set_solver]. }
  split_and!; [done| |unfold divide_lists; by rewrite upd_ne, upd_eq|done].
  constructor; [done| |]; intros i Hi; cbn [mem set_mem]; unfold divide_lists, divide_free.
  - destruct (decide (i = k - 1)%nat) as [->|N1]; [rewrite !upd_eq|rewrite !(upd_ne _ (k - 1)%nat), (upd_ne _ (LFree (k - 1))), (upd_ne _ LPool) by congruence].
    + cbn [map]. rewrite Ey, Ex, u32_small by lia. f_equal. f_equal.
      * rewrite (Ekeep (LFree k)); [done|done|cbn; lia|rewrite HL; set_solver].
      * rewrite (map_baddr_ext (mem s)); [apply Hf; lia|]. intros n. apply Ekeep; [done|cbn; lia].
    + destruct (decide (i = k)) as [->|N2]; [rewrite !upd_eq, Hfk|rewrite !upd_ne by congruence].
      * cbn. rewrite <- Exs. apply map_baddr_ext. intros n Hn.
        apply (Ekeep (LFree k)); [done|cbn; lia|rewrite HL; set_solver].
      * rewrite (map_baddr_ext (mem s)); [apply Hf; lia|]. intros n. apply Ekeep; [done|cbn; lia].
  - rewrite !upd_ne by done. rewrite (map_baddr_ext (mem s)); [apply Hg; lia|].
    intros n. apply Ekeep; [done|cbn; lia].
Qed.

(** ** The search for a larger block *)

(** The smallest class from [t] on, among [n], that has a free block. *)
Fixpoint find_fit (n : nat) (t : nat) (f : nat -> list Z) : option nat :=
  match n with
  | O => None
  | S n' =>
      match f t with
      | [] => find_fit n' (S t) f
      | _ :: _ => Some t
      end
  end.

Lemma find_fit_Some n t f j :
  find_fit n t f = Some j ->
  (t <= j < t + n)%nat /\ f j <> [] /\ (forall i, (t <= i < j)%nat -> f i = []).
Proof.
  revert t; induction n as [|n IH]; intros t; cbn; [done|].
  destruct (f t) as [|b bs] eqn:E.
  - intros H. destruct (IH _ H) as (H1 & H2 & H3). split_and!; [lia|lia|done|].
    intros i Hi. destruct (decide (i = t)) as [->|]; [done|]. apply H3. lia.
  - intros [= <-]. split_and!; [lia|lia|by rewrite E|]. intros i Hi. lia.
Qed.

Lemma find_fit_None n t f :
  find_fit n t f = None -> forall i, (t <= i < t + n)%nat -> f i = [].
Proof.
  revert t; induction n as [|n IH]; intros t; cbn; [lia|].
  destruct (f t) as [|b bs] eqn:E; [|done]. intros H i Hi.
  destruct (decide (i = t)) as [->|]; [done|]. apply (IH (S t)); [done|lia].
Qed.

(** The free blocks after [DivBlock(t)] has cut a block of class [j] down to class
    [t - 1]: both halves of the last division, and the lower halves of the others. *)
Definition div_free (f : nat -> list Z) (t j : nat) : nat -> list Z := fun i =>
  let e := hd 0 (f j) + 2 ^ Z.of_nat j in
  if decide (i = t - 1)%nat then
    (e - 2 ^ Z.of_nat (t - 1)) :: (e - 2 ^ Z.of_nat t) :: f i
  else if decide (i = j) then tl (f j)
  else if decide (t <= i < j)%nat then [e - 2 ^ Z.of_nat (i + 1)]
  else f i.

(** Every free block lies in the address space. *)
Definition free_bound (f : nat -> list Z) : Prop :=
  forall k b, (k < 26)%nat -> b ∈ f k -> 0 <= b /\ b + 2 ^ Z.of_nat k <= W32.

(** One more division after [DivBlock(t + 1)] gives [DivBlock(t)]. *)
Lemma div_free_step f t j i :
  (1 <= t < j)%nat -> f t = [] ->
  divide_free (div_free f (t + 1) j) t (hd 0 (f j) + 2 ^ Z.of_nat j - 2 ^ Z.of_nat t) i =
  div_free f t j i.
Proof.
  intros Ht Hft. assert (2 ^ Z.of_nat t = 2 * 2 ^ Z.of_nat (t - 1)) as Epow.
  { rewrite <- Z.pow_succ_r by lia. f_equal. lia. }
  unfold divide_free, div_free, upd. replace (t + 1 - 1)%nat with t by lia.
  repeat case_decide; try lia; try done; subst; cbn [tl]; rewrite ?Hft; try done.
  f_equal. lia.
Qed.

Lemma div_free_one f t b rest i :
  (1 <= t)%nat -> f t = b :: rest -> divide_free f t b i = div_free f t t i.
Proof.
  intros Ht Hft. assert (2 ^ Z.of_nat t = 2 * 2 ^ Z.of_nat (t - 1)) as Epow.
  { rewrite <- Z.pow_succ_r by lia. f_equal. lia. }
  unfold divide_free, div_free, upd. rewrite Hft.
  repeat case_decide; try lia; try done; subst; cbn [hd]. f_equal; [lia|]. f_equal. lia.
Qed.

(** The test at the start of [DivBlock] and the look at the list, which is not empty. *)
Lemma DivBlock_hit fuel s L f g t b rest y ys :
  alloc_inv s L f g -> (1 <= t < 26)%nat -> f t = b :: rest -> L LPool = y :: ys ->
  0 <= b -> b + 2 ^ Z.of_nat t <= W32 ->
  exists m' L', runs (DivBlock (S fuel) (Z.of_nat t)) s true (set_mem m' s) /\
    alloc_inv (set_mem m' s) L' (div_free f t t) g /\ L' LPool = ys /\ pool_only (mem s) m'.
Proof.
  intros I Ht Hf HP Hb Hbt.
  destruct (divide_head_inv s L f g t b rest y ys I Ht Hf HP Hb Hbt)
    as (m' & L' & Hr & I' & HP' & Hpo).
  exists m', L'. split_and!; [| |done|done].
  - cbn [DivBlock]. unfold kMemBlockTypeNum.
    assert ((Z.of_nat t =? 0) || (Z.of_nat t =? 26) = false) as -> by lia.
    eapply runs_bind; [apply (free_head_runs s L); [apply I|lia]|]. cbv beta.
    eapply runs_bind; [apply (IsListEmpty_spec s _ (L (LFree t))), rep_clist; [apply I|cbn; lia]|].
    pose proof (ai_free _ _ _ _ I t ltac:(lia)) as E. rewrite Hf in E.
    destruct (L (LFree t)); [done|]. exact Hr.
  - eapply alloc_inv_ext; [exact I'| |done]. intros k Hk. symmetry. by eapply div_free_one; [lia|].
Qed.

(** The look at an empty list, followed by the recursive call. *)
Lemma DivBlock_miss fuel s L t r s' :
  rep s L -> (1 <= t < 26)%nat -> L (LFree t) = [] ->
  runs (r <- DivBlock fuel (Z.of_nat (S t)) ;;
        if r then DivBlock fuel (Z.of_nat t) else ret false) s r s' ->
  runs (DivBlock (S fuel) (Z.of_nat t)) s r s'.
Proof.
  intros R Ht HL Hr. cbn [DivBlock]. unfold kMemBlockTypeNum.
  assert ((Z.of_nat t =? 0) || (Z.of_nat t =? 26) = false) as -> by lia.
  eapply runs_bind; [apply (free_head_runs s L); [done|lia]|]. cbv beta.
  eapply runs_bind; [apply (IsListEmpty_spec s _ (L (LFree t))), rep_clist; [done|cbn; lia]|].
  rewrite HL. cbv beta iota. cbn [negb].
  by replace (Z.of_nat t + 1) with (Z.of_nat (S t)) by lia.
Qed.

(** After a successful [DivBlock(t + 1)], the second call [DivBlock(t)] finds the
    upper half at the front of the list and divides it. *)
Lemma DivBlock_again fuel s L f g t j :
  (1 <= t < j)%nat -> (j < 26)%nat -> f t = [] -> f j <> [] -> free_bound f ->
  alloc_inv s L (div_free f (S t) j) g -> L LPool <> [] ->
  exists m' L', runs (DivBlock (S fuel) (Z.of_nat t)) s true (set_mem m' s) /\
    alloc_inv (set_mem m' s) L' (div_free f t j) g /\
    (length (L' LPool) + 1 = length (L LPool))%nat /\ pool_only (mem s) m'.
Proof.
  intros Ht Hj Hft Hfj Hb I HP. destruct (f j) as [|b rest] eqn:Efj; [done|].
  destruct (Hb j b) as [Hb0 Hb1]; [lia|rewrite Efj; set_solver|].
  assert (2 ^ Z.of_nat t < 2 ^ Z.of_nat j) as Hpw by (apply Z.pow_lt_mono_r; lia).
  pose proof (pow2_pos (Z.of_nat t) ltac:(lia)) as Hpt.
  destruct (L LPool) as [|y ys] eqn:EP; [done|].
  set (c := b + 2 ^ Z.of_nat j - 2 ^ Z.of_nat t).
  assert (div_free f (S t) j t = [c; b + 2 ^ Z.of_nat j - 2 ^ Z.of_nat (S t)]) as Ed.
  { unfold div_free. rewrite decide_True, Efj, Hft by lia. cbn [hd].
    by replace (S t - 1)%nat with t by lia. }
  destruct (DivBlock_hit fuel s L (div_free f (S t) j) g t c _ y ys I ltac:(lia) Ed EP)
    as (m' & L' & Hr & I' & HP' & Hpo); [lia|lia|].
  exists m', L'. split_and!; [done| |rewrite HP'; cbn; lia|done].
  eapply alloc_inv_ext; [exact I'| |done]. intros k Hk.
  rewrite <- div_free_step by (lia || done). rewrite Efj. cbn [hd]. fold c.
  replace (t + 1)%nat with (S t) by lia. by eapply div_free_one; [lia|].
Qed.

(** [DivBlock(t)] fails exactly when no class from [t] on has a block, and then
    changes nothing; otherwise it ends in the state [div_free] describes. *)
Lemma DivBlock_spec n t fuel s L f g :
  (t + n = 26)%nat -> (1 <= t)%nat -> (n < fuel)%nat ->
  alloc_inv s L f g -> free_bound f -> (n <= length (L LPool))%nat ->
  match find_fit n t f with
  | None => runs (DivBlock fuel (Z.of_nat t)) s false s
  | Some j => exists m' L', runs (DivBlock fuel (Z.of_nat t)) s true (set_mem m' s) /\
      alloc_inv (set_mem m' s) L' (div_free f t j) g /\
      (length (L' LPool) + (j - t + 1) = length (L LPool))%nat /\ pool_only (mem s) m'
  end.
Proof.
  revert t fuel. induction n as [|n IH]; intros t fuel Htn Ht Hfuel I Hb Hp;
    (destruct fuel as [|fuel]; [lia|]).
  { assert (t = 26%nat) as -> by lia. reflexivity. }
  cbn [find_fit]. pose proof (ai_free _ _ _ _ I t ltac:(lia)) as E.
  destruct (f t) as [|b rest] eqn:Hft.
  - assert (L (LFree t) = []) as HL by (by destruct (L (LFree t))).
    specialize (IH (S t) fuel ltac:(lia) ltac:(lia) ltac:(lia) I Hb ltac:(lia)).
    destruct (find_fit n (S t) f) as [j|] eqn:Hfit.
    + destruct IH as (m1 & L1 & Hr1 & I1 & Hl1 & Hp1).
      destruct (find_fit_Some _ _ _ _ Hfit) as (Hj & Hfj & _).
      destruct fuel as [|fuel]; [lia|].
      destruct (DivBlock_again fuel (set_mem m1 s) L1 f g t j) as (m2 & L2 & Hr2 & I2 & Hl2 & Hp2);
        [lia|lia|done|done|done|done|intros E'; rewrite E' in Hl1; cbn in Hl1; lia|].
      exists m2, L2. split_and!; [|done|lia|by eapply pool_only_trans].
      eapply DivBlock_miss; [apply I|lia|done|]. eapply runs_bind; [exact Hr1|]. exact Hr2.
    + eapply DivBlock_miss; [apply I|lia|done|]. eapply runs_bind; [exact IH|]. reflexivity.
  - destruct (Hb t b) as [Hb0 Hb1]; [lia|rewrite Hft; set_solver|].
    destruct (L LPool) as [|y ys] eqn:HP; [cbn in Hp; lia|].
    destruct (DivBlock_hit fuel s L f g t b rest y ys I ltac:(lia) Hft HP Hb0 Hb1)
      as (m' & L' & Hr & I' & HP' & Hpo).
    exists m', L'. split_and!; [done|done| |done]. rewrite HP'. cbn. lia.
Qed.

(** ** ReqBytes *)

(** The end of the block that a request of class [j] is cut from. *)
Definition block_end (f : nat -> list Z) (j : nat) : Z := hd 0 (f j) + 2 ^ Z.of_nat j.

(** The free blocks after a request of class [t] served from class [j]. *)
Definition req_free (f : nat -> list Z) (t j : nat) : nat -> list Z := fun i =>
  if decide (i = j) then tl (f j)
  else if decide (t <= i < j)%nat then [block_end f j - 2 ^ Z.of_nat (i + 1)]
  else f i.

(** The abstract request: the address returned and the new free and allocated
    blocks; [None] when no class from [t] on has a block. *)
Definition req_spec (f g : nat -> list Z) (t : nat) :
    option (Z * (nat -> list Z) * (nat -> list Z)) :=
  match find_fit (26 - t) t f with
  | None => None
  | Some j =>
      let r := block_end f j - 2 ^ Z.of_nat t in
      Some (r, req_free f t j, upd g t (insert_pos r (g t)))
  end.

(** Moving the first free block of a class to the allocated list. *)
Lemma ReqBytes_take fuel s L f g size t b rest :
  alloc_inv s L f g -> GetMemBlockSizeType size = Z.of_nat t -> (t < 26)%nat ->
  f t = b :: rest -> (length (g t) < fuel)%nat ->
  exists m' L', runs (ReqBytes (S fuel) size) s b (set_mem m' s) /\
    alloc_inv (set_mem m' s) L' (upd f t rest) (upd g t (insert_pos b (g t))) /\
    L' LPool = L LPool /\ pool_only (mem s) m'.
Proof.
  intros [R Hf Hg] Hty Ht Hft Hfuel.
  assert (vlid (LFree t)) as Vf by done. assert (vlid (LAlloc t)) as Va by done.
  pose proof (Hf t Ht) as Ef. rewrite Hft in Ef.
  destruct (L (LFree t)) as [|x xs] eqn:HL; [done|]. cbn in Ef. injection Ef as Ex Exs.
  destruct (rep_pop s L (LFree t) [] x xs R Vf HL) as (m1 & Hr1 & R1 & Lx1 & Hl1).
  cbn [app] in R1, Lx1. set (L1 := upd L (LFree t) xs) in *.
  assert (L1 (LAlloc t) = L (LAlloc t)) as EA by (unfold L1; by rewrite upd_ne).
  assert (baddr m1 x = b) as Eb1 by (rewrite (links_only_baddr (mem s)); [done|done|apply Lx1]).
  destruct (insert_block fuel (set_mem m1 s) L1 (LAlloc t) x R1 Va Lx1)
    as (p & m2 & l' & Hr2 & Hr3 & R2 & Hl2 & Ei).
  { rewrite EA. rewrite <- (Hg t Ht), length_map in Hfuel. done. }
  cbn [mem set_mem] in Ei, Hr2. rewrite Eb1 in Ei, Hr2.
  pose proof (links_only_trans _ _ _ Hl1 Hl2) as Hl.
  exists m2, (upd L1 (LAlloc t) l').
  split_and!; [|constructor; [exact R2| |]|by unfold L1; rewrite !upd_ne|by apply links_pool_only].
  - cbn [ReqBytes]. rewrite Hty.
    eapply runs_bind; [by apply (free_head_runs s L)|]. cbv beta.
    eapply runs_bind; [apply (IsListEmpty_spec s _ (L (LFree t))), rep_clist; done|].
    rewrite HL. cbv beta iota zeta. eapply runs_bind; [exact Hr1|]. cbv beta.
    rewrite GET_STRUCT_mb, node_of_mb by apply Lx1.
    eapply runs_bind; [by apply (allocated_head_runs (set_mem m1 s) L1)|]. cbv beta.
    eapply runs_bind; [reflexivity|]. cbv beta. cbn [mem set_mem].
    fold (baddr m1 x). rewrite Eb1. eapply runs_bind; [exact Hr2|]. cbv beta.
    eapply runs_bind; [exact Hr3|]. cbv beta. unfold runs, ld32, gets. cbn [mem set_mem].
    fold (baddr m2 x). by rewrite (links_only_baddr m1 m2), Eb1 by (done || apply Lx1).
  - intros k Hk. rewrite upd_ne by done. cbn [mem set_mem]. unfold L1.
    destruct (decide (k = t)) as [->|Hne]; [rewrite !upd_eq|rewrite !upd_ne by congruence].
    + rewrite <- Exs. apply map_baddr_links; [done|]. intros n Hn.
      apply (rep_mb s L (LFree t)); [done|done|rewrite HL; set_solver].
    + rewrite (map_baddr_rep s L); auto.
  - intros k Hk. cbn [mem set_mem].
    destruct (decide (k = t)) as [->|Hne]; [rewrite !upd_eq|rewrite !upd_ne by congruence].
    + rewrite Ei. f_equal. rewrite EA, (map_baddr_rep s L) by done. auto.
    + unfold L1. rewrite upd_ne by done. rewrite (map_baddr_rep s L); auto.
Qed.

(** Cutting and then taking the upper part is the specified request. *)
Lemma req_free_div f t j i :
  (t < j)%nat -> f t = [] ->
  upd (div_free f (t + 1) j) t [block_end f j - 2 ^ Z.of_nat (t + 1)] i = req_free f t j i.
Proof.
  intros Ht Hft. unfold req_free, div_free, block_end, upd.
  replace (t + 1 - 1)%nat with t by lia. repeat case_decide; subst; done || lia.
Qed.

(** [ReqBytes] does what [req_spec] says: it returns 0 and changes nothing when no
    block is large enough, and otherwise returns the specified block and leaves
    lists with the specified free and allocated blocks. *)
Lemma ReqBytes_spec fuel s L f g size :
  alloc_inv s L f g -> free_bound f -> 0 < size <= 33554432 ->
  (26 <= length (L LPool))%nat -> (28 + length (g (class_of size)) <= fuel)%nat ->
  match req_spec f g (class_of size) with
  | None => runs (ReqBytes fuel size) s 0 s
  | Some (r, f', g') => exists m' L', runs (ReqBytes fuel size) s r (set_mem m' s) /\
      alloc_inv (set_mem m' s) L' f' g' /\
      (length (L LPool) <= length (L' LPool) + 25)%nat /\ pool_only (mem s) m'
  end.
Proof.
  intros I Hb Hs HP Hfuel. destruct (class_of_spec size Hs) as (Hty & Ht & _).
  set (t := class_of size) in *. unfold req_spec.
  destruct fuel as [|fuel]; [lia|]. destruct (f t) as [|b rest] eqn:Hft.
  - pose proof (ai_free _ _ _ _ I t Ht) as E. rewrite Hft in E.
    assert (L (LFree t) = []) as HL by (by destruct (L (LFree t))).
    assert (forall r s', runs (r <- DivBlock fuel (Z.of_nat (S t)) ;;
        if r then ReqBytes fuel size else ret 0) s r s' -> runs (ReqBytes (S fuel) size) s r s') as Hrun.
    { intros r s' Hr. cbn [ReqBytes]. rewrite Hty.
      eapply runs_bind; [apply (free_head_runs s L); [apply I|done]|]. cbv beta.
      eapply runs_bind; [apply (IsListEmpty_spec s _ (L (LFree t))), rep_clist; [apply I|done]|].
      rewrite HL. cbv beta iota. by replace (Z.of_nat t + 1) with (Z.of_nat (S t)) by lia. }
    pose proof (DivBlock_spec (25 - t) (S t) fuel s L f g ltac:(lia) ltac:(lia) ltac:(lia) I Hb ltac:(lia)) as HD.
    replace (26 - t)%nat with (S (25 - t)) by lia. cbn [find_fit]. rewrite Hft.
    destruct (find_fit (25 - t) (S t) f) as [j|] eqn:Hfit.
    + destruct HD as (m1 & L1 & Hr1 & I1 & Hl1 & Hp1).
      destruct (find_fit_Some _ _ _ _ Hfit) as (Hj & _ & _).
      destruct fuel as [|fuel]; [lia|].
      edestruct (ReqBytes_take fuel (set_mem m1 s) L1 (div_free f (S t) j) g size t)
        as (m2 & L2 & Hr2 & I2 & HP2 & Hp2); [done|done|done| |lia|].
      { unfold div_free. rewrite decide_True by lia. reflexivity. }
      exists m2, L2. replace (S t - 1)%nat with t in * by lia. split_and!.
      * apply Hrun. eapply runs_bind; [exact Hr1|]. exact Hr2.
      * eapply alloc_inv_ext; [exact I2| |done]. intros k Hk.
        rewrite <- req_free_div by (lia || done). rewrite Hft.
        by replace (t + 1)%nat with (S t) by lia.
      * rewrite HP2. lia.
      * by eapply pool_only_trans.
    + apply Hrun. eapply runs_bind; [exact HD|]. reflexivity.
  - destruct (ReqBytes_take fuel s L f g size t b rest I Hty Ht Hft ltac:(lia))
      as (m' & L' & Hr & I' & HP' & Hpo).
    replace (26 - t)%nat with (S (25 - t)) by lia. cbn [find_fit]. rewrite Hft.
    unfold block_end. rewrite Hft. cbn [hd]. replace (b + _ - _) with b by lia.
    exists m', L'. split_and!; [done| |rewrite HP'; lia|done].
    eapply alloc_inv_ext; [exact I'| |done]. intros k Hk. unfold req_free, upd.
    repeat case_decide; try done; try lia. by rewrite Hft.
Qed.
