(* ===== verification/AllocHeap.v ===== *)
(** * The heap as a set of blocks

    Properties of the specification [req_spec]: the blocks of a well-formed heap are
    pairwise disjoint, aligned to their size relative to the reserved area and kept
    in increasing order of address; a request keeps the heap well formed, hands
    out memory no other allocation has, and neither loses nor gains a byte. *)

From Stdlib Require Import ZArith Lia ZifyBool Sorting.Sorted.
From stdpp Require Import base numbers gmap list.
From S2P Require Import Prelude Memory Machine Lists Allocator AllocRep AllocReq.

(** A block: free or allocated, its class, its address. *)
Definition blk (f g : nat -> list Z) (fr : bool) (k : nat) (a : Z) : Prop :=
  (k < 26)%nat /\ a ∈ (if fr then f k else g k).

Record heap_ok (R : Z) (f g : nat -> list Z) : Prop := {
  ho_range fr k a : blk f g fr k a -> KVA <= a /\ a + 2 ^ Z.of_nat k <= POOL;
  ho_apart fr1 k1 a1 fr2 k2 a2 :
    blk f g fr1 k1 a1 -> blk f g fr2 k2 a2 -> (fr1, k1, a1) <> (fr2, k2, a2) ->
    apart a1 (2 ^ Z.of_nat k1) a2 (2 ^ Z.of_nat k2);
  ho_align fr k a : blk f g fr k a -> (2 ^ Z.of_nat k | a - KVA - R);
  ho_sorted_f k : (k < 26)%nat -> StronglySorted Z.lt (f k);
  ho_sorted_g k : (k < 26)%nat -> StronglySorted Z.lt (g k);
}.

(** The byte at [x] belongs to some block. *)
Definition covered (f g : nat -> list Z) (x : Z) : Prop :=
  exists fr k a, blk f g fr k a /\ a <= x < a + 2 ^ Z.of_nat k.

Lemma heap_ok_bound R f g : heap_ok R f g -> free_bound f.
Proof.
  intros H k b Hk Hb. pose proof (ho_range _ _ _ H true k b (conj Hk Hb)). lia.
Qed.

Lemma insert_pos_elem a l x : x ∈ insert_pos a l <-> x = a \/ x ∈ l.
Proof.
  induction l as [|y l IH]; cbn; [set_solver|].
  destruct (y <? a); rewrite ?elem_of_cons, ?IH; set_solver.
Qed.

Lemma insert_pos_sorted a l :
  a ∉ l -> StronglySorted Z.lt l -> StronglySorted Z.lt (insert_pos a l).
Proof.
  intros Ha Hl. induction Hl as [|y l Hl IH Hy]; cbn; [repeat constructor|].
  rewrite not_elem_of_cons in Ha. destruct Ha as [Hne Ha].
  destruct (Z.ltb_spec y a) as [Hlt|Hge].
  - constructor; [auto|]. rewrite Forall_forall in Hy |- *. intros x Hx.
    apply insert_pos_elem in Hx as [->|Hx]; auto.
  - constructor; [by constructor|]. constructor; [lia|].
    rewrite Forall_forall in Hy |- *. intros x Hx. specialize (Hy x Hx). lia.
Qed.

Section Request.
Context (R : Z) (f g : nat -> list Z) (Hok : heap_ok R f g) (t j : nat).
Context (Htj : (t <= j)%nat) (Hj : (j < 26)%nat) (b : Z) (rest : list Z) (Hfj : f j = b :: rest).
Context (Hempty : forall i, (t <= i < j)%nat -> f i = []).

Let e : Z := b + 2 ^ Z.of_nat j.
Let r : Z := e - 2 ^ Z.of_nat t.
Let f' : nat -> list Z := req_free f t j.
Let g' : nat -> list Z := upd g t (insert_pos r (g t)).

Lemma req_block_end : block_end f j = e.
Proof. unfold block_end, e. by rewrite Hfj. Qed.

Lemma req_source : blk f g true j b.
Proof. split; [done|]. rewrite Hfj. set_solver. Qed.

Lemma req_rest_ne a : a ∈ rest -> a <> b.
Proof.
  intros Ha ->. pose proof (ho_sorted_f _ _ _ Hok j Hj) as Hs. rewrite Hfj in Hs.
  apply StronglySorted_inv in Hs as [_ Hs]. rewrite Forall_forall in Hs.
  specialize (Hs b Ha). lia.
Qed.

(** The blocks after the request: the old ones but the source, one free remainder
    per class below it, and the block handed out. *)
Lemma req_blocks fr k a :
  blk f' g' fr k a <->
  (blk f g fr k a /\ (fr, k, a) <> (true, j, b)) \/
  (fr = true /\ (t <= k < j)%nat /\ a = e - 2 ^ Z.of_nat (k + 1)) \/
  (fr = false /\ k = t /\ a = r).
Proof.
  unfold blk, f', g'. destruct fr.
  - unfold req_free. rewrite req_block_end.
    destruct (decide (k = j)) as [->|Hkj].
    + rewrite Hfj. cbn [tl]. split.
      * intros [_ Ha]. left. split; [split; [done|set_solver]|]. intros [= ->].
        by apply (req_rest_ne b).
      * intros [[[_ Ha] Hne]|[(_ & Hlt & _)|(? & _)]]; [|lia|done]. split; [done|].
        apply elem_of_cons in Ha as [->|Ha]; [done|done].
    + destruct (decide (t <= k < j)%nat) as [Hk|Hk].
      * rewrite list_elem_of_singleton. split; [intros [_ ->]; auto 10|].
        intros [[[_ Ha] _]|[(_ & _ & ->)|(? & _)]]; [|split; [lia|done]|done].
        rewrite Hempty in Ha by done. set_solver.
      * split; [intros H; left; split; [done|congruence]|].
        intros [[H _]|[(_ & ? & _)|(? & _)]]; [done|lia|done].
  - destruct (decide (k = t)) as [->|Hkt]; [rewrite upd_eq, insert_pos_elem|rewrite upd_ne by done].
    + split; [intros [Ht [->|Ha]]; [auto 10|left; split; [done|congruence]]|].
      intros [[[Ht Ha] _]|[(? & _)|(_ & _ & ->)]]; [auto|done|split; [lia|auto]].
    + split; [intros H; left; split; [done|congruence]|].
      intros [[H _]|[(? & _)|(_ & ? & _)]]; done.
Qed.

(** The new pieces lie inside the source block. *)
Lemma req_piece_inside fr k a :
  (fr = true /\ (t <= k < j)%nat /\ a = e - 2 ^ Z.of_nat (k + 1)) \/
  (fr = false /\ k = t /\ a = r) ->
  b <= a /\ a + 2 ^ Z.of_nat k <= b + 2 ^ Z.of_nat j /\ (2 ^ Z.of_nat k | a - KVA - R).
Proof.
  pose proof (ho_align _ _ _ Hok _ _ _ req_source) as Hal.
  assert (forall k, (k <= j)%nat -> (2 ^ Z.of_nat k | 2 ^ Z.of_nat j)) as Hdiv.
  { intros i Hi. exists (2 ^ Z.of_nat (j - i)). rewrite <- Z.pow_add_r by lia. f_equal. lia. }
  intros [(_ & Hk & ->)|(_ & -> & ->)].
  - pose proof (pow_nat_lt k j ltac:(lia)). pose proof (pow_nat_pos k).
    rewrite pow_nat_succ. unfold e. split_and!; [lia|lia|].
    replace (b + _ - _ - KVA - R) with ((b - KVA - R) + 2 ^ Z.of_nat j - 2 * 2 ^ Z.of_nat k) by lia.
    apply Z.divide_sub_r; [|by apply Z.divide_factor_r].
    apply Z.divide_add_r; [|apply Hdiv; lia]. eapply Z.divide_trans; [|exact Hal]. apply Hdiv. lia.
  - pose proof (pow_nat_le t j Htj). unfold r, e. split_and!; [lia|lia|].
    replace (b + _ - _ - KVA - R) with ((b - KVA - R) + 2 ^ Z.of_nat j - 2 ^ Z.of_nat t) by lia.
    apply Z.divide_sub_r; [|apply Z.divide_refl].
    apply Z.divide_add_r; [|by apply Hdiv]. eapply Z.divide_trans; [|exact Hal]. by apply Hdiv.
Qed.

(** Two new pieces do not overlap. *)
Lemma req_pieces_apart k1 k2 :
  (t <= k1)%nat -> (k1 < k2)%nat ->
  apart (e - 2 ^ Z.of_nat (k1 + 1)) (2 ^ Z.of_nat k1) (e - 2 ^ Z.of_nat (k2 + 1)) (2 ^ Z.of_nat k2).
Proof.
  intros H1 H2. rewrite !pow_nat_succ. pose proof (pow_nat_lt k1 k2 H2). unfold apart. lia.
Qed.

Lemma req_piece_r_apart k :
  (t <= k)%nat -> apart (e - 2 ^ Z.of_nat (k + 1)) (2 ^ Z.of_nat k) r (2 ^ Z.of_nat t).
Proof.
  intros Hk. rewrite pow_nat_succ. pose proof (pow_nat_le t k Hk). unfold apart, r. lia.
Qed.

(** A piece is apart from every block that was not the source. *)
Lemma req_piece_old fr k a fr2 k2 a2 :
  (fr = true /\ (t <= k < j)%nat /\ a = e - 2 ^ Z.of_nat (k + 1)) \/
  (fr = false /\ k = t /\ a = r) ->
  blk f g fr2 k2 a2 -> (fr2, k2, a2) <> (true, j, b) ->
  apart a (2 ^ Z.of_nat k) a2 (2 ^ Z.of_nat k2).
Proof.
  intros Hp Hb Hne. destruct (req_piece_inside fr k a Hp) as (H1 & H2 & _).
  pose proof (ho_apart _ _ _ Hok _ _ _ _ _ _ req_source Hb (not_eq_sym Hne)).
  unfold apart in *. lia.
Qed.

Lemma req_pieces_apart_all fr1 k1 a1 fr2 k2 a2 :
  (fr1 = true /\ (t <= k1 < j)%nat /\ a1 = e - 2 ^ Z.of_nat (k1 + 1)) \/
  (fr1 = false /\ k1 = t /\ a1 = r) ->
  (fr2 = true /\ (t <= k2 < j)%nat /\ a2 = e - 2 ^ Z.of_nat (k2 + 1)) \/
  (fr2 = false /\ k2 = t /\ a2 = r) ->
  (fr1, k1, a1) <> (fr2, k2, a2) -> apart a1 (2 ^ Z.of_nat k1) a2 (2 ^ Z.of_nat k2).
Proof.
  intros [(-> & H1 & ->)|(-> & -> & ->)] [(-> & H2 & ->)|(-> & -> & ->)] Hne.
  - destruct (Nat.lt_total k1 k2) as [Hlt|[->|Hlt]]; [by apply req_pieces_apart; [lia|]|done|].
    apply apart_sym. by apply req_pieces_apart; [lia|].
  - apply req_piece_r_apart. lia.
  - apply apart_sym, req_piece_r_apart. lia.
  - done.
Qed.

Lemma req_result_fresh k a : blk f g false k a -> apart r (2 ^ Z.of_nat t) a (2 ^ Z.of_nat k).
Proof. intros Hb. eapply (req_piece_old false t r false k a); [auto 10|done|congruence]. Qed.

Lemma req_sorted_f k : (k < 26)%nat -> StronglySorted Z.lt (f' k).
Proof.
  intros Hk. pose proof (ho_sorted_f _ _ _ Hok) as Hs. unfold f', req_free.
  repeat case_decide; [|repeat constructor|auto].
  specialize (Hs j Hj). rewrite Hfj in Hs. apply StronglySorted_inv in Hs as [Hs _].
  by rewrite Hfj.
Qed.

Lemma req_sorted_g k : (k < 26)%nat -> StronglySorted Z.lt (g' k).
Proof.
  intros Hk. unfold g', upd. pose proof (ho_sorted_g _ _ _ Hok) as Hs.
  case_decide; [subst k|auto]. apply insert_pos_sorted; [|auto]. intros Hr.
  pose proof (req_result_fresh t r (conj Hk Hr)) as Ha. pose proof (pow_nat_pos t).
  unfold apart in Ha. lia.
Qed.

(** The heap stays well formed. *)
Lemma req_heap_ok : heap_ok R f' g'.
Proof.
  constructor; [| | |apply req_sorted_f|apply req_sorted_g].
  - intros fr k a [[Hb _]|Hp]%req_blocks; [by apply (ho_range _ _ _ Hok fr)|].
    destruct (req_piece_inside fr k a Hp) as (H1 & H2 & _).
    pose proof (ho_range _ _ _ Hok _ _ _ req_source). lia.
  - intros fr1 k1 a1 fr2 k2 a2 [[Hb1 Hn1]|Hp1]%req_blocks [[Hb2 Hn2]|Hp2]%req_blocks Hne.
    + by apply (ho_apart _ _ _ Hok fr1 k1 a1 fr2 k2 a2).
    + apply apart_sym. by apply (req_piece_old fr2 k2 a2 fr1 k1 a1).
    + by apply (req_piece_old fr1 k1 a1 fr2 k2 a2).
    + by apply (req_pieces_apart_all fr1 k1 a1 fr2 k2 a2).
  - intros fr k a [[Hb _]|Hp]%req_blocks; [by apply (ho_align _ _ _ Hok fr)|].
    by destruct (req_piece_inside fr k a Hp) as (_ & _ & H).
Qed.

(** The pieces tile the source block. *)
Lemma req_tiling x : b <= x < b + 2 ^ Z.of_nat j ->
  exists fr k a, ((fr = true /\ (t <= k < j)%nat /\ a = e - 2 ^ Z.of_nat (k + 1)) \/
    (fr = false /\ k = t /\ a = r)) /\ a <= x < a + 2 ^ Z.of_nat k.
Proof.
  intros Hx. assert (forall n, (n <= j - t)%nat -> e - 2 ^ Z.of_nat (t + n) <= x ->
    exists fr k a, ((fr = true /\ (t <= k < j)%nat /\ a = e - 2 ^ Z.of_nat (k + 1)) \/
      (fr = false /\ k = t /\ a = r)) /\ a <= x < a + 2 ^ Z.of_nat k) as H.
  { induction n as [|n IH]; intros Hn Hle.
    - exists false, t, r. rewrite Nat.add_0_r in Hle. unfold r, e in *. split; [auto 10|lia].
    - destruct (Z.lt_ge_cases x (e - 2 ^ Z.of_nat (t + n))) as [Hlt|Hge]; [|apply IH; lia].
      exists true, (t + n)%nat, (e - 2 ^ Z.of_nat (t + n + 1)). split.
      + left. split_and!; [done|lia|lia|done].
      + replace (t + S n)%nat with (t + n + 1)%nat in Hle by lia.
        rewrite pow_nat_succ in *. lia. }
  apply (H (j - t)%nat); [done|]. replace (t + (j - t))%nat with j by lia. unfold e. lia.
Qed.

(** No byte is lost or gained. *)
Lemma req_covered x : covered f' g' x <-> covered f g x.
Proof.
  split; intros (fr & k & a & Hb & Hx).
  - apply req_blocks in Hb as [[Hb _]|Hp]; [by exists fr, k, a|].
    destruct (req_piece_inside fr k a Hp) as (H1 & H2 & _).
    exists true, j, b. split; [apply req_source|lia].
  - destruct (decide ((fr, k, a) = (true, j, b))) as [E|Hne].
    + injection E as -> -> ->. destruct (req_tiling x Hx) as (fr & k & a & Hp & Hxa).
      exists fr, k, a. split; [|done]. apply req_blocks. auto.
    + exists fr, k, a. split; [|done]. apply req_blocks. auto.
Qed.
End Request.

(** The request specification as a whole. *)
Lemma req_spec_ok R f g t r f' g' :
  heap_ok R f g -> (t < 26)%nat -> req_spec f g t = Some (r, f', g') ->
  heap_ok R f' g' /\ (forall x, covered f' g' x <-> covered f g x) /\
  r ∈ g' t /\ (forall k a, a ∈ g' k <-> a ∈ g k \/ (k = t /\ a = r)) /\
  (forall k a, blk f g false k a -> apart r (2 ^ Z.of_nat t) a (2 ^ Z.of_nat k)) /\
  (forall x, r <= x < r + 2 ^ Z.of_nat t -> exists k a, blk f g true k a /\ a <= x < a + 2 ^ Z.of_nat k).
Proof.
  intros Hok Ht. unfold req_spec. destruct (find_fit (26 - t) t f) as [j|] eqn:Hfit; [|done].
  destruct (find_fit_Some _ _ _ _ Hfit) as (Hj & Hne & He).
  destruct (f j) as [|b rest] eqn:Hfj; [done|].
  intros [= <- <- <-]. rewrite (req_block_end f j b rest Hfj).
  split_and!.
  - apply (req_heap_ok R f g Hok t j ltac:(lia) ltac:(lia) b rest Hfj He).
  - apply (req_covered R f g Hok t j ltac:(lia) ltac:(lia) b rest Hfj He).
  - rewrite upd_eq, insert_pos_elem. auto.
  - intros k a. unfold upd. case_decide as E; [subst k; rewrite insert_pos_elem|]; naive_solver.
  - intros k a. by apply (req_result_fresh R f g Hok t j ltac:(lia) ltac:(lia) b rest).
  - intros x Hx. exists j, b. split; [split; [lia|rewrite Hfj; set_solver]|].
    pose proof (pow_nat_le t j ltac:(lia)). cbv zeta in Hx. lia.
Qed.
