(* ===== verification/AllocInit.v ===== *)
(** * Initialisation of the allocator: DirectMappingInit

    The pool is linked, the 52 list heads are taken from it, the memory below the
    end of the kernel image is reserved, and the rest of the direct mapping area up to
    the pool is divided into the largest blocks that fit. *)

From Stdlib Require Import ZArith Lia ZifyBool Sorting.Sorted.
From stdpp Require Import base numbers gmap list.
From S2P Require Import Prelude Memory Machine Lists Allocator AllocRep AllocReq AllocHeap.

(** ** The pool *)

(** The [MemBlock] nodes of the pool area, [0] being the head of the pool. *)
Definition pnode (i : Z) : Z := POOL + 8 * i + 4.

(** The pool after [n] iterations of [MemBlockPoolInit]: newest first, without the
    head, which the first iteration adds to itself. *)
Fixpoint pool_list (n : nat) : list Z :=
  match n with
  | O => []
  | S n' => match n' with O => [] | _ => pnode (Z.of_nat n') :: pool_list n' end
  end.

Lemma pnode_mb i : 0 <= i < 131072 -> mbnode (pnode i).
Proof.
  intros. unfold mbnode, pnode. split_and!; [lia|lia|].
  replace (POOL + 8 * i + 4 - POOL) with (4 + i * 8) by lia. by rewrite Z.mod_add.
Qed.

Lemma pool_list_elem n x :
  x ∈ pool_list n <-> exists i, 1 <= i < Z.of_nat n /\ x = pnode i.
Proof.
  induction n as [|n IH]; [cbn; split; [set_solver|intros (i & ? & _); lia]|].
  destruct n as [|n].
  - cbn. split; [set_solver|]. intros (i & ? & _). lia.
  - cbn [pool_list]. cbn [pool_list] in IH. rewrite elem_of_cons, IH. split.
    + intros [->|(i & Hi & ->)]; [exists (Z.of_nat (S n)); split; [lia|done]|].
      exists i. split; [lia|done].
    + intros (i & Hi & ->). destruct (Z.eq_dec i (Z.of_nat (S n))) as [->|]; [auto|].
      right. exists i. split; [lia|done].
Qed.

Lemma pool_list_NoDup n : NoDup (pnode 0 :: pool_list n).
Proof.
  assert (NoDup (pool_list n)) as Hn.
  { induction n as [|n IH]; [constructor|]. destruct n as [|n]; [constructor|].
    change (pool_list (S (S n))) with (pnode (Z.of_nat (S n)) :: pool_list (S n)).
    constructor; [|done]. intros (i & Hi & E)%pool_list_elem. unfold pnode in E. lia. }
  constructor; [|done]. intros (i & Hi & E)%pool_list_elem. unfold pnode in E. lia.
Qed.

Lemma pool_list_length n : length (pool_list n) = (n - 1)%nat.
Proof.
  induction n as [|n IH]; [done|]. destruct n as [|n]; [done|].
  change (pool_list (S (S n))) with (pnode (Z.of_nat (S n)) :: pool_list (S n)).
  cbn [length]. rewrite IH. lia.
Qed.

Lemma pool_list_ok n : Z.of_nat n <= 131072 -> nodes_ok 4 (pnode 0 :: pool_list n).
Proof.
  intros Hn. apply mbnode_ok; [apply pool_list_NoDup|].
  intros x [->|(i & Hi & ->)%pool_list_elem]%elem_of_cons; apply pnode_mb; lia.
Qed.

(** One iteration of the loop in [MemBlockPoolInit]. *)
Lemma pool_step s n :
  Z.of_nat n < 131072 -> clist (mem s) (pnode 0) (pool_list n) ->
  exists m', runs (ListAdd (pnode 0) (pnode (Z.of_nat n))) s tt (set_mem m' s) /\
    clist m' (pnode 0) (pool_list (S n)) /\ links_only (mem s) m'.
Proof.
  intros Hn Hc. pose proof (pnode_mb 0 ltac:(lia)) as M0. destruct n as [|n].
  - destruct (ListAdd_runs (pnode 0) (pnode 0) s) as (m' & Hr & Hm'). exists m'.
    destruct Hc as [Hc Hok]. apply circ_nil in Hc. rewrite Hc in Hm'.
    assert (same_except [pnode 0; pnode 0] (mem s) m') as Hse.
    { subst m'. eapply (same_except_trans [pnode 0] [pnode 0]);
        apply same_except_store32; by apply mbnode_kspan. }
    split_and!; [done| |].
    + split; [|done]. apply circ_nil. subst m'.
      rewrite load32_store32_same by (by apply mbnode_kspan). done.
    + eapply links_only_except; [|exact Hse]. set_solver.
  - pose proof (pool_list_ok (S (S n)) ltac:(lia)) as Hok.
    change (pool_list (S (S n))) with (pnode (Z.of_nat (S n)) :: pool_list (S n)) in *.
    destruct (ListAdd_spec s (pnode 0) [] (pool_list (S n)) (pnode (Z.of_nat (S n))))
      as (m' & Hr & Hc' & Hse); [done| |].
    { eapply nodes_ok_perm; [|exact Hok]. apply perm_swap. }
    exists m'. split_and!; [done|done|]. eapply links_only_except; [|exact Hse].
    intros w. rewrite !elem_of_cons, elem_of_nil. intros [->|[->|[]]]; [done|].
    apply pnode_mb. lia.
Qed.

Lemma MemBlockPoolInit_spec s :
  exists m', runs (MemBlockPoolInit POOL 1048576) s tt
      (set_mem m' (set_alloc (set_mem_block_pool (pnode 0) (alloc s)) s)) /\
    clist m' (pnode 0) (pool_list (Z.to_nat 131072)) /\ pool_only (mem s) m'.
Proof.
  pose proof (pnode_mb 0 ltac:(lia)) as M0. pose proof (mbnode_kspan _ M0) as K0.
  set (s0 := set_alloc (set_mem_block_pool (pnode 0) (alloc s)) s).
  set (m0 := store32 (mem s) (pnode 0) (pnode 0)).
  destruct (for_inv (fun j s1 => exists m1, s1 = set_mem m1 s0 /\
      clist m1 (pnode 0) (pool_list (Z.to_nat j)) /\ links_only m0 m1)
    (Z.to_nat 131072) 0 (fun i => ListAdd (pnode 0) (node_of (POOL + 8 * i))) (set_mem m0 s0))
    as (s' & Hr & m' & -> & Hc & Hl).
  - exists m0. split_and!; [done| |apply links_only_refl]. split; [|apply (pool_list_ok 0); lia].
    apply circ_nil. unfold m0. by rewrite load32_store32_same.
  - intros j s1 Hj (m1 & -> & Hc & Hl).
    destruct (pool_step (set_mem m1 s0) (Z.to_nat j)) as (m2 & Hr & Hc2 & Hl2); [lia|done|].
    exists (set_mem m2 s0). split.
    + assert (node_of (POOL + 8 * j) = pnode (Z.of_nat (Z.to_nat j))) as ->; [|done].
      unfold node_of, pnode. rewrite u32_small by lia. lia.
    + exists m2. split_and!; [done| |by eapply links_only_trans].
      by replace (Z.to_nat (j + 1)) with (S (Z.to_nat j)) by lia.
  - exists m'. split_and!.
    + unfold MemBlockPoolInit. do 3 (eapply runs_bind; [reflexivity|]; cbv beta).
      replace ((1048576 + 7) / 8) with 131072 by reflexivity. exact Hr.
    + replace (0 + Z.of_nat (Z.to_nat 131072)) with 131072 in Hc by lia. exact Hc.
    + eapply pool_only_trans; [|by apply links_pool_only].
      intros n b Hb Ha. apply (same_except_store32 (mem s) (pnode 0) (pnode 0) K0); [done|].
      constructor; [|constructor]. unfold pnode, apart in *. lia.
Qed.

(** ** The list heads *)

(** [ReqMemBlock] on the pool alone, and the self-link of a new head. *)
Lemma new_head s x P H :
  mem_block_pool (alloc s) = pnode 0 -> clist (mem s) (pnode 0) (x :: P) ->
  NoDup (pnode 0 :: x :: P ++ H) -> (forall n, n ∈ x :: P ++ H -> mbnode n) ->
  (forall h, h ∈ H -> load32 (mem s) h = h) ->
  exists m1, runs ReqMemBlock s (x - 4) (set_mem m1 s) /\
    clist (store32 m1 x x) (pnode 0) P /\
    (forall h, h ∈ H ++ [x] -> load32 (store32 m1 x x) h = h) /\
    links_only (mem s) (store32 m1 x x).
Proof.
  intros Hpool Hc Hnd Hmb Hself. pose proof (pnode_mb 0 ltac:(lia)) as M0.
  assert (mbnode x) as Mx by (apply Hmb; set_solver).
  destruct (ListRemove_spec s (pnode 0) [] x P Hc) as (m1 & Hr & [Hc1 Hok1] & _ & Hse).
  set (m2 := store32 m1 x x).
  assert (same_except [pnode 0; x; x] (mem s) m2) as Hse2.
  { apply (same_except_trans [pnode 0; x] [x] _ m1); [done|].
    by apply same_except_store32, mbnode_kspan. }
  apply NoDup_cons in Hnd as [H0 Hnd]. apply NoDup_cons in Hnd as [Hx Hnd].
  assert (forall q, q ∈ pnode 0 :: P -> load32 m2 q = load32 m1 q) as Hq.
  { intros q Hq. assert (mbnode q).
    { apply elem_of_cons in Hq as [->|Hq]; [done|]. apply Hmb. set_solver. }
    apply load32_store32_ne; [by apply mbnode_kspan..|]. apply mbnode_apart; [done|done|].
    intros ->. apply elem_of_cons in Hq as [E|Hq]; set_solver. }
  exists m1. split_and!.
  - unfold ReqMemBlock. eapply runs_bind; [reflexivity|]. cbv beta. rewrite Hpool.
    eapply runs_bind; [apply (IsListEmpty_spec s _ _ Hc)|]. cbv beta iota.
    eapply runs_bind; [exact Hr|]. by rewrite GET_STRUCT_mb.
  - split; [|done]. by apply (circ_frame (load32 m1)).
  - intros h [Hh|Hh]%elem_of_app.
    + assert (mbnode h) by (apply Hmb; set_solver).
      rewrite (same_except_load32 [pnode 0; x; x] (mem s)); [auto|done|by apply mbnode_kspan|].
      rewrite Forall_forall. intros w. rewrite !elem_of_cons, elem_of_nil.
      intros Hw. apply mbnode_apart; [naive_solver|done|]. intros ->. set_solver.
    + apply list_elem_of_singleton in Hh as ->. unfold m2.
      rewrite load32_store32_same by (by apply mbnode_kspan).
      apply u32_small. unfold mbnode in Mx. lia.
  - eapply links_only_except; [|exact Hse2]. intros w. rewrite !elem_of_cons, elem_of_nil.
    naive_solver.
Qed.

(** The state after [i] iterations: the heads [F] and [A] are set and link to
    themselves, [P] is left in the pool. *)
Record heads_inv (s : kstate) (P F A : list Z) : Prop := {
  hi_pool : mem_block_pool (alloc s) = pnode 0;
  hi_free : exists z, free_mem_list (alloc s) = F ++ z /\ (length F + length z = 26)%nat;
  hi_alloc : exists z, allocated_mem_list (alloc s) = A ++ z /\ (length A + length z = 26)%nat;
  hi_clist : clist (mem s) (pnode 0) P;
  hi_self h : h ∈ F ++ A -> load32 (mem s) h = h;
  hi_nodup : NoDup (pnode 0 :: P ++ F ++ A);
  hi_mb n : n ∈ P ++ F ++ A -> mbnode n;
}.

Lemma insert_snoc (F z : list Z) (y x : Z) : <[length F := x]> (F ++ y :: z) = (F ++ [x]) ++ z.
Proof. rewrite insert_app_r_alt by lia. rewrite Nat.sub_diag. cbn. by rewrite <- app_assoc. Qed.

Lemma arr_get_mid f (F z : list Z) x s :
  f s = (F ++ [x]) ++ z -> runs (arr_get f (Z.of_nat (length F))) s x s.
Proof.
  intros E. apply runs_arr_get; [lia|]. rewrite E, Nat2Z.id, <- app_assoc.
  by apply (list_lookup_middle F z x).
Qed.

(** One iteration: two nodes leave the pool and become heads. *)
Lemma init_heads_step s P F A x y :
  heads_inv s (x :: y :: P) F A -> length A = length F -> (length F < 26)%nat ->
  exists s', runs (init_heads (Z.of_nat (length F))) s tt s' /\
    heads_inv s' P (F ++ [x]) (A ++ [y]) /\
    links_only (mem s) (mem s') /\ s' = set_mem (mem s') (set_alloc (alloc s') s).
Proof.
  intros [Hp (zf & Ef & Lf) (za & Ea & La) Hc Hs Hnd Hmb] EA Hlt.
  destruct zf as [|f0 zf]; [cbn in Lf; lia|]. destruct za as [|a0 za]; [cbn in La; lia|].
  destruct (new_head s x (y :: P) (F ++ A) Hp Hc Hnd Hmb Hs) as (m1 & Hr1 & Hc1 & Hs1 & Hl1).
  set (m1' := store32 m1 x x) in *.
  set (g1 := set_free_mem_list ((F ++ [x]) ++ zf) (alloc s)).
  set (s1 := set_mem m1' (set_alloc g1 s)).
  assert (NoDup (pnode 0 :: y :: P ++ ((F ++ A) ++ [x]))) as Hnd1.
  { eapply NoDup_Permutation_proper; [|exact Hnd]. cbn. solve_Permutation. }
  destruct (new_head s1 y P ((F ++ A) ++ [x]) Hp Hc1 Hnd1) as (m2 & Hr2 & Hc2 & Hs2 & Hl2);
    [intros n Hn; apply Hmb; set_solver|done|].
  set (m2' := store32 m2 y y) in *.
  set (g2 := set_allocated_mem_list ((A ++ [y]) ++ za) g1).
  exists (set_mem m2' (set_alloc g2 s)). split_and!.
  - unfold init_heads. eapply runs_bind; [exact Hr1|]. cbv beta.
    rewrite !node_of_mb by (apply Hmb; set_solver).
    eapply runs_bind.
    { unfold set_free_head. rewrite Nat2Z.id. apply runs_modify. }
    cbv beta. cbn [alloc set_mem set_alloc]. rewrite Ef, insert_snoc. fold g1.
    eapply runs_bind; [by apply (arr_get_mid _ F zf)|]. cbv beta.
    eapply runs_bind; [reflexivity|]. cbv beta. eapply runs_bind; [exact Hr2|]. cbv beta.
    rewrite !node_of_mb by (apply Hmb; set_solver).
    eapply runs_bind.
    { unfold set_allocated_head. rewrite Nat2Z.id. apply runs_modify. }
    cbv beta. cbn [alloc set_mem set_alloc].
    replace (allocated_mem_list (alloc s1)) with (A ++ a0 :: za) by (symmetry; exact Ea).
    rewrite <- EA, insert_snoc. eapply runs_bind; [by apply (arr_get_mid _ A za)|]. reflexivity.
  - constructor; [done| | |done| | |].
    + exists zf. split; [done|]. rewrite length_app. cbn in *. lia.
    + exists za. split; [done|]. rewrite length_app. cbn in *. lia.
    + intros h Hh. apply Hs2. set_solver.
    + eapply NoDup_Permutation_proper; [|exact Hnd]. cbn. solve_Permutation.
    + intros n Hn. apply Hmb. set_solver.
  - by eapply links_only_trans.
  - done.
Qed.

(** All 26 iterations. *)
Lemma init_heads_all s P F A n :
  heads_inv s P F A -> length A = length F -> (length F + n = 26)%nat ->
  (2 * n <= length P)%nat ->
  exists s' F' A', runs (for_ n (Z.of_nat (length F)) init_heads) s tt s' /\
    heads_inv s' (drop (2 * n) P) F' A' /\ length F' = 26%nat /\ length A' = 26%nat /\
    links_only (mem s) (mem s') /\ s' = set_mem (mem s') (set_alloc (alloc s') s).
Proof.
  revert s P F A. induction n as [|n IH]; intros s P F A H EA En HP.
  - exists s, F, A. cbn [Nat.mul drop]. split_and!; [done|done|lia|lia|apply links_only_refl|].
    by destruct s.
  - destruct P as [|x [|y P]]; [cbn in HP; lia|cbn in HP; lia|].
    destruct (init_heads_step s P F A x y H EA ltac:(lia)) as (s1 & Hr & H1 & Hl & E1).
    destruct (IH s1 P (F ++ [x]) (A ++ [y]) H1) as (s2 & F' & A' & Hr2 & H2 & LF & LA & Hl2 & E2);
      [rewrite !length_app; cbn; lia|rewrite length_app; cbn; lia|cbn in HP; lia|].
    exists s2, F', A'. split_and!; [|by replace (2 * S n)%nat with (S (S (2 * n))) by lia|done|done| |].
    + eapply for_step; [exact Hr|]. rewrite length_app in Hr2. cbn in Hr2.
      by replace (Z.of_nat (length F) + 1) with (Z.of_nat (length F + 1)) by lia.
    + by eapply links_only_trans.
    + rewrite E2, E1. done.
Qed.

(** The family with only the pool filled. *)
Definition init_lists (P : list Z) : lid -> list Z := fun id =>
  match id with LPool => P | _ => [] end.

Lemma nth_elem_in (l : list Z) k n : length l = n -> (k < n)%nat -> nth k l 0 ∈ l.
Proof. intros Hl Hk. eapply list_elem_of_lookup_2, nth_in_bounds; done. Qed.

Lemma nth_inj (l : list Z) i j n :
  length l = n -> (i < n)%nat -> (j < n)%nat -> NoDup l -> nth i l 0 = nth j l 0 -> i = j.
Proof.
  intros Hl Hi Hj Hnd E. eapply NoDup_lookup; [done| |].
  - by eapply nth_in_bounds.
  - rewrite E. by eapply nth_in_bounds.
Qed.

Lemma heads_rep s P F A :
  heads_inv s P F A -> length F = 26%nat -> length A = 26%nat -> rep s (init_lists P).
Proof.
  intros [Hp (zf & Ef & Lf) (za & Ea & La) Hc Hs Hnd Hmb] LF LA.
  destruct zf; [|cbn in Lf; lia]. destruct za; [|cbn in La; lia]. rewrite app_nil_r in Ef, Ea.
  apply NoDup_cons in Hnd as [H0 Hnd]. apply NoDup_app in Hnd as (HP & HPFA & Hnd).
  apply NoDup_app in Hnd as (HF & HFA & HA).
  assert (forall k, (k < 26)%nat -> nth k F 0 ∈ F) as InF by (intros; by eapply nth_elem_in).
  assert (forall k, (k < 26)%nat -> nth k A 0 ∈ A) as InA by (intros; by eapply nth_elem_in).
  assert (forall k, (k < 26)%nat -> nth k F 0 ∈ pnode 0 :: P -> False) as DF.
  { intros k Hk [E|Hn]%elem_of_cons; [apply H0; rewrite <- E|apply (HPFA _ Hn)];
      rewrite ?elem_of_app; auto. }
  assert (forall k, (k < 26)%nat -> nth k A 0 ∈ pnode 0 :: P -> False) as DA.
  { intros k Hk [E|Hn]%elem_of_cons; [apply H0; rewrite <- E|apply (HPFA _ Hn)];
      rewrite ?elem_of_app; auto. }
  assert (forall k l, (k < 26)%nat -> (l < 26)%nat -> nth k F 0 = nth l A 0 -> False) as DFA.
  { intros k l Hk Hl E. apply (HFA (nth k F 0)); [auto|]. rewrite E. auto. }
  constructor; rewrite ?Ef, ?Ea; [done|done|..].
  - intros [|k|k] V; cbn; [rewrite Hp; apply Hc|..]; apply circ_nil; rewrite ?Ef, ?Ea; apply Hs;
      apply elem_of_app; auto.
  - intros [|k|k] n V; cbn; rewrite ?Ef, ?Ea, ?Hp, ?list_elem_of_singleton.
    + intros [->|Hn]%elem_of_cons; [apply pnode_mb; lia|]. apply Hmb, elem_of_app. auto.
    + intros ->. apply Hmb, elem_of_app. right. apply elem_of_app. auto.
    + intros ->. apply Hmb, elem_of_app. right. apply elem_of_app. auto.
  - intros [|k|k] V; cbn; [rewrite Hp; by constructor; [set_solver|]|apply NoDup_singleton..].
  - intros [|k|k] [|l|l] n V1 V2; cbn; rewrite ?Ef, ?Ea, ?Hp, ?list_elem_of_singleton;
      intros H1 H2; try done; try subst n; try (exfalso; eauto; fail).
    + f_equal. by eapply (nth_inj F).
    + f_equal. by eapply (nth_inj A).
Qed.

(** ** Filling the free lists *)

(** A fresh [MemBlock] for a block at [v], put at the front of list [id]. *)
Definition add_free (id : lid) (v : Z) (f : nat -> list Z) : nat -> list Z :=
  match id with LFree k => upd f k (v :: f k) | _ => f end.
Definition add_alloc (id : lid) (v : Z) (g : nat -> list Z) : nat -> list Z :=
  match id with LAlloc k => upd g k (v :: g k) | _ => g end.

Lemma new_block s L f g id v hd y ys :
  alloc_inv s L f g -> vlid id -> id <> LPool -> L LPool = y :: ys ->
  (forall s', alloc s' = alloc s -> runs hd s' (head_of (alloc s) id) s') ->
  exists m' L', (forall {A} (k : K A) r s', runs k (set_mem m' s) r s' ->
      runs (b <- ReqMemBlock ;; st32 b v ;;; h <- hd ;; ListAdd h (node_of b) ;;; k) s r s') /\
    alloc_inv (set_mem m' s) L' (add_free id (u32 v) f) (add_alloc id (u32 v) g) /\
    L' LPool = ys /\ pool_only (mem s) m'.
Proof.
  intros [R Hf Hg] V Hid HP Hhd.
  destruct (ReqMemBlock_spec s L y ys R HP) as (m1 & Hr1 & R1 & Ly & Hl1).
  destruct (rep_set_addr _ _ y v R1 Ly) as (R2 & Ly2 & Ey & Hoth). cbn [mem set_mem] in *.
  set (m2 := store32 m1 (y - 4) v) in *. set (L1 := upd L LPool ys) in *.
  destruct (rep_push _ _ id [] y (L1 id) R2 V eq_refl Ly2) as (m3 & Hr3 & R3 & Hl3).
  cbn [app mem set_mem alloc] in *. destruct Ly as [My Ny].
  assert (forall id', vlid id' -> id' <> LPool -> map (baddr m3) (L id') = map (baddr (mem s)) (L id')) as Em.
  { intros id' V' Hne. assert (L1 id' = L id') as E1 by (unfold L1; by rewrite upd_ne).
    rewrite <- E1. rewrite (map_baddr_links m2 m3);
      [|done|intros n; by apply (rep_mb _ _ id' _ R1)].
    rewrite (map_baddr_ext m1); [rewrite E1; by apply (map_baddr_rep s L m1 id' R)|].
    intros n Hn. apply Hoth; [by apply (rep_mb _ _ id' _ R1)|]. intros ->.
    apply (Ny id' V'). set_solver. }
  exists m3, (upd L1 id (y :: L1 id)). split_and!.
  - intros A k r s' Hk. eapply runs_bind; [exact Hr1|]. cbv beta.
    eapply runs_bind; [apply runs_st32|]. cbv beta. cbn [mem set_mem].
    eapply runs_bind; [by apply Hhd|]. cbv beta. rewrite node_of_mb by done.
    eapply runs_bind; [exact Hr3|]. exact Hk.
  - assert (baddr m3 y = u32 v) as Ey3.
    { rewrite <- Ey. by apply links_only_baddr. }
    constructor; [done| |]; intros k Hk; cbn [mem set_mem]; unfold add_free, add_alloc, upd, L1;
      destruct id as [|i|i]; try done; repeat case_decide; simplify_eq; try done; cbn [map];
      rewrite ?upd_ne by done; rewrite ?Ey3, Em by done; rewrite ?Hf, ?Hg by done; done.
  - unfold upd at 1. rewrite decide_False by done. unfold L1. by rewrite upd_eq.
  - eapply pool_only_trans; [by apply links_pool_only|].
    eapply pool_only_trans; [by apply addr_pool_only|]. by apply links_pool_only.
Qed.

(** End of the area that [DirectMappingInit] divides, relative to its start. *)
Notation "'LIM'" := 66060288 (at level 0, only parsing).

(** The free blocks the loops make: at most one of each class, since what remains is
    always smaller than two blocks of the class. *)
Fixpoint init_f (n : nat) (i : Z) (f : nat -> list Z) : nat -> list Z :=
  match n with
  | O => f
  | S n' =>
      if i <? LIM then
        if i + 2 ^ Z.of_nat n' <=? LIM
        then init_f n' (i + 2 ^ Z.of_nat n') (upd f n' ((KVA + i) :: f n'))
        else init_f n' i f
      else f
  end.

Lemma DirectMappingVirtualAddr_spec i : 0 <= i < 1073741824 -> DirectMappingVirtualAddr i = KVA + i.
Proof.
  intros. unfold DirectMappingVirtualAddr, kKVirtualAddr, u32.
  change (i32 3221225472) with (KVA - W32).
  replace (i + (KVA - W32)) with (KVA + i + (-1) * W32) by lia.
  rewrite Z.mod_add by lia. apply Z.mod_small. lia.
Qed.

Lemma init_free_spec `{Platform} n fuel s L f g i :
  alloc_inv s L f g -> (n <= 26)%nat -> 0 <= i <= LIM -> LIM - i < 2 ^ Z.of_nat n ->
  (n <= length (L LPool))%nat -> (2 <= fuel)%nat ->
  exists m' L', runs (init_free n fuel i) s tt (set_mem m' s) /\
    alloc_inv (set_mem m' s) L' (init_f n i f) g /\
    (length (L LPool) <= length (L' LPool) + n)%nat /\ pool_only (mem s) m'.
Proof.
  intros Hinv Hn Hi Hrem HP Hfuel. revert s L f i Hinv Hi Hrem HP.
  induction n as [|n IH]; intros s L f i Hinv Hi Hrem HP.
  { exists (mem s), L. rewrite set_mem_mem. split_and!; [done|done|lia|apply pool_only_refl]. }
  cbn [init_free init_f]. change (kDirectMappingSize - kNodePoolSize) with LIM.
  assert (2 ^ Z.of_nat (S n) = 2 * 2 ^ Z.of_nat n) as E2 by (rewrite <- pow_nat_succ; do 2 f_equal; lia).
  destruct (Z.ltb_spec i LIM) as [Hlt|Hge].
  2: { exists (mem s), L. rewrite set_mem_mem. split_and!; [done|done|lia|apply pool_only_refl]. }
  destruct fuel as [|[|fuel]]; [lia|lia|].
  destruct (Z.leb_spec (i + 2 ^ Z.of_nat n) LIM) as [Hfit|Hno].
  - destruct (L LPool) as [|y ys] eqn:EP; [cbn in HP; lia|].
    destruct (new_block s L f g (LFree n) (DirectMappingVirtualAddr i) (free_head (Z.of_nat n)) y ys
      Hinv ltac:(cbn; lia) ltac:(done) EP) as (m1 & L1 & Hr1 & Hinv1 & EP1 & Hpo1).
    { intros s' E. rewrite <- E. apply runs_arr_get; [lia|]. rewrite Nat2Z.id, E.
      eapply nth_in_bounds; [apply Hinv|lia]. }
    cbn [add_free add_alloc] in Hinv1. rewrite DirectMappingVirtualAddr_spec, u32_small in Hinv1 by lia.
    destruct (IH ltac:(lia) _ L1 _ (i + 2 ^ Z.of_nat n) Hinv1) as (m2 & L2 & Hr2 & Hinv2 & EP2 & Hpo2);
      [pose proof (pow_nat_pos n); lia|lia|rewrite EP1; cbn in HP; lia|].
    exists m2, L2. split_and!; [|exact Hinv2|rewrite EP1 in EP2; cbn; lia|by eapply pool_only_trans].
    eapply runs_bind; [|exact Hr2]. eapply loop_step.
    + rewrite GetMemBlockSize_pow by lia. change (kDirectMappingSize - kNodePoolSize) with LIM.
      destruct (Z.leb_spec (i + 2 ^ Z.of_nat n) LIM); [|lia]. apply Hr1. reflexivity.
    + apply loop_exit. rewrite GetMemBlockSize_pow by lia.
      change (kDirectMappingSize - kNodePoolSize) with LIM.
      destruct (Z.leb_spec (i + 2 ^ Z.of_nat n + 2 ^ Z.of_nat n) LIM); [lia|reflexivity].
  - destruct (IH ltac:(lia) s L f i Hinv Hi ltac:(lia) ltac:(lia)) as (m2 & L2 & Hr2 & Hinv2 & EP2 & Hpo2).
    exists m2, L2. split_and!; [|done|lia|done]. eapply runs_bind; [|exact Hr2].
    apply loop_exit. rewrite GetMemBlockSize_pow by lia.
    change (kDirectMappingSize - kNodePoolSize) with LIM.
    destruct (Z.leb_spec (i + 2 ^ Z.of_nat n) LIM); [lia|reflexivity].
Qed.

(** ** The heap after initialisation *)

(** Exactly the bytes below [KVA + i] belong to blocks. *)
Definition filled (R : Z) (f g : nat -> list Z) (i : Z) : Prop :=
  heap_ok R f g /\ forall x, covered f g x <-> KVA <= x < KVA + i.

Lemma filled_below R f g i fr k a : filled R f g i -> blk f g fr k a -> a + 2 ^ Z.of_nat k <= KVA + i.
Proof.
  intros [_ Hc] Hb. pose proof (pow_nat_pos k).
  assert (covered f g (a + 2 ^ Z.of_nat k - 1)) as H1; [exists fr, k, a; split; [done|lia]|].
  apply Hc in H1. lia.
Qed.

(** A free block appended at the end of the filled area. *)
Lemma filled_add R f g i n :
  filled R f g i -> (n < 26)%nat -> f n = [] -> 0 <= i -> i + 2 ^ Z.of_nat n <= LIM ->
  (2 ^ Z.of_nat n | i - R) ->
  filled R (upd f n [KVA + i]) g (i + 2 ^ Z.of_nat n).
Proof.
  intros Hfl Hn Hfn Hi Hlim Hal. pose proof (pow_nat_pos n) as Hpos.
  assert (forall fr k a, blk (upd f n [KVA + i]) g fr k a <->
    blk f g fr k a \/ (fr = true /\ k = n /\ a = KVA + i)) as Hb.
  { intros fr k a. unfold blk, upd. destruct fr; [case_decide as E|].
    - subst k. rewrite Hfn. set_solver.
    - naive_solver.
    - naive_solver. }
  destruct Hfl as [Hok Hcov]. pose proof (filled_below R f g i) as Hbelow.
  split; [constructor|].
  - intros fr k a [H|(-> & -> & ->)]%Hb; [by apply (ho_range _ _ _ Hok fr)|lia].
  - intros fr1 k1 a1 fr2 k2 a2 [H1|(-> & -> & ->)]%Hb [H2|(-> & -> & ->)]%Hb Hne.
    + by apply (ho_apart _ _ _ Hok fr1 k1 a1 fr2 k2 a2).
    + pose proof (Hbelow fr1 k1 a1 (conj Hok Hcov) H1). unfold apart. lia.
    + pose proof (Hbelow fr2 k2 a2 (conj Hok Hcov) H2). unfold apart. lia.
    + done.
  - intros fr k a [H|(-> & -> & ->)]%Hb; [by apply (ho_align _ _ _ Hok fr)|].
    by replace (KVA + i - KVA - R) with (i - R) by lia.
  - intros k Hk. unfold upd. case_decide; [repeat constructor|by apply Hok].
  - apply Hok.
  - intros x. transitivity (covered f g x \/ KVA + i <= x < KVA + i + 2 ^ Z.of_nat n).
    + unfold covered. setoid_rewrite Hb. naive_solver.
    + rewrite Hcov. lia.
Qed.

Lemma init_f_filled R n i f g :
  (n <= 26)%nat -> filled R f g i -> (forall k, (k < n)%nat -> f k = []) ->
  (2 ^ Z.of_nat n | i - R) -> 0 <= i <= LIM -> LIM - i < 2 ^ Z.of_nat n ->
  filled R (init_f n i f) g LIM.
Proof.
  revert i f. induction n as [|n IH]; intros i f Hn Hfl He Hdiv Hi Hrem; cbn [init_f].
  { replace LIM with i; [done|]. cbn in Hrem. lia. }
  assert (2 ^ Z.of_nat (S n) = 2 * 2 ^ Z.of_nat n) as E2 by (rewrite <- pow_nat_succ; do 2 f_equal; lia).
  assert (2 ^ Z.of_nat n | i - R) as Hd.
  { eapply Z.divide_trans; [|exact Hdiv]. rewrite E2. by apply Z.divide_factor_r. }
  destruct (Z.ltb_spec i LIM) as [Hlt|Hge]; [|by replace LIM with i by lia].
  destruct (Z.leb_spec (i + 2 ^ Z.of_nat n) LIM) as [Hfit|Hno].
  - pose proof (pow_nat_pos n). apply IH; [lia| | | |lia|lia].
    + rewrite He by lia. apply filled_add; [done|lia|apply He; lia|lia|done|done].
    + intros k Hk. rewrite upd_ne by lia. apply He. lia.
    + replace (i + 2 ^ Z.of_nat n - R) with (i - R + 2 ^ Z.of_nat n) by lia.
      apply Z.divide_add_r; [done|apply Z.divide_refl].
  - apply IH; [lia|done|intros; apply He; lia|done|done|lia].
Qed.

(** The blocks [DirectMappingInit] leaves: the reserved block, and free blocks from
    its end on. *)
Definition boot_alloc (t : nat) : nat -> list Z := upd (fun _ => []) t [KVA].
Definition boot_free (t : nat) : nat -> list Z := init_f 26 (2 ^ Z.of_nat t) (fun _ => []).

Lemma boot_filled t : (t < 26)%nat -> filled (2 ^ Z.of_nat t) (boot_free t) (boot_alloc t) LIM.
Proof.
  intros Ht. pose proof (pow_nat_pos t). pose proof (pow_nat_le t 25 ltac:(lia)).
  change (2 ^ Z.of_nat 25) with 33554432 in *.
  assert (forall fr k a, blk (fun _ => []) (boot_alloc t) fr k a <-> fr = false /\ k = t /\ a = KVA) as Hb.
  { intros fr k a. unfold blk, boot_alloc, upd. destruct fr; [set_solver|].
    case_decide; set_solver. }
  apply init_f_filled; [lia| |done|rewrite Z.sub_diag; apply Z.divide_0_r|lia|
    change (2 ^ Z.of_nat 26) with 67108864; lia].
  split; [constructor|].
  - intros fr k a (-> & -> & ->)%Hb. lia.
  - intros fr1 k1 a1 fr2 k2 a2 (-> & -> & ->)%Hb (-> & -> & ->)%Hb. done.
  - intros fr k a (-> & -> & ->)%Hb. exists (-1). lia.
  - intros. constructor.
  - intros k Hk. unfold boot_alloc, upd. case_decide; repeat constructor.
  - intros x. unfold covered. setoid_rewrite Hb. split.
    + intros (fr & k & a & (-> & -> & ->) & Hx). lia.
    + intros Hx. exists false, t, KVA. split; [done|lia].
Qed.

(** The state between the heads and the reservation. *)
Lemma init_lists_spec s :
  length (free_mem_list (alloc s)) = 26%nat -> length (allocated_mem_list (alloc s)) = 26%nat ->
  exists m' al' P, (forall {A} (k : K A) r s', runs k (set_mem m' (set_alloc al' s)) r s' ->
      runs (MemBlockPoolInit (DirectMappingVirtualAddr (kDirectMappingSize - kNodePoolSize))
        kNodePoolSize ;;; for_ 26 0 init_heads ;;; k) s r s') /\
    alloc_inv (set_mem m' (set_alloc al' s)) (init_lists P) (fun _ => []) (fun _ => []) /\
    length P = Z.to_nat 131019 /\ pool_only (mem s) m'.
Proof.
  intros Lf La. destruct (MemBlockPoolInit_spec s) as (m0 & Hr0 & Hc0 & Hp0).
  set (s0 := set_mem m0 _) in Hr0.
  assert (exists N, N = Z.to_nat 131072 /\ Z.of_nat N = 131072) as (N & EN & HN)
    by (eexists; split; [reflexivity|lia]).
  rewrite <- EN in Hc0. clear EN.
  assert (heads_inv s0 (pool_list N) [] []) as H0.
  { clear Hr0.
    constructor; [reflexivity|by exists (free_mem_list (alloc s))|by exists (allocated_mem_list (alloc s))|
      exact Hc0|set_solver|rewrite !app_nil_r; apply pool_list_NoDup|].
    intros n. rewrite !app_nil_r. intros (i & Hi & ->)%pool_list_elem. apply pnode_mb. lia. }
  destruct (init_heads_all s0 (pool_list N) [] [] 26 H0 eq_refl eq_refl)
    as (s1 & F & A & Hr1 & H1 & LF & LA & Hl1 & E1).
  { rewrite pool_list_length. lia. }
  exists (mem s1), (alloc s1), (drop 52 (pool_list N)).
  assert (s1 = set_mem (mem s1) (set_alloc (alloc s1) s)) as E1' by (by rewrite E1).
  rewrite <- E1'. split_and!.
  - intros B k r s' Hk. eapply runs_bind; [exact Hr0|]. eapply runs_bind; [exact Hr1|exact Hk].
  - constructor; [by eapply heads_rep|done|done].
  - rewrite length_drop, pool_list_length. lia.
  - eapply pool_only_trans; [exact Hp0|]. by apply links_pool_only.
Qed.

(** [DirectMappingInit] establishes the invariant. *)
Lemma DirectMappingInit_runs `{Platform} s fuel (t := class_of K_END) :
  length (free_mem_list (alloc s)) = 26%nat -> length (allocated_mem_list (alloc s)) = 26%nat ->
  0 < K_END <= 33554432 -> (2 <= fuel)%nat ->
  exists m' al' L, let s' := set_mem m' (set_alloc al' s) in
    runs (DirectMappingInit fuel) s tt s' /\
    alloc_inv s' L (boot_free t) (boot_alloc t) /\
    (130992 <= Z.of_nat (length (L LPool))) /\ pool_only (mem s) m'.
Proof.
  intros Lf La HK Hfuel. destruct (class_of_spec K_END HK) as (Et & Ht & Hsz). fold t in Et, Ht, Hsz.
  destruct (init_lists_spec s Lf La) as (m1 & al & P & Hr1 & Hinv1 & LP & Hp1).
  set (s1 := set_mem m1 (set_alloc al s)) in *.
  destruct P as [|y ys]; [cbn in LP; lia|].
  destruct (new_block s1 _ _ _ (LAlloc t) kKVirtualAddr (allocated_head (Z.of_nat t)) y ys Hinv1 Ht
    ltac:(done) eq_refl) as (m2 & L2 & Hr2 & Hinv2 & EP2 & Hp2).
  { intros s' E. rewrite <- E. apply runs_arr_get; [lia|]. rewrite Nat2Z.id, E.
    eapply nth_in_bounds; [apply Hinv1|lia]. }
  pose proof (pow_nat_pos t). pose proof (pow_nat_le t 25 ltac:(lia)) as H25.
  change (2 ^ Z.of_nat 25) with 33554432 in H25. cbn [length] in LP.
  destruct (init_free_spec 26 fuel _ L2 _ _ (2 ^ Z.of_nat t) Hinv2) as (m3 & L3 & Hr3 & Hinv3 & EP3 & Hp3);
    [lia|lia|change (2 ^ Z.of_nat 26) with 67108864; lia|rewrite EP2; lia|done|].
  exists m3, al, L3. split_and!; [|exact Hinv3|rewrite EP2 in EP3; lia|].
  - unfold DirectMappingInit. apply Hr1. rewrite i32_small by lia. rewrite Et.
    cbv zeta. apply Hr2. rewrite GetMemBlockSize_pow by lia. exact Hr3.
  - eapply pool_only_trans; [exact Hp1|]. by eapply pool_only_trans.
Qed.
