(* ===== verification/AllocRel.v ===== *)
(** * Release: RelBytes, and where it goes wrong

    [RelBytes] is correct when two conditions hold: no allocated block of a smaller
    class lies above the released address (the search gives up at the first larger
    address it meets, in whichever class), and the release completes no pair of
    buddies. When a pair is completed, [MergeBlock] breaks the free list. *)

From Stdlib Require Import ZArith Lia ZifyBool Sorting.Sorted.
From stdpp Require Import base numbers gmap list.
From S2P Require Import Prelude Memory Machine Lists Allocator AllocRep AllocReq AllocHeap AllocInit.

(** ** The search *)

(** The walk over the smaller addresses, common to the three outcomes. *)
Lemma rel_scan_walk fuel s L id addr pre p q r s' (h := head_of (alloc s) id) :
  rep s L -> vlid id -> L id = pre ++ p ++ q ->
  Forall (fun n => baddr (mem s) n < addr) p ->
  (forall f, (f + length p = fuel)%nat ->
     runs (loop f (fun rem =>
       nxt <- ld32 rem ;;
       if nxt =? h then ret (inr None)
       else
         a <- ld32 (GET_STRUCT nxt 4) ;;
         if a =? addr then x <- ListRemove rem ;; ret (inr (Some x))
         else if addr <? a then ret (inr (Some rem))
         else ret (inl nxt)) (tail_of h (pre ++ p))) s r s') ->
  (length p <= fuel)%nat ->
  runs (loop fuel (fun rem =>
    nxt <- ld32 rem ;;
    if nxt =? h then ret (inr None)
    else
      a <- ld32 (GET_STRUCT nxt 4) ;;
      if a =? addr then x <- ListRemove rem ;; ret (inr (Some x))
      else if addr <? a then ret (inr (Some rem))
      else ret (inl nxt)) (tail_of h pre)) s r s'.
Proof.
  intros R V. revert pre fuel. induction p as [|x p IH]; intros pre fuel HL Hp Hend Hf.
  - rewrite app_nil_r in Hend. apply Hend. cbn. lia.
  - apply Forall_cons in Hp as [Hx Hp]. destruct fuel as [|fuel]; [cbn in Hf; lia|].
    eapply loop_step.
    + apply (rep_read s L id pre x (p ++ q)); [done|done|done|].
      destruct (Z.eqb_spec (baddr (mem s) x) addr); [lia|].
      destruct (Z.ltb_spec addr (baddr (mem s) x)); [lia|reflexivity].
    + replace x with (tail_of h (pre ++ [x])) at 1 by (by rewrite tail_of_app).
      apply IH; [by rewrite <- app_assoc|done| |cbn in Hf; lia].
      intros f Hfu. rewrite <- app_assoc. apply Hend. cbn. lia.
Qed.

(** The block is found and removed from its list. *)
Lemma rel_scan_found fuel s L id addr pre x post :
  rep s L -> vlid id -> L id = pre ++ x :: post ->
  Forall (fun n => baddr (mem s) n < addr) pre -> baddr (mem s) x = addr ->
  (length pre < fuel)%nat ->
  exists m', runs (rel_scan fuel (head_of (alloc s) id) addr) s (Some x) (set_mem m' s) /\
    rep (set_mem m' s) (upd L id (pre ++ post)) /\
    loose (set_mem m' s) (upd L id (pre ++ post)) x /\ links_only (mem s) m'.
Proof.
  intros R V HL Hpre Hx Hf.
  destruct (rep_pop s L id pre x post R V HL) as (m' & Hr & R' & Lx & Hl).
  exists m'. split_and!; [|done|done|done].
  apply (rel_scan_walk fuel s L id addr [] pre (x :: post)); [done|done|done|done| |lia].
  intros f Hfu. cbn [app]. destruct f as [|f]; [lia|]. apply loop_exit.
  apply (rep_read s L id pre x post); [done|done|done|]. rewrite Hx, Z.eqb_refl.
  eapply runs_bind; [exact Hr|]. reflexivity.
Qed.

(** A list with only smaller addresses is passed over. *)
Lemma rel_scan_passes fuel s L id addr :
  rep s L -> vlid id -> Forall (fun n => baddr (mem s) n < addr) (L id) ->
  (length (L id) < fuel)%nat ->
  runs (rel_scan fuel (head_of (alloc s) id) addr) s None s.
Proof.
  intros R V Hp Hf.
  apply (rel_scan_walk fuel s L id addr [] (L id) []); [done|done|by rewrite app_nil_r|done| |lia].
  intros f Hfu. destruct f as [|f]; [lia|]. apply loop_exit. by apply (rep_read_end s L id).
Qed.

(** A larger address ends the search with the node in front of it. *)
Lemma rel_scan_gives_up fuel s L id addr pre x post :
  rep s L -> vlid id -> L id = pre ++ x :: post ->
  Forall (fun n => baddr (mem s) n < addr) pre -> addr < baddr (mem s) x ->
  (length pre < fuel)%nat ->
  runs (rel_scan fuel (head_of (alloc s) id) addr) s (Some (tail_of (head_of (alloc s) id) pre)) s.
Proof.
  intros R V HL Hpre Hx Hf.
  apply (rel_scan_walk fuel s L id addr [] pre (x :: post)); [done|done|done|done| |lia].
  intros f Hfu. cbn [app]. destruct f as [|f]; [lia|]. apply loop_exit.
  apply (rep_read s L id pre x post); [done|done|done|].
  destruct (Z.eqb_spec (baddr (mem s) x) addr); [lia|].
  destruct (Z.ltb_spec addr (baddr (mem s) x)); [reflexivity|lia].
Qed.

Lemma rel_search_pass n fuel s L f g k addr r s' :
  alloc_inv s L f g -> (k < 26)%nat -> Forall (fun a => a < addr) (g k) ->
  (length (g k) < fuel)%nat ->
  runs (rel_search n fuel (Z.of_nat (S k)) addr) s r s' ->
  runs (rel_search (S n) fuel (Z.of_nat k) addr) s r s'.
Proof.
  intros [R _ Hg] Hk Hall Hf Hr. cbn [rel_search].
  eapply runs_bind; [by apply (allocated_head_runs s L)|]. cbv beta.
  eapply runs_bind; [apply (IsListEmpty_spec s _ (L (LAlloc k))), rep_clist; done|]. cbv beta.
  apply (runs_bind _ _ s None s).
  2: { replace (Z.of_nat k + 1) with (Z.of_nat (S k)) by lia. exact Hr. }
  rewrite <- (Hg k Hk) in Hall. rewrite <- (Hg k Hk), length_map in Hf. apply Forall_map in Hall.
  destruct (L (LAlloc k)) as [|x l] eqn:E; [reflexivity|].
  apply (rel_scan_passes fuel s L (LAlloc k)); [done|done|by rewrite E|by rewrite E].
Qed.

(** The lists below class [t] are passed over. *)
Lemma rel_search_skip s L f g t addr fuel n r s' :
  alloc_inv s L f g -> (t < 26)%nat ->
  (forall k, (k < t)%nat -> Forall (fun a => a < addr) (g k) /\ (length (g k) < fuel)%nat) ->
  runs (rel_search n fuel (Z.of_nat t) addr) s r s' ->
  runs (rel_search (t + n) fuel 0 addr) s r s'.
Proof.
  intros Hinv Ht Hlow Hr.
  assert (forall d, (d <= t)%nat -> runs (rel_search (d + n) fuel (Z.of_nat (t - d)) addr) s r s') as H.
  { induction d as [|d IH]; intros Hd; [by rewrite Nat.sub_0_r|].
    destruct (Hlow (t - S d)%nat ltac:(lia)). cbn [Nat.add].
    eapply rel_search_pass; [done|lia|done|done|].
    replace (S (t - S d)) with (t - d)%nat by lia. apply IH. lia. }
  specialize (H t ltac:(lia)). by rewrite Nat.sub_diag in H.
Qed.

(** ** Merging *)

(** No two neighbours of the list are the halves of one block of the next class. *)
Fixpoint no_merge (R : Z) (k : nat) (l : list Z) : bool :=
  match l with
  | [] => true
  | a :: l' =>
      match l' with
      | [] => true
      | b :: _ => negb ((a + 2 ^ Z.of_nat k =? b) && ((a - R) / 2 ^ Z.of_nat k mod 2 =? 0))
      end && no_merge R k l'
  end.

Section Merge.
Context `{Platform}.
Context (HK : 0 < K_END <= 33554432).
Let R : Z := 2 ^ Z.of_nat (class_of K_END).

Lemma reserved_size_eq : GetMemBlockSize (GetMemBlockSizeType (i32 K_END)) = R.
Proof using HK.
  unfold R. destruct (class_of_spec K_END HK) as (E & Hlt & _). rewrite i32_small by lia.
  rewrite E. apply GetMemBlockSize_pow. lia.
Qed.

(** The scan of a list without a pair of buddies ends without a merge. *)
Lemma merge_scan fuel s L k pre p fuel' (h := head_of (alloc s) (LFree k)) :
  rep s L -> (k < 25)%nat -> L (LFree k) = pre ++ p ->
  (forall n, n ∈ L (LFree k) -> KVA + R <= baddr (mem s) n /\ baddr (mem s) n + 2 ^ Z.of_nat k <= POOL) ->
  no_merge R k (map (baddr (mem s)) p) = true -> (length p < fuel)%nat ->
  runs (loop fuel (merge_body fuel' (Z.of_nat k) h) (tail_of h pre)) s false s.
Proof using HK.
  intros Rep Hk. assert (vlid (LFree k)) as V by (cbn; lia).
  revert pre fuel. induction p as [|x p IH]; intros pre fuel HL Hrange Hnm Hf;
    (destruct fuel as [|fuel]; [cbn in Hf; lia|]).
  - rewrite app_nil_r in HL. subst pre. apply loop_exit.
    apply (rep_read_end s L (LFree k) (inr false)); done.
  - assert (x ∈ L (LFree k)) as Hx by (rewrite HL; set_solver).
    pose proof (Hrange x Hx) as Hrx. pose proof (pow_nat_pos (class_of K_END)) as HR. fold R in HR.
    assert (L (LFree k) = (pre ++ [x]) ++ p) as HL2 by (by rewrite <- app_assoc).
    eapply loop_step.
    + unfold merge_body. eapply runs_bind; [reflexivity|]. cbv beta.
      pose proof (rep_succ s L (LFree k) _ _ Rep V HL) as Es. fold h in Es. rewrite Es. cbn [first_of].
      destruct (Z.eqb_spec x h) as [E|_]; [by apply (rep_ne_head s L (LFree k) x) in E|].
      eapply runs_bind; [reflexivity|]. cbv beta.
      pose proof (rep_succ s L (LFree k) _ _ Rep V HL2) as Enn. fold h in Enn. rewrite tail_of_app in Enn.
      cbn [tail_of] in Enn. rewrite Enn.
      eapply runs_bind; [reflexivity|]. cbv beta. eapply runs_bind; [reflexivity|]. cbv beta.
      rewrite (GET_STRUCT_mb x) by (by apply (rep_mb s L (LFree k))).
      fold (baddr (mem s) x). rewrite reserved_size_eq, GetMemBlockSize_pow by lia.
      rewrite !u32_small by lia.
      destruct p as [|y p]; [cbn [first_of]; rewrite Z.eqb_refl; reflexivity|].
      cbn [first_of map no_merge] in *. apply andb_prop in Hnm as [Hnm _].
      rewrite GET_STRUCT_mb by (apply (rep_mb s L (LFree k)); [done|done|rewrite HL; set_solver]).
      fold (baddr (mem s) y). apply negb_true_iff in Hnm. rewrite <- andb_assoc, Hnm, andb_false_r.
      reflexivity.
    + replace x with (tail_of h (pre ++ [x])) at 1 by (by rewrite tail_of_app).
      apply IH; [done|done| |cbn in Hf; lia]. cbn [map no_merge] in Hnm.
      by apply andb_prop in Hnm as [_ Hnm].
Qed.

Lemma MergeBlock_none fuel s L f g k :
  alloc_inv s L f g -> (k < 26)%nat ->
  (forall a, a ∈ f k -> KVA + R <= a /\ a + 2 ^ Z.of_nat k <= POOL) ->
  no_merge R k (f k) = true -> (1 + length (f k) < fuel)%nat ->
  runs (MergeBlock fuel (Z.of_nat k)) s tt s.
Proof using HK.
  intros [Rep Hf _] Hk Hr Hnm Hfuel. destruct fuel as [|fuel]; [lia|]. cbn [MergeBlock].
  destruct (Z.eqb_spec (Z.of_nat k) (kMemBlockTypeNum - 1)) as [E|E]; [reflexivity|].
  unfold kMemBlockTypeNum in E. eapply runs_bind; [by apply (free_head_runs s L)|]. cbv beta.
  rewrite <- (Hf k Hk) in Hr, Hnm, Hfuel. rewrite length_map in Hfuel.
  apply (runs_bind _ _ s false s); [|reflexivity].
  apply (merge_scan fuel s L k [] (L (LFree k))); [done|lia|done| |done|lia].
  intros n Hn. apply Hr. by apply list_elem_of_fmap_2.
Qed.
End Merge.

(** ** The specification of a release *)

Definition rel_alloc (g : nat -> list Z) (t : nat) (addr : Z) : nat -> list Z :=
  upd g t (filter (fun a => a <> addr) (g t)).
Definition rel_free (f : nat -> list Z) (t : nat) (addr : Z) : nat -> list Z :=
  upd f t (insert_pos addr (f t)).

Lemma sorted_split (l1 l2 : list Z) a :
  StronglySorted Z.lt (l1 ++ a :: l2) ->
  Forall (fun b => b < a) l1 /\ Forall (fun b => a < b) l2 /\
  filter (fun b => b <> a) (l1 ++ a :: l2) = l1 ++ l2.
Proof.
  intros Hs. induction l1 as [|x l1 IH]; cbn [app] in *.
  - apply StronglySorted_inv in Hs as [Hs Ha]. split_and!; [constructor|done|].
    rewrite filter_cons_False by auto. cbn. clear Hs. induction Ha as [|y l2 Hy Ha IH]; [done|].
    rewrite filter_cons_True by lia. by rewrite IH.
  - apply StronglySorted_inv in Hs as [Hs Ha]. destruct (IH Hs) as (H1 & H2 & H3).
    assert (x < a) as Hx by (rewrite Forall_forall in Ha; apply Ha; set_solver).
    split_and!; [by constructor|done|]. rewrite filter_cons_True by lia. by rewrite H3.
Qed.

(** Where [addr] is in the list of its class. *)
Lemma alloc_split s L f g t addr :
  alloc_inv s L f g -> (t < 26)%nat -> StronglySorted Z.lt (g t) -> addr ∈ g t ->
  exists pre x post, L (LAlloc t) = pre ++ x :: post /\ baddr (mem s) x = addr /\
    Forall (fun n => baddr (mem s) n < addr) pre /\
    map (baddr (mem s)) (pre ++ post) = filter (fun a => a <> addr) (g t).
Proof.
  intros [R _ Hg] Ht Hs Ha. rewrite <- (Hg t Ht) in Hs, Ha.
  apply list_elem_of_fmap in Ha as (x & -> & Hx).
  apply list_elem_of_split in Hx as (pre & post & E). exists pre, x, post.
  rewrite <- (Hg t Ht). rewrite E in *. rewrite map_app in Hs. cbn [map] in Hs.
  destruct (sorted_split _ _ _ Hs) as (H1 & _ & H3).
  split_and!; [done|done|by apply Forall_map in H1|]. rewrite !map_app. cbn [map]. by rewrite H3.
Qed.

Lemma rel_search_found s L f g t addr fuel n :
  alloc_inv s L f g -> (t < 26)%nat -> StronglySorted Z.lt (g t) -> addr ∈ g t ->
  (length (g t) < fuel)%nat ->
  exists m' L' x, runs (rel_search (S n) fuel (Z.of_nat t) addr) s (Some (Z.of_nat t, x)) (set_mem m' s) /\
    alloc_inv (set_mem m' s) L' f (rel_alloc g t addr) /\
    loose (set_mem m' s) L' x /\ baddr m' x = addr /\ L' LPool = L LPool /\ links_only (mem s) m'.
Proof.
  intros Hinv Ht Hs Ha Hf.
  destruct (alloc_split s L f g t addr Hinv Ht Hs Ha) as (pre & x & post & HL & Hx & Hpre & Hrem).
  destruct Hinv as [R Hfr Hg]. assert (vlid (LAlloc t)) as V by done.
  rewrite <- (Hg t Ht), length_map, HL, length_app in Hf.
  destruct (rel_scan_found fuel s L (LAlloc t) addr pre x post R V HL Hpre Hx ltac:(lia))
    as (m' & Hr & R' & Lx & Hl).
  exists m', (upd L (LAlloc t) (pre ++ post)), x. split_and!; [|constructor| | | |].
  - cbn [rel_search]. eapply runs_bind; [by apply (allocated_head_runs s L)|]. cbv beta.
    eapply runs_bind; [apply (IsListEmpty_spec s _ (L (LAlloc t))), rep_clist; done|].
    rewrite HL. cbv beta. apply (runs_bind _ _ s (Some x) (set_mem m' s)); [|reflexivity].
    destruct pre; exact Hr.
  - done.
  - intros k Hk. rewrite upd_ne by done. rewrite <- (Hfr k Hk). by apply (map_baddr_rep s L).
  - intros k Hk. unfold rel_alloc. cbn [mem set_mem].
    destruct (decide (k = t)) as [->|Hne]; [rewrite !upd_eq|rewrite !upd_ne by congruence].
    + rewrite <- Hrem. apply map_baddr_links; [done|]. intros q Hq.
      apply (rep_mb s L (LAlloc t)); [done|done|rewrite HL; set_solver].
    + rewrite <- (Hg k Hk). by apply (map_baddr_rep s L).
  - done.
  - rewrite <- Hx. apply links_only_baddr; [done|apply Lx].
  - by rewrite upd_ne.
  - done.
Qed.

(** [RelBytes] moves the block from the allocated to the free list of its class, and
    then merges. *)
Lemma RelBytes_moves `{Platform} fuel s L f g t addr :
  alloc_inv s L f g -> (t < 26)%nat -> 0 <= addr < W32 -> addr ∈ g t ->
  (forall k, (k < 26)%nat -> StronglySorted Z.lt (g k)) ->
  (forall k, (k < t)%nat -> Forall (fun a => a < addr) (g k)) ->
  (forall k, (k <= t)%nat -> (length (g k) < fuel)%nat) -> (2 + length (f t) < fuel)%nat ->
  exists m' L', (forall s', runs (MergeBlock fuel (Z.of_nat t)) (set_mem m' s) tt s' ->
      runs (RelBytes fuel addr) s tt s') /\
    alloc_inv (set_mem m' s) L' (rel_free f t addr) (rel_alloc g t addr) /\
    L' LPool = L LPool /\ links_only (mem s) m'.
Proof.
  intros Hinv Ht Haddr Ha Hs Hlow Hfg Hff.
  destruct (rel_search_found s L f g t addr fuel (25 - t) Hinv Ht (Hs t Ht) Ha (Hfg t ltac:(lia)))
    as (m1 & L1 & x & Hr1 & Hinv1 & Lx & Ex & EP & Hl1).
  destruct Hinv1 as [R1 Hfr1 Hg1]. assert (vlid (LFree t)) as V by done.
  destruct (insert_block fuel (set_mem m1 s) L1 (LFree t) x R1 V Lx)
    as (p & m2 & l' & Hr2 & Hr3 & R2 & Hl2 & Ei).
  { rewrite <- (Hfr1 t Ht), length_map in Hff. lia. }
  cbn [mem set_mem alloc] in *. rewrite Ex in Hr2, Ei.
  exists m2, (upd L1 (LFree t) l'). split_and!; [|constructor|by rewrite upd_ne|by eapply links_only_trans].
  - intros s' Hm. unfold RelBytes. rewrite u32_small by done. eapply runs_bind.
    { replace 26%nat with (t + S (25 - t))%nat by lia.
      apply (rel_search_skip s L f g t); [done|done| |exact Hr1].
      intros k Hk. split; [auto|apply Hfg; lia]. }
    cbv beta iota. eapply runs_bind; [by apply (free_head_runs (set_mem m1 s) L1)|]. cbv beta.
    eapply runs_bind; [exact Hr2|]. cbv beta. eapply runs_bind; [exact Hr3|]. exact Hm.
  - done.
  - intros k Hk. cbn [mem set_mem].
    unfold rel_free. destruct (decide (k = t)) as [->|Hne]; [rewrite !upd_eq|rewrite !upd_ne by congruence].
    + by rewrite Ei, (Hfr1 t Ht).
    + rewrite <- (Hfr1 k Hk). by apply (map_baddr_rep (set_mem m1 s) L1).
  - intros k Hk. cbn [mem set_mem]. rewrite upd_ne by done. rewrite <- (Hg1 k Hk).
    by apply (map_baddr_rep (set_mem m1 s) L1).
Qed.

Lemma insert_pos_length a l : length (insert_pos a l) = S (length l).
Proof. induction l as [|x l IH]; [done|]. cbn. destruct (x <? a); cbn; lia. Qed.

(** Without buddies the merge does nothing. *)
Lemma RelBytes_runs `{Platform} fuel s L f g t addr (R := 2 ^ Z.of_nat (class_of K_END)) :
  0 < K_END <= 33554432 -> alloc_inv s L f g -> (t < 26)%nat -> 0 <= addr < W32 -> addr ∈ g t ->
  (forall k, (k < 26)%nat -> StronglySorted Z.lt (g k)) ->
  (forall k, (k < t)%nat -> Forall (fun a => a < addr) (g k)) ->
  (forall a, a ∈ rel_free f t addr t -> KVA + R <= a /\ a + 2 ^ Z.of_nat t <= POOL) ->
  no_merge R t (rel_free f t addr t) = true ->
  (forall k, (k <= t)%nat -> (length (g k) < fuel)%nat) -> (2 + length (f t) < fuel)%nat ->
  exists m' L', runs (RelBytes fuel addr) s tt (set_mem m' s) /\
    alloc_inv (set_mem m' s) L' (rel_free f t addr) (rel_alloc g t addr) /\
    L' LPool = L LPool /\ links_only (mem s) m'.
Proof.
  intros HK Hinv Ht Haddr Ha Hs Hlow Hrange Hnm Hfg Hff.
  destruct (RelBytes_moves fuel s L f g t addr Hinv Ht Haddr Ha Hs Hlow Hfg Hff)
    as (m' & L' & Hrun & Hinv' & EP & Hl).
  exists m', L'. split_and!; [|done|done|done]. apply Hrun.
  eapply (MergeBlock_none HK fuel _ _ _ _ t Hinv'); [done|done|done|].
  unfold rel_free. rewrite upd_eq, insert_pos_length. lia.
Qed.

(** ** The heap after a release *)

Section Release.
Context (R : Z) (f g : nat -> list Z) (Hok : heap_ok R f g) (t : nat) (addr : Z).
Context (Ht : (t < 26)%nat) (Ha : addr ∈ g t).

Lemma rel_blocks fr k a :
  blk (rel_free f t addr) (rel_alloc g t addr) fr k a <->
  (blk f g fr k a /\ (fr, k, a) <> (false, t, addr)) \/ (fr = true /\ k = t /\ a = addr).
Proof using Ht.
  unfold blk, rel_free, rel_alloc, upd. destruct fr; case_decide as E; subst.
  - rewrite insert_pos_elem. naive_solver.
  - naive_solver.
  - rewrite list_elem_of_filter. naive_solver.
  - naive_solver.
Qed.

Lemma rel_source : blk f g false t addr.
Proof using Ht Ha. done. Qed.

Lemma rel_not_free : addr ∉ f t.
Proof using Hok Ht Ha.
  intros Hf. pose proof (pow_nat_pos t).
  pose proof (ho_apart _ _ _ Hok true t addr false t addr (conj Ht Hf) rel_source ltac:(done)) as Hap.
  unfold apart in Hap. lia.
Qed.

Lemma rel_heap_ok : heap_ok R (rel_free f t addr) (rel_alloc g t addr).
Proof using Hok Ht Ha.
  pose proof rel_source as Hsrc. constructor.
  - intros fr k a [[Hb _]|(-> & -> & ->)]%rel_blocks; by eapply (ho_range _ _ _ Hok).
  - intros fr1 k1 a1 fr2 k2 a2 [[Hb1 N1]|(-> & -> & ->)]%rel_blocks
      [[Hb2 N2]|(-> & -> & ->)]%rel_blocks Hne.
    + by eapply (ho_apart _ _ _ Hok).
    + by eapply (ho_apart _ _ _ Hok).
    + eapply (ho_apart _ _ _ Hok); [done|done|congruence].
    + done.
  - intros fr k a [[Hb _]|(-> & -> & ->)]%rel_blocks; by eapply (ho_align _ _ _ Hok).
  - intros k Hk. unfold rel_free, upd. case_decide; [subst k|by apply Hok].
    apply insert_pos_sorted; [apply rel_not_free|by apply Hok].
  - intros k Hk. unfold rel_alloc, upd. case_decide; [subst k|by apply Hok].
    apply list_elem_of_split in Ha as (l1 & l2 & E). rewrite E.
    pose proof (ho_sorted_g _ _ _ Hok t Hk) as Hs. rewrite E in Hs.
    destruct (sorted_split _ _ _ Hs) as (_ & _ & ->). clear E. induction l1 as [|x l1 IH]; cbn in *.
    + by apply StronglySorted_inv in Hs as [Hs _].
    + apply StronglySorted_inv in Hs as [Hs Hx]. constructor; [auto|].
      rewrite Forall_forall in Hx |- *. intros y Hy. apply Hx. set_solver.
Qed.

Lemma rel_covered x : covered (rel_free f t addr) (rel_alloc g t addr) x <-> covered f g x.
Proof using Ht Ha.
  split; intros (fr & k & a & Hb & Hx).
  - apply rel_blocks in Hb as [[Hb _]|(-> & -> & ->)]; [by exists fr, k, a|].
    by exists false, t, addr.
  - destruct (decide ((fr, k, a) = (false, t, addr))) as [[= -> -> ->]|Hne].
    + exists true, t, addr. split; [|done]. apply rel_blocks. auto.
    + exists fr, k, a. split; [|done]. apply rel_blocks. auto.
Qed.
End Release.
