(* ===== verification/AllocSafety.v ===== *)
(** * The allocator's guarantees

    The theorems about direct_mapping_allocator.c: size classes, initialisation,
    requests and releases against their specification, safety of any sequence of
    requests, and the two defects of [RelBytes]. *)

From Stdlib Require Import ZArith Lia ZifyBool Sorting.Sorted.
From stdpp Require Import base numbers gmap list.
From S2P Require Import Prelude Memory Machine Lists Allocator AllocRep AllocReq AllocHeap AllocInit AllocRel.

(** The abstraction of the allocator's state: the lists in memory hold exactly the
    free blocks [f] and the allocated blocks [g], these form a well-formed heap, and
    [spare] [MemBlock]s are left in the pool. *)
Definition heap_at (R : Z) (s : kstate) (f g : nat -> list Z) (spare : Z) : Prop :=
  heap_ok R f g /\ exists L, alloc_inv s L f g /\ spare <= Z.of_nat (length (L LPool)).

(** The image ends in the first 32 MB. *)
Notation image_ok := (0 < K_END <= 33554432).
Notation reserved := (2 ^ Z.of_nat (class_of K_END)).

(** The arrays of list heads have their declared length. *)
Definition arrays_ok (s : kstate) : Prop :=
  length (free_mem_list (alloc s)) = 26%nat /\ length (allocated_mem_list (alloc s)) = 26%nat.

(** ** Requests in sequence *)

Fixpoint ReqAll (fuel : nat) (sizes : list Z) : K (list Z) :=
  match sizes with
  | [] => ret []
  | size :: sizes' =>
      r <- ReqBytes fuel size ;;
      rs <- ReqAll fuel sizes' ;;
      ret (r :: rs)
  end.

Lemma req_spec_lengths f g t r f' g' k :
  req_spec f g t = Some (r, f', g') -> (length (g' k) <= S (length (g k)))%nat.
Proof.
  unfold req_spec. destruct (find_fit _ _ _); [|done]. intros [= <- <- <-].
  unfold upd. case_decide; [subst; rewrite insert_pos_length; lia|lia].
Qed.

(** A request, with the heap's properties. *)
Lemma req_step R fuel s f g n size :
  heap_at R s f g (26 + n) -> 0 <= n -> 0 < size <= 33554432 ->
  (28 + length (g (class_of size)) <= fuel)%nat ->
  exists r m' f' g', runs (ReqBytes fuel size) s r (set_mem m' s) /\
    heap_at R (set_mem m' s) f' g' (1 + n) /\ pool_only (mem s) m' /\
    (forall x, covered f' g' x <-> covered f g x) /\
    (forall k, (length (g' k) <= S (length (g k)))%nat) /\
    (forall k a, blk f' g' false k a <-> blk f g false k a \/ (r <> 0 /\ k = class_of size /\ a = r)) /\
    (r <> 0 -> forall k a, blk f g false k a -> apart r (2 ^ Z.of_nat (class_of size)) a (2 ^ Z.of_nat k)) /\
    (r = 0 <-> forall k, (class_of size <= k < 26)%nat -> f k = []) /\
    (r <> 0 -> req_spec f g (class_of size) = Some (r, f', g')).
Proof.
  intros (Hok & L & Hinv & Hsp) Hn Hs Hfuel. destruct (class_of_spec size Hs) as (_ & Ht & _).
  pose proof (ReqBytes_spec fuel s L f g size Hinv (heap_ok_bound _ _ _ Hok) Hs ltac:(lia) Hfuel) as HR.
  pose proof (req_spec_lengths f g (class_of size)) as Hlen.
  pose proof (req_spec_ok R f g (class_of size)) as Hsok.
  destruct (req_spec f g (class_of size)) as [[[r f'] g']|] eqn:E.
  - destruct HR as (m' & L' & Hr & Hinv' & Hsp' & Hpo).
    destruct (Hsok r f' g' Hok Ht eq_refl) as (Hok' & Hcov & Hrg & Hg' & Hfresh & _).
    assert (blk f' g' false (class_of size) r) as Hbr by done.
    pose proof (ho_range _ _ _ Hok' _ _ _ Hbr) as Hrr.
    exists r, m', f', g'. split_and!; [done|split; [done|]; exists L'; split; [done|lia]|done|done| | | | |done].
    + intros k. by eapply Hlen.
    + intros k a. unfold blk. rewrite Hg'. split; [|naive_solver lia].
      intros [Hk [Ha|[-> ->]]]; [auto|right; split_and!; [lia|done|done]].
    + intros _. done.
    + split; [lia|]. intros Hnone. exfalso. unfold req_spec in E.
      destruct (find_fit _ _ _) as [j|] eqn:Ef; [|done].
      destruct (find_fit_Some _ _ _ _ Ef) as (Hj & Hne & _). apply Hne, Hnone. lia.
  - exists 0, (mem s), f, g. rewrite set_mem_mem.
    split_and!; [done|split; [done|]; exists L; split; [done|lia]|apply pool_only_refl|done|lia| |done| |done].
    + naive_solver.
    + split; [intros _|done]. unfold req_spec in E.
      destruct (find_fit _ _ _) as [j|] eqn:Ef; [done|]. intros k Hk.
      eapply (find_fit_None _ _ _ Ef). lia.
Qed.

(** The results of a sequence of requests: in range, apart from what was allocated
    before, and pairwise apart. *)
Lemma ReqAll_spec R fuel sizes s f g n :
  heap_at R s f g (26 * Z.of_nat (length sizes) + n) -> 0 <= n ->
  Forall (fun size => 0 < size <= 33554432) sizes ->
  (forall k, (28 + length (g k) + length sizes <= fuel)%nat) ->
  exists rs m' f' g', runs (ReqAll fuel sizes) s rs (set_mem m' s) /\
    heap_at R (set_mem m' s) f' g' n /\ pool_only (mem s) m' /\
    (forall x, covered f' g' x <-> covered f g x) /\
    (forall i r, rs !! i = Some r -> r <> 0 ->
       exists size, sizes !! i = Some size /\ blk f' g' false (class_of size) r /\
       forall k a, blk f g false k a -> apart r (2 ^ Z.of_nat (class_of size)) a (2 ^ Z.of_nat k)) /\
    (forall i j r1 r2 z1 z2, rs !! i = Some r1 -> rs !! j = Some r2 -> (i < j)%nat ->
       sizes !! i = Some z1 -> sizes !! j = Some z2 -> r1 <> 0 -> r2 <> 0 ->
       apart r2 (2 ^ Z.of_nat (class_of z2)) r1 (2 ^ Z.of_nat (class_of z1))) /\
    length rs = length sizes /\ (forall k a, blk f g false k a -> blk f' g' false k a).
Proof.
  revert s f g. induction sizes as [|size sizes IH]; intros s f g Hh Hn Hsz Hfu.
  { exists [], (mem s), f, g. rewrite set_mem_mem. split_and!; try done; apply pool_only_refl. }
  apply Forall_cons in Hsz as [Hs1 Hsz]. cbn [length] in Hh, Hfu.
  destruct (req_step R fuel s f g (26 * Z.of_nat (length sizes) + n) size) as
    (r & m1 & f1 & g1 & Hr & Hh1 & Hpo1 & Hc1 & Hl1 & Hb1 & Hfr1 & _);
    [by replace (26 + _) with (26 * Z.of_nat (S (length sizes)) + n) by lia|lia|done|
     specialize (Hfu (class_of size)); lia|].
  destruct (IH (set_mem m1 s) f1 g1) as (rs & m2 & f2 & g2 & Hrs & Hh2 & Hpo2 & Hc2 & Hin & Hpw & Hlen & Hold);
    [|done|done|intros k; specialize (Hfu k); specialize (Hl1 k); lia|].
  { destruct Hh1 as (? & L & ? & ?). split; [done|]. exists L. split; [done|lia]. }
  exists (r :: rs), m2, f2, g2. split_and!; [|exact Hh2|by eapply pool_only_trans| | | |cbn; lia|].
  - cbn [ReqAll]. eapply runs_bind; [exact Hr|]. eapply runs_bind; [exact Hrs|]. reflexivity.
  - intros x. by rewrite Hc2, Hc1.
  - intros [|i] r0 Hi Hr0; simpl in Hi.
    + injection Hi as <-. exists size. split_and!; [done|apply Hold, Hb1; auto|auto].
    + destruct (Hin i r0 Hi Hr0) as (z & Hz & Hbz & Hap). exists z. split_and!; [done|done|].
      intros k a Hb. apply Hap, Hb1. auto.
  - intros [|i] [|j] r1 r2 z1 z2 Hi Hj Hlt Hz1 Hz2 N1 N2; simpl in Hi, Hj, Hz1, Hz2; [lia| |lia|].
    + injection Hi as <-. injection Hz1 as <-. destruct (Hin j r2 Hj N2) as (z & Hz & _ & Hap).
      rewrite Hz2 in Hz. injection Hz as <-. apply Hap, Hb1. auto.
    + apply (Hpw i j); auto with lia.
  - intros k a Hb. apply Hold, Hb1. auto.
Qed.

Section Claims.
Context `{Platform}.

Lemma boot_at s fuel :
  arrays_ok s -> image_ok -> (2 <= fuel)%nat ->
  exists m' al', let s' := set_mem m' (set_alloc al' s) in
    runs (DirectMappingInit fuel) s tt s' /\ pool_only (mem s) m' /\
    heap_at reserved s' (boot_free (class_of K_END)) (boot_alloc (class_of K_END)) 130992 /\
    forall x, covered (boot_free (class_of K_END)) (boot_alloc (class_of K_END)) x <-> KVA <= x < POOL.
Proof.
  intros [Lf La] HK Hfuel.
  destruct (DirectMappingInit_runs s fuel Lf La HK Hfuel) as (m' & al' & L & Hr & Hinv & Hsp & Hpo).
  destruct (class_of_spec K_END HK) as (_ & Ht & _). destruct (boot_filled _ Ht) as [Hok Hc].
  exists m', al'. split_and!; [exact Hr|exact Hpo|split; [exact Hok|]; exists L; split; [exact Hinv|exact Hsp]|].
  intros x. rewrite Hc. lia.
Qed.

Lemma boot_alloc_blk t k a : (t < 26)%nat -> blk (boot_free t) (boot_alloc t) false k a <-> k = t /\ a = KVA.
Proof. intros Ht. unfold blk, boot_alloc, upd. case_decide; set_solver. Qed.

(** [GetMemBlockSizeType] computes the smallest size class whose blocks hold
    [size] bytes: [2^(t-1) < size <= 2^t]; all requests of up to 32 MB have a class. *)
Theorem size_class size (t := GetMemBlockSizeType size) :
  0 < size <= 33554432 ->
  0 <= t < kMemBlockTypeNum /\ size <= GetMemBlockSize t < 2 * size.
Proof.
  intros Hs. destruct (class_of_spec size Hs) as (E & Hlt & Hb). unfold t. rewrite E.
  rewrite GetMemBlockSize_pow by lia. unfold kMemBlockTypeNum. lia.
Qed.

(** C10: [DirectMappingInit] terminates and establishes the allocator's invariant: the
    lists in memory are well formed, blocks are disjoint, aligned and sorted, the
    image's block is the only allocated one, every byte of the direct mapping area below
    the pool is in exactly one block, and nothing outside the pool area is written. *)
Theorem init_establishes s fuel :
  arrays_ok s -> image_ok -> (2 <= fuel)%nat ->
  exists s' f g, runs (DirectMappingInit fuel) s tt s' /\
    heap_at reserved s' f g 130992 /\
    (forall x, covered f g x <-> KVA <= x < POOL) /\
    (forall k a, blk f g false k a <-> k = class_of K_END /\ a = KVA) /\
    pool_only (mem s) (mem s').
Proof.
  intros Ha HK Hfuel. destruct (boot_at s fuel Ha HK Hfuel) as (m' & al' & Hr & Hpo & Hat & Hc).
  destruct (class_of_spec K_END HK) as (_ & Ht & _).
  exists (set_mem m' (set_alloc al' s)), (boot_free (class_of K_END)), (boot_alloc (class_of K_END)).
  split_and!; [exact Hr|exact Hat|exact Hc| |exact Hpo]. intros k a. by apply boot_alloc_blk.
Qed.

(** C1: [ReqBytes] refines the request on the abstract heap, for sizes from 1 byte to 32 MB and
    at least 26 spare block structures in the pool. It always returns (the fuel is enough); it returns 0 exactly when every class from the request's on is
    empty, and then allocates nothing; otherwise it returns a block of the request's
    class that overlaps no allocated block. The heap stays well formed and no byte is
    lost. *)
Theorem ReqBytes_refines R fuel s f g n size :
  heap_at R s f g (26 + n) -> 0 <= n -> 0 < size <= 33554432 ->
  (28 + length (g (class_of size)) <= fuel)%nat ->
  exists r s' f' g', runs (ReqBytes fuel size) s r s' /\
    heap_at R s' f' g' (1 + n) /\ pool_only (mem s) (mem s') /\
    (forall x, covered f' g' x <-> covered f g x) /\
    (forall k a, blk f' g' false k a <-> blk f g false k a \/ (r <> 0 /\ k = class_of size /\ a = r)) /\
    (r <> 0 -> forall k a, blk f g false k a -> apart r (2 ^ Z.of_nat (class_of size)) a (2 ^ Z.of_nat k)) /\
    (r = 0 <-> forall k, (class_of size <= k < 26)%nat -> f k = []).
Proof.
  intros Hh Hn Hs Hf. destruct (req_step R fuel s f g n size Hh Hn Hs Hf)
    as (r & m' & f' & g' & H1 & H2 & H3 & H4 & _ & H5 & H6 & H7 & _).
  exists r, (set_mem m' s), f', g'. split_and!; [exact H1|exact H2|exact H3|exact H4|exact H5|exact H6|exact H7].
Qed.

(** C5: any sequence of up to 5000 requests, of 1 byte to 32 MB each, after initialisation: all requests return,
    the blocks handed out are pairwise disjoint, lie above the reserved image and below
    the pool, are at least as large as asked, and nothing outside the pool area is
    written. *)
Theorem requests_safe s fuel sizes :
  arrays_ok s -> image_ok -> Forall (fun size => 0 < size <= 33554432) sizes ->
  Z.of_nat (length sizes) <= 5000 -> (29 + length sizes <= fuel)%nat ->
  exists rs s', runs (DirectMappingInit fuel ;;; ReqAll fuel sizes) s rs s' /\
    length rs = length sizes /\ pool_only (mem s) (mem s') /\
    (forall i r size, rs !! i = Some r -> sizes !! i = Some size -> r <> 0 ->
       size <= 2 ^ Z.of_nat (class_of size) /\ KVA + reserved <= r /\
       r + 2 ^ Z.of_nat (class_of size) <= POOL) /\
    (forall i j r1 r2 z1 z2, rs !! i = Some r1 -> rs !! j = Some r2 -> (i < j)%nat ->
       sizes !! i = Some z1 -> sizes !! j = Some z2 -> r1 <> 0 -> r2 <> 0 ->
       apart r2 (2 ^ Z.of_nat (class_of z2)) r1 (2 ^ Z.of_nat (class_of z1))).
Proof.
  intros Ha HK Hsz Hn Hfuel. destruct (class_of_spec K_END HK) as (_ & Ht & _).
  destruct (boot_at s fuel Ha HK ltac:(lia)) as (m1 & al & Hr & Hpo & (Hok & L & Hinv & Hsp) & _).
  set (s1 := set_mem m1 (set_alloc al s)) in *.
  destruct (ReqAll_spec reserved fuel sizes s1 (boot_free (class_of K_END)) (boot_alloc (class_of K_END)) 0)
    as (rs & m2 & f2 & g2 & Hr2 & (Hok2 & _) & Hpo2 & _ & Hin & Hpw & Hlen & _).
  - split; [exact Hok|]. exists L. split; [exact Hinv|lia].
  - lia.
  - exact Hsz.
  - intros k. unfold boot_alloc, upd. case_decide; cbn [length]; lia.
  - exists rs, (set_mem m2 s1). split_and!; [eapply runs_bind; [exact Hr|exact Hr2]|exact Hlen| | |exact Hpw].
    + eapply pool_only_trans; [exact Hpo|exact Hpo2].
    + clear Hr Hr2. intros i r size Hi Hz Hr0. destruct (Hin i r Hi Hr0) as (z & Hz' & Hb & Hap).
      rewrite Hz in Hz'. injection Hz' as <-.
      rewrite Forall_lookup in Hsz. pose proof (class_of_spec size (Hsz i size Hz)).
      pose proof (ho_range _ _ _ Hok2 _ _ _ Hb).
      pose proof (Hap _ _ (proj2 (boot_alloc_blk _ _ _ Ht) (conj eq_refl eq_refl))) as Hres.
      pose proof (pow_nat_pos (class_of K_END)). pose proof (pow_nat_pos (class_of size)).
      unfold apart in Hres. split_and!; lia.
Qed.

(** All blocks of the free list after a release lie between the reserved area and the
    pool. *)
Lemma release_above f g t addr a :
  heap_ok reserved f g -> (t < 26)%nat -> addr ∈ g t -> blk f g false (class_of K_END) KVA ->
  addr <> KVA -> a ∈ insert_pos addr (f t) -> KVA + reserved <= a /\ a + 2 ^ Z.of_nat t <= POOL.
Proof.
  intros Hok Ht Ha Hres Hne Hin. pose proof (pow_nat_pos (class_of K_END)). pose proof (pow_nat_pos t).
  assert (exists fr, blk f g fr t a /\ (fr, t, a) <> (false, class_of K_END, KVA)) as (fr & Hb & Hn).
  { apply insert_pos_elem in Hin as [->|Hin]; [exists false|exists true];
      (split; [done|congruence]). }
  pose proof (ho_range _ _ _ Hok _ _ _ Hb). pose proof (ho_apart _ _ _ Hok _ _ _ _ _ _ Hb Hres Hn) as Hap.
  unfold apart in Hap. lia.
Qed.

(** C9: [RelBytes] refines the release on the abstract heap, when no allocated block of
    a smaller class lies above the address and the release completes no pair of
    buddies: exactly that block becomes free, the lists stay sorted and well formed, and
    no byte is lost. *)
Theorem RelBytes_refines fuel s f g n t addr :
  image_ok -> heap_at reserved s f g n -> blk f g false t addr ->
  (forall k, (k < t)%nat -> Forall (fun a => a < addr) (g k)) ->
  blk f g false (class_of K_END) KVA -> addr <> KVA ->
  no_merge reserved t (insert_pos addr (f t)) = true ->
  (forall k, (k < 26)%nat -> (2 + length (f k) + length (g k) < fuel)%nat) ->
  exists s' f' g', runs (RelBytes fuel addr) s tt s' /\ heap_at reserved s' f' g' n /\
    (forall fr k a, blk f' g' fr k a <->
       (blk f g fr k a /\ (fr, k, a) <> (false, t, addr)) \/ (fr = true /\ k = t /\ a = addr)) /\
    (forall x, covered f' g' x <-> covered f g x) /\ pool_only (mem s) (mem s').
Proof.
  intros HK (Hok & L & Hinv & Hsp) [Ht Ha] Hlow Hres Hne Hnm Hfu.
  pose proof (ho_range _ _ _ Hok false t addr (conj Ht Ha)) as Hra. pose proof (pow_nat_pos t).
  pose proof (rel_heap_ok _ f g Hok t addr Ht Ha) as Hok'.
  destruct (RelBytes_runs fuel s L f g t addr HK Hinv Ht) as (m' & L' & Hr & Hinv' & EP & Hl);
    [lia|exact Ha|apply Hok|exact Hlow| |by unfold rel_free; rewrite upd_eq|
     intros k Hk; specialize (Hfu k ltac:(lia)); lia|specialize (Hfu t Ht); lia|].
  - intros a. unfold rel_free. rewrite upd_eq. by apply (release_above f g).
  - exists (set_mem m' s), (rel_free f t addr), (rel_alloc g t addr).
    split_and!; [exact Hr|split; [exact Hok'|]; exists L'; rewrite EP; by split| | |by apply links_pool_only].
    + intros fr k a. by apply rel_blocks.
    + intros x. by apply rel_covered.
Qed.

(** Reading a link of the pool area through writes to others. *)
Lemma link_ne m x y v : mbnode x -> mbnode y -> x <> y -> load32 (store32 m y v) x = load32 m x.
Proof. intros Hx Hy Hne. apply load32_store32_ne; [by apply mbnode_kspan..|]. by apply mbnode_apart. Qed.

Lemma link_same m x v : mbnode x -> 0 <= v < W32 -> load32 (store32 m x v) x = v.
Proof. intros Hx Hv. rewrite load32_store32_same by (by apply mbnode_kspan). by apply u32_small. Qed.

Lemma mbnode_u32 x : mbnode x -> 0 <= x < W32.
Proof. unfold mbnode. lia. Qed.

Ltac links := repeat first [rewrite link_same by (done || by apply mbnode_u32) | rewrite link_ne by done].

(** The five nodes the merge of a two-element list touches: head, the two blocks, the
    pool's head and the head of the next class. *)
Record merge_nodes (m : gmap Z Z) (h x y p h' : Z) : Prop := {
  mn_mb n : n ∈ [h; x; y; p; h'] -> mbnode n;
  mn_nodup : NoDup [h; x; y; p; h'];
  mn_h : load32 m h = x;
  mn_x : load32 m x = y;
  mn_y : load32 m y = h;
  mn_h' : load32 m h' = h';
}.

Lemma rep_merge_nodes s L k x y :
  rep s L -> (k < 25)%nat -> L (LFree k) = [x; y] -> L (LFree (k + 1)) = [] ->
  merge_nodes (mem s) (head_of (alloc s) (LFree k)) x y (mem_block_pool (alloc s))
    (head_of (alloc s) (LFree (k + 1))).
Proof.
  intros R Hk HL HL'. set (h := head_of _ _). set (h' := head_of _ _). set (p := mem_block_pool _).
  assert (vlid (LFree k)) as V by (cbn; lia). assert (vlid (LFree (k + 1))) as V' by (cbn; lia).
  assert (forall n, n ∈ [h; x; y] -> n ∈ head_of (alloc s) (LFree k) :: L (LFree k)) as In1
    by (intros n Hn; rewrite HL; exact Hn).
  assert (h' ∈ head_of (alloc s) (LFree (k + 1)) :: L (LFree (k + 1))) as In2 by set_solver.
  assert (p ∈ head_of (alloc s) LPool :: L LPool) as In3 by set_solver.
  constructor.
  - intros n. change ([h; x; y; p; h']) with ([h; x; y] ++ [p; h']).
    intros [Hn|Hn]%elem_of_app; [|rewrite !elem_of_cons, elem_of_nil in Hn; destruct Hn as [->|[->|[]]]];
      [apply (rep_node _ _ R (LFree k) n V), In1, Hn|
      by apply (rep_node _ _ R LPool)|by apply (rep_node _ _ R (LFree (k + 1)))].
  - change ([h; x; y; p; h']) with ([h; x; y] ++ [p; h']). apply NoDup_app. split_and!.
    + pose proof (rep_nodup _ _ R _ V) as Hnd. by rewrite HL in Hnd.
    + intros n Hn. rewrite !elem_of_cons, elem_of_nil. intros [->|[->|[]]].
      * assert (LFree k = LPool); [|done]. by apply (rep_sep _ _ R _ LPool p V I); [apply In1|].
      * assert (LFree k = LFree (k + 1)) as E; [|injection E; lia].
        by apply (rep_sep _ _ R _ _ h' V V'); [apply In1|].
    + apply NoDup_cons. split; [|apply NoDup_singleton]. rewrite list_elem_of_singleton. intros E.
      assert (LFree (k + 1) = LPool); [|done]. apply (rep_sep _ _ R _ LPool h' V' I); [done|by rewrite <- E].
  - exact (rep_succ s L (LFree k) [] [x; y] R V HL).
  - exact (rep_succ s L (LFree k) [x] [y] R V HL).
  - exact (rep_succ s L (LFree k) [x; y] [] R V HL).
  - exact (rep_succ s L (LFree (k + 1)) [] [] R V' HL').
Qed.

(** The links of those nodes after each step of the merge. *)
Lemma merge_links m h x y p h' (m1 := store32 (store32 m h y) x 0)
    (m2 := store32 (store32 m1 y y) h 0) (m3 := store32 m2 y 0)
    (m4 := store32 (store32 m3 p y) y (load32 m3 p)) :
  merge_nodes m h x y p h' ->
  load32 m1 h = y /\ load32 m1 y = h /\ load32 m4 h' = h' /\
  let m5 := store32 (store32 m4 h' x) x (load32 m4 h') in
  load32 m5 h = 0 /\ load32 m5 h' = x /\ load32 m5 x = h'.
Proof.
  intros [Hmb Hnd _ _ Ey Eh'].
  assert (mbnode h /\ mbnode x /\ mbnode y /\ mbnode p /\ mbnode h') as (Mh & Mx & My & Mp & Mh')
    by (split_and!; apply Hmb; set_solver).
  clear Hmb. rewrite !NoDup_cons, !not_elem_of_cons in Hnd.
  destruct Hnd as ((? & ? & ? & ? & _) & (? & ? & ? & _) & (? & ? & _) & (? & _) & _ & _).
  assert (load32 m4 h' = h') as E4 by (subst m4 m3 m2 m1; links; done).
  cbv zeta. rewrite E4. subst m4 m3 m2 m1. split_and!; links; done.
Qed.

(** A head whose link is NULL: not empty, and its first node is null. *)
Lemma null_link_not_empty s m h : mbnode h -> load32 m h = 0 -> runs (IsListEmpty h) (set_mem m s) false (set_mem m s).
Proof.
  intros Mh E. unfold IsListEmpty. eapply runs_bind; [apply runs_ld32|]. cbn [mem set_mem]. rewrite E.
  unfold mbnode in Mh. by rewrite (proj2 (Z.eqb_neq _ _)) by lia.
Qed.

Lemma null_link_removed s m h : load32 m h = 0 -> exists s', runs (ListRemove h) (set_mem m s) 0 s'.
Proof.
  intros E. destruct (ListRemove_runs h (set_mem m s)) as (m' & Hr & _). cbn [mem set_mem] in Hr.
  rewrite E in Hr. by eexists.
Qed.

Lemma merge_body_pair fuel s L k x y (h := head_of (alloc s) (LFree k)) :
  image_ok -> rep s L -> (k < 25)%nat -> L (LFree k) = [x; y] -> L (LFree (k + 1)) = [] ->
  KVA + reserved <= baddr (mem s) x -> baddr (mem s) y = baddr (mem s) x + 2 ^ Z.of_nat k ->
  baddr (mem s) y < POOL -> (baddr (mem s) x - reserved) / 2 ^ Z.of_nat k mod 2 = 0 ->
  exists m', runs (merge_body (S fuel) (Z.of_nat k) h h) s (inr true) (set_mem m' s) /\ load32 m' h = 0 /\
    load32 m' (head_of (alloc s) (LFree (k + 1))) = x /\ load32 m' x = head_of (alloc s) (LFree (k + 1)).
Proof.
  intros HK R Hk HL HL' Hx Hy Hlt Hev.
  pose proof (rep_merge_nodes s L k x y R Hk HL HL') as Hmn. fold h in Hmn.
  destruct (merge_links _ _ _ _ _ _ Hmn) as (F1 & F2 & F3 & F4 & F5 & F6).
  destruct Hmn as [Hmb Hnd E1 E2 _ _].
  assert (mbnode x /\ mbnode y) as [Mx My] by (split; apply Hmb; set_solver). clear Hmb.
  assert (x <> h /\ y <> h) as [Nx Ny] by (rewrite !NoDup_cons, !not_elem_of_cons in Hnd; naive_solver).
  clear Hnd. pose proof (pow_nat_pos (class_of K_END)). pose proof (pow_nat_pos k).
  eexists. split_and!; [|exact F4|exact F5|exact F6].
  unfold merge_body. eapply runs_bind; [reflexivity|]. cbv beta. rewrite E1, (proj2 (Z.eqb_neq x h)) by done.
  eapply runs_bind; [reflexivity|]. cbv beta. rewrite E2.
  do 2 (eapply runs_bind; [reflexivity|]; cbv beta). rewrite !GET_STRUCT_mb by done.
  fold (baddr (mem s) x) (baddr (mem s) y). rewrite reserved_size_eq, GetMemBlockSize_pow by done || lia.
  rewrite !u32_small, Hy, Z.eqb_refl, Hev, (proj2 (Z.eqb_neq y h)) by done || lia. cbn [negb andb Z.eqb].
  destruct (ListRemove_runs h s) as (m1 & Hr1 & Em1). rewrite E1, E2 in Em1.
  eapply runs_bind; [exact Hr1|]. cbv beta. eapply runs_bind; [apply runs_ld32|]. cbv beta.
  cbn [mem set_mem]. rewrite Em1, F1.
  destruct (ListRemove_runs y (set_mem m1 s)) as (m2 & Hr2 & Em2). cbn [mem set_mem] in Em2.
  rewrite Em1, F2, F1 in Em2. rewrite <- Em1. eapply runs_bind; [exact Hr2|]. cbv beta.
  unfold RelMemBlock. rewrite !node_of_mb by done. eapply runs_bind.
  { do 2 (eapply runs_bind; [reflexivity|]; cbv beta). reflexivity. }
  cbv beta. cbn [mem set_mem]. eapply runs_bind.
  { replace (Z.of_nat k + 1) with (Z.of_nat (k + 1)) by lia.
    apply (runs_arr_get _ _ _ (head_of (alloc s) (LFree (k + 1)))); [lia|].
    rewrite Nat2Z.id. apply (nth_in_bounds (free_mem_list (alloc s)) _ 26); [apply R|lia]. }
  cbv beta. eapply runs_bind.
  { apply loop_exit. eapply runs_bind; [apply runs_ld32|]. cbv beta. cbn [mem set_mem].
    rewrite Em2. change (mem_block_pool _) with (mem_block_pool (alloc s)).
    rewrite F3, Z.eqb_refl. reflexivity. }
  cbv beta. clear Hr1 Hr2. subst m2 m1. eapply runs_bind; [reflexivity|]. cbv beta. reflexivity.
Qed.

(** The merge, and the scan of the next class, whose list is the merged block alone. *)
Lemma MergeBlock_pair fuel s L k x y (h := head_of (alloc s) (LFree k)) :
  image_ok -> rep s L -> (k < 25)%nat -> L (LFree k) = [x; y] -> L (LFree (k + 1)) = [] ->
  KVA + reserved <= baddr (mem s) x -> baddr (mem s) y = baddr (mem s) x + 2 ^ Z.of_nat k ->
  baddr (mem s) y < POOL -> (baddr (mem s) x - reserved) / 2 ^ Z.of_nat k mod 2 = 0 ->
  exists m', runs (MergeBlock (4 + fuel) (Z.of_nat k)) s tt (set_mem m' s) /\ load32 m' h = 0.
Proof.
  intros HK R Hk HL HL' Hx Hy Hlt Hev.
  destruct (merge_body_pair (2 + fuel) s L k x y HK R Hk HL HL' Hx Hy Hlt Hev)
    as (m' & Hr & E0 & Eh & Ex).
  set (h' := head_of (alloc s) (LFree (k + 1))) in *.
  assert (x <> h') as Nx.
  { pose proof (rep_merge_nodes s L k x y R Hk HL HL') as [_ Hnd _ _ _ _].
    rewrite !NoDup_cons, !not_elem_of_cons in Hnd. naive_solver. }
  exists m'. split; [|exact E0]. change (4 + fuel)%nat with (S (3 + fuel)). cbn [MergeBlock].
  rewrite (proj2 (Z.eqb_neq _ _)) by (unfold kMemBlockTypeNum; lia).
  eapply runs_bind; [apply (free_head_runs s L); [done|lia]|]. cbv beta.
  eapply runs_bind; [apply loop_exit; exact Hr|]. cbv beta iota.
  change (3 + fuel)%nat with (S (2 + fuel)). cbn [MergeBlock].
  replace (Z.of_nat k + 1) with (Z.of_nat (k + 1)) by lia.
  destruct (Z.eqb_spec (Z.of_nat (k + 1)) (kMemBlockTypeNum - 1)); [reflexivity|].
  eapply runs_bind.
  { apply (runs_arr_get _ _ _ h'); [lia|].
    rewrite Nat2Z.id. apply (nth_in_bounds (free_mem_list (alloc s)) _ 26); [apply R|lia]. }
  cbv beta. apply (runs_bind _ _ (set_mem m' s) false (set_mem m' s)); [|reflexivity].
  change (2 + fuel)%nat with (S (S fuel)). eapply loop_step.
  - eapply runs_bind; [apply runs_ld32|]. cbv beta. cbn [mem set_mem]. rewrite Eh, (proj2 (Z.eqb_neq x h')) by done.
    eapply runs_bind; [apply runs_ld32|]. cbv beta. cbn [mem set_mem]. rewrite Ex.
    do 2 (eapply runs_bind; [apply runs_ld32|]; cbv beta). rewrite Z.eqb_refl. reflexivity.
  - apply loop_exit. eapply runs_bind; [apply runs_ld32|]. cbv beta. cbn [mem set_mem].
    rewrite Ex, Z.eqb_refl. reflexivity.
Qed.

(** C36: releasing the buddy of the only free block of its class (with no free block in
    the next class) destroys that class's free list: [MergeBlock] takes the lower half
    out, then removes the node after the upper half, which is the list head itself,
    instead of the upper half. Afterwards the head's link is NULL, the list does not
    count as empty, and the next removal from it returns a null node. *)
Theorem RelBytes_breaks_list fuel s f g n t addr a :
  image_ok -> heap_at reserved s f g n -> blk f g false t addr ->
  (forall k, (k < t)%nat -> Forall (fun a => a < addr) (g k)) ->
  blk f g false (class_of K_END) KVA -> addr <> KVA -> (t < 25)%nat ->
  insert_pos addr (f t) = [a; a + 2 ^ Z.of_nat t] -> f (t + 1)%nat = [] ->
  (a - reserved) / 2 ^ Z.of_nat t mod 2 = 0 ->
  (forall k, (k < 26)%nat -> (4 + length (f k) + length (g k) < fuel)%nat) ->
  exists s' h, runs (RelBytes fuel addr) s tt s' /\
    runs (free_head (Z.of_nat t)) s' h s' /\ load32 (mem s') h = 0 /\
    runs (IsListEmpty h) s' false s' /\ exists s'', runs (ListRemove h) s' 0 s''.
Proof.
  intros HK (Hok & L & Hinv & _) [Ht Ha] Hlow Hres Hne Ht25 Hpair Hnext Hev Hfu.
  pose proof (ho_range _ _ _ Hok false t addr (conj Ht Ha)) as Hra. pose proof (pow_nat_pos t) as Hpos.
  destruct (RelBytes_moves fuel s L f g t addr Hinv Ht) as (m1 & L1 & Hrun & Hinv1 & _ & _);
    [lia|exact Ha|apply Hok|exact Hlow|intros k Hk; specialize (Hfu k ltac:(lia)); lia|
     specialize (Hfu t Ht); lia|].
  set (s1 := set_mem m1 s) in *. pose proof (ai_rep _ _ _ _ Hinv1) as R1.
  assert (forall c, c ∈ [a; a + 2 ^ Z.of_nat t] -> KVA + reserved <= c /\ c + 2 ^ Z.of_nat t <= POOL) as Hrange.
  { intros c Hc. rewrite <- Hpair in Hc. by eapply (release_above f g). }
  pose proof (Hrange a ltac:(set_solver)). pose proof (Hrange (a + 2 ^ Z.of_nat t) ltac:(set_solver)).
  pose proof (ai_free _ _ _ _ Hinv1 t Ht) as E1. unfold rel_free in E1. rewrite upd_eq, Hpair in E1.
  destruct (L1 (LFree t)) as [|x [|y [|]]] eqn:EL; try done. cbn [map] in E1. injection E1 as Ex Ey.
  change m1 with (mem s1) in Ex, Ey.
  pose proof (ai_free _ _ _ _ Hinv1 (t + 1)%nat ltac:(lia)) as E2. unfold rel_free in E2.
  rewrite upd_ne, Hnext in E2 by lia. apply map_eq_nil in E2.
  destruct fuel as [|[|[|[|fuel]]]]; try (specialize (Hfu 0%nat ltac:(lia)); lia).
  destruct (MergeBlock_pair fuel s1 L1 t x y HK R1 Ht25 EL E2) as (m2 & Hm & E0);
    [rewrite Ex; lia|by rewrite Ex, Ey|rewrite Ey; lia|by rewrite Ex|].
  exists (set_mem m2 s1), (head_of (alloc s) (LFree t)).
  assert (mbnode (head_of (alloc s) (LFree t))) as Mh.
  { apply (rep_node _ _ R1 (LFree t)); [done|]. apply elem_of_cons. by left. }
  change (head_of (alloc s1) (LFree t)) with (head_of (alloc s) (LFree t)) in E0.
  split_and!; [by apply Hrun| |exact E0|by apply null_link_not_empty|by apply null_link_removed].
  apply runs_arr_get; [lia|]. rewrite Nat2Z.id. eapply nth_in_bounds; [apply R1|done].
Qed.

(** C37: [RelBytes] looks for the block in the list of every class in turn and stops at
    the first larger address it sees, in any class. When an allocated block of a class
    [k] below the block's own has a larger address, the search ends there, with memory
    unchanged and a node that does not stand for the address: it is the node before the
    larger one (here the list head itself when that is first), and the block stays allocated. *)
Theorem RelBytes_search_gives_up fuel s L f g k addr pre x post :
  alloc_inv s L f g -> (k < 26)%nat ->
  (forall j, (j < k)%nat -> Forall (fun a => a < addr) (g j) /\ (length (g j) < fuel)%nat) ->
  L (LAlloc k) = pre ++ x :: post -> Forall (fun n => baddr (mem s) n < addr) pre ->
  addr < baddr (mem s) x -> (length pre < fuel)%nat ->
  runs (rel_search 26 fuel 0 addr) s
    (Some (Z.of_nat k, tail_of (head_of (alloc s) (LAlloc k)) pre)) s.
Proof.
  intros Hinv Hk Hlow HL Hpre Hx Hf. pose proof (ai_rep _ _ _ _ Hinv) as R.
  replace 26%nat with (k + S (25 - k))%nat by lia.
  apply (rel_search_skip s L f g k); [done|done|done|]. cbn [rel_search].
  eapply runs_bind; [by apply (allocated_head_runs s L)|]. cbv beta.
  eapply runs_bind; [by apply (IsListEmpty_spec s _ (L (LAlloc k))), rep_clist|].
  rewrite HL. cbv beta.
  eapply (runs_bind _ _ s (Some (tail_of (head_of (alloc s) (LAlloc k)) pre)) s); [|reflexivity].
  pose proof (rel_scan_gives_up fuel s L (LAlloc k) addr pre x post R Hk HL Hpre Hx Hf) as Hr.
  by destruct pre.
Qed.

End Claims.

(** ** Witnesses

    A platform whose image ends at 1.5 MB, from the zero state. *)

Lemma size_class_witness :
  let t := GetMemBlockSizeType 100 in 0 <= t < kMemBlockTypeNum /\ 100 <= GetMemBlockSize t < 200.
Proof. apply (size_class 100). lia. Defined.

Lemma zero_arrays_ok : arrays_ok zero_state.
Proof. by split. Qed.

Lemma null_image_ok : 0 < @K_END null_platform <= 33554432.
Proof. cbn. lia. Qed.

Lemma null_class : class_of (@K_END null_platform) = 21%nat.
Proof. reflexivity. Qed.

Lemma init_establishes_witness :
  exists s' f g, runs (@DirectMappingInit null_platform 2) zero_state tt s' /\
    heap_at 2097152 s' f g 130992 /\ (forall k a, blk f g false k a <-> k = 21%nat /\ a = KVA).
Proof.
  destruct (@init_establishes null_platform zero_state 2 zero_arrays_ok null_image_ok ltac:(lia))
    as (s' & f & g & Hr & Hh & _ & Hb & _).
  exists s', f, g. split; [exact Hr|]. split; [exact Hh|exact Hb].
Defined.

(** The heap of that platform after initialisation. *)
Lemma null_boot : exists s, heap_at 2097152 s (boot_free 21) (boot_alloc 21) 130992.
Proof.
  destruct (@boot_at null_platform zero_state 2 zero_arrays_ok null_image_ok ltac:(lia))
    as (m & al & _ & _ & Hh & _). eexists. exact Hh.
Qed.

Lemma boot_alloc_length t k : (length (boot_alloc t k) <= 1)%nat.
Proof. unfold boot_alloc, upd. case_decide; cbn; lia. Qed.

Lemma ReqBytes_refines_witness :
  exists s r s', runs (ReqBytes 40 100) s r s' /\ r <> 0 /\
    heap_at 2097152 s (boot_free 21) (boot_alloc 21) 130992.
Proof.
  destruct null_boot as (s & Hs).
  destruct (ReqBytes_refines 2097152 40 s (boot_free 21) (boot_alloc 21) 130966 100)
    as (r & s' & f' & g' & Hr & _ & _ & _ & _ & _ & Hz).
  - exact Hs.
  - lia.
  - lia.
  - pose proof (boot_alloc_length 21 (class_of 100)). lia.
  - exists s, r, s'. split; [exact Hr|]. split; [|exact Hs].
    intros E. apply Hz with (k := 25%nat) in E; [discriminate E|]. vm_compute. lia.
Defined.

Lemma requests_safe_witness :
  exists rs s', runs (@DirectMappingInit null_platform 40 ;;; ReqAll 40 [64; 4096]) zero_state rs s' /\
    length rs = 2%nat.
Proof.
  destruct (@requests_safe null_platform zero_state 40 [64; 4096] zero_arrays_ok null_image_ok)
    as (rs & s' & Hr & Hl & _).
  - repeat constructor; lia.
  - cbn. lia.
  - cbn. lia.
  - exists rs, s'. split; [exact Hr|exact Hl].
Defined.

(** A request of [size] bytes in that heap, with the resulting lists. *)
Lemma heap_req R s f g n size r f' g' fuel :
  heap_at R s f g (26 + n) -> 0 <= n -> 0 < size <= 33554432 ->
  (28 + length (g (class_of size)) <= fuel)%nat ->
  req_spec f g (class_of size) = Some (r, f', g') ->
  exists s', heap_at R s' f' g' n.
Proof.
  intros (Hok & L & Hinv & Hsp) Hn Hs Hf E. destruct (class_of_spec size Hs) as (_ & Ht & _).
  pose proof (ReqBytes_spec fuel s L f g size Hinv (heap_ok_bound _ _ _ Hok) Hs ltac:(lia) Hf) as HR.
  rewrite E in HR. destruct HR as (m' & L' & _ & Hinv' & Hl & _).
  exists (set_mem m' s). split; [by apply (req_spec_ok R f g _ _ _ _ Hok Ht E)|].
  exists L'. split; [done|lia].
Qed.

(** 16 MB taken from the heap: the block at 34 MB. *)
Definition free16 : nat -> list Z := req_free (boot_free 21) 24%nat 24%nat.
Definition alloc16 : nat -> list Z := upd (boot_alloc 21) 24%nat [KVA + 35651584].

Lemma heap16 : exists s, heap_at 2097152 s free16 alloc16 130000.
Proof.
  destruct null_boot as (s & Hs).
  eapply (heap_req 2097152 s (boot_free 21) (boot_alloc 21) 130000 16777216 _ _ _ 40);
    [|lia|lia|pose proof (boot_alloc_length 21 (class_of 16777216)); lia|reflexivity].
  destruct Hs as (Hok & L & Hinv & Hl). split; [done|]. exists L. split; [done|lia].
Qed.

Lemma alloc16_elem k a : (k < 26)%nat -> a ∈ alloc16 k -> (k = 21%nat /\ a = KVA) \/ (k = 24%nat /\ a = KVA + 35651584).
Proof.
  intros Hk. unfold alloc16, boot_alloc, upd. repeat case_decide; set_solver.
Qed.

Lemma boot_lengths (f g : nat -> list Z) (n : nat) :
  forallb (fun k => (length (f k) + length (g k) <? n)%nat) (seq 0 26) = true ->
  forall k, (k < 26)%nat -> (length (f k) + length (g k) < n)%nat.
Proof.
  rewrite forallb_forall. intros H k Hk. specialize (H k). rewrite in_seq, Nat.ltb_lt in H. lia.
Qed.

Lemma RelBytes_refines_witness :
  exists s s' f' g', runs (@RelBytes null_platform 10 (KVA + 35651584)) s tt s' /\
    heap_at 2097152 s' f' g' 130000 /\ blk free16 alloc16 false 24 (KVA + 35651584).
Proof.
  destruct heap16 as (s & Hs).
  destruct (@RelBytes_refines null_platform 10 s free16 alloc16 130000 24 (KVA + 35651584))
    as (s' & f' & g' & Hr & Hh & _).
  - exact null_image_ok.
  - exact Hs.
  - split; [lia|]. set_solver.
  - intros k Hk. rewrite Forall_forall. intros a Ha. apply alloc16_elem in Ha; lia.
  - split; [rewrite null_class; lia|]. rewrite null_class. set_solver.
  - lia.
  - vm_compute. reflexivity.
  - intros k Hk. pose proof (boot_lengths free16 alloc16 8 eq_refl k Hk). lia.
  - exists s, s', f', g'. split; [exact Hr|]. split; [exact Hh|]. split; [lia|]. set_solver.
Defined.

(** Then 1 MB more: the block at 62 MB. *)
Definition free17 : nat -> list Z := req_free free16 20%nat 20%nat.
Definition alloc17 : nat -> list Z := upd alloc16 20%nat [KVA + 65011712].

Lemma heap17 : exists s, heap_at 2097152 s free17 alloc17 129974.
Proof.
  destruct heap16 as (s & Hs).
  eapply (heap_req 2097152 s free16 alloc16 129974 1048576 _ _ _ 40); [exact Hs|lia|lia| |reflexivity].
  vm_compute. lia.
Qed.

Lemma RelBytes_search_gives_up_witness :
  exists s h, runs (rel_search 26 5 0 (KVA + 35651584)) s (Some (20, h)) s /\
    blk free17 alloc17 false 24 (KVA + 35651584).
Proof.
  destruct heap17 as (s & _ & L & Hinv & _).
  pose proof (ai_alloc _ _ _ _ Hinv 20%nat ltac:(lia)) as E.
  destruct (L (LAlloc 20)) as [|x [|]] eqn:EL; try discriminate E. injection E as Ex.
  exists s, (head_of (alloc s) (LAlloc 20)). split; [|split; [lia|set_solver]].
  apply (RelBytes_search_gives_up 5 s L free17 alloc17 20 (KVA + 35651584) [] x []).
  - exact Hinv.
  - lia.
  - intros j Hj. assert (alloc17 j = []) as ->.
    { unfold alloc17, alloc16, boot_alloc, upd. repeat case_decide; lia || done. }
    split; [constructor|cbn; lia].
  - exact EL.
  - constructor.
  - rewrite Ex. lia.
  - cbn. lia.
Defined.

(** 512 KB taken from the heap after initialisation: the upper half of the block at
    62 MB, whose lower half is then the only free block of its class. *)
Definition free12 : nat -> list Z := req_free (boot_free 21) 19%nat 20%nat.
Definition alloc12 : nat -> list Z := upd (boot_alloc 21) 19%nat [KVA + 65536000].

Lemma heap12 : exists s, heap_at 2097152 s free12 alloc12 130000.
Proof.
  destruct null_boot as (s & Hs).
  eapply (heap_req 2097152 s (boot_free 21) (boot_alloc 21) 130000 524288 _ _ _ 40);
    [|lia|lia|pose proof (boot_alloc_length 21 (class_of 524288)); lia|reflexivity].
  destruct Hs as (Hok & L & Hinv & Hl). split; [done|]. exists L. split; [done|lia].
Qed.

Lemma RelBytes_breaks_list_witness :
  exists s s' h, runs (@RelBytes null_platform 20 (KVA + 65536000)) s tt s' /\
    load32 (mem s') h = 0 /\ heap_at 2097152 s free12 alloc12 130000.
Proof.
  destruct heap12 as (s & Hs).
  destruct (@RelBytes_breaks_list null_platform 20 s free12 alloc12 130000 19 (KVA + 65536000) (KVA + 65011712))
    as (s' & h & Hr & _ & Hz & _).
  - exact null_image_ok.
  - exact Hs.
  - split; [lia|]. set_solver.
  - intros k Hk. assert (alloc12 k = []) as ->; [|constructor].
    unfold alloc12, boot_alloc, upd. repeat case_decide; lia || done.
  - rewrite null_class. split; [lia|]. set_solver.
  - lia.
  - lia.
  - vm_compute. reflexivity.
  - vm_compute. reflexivity.
  - vm_compute. reflexivity.
  - intros k Hk. pose proof (boot_lengths free12 alloc12 8 eq_refl k Hk). lia.
  - exists s, s', h. split; [exact Hr|]. split; [exact Hz|exact Hs].
Defined.
