(* ===== verification/AllocIface.v ===== *)
(** * What the allocator promises its clients

    The components that request memory are verified against the class [ByteAllocator]: the
    blocks in use are known, a request returns a block apart from all of them or 0, and
    the allocator works only on its own bytes, the pool area [POOL, POOL_END), so writes to
    blocks in use do not disturb it. The buddy allocator is the instance. *)

From Stdlib Require Import ZArith Lia ZifyBool.
From stdpp Require Import base numbers gmap list.
From S2P Require Import Prelude Memory Machine Lists Allocator AllocRep AllocReq AllocHeap AllocInit AllocRel AllocSafety.

(** The allocator's own bytes are unchanged. *)
Definition pool_same (m m' : gmap Z Z) : Prop :=
  forall n b, POOL <= b -> b + Z.of_nat n <= POOL_END -> load n m' b = load n m b.

(** [owns fuel n s A]: in state [s] the blocks [A] (address, size) are in use, and [fuel] is
    enough for [n] more requests. *)
Class ByteAllocator := {
  owns : nat -> nat -> kstate -> list (Z * Z) -> Prop;
  owns_range fuel n s A a z : owns fuel n s A -> (a, z) ∈ A -> KVA <= a /\ a + z <= POOL;
  owns_frame fuel n s s' A :
    owns fuel n s A -> alloc s' = alloc s -> pool_same (mem s) (mem s') -> owns fuel n s' A;
  owns_req fuel n s A z :
    owns fuel (S n) s A -> 0 < z <= 33554432 ->
    exists r m', runs (ReqBytes fuel z) s r (set_mem m' s) /\ pool_only (mem s) m' /\
      ((r = 0 /\ owns fuel n (set_mem m' s) A) \/
       (r <> 0 /\ owns fuel n (set_mem m' s) ((r, z) :: A) /\ forall a y, (a, y) ∈ A -> apart r z a y));
}.

(** ** The buddy allocator *)

Lemma alloc_inv_frame s s' L f g :
  alloc_inv s L f g -> alloc s' = alloc s -> pool_same (mem s) (mem s') -> alloc_inv s' L f g.
Proof.
  intros [R Hf Hg] Ea Hp.
  assert (forall n, mbnode n -> load32 (mem s') n = load32 (mem s) n) as Hn.
  { intros n Hn. apply (Hp 4%nat); unfold mbnode in Hn; lia. }
  assert (forall n, mbnode n -> baddr (mem s') n = baddr (mem s) n) as Hb.
  { intros n Hn'. apply (Hp 4%nat); unfold mbnode in Hn'; lia. }
  assert (forall id k, vlid id -> map (baddr (mem s)) (L id) = k -> map (baddr (mem s')) (L id) = k) as Hm.
  { intros id k Hid <-. apply map_ext_in. intros x Hx. apply Hb, (rep_node _ _ R id); [done|].
    right. by apply list_elem_of_In. }
  constructor.
  - constructor; rewrite ?Ea; try apply R. intros id Hid. apply (circ_frame (load32 (mem s))); [|by apply R].
    intros q Hq. by apply Hn, (rep_node _ _ R id).
  - intros k Hk. apply Hm; [done|auto].
  - intros k Hk. apply Hm; [done|auto].
Qed.

(** Blocks in use are allocated blocks of the heap, which may be larger. *)
Definition heap_owns (fuel n : nat) (s : kstate) (A : list (Z * Z)) : Prop :=
  exists R f g, heap_at R s f g (26 * Z.of_nat n) /\ (forall k, (28 + length (g k) + n <= fuel)%nat) /\
    forall a z, (a, z) ∈ A -> exists k, blk f g false k a /\ 0 < z <= 2 ^ Z.of_nat k.

#[export, refine] Instance heap_allocator : ByteAllocator := {| owns := heap_owns |}.
Proof.
  - intros fuel n s A a z (R & f & g & (Hok & _) & _ & HA) Hin. destruct (HA a z Hin) as (k & Hb & Hz).
    pose proof (ho_range _ _ _ Hok _ _ _ Hb). lia.
  - intros fuel n s s' A (R & f & g & (Hok & L & Hinv & Hsp) & Hl & HA) Ea Hp.
    exists R, f, g. split_and!; [|done|done]. split; [done|]. exists L. split; [|done].
    by eapply alloc_inv_frame.
  - intros fuel n s A z (R & f & g & Hh & Hl & HA) Hz.
    destruct (req_step R fuel s f g (26 * Z.of_nat n) z) as
      (r & m' & f' & g' & Hr & Hh' & Hpo & _ & Hlen & Hblk & Hfresh & _);
      [by replace (26 + 26 * Z.of_nat n) with (26 * Z.of_nat (S n)) by lia|lia|done|
       specialize (Hl (class_of z)); lia|].
    destruct (class_of_spec z Hz) as (_ & Ht & Hzc & _).
    exists r, m'. split_and!; [exact Hr|exact Hpo|].
    assert (heap_at R (set_mem m' s) f' g' (26 * Z.of_nat n)) as Hh2.
    { destruct Hh' as (? & L & ? & ?). split; [done|]. exists L. split; [done|lia]. }
    assert (forall a y, (a, y) ∈ A -> exists k, blk f' g' false k a /\ 0 < y <= 2 ^ Z.of_nat k) as HA'.
    { intros a y Hin. destruct (HA a y Hin) as (k & Hb & Hy). exists k. split; [apply Hblk; by left|done]. }
    assert (forall k, (28 + length (g' k) + n <= fuel)%nat) as Hl'.
    { intros k. specialize (Hl k). specialize (Hlen k). lia. }
    destruct (Z.eq_dec r 0) as [E|E]; [left|right]; split_and!; [done|by exists R, f', g'|done| |].
    + exists R, f', g'. split_and!; [done|done|]. intros a y Hin. apply elem_of_cons in Hin as [[= -> ->]|Hin]; [|auto].
      exists (class_of z). split; [apply Hblk; by right|lia].
    + intros a y Hin. destruct (HA a y Hin) as (k & Hb & Hy). specialize (Hfresh E k a Hb). unfold apart in *. lia.
Defined.
