(* ===== verification/AllocRoom.v ===== *)
(** * How many requests succeed

    [ByteAllocator] leaves open whether a request returns 0. Here the free memory is counted in
    blocks of 4096 bytes: a request of at most 4096 bytes takes away one of them, so after
    initialisation thousands of requests are known to succeed. Code that does not check
    what [ReqBytes] returns is verified against the class [RoomyAllocator]. *)

From Stdlib Require Import ZArith Lia ZifyBool.
From stdpp Require Import base numbers gmap list.
From S2P Require Import Prelude Memory Machine Lists Allocator AllocRep AllocReq AllocHeap AllocInit AllocRel AllocSafety AllocIface.

(** ** Counting *)

(** Free blocks of the classes [k] to [k + n - 1], in units of [2 ^ 12] bytes. *)
Fixpoint room_from (n k : nat) (f : nat -> list Z) : Z :=
  match n with
  | O => 0
  | S n' => Z.of_nat (length (f k)) * 2 ^ Z.of_nat (k - 12) + room_from n' (S k) f
  end.

Definition room (f : nat -> list Z) : Z := room_from 14 12 f.

Lemma room_from_app n n' k f : room_from (n + n') k f = room_from n k f + room_from n' (n + k) f.
Proof.
  revert k. induction n as [|n IH]; intros k; [done|]. cbn [Nat.add room_from]. rewrite IH.
  replace (n + S k)%nat with (S (n + k)) by lia. lia.
Qed.

Lemma room_from_ext n k f f' : (forall i, (k <= i < k + n)%nat -> f' i = f i) -> room_from n k f' = room_from n k f.
Proof.
  revert k. induction n as [|n IH]; intros k Hf; [done|]. cbn [room_from]. rewrite Hf, IH by (intros; apply Hf; lia) || lia.
  done.
Qed.

Lemma room_from_nonneg n k f : 0 <= room_from n k f.
Proof.
  revert k. induction n as [|n IH]; intros k; cbn [room_from]; [lia|]. specialize (IH (S k)).
  pose proof (pow_nat_pos (k - 12)). nia.
Qed.

Lemma room_from_empty n k f : (forall i, (k <= i < k + n)%nat -> f i = []) -> room_from n k f = 0.
Proof.
  revert k. induction n as [|n IH]; intros k Hf; [done|]. cbn [room_from]. rewrite Hf by lia. rewrite IH; [done|].
  intros i Hi. apply Hf. lia.
Qed.

(** One block in each class from 12 on adds up to one block less one unit. *)
Lemma room_from_ones n f : (forall i, (12 <= i < 12 + n)%nat -> length (f i) = 1%nat) -> room_from n 12 f = 2 ^ Z.of_nat n - 1.
Proof.
  induction n as [|n IH]; intros Hf; [done|]. replace (S n) with (n + 1)%nat by lia. rewrite room_from_app.
  rewrite IH by (intros; apply Hf; lia). cbn [room_from]. rewrite Hf by lia.
  replace (n + 12 - 12)%nat with n by lia. rewrite pow_nat_succ. lia.
Qed.

(** Where the room is: around class [j]. *)
Lemma room_split j f : (12 <= j < 26)%nat ->
  room f = room_from (j - 12) 12 f + Z.of_nat (length (f j)) * 2 ^ Z.of_nat (j - 12) + room_from (25 - j) (S j) f.
Proof.
  intros Hj. transitivity (room_from ((j - 12) + (1 + (25 - j))) 12 f); [unfold room; f_equal; lia|]. rewrite room_from_app.
  replace (j - 12 + 12)%nat with j by lia. change (room_from (1 + (25 - j)) j f) with
    (Z.of_nat (length (f j)) * 2 ^ Z.of_nat (j - 12) + room_from (25 - j) (S j) f).
  apply Z.add_assoc.
Qed.

(** A request of at most 4096 bytes takes at most one unit. *)
Lemma req_room f g t r f' g' : (t <= 12)%nat -> req_spec f g t = Some (r, f', g') -> room f - 1 <= room f'.
Proof.
  intros Ht. unfold req_spec. destruct (find_fit _ _ _) as [j|] eqn:E; [|done]. intros [= _ <- _].
  apply find_fit_Some in E as (Hj & Hne & Hemp). destruct (le_lt_dec 12 j) as [H12|H12].
  - rewrite !(room_split j) by lia. rewrite (room_from_empty (j - 12)) by (intros; apply Hemp; lia).
    rewrite (room_from_ones (j - 12)).
    2: { intros i Hi. unfold req_free. rewrite decide_False, decide_True by lia. done. }
    rewrite (room_from_ext _ _ f (req_free f t j)).
    2: { intros i Hi. unfold req_free. rewrite !decide_False by lia. done. }
    unfold req_free at 1. rewrite decide_True by done. destruct (f j) as [|b rest]; [done|]. cbn [tl length].
    pose proof (pow_nat_pos (j - 12)). lia.
  - unfold room. rewrite (room_from_ext 14 12 f (req_free f t j)); [lia|].
    intros i Hi. unfold req_free. rewrite !decide_False by lia. done.
Qed.

Lemma room_nonempty f : 0 < room f -> exists k, (12 <= k < 26)%nat /\ f k <> [].
Proof.
  intros Hr. destruct (decide (Exists (fun k => f k <> []) (seq 12 14))) as [He|He].
  - apply Exists_exists in He as (k & Hk & Hne). apply elem_of_seq in Hk. exists k. split; [lia|done].
  - exfalso. unfold room in Hr. rewrite room_from_empty in Hr; [lia|]. intros i Hi.
    destruct (f i) eqn:E; [done|]. exfalso. apply He, Exists_exists. exists i. split; [apply elem_of_seq; lia|]. by rewrite E.
Qed.

(** At boot 31 MB or more are free. *)
Lemma boot_room t : (t < 26)%nat -> 7000 <= room (boot_free t).
Proof.
  intros Ht. assert (Forall (fun t => 7000 <=? room (boot_free t) = true) (seq 0 26)) as H.
  { repeat constructor; vm_compute; reflexivity. }
  rewrite Forall_forall in H. specialize (H t). apply Z.leb_le, H, elem_of_seq. lia.
Qed.

(** ** The interface *)

(** [ample fuel n s A]: the blocks [A] are in use, and [n] more requests of up to 4096 bytes
    will be served. *)
Class RoomyAllocator `{ByteAllocator} := {
  ample : nat -> nat -> kstate -> list (Z * Z) -> Prop;
  ample_owns fuel n s A : ample fuel n s A -> owns fuel n s A;
  ample_less fuel n s A : ample fuel (S n) s A -> ample fuel n s A;
  ample_frame fuel n s s' A :
    ample fuel n s A -> alloc s' = alloc s -> pool_same (mem s) (mem s') -> ample fuel n s' A;
  ample_req fuel n s A z :
    ample fuel (S n) s A -> 0 < z <= 4096 ->
    exists r m', runs (ReqBytes fuel z) s r (set_mem m' s) /\ pool_only (mem s) m' /\ r <> 0 /\
      ample fuel n (set_mem m' s) ((r, z) :: A) /\ forall a y, (a, y) ∈ A -> apart r z a y;
}.

(** ** The buddy allocator *)

Definition heap_ample (fuel n : nat) (s : kstate) (A : list (Z * Z)) : Prop :=
  exists R f g, heap_at R s f g (26 * Z.of_nat n) /\ (forall k, (28 + length (g k) + n <= fuel)%nat) /\
    (forall a z, (a, z) ∈ A -> exists k, blk f g false k a /\ 0 < z <= 2 ^ Z.of_nat k) /\ Z.of_nat n <= room f.

Lemma class_of_page z : 0 < z <= 4096 -> (class_of z <= 12)%nat.
Proof.
  intros Hz. unfold class_of. pose proof (Z.log2_up_le_mono z 4096 ltac:(lia)) as H.
  change (Z.log2_up 4096) with 12 in H. lia.
Qed.

#[export, refine] Instance heap_roomy : RoomyAllocator := {| ample := heap_ample |}.
Proof.
  - intros fuel n s A (R & f & g & H1 & H2 & H3 & _). by exists R, f, g.
  - intros fuel n s A (R & f & g & (Hok & L & Hinv & Hsp) & Hl & HA & Hroom). exists R, f, g. split_and!; [|  |done|lia].
    + split; [done|]. exists L. split; [done|lia].
    + intros k. specialize (Hl k). lia.
  - intros fuel n s s' A (R & f & g & (Hok & L & Hinv & Hsp) & Hl & HA & Hroom) Ea Hp.
    exists R, f, g. split_and!; [|done|done|done]. split; [done|]. exists L. split; [|done]. by eapply alloc_inv_frame.
  - intros fuel n s A z (R & f & g & Hh & Hl & HA & Hroom) Hz. pose proof (class_of_page z Hz) as Hc.
    destruct (req_step R fuel s f g (26 * Z.of_nat n) z) as
      (r & m' & f' & g' & Hr & Hh' & Hpo & _ & Hlen & Hblk & Hfresh & Hnone & Hspec);
      [by replace (26 + 26 * Z.of_nat n) with (26 * Z.of_nat (S n)) by lia|lia|lia|
       specialize (Hl (class_of z)); lia|].
    assert (r <> 0) as Hne.
    { intros E. destruct (room_nonempty f ltac:(lia)) as (k & Hk & Hfk). apply Hfk. by apply Hnone; [|lia]. }
    destruct (class_of_spec z ltac:(lia)) as (_ & Ht & Hzc & _).
    exists r, m'. split_and!; [exact Hr|exact Hpo|exact Hne| |].
    + exists R, f', g'. split_and!.
      * destruct Hh' as (? & L & ? & ?). split; [done|]. exists L. split; [done|lia].
      * intros k. specialize (Hl k). specialize (Hlen k). lia.
      * intros a y Hin. apply elem_of_cons in Hin as [[= -> ->]|Hin].
        -- exists (class_of z). split; [apply Hblk; by right|lia].
        -- destruct (HA a y Hin) as (k & Hb & Hy). exists k. split; [apply Hblk; by left|done].
      * pose proof (req_room _ _ _ _ _ _ Hc (Hspec Hne)). lia.
    + intros a y Hin. destruct (HA a y Hin) as (k & Hb & Hy). specialize (Hfresh Hne k a Hb). unfold apart in *. lia.
Defined.

(** After initialisation the reserved block is in use and 5000 requests will be served. *)
Lemma boot_ample `{Platform} s fuel n :
  arrays_ok s -> image_ok -> (n <= 5000)%nat -> (29 + n <= fuel)%nat ->
  exists m' al', let s' := set_mem m' (set_alloc al' s) in
    runs (DirectMappingInit fuel) s tt s' /\ pool_only (mem s) m' /\ ample fuel n s' [(KVA, reserved)].
Proof.
  intros Ha Hi Hn Hf. destruct (boot_at s fuel Ha Hi ltac:(lia)) as (m' & al' & Hr & Hpo & Hh & _).
  destruct (class_of_spec K_END Hi) as (_ & Ht & _). exists m', al'. split_and!; [exact Hr|exact Hpo|].
  exists reserved, (boot_free (class_of K_END)), (boot_alloc (class_of K_END)). split_and!.
  - destruct Hh as (Hok & L & Hinv & Hsp). split; [done|]. exists L. split; [done|lia].
  - intros k. pose proof (boot_alloc_length (class_of K_END) k). lia.
  - intros a z Hin. apply list_elem_of_singleton in Hin as [= -> ->]. exists (class_of K_END).
    split; [apply boot_alloc_blk; [exact Ht|split; reflexivity]|]. pose proof (pow_nat_pos (class_of K_END)). lia.
  - eapply Z.le_trans; [|exact (boot_room _ Ht)]. lia.
Qed.

(** ** Sequences of requests *)

(** Against the interface: [n] requests of up to 4096 bytes, blocks that lie apart from each other
    and from those in use. *)
Lemma ample_all `{RoomyAllocator} fuel n sizes s A :
  ample fuel (length sizes + n) s A -> Forall (fun z => 0 < z <= 4096) sizes ->
  exists rs m', runs (ReqAll fuel sizes) s rs (set_mem m' s) /\ pool_only (mem s) m' /\
    length rs = length sizes /\ Forall (fun r => r <> 0) rs /\
    ample fuel n (set_mem m' s) (reverse (zip rs sizes) ++ A).
Proof.
  revert s A. induction sizes as [|z sizes IH]; intros s A Ha Hz.
  - exists [], (mem s). rewrite set_mem_mem. split_and!; [reflexivity|apply pool_only_refl|done|constructor|exact Ha].
  - apply Forall_cons in Hz as [Hz Hzs]. destruct (ample_req fuel _ s A z Ha Hz) as (r & m1 & Hr & Hp1 & Hne & Ha1 & _).
    destruct (IH _ _ Ha1 Hzs) as (rs & m2 & Hr2 & Hp2 & Hl & Hall & Ha2). exists (r :: rs), m2. split_and!.
    + eapply runs_bind; [exact Hr|]. eapply runs_bind; [exact Hr2|reflexivity].
    + eapply pool_only_trans; [exact Hp1|exact Hp2].
    + cbn [length]. by rewrite Hl.
    + by constructor.
    + cbn [zip zip_with]. rewrite reverse_cons, <- app_assoc. exact Ha2.
Qed.

(** C11: memory does not run out early. After initialisation any 5000 requests of up to 4096 bytes
    each are all served: none returns 0. *)
Theorem requests_served `{Platform} s fuel sizes :
  arrays_ok s -> image_ok -> Forall (fun z => 0 < z <= 4096) sizes ->
  (length sizes <= 5000)%nat -> (29 + length sizes <= fuel)%nat ->
  exists rs s', runs (DirectMappingInit fuel ;;; ReqAll fuel sizes) s rs s' /\
    length rs = length sizes /\ Forall (fun r => r <> 0) rs.
Proof.
  intros Ha Hi Hz Hn Hf. destruct (boot_ample s fuel (length sizes + 0) Ha Hi ltac:(lia) ltac:(lia)) as (m1 & al & Hr & _ & Hs).
  destruct (ample_all fuel 0 sizes _ _ Hs Hz) as (rs & m2 & Hr2 & _ & Hl & Hall & _).
  exists rs, (set_mem m2 (set_mem m1 (set_alloc al s))). split_and!; [eapply runs_bind; [exact Hr|exact Hr2]|exact Hl|exact Hall].
Qed.

Lemma requests_served_witness :
  exists rs s', runs (@DirectMappingInit null_platform 200 ;;; ReqAll 200 (replicate 160 4096)) zero_state rs s' /\
    Forall (fun r => r <> 0) rs.
Proof.
  destruct (@requests_served null_platform zero_state 200 (replicate 160 4096) zero_arrays_ok null_image_ok)
    as (rs & s' & Hr & _ & Hall).
  - apply Forall_replicate. lia.
  - rewrite length_replicate. lia.
  - rewrite length_replicate. lia.
  - exists rs, s'. split; [exact Hr|exact Hall].
Defined.
