(* ===== verification/Queues.v ===== *)
(** * lib/queue.h, lib/map.h and the constructors of lib/list.h

    A [Queue] is a pair of pointers, [head] at offset 0 and [tail] at offset 4, over a
    circular list. The theorem of this file: the queue functions refine a functional
    FIFO, for every sequence of operations. [MapGet] and [MapRemove] do not: their
    loop never advances. *)

From Stdlib Require Import ZArith Lia ZifyBool.
From stdpp Require Import base numbers gmap list.
From S2P Require Import Prelude Memory Machine Lists Allocator.

(** ** The code *)

Definition List (fuel : nat) : K Z :=
  head <- ReqBytes fuel 4 ;;
  if head =? 0 then ret 0
  else st32 head head ;;; ret head.

Definition DoublyList (fuel : nat) : K Z :=
  head <- ReqBytes fuel 8 ;;
  if head =? 0 then ret 0
  else st32 head head ;;; st32 (head + 4) head ;;; ret head.

Definition Enqueue (queue new_node : Z) : K unit :=
  tail <- ld32 (queue + 4) ;;
  ListAdd tail new_node ;;;
  st32 (queue + 4) new_node.

Definition Dequeue (queue : Z) : K Z :=
  head <- ld32 queue ;;
  e <- IsListEmpty head ;;
  if e then ret 0
  else
    next <- ld32 head ;;
    tail <- ld32 (queue + 4) ;;
    (if next =? tail then st32 (queue + 4) head else ret tt) ;;;
    ListRemove head.

Definition QueueGetHead (queue : Z) : K Z :=
  head <- ld32 queue ;;
  e <- IsListEmpty head ;;
  if e then ret 0 else ld32 head.

(** [queue()] does not check what [ReqBytes] returns. *)
Definition queue (fuel : nat) : K Z :=
  head <- List fuel ;;
  q <- ReqBytes fuel 8 ;;
  st32 q head ;;;
  st32 (q + 4) head ;;;
  ret q.

(** [MapEntry]: [key] at offset 0, [value] at 4, [node] at 8. *)
Definition map_entry_of (node : Z) : Z := GET_STRUCT node 8.

Definition map_new (fuel : nat) : K Z := List fuel.

Definition MapAdd (map entry : Z) : K unit := ListAdd map (u32 (entry + 8)).

(** The common loop of [MapGet] and [MapRemove]: [node] is not advanced. *)
Definition map_search (fuel : nat) (map key : Z) : K (option Z) :=
  loop fuel (fun node =>
    next <- ld32 node ;;
    if next =? map then ret (inr None)
    else
      k <- ld8 (map_entry_of next) ;;
      if k =? u8 key
      then n <- ListRemove node ;; ret (inr (Some (map_entry_of n)))
      else ret (inl node)) map.

Definition MapGet (fuel : nat) (map key : Z) : K Z :=
  r <- map_search fuel map key ;;
  match r with
  | Some entry => ld32 (entry + 4)
  | None => ret 0
  end.

Definition MapRemove (fuel : nat) (map key : Z) : K Z :=
  r <- map_search fuel map key ;;
  match r with
  | Some entry => ret entry
  | None => ret 0
  end.

Definition IsMapEmpty (map : Z) : K bool := IsListEmpty map.

Section WithPlatform.
Context `{Platform}.

Definition DestructList (fuel : nat) (head : Z) : K unit := RelBytes fuel head.
Definition DestructDoublyList (fuel : nat) (head : Z) : K unit := RelBytes fuel head.

Definition DestructQueue (fuel : nat) (queue : Z) : K unit :=
  head <- ld32 queue ;;
  DestructList fuel head ;;;
  RelBytes fuel queue.
End WithPlatform.

(** ** The queue in memory *)

Record queue_rep (m : gmap Z Z) (q h : Z) (xs : list Z) : Prop := {
  qr_head : load32 m q = h;
  qr_tail : load32 m (q + 4) = tail_of h xs;
  qr_circ : circ (load32 m) h xs;
  qr_ok : nodes_ok 4 (q :: q + 4 :: h :: xs);
}.

Lemma queue_clist m q h xs : queue_rep m q h xs -> clist m h xs.
Proof.
  intros [_ _ Hc Hok]. split; [done|]. eapply nodes_ok_sub; [exact Hok| |set_solver].
  destruct Hok as (Hnd & _). by do 2 (apply NoDup_cons in Hnd as [_ Hnd]).
Qed.

(** Words of the list are none of the queue's words. *)
Lemma queue_words q h xs n :
  nodes_ok 4 (q :: q + 4 :: h :: xs) -> n ∈ h :: xs -> n <> q /\ n <> q + 4.
Proof.
  intros (Hnd & _) Hn. apply NoDup_cons in Hnd as [H1 Hnd]. apply NoDup_cons in Hnd as [H2 _].
  split; intros ->; set_solver.
Qed.

Lemma Enqueue_spec s q h xs n :
  queue_rep (mem s) q h xs -> nodes_ok 4 (n :: q :: q + 4 :: h :: xs) ->
  exists m', runs (Enqueue q n) s tt (set_mem m' s) /\ queue_rep m' q h (xs ++ [n]).
Proof.
  intros HQ Hok. pose proof (queue_clist _ _ _ _ HQ) as Hcl. destruct HQ as [Eh Et Hc Hq].
  assert (nodes_ok 4 (n :: h :: xs ++ [])) as Hok1.
  { rewrite app_nil_r. eapply nodes_ok_sub; [exact Hok| |set_solver].
    destruct Hok as (Hnd & _). apply NoDup_cons in Hnd as [Hn Hnd].
    do 2 (apply NoDup_cons in Hnd as [_ Hnd]). constructor; [set_solver|done]. }
  destruct (ListAdd_spec s h xs [] n) as (m1 & Hr1 & [Hc1 Hn1] & Hse); [by rewrite app_nil_r|done|].
  assert (forall w, w ∈ [tail_of h xs; n] -> w ∈ n :: q :: q + 4 :: h :: xs) as Hws.
  { pose proof (tail_of_in h xs). set_solver. }
  destruct Hok as (Hnd & Hk & Ha). rewrite Forall_forall in Hk.
  pose proof (tail_of_in h xs) as Htin. pose proof (queue_words q h xs _ Hq Htin) as [Nt1 Nt2].
  assert (n <> q /\ n <> q + 4) as [Nn1 Nn2] by (apply NoDup_cons in Hnd as [Hnd _]; set_solver).
  assert (load32 m1 q = h) as Eh1.
  { rewrite <- Eh. apply (load32_frame [tail_of h xs; n] (mem s) m1 q (n :: q :: q + 4 :: h :: xs));
      [done|split_and!; [done|by apply Forall_forall|done]|done|set_solver|set_solver]. }
  exists (store32 m1 (q + 4) n). split.
  - eapply runs_bind; [apply runs_ld32|]. cbv beta. rewrite Et.
    eapply runs_bind; [exact Hr1|]. reflexivity.
  - assert (nodes_ok 4 (q :: q + 4 :: h :: xs ++ [n])) as Hok2.
    { eapply nodes_ok_perm; [|split; [exact Hnd|split; [by apply Forall_forall|exact Ha]]].
      solve_Permutation. }
    assert (forall w, w ∈ q :: h :: xs ++ [n] -> load32 (store32 m1 (q + 4) n) w = load32 m1 w) as Hfr.
    { intros w Hw. apply load32_store32_ne; [apply Hk; set_solver|apply Hk; set_solver|].
      apply Ha; [set_solver|set_solver|]. intros <-.
      apply elem_of_cons in Hw as [E|Hw]; [lia|]. destruct Hok2 as (Hnd2 & _).
      apply NoDup_cons in Hnd2 as [_ Hnd2]. by apply NoDup_cons in Hnd2 as [Hnd2 _]. }
    constructor; [rewrite Hfr by set_solver; exact Eh1| | |exact Hok2].
    + rewrite load32_store32_same by (apply Hk; set_solver). rewrite tail_of_app. cbn [tail_of].
      apply u32_small. specialize (Hk n ltac:(set_solver)). unfold kspan in Hk. lia.
    + apply (circ_frame (load32 m1)); [|exact Hc1]. intros w Hw. apply Hfr. set_solver.
Qed.

(** The queue's words are unaffected by writes to nodes of the list. *)
Lemma queue_word_frame q h xs ws m m' w :
  nodes_ok 4 (q :: q + 4 :: h :: xs) -> same_except ws m m' ->
  (forall v, v ∈ ws -> v ∈ h :: xs) -> w ∈ [q; q + 4] -> load32 m' w = load32 m w.
Proof.
  intros Hok Hse Hws Hw. eapply (load32_frame ws _ _ _ _ Hse Hok); [set_solver|set_solver|].
  intros Hin. destruct (queue_words q h xs w Hok (Hws w Hin)). set_solver.
Qed.

(** Taking the first node out of the list. *)
Lemma queue_remove s q h x xs :
  load32 (mem s) q = h -> load32 (mem s) (q + 4) = tail_of h xs ->
  clist (mem s) h (x :: xs) -> nodes_ok 4 (q :: q + 4 :: h :: x :: xs) ->
  exists m', runs (ListRemove h) s x (set_mem m' s) /\ queue_rep m' q h xs.
Proof.
  intros Eh Et Hc Hok.
  destruct (ListRemove_spec s h [] x xs Hc) as (m' & Hr & [Hc' Hok'] & _ & Hse).
  exists m'. split; [exact Hr|].
  assert (forall w, w ∈ [q; q + 4] -> load32 m' w = load32 (mem s) w) as Hfr.
  { intros w. apply (queue_word_frame q h (x :: xs) [h; x]); [done|exact Hse|set_solver]. }
  constructor; [rewrite Hfr by set_solver; done|rewrite Hfr by set_solver; done|done|].
  eapply nodes_ok_sub; [exact Hok| |set_solver]. destruct Hok as (Hnd & _).
  apply NoDup_cons in Hnd as [H1 Hnd]. apply NoDup_cons in Hnd as [H2 Hnd].
  apply NoDup_cons in Hnd as [H3 Hnd]. apply NoDup_cons in Hnd as [H4 Hnd].
  repeat (apply NoDup_cons; split; [set_solver|]). done.
Qed.

Lemma Dequeue_spec s q h xs :
  queue_rep (mem s) q h xs ->
  exists m', runs (Dequeue q) s (match xs with [] => 0 | x :: _ => x end) (set_mem m' s) /\
    queue_rep m' q h (tl xs).
Proof.
  intros HQ. pose proof (queue_clist _ _ _ _ HQ) as Hcl.
  assert (forall r s', runs (e <- IsListEmpty h ;; if e then ret 0 else
      next <- ld32 h ;; tail <- ld32 (q + 4) ;;
      (if next =? tail then st32 (q + 4) h else ret tt) ;;; ListRemove h) s r s' ->
      runs (Dequeue q) s r s') as Hrun.
  { intros r s' Hr. unfold Dequeue. eapply runs_bind; [apply runs_ld32|]. cbv beta.
    by rewrite (qr_head _ _ _ _ HQ). }
  pose proof (IsListEmpty_spec s h xs Hcl) as He. destruct xs as [|x xs].
  { exists (mem s). rewrite set_mem_mem. split; [|exact HQ]. apply Hrun.
    eapply runs_bind; [exact He|]. reflexivity. }
  destruct HQ as [Eh Et Hc Hok]. pose proof (circ_head _ _ _ _ Hc) as Ex. cbn [tail_of tl] in *.
  destruct (Z.eqb_spec x (tail_of x xs)) as [E|E].
  - assert (xs = []) as ->.
    { destruct xs as [|y xs]; [done|exfalso]. destruct Hcl as [_ (Hnd & _)].
      apply NoDup_cons in Hnd as [_ Hnd]. apply NoDup_cons in Hnd as [Hx _]. apply Hx.
      rewrite E. cbn [tail_of]. apply tail_of_in. }
    set (m1 := store32 (mem s) (q + 4) h). cbn [tail_of] in *.
    destruct Hok as (Hnd & Hk & Ha). rewrite Forall_forall in Hk.
    assert (forall w, w ∈ [q; h; x] -> load32 m1 w = load32 (mem s) w) as Hfr.
    { intros w Hw. apply load32_store32_ne; [apply Hk; set_solver|apply Hk; set_solver|].
      apply Ha; [set_solver|set_solver|]. intros <-. apply elem_of_cons in Hw as [?|Hw]; [lia|].
      apply NoDup_cons in Hnd as [_ Hnd]. by apply NoDup_cons in Hnd as [Hnd _]. }
    destruct (queue_remove (set_mem m1 s) q h x []) as (m' & Hr & HQ').
    + cbn [mem set_mem]. rewrite Hfr by set_solver. done.
    + cbn [mem set_mem tail_of]. unfold m1. rewrite load32_store32_same by (apply Hk; set_solver).
      apply u32_small. specialize (Hk h ltac:(set_solver)). unfold kspan in Hk. lia.
    + destruct Hcl as [_ Hn]. split; [|done]. apply (circ_frame (load32 (mem s))); [|done].
      intros w Hw. apply Hfr. set_solver.
    + split_and!; [done|by apply Forall_forall|done].
    + exists m'. split; [|exact HQ']. apply Hrun.
      eapply runs_bind; [exact He|]. cbv beta iota. do 2 (eapply runs_bind; [apply runs_ld32|]; cbv beta).
      rewrite Ex, Et, Z.eqb_refl. eapply runs_bind; [apply runs_st32|exact Hr].
  - destruct xs as [|y xs]; [done|].
    destruct (queue_remove s q h x (y :: xs)) as (m' & Hr & HQ'); [done|done|done|done|].
    exists m'. split; [|exact HQ']. apply Hrun.
    eapply runs_bind; [exact He|]. cbv beta iota. do 2 (eapply runs_bind; [apply runs_ld32|]; cbv beta).
    rewrite Ex, Et, (proj2 (Z.eqb_neq _ _)) by done. eapply runs_bind; [reflexivity|exact Hr].
Qed.

Lemma QueueGetHead_spec s q h xs :
  queue_rep (mem s) q h xs ->
  runs (QueueGetHead q) s (match xs with [] => 0 | x :: _ => x end) s.
Proof.
  intros HQ. pose proof (queue_clist _ _ _ _ HQ) as Hcl. destruct HQ as [Eh Et Hc Hok].
  unfold QueueGetHead. eapply runs_bind; [apply runs_ld32|]. cbv beta. rewrite Eh.
  eapply runs_bind; [apply (IsListEmpty_spec s h xs Hcl)|]. destruct xs as [|x xs]; [reflexivity|].
  cbv beta iota. unfold runs, ld32, gets. by rewrite (circ_head _ _ _ _ Hc).
Qed.

(** ** Refinement of a functional queue *)

Inductive qop : Type :=
| QEnqueue (n : Z)
| QDequeue
| QGetHead.

Definition run_qop (q : Z) (o : qop) : K Z :=
  match o with
  | QEnqueue n => Enqueue q n ;;; ret n
  | QDequeue => Dequeue q
  | QGetHead => QueueGetHead q
  end.

(** The specification: first in, first out; 0 (NULL) when there is nothing. *)
Definition spec_qop (o : qop) (xs : list Z) : Z * list Z :=
  match o with
  | QEnqueue n => (n, xs ++ [n])
  | QDequeue => (match xs with [] => 0 | x :: _ => x end, tl xs)
  | QGetHead => (match xs with [] => 0 | x :: _ => x end, xs)
  end.

Fixpoint run_qops (q : Z) (os : list qop) : K (list Z) :=
  match os with
  | [] => ret []
  | o :: os' => r <- run_qop q o ;; rs <- run_qops q os' ;; ret (r :: rs)
  end.

Fixpoint spec_qops (os : list qop) (xs : list Z) : list Z * list Z :=
  match os with
  | [] => ([], xs)
  | o :: os' =>
      let (r, xs') := spec_qop o xs in
      let (rs, xs'') := spec_qops os' xs' in (r :: rs, xs'')
  end.

(** Every enqueued node is a node of [U] that is not in the queue at that time. *)
Fixpoint qops_ok (U : list Z) (os : list qop) (xs : list Z) : bool :=
  match os with
  | [] => true
  | o :: os' =>
      match o with
      | QEnqueue n => bool_decide (n ∈ U) && bool_decide (n ∉ xs)
      | _ => true
      end && qops_ok U os' (spec_qop o xs).2
  end.

(** C14: the queue functions refine a FIFO list. For every sequence of [Enqueue],
    [Dequeue] and [QueueGetHead] (nodes taken from a set [U] of separate words, none
    enqueued while it is in the queue), all operations return and yield exactly the
    results of the functional queue, NULL when it is empty, and the memory represents
    the functional queue's final content. *)
Theorem queue_fifo q h U os s xs :
  nodes_ok 4 (q :: q + 4 :: h :: U) -> queue_rep (mem s) q h xs -> (forall x, x ∈ xs -> x ∈ U) ->
  qops_ok U os xs = true ->
  exists s', runs (run_qops q os) s (spec_qops os xs).1 s' /\
    queue_rep (mem s') q h (spec_qops os xs).2.
Proof.
  intros HU. revert s xs. induction os as [|o os IH]; intros s xs HQ Hin Hops; cbn [qops_ok] in Hops.
  { exists s. split; [reflexivity|exact HQ]. }
  apply andb_prop in Hops as [Ho Hops].
  assert (exists m', runs (run_qop q o) s (spec_qop o xs).1 (set_mem m' s) /\
    queue_rep m' q h (spec_qop o xs).2 /\ forall x, x ∈ (spec_qop o xs).2 -> x ∈ U) as (m' & Hr & HQ' & Hin').
  { destruct o as [n| |]; cbn [run_qop spec_qop fst snd].
    - apply andb_prop in Ho as [Hn Hnx]. apply bool_decide_eq_true in Hn, Hnx.
      destruct (Enqueue_spec s q h xs n HQ) as (m' & Hr & HQ').
      { eapply nodes_ok_sub; [exact HU| |set_solver]. pose proof (qr_ok _ _ _ _ HQ) as (Hnd & _).
        destruct HU as (HndU & _). constructor; [|done].
        do 2 (apply NoDup_cons in HndU as [? HndU]). apply NoDup_cons in HndU as [? _].
        set_solver. }
      exists m'. split_and!; [eapply runs_bind; [exact Hr|reflexivity]|done|set_solver].
    - destruct (Dequeue_spec s q h xs HQ) as (m' & Hr & HQ'). exists m'. split_and!; [done|done|].
      destruct xs; set_solver.
    - exists (mem s). rewrite set_mem_mem. split_and!; [by apply (QueueGetHead_spec s q h)|done|done]. }
  destruct (IH (set_mem m' s) _ HQ' Hin' Hops) as (s' & Hr' & HQ'').
  cbn [spec_qops run_qops]. destruct (spec_qop o xs) as [r xs'] eqn:E1.
  destruct (spec_qops os xs') as [rs xs''] eqn:E2. exists s'. cbn [fst snd] in *. rewrite E2 in *.
  split; [|exact HQ'']. eapply runs_bind; [exact Hr|]. eapply runs_bind; [exact Hr'|]. reflexivity.
Qed.

(** An empty queue at [0xc1000100] with its list head at [0xc1000000]. *)
Definition queue_example : kstate :=
  set_mem (store32 (store32 (store32 ∅ 3238002688 3238002688) 3238002944 3238002688)
    3238002948 3238002688) zero_state.

Lemma queue_fifo_witness :
  exists s', runs (run_qops 3238002944
      [QDequeue; QEnqueue 3238002704; QEnqueue 3238002720; QGetHead; QDequeue; QDequeue; QDequeue])
    queue_example [0; 3238002704; 3238002720; 3238002704; 3238002704; 3238002720; 0] s' /\
    queue_rep (mem s') 3238002944 3238002688 [].
Proof.
  apply (queue_fifo 3238002944 3238002688 [3238002704; 3238002720]
    [QDequeue; QEnqueue 3238002704; QEnqueue 3238002720; QGetHead; QDequeue; QDequeue; QDequeue]
    queue_example []).
  - apply nodes_okb_sound; [lia|]. vm_compute. reflexivity.
  - constructor; [vm_compute; reflexivity|vm_compute; reflexivity| |].
    + apply circ_nil. vm_compute. reflexivity.
    + apply nodes_okb_sound; [lia|]. vm_compute. reflexivity.
  - intros x Hx. by apply elem_of_nil in Hx.
  - vm_compute. reflexivity.
Defined.

(** ** Maps *)

(** C40: looking a key up in a map ([MapGet] or [MapRemove]) never returns when the first
    entry has another key: the loop does not move on to the next entry. *)
Theorem map_lookup_diverges s map key x xs fuel :
  clist (mem s) map (x :: xs) -> load8 (mem s) (map_entry_of x) <> u8 key ->
  MapGet fuel map key s = NoFuel /\ MapRemove fuel map key s = NoFuel.
Proof.
  intros [Hc (Hnd & _)] Hk.
  assert (map_search fuel map key s = NoFuel) as Hs.
  { apply loop_diverges. eapply runs_bind; [apply runs_ld32|]. cbv beta.
    rewrite (circ_head _ _ _ _ Hc). rewrite (proj2 (Z.eqb_neq x map)).
    - eapply runs_bind; [apply runs_ld8|]. cbv beta. by rewrite (proj2 (Z.eqb_neq _ _)).
    - intros ->. apply NoDup_cons in Hnd as [Hnd _]. set_solver. }
  unfold MapGet, MapRemove, bind. by rewrite Hs.
Qed.

(** When the first entry has the key, both return that entry ([MapGet] its value),
    and both take it out of the map: a lookup is not repeatable. *)
Theorem map_lookup_first s map key x xs fuel :
  clist (mem s) map (x :: xs) -> load8 (mem s) (map_entry_of x) = u8 key ->
  exists m', clist m' map xs /\
    runs (MapRemove (S fuel) map key) s (map_entry_of x) (set_mem m' s) /\
    runs (MapGet (S fuel) map key) s (load32 m' (map_entry_of x + 4)) (set_mem m' s).
Proof.
  intros Hcl Hk. destruct (ListRemove_spec s map [] x xs Hcl) as (m' & Hr & Hc' & _ & _).
  destruct Hcl as [Hc (Hnd & _)]. exists m'. split; [done|].
  assert (runs (map_search (S fuel) map key) s (Some (map_entry_of x)) (set_mem m' s)) as Hs.
  { apply loop_exit. eapply runs_bind; [apply runs_ld32|]. cbv beta.
    rewrite (circ_head _ _ _ _ Hc), (proj2 (Z.eqb_neq x map)).
    - eapply runs_bind; [apply runs_ld8|]. cbv beta. rewrite Hk, Z.eqb_refl.
      eapply runs_bind; [exact Hr|]. reflexivity.
    - intros ->. apply NoDup_cons in Hnd as [Hnd _]. set_solver. }
  split; (eapply runs_bind; [exact Hs|]); reflexivity.
Qed.

(** A map with one entry (key 0) whose node is at [0xc1000010]: [list_example]. *)
Lemma map_lookup_diverges_witness :
  MapGet 100 3238002688 7 list_example = NoFuel /\ MapRemove 100 3238002688 7 list_example = NoFuel.
Proof.
  apply (map_lookup_diverges list_example 3238002688 7 3238002704 [] 100).
  - apply clistb_sound. vm_compute. reflexivity.
  - vm_compute. discriminate.
Defined.

Lemma map_lookup_first_witness :
  exists m', clist m' 3238002688 [] /\
    runs (MapRemove 5 3238002688 256) list_example 3238002696 (set_mem m' list_example).
Proof.
  destruct (map_lookup_first list_example 3238002688 256 3238002704 [] 4) as (m' & H1 & H2 & _).
  - apply clistb_sound. vm_compute. reflexivity.
  - vm_compute. reflexivity.
  - exists m'. split; [exact H1|exact H2].
Defined.
