(* ===== verification/Console.v ===== *)
(** * driver/console.c: the text console

    Characters are bytes; a format is the list of bytes before its terminating 0. A string
    argument is read from memory byte by byte, between the writes to the screen. The local
    array [buf] of [printf] is a memory of its own ([in_local]): [itoa] runs on it and the
    digits are read back from it. What [printf] prints is [printf_text], and [itoa_str] is
    the text of a number. *)

From Stdlib Require Import ZArith Lia ZifyBool.
From stdpp Require Import base numbers gmap strings list.
From S2P Require Import Prelude Memory Machine.

(** The bytes of a string literal. *)
Definition str (s : string) : list Z :=
  map (fun a => Z.of_N (Ascii.N_of_ascii a)) (String.list_ascii_of_string s).

Definition COLUMNS : Z := 80.
Definition LINES : Z := 24.
Definition ATTRIBUTE : Z := 7.
Definition VIDEO : Z := 753664.

(** ** The code *)

Definition set_pos (x y : Z) : K unit :=
  modify (fun s => set_con (set_ypos y (set_xpos x (con s))) s).

Definition cls : K unit :=
  modify (fun s => set_con (set_video VIDEO (con s)) s) ;;;
  for_ (Z.to_nat (COLUMNS * LINES * 2)) 0 (fun i =>
    video <- gets (fun s => video (con s)) ;;
    st8 (video + i) 0) ;;;
  set_pos 0 0.

(** The label [newline] of [putchar]. *)
Definition newline : K unit :=
  y <- gets (fun s => ypos (con s)) ;;
  set_pos 0 (if LINES <=? y + 1 then 0 else y + 1).

Definition putchar (c : Z) : K unit :=
  if (c =? 10) || (c =? 13) then newline
  else
    g <- gets con ;;
    let at_ := video g + (xpos g + ypos g * COLUMNS) * 2 in
    st8 at_ (Z.land c 255) ;;;
    st8 (at_ + 1) ATTRIBUTE ;;;
    set_pos (xpos g + 1) (ypos g) ;;;
    if COLUMNS <=? xpos g + 1 then newline else ret tt.

Definition itoa_digit (r : Z) : Z := if r <? 10 then r + 48 else r + 97 - 10.

(** [do { ... } while (ud /= divisor)]: digits, least significant first; returns [p]. *)
Definition itoa_digits_loop (divisor p ud : Z) : K Z :=
  loop 32 (fun '(p, ud) =>
    st8 p (itoa_digit (ud mod divisor)) ;;;
    let ud' := ud / divisor in
    if ud' =? 0 then ret (inr (p + 1)) else ret (inl (p + 1, ud'))) (p, ud).

(** The reversal loop. *)
Definition itoa_reverse (p1 p2 : Z) : K unit :=
  loop 32 (fun '(p1, p2) =>
    if p1 <? p2 then
      t <- ld8 p1 ;;
      x <- ld8 p2 ;;
      st8 p1 x ;;;
      st8 p2 t ;;;
      ret (inl (p1 + 1, p2 - 1))
    else ret (inr tt)) (p1, p2).

Definition itoa (buf base d : Z) : K unit :=
  r <-
    (if (base =? 100) && (d <? 0)
     then st8 buf 45 ;;; ret (buf + 1, u32 (- d), 10)
     else ret (buf, u32 d, if base =? 120 then 16 else 10)) ;;
  let '(buf, ud, divisor) := r in
  p <- itoa_digits_loop divisor buf ud ;;
  st8 p 0 ;;;
  itoa_reverse buf (p - 1).

(** ** The text [itoa] produces *)

Fixpoint digits_rev (fuel : nat) (divisor ud : Z) : list Z :=
  match fuel with
  | O => []
  | S f => itoa_digit (ud mod divisor) ::
           (if ud / divisor =? 0 then [] else digits_rev f divisor (ud / divisor))
  end.

Definition itoa_str (base d : Z) : list Z :=
  if (base =? 100) && (d <? 0) then 45 :: rev (digits_rev 32 10 (u32 (- d)))
  else rev (digits_rev 32 (if base =? 120 then 16 else 10) (u32 d)).

(** ** printf *)

(** The bytes of the C string at [p]. *)
Fixpoint c_string (fuel : nat) (p : Z) : K (list Z) :=
  match fuel with
  | O => nofuel
  | S f =>
      c <- ld8 p ;;
      if c =? 0 then ret [] else l <- c_string f (p + 1) ;; ret (c :: l)
  end.

Fixpoint put_all (l : list Z) : K unit :=
  match l with
  | [] => ret tt
  | c :: l' => putchar c ;;; put_all l'
  end.

(** The label [string]. [rd] reads [*p], from memory, from [buf] or from the literal.
    [for (p2 = p; *p2; p2++);] *)
Definition str_end (rd : Z -> K Z) (fuel : nat) (p : Z) : K Z :=
  loop fuel (fun p2 => c <- rd p2 ;; ret (if c =? 0 then inr p2 else inl (p2 + 1))) p.

(** [while ( *p ) putchar( *p++ );] *)
Definition put_str (rd : Z -> K Z) (fuel : nat) (p : Z) : K unit :=
  loop fuel (fun p =>
    c <- rd p ;;
    if c =? 0 then ret (inr tt) else putchar c ;;; ret (inl (p + 1))) p.

(** The padding up to [pad] characters, then the string. *)
Definition put_padded (rd : Z -> K Z) (fuel : nat) (pad0 : bool) (pad p : Z) : K unit :=
  p2 <- str_end rd fuel p ;;
  for_ (Z.to_nat (p + pad - p2)) p2 (fun _ => putchar (if pad0 then 48 else 32)) ;;;
  put_str rd fuel p.

(** [c] on a local array: a memory of its own, which is the result; the kernel's memory is
    as before. *)
Definition in_local (c : K unit) : K (gmap Z Z) := fun s =>
  match c (set_mem ∅ s) with
  | Done (_, s') => Done (mem s', set_mem (mem s) s')
  | Crash => Crash
  | NoFuel => NoFuel
  | Enter s' => Enter s'
  | Fault v => Fault v
  end.

(** [c = *format++] *)
Definition next_char (fmt : list Z) : Z * list Z :=
  match fmt with
  | [] => (0, [])
  | c :: fmt' => (c, fmt')
  end.

(** [pad0], [pad], the conversion character and the rest of the format. *)
Definition parse_spec (fmt : list Z) : bool * Z * Z * list Z :=
  let (c, fmt) := next_char fmt in
  let '(pad0, c, fmt) :=
    if c =? 48 then let (c, fmt) := next_char fmt in (true, c, fmt) else (false, c, fmt) in
  if (48 <=? c) && (c <=? 57)
  then let (c', fmt) := next_char fmt in (pad0, c - 48, c', fmt)
  else (pad0, 0, c, fmt).

Definition null_str : list Z := str "(null)".

(** One conversion with its argument; [buf] has 20 bytes. *)
Definition print_arg (fuel : nat) (pad0 : bool) (pad c arg : Z) : K unit :=
  if (c =? 100) || (c =? 117) || (c =? 120) then
    buf <- in_local (itoa 0 c (i32 arg)) ;;
    put_padded (fun p => ret (load8 buf p)) 20 pad0 pad 0
  else if c =? 115 then
    let p := u32 arg in
    if p =? 0 then put_padded (fun p => ret (nth (Z.to_nat p) null_str 0)) 20 pad0 pad 0
    else put_padded ld8 fuel pad0 pad p
  else putchar (i32 arg).

(** [printf]: [n] bounds the length of the format; a missing argument or a format that
    ends inside a conversion is undefined behaviour. *)
Fixpoint printf_from (n fuel : nat) (fmt args : list Z) : K unit :=
  match n with
  | O => nofuel
  | S n' =>
      match fmt with
      | [] => ret tt
      | c :: fmt' =>
          if negb (c =? 37) then putchar c ;;; printf_from n' fuel fmt' args
          else
            let '(pad0, pad, c, rest) := parse_spec fmt' in
            match args with
            | [] => crash
            | a :: args' =>
                if c =? 0 then crash
                else print_arg fuel pad0 pad c a ;;; printf_from n' fuel rest args'
            end
      end
  end.

Definition printf (fuel : nat) (fmt args : list Z) : K unit :=
  printf_from (S (length fmt)) fuel fmt args.

(** [printf(p)] with a format that is in memory. *)
Definition printf_at (fuel : nat) (p : Z) : K unit :=
  fmt <- c_string fuel p ;; printf fuel fmt [].

(** ** The screen *)

(** The cursor is on the screen and [video] is set. *)
Definition con_ok (g : ConG) : Prop :=
  0 <= xpos g < COLUMNS /\ 0 <= ypos g < LINES /\ video g = VIDEO.

(** Only the bytes of the screen differ. *)
Definition screen_only (m m' : gmap Z Z) : Prop :=
  forall a, ~ (VIDEO <= phys a < VIDEO + COLUMNS * LINES * 2) -> load8 m' a = load8 m a.

(** A computation that keeps the cursor on the screen, writes nothing but the screen
    and changes nothing else. *)
Definition con_step (c : K unit) : Prop :=
  forall s, con_ok (con s) -> exists m' g', runs c s tt (set_mem m' (set_con g' s)) /\
    con_ok g' /\ screen_only (mem s) m'.

Lemma screen_only_trans m1 m2 m3 : screen_only m1 m2 -> screen_only m2 m3 -> screen_only m1 m3.
Proof. intros H1 H2 a Ha. by rewrite H2, H1. Qed.

Lemma screen_only_store8 m a v :
  VIDEO <= a < VIDEO + COLUMNS * LINES * 2 -> screen_only m (store8 m a v).
Proof.
  intros Ha b Hb. apply load8_store8_ne. rewrite phys_low; [|unfold VIDEO, COLUMNS, LINES in Ha; lia].
  intros E. rewrite <- E in Hb. done.
Qed.

Lemma con_step_bind c d : con_step c -> con_step d -> con_step (c ;;; d).
Proof.
  intros Hc Hd s Hs. destruct (Hc s Hs) as (m1 & g1 & Hr1 & Hg1 & Hm1).
  destruct (Hd (set_mem m1 (set_con g1 s)) Hg1) as (m2 & g2 & Hr2 & Hg2 & Hm2).
  exists m2, g2. split_and!; [|done|by eapply screen_only_trans].
  eapply runs_bind; [exact Hr1|]. exact Hr2.
Qed.

Lemma con_step_ret : con_step (ret tt).
Proof. intros s Hs. exists (mem s), (con s). split_and!; [by destruct s|done|done]. Qed.

Lemma con_step_newline s : 0 <= ypos (con s) < LINES -> video (con s) = VIDEO ->
  exists g', runs newline s tt (set_con g' s) /\ con_ok g'.
Proof.
  intros Hy Hv. eexists. split; [reflexivity|]. unfold con_ok, COLUMNS, LINES in *. cbn.
  destruct (Z.leb_spec 24 (ypos (con s) + 1)); lia.
Qed.

Lemma putchar_step c : con_step (putchar c).
Proof.
  intros s (Hx & Hy & Hv). unfold putchar. destruct (_ || _).
  { destruct (con_step_newline s Hy Hv) as (g' & Hr & Hg). exists (mem s), g'.
    split_and!; [exact Hr|done|done]. }
  set (a := VIDEO + (xpos (con s) + ypos (con s) * COLUMNS) * 2).
  assert (VIDEO <= a /\ a + 1 < VIDEO + COLUMNS * LINES * 2) as [Ha1 Ha2].
  { unfold a, VIDEO, COLUMNS, LINES in *. lia. }
  set (m1 := store8 (store8 (mem s) a (Z.land c 255)) (a + 1) ATTRIBUTE).
  assert (screen_only (mem s) m1) as Hso.
  { eapply screen_only_trans; apply screen_only_store8; lia. }
  set (s1 := set_mem m1 (set_con (set_ypos (ypos (con s)) (set_xpos (xpos (con s) + 1) (con s))) s)).
  assert (forall r s', runs (if COLUMNS <=? xpos (con s) + 1 then newline else ret tt) s1 r s' ->
    runs (g <- gets con ;;
      let at_ := video g + (xpos g + ypos g * COLUMNS) * 2 in
      st8 at_ (Z.land c 255) ;;; st8 (at_ + 1) ATTRIBUTE ;;; set_pos (xpos g + 1) (ypos g) ;;;
      if COLUMNS <=? xpos g + 1 then newline else ret tt) s r s') as Hrun.
  { intros r s' Hr. eapply runs_bind; [reflexivity|]. cbv beta zeta. rewrite Hv. fold a.
    do 3 (eapply runs_bind; [reflexivity|]; cbv beta). exact Hr. }
  destruct (Z.leb_spec COLUMNS (xpos (con s) + 1)) as [Hw|Hw].
  - destruct (con_step_newline s1 Hy Hv) as (g' & Hr & Hg). exists m1, g'.
    split_and!; [apply Hrun; exact Hr|done|done].
  - eexists m1, _. split_and!; [apply Hrun; reflexivity| |done]. unfold con_ok. cbn. lia.
Qed.

Lemma put_all_step l : con_step (put_all l).
Proof.
  induction l as [|c l IH]; [apply con_step_ret|]. apply con_step_bind; [apply putchar_step|exact IH].
Qed.

(** ** itoa *)

(** The bytes from [a] on are [l]. *)
Definition bytes_at (m : gmap Z Z) (a : Z) (l : list Z) : Prop :=
  forall i x, l !! i = Some x -> load8 m (a + Z.of_nat i) = x.

(** Storing a byte of a buffer. *)
Lemma bytes_at_store m a n l i v :
  span a n -> Z.of_nat (length l) <= n -> (i < length l)%nat -> 0 <= v < 256 ->
  bytes_at m a l -> bytes_at (store8 m (a + Z.of_nat i) v) a (<[i := v]> l).
Proof.
  intros Hs Hl Hi Hv Hb j x Hj. destruct (decide (i = j)) as [<-|Hne].
  - rewrite list_lookup_insert_eq in Hj by done. injection Hj as <-.
    rewrite load8_store8_same. by apply u8_small.
  - rewrite list_lookup_insert_ne in Hj by done. pose proof (lookup_lt_Some _ _ _ Hj).
    rewrite load8_store8_ne; [by apply Hb|]. intros E. apply Hne.
    apply (phys_inj a n) in E; [lia|done|lia|lia].
Qed.

(** Storing the byte after the buffer's content extends it. *)
Lemma bytes_at_snoc m a n l v :
  span a n -> Z.of_nat (length l) < n -> 0 <= v < 256 ->
  bytes_at m a l -> bytes_at (store8 m (a + Z.of_nat (length l)) v) a (l ++ [v]).
Proof.
  intros Hs Hl Hv Hb j x Hj. apply lookup_snoc_Some in Hj as [[Hj Hx]|[-> <-]].
  - rewrite load8_store8_ne; [by apply Hb|]. intros E.
    apply (phys_inj a n) in E; [lia|done|lia|lia].
  - rewrite load8_store8_same. by apply u8_small.
Qed.

(** Bytes outside the [n] bytes from [a] are the same. *)
Definition buf_only (a n : Z) (m m' : gmap Z Z) : Prop :=
  forall b, (forall i, 0 <= i < n -> phys (a + i) <> phys b) -> load8 m' b = load8 m b.

Lemma buf_only_store m a n i v : 0 <= i < n -> buf_only a n m (store8 m (a + i) v).
Proof. intros Hi b Hb. apply load8_store8_ne. auto. Qed.

Lemma buf_only_trans a n m1 m2 m3 : buf_only a n m1 m2 -> buf_only a n m2 m3 -> buf_only a n m1 m3.
Proof. intros H1 H2 b Hb. by rewrite H2, H1. Qed.

Lemma itoa_digit_range r : 0 <= r < 16 -> 0 < itoa_digit r < 256.
Proof. intros. unfold itoa_digit. destruct (Z.ltb_spec r 10); lia. Qed.

Section Itoa.
Context (a n : Z) (Hspan : span a n).

Lemma digits_loop_runs fuel divisor s l ud :
  (divisor = 10 \/ divisor = 16) -> 0 <= ud -> ud < divisor ^ Z.of_nat fuel -> (0 < fuel)%nat ->
  bytes_at (mem s) a l -> Z.of_nat (length (l ++ digits_rev fuel divisor ud)) <= n ->
  exists m', let D := digits_rev fuel divisor ud in
    runs (loop fuel (fun '(p, ud) =>
      st8 p (itoa_digit (ud mod divisor)) ;;;
      let ud' := ud / divisor in
      if ud' =? 0 then ret (inr (p + 1)) else ret (inl (p + 1, ud')))
      (a + Z.of_nat (length l), ud)) s (a + Z.of_nat (length (l ++ D))) (set_mem m' s) /\
    bytes_at m' a (l ++ D) /\ buf_only a n (mem s) m'.
Proof using Hspan.
  intros Hdiv. revert s l ud. induction fuel as [|fuel IH]; intros s l ud H0 Hud Hf Hb Hn; [lia|].
  pose proof (Z.mod_pos_bound ud divisor ltac:(lia)) as Hr.
  pose proof (itoa_digit_range (ud mod divisor) ltac:(lia)) as Hd. cbn [digits_rev] in *.
  set (c := itoa_digit (ud mod divisor)) in *.
  assert (Z.of_nat (length l) < n) as Hln by (rewrite length_app in Hn; cbn in Hn; lia).
  pose proof (bytes_at_snoc (mem s) a n l c Hspan ltac:(lia) ltac:(lia) Hb) as Hb1.
  set (m1 := store8 (mem s) (a + Z.of_nat (length l)) c) in *.
  pose proof (buf_only_store (mem s) a n (Z.of_nat (length l)) c ltac:(lia)) as Hbo1. fold m1 in Hbo1.
  assert (length (l ++ [c]) = S (length l)) as El by (rewrite length_app; cbn; lia).
  destruct (Z.eqb_spec (ud / divisor) 0) as [E|E]; clear Hr.
  - exists m1. split_and!; [|exact Hb1|exact Hbo1]. apply loop_exit.
    eapply runs_bind; [reflexivity|]. cbv beta zeta. rewrite E, Z.eqb_refl, El.
    replace (a + Z.of_nat (S (length l))) with (a + Z.of_nat (length l) + 1) by lia. reflexivity.
  - destruct (IH (set_mem m1 s) (l ++ [c]) (ud / divisor)) as (m2 & Hr2 & Hb2 & Hbo2).
    + apply Z.div_pos; lia.
    + apply Z.div_lt_upper_bound; [lia|]. by rewrite <- Z.pow_succ_r, <- Nat2Z.inj_succ by lia.
    + destruct fuel as [|fuel]; [|lia]. change (Z.of_nat 1) with 1 in Hud. rewrite Z.pow_1_r in Hud.
      exfalso. apply E. apply Z.div_small. lia.
    + exact Hb1.
    + rewrite <- app_assoc. exact Hn.
    + rewrite <- app_assoc in Hr2, Hb2. cbn [app] in Hr2, Hb2.
      exists m2. split_and!; [|exact Hb2|by eapply buf_only_trans]. eapply loop_step; [|exact Hr2].
      eapply runs_bind; [reflexivity|]. cbv beta zeta. rewrite (proj2 (Z.eqb_neq _ _)) by done.
      rewrite El. replace (a + Z.of_nat (S (length l))) with (a + Z.of_nat (length l) + 1) by lia. reflexivity.
Qed.

Lemma insert_mid (pre post : list Z) u v : <[length pre := v]> (pre ++ u :: post) = pre ++ v :: post.
Proof. rewrite insert_app_r_alt by lia. by rewrite Nat.sub_diag. Qed.

(** Swapping two bytes of the buffer. *)
Lemma swap_runs m pre x mid y post (l := pre ++ x :: mid ++ y :: post) :
  bytes_at m a l -> Z.of_nat (length l) <= n -> 0 <= x < 256 -> 0 <= y < 256 ->
  let i := Z.of_nat (length pre) in let j := i + 1 + Z.of_nat (length mid) in
  load8 m (a + i) = x /\ load8 m (a + j) = y /\
  bytes_at (store8 (store8 m (a + i) y) (a + j) x) a (pre ++ y :: mid ++ x :: post).
Proof using Hspan.
  intros Hb Hl Hx Hy i j.
  assert (j = Z.of_nat (length (pre ++ x :: mid))) as Ej by (rewrite length_app; cbn; lia).
  assert (forall u v, pre ++ u :: mid ++ v :: post = (pre ++ u :: mid) ++ v :: post) as Eapp
    by (intros; by rewrite <- app_assoc).
  split_and!.
  - apply (Hb (length pre)). unfold l. by rewrite list_lookup_middle.
  - rewrite Ej. apply (Hb (length (pre ++ x :: mid))). unfold l. rewrite Eapp. by rewrite list_lookup_middle.
  - assert (length l = length (pre ++ y :: mid ++ y :: post)) as Hlen
      by (unfold l; rewrite !length_app; cbn; rewrite !length_app; done).
    pose proof (bytes_at_store m a n l (length pre) y Hspan Hl) as H1.
    unfold l in H1. rewrite insert_mid in H1. fold l in H1.
    specialize (H1 ltac:(unfold l; rewrite length_app; cbn; lia) Hy Hb).
    rewrite Eapp in H1, Hlen.
    pose proof (bytes_at_store _ a n ((pre ++ y :: mid) ++ y :: post) (length (pre ++ y :: mid)) x Hspan ltac:(lia)
      ltac:(rewrite (length_app (pre ++ y :: mid)); cbn; lia) Hx H1) as H2.
    rewrite insert_mid, <- Eapp in H2.
    replace (a + j) with (a + Z.of_nat (length (pre ++ y :: mid))); [exact H2|].
    rewrite Ej, !length_app. done.
Qed.

(** The reversal loop reverses the segment between its two pointers. *)
Lemma reverse_runs fuel s pre seg post :
  bytes_at (mem s) a (pre ++ seg ++ post) -> Z.of_nat (length (pre ++ seg ++ post)) <= n ->
  Forall (fun x => 0 <= x < 256) seg -> (length seg < 2 * fuel)%nat ->
  exists m', runs (loop fuel (fun '(p1, p2) =>
      if p1 <? p2 then
        t <- ld8 p1 ;; x <- ld8 p2 ;; st8 p1 x ;;; st8 p2 t ;;; ret (inl (p1 + 1, p2 - 1))
      else ret (inr tt)) (a + Z.of_nat (length pre), a + Z.of_nat (length (pre ++ seg)) - 1))
      s tt (set_mem m' s) /\
    bytes_at m' a (pre ++ rev seg ++ post) /\ buf_only a n (mem s) m'.
Proof using Hspan.
  revert s pre seg post. induction fuel as [|fuel IH]; intros s pre seg post Hb Hl Hby Hf; [lia|].
  assert (forall sg, seg = sg -> (length sg <= 1)%nat -> rev sg = sg) as Hshort.
  { intros [|? [|]] _; cbn; lia || done. }
  destruct (Nat.le_gt_cases (length seg) 1) as [Hs1|Hs1].
  { exists (mem s). rewrite set_mem_mem, Hshort by done. split_and!; [|done|by intros b _].
    apply loop_exit. rewrite length_app. destruct (Z.ltb_spec (a + Z.of_nat (length pre))
      (a + Z.of_nat (length pre + length seg) - 1)); [lia|reflexivity]. }
  destruct seg as [|x seg]; [cbn in Hs1; lia|].
  destruct seg as [|y mid _] using rev_ind; [cbn in Hs1; lia|].
  apply Forall_cons in Hby as [Hx Hby]. apply Forall_app in Hby as [Hmid Hy].
  apply Forall_cons in Hy as [Hy _].
  assert (pre ++ (x :: mid ++ [y]) ++ post = pre ++ x :: mid ++ y :: post) as E0
    by (cbn; by rewrite <- app_assoc).
  rewrite E0 in Hb, Hl. destruct (swap_runs (mem s) pre x mid y post Hb Hl Hx Hy) as (Lx & Ly & Hb1).
  set (i := Z.of_nat (length pre)) in *. set (j := i + 1 + Z.of_nat (length mid)) in *.
  set (m1 := store8 (store8 (mem s) (a + i) y) (a + j) x) in *.
  assert (pre ++ y :: mid ++ x :: post = (pre ++ [y]) ++ mid ++ (x :: post)) as E1
    by (by rewrite <- app_assoc).
  assert (i + 1 + Z.of_nat (length mid) < n) as Hj.
  { unfold i. rewrite length_app in Hl. cbn [length] in Hl. rewrite length_app in Hl. cbn in Hl. lia. }
  rewrite E1 in Hb1. destruct (IH (set_mem m1 s) (pre ++ [y]) mid (x :: post) Hb1) as (m2 & Hr2 & Hb2 & Ho2).
  - rewrite <- E1. rewrite !length_app in *. cbn [length] in *. rewrite !length_app in *. cbn in *. lia.
  - done.
  - cbn in Hf. rewrite length_app in Hf. cbn in Hf. lia.
  - exists m2. split_and!.
    + assert (a + Z.of_nat (length (pre ++ x :: mid ++ [y])) - 1 = a + j) as ->.
      { unfold j, i. rewrite length_app. cbn. rewrite length_app. cbn. lia. }
      eapply loop_step.
      * assert (a + i <? a + j = true) as -> by lia.
        eapply runs_bind; [apply runs_ld8|]. cbv beta. eapply runs_bind; [apply runs_ld8|]. cbv beta.
        rewrite Lx, Ly. eapply runs_bind; [reflexivity|]. eapply runs_bind; [reflexivity|]. reflexivity.
      * assert (a + i + 1 = a + Z.of_nat (length (pre ++ [y]))) as -> by (rewrite length_app; cbn; lia).
        assert (a + j - 1 = a + Z.of_nat (length ((pre ++ [y]) ++ mid)) - 1) as ->
          by (rewrite !length_app; cbn; lia). exact Hr2.
    + replace (pre ++ rev (x :: mid ++ [y]) ++ post) with ((pre ++ [y]) ++ rev mid ++ x :: post); [done|].
      cbn [rev]. rewrite rev_app_distr. cbn. by rewrite <- !app_assoc.
    + eapply buf_only_trans; [|exact Ho2].
      eapply buf_only_trans; apply buf_only_store; lia.
Qed.
End Itoa.

Lemma digits_rev_range fuel divisor ud :
  divisor = 10 \/ divisor = 16 -> Forall (fun x => 0 <= x < 256) (digits_rev fuel divisor ud).
Proof.
  intros Hd. revert ud. induction fuel as [|fuel IH]; intros ud; [constructor|]. cbn [digits_rev].
  pose proof (Z.mod_pos_bound ud divisor ltac:(lia)).
  constructor; [pose proof (itoa_digit_range (ud mod divisor)); lia|].
  destruct (_ =? 0); [constructor|apply IH].
Qed.

Lemma digits_rev_length fuel divisor ud k :
  divisor = 10 \/ divisor = 16 -> 0 <= ud < divisor ^ Z.of_nat k -> (0 < k)%nat ->
  (length (digits_rev fuel divisor ud) <= k)%nat.
Proof.
  intros Hd. revert ud k. induction fuel as [|fuel IH]; intros ud k Hud Hk; [cbn; lia|].
  cbn [digits_rev length]. destruct k as [|k]; [lia|]. apply le_n_S.
  destruct (Z.eqb_spec (ud / divisor) 0) as [E|E]; [cbn; lia|].
  rewrite Nat2Z.inj_succ, Z.pow_succ_r in Hud by lia.
  apply IH.
  - split; [apply Z.div_pos; lia|]. apply Z.div_lt_upper_bound; lia.
  - destruct k as [|k]; [|lia]. change (Z.of_nat 0) with 0 in Hud. rewrite Z.pow_0_r, Z.mul_1_r in Hud.
    exfalso. apply E, Z.div_small. lia.
Qed.

Lemma itoa_digits_length divisor ud :
  divisor = 10 \/ divisor = 16 -> 0 <= ud < W32 -> (length (digits_rev 32 divisor ud) <= 10)%nat.
Proof.
  intros Hd Hu. apply digits_rev_length; [done| |lia].
  destruct Hd as [->| ->]; [change (10 ^ Z.of_nat 10) with 10000000000; lia|].
  change (16 ^ Z.of_nat 10) with 1099511627776. lia.
Qed.

(** The part of [itoa] after the sign. *)
Lemma itoa_body_runs a n s divisor ud :
  span a n -> 11 <= n -> divisor = 10 \/ divisor = 16 -> 0 <= ud < W32 ->
  exists m', runs (p <- itoa_digits_loop divisor a ud ;; st8 p 0 ;;; itoa_reverse a (p - 1)) s tt
      (set_mem m' s) /\
    bytes_at m' a (rev (digits_rev 32 divisor ud) ++ [0]) /\ buf_only a n (mem s) m'.
Proof.
  intros Hs Hn Hd Hu. pose proof (itoa_digits_length divisor ud Hd Hu) as Hlen.
  pose proof (digits_rev_range 32 divisor ud Hd) as Hrg.
  destruct (digits_loop_runs a n Hs 32 divisor s [] ud Hd) as (m1 & Hr1 & Hb1 & Ho1).
  - lia.
  - destruct Hd as [->| ->]; [change (10 ^ Z.of_nat 32) with 100000000000000000000000000000000; lia|].
    change (16 ^ Z.of_nat 32) with 340282366920938463463374607431768211456. lia.
  - lia.
  - intros i x Hi. by rewrite lookup_nil in Hi.
  - cbn [app]. lia.
  - set (D := digits_rev 32 divisor ud) in *. clearbody D. cbn [app] in *.
    pose proof (bytes_at_snoc m1 a n D 0 Hs ltac:(lia) ltac:(lia) Hb1) as Hb2.
    set (m2 := store8 m1 (a + Z.of_nat (length D)) 0) in *.
    destruct (reverse_runs a n Hs 32 (set_mem m2 s) [] D [0] Hb2) as (m3 & Hr3 & Hb3 & Ho3).
    + cbn [app]. rewrite length_app. cbn. lia.
    + exact Hrg.
    + lia.
    + exists m3. split_and!; [|exact Hb3|].
      * eapply runs_bind.
        { change (length (@nil Z)) with 0%nat in Hr1. rewrite Z.add_0_r in Hr1. exact Hr1. }
        cbv beta. eapply runs_bind; [reflexivity|]. cbv beta.
        change (length (@nil Z)) with 0%nat in Hr3. rewrite Z.add_0_r in Hr3. exact Hr3.
      * eapply buf_only_trans; [exact Ho1|]. eapply buf_only_trans; [|exact Ho3].
        apply buf_only_store. lia.
Qed.

(** Decoding: the value of a digit string, most significant first. *)
Definition digit_val (c : Z) : Z := if c <? 58 then c - 48 else c - 87.

Definition str_value (divisor : Z) (l : list Z) : Z :=
  fold_left (fun acc c => acc * divisor + digit_val c) l 0.

(** Reading back: an optional minus sign and digits. *)
Definition parse_int (divisor : Z) (l : list Z) : Z :=
  match l with
  | 45 :: l' => - str_value divisor l'
  | _ => str_value divisor l
  end.

Lemma digit_val_digit r : 0 <= r < 16 -> digit_val (itoa_digit r) = r.
Proof.
  intros. unfold digit_val, itoa_digit. destruct (Z.ltb_spec r 10).
  - destruct (Z.ltb_spec (r + 48) 58); lia.
  - destruct (Z.ltb_spec (r + 97 - 10) 58); lia.
Qed.

Lemma str_value_snoc divisor l c : str_value divisor (l ++ [c]) = str_value divisor l * divisor + digit_val c.
Proof. unfold str_value. by rewrite fold_left_app. Qed.

Lemma str_value_digits fuel divisor ud :
  divisor = 10 \/ divisor = 16 -> 0 <= ud -> ud < divisor ^ Z.of_nat fuel ->
  str_value divisor (rev (digits_rev fuel divisor ud)) = ud.
Proof.
  intros Hd. revert ud. induction fuel as [|fuel IH]; intros ud H0 Hud.
  { change (Z.of_nat 0) with 0 in Hud. rewrite Z.pow_0_r in Hud. cbn. lia. }
  cbn [digits_rev rev]. rewrite str_value_snoc.
  pose proof (Z.mod_pos_bound ud divisor ltac:(lia)). pose proof (Z.div_mod ud divisor ltac:(lia)).
  rewrite digit_val_digit by lia. destruct (Z.eqb_spec (ud / divisor) 0) as [E|E]; [cbn; lia|].
  rewrite IH; [lia|apply Z.div_pos; lia|]. apply Z.div_lt_upper_bound; [lia|].
  by rewrite <- Z.pow_succ_r, <- Nat2Z.inj_succ by lia.
Qed.

Lemma digits_no_sign fuel divisor ud :
  divisor = 10 \/ divisor = 16 -> Forall (fun c => c <> 45 /\ c <> 0 /\ c <> 37) (digits_rev fuel divisor ud).
Proof.
  intros Hd. revert ud. induction fuel as [|fuel IH]; intros ud; [constructor|]. cbn [digits_rev].
  pose proof (Z.mod_pos_bound ud divisor ltac:(lia)).
  constructor; [unfold itoa_digit; destruct (Z.ltb_spec (ud mod divisor) 10); lia|].
  destruct (_ =? 0); [constructor|apply IH].
Qed.

Lemma parse_int_digits divisor l : Forall (fun c => c <> 45) l -> parse_int divisor l = str_value divisor l.
Proof.
  intros Hl. destruct l as [|c l]; [done|]. apply Forall_cons in Hl as [Hc _]. unfold parse_int.
  destruct c as [|p|p]; try done. repeat (destruct p as [p|p|]; try done).
Qed.

Lemma rev_digits_value divisor ud :
  divisor = 10 \/ divisor = 16 -> 0 <= ud < W32 ->
  parse_int divisor (rev (digits_rev 32 divisor ud)) = ud.
Proof.
  intros Hd Hu. rewrite parse_int_digits.
  - apply str_value_digits; [done|lia|].
    destruct Hd as [->| ->]; [change (10 ^ Z.of_nat 32) with 100000000000000000000000000000000; lia|].
    change (16 ^ Z.of_nat 32) with 340282366920938463463374607431768211456. lia.
  - apply Forall_rev. eapply Forall_impl; [by apply digits_no_sign|]. cbn. tauto.
Qed.

(** [itoa] on memory agrees with the text function [itoa_str]: it leaves that text,
    terminated by 0, in the buffer, writes at most 12 bytes and nothing outside
    them. The text has no 0 byte, so a reader finds its end. *)
Lemma itoa_spec buf base d s :
  span buf 12 -> - 2147483648 <= d < 2147483648 ->
  exists m', runs (itoa buf base d) s tt (set_mem m' s) /\
    bytes_at m' buf (itoa_str base d ++ [0]) /\ buf_only buf 12 (mem s) m' /\
    Z.of_nat (length (itoa_str base d ++ [0])) <= 12 /\ Forall (fun c => c <> 0) (itoa_str base d).
Proof.
  intros Hs Hd. unfold itoa, itoa_str.
  assert (forall divisor ud, divisor = 10 \/ divisor = 16 ->
    Forall (fun c => c <> 0) (rev (digits_rev 32 divisor ud))) as Hnz.
  { intros. apply Forall_rev. eapply Forall_impl; [by apply digits_no_sign|]. cbn. tauto. }
  destruct ((base =? 100) && (d <? 0)) eqn:Eb.
  - set (ud := u32 (- d)). set (m0 := store8 (mem s) buf 45).
    destruct (itoa_body_runs (buf + 1) 11 (set_mem m0 s) 10 ud) as (m' & Hr & Hb & Ho);
      [unfold span in *; lia|lia|auto|apply u32_range|].
    pose proof (itoa_digits_length 10 ud (or_introl eq_refl) (u32_range _)).
    exists m'. split_and!.
    + eapply runs_bind; [eapply runs_bind; reflexivity|]. exact Hr.
    + cbn [app]. intros [|i] x Hi; cbn in Hi.
      * injection Hi as <-. rewrite Z.add_0_r. rewrite Ho; [apply load8_store8_same|].
        intros i Hi E. replace (buf + 1 + i) with (buf + (1 + i)) in E by lia.
        replace buf with (buf + 0) in E at 2 by lia. apply (phys_inj buf 12) in E; [lia|done|lia|lia].
      * replace (buf + Z.of_nat (S i)) with (buf + 1 + Z.of_nat i) by lia. by apply Hb.
    + intros b Hnb. rewrite Ho.
      * apply load8_store8_ne. specialize (Hnb 0 ltac:(lia)). by rewrite Z.add_0_r in Hnb.
      * intros i Hi. replace (buf + 1 + i) with (buf + (1 + i)) by lia. apply Hnb. lia.
    + rewrite length_app. cbn [length]. rewrite length_rev. lia.
    + constructor; [lia|]. by apply Hnz; left.
  - set (divisor := if base =? 120 then 16 else 10).
    assert (divisor = 10 \/ divisor = 16) as Hdv by (unfold divisor; destruct (base =? 120); auto).
    destruct (itoa_body_runs buf 12 s divisor (u32 d)) as (m' & Hr & Hb & Ho); [done|lia|done|apply u32_range|].
    pose proof (itoa_digits_length divisor (u32 d) Hdv (u32_range _)).
    exists m'. split_and!; [|done|done| |by apply Hnz].
    + eapply runs_bind; [reflexivity|]. exact Hr.
    + rewrite length_app, length_rev. cbn [length]. lia.
Qed.

(** The text of a number reads back as the number. *)
Lemma itoa_str_value base d :
  - 2147483648 <= d < 2147483648 ->
  parse_int (if base =? 120 then 16 else 10) (itoa_str base d) = if base =? 100 then d else u32 d.
Proof.
  intros Hd. unfold itoa_str. destruct (Z.eqb_spec base 100) as [->|Hb]; cbn [Z.eqb Pos.eqb andb].
  - destruct (Z.ltb_spec d 0) as [H|H].
    + cbn [parse_int]. rewrite u32_small by lia.
      pose proof (rev_digits_value 10 (- d) ltac:(lia) ltac:(lia)) as E.
      rewrite parse_int_digits in E; [lia|]. apply Forall_rev.
      eapply Forall_impl; [apply digits_no_sign; auto|]. cbn. tauto.
    + rewrite u32_small by lia. apply rev_digits_value; lia.
  - apply rev_digits_value; [destruct (base =? 120); lia|apply u32_range].
Qed.

Lemma c_string_bytes l fuel p s :
  bytes_at (mem s) p (l ++ [0]) -> Forall (fun c => c <> 0) l -> (length l < fuel)%nat ->
  runs (c_string fuel p) s l s.
Proof.
  revert p fuel. induction l as [|c l IH]; intros p fuel Hb Hl Hf; (destruct fuel as [|fuel]; [lia|]);
    cbn [c_string]; (eapply runs_bind; [apply runs_ld8|]); cbv beta;
    pose proof (Hb 0%nat _ eq_refl) as H0; rewrite Z.add_0_r in H0; rewrite H0.
  - reflexivity.
  - apply Forall_cons in Hl as [Hc Hl]. rewrite (proj2 (Z.eqb_neq c 0)) by done.
    eapply runs_bind; [|reflexivity]. apply IH; [|done|cbn in Hf; lia].
    intros i x Hi. replace (p + 1 + Z.of_nat i) with (p + Z.of_nat (S i)) by lia. by apply Hb.
Qed.

(** ** The text [printf] prints *)

Definition off_screen (p : Z) : bool :=
  negb ((VIDEO <=? phys p) && (phys p <? VIDEO + COLUMNS * LINES * 2)).

(** A string that ends within [fuel] bytes, none of them on the screen. *)
Fixpoint str_ok (fuel : nat) (m : gmap Z Z) (p : Z) : bool :=
  match fuel with
  | O => false
  | S f => off_screen p && ((load8 m p =? 0) || str_ok f m (p + 1))
  end.

(** The bytes before the first 0. *)
Fixpoint str_at (fuel : nat) (m : gmap Z Z) (p : Z) : list Z :=
  match fuel with
  | O => []
  | S f => if load8 m p =? 0 then [] else load8 m p :: str_at f m (p + 1)
  end.

Definition padded (pad0 : bool) (pad : Z) (l : list Z) : list Z :=
  replicate (Z.to_nat pad - length l) (if pad0 then 48 else 32) ++ l.

Definition arg_text (fuel : nat) (m : gmap Z Z) (pad0 : bool) (pad c arg : Z) : list Z :=
  if (c =? 100) || (c =? 117) || (c =? 120) then padded pad0 pad (itoa_str c (i32 arg))
  else if c =? 115 then padded pad0 pad (if u32 arg =? 0 then null_str else str_at fuel m (u32 arg))
  else [i32 arg].

Fixpoint text_from (n fuel : nat) (m : gmap Z Z) (fmt args : list Z) : list Z :=
  match n, fmt with
  | S n', c :: fmt' =>
      if negb (c =? 37) then c :: text_from n' fuel m fmt' args
      else
        let '(pad0, pad, c, rest) := parse_spec fmt' in
        match args with
        | [] => []
        | a :: args' => arg_text fuel m pad0 pad c a ++ text_from n' fuel m rest args'
        end
  | _, _ => []
  end.

Definition printf_text (fuel : nat) (m : gmap Z Z) (fmt args : list Z) : list Z :=
  text_from (S (length fmt)) fuel m fmt args.

(** A format whose conversions are complete and have their argument; the argument of %s is
    null or points to a string. *)
Fixpoint fmt_ok_from (n fuel : nat) (m : gmap Z Z) (fmt args : list Z) : bool :=
  match n with
  | O => false
  | S n' =>
      match fmt with
      | [] => true
      | c :: fmt' =>
          if negb (c =? 37) then fmt_ok_from n' fuel m fmt' args
          else
            let '(_, _, c, rest) := parse_spec fmt' in
            match args with
            | [] => false
            | a :: args' =>
                negb (c =? 0) && (negb (c =? 115) || (u32 a =? 0) || str_ok fuel m (u32 a)) &&
                fmt_ok_from n' fuel m rest args'
            end
      end
  end.

Definition fmt_ok (fuel : nat) (m : gmap Z Z) (fmt args : list Z) : bool :=
  fmt_ok_from (S (length fmt)) fuel m fmt args.

(** A computation that does what printing [l] does, as long as the memory off the screen is
    that of [m]. *)
Definition prints (m : gmap Z Z) (c : K unit) (l : list Z) : Prop :=
  forall s, con_ok (con s) -> screen_only m (mem s) -> c s = put_all l s.

Lemma put_all_app l1 l2 : put_all (l1 ++ l2) ≈ (put_all l1 ;;; put_all l2).
Proof.
  induction l1 as [|c l1 IH]; [by intros s|]. cbn [app put_all]. intros s. rewrite (bind_assoc _ _ _ s).
  apply bind_meq; [done|]. intros []. exact IH.
Qed.

Lemma prints_bind m c d l1 l2 : prints m c l1 -> prints m d l2 -> prints m (c ;;; d) (l1 ++ l2).
Proof.
  intros H1 H2 s Hg Hm. rewrite put_all_app. destruct (put_all_step l1 s Hg) as (m1 & g1 & Hr & Hg1 & Hm1).
  unfold bind. rewrite (H1 s Hg Hm), Hr. apply H2; [exact Hg1|by eapply screen_only_trans].
Qed.

Lemma prints_putchar m c : prints m (putchar c) [c].
Proof. intros s _ _. cbn [put_all]. unfold bind. by destruct (putchar c s) as [[[] ?]| | | |]. Qed.

(** The padding. *)
Lemma prints_pad m n i c : prints m (for_ n i (fun _ => putchar c)) (replicate n c).
Proof.
  revert i. induction n as [|n IH]; intros i; [by intros s|].
  apply (prints_bind m (putchar c) _ [c]); [apply prints_putchar|apply IH].
Qed.

Section Strings.
(** [rd] reads the string [l] at [p], whatever is on the screen. *)
Context (m : gmap Z Z) (rd : Z -> K Z).

Definition reads (p : Z) (l : list Z) : Prop :=
  Forall (fun c => c <> 0) l /\
  forall s i, screen_only m (mem s) -> (i <= length l)%nat -> runs (rd (p + Z.of_nat i)) s (nth i l 0) s.

Lemma reads_tail p c l : reads p (c :: l) -> reads (p + 1) l.
Proof.
  intros [Hl Hr]. apply Forall_cons in Hl as [_ Hl]. split; [exact Hl|]. intros s i Hs Hi.
  replace (p + 1 + Z.of_nat i) with (p + Z.of_nat (S i)) by lia. apply (Hr s (S i)); [done|cbn; lia].
Qed.

Lemma reads_head p l s : reads p l -> screen_only m (mem s) -> runs (rd p) s (nth 0 l 0) s.
Proof. intros [_ Hr] Hs. specialize (Hr s 0%nat Hs ltac:(lia)). by rewrite Z.add_0_r in Hr. Qed.

Lemma str_end_runs fuel p l s :
  reads p l -> screen_only m (mem s) -> (length l < fuel)%nat ->
  runs (str_end rd fuel p) s (p + Z.of_nat (length l)) s.
Proof.
  intros Hr Hs. revert p fuel Hr. induction l as [|c l IH]; intros p fuel Hr Hf; (destruct fuel as [|fuel]; [lia|]).
  - rewrite Z.add_0_r. apply loop_exit. eapply runs_bind; [by apply reads_head|]. reflexivity.
  - eapply loop_step.
    + eapply runs_bind; [by apply reads_head|]. cbv beta. cbn [nth].
      destruct Hr as [Hl _]. apply Forall_cons in Hl as [Hc _]. rewrite (proj2 (Z.eqb_neq c 0)) by done.
      reflexivity.
    + replace (p + Z.of_nat (length (c :: l))) with (p + 1 + Z.of_nat (length l)) by (cbn; lia).
      apply IH; [by eapply reads_tail|cbn in Hf; lia].
Qed.

Lemma put_str_prints fuel p l : reads p l -> (length l < fuel)%nat -> prints m (put_str rd fuel p) l.
Proof.
  revert p fuel. induction l as [|c l IH]; intros p fuel Hr Hf s Hg Hs; (destruct fuel as [|fuel]; [lia|]).
  - apply (loop_exit fuel _ p s tt s). eapply runs_bind; [by apply (reads_head p [])|]. reflexivity.
  - pose proof (reads_head p _ s Hr Hs) as Hc. destruct (putchar_step c s Hg) as (m1 & g1 & Hr1 & Hg1 & Hm1).
    assert (c <> 0) as Hc0 by (destruct Hr as [Hl _]; by apply Forall_cons in Hl as [? _]).
    transitivity (put_str rd fuel (p + 1) (set_mem m1 (set_con g1 s))).
    + unfold put_str. cbn [loop]. unfold bind at 1 2. unfold runs in Hc. rewrite Hc. cbn [nth].
      rewrite (proj2 (Z.eqb_neq c 0)) by done. unfold bind. by rewrite Hr1.
    + rewrite (IH (p + 1) fuel); [|by eapply reads_tail|cbn in Hf; lia|exact Hg1|by eapply screen_only_trans].
      cbn [put_all]. unfold bind. by rewrite Hr1.
Qed.

Lemma put_padded_prints fuel z pad p l :
  reads p l -> (length l < fuel)%nat -> prints m (put_padded rd fuel z pad p) (padded z pad l).
Proof.
  intros Hr Hf s Hg Hs. unfold put_padded, bind at 1. rewrite (str_end_runs fuel p l s Hr Hs Hf).
  replace (Z.to_nat (p + pad - (p + Z.of_nat (length l)))) with (Z.to_nat pad - length l)%nat by lia.
  apply (prints_bind m _ _ _ l); [apply prints_pad|by apply put_str_prints|exact Hg|exact Hs].
Qed.
End Strings.

Lemma off_screen_spec p : off_screen p = true -> ~ (VIDEO <= phys p < VIDEO + COLUMNS * LINES * 2).
Proof. unfold off_screen. lia. Qed.

(** A string of memory. *)
Lemma str_reads fuel m p :
  str_ok fuel m p = true -> reads m ld8 p (str_at fuel m p) /\ (length (str_at fuel m p) < fuel)%nat.
Proof.
  revert p. induction fuel as [|fuel IH]; intros p Hok; [done|]. cbn [str_ok str_at] in *.
  apply andb_prop in Hok as [Hp Hok]. apply off_screen_spec in Hp.
  destruct (Z.eqb_spec (load8 m p) 0) as [E|E].
  - split; [|cbn; lia]. split; [constructor|]. intros s i Hs Hi. assert (i = 0%nat) as -> by (cbn in Hi; lia).
    rewrite Z.add_0_r. cbn [nth]. rewrite <- E, <- (Hs p Hp). apply runs_ld8.
  - cbn [orb] in Hok. destruct (IH _ Hok) as [[Hl Hr] Hf]. split; [|cbn; lia].
    split; [by constructor|]. intros s i Hs Hi. destruct i as [|i].
    + rewrite Z.add_0_r. cbn [nth]. rewrite <- (Hs p Hp). apply runs_ld8.
    + replace (p + Z.of_nat (S i)) with (p + 1 + Z.of_nat i) by lia. apply Hr; [done|cbn in Hi; lia].
Qed.

(** A number in the local array. *)
Lemma number_prints m z pad c d :
  - 2147483648 <= d < 2147483648 ->
  prints m (buf <- in_local (itoa 0 c d) ;; put_padded (fun p => ret (load8 buf p)) 20 z pad 0)
    (padded z pad (itoa_str c d)).
Proof.
  intros Hd s Hg Hs. destruct (itoa_spec 0 c d (set_mem ∅ s)) as (m' & Hr & Hb & _ & Hl & Hz);
    [left; lia|exact Hd|].
  assert (runs (in_local (itoa 0 c d)) s m' s) as Hloc.
  { unfold runs, in_local. rewrite Hr. by destruct s. }
  unfold bind. rewrite Hloc. apply (put_padded_prints m); [|rewrite length_app in Hl; cbn in Hl; lia|done|done].
  split; [exact Hz|]. intros s1 i _ Hi. enough (load8 m' (0 + Z.of_nat i) = nth i (itoa_str c d) 0) as -> by done.
  apply Hb. destruct (decide (i < length (itoa_str c d))%nat) as [Hlt|Hge].
  - rewrite lookup_app_l by done. destruct (lookup_lt_is_Some_2 _ _ Hlt) as [x Hx].
    rewrite Hx. f_equal. symmetry. by rewrite nth_lookup, Hx.
  - assert (i = length (itoa_str c d)) as -> by lia. rewrite list_lookup_middle by done.
    by rewrite nth_overflow by lia.
Qed.

Lemma i32_range x : - 2147483648 <= i32 x < 2147483648.
Proof. unfold i32. pose proof (u32_range x). destruct (Z.ltb_spec (u32 x) 2147483648); lia. Qed.

Lemma print_arg_prints fuel m z pad c a :
  negb (c =? 115) || (u32 a =? 0) || str_ok fuel m (u32 a) = true ->
  prints m (print_arg fuel z pad c a) (arg_text fuel m z pad c a).
Proof.
  intros Hc. unfold print_arg, arg_text. destruct ((c =? 100) || (c =? 117) || (c =? 120)).
  { apply number_prints, i32_range. }
  destruct (c =? 115); [|apply prints_putchar]. cbn [negb orb] in Hc. cbv zeta.
  destruct (u32 a =? 0); [|by apply put_padded_prints; apply str_reads].
  apply put_padded_prints; [|cbn; lia]. split; [repeat constructor; done|].
  intros s i _ _. by rewrite Z.add_0_l, Nat2Z.id.
Qed.

Lemma printf_from_prints n fuel m fmt args :
  fmt_ok_from n fuel m fmt args = true -> prints m (printf_from n fuel fmt args) (text_from n fuel m fmt args).
Proof.
  revert fmt args. induction n as [|n IH]; intros fmt args Hok; [done|].
  cbn [fmt_ok_from printf_from text_from] in *.
  destruct fmt as [|c fmt]; [by intros s|]. destruct (negb (c =? 37)).
  - apply (prints_bind m _ _ [c]); [apply prints_putchar|auto].
  - destruct (parse_spec fmt) as [[[z pad] c'] rest]. destruct args as [|a args]; [done|].
    apply andb_prop in Hok as [Hok Hrest]. apply andb_prop in Hok as [Hc Ha].
    destruct (c' =? 0); [done|]. apply prints_bind; [by apply print_arg_prints|auto].
Qed.

(** A format without conversions is fine without arguments. *)
Lemma fmt_ok_plain fuel m l n :
  Forall (fun c => c <> 37) l -> (length l < n)%nat -> fmt_ok_from n fuel m l [] = true.
Proof.
  revert n. induction l as [|c l IH]; intros n Hl Hn; (destruct n as [|n]; [cbn in Hn; lia|]); [done|].
  apply Forall_cons in Hl as [Hc Hl]. cbn [fmt_ok_from]. rewrite (proj2 (Z.eqb_neq c 37)) by done.
  apply IH; [done|cbn in Hn; lia].
Qed.

Lemma printf_prints fuel fmt args s :
  fmt_ok fuel (mem s) fmt args = true -> con_ok (con s) ->
  exists m' g', let s' := set_mem m' (set_con g' s) in
    runs (printf fuel fmt args) s tt s' /\ runs (put_all (printf_text fuel (mem s) fmt args)) s tt s' /\
    con_ok g' /\ screen_only (mem s) m'.
Proof.
  intros Hf Hg. destruct (put_all_step (printf_text fuel (mem s) fmt args) s Hg) as (m' & g' & Hr & H).
  exists m', g'. split; [|split; [exact Hr|exact H]].
  unfold runs, printf. rewrite (printf_from_prints _ fuel (mem s) fmt args Hf s Hg); [exact Hr|by intros a].
Qed.

Lemma printf_step fuel fmt args s :
  fmt_ok fuel (mem s) fmt args = true -> con_ok (con s) ->
  exists m' g', runs (printf fuel fmt args) s tt (set_mem m' (set_con g' s)) /\ con_ok g' /\ screen_only (mem s) m'.
Proof. intros Hf Hg. destruct (printf_prints fuel fmt args s Hf Hg) as (m' & g' & Hr & _ & H). eauto. Qed.

Lemma printf_at_step fuel p l s :
  con_ok (con s) -> runs (c_string fuel p) s l s -> Forall (fun c => c <> 37) l ->
  exists m' g', runs (printf_at fuel p) s tt (set_mem m' (set_con g' s)) /\ con_ok g' /\
    screen_only (mem s) m'.
Proof.
  intros Hs Hr Hl. destruct (printf_step fuel l [] s (fmt_ok_plain _ _ l _ Hl (Nat.lt_succ_diag_r _)) Hs)
    as (m' & g' & Hr' & H). exists m', g'. split; [|exact H]. eapply runs_bind; [exact Hr|exact Hr'].
Qed.

(** ** Properties *)

(** C30: [printf] prints the text of its format and never leaves the screen. When every
    conversion is complete and has its argument, and the argument of every %s is null or
    points to a string that ends within [fuel] bytes and does not lie on the screen,
    [printf] returns; it does exactly what printing the characters of [printf_text] one
    after the other does (numbers by [itoa] in the local array, strings from memory, padding
    by the width); the cursor stays on the 80 by 24 screen, every byte written is one of the
    3840 bytes of video memory, and no other state changes. *)
Theorem printf_on_screen fuel fmt args s :
  fmt_ok fuel (mem s) fmt args = true -> con_ok (con s) ->
  exists m' g', let s' := set_mem m' (set_con g' s) in
    runs (printf fuel fmt args) s tt s' /\ runs (put_all (printf_text fuel (mem s) fmt args)) s tt s' /\
    con_ok g' /\ screen_only (mem s) m'.
Proof. apply printf_prints. Qed.

(** C31: reading back what [itoa] leaves in memory gives the number. On any buffer of 12
    bytes and any [int], [itoa] returns and writes only those 12 bytes; the C string at [buf]
    then ends within them and reads, in base 16 for 'x' and base 10 otherwise, as the signed
    number for 'd' and as its unsigned value otherwise. *)
Theorem itoa_roundtrip buf base d s :
  span buf 12 -> - 2147483648 <= d < 2147483648 ->
  exists m' l, let s' := set_mem m' s in
    runs (itoa buf base d) s tt s' /\ buf_only buf 12 (mem s) m' /\ runs (c_string 12 buf) s' l s' /\
    parse_int (if base =? 120 then 16 else 10) l = if base =? 100 then d else u32 d.
Proof.
  intros Hs Hd. destruct (itoa_spec buf base d s Hs Hd) as (m' & Hr & Hb & Ho & Hl & Hz).
  exists m', (itoa_str base d). split_and!; [exact Hr|exact Ho| |by apply itoa_str_value].
  apply c_string_bytes; [exact Hb|exact Hz|rewrite length_app in Hl; cbn in Hl; lia].
Qed.

(** The format "x=%05d %5s" followed by a newline, with -42 and the string "ab" at 0x100000. *)
Lemma printf_on_screen_witness :
  let s := set_mem (store32 ∅ 1048576 25185) (set_con (mk_ConG 79 23 VIDEO) zero_state) in
  let fmt := [120; 61; 37; 48; 53; 100; 32; 37; 53; 115; 10] in
  exists m' g', runs (printf 8 fmt [W32 - 42; 1048576]) s tt (set_mem m' (set_con g' s)) /\
    runs (put_all (str "x=00-42    ab" ++ [10])) s tt (set_mem m' (set_con g' s)) /\ con_ok g'.
Proof.
  intros s fmt. destruct (printf_on_screen 8 fmt [W32 - 42; 1048576] s) as (m' & g' & Hr & Ht & Hg & _).
  - vm_compute. reflexivity.
  - unfold con_ok, COLUMNS, LINES. cbn. lia.
  - exists m', g'. split; [exact Hr|split; [|exact Hg]]. exact Ht.
Defined.

Lemma itoa_roundtrip_witness :
  exists m' l, runs (itoa 1048576 100 (-307)) zero_state tt (set_mem m' zero_state) /\
    runs (c_string 12 1048576) (set_mem m' zero_state) l (set_mem m' zero_state) /\ parse_int 10 l = -307.
Proof.
  destruct (itoa_roundtrip 1048576 100 (-307) zero_state) as (m' & l & Hr & _ & Hs & Hv).
  - unfold span. lia.
  - lia.
  - exists m', l. split; [exact Hr|split; [exact Hs|exact Hv]].
Defined.
