(* ===== verification/Pic.v ===== *)
(** * interrupt/pic.c: the two 8259 interrupt controllers

    The controllers are devices: their state is what the port history determines. The
    mask register of a controller is the last byte written to its data port. *)

From Stdlib Require Import ZArith Lia ZifyBool.
From stdpp Require Import base numbers gmap list.
From S2P Require Import Prelude Memory Machine Bits AsmWrapper.

Definition kMPicCmd : Z := 32.
Definition kMPicData : Z := 33.
Definition kSPicCmd : Z := 160.
Definition kSPicData : Z := 161.
Definition kIrqSlave : Z := 2.
Definition kIcw1 : Z := 17.
Definition kMIcw2 : Z := 32.
Definition kSIcw2 : Z := kMIcw2 + 8.
Definition kMIcw3 : Z := i32 (shl32 1 kIrqSlave).
Definition kSIcw3 : Z := kIrqSlave.
Definition kIcw4 : Z := 1.
Definition kPicEoi : Z := 32.

Section Pic.
Context `{Platform}.

Definition PicInit : K unit :=
  outb kMPicCmd kIcw1 ;;;
  outb kMPicData kMIcw2 ;;;
  outb kMPicData kMIcw3 ;;;
  outb kMPicData kIcw4 ;;;
  outb kSPicCmd kIcw1 ;;;
  outb kSPicData kSIcw2 ;;;
  outb kSPicData kSIcw3 ;;;
  outb kSPicData kIcw4 ;;;
  outb kMPicCmd 32 ;;;
  outb kSPicCmd 32 ;;;
  outb kMPicCmd 72 ;;;
  outb kMPicCmd 10 ;;;
  outb kSPicCmd 72 ;;;
  outb kSPicCmd 10 ;;;
  outb kMPicData 251 ;;;
  outb kSPicData 255.

Definition SendEoi (intr_vec : Z) : K unit :=
  (if kSIcw2 <=? intr_vec then outb kSPicCmd kPicEoi else ret tt) ;;;
  outb kMPicCmd kPicEoi.

Definition EnableIrq (intr_vec : Z) : K unit :=
  if intr_vec <? kSIcw2 then
    imr <- inb kMPicData ;;
    outb kMPicData (u8 (Z.land imr (not32 (shl32 1 (intr_vec - kMIcw2)))))
  else
    imr <- inb kSPicData ;;
    outb kSPicData (u8 (Z.land imr (not32 (shl32 1 (intr_vec - kSIcw2))))).

Definition DisableIrq (intr_vec : Z) : K unit :=
  if intr_vec <? kSIcw2 then
    imr <- inb kMPicData ;;
    outb kMPicData (u8 (Z.lor imr (shl32 1 (intr_vec - kMIcw2))))
  else
    imr <- inb kSPicData ;;
    outb kSPicData (u8 (Z.lor imr (shl32 1 (intr_vec - kSIcw2)))).

Definition EnableAllIrqs : K unit :=
  outb kMPicData 0 ;;;
  outb kSPicData 0.
End Pic.

(** ** The controllers' view *)

(** The mask register behind data port [port]: the last byte written there. *)
Fixpoint imr (port : Z) (h : list IoEvent) : Z :=
  match h with
  | [] => 0
  | Outb p v :: h' => if p =? port then v else imr port h'
  | _ :: h' => imr port h'
  end.

Definition data_port (v : Z) : Z := if v <? kSIcw2 then kMPicData else kSPicData.

(** Is the interrupt line of vector [v] (32 to 47) masked? *)
Definition masked (v : Z) (h : list IoEvent) : bool := Z.testbit (imr (data_port v) h) (v mod 8).

Lemma vec_mod v : 32 <= v < 48 -> v mod 8 = if v <? 40 then v - 32 else v - 40.
Proof.
  intros Hv. destruct (Z.ltb_spec v 40).
  - symmetry. apply (Z.mod_unique_pos _ _ 4); lia.
  - symmetry. apply (Z.mod_unique_pos _ _ 5); lia.
Qed.

Lemma testbit_u8 x k : 0 <= k < 8 -> Z.testbit (u8 x) k = Z.testbit x k.
Proof. intros. unfold u8. change 256 with (2 ^ 8). apply Z.mod_pow2_bits_low. lia. Qed.

Section PicTheorems.
Context `{Platform}.

(** The 8259's documented behaviour: a read of a data port returns the mask register. *)
Context (Hdev : forall h port, port = kMPicData \/ port = kSPicData -> device h port = imr port h).

(** Reading the mask of [v], changing it with [f] and writing it back. *)
Lemma mask_rmw v f s :
  32 <= v < 48 ->
  exists h', runs (m <- inb (data_port v) ;; outb (data_port v) (u8 (f m))) s tt (set_io h' s) /\
    forall w, 32 <= w < 48 -> masked w h' =
      if data_port w =? data_port v then Z.testbit (f (u8 (imr (data_port v) (io s)))) (w mod 8)
      else masked w (io s).
Proof using Hdev.
  intros Hv. assert (u16 (data_port v) = data_port v) as Eu by (unfold data_port; by destruct (v <? kSIcw2)).
  set (d := u8 (device (io s) (u16 (data_port v)))).
  exists (Outb (u16 (data_port v)) (u8 (u8 (f d))) :: Inb (u16 (data_port v)) d :: io s). split.
  - reflexivity.
  - intros w Hw. unfold d. cbn [io set_io]. rewrite !Eu, Hdev by (unfold data_port; destruct (v <? kSIcw2); auto).
    unfold masked. cbn [imr]. rewrite (Z.eqb_sym (data_port w)).
    destruct (data_port v =? data_port w); [|done].
    pose proof (Z.mod_pos_bound w 8 ltac:(lia)). rewrite !testbit_u8 by done. done.
Qed.

Lemma EnableIrq_eq v :
  EnableIrq v = (m <- inb (data_port v) ;;
    outb (data_port v) (u8 (Z.land m (not32 (shl32 1 (if v <? kSIcw2 then v - 32 else v - 40)))))).
Proof. unfold EnableIrq, data_port. by destruct (v <? kSIcw2). Qed.

Lemma DisableIrq_eq v :
  DisableIrq v = (m <- inb (data_port v) ;;
    outb (data_port v) (u8 (Z.lor m (shl32 1 (if v <? kSIcw2 then v - 32 else v - 40))))).
Proof. unfold DisableIrq, data_port. by destruct (v <? kSIcw2). Qed.

(** Lines of the same controller are told apart by their number modulo 8. *)
Lemma same_line v w : 32 <= v < 48 -> 32 <= w < 48 -> data_port w = data_port v ->
  (v mod 8 =? w mod 8) = (v =? w).
Proof.
  intros Hv Hw. rewrite !vec_mod by done. unfold data_port, kSIcw2, kMIcw2, kMPicData, kSPicData.
  destruct (Z.ltb_spec v 40), (Z.ltb_spec w 40); destruct (Z.ltb_spec v (32 + 8)), (Z.ltb_spec w (32 + 8));
    intros; try lia.
Qed.

(** [EnableIrq] and [DisableIrq] unmask and mask exactly their own interrupt line,
    on the right controller, given that a data port reads back the mask register. *)
Theorem irq_mask v w s :
  32 <= v < 48 -> 32 <= w < 48 ->
  exists h1 h2, runs (EnableIrq v) s tt (set_io h1 s) /\ runs (DisableIrq v) s tt (set_io h2 s) /\
    masked w h1 = masked w (io s) && negb (v =? w) /\
    masked w h2 = masked w (io s) || (v =? w).
Proof using Hdev.
  intros Hv Hw. rewrite EnableIrq_eq, DisableIrq_eq.
  assert ((if v <? kSIcw2 then v - 32 else v - 40) = v mod 8) as -> by (by rewrite vec_mod).
  pose proof (Z.mod_pos_bound v 8 ltac:(lia)). pose proof (Z.mod_pos_bound w 8 ltac:(lia)).
  destruct (mask_rmw v (fun m => Z.land m (not32 (shl32 1 (v mod 8)))) s Hv) as (h1 & Hr1 & E1).
  destruct (mask_rmw v (fun m => Z.lor m (shl32 1 (v mod 8))) s Hv) as (h2 & Hr2 & E2).
  exists h1, h2. split_and!; [done|done|rewrite E1 by done|rewrite E2 by done].
  - destruct (Z.eqb_spec (data_port w) (data_port v)) as [E|E].
    + rewrite Z.land_spec, testbit_not32, shl32_1, Z.pow2_bits_eqb, testbit_u8 by lia.
      unfold masked. by rewrite same_line, E.
    + assert (v =? w = false) as ->; [apply Z.eqb_neq; congruence|]. by rewrite andb_true_r.
  - destruct (Z.eqb_spec (data_port w) (data_port v)) as [E|E].
    + rewrite Z.lor_spec, shl32_1, Z.pow2_bits_eqb, testbit_u8 by lia.
      unfold masked. by rewrite same_line, E.
    + assert (v =? w = false) as ->; [apply Z.eqb_neq; congruence|]. by rewrite orb_false_r.
Qed.

(** [PicInit] masks every interrupt line but line 2 of the master, to which the
    slave is connected, and vectors 32 and 40 are the controllers' bases. *)
Theorem pic_init_masks v s :
  32 <= v < 48 ->
  exists h', runs PicInit s tt (set_io (h' ++ io s) s) /\ masked v (h' ++ io s) = negb (v =? 34).
Proof using Type.
  intros Hv. exists [Outb 161 255; Outb 33 251; Outb 160 10; Outb 160 72; Outb 32 10; Outb 32 72;
    Outb 160 32; Outb 32 32; Outb 161 1; Outb 161 2; Outb 161 40; Outb 160 17;
    Outb 33 1; Outb 33 4; Outb 33 32; Outb 32 17]. split; [reflexivity|].
  unfold masked. rewrite vec_mod by done. unfold data_port, kSIcw2, kMIcw2.
  destruct (Z.ltb_spec v 40); destruct (Z.ltb_spec v (32 + 8)); try lia; cbn [app imr Z.eqb Pos.eqb kMPicData kSPicData].
  - assert (v = 32 \/ v = 33 \/ v = 34 \/ v = 35 \/ v = 36 \/ v = 37 \/ v = 38 \/ v = 39) as Hc by lia.
    destruct Hc as [->|[->|[->|[->|[->|[->|[->| ->]]]]]]]; reflexivity.
  - assert (v = 40 \/ v = 41 \/ v = 42 \/ v = 43 \/ v = 44 \/ v = 45 \/ v = 46 \/ v = 47) as Hc by lia.
    destruct Hc as [->|[->|[->|[->|[->|[->|[->| ->]]]]]]]; reflexivity.
Qed.
End PicTheorems.

(** A platform whose data ports read back what was written. *)
Definition pic_platform : Platform := {|
  K_END := 1572864;
  intr_vec := fun i => 1048576 + 16 * i;
  GdtLimit_fn := 1050000;
  RunIde_fn := 1060000;
  ThreadSwitch_ret := 1070000;
  device := fun h port => imr port h;
|}.

Lemma irq_mask_witness :
  exists h1 h2, runs (@EnableIrq pic_platform 46) zero_state tt (set_io h1 zero_state) /\
    runs (@DisableIrq pic_platform 46) zero_state tt (set_io h2 zero_state) /\
    masked 46 h1 = false /\ masked 46 h2 = true.
Proof.
  apply (@irq_mask pic_platform); [|lia|lia]. intros h port _. reflexivity.
Defined.

Lemma pic_init_masks_witness :
  exists h', runs PicInit zero_state tt (set_io (h' ++ []) zero_state) /\
    masked 33 (h' ++ []) = true.
Proof. apply (pic_init_masks 33 zero_state). lia. Defined.
