(* ===== verification/Segment.v ===== *)
(** * memory/segment.c: the global descriptor table

    [set_gdt_entry] scatters base, limit, access and flags over the eight bytes of a
    descriptor; [desc_base] and the others read them back the way the processor
    does. *)

From Stdlib Require Import ZArith Lia ZifyBool.
From stdpp Require Import base numbers gmap list.
From S2P Require Import Prelude Memory Machine Bits.

Definition kKCodeSeg : Z := 8.
Definition kKDataSeg : Z := 16.
Definition kUCodeSeg : Z := 27.
Definition kUDataSeg : Z := 35.
Definition kTssBaseAddr : Z := 3221348352.
Definition kGdtBaseAddr : Z := 3221225472.
Definition kGdtNum : Z := 6.
Definition kSegSize : Z := 4294967295.
Definition kDescriptorFlags : Z := 12.
Definition kSegBaseAddr : Z := 0.
Definition kSegPriority0 : Z := 9.
Definition kSegPriority3 : Z := 15.
Definition kSegTypeData : Z := 2.
Definition kSegTypeCode : Z := 10.
Definition sTssSize : Z := 103.
Definition kTssAccess : Z := 137.
Definition kTssFlags : Z := 1.

Definition Access (priority type : Z) : Z := i32 (Z.lor (shl32 priority 4) (u32 type)).

(** The offset of the last byte of the table. *)
Definition GdtLimit : Z := i32 (shl32 kGdtNum 3) - 1.

(** [SegDescriptor]: limit_0_15 at 0, base_addr_0_15 at 2, base_addr_16_23 at 4, access
    at 5, limit_16_19 in the low and flags in the high half of the byte at 6,
    base_addr_24_31 at 7. *)
Definition set_gdt_entry (seg_descriptor base_addr limit access flags : Z) : K unit :=
  st16 seg_descriptor limit ;;;
  b <- ld8 (seg_descriptor + 6) ;;
  st8 (seg_descriptor + 6) (Z.lor (Z.land b 240) (Z.land (shr32 limit 16) 15)) ;;;
  st16 (seg_descriptor + 2) base_addr ;;;
  st8 (seg_descriptor + 4) (shr32 base_addr 16) ;;;
  st8 (seg_descriptor + 7) (shr32 base_addr 24) ;;;
  st8 (seg_descriptor + 5) access ;;;
  b' <- ld8 (seg_descriptor + 6) ;;
  st8 (seg_descriptor + 6) (Z.lor (Z.land b' 15) (Z.shiftl (Z.land flags 15) 4)).

Section WithPlatform.
Context `{Platform}.

(** [gdtr.limit = (uint16_t) GdtLimit]: the function's address, not its value. *)
Definition GdtInit : K unit :=
  let gdt i := kGdtBaseAddr + 8 * i in
  set_gdt_entry (gdt 0) 0 0 0 0 ;;;
  set_gdt_entry (gdt 1) kSegBaseAddr kSegSize (Access kSegPriority0 kSegTypeCode) kDescriptorFlags ;;;
  set_gdt_entry (gdt 2) kSegBaseAddr kSegSize (Access kSegPriority0 kSegTypeData) kDescriptorFlags ;;;
  set_gdt_entry (gdt 3) kSegBaseAddr kSegSize (Access kSegPriority3 kSegTypeCode) kDescriptorFlags ;;;
  set_gdt_entry (gdt 4) kSegBaseAddr kSegSize (Access kSegPriority3 kSegTypeData) kDescriptorFlags ;;;
  set_gdt_entry (gdt 5) kTssBaseAddr sTssSize kTssAccess kTssFlags ;;;
  modify (fun s => set_cpu (set_gdtr (u16 GdtLimit_fn, kGdtBaseAddr) (cpu s)) s) ;;;
  modify (fun s => set_cpu (set_gs kKDataSeg (set_fs kKDataSeg (set_ss kKDataSeg
    (set_es kKDataSeg (set_ds kKDataSeg (cpu s)))))) s).
End WithPlatform.

(** ** How the processor reads a descriptor *)

Definition desc_base (m : gmap Z Z) (a : Z) : Z :=
  load16 m (a + 2) + 65536 * load8 m (a + 4) + 16777216 * load8 m (a + 7).
Definition desc_limit (m : gmap Z Z) (a : Z) : Z :=
  load16 m a + 65536 * (load8 m (a + 6) mod 16).
Definition desc_access (m : gmap Z Z) (a : Z) : Z := load8 m (a + 5).
Definition desc_flags (m : gmap Z Z) (a : Z) : Z := load8 m (a + 6) / 16.

(** The eight bytes of an entry. *)
Definition entry_bytes (base limit access flags : Z) : list Z :=
  [u8 limit; u8 (limit / 256); u8 base; u8 (base / 256); u8 (base / 65536); u8 access;
   (limit / 65536) mod 16 + 16 * (flags mod 16); u8 (base / 16777216)].

Lemma shr32_div x k : 0 <= x < W32 -> 0 <= k -> shr32 x k = x / 2 ^ k.
Proof. intros. unfold shr32. rewrite u32_small by done. by apply Z.shiftr_div_pow2. Qed.

Lemma land_15 x : Z.land x 15 = x mod 16.
Proof. change 15 with (Z.ones 4). by rewrite Z.land_ones. Qed.

(** The byte at offset 6, from whatever it held before. *)
Lemma byte6 b hi lo :
  Z.lor (Z.land (u8 (Z.lor (Z.land b 240) (Z.land lo 15))) 15) (Z.shiftl (Z.land hi 15) 4) =
  lo mod 16 + 16 * (hi mod 16).
Proof.
  rewrite (land_15 hi). pose proof (Z.mod_pos_bound lo 16 ltac:(lia)). pose proof (Z.mod_pos_bound hi 16 ltac:(lia)).
  assert (Z.land (u8 (Z.lor (Z.land b 240) (Z.land lo 15))) 15 = lo mod 16) as ->.
  { rewrite <- land_15. apply Z.bits_inj'. intros k Hk. rewrite !Z.land_spec.
    change 15 with (Z.ones 4). destruct (Z.lt_ge_cases k 4).
    - rewrite Z.ones_spec_low by lia. rewrite !andb_true_r. unfold u8. change 256 with (2 ^ 8).
      rewrite Z.mod_pow2_bits_low by lia. rewrite Z.lor_spec, !Z.land_spec, Z.ones_spec_low by lia.
      rewrite andb_true_r. assert (Z.testbit 240 k = false) as ->; [|by rewrite andb_false_r].
      assert (k = 0 \/ k = 1 \/ k = 2 \/ k = 3) as Hc by lia. by destruct Hc as [->|[->|[->| ->]]].
    - rewrite Z.ones_spec_high by lia. by rewrite !andb_false_r. }
  change 16 with (2 ^ 4) in *. apply lor_shiftl; lia.
Qed.

(** The memory after an entry is written, as byte stores at offsets of the entry. *)
Definition entry_mem (m : gmap Z Z) (a base limit access flags : Z) : gmap Z Z :=
  let m1 := store8 (store8 m (a + 0) limit) (a + 1) (limit / 256) in
  let m2 := store8 m1 (a + 6) (Z.lor (Z.land (load8 m1 (a + 6)) 240) (Z.land (shr32 limit 16) 15)) in
  let m3 := store8 (store8 m2 (a + 2) base) (a + 3) (base / 256) in
  let m4 := store8 m3 (a + 4) (shr32 base 16) in
  let m5 := store8 m4 (a + 7) (shr32 base 24) in
  let m6 := store8 m5 (a + 5) access in
  store8 m6 (a + 6) (Z.lor (Z.land (load8 m6 (a + 6)) 15) (Z.shiftl (Z.land flags 15) 4)).

Lemma set_gdt_entry_mem s a base limit access flags :
  runs (set_gdt_entry a base limit access flags) s tt
    (set_mem (entry_mem (mem s) a base limit access flags) s).
Proof.
  unfold entry_mem. rewrite Z.add_0_r. replace (a + 3) with (a + 2 + 1) by lia. reflexivity.
Qed.

(** Writing an entry leaves exactly its eight bytes. *)
Lemma entry_mem_bytes m a base limit access flags :
  span a 8 -> 0 <= base < W32 -> 0 <= limit < W32 ->
  forall i x, entry_bytes base limit access flags !! i = Some x ->
    load8 (entry_mem m a base limit access flags) (a + Z.of_nat i) = x.
Proof.
  intros Hs Hb Hl i x Hi. pose proof (Z.mod_pos_bound (limit / 65536) 16 ltac:(lia)).
  pose proof (Z.mod_pos_bound flags 16 ltac:(lia)).
  assert (i < 8)%nat as Hlt by (apply lookup_lt_Some in Hi; exact Hi).
  unfold entry_mem. rewrite (shr32_div limit 16), (shr32_div base 16), (shr32_div base 24) by lia.
  do 8 (destruct i as [|i]; [injection Hi as <-;
    match goal with |- context [a + Z.of_nat ?k] => let z := eval cbv in (Z.of_nat k) in change (Z.of_nat k) with z end;
    repeat rewrite (load8_store8_at _ a 8) by (done || lia); cbn [Z.eqb Pos.eqb];
    rewrite ?byte6; try reflexivity; apply u8_small; lia|]).
  lia.
Qed.

Lemma entry_mem_frame m a base limit access flags b :
  (forall i, 0 <= i < 8 -> phys (a + i) <> phys b) ->
  load8 (entry_mem m a base limit access flags) b = load8 m b.
Proof. intros Hb. unfold entry_mem. repeat rewrite load8_store8_ne by (apply Hb; lia). done. Qed.

(** An entry elsewhere in the same span is not touched. *)
Lemma entry_mem_other m a base limit access flags n i j :
  span a n -> 0 <= i -> i + 8 <= n -> 0 <= j < n -> (j < i \/ i + 8 <= j) ->
  load8 (entry_mem m (a + i) base limit access flags) (a + j) = load8 m (a + j).
Proof.
  intros Hs Hi Hn Hj Hd. apply entry_mem_frame. intros k Hk E. rewrite <- Z.add_assoc in E.
  apply (phys_inj a n) in E; [lia|done|lia|lia].
Qed.

(** What the processor sees in an entry with these bytes. *)
Lemma desc_of_bytes m a base limit access flags :
  0 <= base < W32 -> 0 <= limit < W32 ->
  (forall i x, entry_bytes base limit access flags !! i = Some x -> load8 m (a + Z.of_nat i) = x) ->
  desc_base m a = base /\ desc_limit m a = limit mod 1048576 /\ desc_access m a = u8 access /\
  desc_flags m a = flags mod 16.
Proof.
  intros Hb Hl Hby. pose proof (Z.mod_pos_bound (limit / 65536) 16 ltac:(lia)) as H1.
  pose proof (Z.mod_pos_bound flags 16 ltac:(lia)) as H2.
  pose proof (Hby 0%nat _ eq_refl) as B0. pose proof (Hby 1%nat _ eq_refl) as B1.
  pose proof (Hby 2%nat _ eq_refl) as B2. pose proof (Hby 3%nat _ eq_refl) as B3.
  pose proof (Hby 4%nat _ eq_refl) as B4. pose proof (Hby 5%nat _ eq_refl) as B5.
  pose proof (Hby 6%nat _ eq_refl) as B6. pose proof (Hby 7%nat _ eq_refl) as B7.
  change (Z.of_nat 0) with 0 in B0. change (Z.of_nat 1) with 1 in B1. change (Z.of_nat 2) with 2 in B2.
  change (Z.of_nat 3) with 3 in B3. change (Z.of_nat 4) with 4 in B4. change (Z.of_nat 5) with 5 in B5.
  change (Z.of_nat 6) with 6 in B6. change (Z.of_nat 7) with 7 in B7. rewrite Z.add_0_r in B0.
  unfold desc_base, desc_limit, desc_access, desc_flags. rewrite !load16_bytes, <- !Z.add_assoc.
  change (2 + 1) with 3. rewrite B0, B1, B2, B3, B4, B5, B6, B7. unfold u8.
  split_and!; [|  |done|].
  - clear - Hb. Z.div_mod_to_equations. lia.
  - rewrite (Z.mul_comm 16), Z.mod_add, (Z.mod_small ((limit / 65536) mod 16)) by lia.
    clear - Hl. Z.div_mod_to_equations. lia.
  - rewrite (Z.mul_comm 16), Z.div_add by lia. rewrite Z.div_small by lia. lia.
Qed.

(** ** The table *)

(** An entry as (base, limit, access, flags), and the six entries of the table. *)
Definition gdt_table : list (Z * Z * Z * Z) :=
  [(0, 0, 0, 0);
   (0, 4294967295, 154, 12);   (* kernel code: present, ring 0, execute/read *)
   (0, 4294967295, 146, 12);   (* kernel data: present, ring 0, read/write *)
   (0, 4294967295, 250, 12);   (* user code: present, ring 3 *)
   (0, 4294967295, 242, 12);   (* user data: present, ring 3 *)
   (3221348352, 103, 137, 1)]. (* the TSS *)

Fixpoint table_mem (m : gmap Z Z) (a i : Z) (l : list (Z * Z * Z * Z)) : gmap Z Z :=
  match l with
  | [] => m
  | (b, lim, acc, fl) :: l' => table_mem (entry_mem m (a + 8 * i) b lim acc fl) a (i + 1) l'
  end.

Lemma table_mem_below m a n i l j :
  span a n -> 0 <= i -> 8 * (i + Z.of_nat (length l)) <= n -> 0 <= j < 8 * i ->
  load8 (table_mem m a i l) (a + j) = load8 m (a + j).
Proof.
  intros Hs. revert m i. induction l as [|[[[b lim] acc] fl] l IH]; intros m i Hi Hn Hj; [done|].
  cbn [table_mem length] in *. rewrite IH by lia. apply (entry_mem_other _ _ _ _ _ _ n); done || lia.
Qed.

Lemma table_mem_entry m a n i l k b lim acc fl :
  span a n -> 0 <= i -> 8 * (i + Z.of_nat (length l)) <= n ->
  l !! k = Some (b, lim, acc, fl) -> 0 <= b < W32 -> 0 <= lim < W32 ->
  forall j x, entry_bytes b lim acc fl !! j = Some x ->
    load8 (table_mem m a i l) (a + 8 * (i + Z.of_nat k) + Z.of_nat j) = x.
Proof.
  intros Hs. revert m i k. induction l as [|[[[b' lim'] acc'] fl'] l IH]; intros m i k Hi Hn Hk Hb Hl j x Hj;
    [done|]. cbn [table_mem length] in *. assert (j < 8)%nat as Hj8 by (apply lookup_lt_Some in Hj; exact Hj).
  destruct k as [|k]; simpl in Hk.
  - injection Hk as -> -> -> ->. rewrite Z.add_0_r, <- Z.add_assoc.
    rewrite (table_mem_below _ a n) by (done || lia). rewrite Z.add_assoc.
    apply entry_mem_bytes; [unfold span in *; lia|done|done|done].
  - replace (i + Z.of_nat (S k)) with (i + 1 + Z.of_nat k) by lia.
    apply IH; [lia|lia|done|done|done|done].
Qed.

(** ** Properties *)

(** A descriptor decodes to what was encoded: the processor reads back the base,
    the low 20 bits of the limit, the access byte and the four flag bits, and no byte
    outside the descriptor changes. *)
Theorem gdt_entry_roundtrip s a base limit access flags :
  span a 8 -> 0 <= base < W32 -> 0 <= limit < W32 ->
  exists m', runs (set_gdt_entry a base limit access flags) s tt (set_mem m' s) /\
    desc_base m' a = base /\ desc_limit m' a = limit mod 1048576 /\
    desc_access m' a = u8 access /\ desc_flags m' a = flags mod 16 /\
    (forall b, (forall i, 0 <= i < 8 -> phys (a + i) <> phys b) -> load8 m' b = load8 (mem s) b).
Proof.
  intros Hs Hb Hl. exists (entry_mem (mem s) a base limit access flags).
  split; [apply set_gdt_entry_mem|].
  destruct (desc_of_bytes (entry_mem (mem s) a base limit access flags) a base limit access flags Hb Hl)
    as (E1 & E2 & E3 & E4); [by apply entry_mem_bytes|].
  split_and!; [done..|]. intros b. apply entry_mem_frame.
Qed.

Lemma GdtInit_table `{Platform} s :
  exists s', runs GdtInit s tt s' /\
    (forall i b lim acc fl, gdt_table !! i = Some (b, lim, acc, fl) ->
       let a := kGdtBaseAddr + 8 * Z.of_nat i in
       desc_base (mem s') a = b /\ desc_limit (mem s') a = lim mod 1048576 /\
       desc_access (mem s') a = acc /\ desc_flags (mem s') a = fl) /\
    ds (cpu s') = 16 /\ es (cpu s') = 16 /\ fs (cpu s') = 16 /\ gs (cpu s') = 16 /\ ss (cpu s') = 16 /\
    gdtr (cpu s') = (u16 GdtLimit_fn, 3221225472) /\ GdtLimit = 47.
Proof.
  eexists. split; [|split].
  - unfold GdtInit. do 6 (eapply runs_bind; [apply set_gdt_entry_mem|]; cbv beta).
    eapply runs_bind; reflexivity.
  - intros i b lim acc fl Hi a. cbn [mem set_mem set_cpu].
    assert (0 <= b < W32 /\ 0 <= lim < W32 /\ 0 <= acc < 256 /\ 0 <= fl < 16) as (Hb & Hl & Ha & Hf).
    { unfold gdt_table in Hi. do 6 (destruct i as [|i]; [injection Hi as <- <- <- <-; lia|]). done. }
    destruct (desc_of_bytes (table_mem (mem s) kGdtBaseAddr 0 gdt_table) a b lim acc fl Hb Hl)
      as (E1 & E2 & E3 & E4).
    + intros j x Hj. apply (table_mem_entry _ _ 48 0 gdt_table i b lim acc fl); try done.
      right. unfold kGdtBaseAddr. lia.
    + rewrite u8_small in E3 by done. rewrite Z.mod_small in E4 by done.
      split_and!; [exact E1|exact E2|exact E3|exact E4].
  - cbn. done.
Qed.

(** C32: after [GdtInit] the table at [0xc0000000] holds the null descriptor, the four flat
    4 GB segments (limit [0xfffff] in 4 KB units) with ring 0 and ring 3 code and
    data, and the TSS; the data segment registers select the kernel data segment. The
    limit loaded into GDTR is the low half of the address of the function [GdtLimit], not
    the value 47 that the function would return. The flags are [0xc] (4 KB units, 32 bit) and the
    table has six descriptors, where the comments of the source say [0x3] and five. *)
Theorem gdt_init `{Platform} s :
  exists s', runs GdtInit s tt s' /\
    (forall i b lim acc fl, gdt_table !! i = Some (b, lim, acc, fl) ->
       let a := kGdtBaseAddr + 8 * Z.of_nat i in
       desc_base (mem s') a = b /\ desc_limit (mem s') a = lim mod 1048576 /\
       desc_access (mem s') a = acc /\ desc_flags (mem s') a = fl) /\
    ds (cpu s') = 16 /\ es (cpu s') = 16 /\ fs (cpu s') = 16 /\ gs (cpu s') = 16 /\ ss (cpu s') = 16 /\
    gdtr (cpu s') = (u16 GdtLimit_fn, 3221225472) /\ GdtLimit = 47.
Proof. apply GdtInit_table. Qed.

Lemma gdt_entry_roundtrip_witness :
  exists m', runs (set_gdt_entry 3221225480 305419896 4294967295 154 12) zero_state tt (set_mem m' zero_state) /\
    desc_base m' 3221225480 = 305419896 /\ desc_limit m' 3221225480 = 1048575.
Proof.
  destruct (gdt_entry_roundtrip zero_state 3221225480 305419896 4294967295 154 12)
    as (m' & Hr & H1 & H2 & _).
  - right. lia.
  - lia.
  - lia.
  - exists m'. split; [exact Hr|]. split; [exact H1|exact H2].
Defined.
