(* ===== verification/Interrupt.v ===== *)
(** * interrupt/idt.c and interrupt/interrupt.c: gates and handlers

    The interrupt descriptor table is in memory at [0xc001f000]; gate [i] is offset_0_15
    at [8i], seg_sel at [8i+2], type at [8i+4], offset_16_31 at [8i+6]. The table of
    handlers and the bitmap of used vectors are globals of interrupt.c. The dispatcher
    [IntrHandlerSel], which calls into the drivers, is in Kernel.v. *)

From Stdlib Require Import ZArith Lia ZifyBool.
From stdpp Require Import base numbers gmap strings list.
From S2P Require Import Prelude Memory Machine Bits AsmWrapper Pic Segment Console.

Definition kIdtEntryNum : Z := 256.
Definition kIdtExcNum : Z := 32.
Definition kIdtBaseAddr : Z := 3221352448.
Definition kIdtExcType : Z := 3584.
Definition kIdtIntrType : Z := 3584.
Definition kIdtTrapType : Z := 28416.
Definition kIdtSyscallNum : Z := 128.
Definition kTssSel : Z := 40.
Definition IdtLimit : Z := i32 (shl32 kIdtEntryNum 3 - 1).

Definition kPfVec : Z := 14.
Definition kTimerVec : Z := 32.
Definition kKeyboardVec : Z := 33.
Definition kIdeVec : Z := 46.
Definition kSyscallVec : Z := 128.

(** [&idt[i]] *)
Definition gate (i : Z) : Z := kIdtBaseAddr + 8 * i.

Definition EnableIdt (intr_vec_no : Z) : K unit :=
  t <- ld16 (gate intr_vec_no + 4) ;;
  st16 (gate intr_vec_no + 4) (Z.lor t 32768).

Definition DisableIdt (intr_vec_no : Z) : K unit :=
  t <- ld16 (gate intr_vec_no + 4) ;;
  st16 (gate intr_vec_no + 4) (Z.land t 32767).

(** Registration. [intr_handler[i] = NULL] deletes the entry. *)
Definition RegIntrHandler (intr_vec_no : Z) (handler : handler_id) : K bool :=
  used <- gets (fun s => IsBitmapSet (IntrVecMap (intr s)) intr_vec_no) ;;
  if used then ret false
  else
    modify (fun s => set_intr (set_IntrVecMap (SetBitmap (IntrVecMap (intr s)) intr_vec_no) (intr s)) s) ;;;
    modify (fun s => set_intr (set_intr_handler (<[intr_vec_no := handler]> (intr_handler (intr s))) (intr s)) s) ;;;
    EnableIdt intr_vec_no ;;;
    ret true.

Definition RemoveIntrHandler (intr_vec_no : Z) : K unit :=
  DisableIdt intr_vec_no ;;;
  modify (fun s => set_intr (set_intr_handler (delete intr_vec_no (intr_handler (intr s))) (intr s)) s) ;;;
  modify (fun s => set_intr (set_IntrVecMap (ClearBitmap (IntrVecMap (intr s)) intr_vec_no) (intr s)) s).

Section WithPlatform.
Context `{Platform}.

Definition SetIdtEntry (intr_vec_no seg_sel type : Z) : K unit :=
  st16 (gate intr_vec_no) (intr_vec intr_vec_no) ;;;
  st16 (gate intr_vec_no + 6) (shr32 (intr_vec intr_vec_no) 16) ;;;
  st16 (gate intr_vec_no + 2) seg_sel ;;;
  st16 (gate intr_vec_no + 4) type.

(** [tss->ss0] is at offset 8. *)
Definition IdtInit : K unit :=
  modify (fun s => set_cpu (set_idtr (u16 IdtLimit, kIdtBaseAddr) (cpu s)) s) ;;;
  modify (fun s => set_tss kTssBaseAddr s) ;;;
  t <- gets tss ;;
  st32 (t + 8) kKCodeSeg ;;;
  for_ (Z.to_nat kIdtExcNum) 0 (fun i => SetIdtEntry i kKCodeSeg kIdtExcType) ;;;
  for_ (Z.to_nat (kIdtEntryNum - kIdtExcNum)) kIdtExcNum (fun i => SetIdtEntry i kKCodeSeg kIdtIntrType) ;;;
  SetIdtEntry kIdtSyscallNum kUCodeSeg kIdtTrapType ;;;
  modify (fun s => set_cpu (set_tr kTssSel (cpu s)) s).

(** [IntrReg]: four 16-bit segment registers, the eight registers of pushal, then
    [intr_vec_no] at offset 40, [err_code] 44, [eip] 48, [cs] 52, [eflags] 56. *)
Definition intr_reg_vec (intr_reg : Z) : Z := intr_reg + 40.
Definition intr_reg_err (intr_reg : Z) : Z := intr_reg + 44.
Definition intr_reg_eax (intr_reg : Z) : Z := intr_reg + 36.

Definition exc_msg : list Z := str "handling interrupt ".

Definition ExcHandler (intr_reg : Z) : K unit :=
  intr_vec_no <- ld32 (intr_reg_vec intr_reg) ;;
  printf 32 exc_msg [] ;;;
  itoa 1048576 100 (i32 intr_vec_no) ;;;
  printf_at 32 1048576 ;;;
  printf 32 [10] [] ;;;
  v <- ld32 (intr_reg_vec intr_reg) ;;
  SendEoi (i32 v).

Definition IntrInit : K unit :=
  IdtInit ;;;
  PicInit ;;;
  modify (fun s => set_intr (set_IntrVecMap (Bitmap (IntrVecMap (intr s)) 8 false) (intr s)) s) ;;;
  for_ (Z.to_nat kIdtExcNum) 0 (fun i => RegIntrHandler i ExcHandlerId ;;; ret tt) ;;;
  RemoveIntrHandler kPfVec ;;;
  RegIntrHandler kPfVec PfHandlerId ;;;
  ret tt.
End WithPlatform.

(** ** Gates in memory *)

Definition gate_type (m : gmap Z Z) (i : Z) : Z := load16 m (gate i + 4).
Definition gate_sel (m : gmap Z Z) (i : Z) : Z := load16 m (gate i + 2).
Definition gate_offset (m : gmap Z Z) (i : Z) : Z :=
  load16 m (gate i + 0) + 65536 * load16 m (gate i + 6).
Definition gate_present (m : gmap Z Z) (i : Z) : bool := Z.testbit (gate_type m i) 15.

Lemma load16_store16_same m a v : kspan a 2 -> load16 (store16 m a v) a = u16 v.
Proof. intros. apply (load_store_same 2). by apply kspan_span. Qed.

Lemma load16_store16_ne m a b v :
  kspan a 2 -> kspan b 2 -> apart a 2 b 2 -> load16 (store16 m a v) b = load16 m b.
Proof. apply (load_store_ne 2 2). Qed.

Lemma gate_kspan i k : 0 <= i < 256 -> 0 <= k -> k + 2 <= 8 -> kspan (gate i + k) 2.
Proof. unfold kspan, gate, kIdtBaseAddr. lia. Qed.

Lemma load16_range m a : 0 <= load16 m a < 65536.
Proof. pose proof (load_range 2 m a) as H. exact H. Qed.

(** A 16-bit write in gate [i] and a 16-bit read in gate [j]. *)
Lemma gate_rw m i k v j l :
  0 <= i < 256 -> 0 <= j < 256 -> (k = 0 \/ k = 2 \/ k = 4 \/ k = 6) -> (l = 0 \/ l = 2 \/ l = 4 \/ l = 6) ->
  load16 (store16 m (gate i + k) v) (gate j + l) =
    if (i =? j) && (k =? l) then u16 v else load16 m (gate j + l).
Proof.
  intros Hi Hj Hk Hl. destruct (Z.eqb_spec i j) as [->|Hne]; cbn [andb].
  - destruct (Z.eqb_spec k l) as [->|Hkl].
    + apply load16_store16_same, gate_kspan; lia.
    + apply load16_store16_ne; [apply gate_kspan; lia|apply gate_kspan; lia|]. unfold apart. lia.
  - apply load16_store16_ne; [apply gate_kspan; lia|apply gate_kspan; lia|]. unfold apart, gate. lia.
Qed.

Lemma EnableIdt_runs i s :
  0 <= i < 256 ->
  exists m', runs (EnableIdt i) s tt (set_mem m' s) /\
    forall j, 0 <= j < 256 ->
      gate_type m' j = (if i =? j then Z.lor (gate_type (mem s) j) 32768 else gate_type (mem s) j) /\
      gate_sel m' j = gate_sel (mem s) j /\ gate_offset m' j = gate_offset (mem s) j.
Proof.
  intros Hi. exists (store16 (mem s) (gate i + 4) (Z.lor (gate_type (mem s) i) 32768)).
  split; [reflexivity|]. intros j Hj. unfold gate_type, gate_sel, gate_offset.
  rewrite !gate_rw by lia. change (4 =? 4) with true. change (4 =? 2) with false.
  change (4 =? 0) with false. change (4 =? 6) with false. rewrite ?andb_true_r, ?andb_false_r.
  split_and!; [|done|done]. destruct (Z.eqb_spec i j) as [->|]; [|done].
  apply u16_small. pose proof (load16_range (mem s) (gate j + 4)).
  split; [apply Z.lor_nonneg; lia|]. change 65536 with (2 ^ 16).
  apply Z.log2_lt_cancel. rewrite Z.log2_lor, Z.log2_pow2 by lia.
  apply Z.max_lub_lt; [|reflexivity].
  destruct (Z.eq_dec (load16 (mem s) (gate j + 4)) 0) as [->|]; [done|]. apply Z.log2_lt_pow2; lia.
Qed.

Lemma DisableIdt_runs i s :
  0 <= i < 256 ->
  exists m', runs (DisableIdt i) s tt (set_mem m' s) /\
    forall j, 0 <= j < 256 ->
      gate_type m' j = (if i =? j then Z.land (gate_type (mem s) j) 32767 else gate_type (mem s) j) /\
      gate_sel m' j = gate_sel (mem s) j /\ gate_offset m' j = gate_offset (mem s) j.
Proof.
  intros Hi. exists (store16 (mem s) (gate i + 4) (Z.land (gate_type (mem s) i) 32767)).
  split; [reflexivity|]. intros j Hj. unfold gate_type, gate_sel, gate_offset.
  rewrite !gate_rw by lia. change (4 =? 4) with true. change (4 =? 2) with false.
  change (4 =? 0) with false. change (4 =? 6) with false. rewrite ?andb_true_r, ?andb_false_r.
  split_and!; [|done|done]. destruct (Z.eqb_spec i j) as [->|]; [|done].
  apply u16_small. change 32767 with (Z.ones 15). rewrite Z.land_ones by lia.
  pose proof (Z.mod_pos_bound (load16 (mem s) (gate j + 4)) (2 ^ 15) ltac:(lia)). lia.
Qed.

Lemma present_lor t : Z.testbit (Z.lor t 32768) 15 = true.
Proof. rewrite Z.lor_spec. apply orb_true_r. Qed.

Lemma present_land t : Z.testbit (Z.land t 32767) 15 = false.
Proof. rewrite Z.land_spec. apply andb_false_r. Qed.

(** ** The invariant: a gate is present exactly when its vector has a handler *)

Definition gates_ok (m : gmap Z Z) (hs : gmap Z handler_id) : Prop :=
  forall i, 0 <= i < 256 -> gate_present m i = bool_decide (is_Some (hs !! i)).

Definition intr_inv (s : kstate) : Prop := gates_ok (mem s) (intr_handler (intr s)).

Lemma gates_ok_enable m m' hs i h :
  gates_ok m hs ->
  (forall j, 0 <= j < 256 -> gate_type m' j = (if i =? j then Z.lor (gate_type m j) 32768 else gate_type m j)) ->
  gates_ok m' (<[i := h]> hs).
Proof.
  intros Hg Hm j Hj. unfold gate_present. rewrite Hm by done.
  destruct (Z.eqb_spec i j) as [->|Hne].
  - rewrite present_lor, lookup_insert_eq. by rewrite bool_decide_eq_true_2.
  - rewrite lookup_insert_ne by done. by apply Hg.
Qed.

Lemma gates_ok_disable m m' hs i :
  gates_ok m hs ->
  (forall j, 0 <= j < 256 -> gate_type m' j = (if i =? j then Z.land (gate_type m j) 32767 else gate_type m j)) ->
  gates_ok m' (delete i hs).
Proof.
  intros Hg Hm j Hj. unfold gate_present. rewrite Hm by done.
  destruct (Z.eqb_spec i j) as [->|Hne].
  - rewrite present_land, lookup_delete_eq. rewrite bool_decide_eq_false_2; [done|]. by intros [? ?].
  - rewrite lookup_delete_ne by done. by apply Hg.
Qed.

(** [RegIntrHandler] on both branches. *)
Lemma RegIntrHandler_used i h s :
  IsBitmapSet (IntrVecMap (intr s)) i = true -> runs (RegIntrHandler i h) s false s.
Proof.
  intros E. unfold RegIntrHandler. eapply runs_bind; [reflexivity|]. cbv beta. by rewrite E.
Qed.

Lemma RegIntrHandler_free i h s :
  IsBitmapSet (IntrVecMap (intr s)) i = false -> 0 <= i < 256 -> intr_inv s ->
  exists m', let g := mk_IntrG (SetBitmap (IntrVecMap (intr s)) i) (<[i := h]> (intr_handler (intr s))) in
    runs (RegIntrHandler i h) s true (set_mem m' (set_intr g s)) /\
    intr_inv (set_mem m' (set_intr g s)) /\
    forall j, 0 <= j < 256 -> gate_sel m' j = gate_sel (mem s) j /\ gate_offset m' j = gate_offset (mem s) j.
Proof.
  intros E Hi Hinv. set (g := mk_IntrG _ _).
  destruct (EnableIdt_runs i (set_intr g s) Hi) as (m' & Hr & Hm). cbn [mem set_intr] in Hm.
  exists m'. split_and!.
  - unfold RegIntrHandler. eapply runs_bind; [reflexivity|]. cbv beta. rewrite E.
    do 2 (eapply runs_bind; [reflexivity|]; cbv beta). eapply runs_bind; [exact Hr|]. reflexivity.
  - apply (gates_ok_enable (mem s) m'); [exact Hinv|]. intros j Hj. apply Hm, Hj.
  - intros j Hj. split; apply Hm; done.
Qed.

Lemma RemoveIntrHandler_runs i s :
  0 <= i < 256 -> intr_inv s ->
  exists m', let g := mk_IntrG (ClearBitmap (IntrVecMap (intr s)) i) (delete i (intr_handler (intr s))) in
    runs (RemoveIntrHandler i) s tt (set_mem m' (set_intr g s)) /\ intr_inv (set_mem m' (set_intr g s)).
Proof.
  intros Hi Hinv. destruct (DisableIdt_runs i s Hi) as (m' & Hr & Hm). exists m'. split.
  - unfold RemoveIntrHandler. eapply runs_bind; [exact Hr|]. eapply runs_bind; reflexivity.
  - apply (gates_ok_disable (mem s) m'); [exact Hinv|]. intros j Hj. apply Hm, Hj.
Qed.

(** ** Initialisation *)

Section Init.
Context `{Platform}.

Lemma SetIdtEntry_runs i sel type s :
  0 <= i < 256 ->
  exists m', runs (SetIdtEntry i sel type) s tt (set_mem m' s) /\
    forall j, 0 <= j < 256 ->
      gate_type m' j = (if i =? j then u16 type else gate_type (mem s) j) /\
      gate_sel m' j = (if i =? j then u16 sel else gate_sel (mem s) j) /\
      gate_offset m' j = (if i =? j then u32 (intr_vec i) else gate_offset (mem s) j).
Proof.
  intros Hi. set (v := intr_vec i).
  exists (store16 (store16 (store16 (store16 (mem s) (gate i + 0) v) (gate i + 6) (shr32 v 16))
    (gate i + 2) sel) (gate i + 4) type).
  split.
  { rewrite Z.add_0_r. reflexivity. }
  intros j Hj. unfold gate_type, gate_sel, gate_offset. rewrite !gate_rw by lia.
  cbn [Z.eqb Pos.eqb]. rewrite ?andb_true_r, ?andb_false_r.
  destruct (Z.eqb_spec i j) as [->|]; split_and!; try done.
  unfold shr32. rewrite Z.shiftr_div_pow2 by lia. unfold u16, u32. change (2 ^ 16) with 65536.
  Z.div_mod_to_equations. lia.
Qed.

(** Gate [j] as [IdtInit] leaves it. *)
Definition gate_init (m : gmap Z Z) (j sel type : Z) : Prop :=
  gate_type m j = type /\ gate_sel m j = sel /\ gate_offset m j = u32 (intr_vec j).

(** A loop of [SetIdtEntry] with the kernel code selector. *)
Lemma SetIdtEntry_loop n i s type :
  0 <= i -> i + Z.of_nat n <= 256 -> 0 <= type < 65536 ->
  exists m', runs (for_ n i (fun i => SetIdtEntry i kKCodeSeg type)) s tt (set_mem m' s) /\
    forall j, 0 <= j < 256 ->
      (i <= j < i + Z.of_nat n -> gate_init m' j kKCodeSeg type) /\
      (~ (i <= j < i + Z.of_nat n) -> forall sel t, gate_init (mem s) j sel t -> gate_init m' j sel t).
Proof.
  intros Hi Hn Ht. destruct (for_inv (fun k s1 => exists m1, s1 = set_mem m1 s /\
      forall j, 0 <= j < 256 -> (i <= j < k -> gate_init m1 j kKCodeSeg type) /\
        (~ (i <= j < k) -> forall sel t, gate_init (mem s) j sel t -> gate_init m1 j sel t))
    n i (fun i => SetIdtEntry i kKCodeSeg type) s) as (s' & Hr & m' & -> & HI).
  - exists (mem s). rewrite set_mem_mem. split; [done|]. intros j Hj. split; [lia|done].
  - intros k s1 Hk (m1 & -> & HI). destruct (SetIdtEntry_runs k kKCodeSeg type (set_mem m1 s)) as (m2 & Hr & Hm);
      [lia|]. exists (set_mem m2 s). split; [exact Hr|]. exists m2. split; [done|]. intros j Hj.
    destruct (Hm j Hj) as (E1 & E2 & E3). cbn [mem set_mem] in *. unfold gate_init in *.
    rewrite E1, E2, E3. destruct (Z.eqb_spec k j) as [->|Hne].
    + split; [|lia]. intros _. split_and!; [by apply u16_small|done|done].
    + destruct (HI j Hj) as [H1 H2]. split; [intros; apply H1; lia|intros Hn' sel t; apply H2; lia].
  - exists m'. split; [exact Hr|exact HI].
Qed.

Lemma IdtInit_runs s :
  exists m' c', runs IdtInit s tt (set_mem m' (set_tss kTssBaseAddr (set_cpu c' s))) /\
    c' = set_tr kTssSel (set_idtr (2047, kIdtBaseAddr) (cpu s)) /\
    forall j, 0 <= j < 256 ->
      gate_init m' j (if j =? 128 then kUCodeSeg else kKCodeSeg) (if j =? 128 then kIdtTrapType else kIdtIntrType).
Proof.
  set (s1 := set_mem (store32 (mem s) (kTssBaseAddr + 8) kKCodeSeg)
    (set_tss kTssBaseAddr (set_cpu (set_idtr (2047, kIdtBaseAddr) (cpu s)) s))).
  destruct (SetIdtEntry_loop 32 0 s1 kIdtExcType) as (m2 & Hr2 & H2); [lia|lia|unfold kIdtExcType; lia|].
  destruct (SetIdtEntry_loop 224 32 (set_mem m2 s1) kIdtIntrType) as (m3 & Hr3 & H3);
    [lia|lia|unfold kIdtIntrType; lia|].
  destruct (SetIdtEntry_runs 128 kUCodeSeg kIdtTrapType (set_mem m3 s1)) as (m4 & Hr4 & H4); [lia|].
  exists m4, (set_tr kTssSel (set_idtr (2047, kIdtBaseAddr) (cpu s))). split_and!; [|reflexivity|].
  - unfold IdtInit. do 4 (eapply runs_bind; [reflexivity|]; cbv beta).
    eapply runs_bind; [exact Hr2|]. eapply runs_bind; [exact Hr3|]. eapply runs_bind; [exact Hr4|]. reflexivity.
  - clear Hr2 Hr3 Hr4. intros j Hj. destruct (H4 j Hj) as (E1 & E2 & E3). unfold gate_init in *. rewrite E1, E2, E3.
    rewrite (Z.eqb_sym 128 j). destruct (Z.eqb_spec j 128) as [->|Hne]; [done|].
    destruct (H3 j Hj) as [A B]. destruct (H2 j Hj) as [A' _].
    destruct (Z.lt_ge_cases j 32); [apply B; [lia|]; apply A'; lia|apply A; lia].
Qed.

(** The handler table and the bitmap after [j] registrations of the common handler: the
    bits of vectors 0 to 3 stand for all of 0 to 31. *)
Definition exc_handlers (j : Z) (hs : gmap Z handler_id) : Prop :=
  forall k, hs !! k = if (0 <=? k) && (k <? Z.min j 4) then Some ExcHandlerId else None.
Definition exc_bits (j : Z) (bm : gmap Z Z) : Prop :=
  forall k, 0 <= k < 256 -> IsBitmapSet bm k = (k <? 32) && (k mod 4 <? j).

Lemma same_slot_low j k : 0 <= j < 32 -> 0 <= k < 256 -> same_slot j k = (k <? 32) && (k mod 4 =? j mod 4).
Proof.
  intros Hj Hk. unfold same_slot. rewrite !u32_small by lia. rewrite (Z.div_small j 32) by lia.
  rewrite (Z.eqb_sym (j mod 4)). destruct (Z.ltb_spec k 32).
  - by rewrite Z.div_small by lia.
  - assert (0 =? k / 32 = false) as ->; [|done]. apply Z.eqb_neq.
    pose proof (Z.div_le_mono 32 k 32 ltac:(lia) ltac:(lia)). rewrite Z.div_same in * by lia. lia.
Qed.

Lemma exc_step j s :
  0 <= j < 32 -> intr_inv s -> exc_handlers j (intr_handler (intr s)) -> exc_bits j (IntrVecMap (intr s)) ->
  exists m' g', runs (RegIntrHandler j ExcHandlerId ;;; ret tt) s tt (set_mem m' (set_intr g' s)) /\
    intr_inv (set_mem m' (set_intr g' s)) /\ exc_handlers (j + 1) (intr_handler g') /\ exc_bits (j + 1) (IntrVecMap g').
Proof.
  intros Hj Hinv Hh Hb. pose proof (Hb j ltac:(lia)) as Ej.
  destruct (Z.lt_ge_cases j 4) as [H4|H4].
  - rewrite Z.mod_small, Z.ltb_irrefl, andb_false_r in Ej by lia.
    destruct (RegIntrHandler_free j ExcHandlerId s Ej ltac:(lia) Hinv) as (m' & Hr & Hinv' & _).
    exists m', (mk_IntrG (SetBitmap (IntrVecMap (intr s)) j) (<[j := ExcHandlerId]> (intr_handler (intr s)))).
    split_and!; [eapply runs_bind; [exact Hr|reflexivity]|exact Hinv'| |].
    + intros k. cbn [intr_handler]. destruct (Z.eq_dec j k) as [->|Hne].
      * rewrite lookup_insert_eq. assert ((0 <=? k) && (k <? Z.min (k + 1) 4) = true) as -> by lia. done.
      * rewrite lookup_insert_ne, Hh by done. destruct (Z.leb_spec 0 k), (Z.ltb_spec k (Z.min j 4)),
          (Z.ltb_spec k (Z.min (j + 1) 4)); cbn; done || lia.
    + intros k Hk. cbn [IntrVecMap]. rewrite IsBitmapSet_SetBitmap, same_slot_low, Hb by lia.
      rewrite (Z.mod_small j 4) by lia. lia.
  - assert (IsBitmapSet (IntrVecMap (intr s)) j = true) as Eu.
    { rewrite Ej. pose proof (Z.mod_pos_bound j 4 ltac:(lia)). lia. }
    exists (mem s), (intr s). assert (set_mem (mem s) (set_intr (intr s) s) = s) as -> by (by destruct s).
    split_and!; [eapply runs_bind; [by apply RegIntrHandler_used|reflexivity]|done| |].
    + intros k. rewrite Hh. replace (Z.min j 4) with (Z.min (j + 1) 4) by lia. done.
    + intros k Hk. rewrite Hb by done. pose proof (Z.mod_pos_bound k 4 ltac:(lia)). lia.
Qed.

Lemma exc_loop s :
  intr_inv s -> exc_handlers 0 (intr_handler (intr s)) -> exc_bits 0 (IntrVecMap (intr s)) ->
  exists m' g', runs (for_ 32 0 (fun i => RegIntrHandler i ExcHandlerId ;;; ret tt)) s tt (set_mem m' (set_intr g' s)) /\
    intr_inv (set_mem m' (set_intr g' s)) /\ exc_handlers 32 (intr_handler g') /\ exc_bits 32 (IntrVecMap g').
Proof.
  intros Hinv Hh Hb. destruct (for_inv (fun j s1 => exists m1 g1, s1 = set_mem m1 (set_intr g1 s) /\ intr_inv s1 /\
      exc_handlers j (intr_handler g1) /\ exc_bits j (IntrVecMap g1)) 32 0
      (fun i => RegIntrHandler i ExcHandlerId ;;; ret tt) s) as (s' & Hr & m' & g' & -> & H1 & H2 & H3).
  - exists (mem s), (intr s). split_and!; [by destruct s|done|done|done].
  - intros j s1 Hj (m1 & g1 & -> & H1 & H2 & H3).
    destruct (exc_step j (set_mem m1 (set_intr g1 s)) ltac:(lia) H1 H2 H3) as (m2 & g2 & Hr & I1 & I2 & I3).
    exists (set_mem m2 (set_intr g2 s)). split; [exact Hr|]. exists m2, g2. split_and!; [done|exact I1|exact I2|exact I3].
  - exists m', g'. split_and!; [exact Hr|exact H1|exact H2|exact H3].
Qed.
End Init.

(** The handler table and the bitmap after [IntrInit]. *)
Definition boot_handlers (hs : gmap Z handler_id) : Prop :=
  forall k, hs !! k = if (0 <=? k) && (k <? 4) then Some ExcHandlerId
                      else if k =? 14 then Some PfHandlerId else None.
Definition boot_bits (bm : gmap Z Z) : Prop :=
  forall k, 0 <= k < 256 -> IsBitmapSet bm k = (k <? 32).

Section Boot.
Context `{Platform}.

(** Replacing the page fault handler. *)
Lemma pf_replace s :
  intr_inv s -> exc_handlers 32 (intr_handler (intr s)) -> exc_bits 32 (IntrVecMap (intr s)) ->
  exists m' g', runs (RemoveIntrHandler kPfVec ;;; RegIntrHandler kPfVec PfHandlerId ;;; ret tt) s tt
      (set_mem m' (set_intr g' s)) /\
    intr_inv (set_mem m' (set_intr g' s)) /\ boot_handlers (intr_handler g') /\ boot_bits (IntrVecMap g').
Proof.
  intros Hinv Hh Hb. destruct (RemoveIntrHandler_runs kPfVec s ltac:(unfold kPfVec; lia) Hinv) as (m1 & Hr1 & H1).
  set (g1 := mk_IntrG _ _) in *. set (s1 := set_mem m1 (set_intr g1 s)) in *.
  assert (IsBitmapSet (IntrVecMap (intr s1)) kPfVec = false) as E1.
  { cbn [intr set_mem set_intr s1 g1 IntrVecMap]. rewrite IsBitmapSet_ClearBitmap, same_slot_refl. done. }
  destruct (RegIntrHandler_free kPfVec PfHandlerId s1 E1 ltac:(unfold kPfVec; lia) H1) as (m2 & Hr2 & H2 & _).
  eexists m2, _. split_and!; [|exact H2| |].
  - eapply runs_bind; [exact Hr1|]. eapply runs_bind; [exact Hr2|]. reflexivity.
  - intros k. cbn [intr_handler IntrVecMap intr set_mem set_intr s1 g1]. unfold kPfVec.
    destruct (Z.eq_dec 14 k) as [<-|Hne]; [by rewrite lookup_insert_eq|].
    rewrite lookup_insert_ne, lookup_delete_ne, Hh by done.
    change (Z.min 32 4) with 4. destruct (_ && _); [done|].
    destruct (Z.eqb_spec k 14); [lia|done].
  - intros k Hk. cbn [intr_handler IntrVecMap intr set_mem set_intr s1 g1]. unfold kPfVec.
    rewrite IsBitmapSet_SetBitmap, IsBitmapSet_ClearBitmap, !same_slot_low, Hb by lia.
    pose proof (Z.mod_pos_bound k 4 ltac:(lia)). change (14 mod 4) with 2.
    destruct (k <? 32), (k mod 4 =? 2), (Z.ltb_spec (k mod 4) 32); cbn; done || lia.
Qed.

Lemma IntrInit_runs s :
  intr_handler (intr s) = ∅ ->
  exists m' c' h' g', let s' := set_mem m' (set_intr g' (set_io h' (set_tss kTssBaseAddr (set_cpu c' s)))) in
    runs IntrInit s tt s' /\ intr_inv s' /\ boot_handlers (intr_handler g') /\ boot_bits (IntrVecMap g') /\
    c' = set_tr kTssSel (set_idtr (2047, kIdtBaseAddr) (cpu s)).
Proof.
  intros He. destruct (IdtInit_runs s) as (m1 & c1 & Hr1 & Ec & Hg1).
  set (s1 := set_mem m1 (set_tss kTssBaseAddr (set_cpu c1 s))) in *.
  set (h1 := [Outb 161 255; Outb 33 251; Outb 160 10; Outb 160 72; Outb 32 10; Outb 32 72;
    Outb 160 32; Outb 32 32; Outb 161 1; Outb 161 2; Outb 161 40; Outb 160 17;
    Outb 33 1; Outb 33 4; Outb 33 32; Outb 32 17] ++ io s).
  set (g1 := set_IntrVecMap (Bitmap (IntrVecMap (intr s)) 8 false) (intr s)).
  set (s2 := set_intr g1 (set_io h1 s1)).
  destruct (exc_loop s2) as (m3 & g3 & Hr3 & I3 & Hh3 & Hb3).
  - intros i Hi. destruct (Hg1 i Hi) as (Et & _). unfold gate_present.
    change (mem s2) with m1. rewrite Et. change (intr_handler (intr s2)) with (intr_handler (intr s)).
    rewrite He, lookup_empty. rewrite bool_decide_eq_false_2 by (by intros [? ?]).
    by destruct (i =? 128).
  - intros k. change (intr_handler (intr s2)) with (intr_handler (intr s)). rewrite He, lookup_empty.
    destruct (_ && _) eqn:E; [lia|done].
  - intros k Hk. change (IntrVecMap (intr s2)) with (Bitmap (IntrVecMap (intr s)) 8 false).
    rewrite IsBitmapSet_Bitmap by lia. pose proof (Z.mod_pos_bound k 4 ltac:(lia)). lia.
  - set (s3 := set_mem m3 (set_intr g3 s2)) in *.
    destruct (pf_replace s3 I3 Hh3 Hb3) as (m4 & g4 & Hr4 & I4 & Hh4 & Hb4).
    exists m4, c1, h1, g4. split_and!; [|exact I4|exact Hh4|exact Hb4|exact Ec].
    unfold IntrInit. eapply runs_bind; [exact Hr1|]. cbv beta.
    apply (runs_bind PicInit _ _ tt (set_io h1 s1)); [reflexivity|]. cbv beta.
    eapply runs_bind; [reflexivity|]. cbv beta. eapply runs_bind; [exact Hr3|]. exact Hr4.
Qed.

(** ** Reachable states *)

(** What other components do with the interrupt tables. *)
Inductive intr_step : kstate -> kstate -> Prop :=
| step_reg i h b s s' : 0 <= i < 256 -> runs (RegIntrHandler i h) s b s' -> intr_step s s'
| step_remove i s s' : 0 <= i < 256 -> runs (RemoveIntrHandler i) s tt s' -> intr_step s s'
| step_init s s' : intr_handler (intr s) = ∅ -> runs IntrInit s tt s' -> intr_step s s'
| step_other s m' s' : (forall i, 0 <= i < 256 -> gate_type m' i = gate_type (mem s) i) ->
    s' = set_mem m' s -> intr_step s s'.

Lemma intr_step_inv s s' : intr_inv s -> intr_step s s' -> intr_inv s'.
Proof.
  intros Hinv Hs. destruct Hs as [i h b s s' Hi Hr|i s s' Hi Hr|s s' He Hr|s m' s' Hm ->].
  - destruct (IsBitmapSet (IntrVecMap (intr s)) i) eqn:E.
    + destruct (runs_det _ _ _ _ _ _ Hr (RegIntrHandler_used i h s E)) as [_ ->]. done.
    + destruct (RegIntrHandler_free i h s E Hi Hinv) as (m' & Hr' & Hinv' & _).
      destruct (runs_det _ _ _ _ _ _ Hr Hr') as [_ ->]. done.
  - destruct (RemoveIntrHandler_runs i s Hi Hinv) as (m' & Hr' & Hinv').
    destruct (runs_det _ _ _ _ _ _ Hr Hr') as [_ ->]. done.
  - destruct (IntrInit_runs s He) as (m' & c' & h' & g' & Hr' & Hinv' & _).
    destruct (runs_det _ _ _ _ _ _ Hr Hr') as [_ ->]. done.
  - intros i Hi. unfold gate_present. cbn [mem set_mem intr]. rewrite Hm by done. by apply Hinv.
Qed.

(** C17: after [IntrInit], in every state reached by registering and removing handlers
    (and memory changes elsewhere), the gate of a vector is marked present exactly when
    the vector has a handler: the processor never takes an interrupt that would reach a null
    handler. *)
Theorem gates_match_handlers s0 s1 s :
  intr_handler (intr s0) = ∅ -> runs IntrInit s0 tt s1 -> rtc intr_step s1 s ->
  forall i, 0 <= i < 256 ->
    gate_present (mem s) i = bool_decide (is_Some (intr_handler (intr s) !! i)).
Proof.
  intros He Hr Hsteps. assert (intr_inv s1) as H1.
  { destruct (IntrInit_runs s0 He) as (m' & c' & h' & g' & Hr' & Hinv & _).
    destruct (runs_det _ _ _ _ _ _ Hr Hr') as [_ ->]. done. }
  clear Hr He. induction Hsteps as [|x y z Hxy _ IH]; [exact H1|]. apply IH. by eapply intr_step_inv.
Qed.

(** C39: [IntrInit] returns, and registers the common exception handler for vectors 0 to 3
    only, not for all 32 exceptions: the bitmap uses 4 bits per word, so vectors 4 to 31
    count as used and their registration is refused. Only 0 to 3 and the page
    fault vector 14 have a present gate. *)
Theorem intr_init_handlers s :
  intr_handler (intr s) = ∅ ->
  exists s', runs IntrInit s tt s' /\
    (forall k, intr_handler (intr s') !! k =
       if (0 <=? k) && (k <? 4) then Some ExcHandlerId else if k =? 14 then Some PfHandlerId else None) /\
    (forall k, 0 <= k < 256 -> gate_present (mem s') k = ((k <? 4) || (k =? 14))).
Proof.
  intros He. destruct (IntrInit_runs s He) as (m' & c' & h' & g' & Hr & Hinv & Hh & _).
  eexists. split_and!; [exact Hr|exact Hh|]. clear Hr. intros k Hk. rewrite (Hinv k Hk).
  cbn [intr set_mem set_intr]. rewrite Hh.
  destruct (Z.leb_spec 0 k), (Z.ltb_spec k 4), (Z.eqb_spec k 14); cbn [andb orb]; try lia;
    first [by rewrite bool_decide_eq_true_2|by rewrite bool_decide_eq_false_2 by (by intros [? ?])].
Qed.

(** The drivers' vectors do not collide: after [IntrInit] the timer (32), the keyboard
    (33), the disk (46) and the system call (128) can all be registered, while a fifth
    vector such as 36, which shares the timer's bit, is refused. *)
Theorem driver_vectors s :
  intr_handler (intr s) = ∅ ->
  exists s', runs (IntrInit ;;;
      r1 <- RegIntrHandler kTimerVec TimerHandlerId ;;
      r2 <- RegIntrHandler kKeyboardVec KeyboardHandlerId ;;
      r3 <- RegIntrHandler kIdeVec IdeHandlerId ;;
      r4 <- RegIntrHandler kSyscallVec SyscallId ;;
      r5 <- RegIntrHandler 36 ExcHandlerId ;;
      ret (r1, r2, r3, r4, r5)) s (true, true, true, true, false) s'.
Proof.
  intros He. destruct (IntrInit_runs s He) as (m0 & c0 & h0 & g0 & Hr & I0 & _ & Hb & _).
  set (s0 := set_mem m0 _) in *.
  destruct (RegIntrHandler_free kTimerVec TimerHandlerId s0) as (m1 & Hr1 & I1 & _);
    [rewrite Hb by (unfold kTimerVec; lia); done|unfold kTimerVec; lia|exact I0|].
  set (s1 := set_mem m1 _) in *.
  destruct (RegIntrHandler_free kKeyboardVec KeyboardHandlerId s1) as (m2 & Hr2 & I2 & _);
    [|unfold kKeyboardVec; lia|exact I1|].
  { change (IntrVecMap (intr s1)) with (SetBitmap (IntrVecMap g0) kTimerVec).
    rewrite IsBitmapSet_SetBitmap, Hb by (unfold kKeyboardVec; lia). done. }
  set (s2 := set_mem m2 _) in *.
  destruct (RegIntrHandler_free kIdeVec IdeHandlerId s2) as (m3 & Hr3 & I3 & _);
    [|unfold kIdeVec; lia|exact I2|].
  { change (IntrVecMap (intr s2)) with (SetBitmap (SetBitmap (IntrVecMap g0) kTimerVec) kKeyboardVec).
    rewrite !IsBitmapSet_SetBitmap, Hb by (unfold kIdeVec; lia). done. }
  set (s3 := set_mem m3 _) in *.
  destruct (RegIntrHandler_free kSyscallVec SyscallId s3) as (m4 & Hr4 & I4 & _);
    [|unfold kSyscallVec; lia|exact I3|].
  { change (IntrVecMap (intr s3)) with
      (SetBitmap (SetBitmap (SetBitmap (IntrVecMap g0) kTimerVec) kKeyboardVec) kIdeVec).
    rewrite !IsBitmapSet_SetBitmap, Hb by (unfold kSyscallVec; lia). done. }
  set (s4 := set_mem m4 _) in *. exists s4.
  eapply runs_bind; [exact Hr|]. eapply runs_bind; [exact Hr1|]. eapply runs_bind; [exact Hr2|].
  eapply runs_bind; [exact Hr3|]. eapply runs_bind; [exact Hr4|].
  eapply runs_bind; [|reflexivity]. apply RegIntrHandler_used.
  change (IntrVecMap (intr s4)) with
    (SetBitmap (SetBitmap (SetBitmap (SetBitmap (IntrVecMap g0) kTimerVec) kKeyboardVec) kIdeVec) kSyscallVec).
  rewrite !IsBitmapSet_SetBitmap. done.
Qed.
End Boot.

Lemma intr_init_handlers_witness :
  exists s', runs (@IntrInit null_platform) zero_state tt s' /\
    intr_handler (intr s') !! 13 = None /\ gate_present (mem s') 13 = false.
Proof.
  destruct (@intr_init_handlers null_platform zero_state eq_refl) as (s' & Hr & Hh & Hg).
  exists s'. split; [exact Hr|]. split; [exact (Hh 13)|]. rewrite (Hg 13) by lia. reflexivity.
Defined.

Lemma gates_match_handlers_witness :
  exists s1, runs (@IntrInit null_platform) zero_state tt s1 /\
    gate_present (mem s1) 14 = bool_decide (is_Some (intr_handler (intr s1) !! 14)).
Proof.
  destruct (@IntrInit_runs null_platform zero_state eq_refl) as (m' & c' & h' & g' & Hr & _).
  eexists. split; [exact Hr|].
  apply (@gates_match_handlers null_platform zero_state _ _ eq_refl Hr); [apply rtc_refl|lia].
Defined.

Lemma driver_vectors_witness :
  exists s', runs (@IntrInit null_platform ;;;
      r1 <- RegIntrHandler kTimerVec TimerHandlerId ;;
      r2 <- RegIntrHandler kKeyboardVec KeyboardHandlerId ;;
      r3 <- RegIntrHandler kIdeVec IdeHandlerId ;;
      r4 <- RegIntrHandler kSyscallVec SyscallId ;;
      r5 <- RegIntrHandler 36 ExcHandlerId ;;
      ret (r1, r2, r3, r4, r5)) zero_state (true, true, true, true, false) s'.
Proof. apply (@driver_vectors null_platform zero_state). reflexivity. Defined.

(** ** The common exception handler *)

(** A word of memory that neither the screen nor the handler's buffer overlaps. *)
Definition exc_safe (a : Z) : Prop :=
  forall i, 0 <= i < 4 -> ~ (VIDEO <= phys (a + i) < VIDEO + 3840) /\
    ~ (1048576 <= phys (a + i) < 1048588).

Lemma exc_safe_screen a m m' : exc_safe a -> screen_only m m' -> load32 m' a = load32 m a.
Proof.
  intros Ha Hs. apply (load_ext 4). intros i Hi. apply Hs.
  change (COLUMNS * LINES * 2) with 3840. apply Ha. done.
Qed.

Lemma exc_safe_buf a m m' : exc_safe a -> buf_only 1048576 12 m m' -> load32 m' a = load32 m a.
Proof.
  intros Ha Hb. apply (load_ext 4). intros i Hi. apply Hb. intros j Hj E.
  destruct (Ha i Hi) as [_ Hn]. apply Hn. rewrite <- E, phys_low by lia. lia.
Qed.

(** C33: the common exception handler returns, writes only the screen and the 12 bytes from
    [0x100000], and acknowledges the interrupt: an end-of-interrupt to the master, after one
    to the slave for vectors from 40 on. The 12 bytes are the start of the kernel image. *)
Theorem exc_handler_acks r v s :
  con_ok (con s) -> exc_safe (r + 40) -> load32 (mem s) (r + 40) = v -> 0 <= v < 256 ->
  exists m' g', runs (ExcHandler r) s tt
      (set_io (Outb 32 32 :: (if 40 <=? v then [Outb 160 32] else []) ++ io s) (set_mem m' (set_con g' s))) /\
    con_ok g' /\
    (forall a, ~ (VIDEO <= phys a < VIDEO + 3840) -> ~ (1048576 <= phys a < 1048588) ->
       load8 m' a = load8 (mem s) a).
Proof.
  intros Hcon Hsafe Hv Hr. destruct (printf_step 32 exc_msg [] s eq_refl Hcon) as (m1 & g1 & Hr1 & Hg1 & Hs1).
  set (s1 := set_mem m1 (set_con g1 s)) in *.
  destruct (itoa_spec 1048576 100 v s1) as (m2 & Hr2 & Hb2 & Ho2 & Hl2 & Hz2); [left; lia|lia|].
  set (s2 := set_mem m2 s1) in *.
  destruct (printf_at_step 32 1048576 (itoa_str 100 v) s2) as (m3 & g3 & Hr3 & Hg3 & Hs3);
    [exact Hg1|apply c_string_bytes; [exact Hb2|exact Hz2|rewrite length_app in Hl2; cbn [length] in Hl2; lia]| |].
  { unfold itoa_str. destruct (Z.ltb_spec v 0); [lia|]. rewrite andb_false_r. apply Forall_rev.
    eapply Forall_impl; [apply digits_no_sign; auto|]. cbn. tauto. }
  set (s3 := set_mem m3 (set_con g3 s2)) in *.
  destruct (printf_step 32 [10] [] s3 eq_refl Hg3) as (m4 & g4 & Hr4 & Hg4 & Hs4).
  change (mem s1) with m1 in Ho2. change (mem s2) with m2 in Hs3. change (mem s3) with m3 in Hs4.
  assert (load32 m4 (r + 40) = v) as Hv4.
  { rewrite (exc_safe_screen _ _ _ Hsafe Hs4), (exc_safe_screen _ _ _ Hsafe Hs3).
    rewrite (exc_safe_buf _ _ _ Hsafe Ho2), (exc_safe_screen _ _ _ Hsafe Hs1). done. }
  exists m4, g4. split_and!; [|exact Hg4|].
  - unfold ExcHandler. eapply runs_bind; [apply runs_ld32|]. cbv beta. unfold intr_reg_vec.
    rewrite Hv, i32_small by lia. eapply runs_bind; [exact Hr1|]. eapply runs_bind; [exact Hr2|].
    eapply runs_bind; [exact Hr3|]. eapply runs_bind; [exact Hr4|]. eapply runs_bind; [apply runs_ld32|].
    cbv beta. cbn [mem set_mem]. rewrite Hv4, i32_small by lia. unfold SendEoi.
    change kSIcw2 with 40. by destruct (40 <=? v).
  - intros a H1 H2. change (COLUMNS * LINES * 2) with 3840 in *.
    rewrite Hs4, Hs3, Ho2, Hs1; [done|done| |done|done].
    intros i Hi E. apply H2. rewrite <- E, phys_low by lia. lia.
Qed.

Lemma exc_handler_acks_witness :
  exists s', runs (ExcHandler 3239051264)
      (set_mem (store32 ∅ 3239051304 46) (set_con (mk_ConG 5 3 VIDEO) zero_state)) tt s' /\
    io s' = [Outb 32 32; Outb 160 32].
Proof.
  destruct (exc_handler_acks 3239051264 46
    (set_mem (store32 ∅ 3239051304 46) (set_con (mk_ConG 5 3 VIDEO) zero_state))) as (m' & g' & Hr & _).
  - unfold con_ok, COLUMNS, LINES. cbn. lia.
  - intros i Hi. rewrite phys_high by lia. unfold VIDEO. lia.
  - vm_compute. reflexivity.
  - lia.
  - eexists. split; [exact Hr|]. reflexivity.
Defined.
