(* ===== verification/Paging.v ===== *)
(** * memory/paging.c: page tables and the physical page allocator

    A page directory or table entry is a 32-bit word with bit-fields, updated field by
    field as the C code does. [PagingInit] runs before paging is on, so the addresses it
    writes are physical; the model's memory maps every address below [KVA] to itself.
    The page fault handler, which closes processes, is in Process.v. *)

From Stdlib Require Import ZArith Lia ZifyBool.
From stdpp Require Import base numbers gmap strings list.
From S2P Require Import Prelude Memory Machine Bits AsmWrapper Console Allocator.

Definition PageSize : Z := 4096.
Definition kVirtualPageNum : Z := 1048576.
Definition kDynamicMappingStartPage : Z := 16384.
Definition kUPdeNum : Z := 768.
Definition kKPdeDirectMappingNum : Z := 16.
Definition kPteMaxNum : Z := 1024.
Definition kPtMaxSize : Z := 4096.
Definition PTE_ABSENT_ADDR : Z := 0.
Definition kPdeAbsentAddr : Z := 0.
Definition kKPtAddr : Z := 3221278720.
Definition kKPdAddr : Z := 3221229568.
Definition kPdeNum : Z := 1024.
Definition kKPdeWritePresentAccess : Z := 3.
Definition kKPdeWriteAbsentAccess : Z := 2.
Definition kUPdeReadPresentAccess : Z := 5.
Definition kUPdeWritePresentAccess : Z := 7.
Definition kUPdeWriteAbsentAccess : Z := 6.
Definition kKPteWritePresentAccess : Z := 3.
Definition kUPteReadPresentAccess : Z := 5.
Definition kUPteWritePresentAccess : Z := 7.
Definition kAvlMemAddr : Z := 131072.
Definition UINT32_MAX : Z := 4294967295.

(** ** Entries *)

(** Assigning [v] to the bit-field of [n] bits at bit [lo] of word [w]. *)
Definition bf_set (w lo n v : Z) : Z :=
  Z.lor (Z.land w (not32 (Z.shiftl (Z.ones n) lo))) (Z.shiftl (Z.land v (Z.ones n)) lo).

Definition bf_get (w lo n : Z) : Z := Z.land (Z.shiftr w lo) (Z.ones n).

Definition set_field (entry lo n v : Z) : K unit :=
  w <- ld32 entry ;; st32 entry (bf_set w lo n v).

Definition get_field (entry lo n : Z) : K Z := w <- ld32 entry ;; ret (bf_get w lo n).

(** The processor's page walk (32-bit paging, 4 KB pages). *)
Definition translate (m : gmap Z Z) (cr3 va : Z) : option Z :=
  let pde := load32 m (4096 * (cr3 / 4096) + 4 * (va / 4194304)) in
  if negb (Z.testbit pde 0) then None
  else
    let pte := load32 m (4096 * (pde / 4096) + 4 * (va / 4096 mod 1024)) in
    if negb (Z.testbit pte 0) then None else Some (4096 * (pte / 4096) + va mod 4096).

(** An access through a pointer that need not lie in the first 4 MB or in the direct mapping
    area: it reaches the cell the page walk leads to, and where the walk ends at an entry that
    is not present the processor raises the page fault exception. *)
Definition paged {A} (va : Z) (access : Z -> K A) : K A :=
  frame <- gets (fun s => translate (mem s) (cr3 (cpu s)) (u32 va)) ;;
  match frame with Some p => access p | None => fault 14 end.

Definition GetSizeInPage (byte_size : Z) : Z := i32 (u32 byte_size / PageSize).
Definition GetPagePhysAddr (n : Z) : Z := i32 (n * PageSize).
Definition GetPageNo (addr : Z) : Z := i32 (u32 addr / PageSize).
Definition GetPdAddrInReg (phys_addr : Z) : Z := shr32 phys_addr 12.
Definition GetPtAddrInPde (phys_addr : Z) : Z := shr32 phys_addr 12.
Definition GetPageAddrInPte (phys_addr : Z) : Z := shr32 phys_addr 12.

(** [Pte]: access 9 bits, ignored 3 bits, page_addr 20 bits. *)
Definition SetPte (entry access address : Z) : K unit :=
  set_field entry 0 9 (u8 access) ;;;
  set_field entry 9 3 0 ;;;
  set_field entry 12 20 (GetPageAddrInPte address).

(** [Pde]: access 8 bits, ignored 4 bits, pt_addr 20 bits. *)
Definition SetPde (entry access address : Z) : K unit :=
  set_field entry 0 8 (u8 access) ;;;
  set_field entry 8 4 0 ;;;
  set_field entry 12 20 (GetPtAddrInPde address).

Definition SwitchPd (pd_addr : Z) : K unit :=
  let phys_addr := DirectMappingPhysAddr pd_addr in
  modify (fun s => set_cpu (set_cr3 phys_addr (cpu s)) s).

(** ** The physical page allocator *)

Definition set_page (n : Z) : K unit :=
  modify (fun s => set_page_state (SetBitmap (page_state s) n) s).
Definition clear_page_bit (n : Z) : K unit :=
  modify (fun s => set_page_state (ClearBitmap (page_state s) n) s).

(** [while (cond(addr)) { f(page of addr); addr += PageSize; }] *)
Definition page_while (fuel : nat) (cond : Z -> bool) (f : Z -> K unit) (addr : Z) : K Z :=
  loop fuel (fun addr =>
    if cond addr then f (GetPageNo addr) ;;; ret (inl (u32 (addr + PageSize)))
    else ret (inr addr)) addr.

(** [AvlPhysMem] at [t]: addr at 0, size at 4. *)
Definition avl_loop (fuel : nat) (t addr : Z) : K Z :=
  loop fuel (fun '(t, addr) =>
    size <- ld32 (t + 4) ;;
    if size =? UINT32_MAX then ret (inr addr)
    else
      base <- ld32 t ;;
      addr <- page_while fuel (fun addr => addr <? base) set_page addr ;;
      addr <- page_while fuel (fun addr => u32 (addr + PageSize) <=? u32 (base + size)) clear_page_bit addr ;;
      ret (inl (t + 8, addr))) (t, addr).

Definition no_mem_msg : list Z :=
  str "No available memory for kernel, some error may happen in bootloader." ++ [10] ++
  str "XyOS will stop now." ++ [10].

Definition PageAllocatorInit (fuel : nat) : K unit :=
  size <- ld32 (kAvlMemAddr + 4) ;;
  (if size =? UINT32_MAX then printf 0 no_mem_msg [] else ret tt) ;;;
  addr <- avl_loop fuel kAvlMemAddr 0 ;;
  page_while fuel (fun addr => negb (GetPageNo addr =? 0)) clear_page_bit addr ;;;
  for_ (Z.to_nat kDynamicMappingStartPage) 0 clear_page_bit.

(** The search loop of [ReqPage], [n] pages left. *)
Fixpoint req_page_from (n : nat) (i : Z) : K Z :=
  match n with
  | O => ret 0
  | S n' =>
      used <- gets (fun s => IsBitmapSet (page_state s) i) ;;
      if negb used then set_page i ;;; ret (u32 (GetPagePhysAddr i))
      else req_page_from n' (i + 1)
  end.

Definition ReqPage : K Z :=
  req_page_from (Z.to_nat (kVirtualPageNum - kDynamicMappingStartPage)) kDynamicMappingStartPage.

(** The physical address is used as a pointer. For the last page of the address space the
    bound [physical_addr + PageSize] is 0 and the loop does not run. *)
Definition ClearPage (n : Z) : K unit :=
  let physical_addr := u32 (GetPagePhysAddr n) in
  if physical_addr <? u32 (physical_addr + PageSize)
  then for_ 1024 0 (fun i => paged (physical_addr + 4 * i) (fun p => st32 p 0))
  else ret tt.

Definition RelPage (fuel : nat) (n : Z) : K unit :=
  let addr := u32 (GetPagePhysAddr n) in
  loop fuel (fun t =>
    size <- ld32 (t + 4) ;;
    if size =? UINT32_MAX then ret (inr tt)
    else
      base <- ld32 t ;;
      if (base <? addr) && (u32 (addr + PageSize) <=? u32 (base + size))
      then ClearPage n ;;; clear_page_bit n ;;; ret (inr tt)
      else ret (inl (t + 8))) kAvlMemAddr.

Definition RelPages (fuel : nat) (pt : Z) : K unit :=
  for_ (Z.to_nat kPteMaxNum) 0 (fun i =>
    p <- paged (pt + 4 * i) (fun e => get_field e 12 20) ;;
    if negb (p =? PTE_ABSENT_ADDR) then RelPage fuel (GetPageNo (shl32 p 12)) else ret tt).

(** Copying a page directory: the user half of the father becomes read-only. *)
Definition UPdClone (cur_pd father_pd : Z) : K unit :=
  for_ (Z.to_nat kUPdeNum) 0 (fun i =>
    a <- get_field (father_pd + 4 * i) 0 8 ;;
    set_field (father_pd + 4 * i) 0 8 (Z.land a (not32 2))) ;;;
  for_ (Z.to_nat kPdeNum) 0 (fun i =>
    g <- get_field (father_pd + 4 * i) 8 4 ;;
    set_field (cur_pd + 4 * i) 8 4 g ;;;
    a <- get_field (father_pd + 4 * i) 0 8 ;;
    set_field (cur_pd + 4 * i) 0 8 a ;;;
    p <- get_field (father_pd + 4 * i) 12 20 ;;
    set_field (cur_pd + 4 * i) 12 20 p).

(** ** Initialisation *)

(** Filling a page table with consecutive pages. *)
Definition fill_pt (pt page_addr : Z) : K unit :=
  for_ (Z.to_nat kPteMaxNum) 0 (fun j =>
    SetPte (pt + 4 * j) kKPteWritePresentAccess (u32 (page_addr + j * PageSize))).

Definition PagingInit (fuel : nat) : K unit :=
  PageAllocatorInit fuel ;;;
  SwitchPd kKPdAddr ;;;
  let k_pd := DirectMappingPhysAddr kKPdAddr in
  let pt_addr := DirectMappingPhysAddr (kKPtAddr - kPtMaxSize) in
  SetPde k_pd kKPdeWritePresentAccess pt_addr ;;;
  fill_pt pt_addr 0 ;;;
  for_ 767 1 (fun i => SetPde (k_pd + 4 * i) kUPdeWriteAbsentAccess kPdeAbsentAddr) ;;;
  let pt_addr := DirectMappingPhysAddr kKPtAddr in
  for_ 16 kUPdeNum (fun i =>
    SetPde (k_pd + 4 * i) kKPdeWritePresentAccess (pt_addr + (i - kUPdeNum) * kPtMaxSize) ;;;
    fill_pt (pt_addr + (i - kUPdeNum) * kPtMaxSize) ((i - kUPdeNum) * (kPteMaxNum * PageSize))) ;;;
  for_ 240 784 (fun i => SetPde (k_pd + 4 * i) kKPdeWriteAbsentAccess kPdeAbsentAddr) ;;;
  clear_cr 4 5 ;;;
  set_cr 0 31.

(** ** Bit-fields *)

Lemma bf_set_spec w lo n v k :
  0 <= lo -> 0 <= n -> lo + n <= 32 -> 0 <= k ->
  Z.testbit (bf_set w lo n v) k =
    if (lo <=? k) && (k <? lo + n) then Z.testbit v (k - lo) else Z.testbit w k && (k <? 32).
Proof.
  intros Hlo Hn H32 Hk. unfold bf_set. rewrite Z.lor_spec, Z.land_spec, Z.shiftl_spec by done.
  unfold not32. rewrite testbit_u32, Z.lnot_spec, Z.shiftl_spec, Z.land_spec by done.
  destruct (Z.leb_spec lo k), (Z.ltb_spec k (lo + n)); cbn [andb].
  - rewrite Z.ones_spec_low by lia. cbn. by rewrite andb_false_r, andb_true_r.
  - rewrite Z.ones_spec_high by lia. rewrite andb_false_r, orb_false_r. done.
  - rewrite (Z.testbit_neg_r _ (k - lo)) by lia. rewrite (Z.testbit_neg_r v) by lia. cbn.
    by rewrite orb_false_r.
  - lia.
Qed.

Lemma u32_bf_set w lo n v : 0 <= lo -> 0 <= n -> lo + n <= 32 -> u32 (bf_set w lo n v) = bf_set w lo n v.
Proof.
  intros. apply Z.bits_inj'. intros k Hk. rewrite testbit_u32, bf_set_spec by lia.
  destruct (Z.leb_spec lo k), (Z.ltb_spec k (lo + n)), (Z.ltb_spec k 32); cbn;
    rewrite ?andb_true_r, ?andb_false_r; done || lia.
Qed.

(** An entry with access bits [acc] that points to frame [pg]. *)
Definition entry_word (acc pg : Z) : Z := acc + 4096 * pg.

Lemma entry_word_fields w n1 acc pg :
  n1 = 8 \/ n1 = 9 -> 0 <= acc < 256 -> 0 <= pg < 1048576 ->
  bf_set (bf_set (bf_set w 0 n1 acc) n1 (12 - n1) 0) 12 20 pg = entry_word acc pg.
Proof.
  intros Hn Ha Hp. unfold entry_word. change 4096 with (2 ^ 12).
  rewrite <- (lor_shiftl acc pg 12) by (change (2 ^ 12) with 4096; lia).
  apply Z.bits_inj'. intros k Hk. rewrite !bf_set_spec, Z.lor_spec, Z.shiftl_spec, Z.bits_0 by lia.
  assert (forall j, 8 <= j -> Z.testbit acc j = false) as Hacc.
  { intros j Hj. apply (testbit_above acc 8); [change (2 ^ 8) with 256|]; lia. }
  assert (forall j, 20 <= j -> Z.testbit pg j = false) as Hpg.
  { intros j Hj. apply (testbit_above pg 20); [change (2 ^ 20) with 1048576|]; lia. }
  destruct (Z.leb_spec 12 k), (Z.ltb_spec k (12 + 20)); cbn [andb].
  - rewrite (Hacc k) by lia. done.
  - rewrite (Hacc k), (Hpg (k - 12)) by lia. destruct (Z.ltb_spec k 32); [lia|]. by rewrite andb_false_r.
  - rewrite (Z.testbit_neg_r pg) by lia. rewrite orb_false_r. destruct (Z.ltb_spec k 32); [|lia].
    rewrite andb_true_r. destruct (Z.leb_spec n1 k), (Z.ltb_spec k (n1 + (12 - n1))); cbn [andb]; try lia.
    + by rewrite Hacc by lia.
    + destruct (Z.leb_spec 0 k), (Z.ltb_spec k (0 + n1)); cbn [andb]; try lia.
      by rewrite Z.sub_0_r, andb_true_r.
  - lia.
Qed.

(** ** Tables in low memory *)

(** The bytes lie below the kernel's part of the address space. *)
Definition lspan (a n : Z) : Prop := 0 <= a /\ a + n <= KVA.

(** Below it, only the [n] bytes from [a] differ. *)
Definition low_only (a n : Z) (m m' : gmap Z Z) : Prop :=
  forall b k, lspan b (Z.of_nat k) -> apart a n b (Z.of_nat k) -> load k m' b = load k m b.

Lemma low_only_trans a n m1 m2 m3 : low_only a n m1 m2 -> low_only a n m2 m3 -> low_only a n m1 m3.
Proof. intros H1 H2 b k Hb Ha. by rewrite H2, H1. Qed.

Lemma low_only_weaken a n a' n' m m' :
  low_only a n m m' -> a' <= a -> a + n <= a' + n' -> low_only a' n' m m'.
Proof. intros H Ha Hn b k Hb Hap. apply H; [done|]. unfold apart in *. lia. Qed.

Lemma low_load32 a n m m' b : low_only a n m m' -> lspan b 4 -> apart a n b 4 -> load32 m' b = load32 m b.
Proof. intros H Hb Ha. by apply (H b 4%nat). Qed.

Lemma low_store32_same m a v : lspan a 4 -> load32 (store32 m a v) a = u32 v.
Proof. intros [H1 H2]. apply (load_store_same 4). left. lia. Qed.

Lemma low_store32_only m a v : lspan a 4 -> low_only a 4 m (store32 m a v).
Proof.
  intros [H1 H2] b k [H3 H4] Ha. destruct k as [|k]; [done|].
  apply (load_store_ne_phys (S k) 4); [left; lia|left; lia|].
  rewrite !phys_low by lia. done.
Qed.

(** Three field assignments to one word. *)
Lemma set_fields_runs s e n1 acc pg :
  n1 = 8 \/ n1 = 9 -> lspan e 4 -> 0 <= acc < 256 -> 0 <= pg < 1048576 ->
  exists m', runs (set_field e 0 n1 acc ;;; set_field e n1 (12 - n1) 0 ;;; set_field e 12 20 pg) s tt (set_mem m' s) /\
    load32 m' e = entry_word acc pg /\ low_only e 4 (mem s) m'.
Proof.
  intros Hn He Ha Hp.
  set (w0 := load32 (mem s) e). set (w1 := bf_set w0 0 n1 acc). set (w2 := bf_set w1 n1 (12 - n1) 0).
  set (m1 := store32 (mem s) e w1). set (m2 := store32 m1 e w2). set (m3 := store32 m2 e (bf_set w2 12 20 pg)).
  assert (load32 m1 e = w1) as E1 by (unfold m1; rewrite low_store32_same by done; apply u32_bf_set; lia).
  assert (load32 m2 e = w2) as E2 by (unfold m2; rewrite low_store32_same by done; apply u32_bf_set; lia).
  exists m3. split_and!.
  - eapply runs_bind; [eapply runs_bind; [apply runs_ld32|apply runs_st32]|]. cbv beta.
    eapply runs_bind; [eapply runs_bind; [apply runs_ld32|apply runs_st32]|]. cbv beta.
    eapply runs_bind; [apply runs_ld32|]. cbv beta. cbn [mem set_mem].
    fold w0 w1 m1. rewrite E1. fold w2 m2. rewrite E2. reflexivity.
  - unfold m3. rewrite low_store32_same by done. rewrite u32_bf_set by lia. by apply entry_word_fields.
  - eapply low_only_trans; [apply low_store32_only; done|]. eapply low_only_trans; apply low_store32_only; done.
Qed.

Lemma frame_range addr : 0 <= u32 addr / 4096 < 1048576.
Proof.
  pose proof (u32_range addr). split; [apply Z.div_pos; lia|]. apply Z.div_lt_upper_bound; lia.
Qed.

Lemma frame_shr addr : shr32 addr 12 = u32 addr / 4096.
Proof. unfold shr32. by rewrite Z.shiftr_div_pow2. Qed.

Lemma SetPte_runs s e acc addr :
  lspan e 4 -> 0 <= acc < 256 ->
  exists m', runs (SetPte e acc addr) s tt (set_mem m' s) /\
    load32 m' e = entry_word acc (u32 addr / 4096) /\ low_only e 4 (mem s) m'.
Proof.
  intros He Ha. unfold SetPte, GetPageAddrInPte. rewrite frame_shr, u8_small by done.
  apply (set_fields_runs s e 9); [auto|done|done|apply frame_range].
Qed.

Lemma SetPde_runs s e acc addr :
  lspan e 4 -> 0 <= acc < 256 ->
  exists m', runs (SetPde e acc addr) s tt (set_mem m' s) /\
    load32 m' e = entry_word acc (u32 addr / 4096) /\ low_only e 4 (mem s) m'.
Proof.
  intros He Ha. unfold SetPde, GetPtAddrInPde. rewrite frame_shr, u8_small by done.
  apply (set_fields_runs s e 8); [auto|done|done|apply frame_range].
Qed.

(** A loop that sets the entries [i] to [i + n - 1] of a table. *)
Lemma table_loop (set_entry : Z -> Z -> Z -> K unit) n i base acc (addr : Z -> Z) s :
  (forall s e a, lspan e 4 -> exists m', runs (set_entry e acc a) s tt (set_mem m' s) /\
     load32 m' e = entry_word acc (u32 a / 4096) /\ low_only e 4 (mem s) m') ->
  0 <= base -> 0 <= i -> base + 4 * (i + Z.of_nat n) <= KVA ->
  exists m', runs (for_ n i (fun j => set_entry (base + 4 * j) acc (addr j))) s tt (set_mem m' s) /\
    (forall j, i <= j < i + Z.of_nat n -> load32 m' (base + 4 * j) = entry_word acc (u32 (addr j) / 4096)) /\
    low_only (base + 4 * i) (4 * Z.of_nat n) (mem s) m'.
Proof.
  intros Hset Hb Hi Hn.
  destruct (for_inv (fun k s1 => exists m1, s1 = set_mem m1 s /\
      (forall j, i <= j < k -> load32 m1 (base + 4 * j) = entry_word acc (u32 (addr j) / 4096)) /\
      low_only (base + 4 * i) (4 * (k - i)) (mem s) m1) n i
    (fun j => set_entry (base + 4 * j) acc (addr j)) s) as (s' & Hr & m' & -> & H1 & H2).
  - exists (mem s). rewrite set_mem_mem. split_and!; [done|lia|]. by intros b k _ _.
  - intros k s1 Hk (m1 & -> & H1 & H2).
    destruct (Hset (set_mem m1 s) (base + 4 * k) (addr k)) as (m2 & Hr & E & Hl); [unfold lspan; lia|].
    cbn [mem set_mem] in Hl. exists (set_mem m2 s). split; [exact Hr|]. exists m2. split_and!; [done| |].
    + intros j Hj. destruct (Z.eq_dec j k) as [->|Hne]; [done|].
      rewrite (low_load32 _ _ _ _ _ Hl) by (unfold lspan, apart; lia). apply H1. lia.
    + eapply low_only_trans; [eapply low_only_weaken; [exact H2|lia|lia]|].
      eapply low_only_weaken; [exact Hl|lia|lia].
  - exists m'. split_and!; [exact Hr|exact H1|].
    by replace (i + Z.of_nat n - i) with (Z.of_nat n) in H2 by lia.
Qed.

(** A page table filled with 1024 consecutive pages from frame [f] on. *)
Definition pt_maps (m : gmap Z Z) (pt f : Z) : Prop :=
  forall j, 0 <= j < 1024 -> load32 m (pt + 4 * j) = entry_word 3 (f + j).

Lemma fill_pt_runs s pt f :
  lspan pt 4096 -> 0 <= f -> f + 1024 <= 1048576 ->
  exists m', runs (fill_pt pt (f * 4096)) s tt (set_mem m' s) /\ pt_maps m' pt f /\ low_only pt 4096 (mem s) m'.
Proof.
  intros [H1 H2] Hf Hf'.
  destruct (table_loop SetPte (Z.to_nat kPteMaxNum) 0 pt kKPteWritePresentAccess
    (fun j => u32 (f * 4096 + j * PageSize)) s) as (m' & Hr & Hm & Hl).
  - intros s1 e a He. apply SetPte_runs; [done|unfold kKPteWritePresentAccess; lia].
  - lia.
  - lia.
  - change (Z.of_nat (Z.to_nat kPteMaxNum)) with 1024. lia.
  - change (Z.of_nat (Z.to_nat kPteMaxNum)) with 1024 in *. exists m'. split_and!; [exact Hr| |].
    + intros j Hj. rewrite Hm by lia. unfold PageSize. rewrite u32_idem, u32_small by lia.
      f_equal. rewrite <- Z.mul_add_distr_r. by apply Z.div_mul.
    + by rewrite Z.add_0_r in Hl.
Qed.

(** The memory that [PagingInit] sets up: the page directory at [0x1000], the temporary
    table at [0xc000] and the sixteen tables of the direct mapping from [0xd000]. *)
Record paging_mem (m : gmap Z Z) : Prop := {
  pm_pde0 : load32 m 4096 = entry_word 3 12;
  pm_pt0 : pt_maps m 49152 0;
  pm_user i : 1 <= i < 768 -> load32 m (4096 + 4 * i) = entry_word 6 0;
  pm_direct i : 768 <= i < 784 -> load32 m (4096 + 4 * i) = entry_word 3 (13 + (i - 768)) /\
    pt_maps m (53248 + (i - 768) * 4096) ((i - 768) * 1024);
  pm_dynamic i : 784 <= i < 1024 -> load32 m (4096 + 4 * i) = entry_word 2 0;
}.

(** Directory entries [768] to [768 + k - 1] and their tables. *)
Definition direct_filled (m : gmap Z Z) (k : Z) : Prop :=
  forall i, 768 <= i < k -> load32 m (4096 + 4 * i) = entry_word 3 (13 + (i - 768)) /\
    pt_maps m (53248 + (i - 768) * 4096) ((i - 768) * 1024).

Lemma pt_maps_frame a n m m' pt f :
  low_only a n m m' -> lspan pt 4096 -> apart a n pt 4096 -> pt_maps m pt f -> pt_maps m' pt f.
Proof.
  intros Hl Hp Ha Hm j Hj. rewrite (low_load32 _ _ _ _ _ Hl) by (unfold lspan, apart in *; lia). by apply Hm.
Qed.

Lemma direct_loop s :
  exists m', runs (for_ 16 kUPdeNum (fun i =>
      SetPde (4096 + 4 * i) kKPdeWritePresentAccess (53248 + (i - kUPdeNum) * kPtMaxSize) ;;;
      fill_pt (53248 + (i - kUPdeNum) * kPtMaxSize) ((i - kUPdeNum) * (kPteMaxNum * PageSize)))) s tt (set_mem m' s) /\
    direct_filled m' 784 /\
    (forall b k, lspan b (Z.of_nat k) -> apart 7168 64 b (Z.of_nat k) -> apart 53248 65536 b (Z.of_nat k) ->
       load k m' b = load k (mem s) b).
Proof.
  destruct (for_inv (fun k s1 => exists m1, s1 = set_mem m1 s /\ direct_filled m1 k /\
      (forall b j, lspan b (Z.of_nat j) -> apart 7168 64 b (Z.of_nat j) -> apart 53248 65536 b (Z.of_nat j) ->
       load j m1 b = load j (mem s) b)) 16 kUPdeNum (fun i =>
      SetPde (4096 + 4 * i) kKPdeWritePresentAccess (53248 + (i - kUPdeNum) * kPtMaxSize) ;;;
      fill_pt (53248 + (i - kUPdeNum) * kPtMaxSize) ((i - kUPdeNum) * (kPteMaxNum * PageSize))) s)
    as (s' & Hr & m' & -> & H1 & H2); unfold kUPdeNum, kPtMaxSize, kPteMaxNum, PageSize in *.
  - exists (mem s). rewrite set_mem_mem. split_and!; [done| |done]. intros i Hi. lia.
  - intros k s1 Hk (m1 & -> & H1 & H2). change (Z.of_nat 16) with 16 in Hk.
    destruct (SetPde_runs (set_mem m1 s) (4096 + 4 * k) kKPdeWritePresentAccess (53248 + (k - 768) * 4096))
      as (m2 & Hr2 & E2 & L2); [unfold lspan; lia|unfold kKPdeWritePresentAccess; lia|].
    destruct (fill_pt_runs (set_mem m2 s) (53248 + (k - 768) * 4096) ((k - 768) * 1024))
      as (m3 & Hr3 & E3 & L3); [unfold lspan; lia|lia|lia|]. cbn [mem set_mem] in *.
    exists (set_mem m3 s). split.
    { eapply runs_bind; [exact Hr2|]. replace ((k - 768) * (1024 * 4096)) with ((k - 768) * 1024 * 4096) by lia.
      exact Hr3. }
    clear Hr2 Hr3. exists m3. split_and!; [done| |].
    + intros i Hi. destruct (Z.eq_dec i k) as [->|Hne].
      * split; [|exact E3]. rewrite (low_load32 _ _ _ _ _ L3) by (unfold lspan, apart; lia). rewrite E2.
        rewrite u32_small by lia. unfold kKPdeWritePresentAccess. f_equal.
        replace (53248 + (k - 768) * 4096) with ((13 + (k - 768)) * 4096) by lia. by apply Z.div_mul.
      * destruct (H1 i ltac:(lia)) as [P1 P2]. split.
        -- rewrite (low_load32 _ _ _ _ _ L3), (low_load32 _ _ _ _ _ L2) by (unfold lspan, apart; lia). done.
        -- eapply (pt_maps_frame _ _ _ _ _ _ L3); [unfold lspan; lia|unfold apart; lia|].
           eapply (pt_maps_frame _ _ _ _ _ _ L2); [unfold lspan; lia|unfold apart; lia|done].
    + intros b j Hb Ha1 Ha2. rewrite L3, L2 by (done || unfold apart in *; lia). by apply H2.
  - exists m'. split_and!; [exact Hr|exact H1|exact H2].
Qed.

(** ** Loops over pages *)

Fixpoint iter_pages (F : gmap Z Z -> Z -> gmap Z Z) (n : nat) (p : Z) (bm : gmap Z Z) : gmap Z Z :=
  match n with
  | O => bm
  | S n' => iter_pages F n' (p + 1) (F bm p)
  end.

Lemma iter_pages_snoc F n p bm : iter_pages F (S n) p bm = F (iter_pages F n p bm) (p + Z.of_nat n).
Proof.
  revert p bm. induction n as [|n IH]; intros p bm; [cbn; by rewrite Z.add_0_r|].
  change (iter_pages F (S (S n)) p bm) with (iter_pages F (S n) (p + 1) (F bm p)). rewrite IH.
  cbn [iter_pages]. f_equal. lia.
Qed.

(** A bit that is clear stays clear when bits are cleared, and the bits of the range
    become clear. *)
Lemma iter_clear n p bm j :
  p <= j < p + Z.of_nat n \/ IsBitmapSet bm j = false ->
  IsBitmapSet (iter_pages ClearBitmap n p bm) j = false.
Proof.
  revert p bm. induction n as [|n IH]; intros p bm Hj; cbn [iter_pages].
  - destruct Hj as [Hj|Hj]; [lia|done].
  - apply IH. rewrite IsBitmapSet_ClearBitmap. destruct (Z.eq_dec j p) as [->|Hne].
    + right. by rewrite same_slot_refl.
    + destruct Hj as [Hj|Hj]; [left; lia|right; by rewrite Hj, andb_false_r].
Qed.

Lemma GetPageNo_page p : 0 <= p < 1048576 -> GetPageNo (4096 * p) = p.
Proof.
  intros. unfold GetPageNo, PageSize. rewrite u32_small, (Z.mul_comm 4096), Z.div_mul by lia.
  apply i32_small. lia.
Qed.

Section PageLoops.
Context (F : gmap Z Z -> Z -> gmap Z Z).
Let act (n : Z) : K unit := modify (fun s => set_page_state (F (page_state s) n) s).

Lemma page_while_runs n fuel cond p s :
  (forall q, p <= q < p + Z.of_nat n -> cond (4096 * q) = true) ->
  cond (u32 (4096 * (p + Z.of_nat n))) = false ->
  0 <= p < 1048576 -> p + Z.of_nat n <= 1048576 -> (n < fuel)%nat ->
  runs (page_while fuel cond act (4096 * p)) s (u32 (4096 * (p + Z.of_nat n)))
    (set_page_state (iter_pages F n p (page_state s)) s).
Proof.
  revert fuel p s. induction n as [|n IH]; intros fuel p s Hc He Hp Hn Hf; (destruct fuel as [|fuel]; [lia|]).
  - change (Z.of_nat 0) with 0 in *. rewrite Z.add_0_r in *. rewrite u32_small in * by lia. apply loop_exit.
    rewrite He. by destruct s.
  - eapply loop_step.
    + rewrite Hc by lia. eapply runs_bind; [reflexivity|]. reflexivity.
    + rewrite GetPageNo_page by lia. cbn [iter_pages].
      replace (u32 (4096 * p + PageSize)) with (u32 (4096 * (p + 1))) by (f_equal; unfold PageSize; lia).
      replace (p + Z.of_nat (S n)) with (p + 1 + Z.of_nat n) in * by lia.
      destruct (Z.eq_dec (p + 1) 1048576) as [E|E].
      * assert (n = 0%nat) as -> by lia. rewrite E in *. destruct fuel as [|fuel]; [lia|]. apply loop_exit.
        change (Z.of_nat 0) with 0 in *. rewrite Z.add_0_r in *. by rewrite He.
      * rewrite (u32_small (4096 * (p + 1))) by lia.
        apply (IH fuel (p + 1) (set_page_state (F (page_state s) p) s)); [|done|lia|lia|lia].
        intros q Hq. apply Hc. lia.
Qed.

Lemma for_pages_runs n i s :
  runs (for_ n i act) s tt (set_page_state (iter_pages F n i (page_state s)) s).
Proof.
  revert i s. induction n as [|n IH]; intros i s; [by destruct s|]. eapply for_step; [reflexivity|].
  apply (IH (i + 1) (set_page_state (F (page_state s) i) s)).
Qed.
End PageLoops.

(** ** The table of available memory *)

(** The entries from [t] on, ended by a size of [0xffffffff]. *)
Fixpoint regs_at (m : gmap Z Z) (t : Z) (l : list (Z * Z)) : Prop :=
  match l with
  | [] => load32 m (t + 4) = UINT32_MAX
  | (b, z) :: l' => load32 m t = b /\ load32 m (t + 4) = z /\ z <> UINT32_MAX /\ regs_at m (t + 8) l'
  end.

(** A region that ends before the last two pages of the address space (beyond that
    [addr + PageSize] wraps around and the loops do not stop). *)
Definition reg_ok (r : Z * Z) : Prop := 0 <= r.1 /\ 0 <= r.2 /\ r.1 + r.2 <= 4294959104.

(** The page reached after a region, from page [p]. *)
Definition next_page (p : Z) (r : Z * Z) : Z :=
  Z.max (Z.max p ((r.1 + 4095) / 4096)) ((r.1 + r.2) / 4096).

Definition last_page (regs : list (Z * Z)) : Z := fold_left next_page regs 0.

Lemma next_page_range p r : reg_ok r -> 0 <= p < 1048575 -> 0 <= next_page p r < 1048575.
Proof.
  intros (H1 & H2 & H3) Hp. unfold next_page. destruct r as [b z]. cbn in *.
  assert ((b + 4095) / 4096 < 1048575) by (apply Z.div_lt_upper_bound; lia).
  assert ((b + z) / 4096 < 1048575) by (apply Z.div_lt_upper_bound; lia). lia.
Qed.

(** One region. *)
Lemma region_runs fuel p b z s :
  reg_ok (b, z) -> 0 <= p < 1048575 -> (Z.to_nat 1048576 < fuel)%nat ->
  exists ps', runs (addr <- page_while fuel (fun addr => addr <? b) set_page (4096 * p) ;;
      addr <- page_while fuel (fun addr => u32 (addr + PageSize) <=? u32 (b + z)) clear_page_bit addr ;;
      ret addr) s (4096 * next_page p (b, z)) (set_page_state ps' s).
Proof.
  intros (Hb & Hz & Hbz) Hp Hf. cbn in Hb, Hz, Hbz.
  set (c := (b + 4095) / 4096). set (e := (b + z) / 4096).
  assert (c < 1048575) as Hc by (apply Z.div_lt_upper_bound; lia).
  assert (e < 1048575) as He by (apply Z.div_lt_upper_bound; lia).
  assert (forall q, 4096 * q < b <-> q < c) as Hqc.
  { intros q. unfold c. Z.div_mod_to_equations. lia. }
  assert (forall q, 4096 * (q + 1) <= b + z <-> q < e) as Hqe.
  { intros q. unfold e. Z.div_mod_to_equations. lia. }
  set (p1 := Z.max p c). set (p2 := Z.max p1 e).
  pose proof (page_while_runs SetBitmap (Z.to_nat (p1 - p)) fuel (fun addr => addr <? b) p s) as R1.
  replace (p + Z.of_nat (Z.to_nat (p1 - p))) with p1 in R1 by lia. rewrite u32_small in R1 by lia.
  set (s1 := set_page_state _ s) in R1.
  pose proof (page_while_runs ClearBitmap (Z.to_nat (p2 - p1)) fuel
    (fun addr => u32 (addr + PageSize) <=? u32 (b + z)) p1 s1) as R2.
  replace (p1 + Z.of_nat (Z.to_nat (p2 - p1))) with p2 in R2 by lia. rewrite (u32_small (4096 * p2)) in R2 by lia.
  eexists. eapply runs_bind; [apply R1|].
  - intros q Hq. apply Z.ltb_lt, Hqc. lia.
  - apply Z.ltb_ge. apply Z.nlt_ge. rewrite Hqc. lia.
  - lia.
  - lia.
  - lia.
  - eapply runs_bind; [apply R2|reflexivity].
    + intros q Hq. apply Z.leb_le. unfold PageSize. rewrite !u32_small by lia.
      replace (4096 * q + 4096) with (4096 * (q + 1)) by lia. apply Hqe. lia.
    + apply Z.leb_gt. apply Z.nle_gt. unfold PageSize. rewrite (u32_small (b + z)) by lia.
      rewrite u32_small by lia. replace (4096 * p2 + 4096) with (4096 * (p2 + 1)) by lia. rewrite Hqe. lia.
    + lia.
    + lia.
    + lia.
Qed.

Lemma avl_loop_runs fuel n t p regs s :
  regs_at (mem s) t regs -> Forall reg_ok regs -> 0 <= p < 1048575 ->
  (Z.to_nat 1048576 < fuel)%nat -> (length regs < n)%nat ->
  exists ps', runs (loop n (fun '(t, addr) =>
      size <- ld32 (t + 4) ;;
      if size =? UINT32_MAX then ret (inr addr)
      else
        base <- ld32 t ;;
        addr <- page_while fuel (fun addr => addr <? base) set_page addr ;;
        addr <- page_while fuel (fun addr => u32 (addr + PageSize) <=? u32 (base + size)) clear_page_bit addr ;;
        ret (inl (t + 8, addr))) (t, 4096 * p)) s (4096 * fold_left next_page regs p) (set_page_state ps' s) /\
    0 <= fold_left next_page regs p < 1048575.
Proof.
  intros Hat Hok Hp Hf. revert n t p s Hat Hp. induction regs as [|[b z] regs IH]; intros n t p s Hat Hp Hn;
    (destruct n as [|n]; [cbn in Hn; lia|]); cbn [regs_at] in Hat.
  - exists (page_state s). split; [|done]. apply loop_exit. eapply runs_bind; [apply runs_ld32|]. cbv beta.
    rewrite Hat, Z.eqb_refl. by destruct s.
  - destruct Hat as (Eb & Ez & Hz & Hat). apply Forall_cons in Hok as [Hr Hok].
    destruct (region_runs fuel p b z s Hr Hp Hf) as (ps1 & Hr1).
    pose proof (next_page_range p (b, z) Hr Hp) as Hp1.
    destruct (IH Hok n (t + 8) (next_page p (b, z)) (set_page_state ps1 s) Hat Hp1) as (ps2 & Hr2 & Hp2);
      [cbn in Hn; lia|].
    exists ps2. split; [|exact Hp2]. eapply loop_step; [|exact Hr2].
    eapply runs_bind; [apply runs_ld32|]. cbv beta. rewrite Ez, (proj2 (Z.eqb_neq _ _)) by done.
    eapply runs_bind; [apply runs_ld32|]. cbv beta. rewrite Eb.
    unfold runs, bind in Hr1 |- *.
    destruct (page_while fuel _ set_page _ _) as [[a1 s1]| | | |]; [|done..].
    destruct (page_while fuel _ clear_page_bit _ _) as [[a2 s2]| | | |]; [|done..].
    unfold ret in Hr1 |- *. injection Hr1 as -> ->. done.
Qed.

Lemma PageAllocatorInit_runs fuel regs s :
  regs_at (mem s) kAvlMemAddr regs -> Forall reg_ok regs -> 1 <= last_page regs ->
  (Z.to_nat 1048576 < fuel)%nat -> (length regs < fuel)%nat ->
  exists ps', runs (PageAllocatorInit fuel) s tt (set_page_state ps' s) /\
    (forall j, last_page regs <= j < 1048576 \/ 0 <= j < 16384 -> IsBitmapSet ps' j = false).
Proof.
  intros Hat Hok Hl Hf Hn. assert (load32 (mem s) (kAvlMemAddr + 4) <> UINT32_MAX) as Hne.
  { destruct regs as [|[b z] regs]; [cbn in Hl; lia|]. cbn in Hat. destruct Hat as (_ & -> & Hz & _). done. }
  destruct (avl_loop_runs fuel fuel kAvlMemAddr 0 regs s Hat Hok ltac:(lia) Hf Hn) as (ps1 & Hr1 & Hp1).
  fold (last_page regs) in Hr1, Hp1. set (P := last_page regs) in *.
  set (s1 := set_page_state ps1 s) in *.
  pose proof (page_while_runs ClearBitmap (Z.to_nat (1048576 - P)) fuel
    (fun addr => negb (GetPageNo addr =? 0)) P s1) as R2.
  replace (P + Z.of_nat (Z.to_nat (1048576 - P))) with 1048576 in R2 by lia.
  set (s2 := set_page_state _ s1) in R2.
  pose proof (for_pages_runs ClearBitmap (Z.to_nat kDynamicMappingStartPage) 0 s2) as R3.
  eexists. split.
  - unfold PageAllocatorInit. eapply runs_bind; [apply runs_ld32|]. cbv beta.
    rewrite (proj2 (Z.eqb_neq _ _)) by done. eapply runs_bind; [reflexivity|]. cbv beta.
    eapply runs_bind; [exact Hr1|]. cbv beta. eapply runs_bind; [apply R2|exact R3].
    + intros q Hq. rewrite GetPageNo_page by lia. destruct (Z.eqb_spec q 0); [lia|done].
    + reflexivity.
    + lia.
    + lia.
    + lia.
  - clear. intros j Hj. apply iter_clear. destruct Hj as [Hj|Hj]; [right|left; unfold kDynamicMappingStartPage; lia].
    change (page_state s2) with (iter_pages ClearBitmap (Z.to_nat (1048576 - P)) P ps1). apply iter_clear. left. lia.
Qed.
