(* ===== verification/PagingSpec.v ===== *)
(** * Properties of paging.c

    The page walk of the processor over the tables that [PagingInit] builds, and the
    allocation of physical pages. *)

From Stdlib Require Import ZArith Lia ZifyBool.
From stdpp Require Import base numbers gmap list.
From S2P Require Import Prelude Memory Machine Bits AsmWrapper Console Allocator Paging.

(** ** The page walk over the entries that [SetPde] and [SetPte] write *)

Lemma entry_word_present acc pg : 0 <= acc < 4096 -> 0 <= pg -> Z.testbit (entry_word acc pg) 0 = Z.testbit acc 0.
Proof.
  intros Ha Hp. unfold entry_word. rewrite !Z.bit0_odd. rewrite Z.odd_add, Z.odd_mul. cbn. by rewrite xorb_false_r.
Qed.

Lemma entry_word_frame acc pg : 0 <= acc < 4096 -> entry_word acc pg / 4096 = pg.
Proof.
  intros. unfold entry_word. rewrite Z.mul_comm, Z.div_add by lia. rewrite Z.div_small; lia.
Qed.

Lemma va_split va : va / 4096 = 1024 * (va / 4194304) + va / 4096 mod 1024.
Proof.
  pose proof (Z.div_mod (va / 4096) 1024 ltac:(lia)) as E. rewrite Z.div_div in E by lia.
  change (4096 * 1024) with 4194304 in E. lia.
Qed.

(** A directory entry whose table maps consecutive frames from [f]. *)
Lemma translate_mapped m va pt f :
  0 <= va -> load32 m (4096 + 4 * (va / 4194304)) = entry_word 3 pt -> 0 <= pt ->
  pt_maps m (4096 * pt) f -> 0 <= f ->
  translate m 4096 va = Some (4096 * (f + va / 4096 mod 1024) + va mod 4096).
Proof.
  intros Hva Hpde Hpt Hmap Hf. unfold translate. change (4096 * (4096 / 4096)) with 4096. rewrite Hpde.
  rewrite entry_word_present, entry_word_frame by lia. change (Z.testbit 3 0) with true. cbn [negb].
  pose proof (Z.mod_pos_bound (va / 4096) 1024 ltac:(lia)).
  rewrite Hmap by done. rewrite entry_word_present, entry_word_frame by lia. done.
Qed.

Lemma translate_absent m va acc :
  load32 m (4096 + 4 * (va / 4194304)) = entry_word acc 0 -> acc = 2 \/ acc = 6 -> translate m 4096 va = None.
Proof.
  intros Hpde Ha. unfold translate. change (4096 * (4096 / 4096)) with 4096. rewrite Hpde.
  rewrite entry_word_present by lia. by destruct Ha as [->| ->].
Qed.

Lemma translate_paging m va :
  paging_mem m -> 0 <= va < W32 ->
  translate m 4096 va =
    if va <? 4194304 then Some va
    else if (KVA <=? va) && (va <? KVA + 67108864) then Some (va - KVA) else None.
Proof.
  intros [P0 T0 Pu Pd Py] Hva. pose proof (va_split va) as Hs.
  pose proof (Z.div_mod va 4096 ltac:(lia)) as Hd. pose proof (Z.div_mod va 4194304 ltac:(lia)) as Hq.
  pose proof (Z.mod_pos_bound va 4194304 ltac:(lia)).
  set (i := va / 4194304) in *. assert (0 <= i < 1024) as Hi by lia.
  destruct (Z.ltb_spec va 4194304) as [Hlow|Hhigh].
  { assert (i = 0) as Ei by lia. rewrite (translate_mapped m va 12 0); [f_equal; lia|lia| |lia|exact T0|lia].
    fold i. rewrite Ei. exact P0. }
  destruct (Z.leb_spec KVA va) as [Hk|Hk]; cbn [andb].
  2: { apply (translate_absent m va 6); [|auto]. fold i. apply Pu. lia. }
  destruct (Z.ltb_spec va (KVA + 67108864)) as [Hd2|Hd2].
  - destruct (Pd i ltac:(lia)) as [E1 E2].
    rewrite (translate_mapped m va (13 + (i - 768)) ((i - 768) * 1024)); [f_equal; lia|lia|exact E1|lia| |lia].
    by replace (4096 * (13 + (i - 768))) with (53248 + (i - 768) * 4096) by lia.
  - apply (translate_absent m va 2); [|auto]. fold i. apply Py. lia.
Qed.

(** ** The memory after [PagingInit] *)

Lemma paging_tables_runs s :
  exists m', (forall c r s', runs c (set_mem m' s) r s' ->
    runs (let k_pd := DirectMappingPhysAddr kKPdAddr in
      let pt_addr := DirectMappingPhysAddr (kKPtAddr - kPtMaxSize) in
      SetPde k_pd kKPdeWritePresentAccess pt_addr ;;;
      fill_pt pt_addr 0 ;;;
      for_ 767 1 (fun i => SetPde (k_pd + 4 * i) kUPdeWriteAbsentAccess kPdeAbsentAddr) ;;;
      let pt_addr := DirectMappingPhysAddr kKPtAddr in
      for_ 16 kUPdeNum (fun i =>
        SetPde (k_pd + 4 * i) kKPdeWritePresentAccess (pt_addr + (i - kUPdeNum) * kPtMaxSize) ;;;
        fill_pt (pt_addr + (i - kUPdeNum) * kPtMaxSize) ((i - kUPdeNum) * (kPteMaxNum * PageSize))) ;;;
      for_ 240 784 (fun i => SetPde (k_pd + 4 * i) kKPdeWriteAbsentAccess kPdeAbsentAddr) ;;;
      (c : K unit)) s r s') /\ paging_mem m' /\
    (forall b k, lspan b (Z.of_nat k) -> apart 4096 4096 b (Z.of_nat k) -> apart 49152 69632 b (Z.of_nat k) ->
       load k m' b = load k (mem s) b).
Proof.
  change (DirectMappingPhysAddr kKPdAddr) with 4096.
  change (DirectMappingPhysAddr (kKPtAddr - kPtMaxSize)) with 49152.
  change (DirectMappingPhysAddr kKPtAddr) with 53248.
  destruct (SetPde_runs s 4096 kKPdeWritePresentAccess 49152) as (m1 & Hr1 & E1 & L1);
    [unfold lspan; lia|unfold kKPdeWritePresentAccess; lia|].
  destruct (fill_pt_runs (set_mem m1 s) 49152 0) as (m2 & Hr2 & T2 & L2); [unfold lspan; lia|lia|lia|].
  destruct (table_loop SetPde 767 1 4096 kUPdeWriteAbsentAccess (fun _ => kPdeAbsentAddr) (set_mem m2 s))
    as (m3 & Hr3 & E3 & L3);
    [intros; apply SetPde_runs; [done|unfold kUPdeWriteAbsentAccess; lia]|lia|lia|lia|].
  destruct (direct_loop (set_mem m3 s)) as (m4 & Hr4 & D4 & L4).
  destruct (table_loop SetPde 240 784 4096 kKPdeWriteAbsentAccess (fun _ => kPdeAbsentAddr) (set_mem m4 s))
    as (m5 & Hr5 & E5 & L5);
    [intros; apply SetPde_runs; [done|unfold kKPdeWriteAbsentAccess; lia]|lia|lia|lia|].
  exists m5. split.
  { intros c r s' Hc. cbv zeta. eapply runs_bind; [exact Hr1|]. eapply runs_bind; [exact Hr2|].
    eapply runs_bind; [exact Hr3|]. eapply runs_bind; [exact Hr4|]. eapply runs_bind; [exact Hr5|exact Hc]. }
  clear Hr1 Hr2 Hr3 Hr4 Hr5. cbn [mem set_mem] in *.
  change (4 * Z.of_nat 767) with 3068 in L3. change (4 * Z.of_nat 240) with 960 in L5.
  change (4096 + 4 * 1) with 4100 in L3. change (4096 + 4 * 784) with 7232 in L5.
  assert (forall b k, lspan b (Z.of_nat k) -> apart 7168 64 b (Z.of_nat k) -> apart 53248 65536 b (Z.of_nat k) ->
    apart 7232 960 b (Z.of_nat k) -> load k m5 b = load k m3 b) as L35.
  { intros b k Hb A1 A2 A3. rewrite L5, L4 by done. done. }
  split; [constructor|].
  - etransitivity; [apply (L35 4096 4%nat); unfold lspan, apart; lia|].
    etransitivity; [apply (L3 4096 4%nat); unfold lspan, apart; lia|].
    etransitivity; [apply (L2 4096 4%nat); unfold lspan, apart; lia|]. exact E1.
  - intros j Hj. etransitivity; [apply (L35 _ 4%nat); unfold lspan, apart; lia|].
    etransitivity; [apply (L3 _ 4%nat); unfold lspan, apart; lia|]. exact (T2 j Hj).
  - intros i Hi. etransitivity; [apply (L35 _ 4%nat); unfold lspan, apart; lia|]. exact (E3 i ltac:(lia)).
  - intros i Hi. destruct (D4 i Hi) as [D1 D2]. split.
    + etransitivity; [apply (L5 _ 4%nat); unfold lspan, apart; lia|exact D1].
    + eapply (pt_maps_frame _ _ _ _ _ _ L5); [unfold lspan; lia|unfold apart; lia|exact D2].
  - intros i Hi. rewrite E5 by lia. done.
  - intros b k Hb A1 A2. rewrite L35, L3, L2, L1 by (done || unfold apart in *; lia). done.
Qed.

(** ** Requests for pages *)

Lemma req_page_from_spec n i s :
  0 <= i -> i + Z.of_nat n <= 1048576 ->
  (exists j, i <= j < i + Z.of_nat n /\ IsBitmapSet (page_state s) j = false /\
     (forall k, i <= k < j -> IsBitmapSet (page_state s) k = true) /\
     runs (req_page_from n i) s (4096 * j) (set_page_state (SetBitmap (page_state s) j) s)) \/
  ((forall k, i <= k < i + Z.of_nat n -> IsBitmapSet (page_state s) k = true) /\
   runs (req_page_from n i) s 0 s).
Proof.
  revert i. induction n as [|n IH]; intros i Hi Hn.
  { right. split; [lia|reflexivity]. }
  cbn [req_page_from]. destruct (IsBitmapSet (page_state s) i) eqn:E.
  - assert (forall r s', runs (req_page_from n (i + 1)) s r s' ->
      runs (used <- gets (fun s => IsBitmapSet (page_state s) i) ;;
        if negb used then set_page i ;;; ret (u32 (GetPagePhysAddr i)) else req_page_from n (i + 1)) s r s') as Hrun.
    { intros r s' Hr. eapply runs_bind; [reflexivity|]. cbv beta. rewrite E. exact Hr. }
    destruct (IH (i + 1)) as [(j & Hj & Hfree & Hmin & Hr)|[Hall Hr]]; [lia|lia| |].
    + left. exists j. split_and!; [lia|lia|done| |by apply Hrun].
      intros k Hk. destruct (Z.eq_dec k i) as [->|]; [done|]. apply Hmin. lia.
    + right. split; [|by apply Hrun]. intros k Hk. destruct (Z.eq_dec k i) as [->|]; [done|]. apply Hall. lia.
  - left. exists i. split_and!; [lia|lia|done|lia|]. eapply runs_bind; [reflexivity|]. cbv beta. rewrite E.
    eapply runs_bind; [reflexivity|]. unfold GetPagePhysAddr, PageSize. rewrite u32_i32, u32_small by lia.
    by rewrite Z.mul_comm.
Qed.

(** The control registers with paging on. *)
Definition paging_cpu (c : Cpu) : Cpu :=
  update_cr 0 (fun v => Z.lor v (shl32 1 31)) (update_cr 4 (fun v => Z.land v (not32 (shl32 1 5))) (set_cr3 4096 c)).

Lemma paging_cpu_on c : Z.testbit (cr0 (paging_cpu c)) 31 = true /\ Z.testbit (cr4 (paging_cpu c)) 5 = false.
Proof.
  split; cbn [cr0 cr4 paging_cpu update_cr set_cr0 set_cr4].
  - rewrite Z.lor_spec, shl32_1 by lia. rewrite Z.pow2_bits_true by lia. apply orb_true_r.
  - rewrite Z.land_spec, testbit_not32, shl32_1 by lia. rewrite Z.pow2_bits_true by lia. apply andb_false_r.
Qed.

(** The page walk as the address map of the model. *)
Lemma translate_map m va : paging_mem m -> 0 <= va < W32 -> translate m 4096 va =
  if (va <? 4194304) || ((KVA <=? va) && (va <? KVA + 67108864)) then Some (phys va) else None.
Proof.
  intros Hm Hva. rewrite translate_paging by done. destruct (Z.ltb_spec va 4194304); cbn [orb].
  - by rewrite phys_low by lia.
  - destruct (Z.leb_spec KVA va), (Z.ltb_spec va (KVA + 67108864)); cbn [andb]; try done.
    by rewrite phys_high by lia.
Qed.

Lemma PagingInit_mem fuel regs s :
  regs_at (mem s) kAvlMemAddr regs -> Forall reg_ok regs -> 1 <= last_page regs ->
  (Z.to_nat 1048576 < fuel)%nat -> (length regs < fuel)%nat ->
  exists ps m', runs (PagingInit fuel) s tt (set_mem m' (set_page_state ps (set_cpu (paging_cpu (cpu s)) s))) /\ paging_mem m' /\
    (forall b k, lspan b (Z.of_nat k) -> apart 4096 4096 b (Z.of_nat k) -> apart 49152 69632 b (Z.of_nat k) ->
       load k m' b = load k (mem s) b).
Proof.
  intros Hat Hok Hl Hf Hn. destruct (PageAllocatorInit_runs fuel regs s Hat Hok Hl Hf Hn) as (ps & Hr1 & _).
  destruct (paging_tables_runs (set_cpu (set_cr3 4096 (cpu s)) (set_page_state ps s))) as (m' & Hr2 & Hpm & Hfr).
  exists ps, m'. split_and!; [|exact Hpm|exact Hfr].
  unfold PagingInit. eapply runs_bind; [exact Hr1|]. cbv beta. eapply runs_bind; [reflexivity|]. cbv beta.
  apply Hr2. eapply runs_bind; reflexivity.
Qed.

(** Paging turned on, for every page allocator state. *)
Lemma PagingInit_runs fuel regs s :
  regs_at (mem s) kAvlMemAddr regs -> Forall reg_ok regs -> 1 <= last_page regs ->
  (Z.to_nat 1048576 < fuel)%nat -> (length regs < fuel)%nat ->
  exists s', runs (PagingInit fuel) s tt s' /\
    cr3 (cpu s') = 4096 /\ Z.testbit (cr0 (cpu s')) 31 = true /\ Z.testbit (cr4 (cpu s')) 5 = false /\
    (forall va, 0 <= va < W32 -> translate (mem s') (cr3 (cpu s')) va =
       if (va <? 4194304) || ((KVA <=? va) && (va <? KVA + 67108864)) then Some (phys va) else None).
Proof.
  intros Hat Hok Hl Hf Hn. destruct (PagingInit_mem fuel regs s Hat Hok Hl Hf Hn) as (ps & m' & Hr & Hpm & _).
  eexists. split_and!; [exact Hr|reflexivity|apply paging_cpu_on|apply paging_cpu_on|]. clear Hr.
  intros va Hva. by apply translate_map.
Qed.

(** ** Properties *)

(** C12: [PagingInit] returns and turns paging on with tables under which the processor
    translates every address below 4 MB to itself, every address of the 64 MB from
    [0xc0000000] to the address minus [0xc0000000], and no other address: this is the
    address map that the rest of the development uses for memory ([phys]). *)
Theorem paging_init_translates fuel regs s :
  regs_at (mem s) kAvlMemAddr regs -> Forall reg_ok regs -> 1 <= last_page regs ->
  (Z.to_nat 1048576 < fuel)%nat -> (length regs < fuel)%nat ->
  exists s', runs (PagingInit fuel) s tt s' /\
    cr3 (cpu s') = 4096 /\ Z.testbit (cr0 (cpu s')) 31 = true /\ Z.testbit (cr4 (cpu s')) 5 = false /\
    (forall va, 0 <= va < W32 -> translate (mem s') (cr3 (cpu s')) va =
       if (va <? 4194304) || ((KVA <=? va) && (va <? KVA + 67108864)) then Some (phys va) else None).
Proof. apply PagingInit_runs. Qed.

(** C23: [ReqPage] takes the first page from [0x4000] on whose bit is clear and sets its
    bit, or returns 0, changing nothing, when all bits are set. The page's number is
    always below 4 modulo 32: the bitmap keeps 4 bits per 32 pages, so of every 32
    pages at most four can be handed out. *)
Theorem req_page_first_free s :
  (exists j, 16384 <= j < 1048576 /\ IsBitmapSet (page_state s) j = false /\
     (forall k, 16384 <= k < j -> IsBitmapSet (page_state s) k = true) /\ j mod 32 < 4 /\
     runs ReqPage s (4096 * j) (set_page_state (SetBitmap (page_state s) j) s) /\
     IsBitmapSet (SetBitmap (page_state s) j) j = true) \/
  ((forall k, 16384 <= k < 1048576 -> IsBitmapSet (page_state s) k = true) /\ runs ReqPage s 0 s).
Proof.
  destruct (req_page_from_spec (Z.to_nat (kVirtualPageNum - kDynamicMappingStartPage)) 16384 s)
    as [(j & Hj & Hfree & Hmin & Hr)|[Hall Hr]]; [lia|unfold kVirtualPageNum, kDynamicMappingStartPage; lia| |].
  - left. exists j. unfold kVirtualPageNum, kDynamicMappingStartPage in Hj.
    split_and!; [lia|lia|done|done| |exact Hr|].
    + destruct (Z.lt_ge_cases (j mod 32) 4) as [|Hge]; [done|exfalso].
      pose proof (Z.mod_pos_bound j 32 ltac:(lia)). pose proof (Z.div_mod j 32 ltac:(lia)).
      assert (IsBitmapSet (page_state s) (j - 4) = true) as E by (apply Hmin; lia).
      rewrite IsBitmapSet_testbit in E, Hfree. rewrite !u32_small in E, Hfree by lia.
      assert ((j - 4) / 32 = j / 32) as Ed by (symmetry; apply (Z.div_unique_pos _ _ _ (j mod 32 - 4)); lia).
      assert ((j - 4) mod 4 = j mod 4) as Em.
      { replace (j - 4) with (j + (-1) * 4) by lia. by rewrite Z.mod_add. }
      rewrite Ed, Em in E. congruence.
    + rewrite IsBitmapSet_SetBitmap, same_slot_refl. done.
  - right. split; [|exact Hr]. intros k Hk. apply Hall. unfold kVirtualPageNum, kDynamicMappingStartPage. lia.
Qed.

Fixpoint ReqPageN (n : nat) : K (list Z) :=
  match n with
  | O => ret []
  | S n' => r <- ReqPage ;; rs <- ReqPageN n' ;; ret (r :: rs)
  end.

Lemma ReqPageN_spec n s :
  exists rs ps', runs (ReqPageN n) s rs (set_page_state ps' s) /\ length rs = n /\
    NoDup (filter (fun r => r <> 0) rs) /\
    (forall r, r ∈ rs -> r <> 0 -> exists j, r = 4096 * j /\ 16384 <= j < 1048576 /\
       IsBitmapSet (page_state s) j = false).
Proof.
  revert s. induction n as [|n IH]; intros s.
  { exists [], (page_state s). split_and!; [by destruct s|done|constructor|set_solver]. }
  destruct (req_page_from_spec (Z.to_nat (kVirtualPageNum - kDynamicMappingStartPage)) 16384 s)
    as [(j & Hj & Hfree & Hmin & Hr)|[Hall Hr]]; [lia|unfold kVirtualPageNum, kDynamicMappingStartPage; lia| |];
    unfold kVirtualPageNum, kDynamicMappingStartPage in *.
  - destruct (IH (set_page_state (SetBitmap (page_state s) j) s)) as (rs & ps & Hrs & Hl & Hnd & Hin).
    exists (4096 * j :: rs), ps. split_and!; [eapply runs_bind; [exact Hr|]; eapply runs_bind; [exact Hrs|reflexivity]| | |];
      clear Hr Hrs.
    + cbn. lia.
    + rewrite filter_cons_True by lia. constructor; [|done]. intros Hc.
      apply list_elem_of_filter in Hc as [Hne Hc]. destruct (Hin _ Hc Hne) as (j' & E & Hj' & Hf').
      assert (j' = j) as -> by lia. cbn [page_state set_page_state] in Hf'.
      rewrite IsBitmapSet_SetBitmap, same_slot_refl in Hf'. done.
    + intros r Hr Hne. apply elem_of_cons in Hr as [->|Hr].
      * exists j. split_and!; [done|lia|lia|done].
      * destruct (Hin r Hr Hne) as (j' & E & Hj' & Hf'). exists j'. split_and!; [done|lia|lia|].
        cbn [page_state set_page_state] in Hf'. rewrite IsBitmapSet_SetBitmap in Hf'.
        by apply orb_false_iff in Hf' as [_ ?].
  - destruct (IH s) as (rs & ps & Hrs & Hl & Hnd & Hin).
    exists (0 :: rs), ps. split_and!; [eapply runs_bind; [exact Hr|]; eapply runs_bind; [exact Hrs|reflexivity]| | |];
      clear Hr Hrs.
    + cbn. lia.
    + rewrite filter_cons_False by lia. done.
    + intros r Hr Hne. apply elem_of_cons in Hr as [->|Hr]; [done|]. by apply Hin.
Qed.

(** C22: no page is handed out twice: the pages returned by any number of requests without
    a release in between are pairwise different, are aligned, lie above the 64 MB of the
    direct mapping, and were free before. *)
Theorem req_page_distinct n s :
  exists rs s', runs (ReqPageN n) s rs s' /\ length rs = n /\ NoDup (filter (fun r => r <> 0) rs) /\
    forall r, r ∈ rs -> r <> 0 -> r mod 4096 = 0 /\ 67108864 <= r < W32 /\
      IsBitmapSet (page_state s) (r / 4096) = false.
Proof.
  destruct (ReqPageN_spec n s) as (rs & ps & Hr & Hl & Hnd & Hin).
  exists rs, (set_page_state ps s). split_and!; [exact Hr|exact Hl|exact Hnd|]. clear Hr.
  intros r Hr Hne. destruct (Hin r Hr Hne) as (j & -> & Hj & Hf).
  rewrite (Z.mul_comm 4096), Z.mod_mul, Z.div_mul by lia. split_and!; [done|lia|lia|done].
Qed.

(** C38: [PageAllocatorInit] returns, and marks every page after the last available
    region as free (as well as the first 64 MB), although the comment and the loop's
    purpose are to mark them unavailable: later requests hand out memory that does not
    exist. *)
Theorem page_init_frees_missing fuel regs s :
  regs_at (mem s) kAvlMemAddr regs -> Forall reg_ok regs -> 1 <= last_page regs ->
  (Z.to_nat 1048576 < fuel)%nat -> (length regs < fuel)%nat ->
  exists s', runs (PageAllocatorInit fuel) s tt s' /\
    forall j, last_page regs <= j < 1048576 -> IsBitmapSet (page_state s') j = false.
Proof.
  intros Hat Hok Hl Hf Hn. destruct (PageAllocatorInit_runs fuel regs s Hat Hok Hl Hf Hn) as (ps & Hr & Hfree).
  exists (set_page_state ps s). split; [exact Hr|]. intros j Hj. apply Hfree. auto.
Qed.

(** One region: 127 MB from 1 MB. *)
Definition avl_example : kstate :=
  set_mem (store32 (store32 (store32 ∅ 131072 1048576) 131076 133169152) 131084 4294967295) zero_state.

Lemma avl_example_ok :
  regs_at (mem avl_example) kAvlMemAddr [(1048576, 133169152)] /\
  Forall reg_ok [(1048576, 133169152)] /\ last_page [(1048576, 133169152)] = 32768.
Proof.
  split_and!; [vm_compute; repeat split; discriminate| |reflexivity].
  repeat constructor; cbn; lia.
Qed.

Lemma paging_init_translates_witness :
  exists s', runs (PagingInit (Z.to_nat 1048580)) avl_example tt s' /\
    translate (mem s') (cr3 (cpu s')) 3221225472 = Some 0 /\
    translate (mem s') (cr3 (cpu s')) 1073741824 = None.
Proof.
  destruct avl_example_ok as (H1 & H2 & H3).
  destruct (paging_init_translates (Z.to_nat 1048580) [(1048576, 133169152)] avl_example)
    as (s' & Hr & _ & _ & _ & Ht).
  - exact H1.
  - exact H2.
  - rewrite H3. lia.
  - lia.
  - cbn [length]. lia.
  - exists s'. split; [exact Hr|]. clear Hr. split; [rewrite Ht by lia; reflexivity|].
    rewrite Ht by lia. reflexivity.
Defined.

Lemma page_init_frees_missing_witness :
  exists s', runs (PageAllocatorInit (Z.to_nat 1048580)) avl_example tt s' /\
    IsBitmapSet (page_state s') 1000000 = false.
Proof.
  destruct avl_example_ok as (H1 & H2 & H3).
  destruct (page_init_frees_missing (Z.to_nat 1048580) [(1048576, 133169152)] avl_example)
    as (s' & Hr & Hf).
  - exact H1.
  - exact H2.
  - rewrite H3. lia.
  - lia.
  - cbn [length]. lia.
  - exists s'. split; [exact Hr|]. apply Hf. rewrite H3. lia.
Defined.
