(* ===== verification/Thread.v ===== *)
(** * thread/thread.c, thread/switch_reg.S: threads and the context switch

    A [Thread] is 24 bytes: [tid] at offset 0, [stack_addr] 4, [pcb] 8, [esp] 12, [node] 16,
    [sibling] 20. [SwitchReg] is the assembly of switch_reg.S, instruction by
    instruction, on the processor state and the stack in memory. What the C code
    after the call of [SwitchReg] does is executed by the thread that is switched to,
    and only when its return address is the one in [ThreadSwitch]: a fresh kernel thread
    returns to its start function instead.

    The stack is modelled where the kernel's data structures depend on it, at the
    context switch; the frames of the C functions themselves are not. *)

From Stdlib Require Import ZArith Lia ZifyBool.
From stdpp Require Import base numbers gmap list.
From S2P Require Import Prelude Memory Machine Bits AsmWrapper Lists Allocator Queues Paging.

Definition kThreadPoolInitNum : Z := 128.
Definition kMainStackAddr : Z := 48128.
Definition kKStackSize : Z := 4096.
Definition sizeof_Thread : Z := 24.

(** Fields of [Thread], [Pcb] ([pid] 0, [page_dir] 4, [state] 8, [thread_list] 44) and
    [Tss] ([esp0] 4). *)
Definition t_stack_addr (t : Z) : Z := u32 (t + 4).
Definition t_pcb (t : Z) : Z := u32 (t + 8).
Definition t_esp (t : Z) : Z := u32 (t + 12).
Definition t_node (t : Z) : Z := u32 (t + 16).
Definition t_sibling (t : Z) : Z := u32 (t + 20).
Definition p_page_dir (p : Z) : Z := u32 (p + 4).
Definition p_state (p : Z) : Z := u32 (p + 8).
Definition p_thread_list (p : Z) : Z := u32 (p + 44).

(** [enum ProcState] *)
Definition WAIT : Z := 0.
Definition RUN : Z := 1.
Definition DIE : Z := 2.

Definition GetKPcb : K Z := gets (fun s => k_pcb (proc s)).

Definition GetCurThread : K Z :=
  t <- gets tss ;;
  esp0 <- ld32 (u32 (t + 4)) ;;
  ld32 esp0.

(** ** Machine code of switch_reg.S *)

Definition set_reg (f : Cpu -> Cpu) : K unit := modify (fun s => set_cpu (f (cpu s)) s).

Definition pushl (v : Z) : K unit :=
  e <- gets (fun s => esp (cpu s)) ;;
  set_reg (set_esp (u32 (e - 4))) ;;;
  st32 (u32 (e - 4)) v.

Definition popl : K Z :=
  e <- gets (fun s => esp (cpu s)) ;;
  v <- ld32 e ;;
  set_reg (set_esp (u32 (e + 4))) ;;;
  ret v.

Definition SwitchReg : K unit :=
  e <- gets (fun s => esp (cpu s)) ;;
  v <- ld32 (u32 (e + 4)) ;; set_reg (set_eax v) ;;;
  v <- ld32 (u32 (e + 8)) ;; set_reg (set_edx v) ;;;
  rbx <- gets (fun s => ebx (cpu s)) ;; pushl rbx ;;;
  rsi <- gets (fun s => esi (cpu s)) ;; pushl rsi ;;;
  rdi <- gets (fun s => edi (cpu s)) ;; pushl rdi ;;;
  rbp <- gets (fun s => ebp (cpu s)) ;; pushl rbp ;;;
  cur <- gets (fun s => esp (cpu s)) ;; a <- gets (fun s => eax (cpu s)) ;; st32 a cur ;;;
  d <- gets (fun s => edx (cpu s)) ;; new <- ld32 d ;; set_reg (set_esp new) ;;;
  v <- popl ;; set_reg (set_ebp v) ;;;
  v <- popl ;; set_reg (set_edi v) ;;;
  v <- popl ;; set_reg (set_esi v) ;;;
  v <- popl ;; set_reg (set_ebx v) ;;;
  intr_enable ;;;
  v <- popl ;; set_reg (set_eip v).

Section Thread.
Context `{Platform}.

(** The call in [ThreadSwitch]: arguments from right to left, then the return address. *)
Definition call_SwitchReg (cur_esp new_esp : Z) : K unit :=
  pushl new_esp ;;;
  pushl cur_esp ;;;
  pushl ThreadSwitch_ret ;;;
  SwitchReg.

(** One round of the loop of [ThreadInit]. *)
Definition init_thread (thread i : Z) : K unit :=
  let current := u32 (thread + 16 + sizeof_Thread * i) in
  st32 (GET_STRUCT current 16) (kThreadPoolInitNum - i) ;;;
  fl <- gets (fun s => free_thread_list (thr s)) ;;
  ListAdd fl current.

Definition ThreadInit (fuel : nat) : K unit :=
  thread <- ReqBytes fuel (kThreadPoolInitNum * sizeof_Thread) ;;
  if thread =? 0 then modify (fun s => set_thr (set_free_thread_list 0 (thr s)) s)
  else
    l <- List fuel ;;
    modify (fun s => set_thr (set_free_thread_list l (thr s)) s) ;;;
    for_ (Z.to_nat kThreadPoolInitNum) 0 (init_thread thread) ;;;
    q <- queue fuel ;;
    modify (fun s => set_thr (set_wait_thread_queue q (thr s)) s) ;;;
    b <- List fuel ;;
    modify (fun s => set_thr (set_block_thread_list b (thr s)) s) ;;;
    k_main <- ReqBytes fuel sizeof_Thread ;;
    kp <- GetKPcb ;;
    st32 (t_pcb k_main) kp ;;;
    st32 (t_stack_addr k_main) kMainStackAddr ;;;
    st32 (t_esp k_main) (kMainStackAddr - 4) ;;;
    t <- ld32 (t_esp k_main) ;;
    st32 t k_main ;;;
    st32 k_main 0 ;;;
    st32 (t_node k_main) 0 ;;;
    ts <- gets tss ;;
    e <- ld32 (t_esp k_main) ;;
    st32 (u32 (ts + 4)) e.

Definition CreateThread (fuel : nat) (pcb : Z) : K Z :=
  fl <- gets (fun s => free_thread_list (thr s)) ;;
  e <- IsListEmpty fl ;;
  if e then ret 0
  else
    fl <- gets (fun s => free_thread_list (thr s)) ;;
    node <- ListRemove fl ;;
    let new_thread := GET_STRUCT node 16 in
    stk <- ReqBytes fuel kKStackSize ;;
    st32 (t_stack_addr new_thread) (u32 (kKStackSize + stk - 1)) ;;;
    st32 (t_pcb new_thread) pcb ;;;
    sa <- ld32 (t_stack_addr new_thread) ;;
    st32 (t_esp new_thread) (u32 (sa - 4)) ;;;
    t <- ld32 (t_esp new_thread) ;;
    st32 t new_thread ;;;
    ListAdd (p_thread_list pcb) (t_node new_thread) ;;;
    ret new_thread.

(** [thread->pcb] is cleared first and read again for the list: the list walked is the
    one at offset 44 of the null pointer. *)
Definition DestructThread (fuel : nat) (thread : Z) : K unit :=
  st32 (t_pcb thread) 0 ;;;
  sa <- ld32 (t_stack_addr thread) ;;
  RelBytes fuel (u32 (sa - kKStackSize + 1)) ;;;
  pcb <- ld32 (t_pcb thread) ;;
  prev <- loop fuel (fun prev =>
    next <- ld32 prev ;;
    if next =? t_sibling thread then ret (inr prev) else ret (inl next)) (p_thread_list pcb) ;;
  ListRemove prev ;;;
  fl <- gets (fun s => free_thread_list (thr s)) ;;
  ListAdd fl (t_node thread).

(** [ThreadSwitch] from the comparison of the processes on. The switch returns in a thread
    that was suspended here, or enters the start function of a new one. *)
Definition switch_to (cur_thread new_thread : Z) : K unit :=
  cp <- ld32 (t_pcb cur_thread) ;; cpid <- ld32 cp ;;
  np <- ld32 (t_pcb new_thread) ;; npid <- ld32 np ;;
  (if cpid =? npid then ret tt
   else
     np <- ld32 (t_pcb new_thread) ;;
     pd <- ld32 (p_page_dir np) ;;
     SwitchPd (DirectMappingPhysAddr pd) ;;;
     np <- ld32 (t_pcb new_thread) ;;
     st32 (p_state np) RUN ;;;
     cp <- ld32 (t_pcb cur_thread) ;;
     st32 (p_state cp) WAIT) ;;;
  sa <- ld32 (t_stack_addr new_thread) ;;
  ts <- gets tss ;;
  st32 (u32 (ts + 4)) (u32 (sa - 4)) ;;;
  call_SwitchReg (t_esp cur_thread) (t_esp new_thread) ;;;
  pc <- gets (fun s => eip (cpu s)) ;;
  if pc =? ThreadSwitch_ret then
    e <- gets (fun s => esp (cpu s)) ;;
    set_reg (set_esp (u32 (e + 8))) ;;;
    intr_enable
  else enter.

Definition ThreadSwitch : K unit :=
  q <- gets (fun s => wait_thread_queue (thr s)) ;;
  new_node <- Dequeue q ;;
  if new_node =? 0 then ret tt
  else
    cur_thread <- GetCurThread ;;
    q <- gets (fun s => wait_thread_queue (thr s)) ;;
    Enqueue q (t_node cur_thread) ;;;
    switch_to cur_thread (GET_STRUCT new_node 16).

(** [start_func] is the address of the function. *)
Definition KThreadRun (thread start_func : Z) : K unit :=
  p <- ld32 (t_pcb thread) ;;
  pid <- ld32 p ;;
  if pid =? 0 then
    e <- ld32 (t_esp thread) ;;
    st32 (t_esp thread) (u32 (e - 4)) ;;;
    t <- ld32 (t_esp thread) ;;
    st32 t start_func ;;;
    e <- ld32 (t_esp thread) ;;
    st32 (t_esp thread) (u32 (e - 16)) ;;;
    t <- ld32 (t_esp thread) ;;
    st32 t 0 ;;;
    st32 (u32 (t + 4)) 0 ;;;
    st32 (u32 (t + 8)) 0 ;;;
    st32 (u32 (t + 12)) 0 ;;;
    q <- gets (fun s => wait_thread_queue (thr s)) ;;
    Enqueue q (t_node thread)
  else ret tt.

Definition ThreadSleep : K unit :=
  cur_thread <- GetCurThread ;;
  b <- gets (fun s => block_thread_list (thr s)) ;;
  ListAdd b (t_node cur_thread) ;;;
  ThreadSwitch.

Definition ThreadWake (fuel : nat) (thread : Z) : K unit :=
  b <- gets (fun s => block_thread_list (thr s)) ;;
  tmp <- loop fuel (fun tmp =>
    next <- ld32 tmp ;;
    if (next =? b) || (next =? t_node thread) then ret (inr tmp) else ret (inl next)) b ;;
  next <- ld32 tmp ;;
  if next =? t_node thread then
    ListRemove tmp ;;;
    q <- gets (fun s => wait_thread_queue (thr s)) ;;
    Enqueue q (t_node thread)
  else ret tt.

Definition ThreadWakeAll (fuel : nat) (thread_list num : Z) : K unit :=
  for_ (Z.to_nat num) 0 (fun i =>
    t <- ld32 (u32 (thread_list + 4 * i)) ;;
    ThreadWake fuel t).
End Thread.
