(* ===== verification/ContextSwitch.v ===== *)
(** * The context switch

    A suspended thread is what its [esp] field points to: five words on its own stack. The
    theorem of this file: [SwitchReg] saves the running thread and resumes the other one
    exactly, so that switching back restores it. *)

From Stdlib Require Import ZArith Lia ZifyBool.
From stdpp Require Import base numbers gmap list.
From S2P Require Import Prelude Memory Machine Bits AsmWrapper Lists Allocator Queues Paging Thread.

(** ** Words anywhere in the two views *)

Definition wsep (a b : Z) : Prop := span a 4 /\ span b 4 /\ apart (phys a) 4 (phys b) 4.

Lemma span_store32_same m a v : span a 4 -> load32 (store32 m a v) a = u32 v.
Proof. apply (load_store_same 4). Qed.

Lemma span_store32_ne m a b v : wsep a b -> load32 (store32 m a v) b = load32 m b.
Proof. intros (Ha & Hb & Hd). by apply (load_store_ne_phys 4 4). Qed.

(** Memory changed only at physical addresses in [P]. *)
Definition only (P : Z -> Prop) (m m' : gmap Z Z) : Prop :=
  forall b, ~ P (phys b) -> load8 m' b = load8 m b.

Lemma only_trans P m1 m2 m3 : only P m1 m2 -> only P m2 m3 -> only P m1 m3.
Proof. intros H1 H2 b Hb. rewrite H2, H1; done. Qed.

Lemma only_refl P m : only P m m.
Proof. by intros b _. Qed.

Lemma only_mono (P Q : Z -> Prop) m m' : (forall b, P b -> Q b) -> only P m m' -> only Q m m'.
Proof. intros HPQ HP b Hb. apply HP. auto. Qed.

(** The bytes of a region. *)
Definition inr_ (b : Z) (r : Z * Z) : Prop := phys r.1 <= b < phys r.1 + r.2.

Lemma only_store32 (P : Z -> Prop) m a v :
  span a 4 -> (forall i, 0 <= i < 4 -> P (phys a + i)) -> only P m (store32 m a v).
Proof.
  intros Ha HP b Hb. apply (load8_store_ne 4). intros i Hi.
  rewrite (phys_span a 4) by (done || lia). intros E. apply Hb. rewrite <- E. apply HP. lia.
Qed.

Lemma only_load32 (P : Z -> Prop) m m' b :
  only P m m' -> span b 4 -> (forall i, 0 <= i < 4 -> ~ P (phys b + i)) -> load32 m' b = load32 m b.
Proof.
  intros HP Hb Hn. apply (load_ext 4). intros i Hi. apply HP.
  rewrite (phys_span b 4) by (done || lia). apply Hn. lia.
Qed.

(** [regions_ok R]: the byte ranges of [R] lie in the views and do not overlap. *)
Definition regions_ok (R : list (Z * Z)) : Prop :=
  (forall i r, R !! i = Some r -> span r.1 r.2) /\
  (forall i j r1 r2, R !! i = Some r1 -> R !! j = Some r2 -> i <> j ->
     apart (phys r1.1) r1.2 (phys r2.1) r2.2).

Definition spanb (a n : Z) : bool := ((0 <=? a) && (a + n <=? KVA)) || ((KVA <=? a) && (a + n <=? W32)).

Fixpoint regions_okb (R : list (Z * Z)) : bool :=
  match R with
  | [] => true
  | r :: R' => spanb r.1 r.2 &&
      forallb (fun r' => apartb (phys r.1) r.2 (phys r'.1) r'.2) R' && regions_okb R'
  end.

Lemma regions_okb_sound R : regions_okb R = true -> regions_ok R.
Proof.
  induction R as [|r R IH]; cbn [regions_okb].
  - intros _. split; [intros i r; by rewrite lookup_nil|intros i j r1 r2; by rewrite lookup_nil].
  - intros H. apply andb_prop in H as [H H3]. apply andb_prop in H as [H1 H2].
    destruct (IH H3) as [IH1 IH2]. rewrite forallb_forall in H2.
    assert (forall j r', R !! j = Some r' -> apart (phys r.1) r.2 (phys r'.1) r'.2) as Hr.
    { intros j r' Hj. specialize (H2 r' ltac:(apply list_elem_of_In; by eapply list_elem_of_lookup_2)).
      unfold apartb in H2. unfold apart. lia. }
    split.
    + intros [|i] r' Hi; cbn in Hi; [|by eapply IH1]. simplify_eq. unfold spanb in H1. unfold span. lia.
    + intros [|i] [|j] r1 r2 Hi Hj Hne; cbn in Hi, Hj; simplify_eq.
      * by eapply Hr.
      * apply apart_sym. by eapply Hr.
      * eapply IH2; [done|done|lia].
Qed.

(** ** The suspended thread *)

(** What a resumed thread continues with. *)
Record context : Type := mk_context {
  c_esp : Z;
  c_ebp : Z;
  c_edi : Z;
  c_esi : Z;
  c_ebx : Z;
  c_eip : Z;
}.

(** The context of the processor, and the one saved behind the [esp] field at [a]. *)
Definition cpu_context (c : Cpu) : context :=
  mk_context (esp c) (ebp c) (edi c) (esi c) (ebx c) (eip c).

Definition saved (m : gmap Z Z) (a : Z) : context :=
  let e := load32 m a in
  mk_context (e + 20) (load32 m e) (load32 m (e + 4)) (load32 m (e + 8)) (load32 m (e + 12))
    (load32 m (e + 16)).

(** The registers that neither a switch within a process nor an interrupt changes. *)
Definition sys_of (c : Cpu) := (cr0 c, cr1 c, cr2 c, cr3 c, cr4 c, ss c, gdtr c, idtr c, tr c).

(** A saved context survives changes elsewhere. *)
Lemma saved_only (P : Z -> Prop) m m' a f :
  only P m m' -> span a 4 -> load32 m a = f -> span f 20 ->
  (forall i, 0 <= i < 4 -> ~ P (phys a + i)) -> (forall i, 0 <= i < 20 -> ~ P (phys f + i)) ->
  saved m' a = saved m a.
Proof.
  intros Ho Ha Ef Hf Hna Hnf. unfold saved. rewrite (only_load32 P m m' a Ho Ha Hna), Ef.
  assert (forall k, 0 <= k <= 16 -> load32 m' (f + k) = load32 m (f + k)) as Hk.
  { intros k Hk. apply (only_load32 P _ _ _ Ho); [unfold span in *; lia|]. intros i Hi.
    rewrite (phys_span f 20) by (done || lia). replace (phys f + k + i) with (phys f + (k + i)) by lia. apply Hnf. lia. }
  rewrite !Hk by lia. replace (load32 m' f) with (load32 m f); [done|].
  specialize (Hk 0). rewrite !Z.add_0_r in Hk. symmetry. apply Hk. lia.
Qed.

(** Callee-saved registers hold 32-bit values. *)
Definition regs32 (c : Cpu) : Prop :=
  0 <= ebp c < W32 /\ 0 <= edi c < W32 /\ 0 <= esi c < W32 /\ 0 <= ebx c < W32.

(** The two [esp] fields [a] and [b], the 28 bytes below the stack pointer and the
    saved frame of the other thread are separate. *)
Record switchable (m : gmap Z Z) (e a b : Z) : Prop := {
  sw_stack : span (e - 28) 28;
  sw_a : span a 4;
  sw_b : span b 4;
  sw_frame : span (load32 m b) 20;
  sw_top : load32 m b + 20 < W32;
  sw_ab : apart (phys a) 4 (phys b) 4;
  sw_sa : apart (phys (e - 28)) 28 (phys a) 4;
  sw_sb : apart (phys (e - 28)) 28 (phys b) 4;
  sw_sf : apart (phys (e - 28)) 28 (phys (load32 m b)) 20;
  sw_fa : apart (phys (load32 m b)) 20 (phys a) 4;
}.

Definition stack_or (e a : Z) (p : Z) : Prop :=
  phys (e - 28) <= p < phys (e - 28) + 28 \/ phys a <= p < phys a + 4.

(** The memory after the pushes and the store of the stack pointer. *)
Definition switch_mem (m : gmap Z Z) (ra e a b : Z) (c : Cpu) : gmap Z Z :=
  store32 (store32 (store32 (store32 (store32 (store32 (store32 (store32 m
    (e - 28 + 24) b) (e - 28 + 20) a) (e - 28 + 16) ra)
    (e - 28 + 12) (ebx c)) (e - 28 + 8) (esi c)) (e - 28 + 4) (edi c)) (e - 28 + 0) (ebp c)) a (e - 28).

Lemma phys_stack e k : span (e - 28) 28 -> 0 <= k < 28 -> phys (e - 28 + k) = phys (e - 28) + k.
Proof. intros. by apply (phys_span _ 28). Qed.

Lemma switch_mem_only m ra e a b c :
  switchable m e a b -> only (stack_or e a) m (switch_mem m ra e a b c).
Proof.
  intros [Hst Ha _ _ _ _ _ _ _ _]. unfold switch_mem.
  assert (forall k m v, 0 <= k <= 24 -> only (stack_or e a) m (store32 m (e - 28 + k) v)) as Hk.
  { intros k m1 v Hk. apply only_store32; [unfold span in *; lia|]. intros i Hi.
    rewrite phys_stack by (done || lia). unfold stack_or. lia. }
  eapply only_trans; [|apply only_store32; [done|]; intros i Hi; unfold stack_or; lia].
  do 6 (eapply only_trans; [|apply Hk; lia]). apply Hk. lia.
Qed.

Lemma stack_wsep e k l :
  span (e - 28) 28 -> 0 <= k <= 24 -> 0 <= l <= 24 -> 4 <= Z.abs (k - l) ->
  wsep (e - 28 + k) (e - 28 + l).
Proof. intros. unfold wsep. rewrite !phys_stack by (done || lia). unfold span, apart in *. lia. Qed.

(** The words of the saved frame. *)
Lemma switch_mem_reads m ra e a b c (m' := switch_mem m ra e a b c) :
  switchable m e a b -> regs32 c -> 0 <= ra < W32 ->
  load32 m' a = e - 28 /\ load32 m' (e - 28 + 0) = ebp c /\ load32 m' (e - 28 + 4) = edi c /\
  load32 m' (e - 28 + 8) = esi c /\ load32 m' (e - 28 + 12) = ebx c /\ load32 m' (e - 28 + 16) = ra.
Proof.
  intros [Hst Ha _ _ _ _ Hsa _ _ _] (H1 & H2 & H3 & H4) Hra.
  assert (forall k l, 0 <= k <= 24 -> 0 <= l <= 24 -> 4 <= Z.abs (k - l) -> wsep (e - 28 + k) (e - 28 + l)) as Hkl.
  { intros. by apply stack_wsep. }
  assert (forall l, 0 <= l <= 24 -> wsep a (e - 28 + l)) as Hal.
  { intros l Hl. unfold wsep. rewrite phys_stack by (done || lia). unfold span, apart in *. lia. }
  assert (forall m v k, 0 <= k <= 24 -> load32 (store32 m (e - 28 + k) v) (e - 28 + k) = u32 v) as Hs.
  { intros. apply span_store32_same. unfold span in *. lia. }
  unfold m', switch_mem.
  split_and!; [rewrite span_store32_same by done; rewrite u32_small by (unfold span in *; lia); lia|..];
    rewrite span_store32_ne by (apply Hal; lia);
    repeat (rewrite span_store32_ne; [|apply Hkl; lia]); rewrite Hs by lia; by apply u32_small.
Qed.

(** ** Executing the assembly *)

(** The state with memory [m] and registers [c]. *)
Definition at_ (s : kstate) (m : gmap Z Z) (c : Cpu) : kstate := set_mem m (set_cpu c s).

Lemma at_self s : s = at_ s (mem s) (cpu s).
Proof. by destruct s. Qed.

Lemma pushl_at s m c v : 4 <= esp c <= W32 ->
  runs (pushl v) (at_ s m c) tt (at_ s (store32 m (esp c - 4) v) (set_esp (esp c - 4) c)).
Proof. intros. unfold runs, pushl, bind, gets, set_reg, modify, st32. cbn. rewrite u32_small by lia. reflexivity. Qed.

Lemma popl_at s m c : 0 <= esp c < W32 - 4 ->
  runs popl (at_ s m c) (load32 m (esp c)) (at_ s m (set_esp (esp c + 4) c)).
Proof. intros. unfold runs, popl, bind, gets, set_reg, modify, ld32, ret. cbn. rewrite u32_small by lia. reflexivity. Qed.

Lemma set_reg_at s m c f : runs (set_reg f) (at_ s m c) tt (at_ s m (f c)).
Proof. reflexivity. Qed.

Section Switch.
Context `{Platform}.

(** The registers after the switch to the frame at [f] of memory [m]. *)
Definition switched (m : gmap Z Z) (f : Z) (c : Cpu) : Cpu :=
  let c := set_ebx (load32 m (f + 12)) (set_esi (load32 m (f + 8))
    (set_edi (load32 m (f + 4)) (set_ebp (load32 m f) c))) in
  set_eip (load32 m (f + 16)) (set_esp (f + 20) (set_eflags (Z.lor (eflags c) (2 ^ 9)) c)).

(** [SwitchReg] takes its arguments into [eax] and [edx]. *)
Definition with_args (a b : Z) (c : Cpu) : Cpu := set_edx b (set_eax a c).

Lemma pop_into s m c f f' g {A} (k : K A) r s' :
  esp c = f -> f' = f + 4 -> 0 <= f < W32 - 4 ->
  runs k (at_ s m (g (load32 m f) (set_esp f' c))) r s' ->
  runs (v <- popl ;; set_reg (g v) ;;; k) (at_ s m c) r s'.
Proof.
  intros <- -> Hf Hk. eapply runs_bind; [by apply popl_at|].
  eapply runs_bind; [apply set_reg_at|]. exact Hk.
Qed.

Lemma intr_enable_at s m c x {A} (k : K A) r s' :
  eflags c = x -> runs k (at_ s m (set_eflags (Z.lor x (2 ^ 9)) c)) r s' ->
  runs (intr_enable ;;; k) (at_ s m c) r s'.
Proof. intros <- Hk. eapply runs_bind; [reflexivity|exact Hk]. Qed.

Lemma switched_chain m c f :
  set_eip (load32 m (f + 16)) (set_esp (f + 20) (set_eflags (Z.lor (eflags c) (2 ^ 9))
    (set_ebx (load32 m (f + 12)) (set_esp (f + 16) (set_esi (load32 m (f + 8)) (set_esp (f + 12)
      (set_edi (load32 m (f + 4)) (set_esp (f + 8) (set_ebp (load32 m f) (set_esp (f + 4) c)))))))))) =
  switched m f c.
Proof. by destruct c. Qed.

Lemma pops_at s m c f : esp c = f -> 0 <= f -> f + 20 < W32 ->
  runs (v <- popl ;; set_reg (set_ebp v) ;;;
        v <- popl ;; set_reg (set_edi v) ;;;
        v <- popl ;; set_reg (set_esi v) ;;;
        v <- popl ;; set_reg (set_ebx v) ;;;
        intr_enable ;;;
        v <- popl ;; set_reg (set_eip v)) (at_ s m c) tt (at_ s m (switched m f c)).
Proof.
  intros Ef H0 H1. rewrite <- switched_chain.
  apply (pop_into s m c f (f + 4) set_ebp); [done|lia|lia|].
  apply (pop_into s m _ (f + 4) (f + 8) set_edi); [reflexivity|lia|lia|].
  apply (pop_into s m _ (f + 8) (f + 12) set_esi); [reflexivity|lia|lia|].
  apply (pop_into s m _ (f + 12) (f + 16) set_ebx); [reflexivity|lia|lia|].
  apply (intr_enable_at s m _ (eflags c)); [reflexivity|].
  eapply runs_bind; [apply popl_at; change (0 <= f + 16 < W32 - 4); lia|].
  change (esp _) with (f + 16). replace (f + 16 + 4) with (f + 20) by lia. apply set_reg_at.
Qed.

Lemma push_into s m c e e' v {A} (k : K A) r s' :
  esp c = e -> e' = e - 4 -> 4 <= e <= W32 ->
  runs k (at_ s (store32 m e' v) (set_esp e' c)) r s' ->
  runs (pushl v ;;; k) (at_ s m c) r s'.
Proof. intros <- -> He Hk. eapply runs_bind; [by apply pushl_at|exact Hk]. Qed.

Lemma reg_into s m c (f : Cpu -> Z) x {A} (k : Z -> K A) o :
  f c = x -> yields (k x) (at_ s m c) o -> yields (v <- gets (fun s => f (cpu s)) ;; k v) (at_ s m c) o.
Proof. intros <- Hk. eapply yields_bind; [reflexivity|exact Hk]. Qed.

Lemma load_into s m c a x {A} (k : Z -> K A) o :
  load32 m a = x -> yields (k x) (at_ s m c) o -> yields (v <- ld32 a ;; k v) (at_ s m c) o.
Proof. intros <- Hk. eapply yields_bind; [reflexivity|exact Hk]. Qed.

(** The switch runs: the pushes and the store give [switch_mem], and the registers are
    loaded from the other thread's frame. *)
Lemma call_SwitchReg_runs s a b :
  switchable (mem s) (esp (cpu s)) a b -> regs32 (cpu s) -> 0 <= ThreadSwitch_ret < W32 ->
  runs (call_SwitchReg a b) s tt
    (at_ s (switch_mem (mem s) ThreadSwitch_ret (esp (cpu s)) a b (cpu s))
       (switched (switch_mem (mem s) ThreadSwitch_ret (esp (cpu s)) a b (cpu s))
          (load32 (mem s) b) (with_args a b (cpu s)))).
Proof.
  intros Hsw Hregs Hra. set (e := esp (cpu s)) in *. set (m := mem s) in *.
  pose proof (switch_mem_only m ThreadSwitch_ret e a b (cpu s) Hsw) as Ho.
  set (m' := switch_mem m ThreadSwitch_ret e a b (cpu s)) in *.
  destruct Hsw as [Hst Hsa Hsb Hfr Hf Hab Hda Hdb Hdf Hfa].
  assert (0 <= a < W32 /\ 0 <= b < W32) as [Ha Hb] by (unfold span in *; lia).
  assert (28 <= e <= W32) as He by (unfold span in *; lia).
  rewrite (at_self s) at 1. fold m. unfold call_SwitchReg.
  apply (push_into s _ _ e (e - 28 + 24)); [reflexivity|lia|lia|].
  apply (push_into s _ _ (e - 28 + 24) (e - 28 + 20)); [reflexivity|lia|lia|].
  apply (push_into s _ _ (e - 28 + 20) (e - 28 + 16)); [reflexivity|lia|lia|].
  unfold SwitchReg.
  apply (reg_into s _ _ esp (e - 28 + 16)); [reflexivity|].
  rewrite (u32_small (e - 28 + 16 + 4)), (u32_small (e - 28 + 16 + 8)) by lia.
  apply (load_into s _ _ _ a).
  { replace (e - 28 + 16 + 4) with (e - 28 + 20) by lia. rewrite span_store32_ne by (apply stack_wsep; done || lia).
    rewrite span_store32_same by (unfold span in *; lia). by apply u32_small. }
  eapply runs_bind; [apply set_reg_at|]. apply (load_into s _ _ _ b).
  { replace (e - 28 + 16 + 8) with (e - 28 + 24) by lia. rewrite !span_store32_ne by (apply stack_wsep; done || lia).
    rewrite span_store32_same by (unfold span in *; lia). by apply u32_small. }
  eapply runs_bind; [apply set_reg_at|]. apply (reg_into s _ _ ebx (ebx (cpu s))); [reflexivity|].
  apply (push_into s _ _ (e - 28 + 16) (e - 28 + 12)); [reflexivity|lia|lia|].
  apply (reg_into s _ _ esi (esi (cpu s))); [reflexivity|].
  apply (push_into s _ _ (e - 28 + 12) (e - 28 + 8)); [reflexivity|lia|lia|].
  apply (reg_into s _ _ edi (edi (cpu s))); [reflexivity|].
  apply (push_into s _ _ (e - 28 + 8) (e - 28 + 4)); [reflexivity|lia|lia|].
  apply (reg_into s _ _ ebp (ebp (cpu s))); [reflexivity|].
  apply (push_into s _ _ (e - 28 + 4) (e - 28 + 0)); [reflexivity|lia|lia|].
  apply (reg_into s _ _ esp (e - 28)); [change (e - 28 + 0 = e - 28); lia|].
  apply (reg_into s _ _ eax a); [reflexivity|].
  eapply runs_bind; [reflexivity|]. cbv beta.
  match goal with |- runs _ ?st _ _ => change st with (at_ s m' (cpu st)) end.
  apply (reg_into s _ _ edx b); [reflexivity|]. apply (load_into s _ _ _ (load32 m b)).
  { apply (only_load32 (stack_or e a)); [exact Ho|done|]. intros i Hi. unfold stack_or, apart in *. lia. }
  eapply runs_bind; [apply set_reg_at|].
  match goal with |- runs _ (at_ _ _ ?c) _ _ =>
    replace (switched m' (load32 m b) (with_args a b (cpu s))) with (switched m' (load32 m b) c) end.
  - apply pops_at; [reflexivity|apply load32_range|exact Hf].
  - unfold switched, with_args, at_. destruct s as [sm sc]. destruct sc. reflexivity.
Qed.

(** The frame of the other thread survives the switch. *)
Lemma switched_context s a b (m' := switch_mem (mem s) ThreadSwitch_ret (esp (cpu s)) a b (cpu s)) :
  switchable (mem s) (esp (cpu s)) a b ->
  cpu_context (switched m' (load32 (mem s) b) (with_args a b (cpu s))) = saved (mem s) b.
Proof.
  intros Hsw. pose proof (switch_mem_only (mem s) ThreadSwitch_ret _ _ _ (cpu s) Hsw) as Ho. fold m' in Ho.
  destruct Hsw as [Hst Hsa Hsb Hfr Hf Hab Hda Hdb Hdf Hfa]. set (f := load32 (mem s) b) in *.
  assert (forall k, 0 <= k <= 16 -> load32 m' (f + k) = load32 (mem s) (f + k)) as Hk.
  { intros k Hk. apply (only_load32 _ _ _ _ Ho); [unfold span in *; lia|]. intros i Hi.
    rewrite (phys_span f 20) by (done || lia). unfold stack_or, apart in *. lia. }
  unfold cpu_context, switched, with_args, saved. fold f. cbn [set_eax set_edx esp ebp edi esi ebx eip set_eip set_esp set_eflags set_ebx set_esi set_edi set_ebp].
  rewrite !Hk by lia. replace (load32 m' f) with (load32 (mem s) f); [done|].
  specialize (Hk 0). rewrite !Z.add_0_r in Hk. symmetry. apply Hk. lia.
Qed.

(** What the switch saves of the thread that gives up the processor. *)
Definition suspended (c : Cpu) : context :=
  mk_context (esp c - 8) (ebp c) (edi c) (esi c) (ebx c) ThreadSwitch_ret.

Lemma switch_mem_saved s a b (m' := switch_mem (mem s) ThreadSwitch_ret (esp (cpu s)) a b (cpu s)) :
  switchable (mem s) (esp (cpu s)) a b -> regs32 (cpu s) -> 0 <= ThreadSwitch_ret < W32 ->
  saved m' a = suspended (cpu s).
Proof.
  intros Hsw Hr Hra. destruct (switch_mem_reads _ _ _ _ _ _ Hsw Hr Hra) as (E1 & E2 & E3 & E4 & E5 & E6).
  fold m' in E1, E2, E3, E4, E5, E6. rewrite Z.add_0_r in E2. unfold saved, suspended.
  rewrite E1, E2, E3, E4, E5, E6. f_equal. lia.
Qed.

(** C7: a context switch is exact. [SwitchReg] resumes the other thread with precisely the
    callee-saved registers, stack pointer and return address it was suspended with, with interrupts
    enabled, saves the running thread's, and writes only the 28 bytes below the stack
    pointer and the thread's [esp] field. When some thread later switches back, with the
    saved words untouched, the first thread continues in [ThreadSwitch] with the six
    registers of its context ([esp], [ebp], [edi], [esi], [ebx], [eip]) as they were. *)
Theorem switch_context s a b :
  switchable (mem s) (esp (cpu s)) a b -> regs32 (cpu s) -> 0 <= ThreadSwitch_ret < W32 ->
  exists s', runs (call_SwitchReg a b) s tt s' /\
    cpu_context (cpu s') = saved (mem s) b /\ saved (mem s') a = suspended (cpu s) /\
    Z.testbit (eflags (cpu s')) 9 = true /\ only (stack_or (esp (cpu s)) a) (mem s) (mem s') /\
    forall t c, switchable (mem t) (esp (cpu t)) c a -> regs32 (cpu t) ->
      saved (mem t) a = saved (mem s') a ->
      exists t', runs (call_SwitchReg c a) t tt t' /\ cpu_context (cpu t') = suspended (cpu s).
Proof.
  intros Hsw Hr Hra. pose proof (switch_mem_saved s a b Hsw Hr Hra) as Hsv.
  eexists. split_and!; [by apply call_SwitchReg_runs|by apply switched_context|exact Hsv| | |].
  - change (Z.testbit (Z.lor (eflags (cpu s)) (2 ^ 9)) 9 = true). rewrite Z.lor_spec. apply orb_true_r.
  - by apply switch_mem_only.
  - intros t c Hsw' Hr' Hsame. eexists. split; [by apply call_SwitchReg_runs|].
    etransitivity; [by apply switched_context|]. rewrite Hsame. exact Hsv.
Qed.
End Switch.

(** A thread on the stack below [0xc1000fc0] that switches to one suspended with
    the frame at [0xc1001fe8]; their [esp] fields are at [0xc100004c] and [0xc100008c]. *)
Definition switch_example : kstate :=
  set_mem (foldr (fun av m => store32 m av.1 av.2) ∅
    [(3238002828, 3238010856); (3238010856, 5); (3238010860, 6); (3238010864, 7); (3238010868, 8);
     (3238010872, 1060000)])
    (set_cpu (set_esp 3238006720 (set_ebx 1 (set_esi 2 zero_cpu))) zero_state).

Ltac solve_span :=
  vm_compute; first [left; split; discriminate | right; split; discriminate | left; discriminate | right; discriminate].

Lemma switch_context_witness :
  exists s', runs (@call_SwitchReg null_platform 3238002764 3238002828) switch_example tt s' /\
    cpu_context (cpu s') = mk_context 3238010876 5 6 7 8 1060000.
Proof.
  destruct (@switch_context null_platform switch_example 3238002764 3238002828) as (s' & Hr & Hc & _).
  - constructor; try solve_span. vm_compute. reflexivity.
  - vm_compute. repeat split; discriminate.
  - vm_compute. split; [discriminate|reflexivity].
  - exists s'. split; [exact Hr|]. rewrite Hc. vm_compute. reflexivity.
Defined.
