(* ===== verification/Scheduler.v ===== *)
(** * Scheduling

    What [KThreadRun], [ThreadSwitch] and [ThreadSleep] do to the waiting queue, the
    threads and the processor: a new kernel thread starts at its start function,
    [ThreadSwitch] is round robin, and a sleeping thread stays scheduled. *)

From Stdlib Require Import ZArith Lia ZifyBool.
From stdpp Require Import base numbers gmap list.
From S2P Require Import Prelude Memory Machine Bits AsmWrapper Lists Allocator Queues Paging Thread ContextSwitch.

(** ** What the queue operations write *)

Definition qbytes (q h : Z) (xs : list Z) (p : Z) : Prop :=
  phys q <= p < phys q + 8 \/ phys h <= p < phys h + 4 \/
  exists x, x ∈ xs /\ phys x <= p < phys x + 4.

Lemma qbytes_node q h xs x m v : x ∈ h :: xs -> kspan x 4 -> only (qbytes q h xs) m (store32 m x v).
Proof.
  intros Hx Hk. apply only_store32; [by apply kspan_span|]. intros i Hi. unfold qbytes.
  apply elem_of_cons in Hx as [->|Hx]; [lia|]. right. right. exists x. split; [done|lia].
Qed.

Lemma qbytes_tail q h xs m v : kspan q 4 -> kspan (q + 4) 4 -> only (qbytes q h xs) m (store32 m (q + 4) v).
Proof.
  intros Hq Hq4. apply only_store32; [by apply kspan_span|]. intros i Hi. unfold qbytes, kspan in *.
  rewrite !phys_high by lia. lia.
Qed.

Lemma Enqueue_only s q h xs n m' :
  queue_rep (mem s) q h xs -> kspan n 4 -> runs (Enqueue q n) s tt (set_mem m' s) ->
  only (qbytes q h (n :: xs)) (mem s) m'.
Proof.
  intros [_ Et _ (_ & Hk & _)] Hn Hr. rewrite Forall_forall in Hk.
  unfold runs, Enqueue, ListAdd, bind, ld32, gets, st32, modify in Hr. rewrite Et in Hr.
  injection Hr as Hr. subst m'.
  pose proof (tail_of_in h xs) as Htl.
  eapply only_trans; [|apply qbytes_tail; apply Hk; set_solver].
  eapply only_trans; [|by apply qbytes_node; [set_solver|]].
  apply qbytes_node; [set_solver|apply Hk; set_solver].
Qed.

Lemma Dequeue_only s q h x xs m' :
  queue_rep (mem s) q h (x :: xs) -> runs (Dequeue q) s x (set_mem m' s) ->
  only (qbytes q h (x :: xs)) (mem s) m'.
Proof.
  intros HQ Hr. pose proof (IsListEmpty_spec s h _ (queue_clist _ _ _ _ HQ)) as He.
  destruct HQ as [Eh Et Hc (Hnd & Hk & Ha)]. rewrite Forall_forall in Hk. pose proof (circ_head _ _ _ _ Hc) as Ex.
  unfold runs, Dequeue, bind, ld32, gets in Hr. unfold runs in He. rewrite Eh, He, Ex, Et in Hr.
  assert (q + 4 <> h) as Hqh by (apply NoDup_cons in Hnd as [_ Hnd]; apply NoDup_cons in Hnd as [Hnd _]; set_solver).
  destruct (x =? _); unfold st32, modify, ret, ListRemove, bind, ld32, gets, st32, modify in Hr; cbn [mem set_mem] in Hr.
  - rewrite (load32_store32_ne _ (q + 4) h) in Hr by (apply Ha || apply Hk; set_solver).
    rewrite Ex in Hr. injection Hr as Hr. subst m'.
    eapply only_trans; [|apply qbytes_node; [|apply Hk]; set_solver].
    eapply only_trans; [|apply qbytes_node; [|apply Hk]; set_solver].
    apply qbytes_tail; apply Hk; set_solver.
  - rewrite Ex in Hr. injection Hr as Hr. subst m'.
    eapply only_trans; [|apply qbytes_node; [|apply Hk]; set_solver].
    apply qbytes_node; [|apply Hk]; set_solver.
Qed.

Lemma store_into s m c a v {A} (k : K A) o :
  yields k (at_ s (store32 m a v) c) o -> yields (st32 a v ;;; k) (at_ s m c) o.
Proof. intros Hk. eapply yields_bind; [reflexivity|exact Hk]. Qed.

Lemma queue_rep_only (P : Z -> Prop) m m' q h xs :
  queue_rep m q h xs -> only P m m' -> (forall p, qbytes q h xs p -> ~ P p) -> queue_rep m' q h xs.
Proof.
  intros [Eh Et Hc Hok] Ho HP. pose proof Hok as (_ & Hk & _). rewrite Forall_forall in Hk.
  assert (forall w, w ∈ q :: q + 4 :: h :: xs -> load32 m' w = load32 m w) as Hw.
  { intros w Hw. pose proof (Hk w Hw) as Hkw. pose proof (Hk q ltac:(set_solver)) as Hkq.
    apply (only_load32 P); [done|by apply kspan_span|]. intros i Hi. apply HP. unfold qbytes.
    apply elem_of_cons in Hw as [->|Hw]; [lia|]. apply elem_of_cons in Hw as [->|Hw].
    { left. unfold kspan in *. rewrite !phys_high by lia. lia. }
    apply elem_of_cons in Hw as [->|Hw]; [lia|]. right. right. exists w. split; [done|lia]. }
  constructor; [by rewrite Hw by set_solver|by rewrite Hw by set_solver| |done].
  apply (circ_frame (load32 m)); [|done]. intros w Hw'. apply Hw. set_solver.
Qed.

(** ** Starting a kernel thread *)

Definition node_regions (xs : list Z) : list (Z * Z) := map (fun x => (x, 4)) xs.

(** A new thread [t] of the kernel process [p], with stack pointer [e], and the waiting
    queue, at separate places in memory. *)
Record startable (s : kstate) (q h : Z) (xs : list Z) (t p e : Z) : Prop := {
  st_queue : wait_thread_queue (thr s) = q;
  st_rep : queue_rep (mem s) q h xs;
  st_nodes : nodes_ok 4 (t + 16 :: q :: q + 4 :: h :: xs);
  st_kspan : kspan t 24;
  st_pcb : load32 (mem s) (t + 8) = p;
  st_pid : load32 (mem s) p = 0;
  st_esp : load32 (mem s) (t + 12) = e;
  st_sep : regions_ok ([(t, 24); (e - 20, 20); (q, 8); (h, 4); (p, 4)] ++ node_regions xs);
}.

Definition start_bytes (t e p : Z) : Prop :=
  phys t + 12 <= p < phys t + 16 \/ phys (e - 20) <= p < phys (e - 20) + 20.

Definition start_mem (m : gmap Z Z) (t e fn : Z) : gmap Z Z :=
  store32 (store32 (store32 (store32 (store32 (store32 (store32 m (t + 12) (e - 20 + 16))
    (e - 20 + 16) fn) (t + 12) (e - 20)) (e - 20) 0) (e - 20 + 4) 0) (e - 20 + 8) 0) (e - 20 + 12) 0.

Lemma start_mem_only m t e fn :
  span t 24 -> span (e - 20) 20 -> only (start_bytes t e) m (start_mem m t e fn).
Proof.
  intros Ht He.
  assert (forall m v, only (start_bytes t e) m (store32 m (t + 12) v)) as H1.
  { intros. apply only_store32; [unfold span in *; lia|]. intros i Hi.
    rewrite (phys_span t 24) by (done || lia). unfold start_bytes. lia. }
  assert (forall k m v, 0 <= k <= 16 -> only (start_bytes t e) m (store32 m (e - 20 + k) v)) as H2.
  { intros k m1 v Hk. apply only_store32; [unfold span in *; lia|]. intros i Hi.
    rewrite (phys_span (e - 20) 20) by (done || lia). unfold start_bytes. lia. }
  unfold start_mem. do 3 (eapply only_trans; [|apply H2; lia]).
  eapply only_trans; [|apply only_store32; [unfold span in *; lia|intros i Hi; unfold start_bytes; lia]].
  do 2 (eapply only_trans; [|by apply H1 || (apply H2; lia)]). apply H1.
Qed.

Lemma start_mem_saved m t e fn :
  span t 24 -> span (e - 20) 20 -> apart (phys t) 24 (phys (e - 20)) 20 -> 0 <= fn < W32 ->
  saved (start_mem m t e fn) (t + 12) = mk_context e 0 0 0 0 fn.
Proof.
  intros Ht He Hd Hfn.
  assert (forall k, 0 <= k <= 16 -> wsep (e - 20 + k) (t + 12) /\ wsep (t + 12) (e - 20 + k)) as Hte.
  { intros k Hk. unfold wsep. rewrite (phys_span t 24), (phys_span (e - 20) 20) by (done || lia).
    unfold span, apart in *. lia. }
  assert (forall k l, 0 <= k <= 16 -> 0 <= l <= 16 -> 4 <= Z.abs (k - l) -> wsep (e - 20 + k) (e - 20 + l)) as Hkl.
  { intros k l Hk Hl Hkl. unfold wsep. rewrite !(phys_span (e - 20) 20) by (done || lia). unfold span, apart in *. lia. }
  assert (span (t + 12) 4) as Ht4 by (unfold span in *; lia).
  assert (forall k m v, 0 <= k <= 16 -> load32 (store32 m (e - 20 + k) v) (e - 20 + k) = u32 v) as Hs.
  { intros. apply span_store32_same. unfold span in *. lia. }
  unfold saved, start_mem. replace (store32 _ (e - 20) 0) with
    (store32 (store32 (store32 (store32 m (t + 12) (e - 20 + 16)) (e - 20 + 16) fn) (t + 12) (e - 20)) (e - 20 + 0) 0)
    by (by rewrite Z.add_0_r).
  rewrite !(span_store32_ne _ _ (t + 12)) by (apply Hte; lia). rewrite span_store32_same by done.
  rewrite u32_small by (unfold span in *; lia). replace (load32 _ (e - 20)) with
    (load32 (store32 (store32 (store32 (store32 (store32 (store32 (store32 m (t + 12) (e - 20 + 16))
    (e - 20 + 16) fn) (t + 12) (e - 20)) (e - 20 + 0) 0) (e - 20 + 4) 0) (e - 20 + 8) 0) (e - 20 + 12) 0) (e - 20 + 0))
    by (by rewrite Z.add_0_r).
  f_equal; [lia|..]; repeat (rewrite span_store32_ne; [|first [apply Hkl; lia|apply Hte; lia]]);
    rewrite Hs by lia; by apply u32_small.
Qed.

Lemma runs_at s m A (k : K A) r s' : runs k (at_ s m (cpu s)) r s' -> runs k (set_mem m s) r s'.
Proof. destruct s. exact id. Qed.

Lemma KThreadRun_stores s q h xs t p e fn m' :
  startable s q h xs t p e -> 0 <= fn < W32 ->
  runs (Enqueue q (t + 16)) (set_mem (start_mem (mem s) t e fn) s) tt (set_mem m' s) ->
  runs (KThreadRun t fn) s tt (set_mem m' s).
Proof.
  intros [Eq _ _ Hk Ep Epid Ee [Hsp Hsep]] Hfn Hrun.
  pose proof (Hsp 1%nat (e - 20, 20) eq_refl) as He. cbn in He.
  pose proof (Hsep 0%nat 1%nat _ _ eq_refl eq_refl ltac:(lia)) as Hd. cbn in Hd.
  assert (span t 24) as Ht by by apply kspan_span.
  assert (forall k, 0 <= k <= 16 -> wsep (e - 20 + k) (t + 12)) as Hte.
  { intros k Hk'. unfold wsep. rewrite (phys_span t 24), (phys_span (e - 20) 20) by (done || lia).
    unfold span, apart in *. lia. }
  assert (span (t + 12) 4) as Ht4 by (unfold span in *; lia).
  assert (20 <= e < W32) as Hr by (pose proof (load32_range (mem s) (t + 12)); unfold span in *; lia).
  unfold KThreadRun, t_pcb, t_esp, t_node. unfold kspan in Hk.
  rewrite (u32_small (t + 8)), (u32_small (t + 12)), (u32_small (t + 16)) by lia.
  rewrite <- (set_mem_mem s) at 1. apply runs_at.
  apply (load_into _ _ _ _ p); [done|]. apply (load_into _ _ _ _ 0); [done|]. cbn [Z.eqb].
  apply (load_into _ _ _ _ e); [done|]. apply store_into. rewrite (u32_small (e - 4)) by lia.
  apply (load_into _ _ _ _ (e - 20 + 16)); [rewrite span_store32_same by done; rewrite u32_small; lia|].
  apply store_into. apply (load_into _ _ _ _ (e - 20 + 16)).
  { rewrite span_store32_ne by (apply Hte; lia). rewrite span_store32_same by done. rewrite u32_small; lia. }
  rewrite (u32_small (e - 20 + 16 - 16)) by lia. apply store_into.
  apply (load_into _ _ _ _ (e - 20)); [rewrite span_store32_same by done; rewrite u32_small; lia|].
  do 4 apply store_into. rewrite (u32_small (e - 20 + 4)), (u32_small (e - 20 + 8)), (u32_small (e - 20 + 12)) by lia.
  eapply yields_bind; [reflexivity|]. cbn [thr at_ set_mem set_cpu]. rewrite Eq. unfold runs, yields in *. rewrite <- Hrun.
  unfold at_, start_mem. replace (e - 20 + 16 - 16) with (e - 20) by lia. replace (e - 4) with (e - 20 + 16) by lia.
  destruct s; reflexivity.
Qed.

(** The queue is apart from the thread and its stack. *)
Lemma startable_apart s q h xs t p e b :
  startable s q h xs t p e -> qbytes q h xs b ->
  ~ (phys t <= b < phys t + 24) /\ ~ (phys (e - 20) <= b < phys (e - 20) + 20).
Proof.
  intros [_ _ _ _ _ _ _ [Hsp Hsep]] Hb.
  assert (forall i r, ([(q, 8); (h, 4)] ++ (p, 4) :: node_regions xs) !! i = Some r ->
    apart (phys t) 24 (phys r.1) r.2 /\ apart (phys (e - 20)) 20 (phys r.1) r.2) as Hr.
  { intros i r Hi. split; [apply (Hsep 0%nat (2 + i)%nat (t, 24) r)|apply (Hsep 1%nat (2 + i)%nat (e - 20, 20) r)]; done || lia. }
  unfold apart in Hr. destruct Hb as [Hb|[Hb|(x & Hx & Hb)]].
  - specialize (Hr 0%nat _ eq_refl). cbn [fst snd] in Hr. lia.
  - specialize (Hr 1%nat _ eq_refl). cbn [fst snd] in Hr. lia.
  - apply list_elem_of_lookup in Hx as (i & Hi). specialize (Hr (3 + i)%nat (x, 4)). cbn [fst snd] in Hr.
    enough (node_regions xs !! i = Some (x, 4)) as E by (specialize (Hr E); lia).
    unfold node_regions. rewrite list_lookup_fmap. by rewrite Hi.
Qed.

(** [KThreadRun] prepares a kernel thread so that the first switch to it enters its start
    function with an empty stack and zero registers, and puts it at the end of the waiting
    queue. *)
Lemma kthread_start s q h xs t p e fn :
  startable s q h xs t p e -> 0 <= fn < W32 ->
  exists m', runs (KThreadRun t fn) s tt (set_mem m' s) /\
    saved m' (t + 12) = mk_context e 0 0 0 0 fn /\ queue_rep m' q h (xs ++ [t + 16]) /\
    only (fun b => start_bytes t e b \/ qbytes q h (t + 16 :: xs) b) (mem s) m'.
Proof.
  intros Hst Hfn. pose proof (fun b => startable_apart _ _ _ _ _ _ _ b Hst) as Hqb.
  pose proof Hst as [_ HQ Hok Hk _ _ _ [Hsp Hsep]].
  pose proof (Hsp 1%nat (e - 20, 20) eq_refl) as He. cbn in He.
  pose proof (Hsep 0%nat 1%nat _ _ eq_refl eq_refl ltac:(lia)) as Hd. cbn in Hd.
  assert (span t 24) as Ht by by apply kspan_span.
  pose proof (start_mem_only (mem s) t e fn Ht He) as Ho. set (m1 := start_mem (mem s) t e fn) in *.
  assert (queue_rep (mem (set_mem m1 s)) q h xs) as HQ1.
  { apply (queue_rep_only _ _ _ _ _ _ HQ Ho). intros b Hb. apply Hqb in Hb. unfold start_bytes. lia. }
  destruct (Enqueue_spec (set_mem m1 s) q h xs (t + 16) HQ1 Hok) as (m' & Hrun & HQ').
  assert (kspan (t + 16) 4) as Hk16 by (unfold kspan in *; lia).
  pose proof (Enqueue_only _ _ _ _ _ _ HQ1 Hk16 Hrun) as Ho'.
  exists m'. split_and!; [by eapply KThreadRun_stores| |done|].
  2: { eapply only_trans; (eapply only_mono; [|first [exact Ho|exact Ho']]); tauto. }
  rewrite <- (start_mem_saved (mem s) t e fn) by done.
  assert (forall b, qbytes q h (t + 16 :: xs) b ->
    ~ (phys t <= b < phys t + 16) /\ ~ (phys (e - 20) <= b < phys (e - 20) + 20)) as Hqb'.
  { intros b [Hb|[Hb|(x & Hx & Hb)]]; [specialize (Hqb b ltac:(unfold qbytes; lia)); lia..|].
    apply elem_of_cons in Hx as [->|Hx].
    - rewrite (phys_span t 24) in Hb by (done || lia). unfold apart in Hd. lia.
    - specialize (Hqb b). unfold qbytes in Hqb. specialize (Hqb ltac:(right; right; by exists x)). lia. }
  apply (saved_only _ _ _ _ (e - 20) Ho'); cbn [mem set_mem].
  - unfold span in *. lia.
  - assert (load32 m1 (t + 12) + 20 = e) by exact (f_equal c_esp (start_mem_saved (mem s) t e fn Ht He Hd Hfn)). lia.
  - done.
  - intros i Hi HP. apply Hqb' in HP. rewrite (phys_span t 24) in HP by (done || lia). lia.
  - intros i Hi HP. apply Hqb' in HP. lia.
Qed.

(** ** [ThreadSwitch] between threads of one process *)

Section SwitchTo.
Context `{Platform}.

(** A thread resumed in [ThreadSwitch] drops the two arguments of the call. *)
Definition resumed (c : context) : context :=
  if c_eip c =? ThreadSwitch_ret
  then mk_context (c_esp c + 8) (c_ebp c) (c_edi c) (c_esi c) (c_ebx c) (c_eip c)
  else c.

Lemma lor_twice a b : Z.lor (Z.lor a b) b = Z.lor a b.
Proof. by rewrite <- Z.lor_assoc, Z.lor_diag. Qed.

(** Where a switch to a thread suspended at [pc] leads: back from the call of [SwitchReg], or to
    the start of the thread. *)
Definition landed (pc : Z) (s' : kstate) : outcome kstate unit :=
  if pc =? ThreadSwitch_ret then Done (tt, s') else Enter s'.

Definition lands (pc : Z) (c : K unit) (s s' : kstate) : Prop := yields c s (landed pc s').

Lemma lands_bind {A} pc (c : K A) (k : A -> K unit) s a s1 s' :
  runs c s a s1 -> lands pc (k a) s1 s' -> lands pc (bind c k) s s'.
Proof. apply yields_bind. Qed.

Lemma lands_runs c s s' : lands ThreadSwitch_ret c s s' -> runs c s tt s'.
Proof. unfold lands, landed. by rewrite Z.eqb_refl. Qed.

Lemma lands_enters pc c s s' : pc <> ThreadSwitch_ret -> lands pc c s s' -> enters c s s'.
Proof. intros Hne. unfold lands, landed. by rewrite (proj2 (Z.eqb_neq _ _) Hne). Qed.

(** The segment registers: [SwitchReg] leaves them alone. *)
Definition left_of (c : Cpu) := (cs c, ds c, es c, fs c, gs c).

(** The registers that a caller does not expect to keep: [SwitchReg] leaves its arguments in two
    of them. *)
Definition spoilt (c : Cpu) := (eax c, ecx c, edx c).

Lemma switch_to_same s cur new p (sa := load32 (mem s) (new + 4))
    (m3 := store32 (mem s) (tss s + 4) (sa - 4)) :
  kspan cur 24 -> kspan new 24 -> load32 (mem s) (cur + 8) = p -> load32 (mem s) (new + 8) = p ->
  0 <= tss s + 4 < W32 -> 4 <= sa ->
  switchable m3 (esp (cpu s)) (cur + 12) (new + 12) -> regs32 (cpu s) ->
  0 <= ThreadSwitch_ret < W32 -> load32 m3 (new + 12) + 28 < W32 ->
  exists s', lands (c_eip (saved m3 (new + 12))) (switch_to cur new) s s' /\
    mem s' = switch_mem m3 ThreadSwitch_ret (esp (cpu s)) (cur + 12) (new + 12) (cpu s) /\
    cpu_context (cpu s') = resumed (saved m3 (new + 12)) /\ eflags (cpu s') = Z.lor (eflags (cpu s)) (2 ^ 9) /\
    (left_of (cpu s') = left_of (cpu s) /\ spoilt (cpu s') = (cur + 12, ecx (cpu s), new + 12)) /\
    sys_of (cpu s') = sys_of (cpu s) /\ s' = at_ s (mem s') (cpu s').
Proof.
  intros Hkc Hkn Ec En Hts Hsa Hsw Hregs Hra Hf. unfold kspan in *.
  set (s3 := at_ s m3 (cpu s)).
  pose proof (call_SwitchReg_runs s3 (cur + 12) (new + 12) Hsw Hregs Hra) as Hcall.
  pose proof (switched_context s3 (cur + 12) (new + 12) Hsw) as Hctx.
  cbn [mem cpu s3 at_ set_mem set_cpu] in Hcall, Hctx.
  set (m4 := switch_mem _ _ _ _ _ _) in *. set (c4 := switched _ _ _) in *.
  assert (forall o, yields (pc <- gets (fun s => eip (cpu s)) ;;
      if pc =? ThreadSwitch_ret then e <- gets (fun s => esp (cpu s)) ;;
        set_reg (set_esp (u32 (e + 8))) ;;; intr_enable else enter) (at_ s m4 c4) o ->
    yields (switch_to cur new) s o) as Hrun.
  { intros o Hk. unfold switch_to, t_pcb, t_stack_addr, t_esp. rewrite !u32_small by lia.
    rewrite (at_self s). apply (load_into _ _ _ _ p); [done|]. apply (load_into _ _ _ _ (load32 (mem s) p)); [done|].
    apply (load_into _ _ _ _ p); [done|]. apply (load_into _ _ _ _ (load32 (mem s) p)); [done|].
    rewrite Z.eqb_refl. eapply yields_bind; [reflexivity|]. apply (load_into _ _ _ _ sa); [done|].
    eapply yields_bind; [reflexivity|]. cbn [tss at_ set_mem set_cpu].
    rewrite (u32_small (tss s + 4)), (u32_small (sa - 4)) by (pose proof (load32_range (mem s) (new + 4)); lia).
    apply store_into. eapply yields_bind; [exact Hcall|exact Hk]. }
  assert (eip c4 = c_eip (saved m3 (new + 12))) as Eip by (by rewrite <- Hctx).
  assert (esp c4 = c_esp (saved m3 (new + 12))) as Eesp by (by rewrite <- Hctx).
  assert (eflags c4 = Z.lor (eflags (cpu s)) (2 ^ 9)) as Efl by reflexivity.
  unfold resumed, lands, landed. destruct (Z.eqb_spec (c_eip (saved m3 (new + 12))) ThreadSwitch_ret) as [E|E].
  - exists (at_ s m4 (set_eflags (Z.lor (eflags c4) (2 ^ 9)) (set_esp (esp c4 + 8) c4))). split.
    + apply Hrun. apply (reg_into _ _ _ eip ThreadSwitch_ret); [rewrite Eip; exact E|]. rewrite Z.eqb_refl.
      apply (reg_into _ _ _ esp (esp c4)); [reflexivity|]. eapply yields_bind; [apply set_reg_at|].
      rewrite u32_small; [reflexivity|]. rewrite Eesp. cbn [c_esp saved].
      pose proof (load32_range m3 (new + 12)). lia.
    + clear Hrun Hcall. split_and!; [reflexivity| | |reflexivity..].
      * unfold cpu_context in Hctx. rewrite <- Hctx. reflexivity.
      * change (Z.lor (eflags c4) (2 ^ 9) = Z.lor (eflags (cpu s)) (2 ^ 9)). rewrite Efl. apply lor_twice.
  - exists (at_ s m4 c4). split; [|clear Hrun Hcall; split_and!; [reflexivity|exact Hctx|exact Efl|reflexivity..]]. apply Hrun.
    apply (reg_into _ _ _ eip (eip c4)); [reflexivity|]. rewrite Eip, (proj2 (Z.eqb_neq _ _) E). reflexivity.
Qed.
End SwitchTo.

Definition nodes (ts : list Z) : list Z := map (fun t => t + 16) ts.

(** Separate places: the queue, the stack pointer slot of the TSS, the running thread's
    stack, the frame and the stack top of the next thread, the running thread's stack
    top, the process, and all the threads. *)
Definition switch_regions (s : kstate) (q h cur new : Z) (rest : list Z) (p : Z) : list (Z * Z) :=
  [(q, 8); (h, 4); (tss s + 4, 4); (esp (cpu s) - 28, 28); (load32 (mem s) (new + 12), 20);
   (load32 (mem s) (new + 4) - 4, 4); (load32 (mem s) (tss s + 4), 4); (p, 4)] ++
  map (fun t => (t, 24)) (cur :: new :: rest).

(** [cur] is running; [new] and then [rest] are waiting; all belong to process [p]. *)
Record ready (s : kstate) (q h cur new : Z) (rest : list Z) (p : Z) : Prop := {
  rd_queue : wait_thread_queue (thr s) = q;
  rd_rep : queue_rep (mem s) q h (nodes (new :: rest));
  rd_nodes : nodes_ok 4 (cur + 16 :: q :: q + 4 :: h :: nodes (new :: rest));
  rd_kspan : Forall (fun t => kspan t 24) (cur :: new :: rest);
  rd_cur : load32 (mem s) (load32 (mem s) (tss s + 4)) = cur;
  rd_cur_pcb : load32 (mem s) (cur + 8) = p;
  rd_new_pcb : load32 (mem s) (new + 8) = p;
  rd_new_top : load32 (mem s) (load32 (mem s) (new + 4) - 4) = new;
  rd_frame : load32 (mem s) (new + 12) + 28 < W32;
  rd_regs : regs32 (cpu s);
  rd_sep : regions_ok (switch_regions s q h cur new rest p);
}.

Lemma nodes_lookup ts x i : nodes ts !! i = Some x -> exists t, ts !! i = Some t /\ x = t + 16.
Proof.
  unfold nodes. rewrite list_lookup_fmap. intros Hx. apply fmap_Some in Hx as (t & Ht & ->). by exists t.
Qed.

Section Apart.
Context (s : kstate) (q h cur new p : Z) (rest : list Z).
Context (Hrd : ready s q h cur new rest p).

Definition qb : Z -> Prop := qbytes q h (nodes (cur :: new :: rest)).

Lemma thread_region i t : (cur :: new :: rest) !! i = Some t ->
  switch_regions s q h cur new rest p !! (8 + i)%nat = Some (t, 24).
Proof.
  intros Ht. change (map (fun t => (t, 24)) (cur :: new :: rest) !! i = Some (t, 24)).
  rewrite list_lookup_fmap. by rewrite Ht.
Qed.

Lemma thread_kspan i t : (cur :: new :: rest) !! i = Some t -> kspan t 24.
Proof. intros Ht. pose proof (rd_kspan _ _ _ _ _ _ _ Hrd) as Hk. rewrite Forall_forall in Hk. apply Hk. by eapply list_elem_of_lookup_2. Qed.

(** The queue's bytes are in none of the other regions, ... *)
Lemma qb_region i r b :
  (2 <= i < 8)%nat -> switch_regions s q h cur new rest p !! i = Some r -> qb b -> ~ inr_ b r.
Proof.
  intros Hi Hr Hb. destruct (rd_sep _ _ _ _ _ _ _ Hrd) as [_ Hsep]. unfold inr_.
  destruct Hb as [Hb|[Hb|(x & Hx & Hb)]].
  - pose proof (Hsep 0%nat i _ r eq_refl Hr ltac:(lia)) as Ha. unfold apart in Ha. cbn in Ha. lia.
  - pose proof (Hsep 1%nat i _ r eq_refl Hr ltac:(lia)) as Ha. unfold apart in Ha. cbn in Ha. lia.
  - apply list_elem_of_lookup in Hx as (j & Hj). apply nodes_lookup in Hj as (t & Ht & ->).
    pose proof (Hsep (8 + j)%nat i _ r (thread_region j t Ht) Hr ltac:(lia)) as Ha. cbn [fst snd] in Ha.
    rewrite (phys_span t 24) in Hb by (lia || by apply kspan_span, (thread_kspan j)). unfold apart in Ha. lia.
Qed.

(** ... nor in the first four fields of a thread. *)
Lemma qb_thread i t b : (cur :: new :: rest) !! i = Some t -> qb b -> ~ (phys t <= b < phys t + 16).
Proof.
  intros Ht Hb. destruct (rd_sep _ _ _ _ _ _ _ Hrd) as [_ Hsep]. pose proof (thread_region i t Ht) as Hr.
  destruct Hb as [Hb|[Hb|(x & Hx & Hb)]].
  - pose proof (Hsep 0%nat (8 + i)%nat _ _ eq_refl Hr ltac:(lia)) as Ha. unfold apart in Ha. cbn in Ha. lia.
  - pose proof (Hsep 1%nat (8 + i)%nat _ _ eq_refl Hr ltac:(lia)) as Ha. unfold apart in Ha. cbn in Ha. lia.
  - apply list_elem_of_lookup in Hx as (j & Hj). apply nodes_lookup in Hj as (t' & Ht' & ->).
    rewrite (phys_span t' 24) in Hb by (lia || by apply kspan_span, (thread_kspan j)).
    destruct (decide (i = j)) as [<-|Hne]; [simplify_eq; lia|].
    pose proof (Hsep (8 + i)%nat (8 + j)%nat _ _ Hr (thread_region j t' Ht') ltac:(lia)) as Ha.
    unfold apart in Ha. cbn [fst snd] in Ha. lia.
Qed.
End Apart.

(** ** Round robin *)

Section RoundRobin.
Context `{Platform}.
Context (s : kstate) (q h cur new p : Z) (rest : list Z).
Context (Hrd : ready s q h cur new rest p).

(** Words the queue operations leave alone. *)
Lemma frame_thread m' i t k :
  only (qb q h cur new rest) (mem s) m' -> (cur :: new :: rest) !! i = Some t -> 0 <= k <= 12 ->
  load32 m' (t + k) = load32 (mem s) (t + k).
Proof.
  intros Ho Ht Hk. pose proof (thread_kspan _ _ _ _ _ _ _ Hrd i t Ht) as Hkt.
  apply (only_load32 _ _ _ _ Ho); [unfold span, kspan in *; lia|]. intros j Hj HP.
  apply (qb_thread _ _ _ _ _ _ _ Hrd i t _ Ht) in HP.
  rewrite (phys_span t 24) in HP by (lia || by apply kspan_span). lia.
Qed.

Lemma frame_region m' i r k :
  only (qb q h cur new rest) (mem s) m' -> (2 <= i < 8)%nat ->
  switch_regions s q h cur new rest p !! i = Some r -> 0 <= k -> k + 4 <= r.2 ->
  load32 m' (r.1 + k) = load32 (mem s) (r.1 + k).
Proof.
  intros Ho Hi Hr Hk Hk2. destruct (rd_sep _ _ _ _ _ _ _ Hrd) as [Hsp _]. pose proof (Hsp i r Hr) as Hs.
  apply (only_load32 _ _ _ _ Ho); [unfold span in *; lia|]. intros j Hj HP.
  apply (qb_region _ _ _ _ _ _ _ Hrd i r _ Hi Hr) in HP. unfold inr_ in HP.
  rewrite (phys_span r.1 r.2) in HP by (done || lia). lia.
Qed.

Lemma qb_sub xs b : (forall x, x ∈ xs -> x ∈ nodes (cur :: new :: rest)) -> qbytes q h xs b -> qb q h cur new rest b.
Proof. intros Hin [Hb|[Hb|(x & Hx & Hb)]]; unfold qb, qbytes; [lia..|]. right; right. exists x. auto. Qed.

(** The queue operations of [ThreadSwitch]. *)
Lemma switch_queue : exists m2,
  queue_rep m2 q h (nodes (rest ++ [cur])) /\ only (qb q h cur new rest) (mem s) m2 /\
  forall o, yields (switch_to cur new) (set_mem m2 s) o -> yields ThreadSwitch s o.
Proof.
  pose proof Hrd as [Eq HQ Hok Hks Ecur _ _ _ _ _ [Hsp _]].
  destruct (Dequeue_spec s q h _ HQ) as (m1 & Hr1 & HQ1). cbn [nodes map tl] in Hr1, HQ1.
  pose proof (Dequeue_only s q h _ _ m1 HQ Hr1) as Ho1.
  assert (only (qb q h cur new rest) (mem s) m1) as Ho1'.
  { eapply only_mono; [|exact Ho1]. intros b. apply qb_sub. cbn. set_solver. }
  assert (nodes_ok 4 (cur + 16 :: q :: q + 4 :: h :: nodes rest)) as Hok1.
  { eapply nodes_ok_sub; [exact Hok| |cbn; set_solver]. destruct Hok as [Hnd _]. cbn [nodes map] in Hnd.
    eapply sublist_NoDup; [exact Hnd|]. repeat constructor. reflexivity. }
  destruct (Enqueue_spec (set_mem m1 s) q h (nodes rest) (cur + 16) HQ1 Hok1) as (m2 & Hr2 & HQ2).
  assert (kspan (cur + 16) 4) as Hkc by (eapply nodes_ok_kspan; [exact Hok|set_solver]).
  pose proof (Enqueue_only (set_mem m1 s) _ _ _ _ m2 HQ1 Hkc Hr2) as Ho2.
  exists m2. split_and!.
  - unfold nodes. rewrite map_app. exact HQ2.
  - eapply only_trans; [exact Ho1'|]. eapply only_mono; [|exact Ho2]. intros b. apply qb_sub. cbn. set_solver.
  - intros o Hk. unfold ThreadSwitch. eapply yields_bind; [reflexivity|]. rewrite Eq.
    eapply yields_bind; [exact Hr1|].
    pose proof (thread_kspan _ _ _ _ _ _ _ Hrd 1%nat new eq_refl) as Hkn.
    pose proof (thread_kspan _ _ _ _ _ _ _ Hrd 0%nat cur eq_refl) as Hkcur. unfold kspan in Hkn, Hkcur.
    destruct (Z.eqb_spec (new + 16) 0); [lia|].
    eapply (yields_bind _ _ _ cur (set_mem m1 s)).
    { pose proof (Hsp 2%nat _ eq_refl) as Hts. cbn [fst snd] in Hts.
      unfold runs, GetCurThread, bind, ld32, gets. cbn [tss mem set_mem]. rewrite u32_small by (unfold span in *; lia).
      pose proof (frame_region m1 2%nat _ 0 Ho1' ltac:(lia) eq_refl ltac:(lia) ltac:(cbn; lia)) as E1.
      pose proof (frame_region m1 6%nat _ 0 Ho1' ltac:(lia) eq_refl ltac:(lia) ltac:(cbn; lia)) as E2.
      cbn [fst] in E1, E2. rewrite !Z.add_0_r in E1, E2. by rewrite E1, E2, Ecur. }
    eapply yields_bind; [reflexivity|]. cbn [thr set_mem]. rewrite Eq. unfold t_node, GET_STRUCT.
    rewrite !u32_small by lia. eapply yields_bind; [exact Hr2|].
    replace (new + 16 - 16) with new by lia. exact Hk.
Qed.

(** Everything [ThreadSwitch] writes before the context switch. *)
Definition pre_bytes (b : Z) : Prop := qb q h cur new rest b \/ inr_ b (tss s + 4, 4).

Lemma pre_only m2 v :
  only (qb q h cur new rest) (mem s) m2 -> only pre_bytes (mem s) (store32 m2 (tss s + 4) v).
Proof.
  intros Ho. destruct (rd_sep _ _ _ _ _ _ _ Hrd) as [Hsp _].
  pose proof (Hsp 2%nat _ eq_refl) as Hts. cbn [fst snd] in Hts.
  eapply only_trans; [eapply only_mono; [|exact Ho]; unfold pre_bytes; tauto|].
  apply only_store32; [done|]. intros i Hi. right. unfold inr_. cbn [fst snd]. lia.
Qed.

(** ... leaves the next thread's saved context alone. *)
Lemma pre_saved m3 : only pre_bytes (mem s) m3 ->
  load32 m3 (new + 12) = load32 (mem s) (new + 12) /\ saved m3 (new + 12) = saved (mem s) (new + 12).
Proof.
  intros Ho. destruct (rd_sep _ _ _ _ _ _ _ Hrd) as [Hsp Hsep].
  pose proof (thread_kspan _ _ _ _ _ _ _ Hrd 1%nat new eq_refl) as Hkn.
  pose proof (kspan_span _ _ Hkn) as Hsn. pose proof (Hsp 4%nat _ eq_refl) as Hf.
  pose proof (Hsep 2%nat 4%nat _ _ eq_refl eq_refl ltac:(lia)) as A1.
  pose proof (Hsep 2%nat 9%nat _ _ eq_refl eq_refl ltac:(lia)) as A2. cbn [fst snd] in Hf, A1, A2.
  assert (span (new + 12) 4) as H12 by (unfold span in *; lia).
  assert (forall i, 0 <= i < 4 -> ~ pre_bytes (phys (new + 12) + i)) as N1.
  { intros i Hi. rewrite (phys_span new 24) by (done || lia). intros [HP|HP].
    - apply (qb_thread _ _ _ _ _ _ _ Hrd 1%nat new _ eq_refl) in HP. lia.
    - unfold inr_, apart in *. cbn [fst snd] in HP. lia. }
  split; [by apply (only_load32 _ _ _ _ Ho)|].
  apply (saved_only _ _ _ _ _ Ho H12 eq_refl Hf N1). intros i Hi [HP|HP].
  - apply (qb_region _ _ _ _ _ _ _ Hrd 4%nat _ _ ltac:(lia) eq_refl) in HP. unfold inr_ in HP. cbn [fst snd] in HP. lia.
  - unfold inr_, apart in *. cbn [fst snd] in HP. lia.
Qed.

Lemma ready_switchable m3 : only pre_bytes (mem s) m3 -> switchable m3 (esp (cpu s)) (cur + 12) (new + 12).
Proof.
  intros Ho. destruct (pre_saved m3 Ho) as [E _]. destruct (rd_sep _ _ _ _ _ _ _ Hrd) as [Hsp Hsep].
  pose proof (kspan_span _ _ (thread_kspan _ _ _ _ _ _ _ Hrd 0%nat cur eq_refl)) as Hc.
  pose proof (kspan_span _ _ (thread_kspan _ _ _ _ _ _ _ Hrd 1%nat new eq_refl)) as Hn.
  pose proof (Hsp 3%nat _ eq_refl) as H3. pose proof (Hsp 4%nat _ eq_refl) as H4.
  pose proof (Hsep 3%nat 4%nat _ _ eq_refl eq_refl ltac:(lia)) as A34.
  pose proof (Hsep 3%nat 8%nat _ _ eq_refl eq_refl ltac:(lia)) as A38.
  pose proof (Hsep 3%nat 9%nat _ _ eq_refl eq_refl ltac:(lia)) as A39.
  pose proof (Hsep 4%nat 8%nat _ _ eq_refl eq_refl ltac:(lia)) as A48.
  pose proof (Hsep 8%nat 9%nat _ _ eq_refl eq_refl ltac:(lia)) as A89.
  pose proof (rd_frame _ _ _ _ _ _ _ Hrd) as Hf. cbn [fst snd] in *.
  assert (phys (cur + 12) = phys cur + 12 /\ phys (new + 12) = phys new + 12) as [Pc Pn].
  { split; apply (phys_span _ 24); done || lia. }
  constructor; rewrite ?E, ?Pc, ?Pn; try done; unfold span, apart in *; lia.
Qed.

(** What the context switch writes is none of the queue's bytes, the stack pointer slot
    and the next thread's stack top. *)
Lemma switch_bytes b :
  stack_or (esp (cpu s)) (cur + 12) b ->
  ~ qb q h cur new rest b /\ ~ inr_ b (tss s + 4, 4) /\ ~ inr_ b (load32 (mem s) (new + 4) - 4, 4).
Proof.
  intros Hb. destruct (rd_sep _ _ _ _ _ _ _ Hrd) as [Hsp Hsep].
  pose proof (kspan_span _ _ (thread_kspan _ _ _ _ _ _ _ Hrd 0%nat cur eq_refl)) as Hc.
  pose proof (Hsep 2%nat 3%nat _ _ eq_refl eq_refl ltac:(lia)) as A23.
  pose proof (Hsep 2%nat 8%nat _ _ eq_refl eq_refl ltac:(lia)) as A28.
  pose proof (Hsep 3%nat 5%nat _ _ eq_refl eq_refl ltac:(lia)) as A35.
  pose proof (Hsep 5%nat 8%nat _ _ eq_refl eq_refl ltac:(lia)) as A58.
  unfold stack_or in Hb. rewrite (phys_span cur 24) in Hb by (done || lia).
  unfold inr_, apart in *. cbn [fst snd] in *. split_and!; [|lia..].
  intros Hq. pose proof (qb_thread _ _ _ _ _ _ _ Hrd 0%nat cur b eq_refl Hq).
  pose proof (qb_region _ _ _ _ _ _ _ Hrd 3%nat _ b ltac:(lia) eq_refl Hq) as N. unfold inr_ in N. cbn [fst snd] in N. lia.
Qed.

(** The memory after the switch: queue, current thread and saved context. *)
Lemma switch_result m2 (sa := load32 (mem s) (new + 4)) (m3 := store32 m2 (tss s + 4) (sa - 4)) m4 :
  only (qb q h cur new rest) (mem s) m2 -> queue_rep m2 q h (nodes (rest ++ [cur])) ->
  only (stack_or (esp (cpu s)) (cur + 12)) m3 m4 ->
  queue_rep m4 q h (nodes (rest ++ [cur])) /\ load32 m4 (tss s + 4) = sa - 4 /\ load32 m4 (sa - 4) = new.
Proof.
  intros Ho2 HQ2 Ho4. destruct (rd_sep _ _ _ _ _ _ _ Hrd) as [Hsp Hsep].
  pose proof (Hsp 2%nat _ eq_refl) as Hts. pose proof (Hsp 5%nat _ eq_refl) as Htop.
  pose proof (Hsep 2%nat 5%nat _ _ eq_refl eq_refl ltac:(lia)) as A25. cbn [fst snd] in Hts, Htop, A25. fold sa in Htop, A25.
  assert (only (fun b => inr_ b (tss s + 4, 4) \/ stack_or (esp (cpu s)) (cur + 12) b) m2 m4) as Ho.
  { eapply only_trans; [|eapply only_mono; [|exact Ho4]; tauto].
    apply only_store32; [done|]. intros i Hi. left. unfold inr_. cbn [fst snd]. lia. }
  split_and!.
  - apply (queue_rep_only _ _ _ _ _ _ HQ2 Ho). intros b Hb [Hx|Hx].
    + apply (qb_sub _ b) in Hb; [|unfold nodes; rewrite map_app; cbn; set_solver].
      exact (qb_region _ _ _ _ _ _ _ Hrd 2%nat _ b ltac:(lia) eq_refl Hb Hx).
    + apply switch_bytes in Hx as [Hx _]. apply Hx. apply (qb_sub _ b) in Hb; [done|].
      unfold nodes. rewrite map_app. cbn. set_solver.
  - rewrite (only_load32 _ _ _ _ Ho4 Hts).
    + unfold m3. rewrite span_store32_same by done. apply u32_small.
      unfold span in *. lia.
    + intros i Hi Hx. apply switch_bytes in Hx as (_ & Hx & _). apply Hx. unfold inr_. cbn [fst snd]. lia.
  - rewrite (only_load32 _ _ _ _ Ho Htop).
    + transitivity (load32 (mem s) (sa - 4)); [|exact (rd_new_top _ _ _ _ _ _ _ Hrd)].
      pose proof (frame_region m2 5%nat _ 0 Ho2 ltac:(lia) eq_refl ltac:(lia) ltac:(cbn; lia)) as E.
      cbn [fst] in E. fold sa in E. by rewrite !Z.add_0_r in E.
    + intros i Hi [Hx|Hx]; [unfold inr_, apart in *; cbn [fst snd] in Hx; lia|].
      apply switch_bytes in Hx as (_ & _ & Hx). apply Hx. unfold inr_. cbn [fst snd]. fold sa. lia.
Qed.

Lemma thread_switch_runs :
  0 <= ThreadSwitch_ret < W32 ->
  exists s', lands (c_eip (saved (mem s) (new + 12))) ThreadSwitch s s' /\
    queue_rep (mem s') q h (nodes (rest ++ [cur])) /\ runs GetCurThread s' new s' /\
    cpu_context (cpu s') = resumed (saved (mem s) (new + 12)) /\
    saved (mem s') (cur + 12) = suspended (cpu s) /\
    (eflags (cpu s') = Z.lor (eflags (cpu s)) (2 ^ 9) /\ left_of (cpu s') = left_of (cpu s) /\ spoilt (cpu s') = (cur + 12, ecx (cpu s), new + 12)) /\
    sys_of (cpu s') = sys_of (cpu s) /\ s' = at_ s (mem s') (cpu s') /\
    only (fun b => qb q h cur new rest b \/ inr_ b (tss s + 4, 4) \/ stack_or (esp (cpu s)) (cur + 12) b)
      (mem s) (mem s') /\
    load32 (mem s') (tss s + 4) = load32 (mem s) (new + 4) - 4.
Proof.
  intros Hra. destruct switch_queue as (m2 & HQ2 & Ho2 & Hrun).
  assert (load32 m2 (new + 4) = load32 (mem s) (new + 4)) as E4 by (apply (frame_thread m2 1%nat new 4 Ho2 eq_refl); lia).
  set (sa := load32 (mem s) (new + 4)) in *. set (m3 := store32 m2 (tss s + 4) (sa - 4)).
  pose proof (pre_only m2 (sa - 4) Ho2) as Ho3. fold m3 in Ho3.
  destruct (pre_saved m3 Ho3) as [Ef Esv]. pose proof (ready_switchable m3 Ho3) as Hsw.
  destruct (rd_sep _ _ _ _ _ _ _ Hrd) as [Hsp _].
  pose proof (Hsp 2%nat _ eq_refl) as Hts. pose proof (Hsp 5%nat _ eq_refl) as Htop. cbn [fst snd] in Hts, Htop. fold sa in Htop.
  pose proof (thread_kspan _ _ _ _ _ _ _ Hrd 0%nat cur eq_refl) as Kc.
  pose proof (thread_kspan _ _ _ _ _ _ _ Hrd 1%nat new eq_refl) as Kn.
  pose proof (switch_to_same (set_mem m2 s) cur new p Kc Kn) as Hto. cbn [mem set_mem cpu tss thr] in Hto.
  rewrite E4 in Hto. fold m3 in Hto. rewrite Ef, Esv in Hto.
  destruct Hto as (s' & Hr & Em & Ec & Hfl & [Hlf Hspl] & Hcr & Es).
  9: assert (tss s' = tss s) as Etss by (rewrite Es; reflexivity).
  - rewrite (frame_thread m2 0%nat cur 8 Ho2 eq_refl) by lia. apply Hrd.
  - rewrite (frame_thread m2 1%nat new 8 Ho2 eq_refl) by lia. apply Hrd.
  - unfold span in Hts. lia.
  - unfold span in Htop. lia.
  - exact Hsw.
  - apply Hrd.
  - exact Hra.
  - apply Hrd.
  - exists s'. split; [by apply Hrun|]. clear Hrun Hr.
    assert (only (stack_or (esp (cpu s)) (cur + 12)) m3 (mem s')) as Ho4 by (rewrite Em; by apply switch_mem_only).
    destruct (switch_result m2 (mem s') Ho2 HQ2 Ho4) as (HQ4 & E1 & E2).
    split_and!; [exact HQ4| |exact Ec| |exact Hfl|exact Hlf|exact Hspl|exact Hcr|exact Es| |exact E1].
    + unfold runs, GetCurThread, bind, ld32, gets. rewrite Etss, u32_small by (unfold span in Hts; lia).
      by rewrite E1, E2.
    + rewrite Em. exact (switch_mem_saved (at_ s m3 (cpu s)) (cur + 12) (new + 12) Hsw (rd_regs _ _ _ _ _ _ _ Hrd) Hra).
    + eapply only_trans; [eapply only_mono; [|exact Ho3]|eapply only_mono; [|exact Ho4]]; unfold pre_bytes; tauto.
Qed.
End RoundRobin.

(** C8: [ThreadSwitch] is round robin among the threads of one process (the running thread
    and the next one belong to the same process [p]; the branch for different processes is
    not covered). It ends in the thread that has waited longest: that thread continues with
    the six registers of the context it was suspended with, or is entered at its start
    function if it is new ([lands]), with interrupts enabled, is now the current thread (its
    stack is the one the TSS names), and is no longer waiting; the thread that ran before is
    suspended and waits behind all the others. The page directory stays, as do all
    control, table and segment registers; nothing is said of [eax], [ecx] and [edx], which a
    caller does not expect to keep. Only the queue, the stack pointer slot of the TSS and the
    suspended thread's stack and [esp] field are written. *)
Theorem thread_switch_round_robin `{Platform} s q h cur new rest p :
  ready s q h cur new rest p -> 0 <= ThreadSwitch_ret < W32 ->
  exists s', lands (c_eip (saved (mem s) (new + 12))) ThreadSwitch s s' /\
    queue_rep (mem s') q h (nodes (rest ++ [cur])) /\ runs GetCurThread s' new s' /\
    cpu_context (cpu s') = resumed (saved (mem s) (new + 12)) /\
    saved (mem s') (cur + 12) = suspended (cpu s) /\
    (eflags (cpu s') = Z.lor (eflags (cpu s)) (2 ^ 9) /\ left_of (cpu s') = left_of (cpu s)) /\
    sys_of (cpu s') = sys_of (cpu s) /\ s' = at_ s (mem s') (cpu s') /\
    only (fun b => qb q h cur new rest b \/ inr_ b (tss s + 4, 4) \/ stack_or (esp (cpu s)) (cur + 12) b)
      (mem s) (mem s') /\
    load32 (mem s') (tss s + 4) = load32 (mem s) (new + 4) - 4.
Proof.
  intros Hrd Hra. destruct (thread_switch_runs s q h cur new p rest Hrd Hra) as (s' & H1 & H2 & H3 & H4 & H5 & (H6 & H7 & _) & H8).
  exists s'. split_and!; [exact H1|exact H2|exact H3|exact H4|exact H5|exact H6|exact H7|apply H8..].
Qed.

(** ** The scheduler's view and other memory *)

Section Frame.
Context (s : kstate) (q h cur new p : Z) (rest : list Z).
Context (Hrd : ready s q h cur new rest p).
Context (P : Z -> Prop) (m0 : gmap Z Z) (Ho : only P (mem s) m0).
Context (HPr : forall i r b, (i < 8)%nat -> switch_regions s q h cur new rest p !! i = Some r -> P b -> ~ inr_ b r).
Context (HPt : forall i t b, (cur :: new :: rest) !! i = Some t -> P b ->
  ~ (phys t <= b < phys t + (if decide (i = 0%nat) then 16 else 24))).

Lemma other_region i r :
  (i < 8)%nat -> switch_regions s q h cur new rest p !! i = Some r -> r.2 = 4 ->
  load32 m0 r.1 = load32 (mem s) r.1.
Proof.
  intros Hi Hr E4. destruct (rd_sep _ _ _ _ _ _ _ Hrd) as [Hsp _]. pose proof (Hsp i r Hr) as Hs. rewrite E4 in Hs.
  apply (only_load32 _ _ _ _ Ho Hs). intros j Hj HP. apply (HPr i r _ Hi Hr) in HP.
  unfold inr_ in HP. lia.
Qed.

Lemma other_thread i t k :
  (cur :: new :: rest) !! i = Some t -> 0 <= k <= 12 -> load32 m0 (t + k) = load32 (mem s) (t + k).
Proof.
  intros Ht Hk. pose proof (thread_kspan _ _ _ _ _ _ _ Hrd i t Ht) as Hkt.
  apply (only_load32 _ _ _ _ Ho); [unfold span, kspan in *; lia|]. intros j Hj HP.
  apply (HPt i t _ Ht) in HP. rewrite (phys_span t 24) in HP by (lia || by apply kspan_span).
  case_decide; lia.
Qed.

(** Writes that touch no region, and of the running thread at most its node. *)
Lemma ready_frame : ready (set_mem m0 s) q h cur new rest p.
Proof.
  pose proof (other_region 2%nat _ ltac:(lia) eq_refl eq_refl) as E2.
  pose proof (other_region 5%nat _ ltac:(lia) eq_refl eq_refl) as E5.
  pose proof (other_region 6%nat _ ltac:(lia) eq_refl eq_refl) as E6. cbn [fst] in E2, E5, E6.
  pose proof (fun k => other_thread 1%nat new k eq_refl) as En.
  pose proof (other_thread 0%nat cur 8 eq_refl ltac:(lia)) as Ec.
  destruct Hrd as [H1 H2 H3 H4 H5 H6 H7 H8 H9 H10 H11].
  constructor; cbn [mem set_mem thr cpu tss]; rewrite ?E2, ?E6, ?Ec, ?En, ?E5 by lia; try assumption.
  - apply (queue_rep_only _ _ _ _ _ _ H2 Ho). intros b [Hb|[Hb|(x & Hx & Hb)]] HP.
    + exact (HPr 0%nat _ b ltac:(lia) eq_refl HP Hb).
    + exact (HPr 1%nat _ b ltac:(lia) eq_refl HP Hb).
    + apply list_elem_of_lookup in Hx as (i & Hi). apply nodes_lookup in Hi as (t & Ht & ->).
      pose proof (HPt (S i) t b Ht HP) as N. rewrite decide_False in N by lia.
      pose proof (thread_kspan _ _ _ _ _ _ _ Hrd (S i) t Ht) as Hkt.
      rewrite (phys_span t 24) in Hb by (lia || by apply kspan_span). lia.
  - unfold switch_regions in *. cbn [mem set_mem tss cpu]. rewrite E2, !En by lia. exact H11.
Qed.
End Frame.

(** ** Sleeping *)

Section Sleep.
Context (s : kstate) (q h cur new p bl : Z) (rest : list Z).
Context (Hrd : ready s q h cur new rest p).
Context (Hbl : regions_ok ((bl, 4) :: switch_regions s q h cur new rest p)).

(** The two words that linking the thread into the list of blocked threads writes. *)
Definition link_bytes (b : Z) : Prop := inr_ b (bl, 4) \/ inr_ b (cur + 16, 4).

Lemma link_region i r b :
  (i < 8)%nat -> switch_regions s q h cur new rest p !! i = Some r -> link_bytes b -> ~ inr_ b r.
Proof.
  intros Hi Hr Hb. destruct Hbl as [_ Hsep]. destruct (rd_sep _ _ _ _ _ _ _ Hrd) as [_ Hsep'].
  pose proof (kspan_span _ _ (thread_kspan _ _ _ _ _ _ _ Hrd 0%nat cur eq_refl)) as Hc.
  pose proof (Hsep 0%nat (S i) (bl, 4) r eq_refl Hr ltac:(lia)) as A1.
  pose proof (Hsep' 8%nat i (cur, 24) r eq_refl Hr ltac:(lia)) as A2. cbn [fst snd] in A1, A2.
  unfold link_bytes, inr_, apart in *. cbn [fst snd] in Hb. rewrite (phys_span cur 24) in Hb by (done || lia). lia.
Qed.

Lemma link_thread i t b :
  (cur :: new :: rest) !! i = Some t -> link_bytes b -> ~ (phys t <= b < phys t + (if decide (i = 0%nat) then 16 else 24)).
Proof.
  intros Ht Hb. destruct Hbl as [_ Hsep]. destruct (rd_sep _ _ _ _ _ _ _ Hrd) as [_ Hsep'].
  pose proof (kspan_span _ _ (thread_kspan _ _ _ _ _ _ _ Hrd 0%nat cur eq_refl)) as Hc.
  pose proof (thread_region s q h cur new p rest i t Ht) as Hr.
  pose proof (Hsep 0%nat (S (8 + i)) (bl, 4) _ eq_refl Hr ltac:(lia)) as A1.
  unfold link_bytes, inr_, apart in *. cbn [fst snd] in *. rewrite (phys_span cur 24) in Hb by (done || lia).
  case_decide; [subst i; cbn in Ht; simplify_eq; lia|].
  pose proof (Hsep' 8%nat (8 + i)%nat (cur, 24) _ eq_refl Hr ltac:(lia)) as A2. cbn [fst snd] in A2. lia.
Qed.

(** The list head is apart from everything the switch writes. *)
Lemma head_apart b :
  inr_ b (bl, 4) -> ~ (qb q h cur new rest b \/ inr_ b (tss s + 4, 4) \/ stack_or (esp (cpu s)) (cur + 12) b).
Proof.
  intros Hb. destruct Hbl as [_ Hsep].
  pose proof (kspan_span _ _ (thread_kspan _ _ _ _ _ _ _ Hrd 0%nat cur eq_refl)) as Hc.
  assert (forall i r, switch_regions s q h cur new rest p !! i = Some r -> ~ inr_ b r) as Hr.
  { intros i r Hi Hx. pose proof (Hsep 0%nat (S i) (bl, 4) r eq_refl Hi ltac:(lia)) as A.
    unfold inr_, apart in *. cbn [fst snd] in *. lia. }
  intros [[Hq|[Hq|(x & Hx & Hq)]]|[Ht|[Ht|Ht]]].
  - exact (Hr 0%nat _ eq_refl Hq).
  - exact (Hr 1%nat _ eq_refl Hq).
  - apply list_elem_of_lookup in Hx as (i & Hi). apply nodes_lookup in Hi as (t & Ht & ->).
    apply (Hr (8 + i)%nat _ (thread_region s q h cur new p rest i t Ht)).
    pose proof (thread_kspan _ _ _ _ _ _ _ Hrd i t Ht) as Hkt.
    rewrite (phys_span t 24) in Hq by (lia || by apply kspan_span). unfold inr_. cbn [fst snd]. lia.
  - exact (Hr 2%nat _ eq_refl Ht).
  - exact (Hr 3%nat _ eq_refl Ht).
  - apply (Hr 8%nat _ eq_refl). rewrite (phys_span cur 24) in Ht by (done || lia). unfold inr_. cbn [fst snd]. lia.
Qed.

(** Linking the thread into the list leaves the scheduler's view unchanged. *)
Lemma link_ready m0 : only link_bytes (mem s) m0 -> ready (set_mem m0 s) q h cur new rest p.
Proof. intros Ho. apply (ready_frame _ _ _ _ _ _ _ Hrd link_bytes m0 Ho link_region link_thread). Qed.

Lemma link_saved m0 : only link_bytes (mem s) m0 -> saved m0 (new + 12) = saved (mem s) (new + 12).
Proof.
  intros Ho. pose proof (kspan_span _ _ (thread_kspan _ _ _ _ _ _ _ Hrd 1%nat new eq_refl)) as Hn.
  destruct (rd_sep _ _ _ _ _ _ _ Hrd) as [Hsp _]. pose proof (Hsp 4%nat _ eq_refl) as Hf. cbn [fst snd] in Hf.
  assert (span (new + 12) 4) as H12 by (unfold span in *; lia). apply (saved_only _ _ _ _ _ Ho H12 eq_refl Hf).
  - intros i Hi Hb. apply (link_thread 1%nat new _ eq_refl Hb). rewrite (phys_span new 24) by (done || lia).
    destruct (decide (1%nat = 0%nat)); lia.
  - intros i Hi Hb. apply (link_region 4%nat _ _ ltac:(lia) eq_refl Hb). unfold inr_. cbn [fst snd]. lia.
Qed.
End Sleep.

(** C34: a thread that goes to sleep stays scheduled. [ThreadSleep] links the running thread's
    node into the list of blocked threads, and then [ThreadSwitch] links the same node into
    the waiting queue: afterwards the sleeping thread is last in the queue of threads that
    wait for the processor, and the list of blocked threads runs from its head to that
    node and on into the queue, never back to its own head. *)
Theorem thread_sleep_requeues `{Platform} s q h cur new rest p bl :
  ready s q h cur new rest p -> 0 <= ThreadSwitch_ret < W32 ->
  block_thread_list (thr s) = bl -> regions_ok ((bl, 4) :: switch_regions s q h cur new rest p) ->
  exists s', lands (c_eip (saved (mem s) (new + 12))) ThreadSleep s s' /\ runs GetCurThread s' new s' /\
    queue_rep (mem s') q h (nodes (rest ++ [cur])) /\
    load32 (mem s') bl = cur + 16 /\ load32 (mem s') (cur + 16) = h.
Proof.
  intros Hrd Hra Ebl Hsep. pose proof Hsep as [Hsp Hap].
  pose proof (thread_kspan _ _ _ _ _ _ _ Hrd 0%nat cur eq_refl) as Kc. pose proof (kspan_span _ _ Kc) as Sc.
  pose proof (Hsp 0%nat _ eq_refl) as Hb. cbn [fst snd] in Hb.
  set (m0 := store32 (store32 (mem s) bl (cur + 16)) (cur + 16) (load32 (mem s) bl)).
  assert (span (cur + 16) 4) as S16 by (unfold span in *; lia).
  assert (only (link_bytes cur bl) (mem s) m0) as Ho.
  { eapply only_trans; apply only_store32; try done; intros i Hi; unfold link_bytes, inr_; cbn [fst snd]; lia. }
  destruct (thread_switch_runs (set_mem m0 s) q h cur new p rest (link_ready _ _ _ _ _ _ _ _ Hrd Hsep m0 Ho) Hra)
    as (s' & Hr & HQ & Hcur & _ & _ & _ & _ & _ & Hw & _).
  exists s'. split_and!; [|exact Hcur|exact HQ| |].
  - unfold ThreadSleep. eapply (lands_bind _ _ _ s cur s).
    + pose proof (Hsp 3%nat _ eq_refl) as Hts. cbn [fst snd] in Hts. clear Hr Hcur.
      unfold runs, GetCurThread, bind, ld32, gets. rewrite u32_small by (unfold span in Hts; lia).
      by rewrite (rd_cur _ _ _ _ _ _ _ Hrd).
    + eapply lands_bind; [reflexivity|]. rewrite Ebl. unfold t_node. rewrite u32_small by (unfold kspan in Kc; lia).
      eapply lands_bind; [reflexivity|].
      rewrite <- (link_saved s q h cur new p bl rest Hrd Hsep m0 Ho). exact Hr.
  - clear Hr Hcur. rewrite (only_load32 _ _ _ _ Hw Hb).
    + unfold m0. cbn [mem set_mem]. rewrite span_store32_ne.
      * rewrite span_store32_same by done. apply u32_small. unfold kspan in Kc. lia.
      * pose proof (Hap 0%nat 9%nat _ _ eq_refl eq_refl ltac:(lia)) as A. cbn [fst snd] in A.
        unfold wsep. rewrite (phys_span cur 24) by (done || lia). unfold apart in *. split_and!; [done|done|lia].
    + intros i Hi. apply (head_apart s q h cur new p bl rest Hrd Hsep). unfold inr_. cbn [fst snd]. lia.
  - rewrite <- (circ_next_end _ _ _ (qr_circ _ _ _ _ HQ)). unfold nodes. by rewrite map_app, tail_of_app.
Qed.

(** ** Waking *)

(** A word kept apart from the queue's words is none of the queue's bytes. *)
Lemma qbytes_apart L q h xs w i :
  nodes_ok 4 L -> (forall x, x ∈ q :: q + 4 :: h :: xs -> x ∈ L) -> w ∈ L -> w ∉ q :: q + 4 :: h :: xs ->
  0 <= i < 4 -> ~ qbytes q h xs (phys w + i).
Proof.
  intros (_ & Hk & Ha) Hin Hw Hn Hi. rewrite Forall_forall in Hk.
  assert (forall x, x ∈ q :: q + 4 :: h :: xs -> ~ (phys x <= phys w + i < phys x + 4)) as Hx.
  { intros x Hx. pose proof (Ha x w (Hin x Hx) Hw ltac:(intros ->; done)) as A.
    pose proof (Hk x (Hin x Hx)) as Kx. pose proof (Hk w Hw) as Kw. unfold kspan, apart in *.
    rewrite !phys_high by lia. lia. }
  pose proof (Hx q ltac:(set_solver)) as X1. pose proof (Hx (q + 4) ltac:(set_solver)) as X2.
  pose proof (Hk q (Hin q ltac:(set_solver))) as Kq. pose proof (Hk (q + 4) (Hin (q + 4) ltac:(set_solver))) as Kq4.
  unfold kspan in Kq, Kq4. rewrite phys_high in X1, X2 by lia.
  intros [Hb|[Hb|(x & Hx' & Hb)]]; [rewrite phys_high in Hb by lia; lia|apply (Hx h); [set_solver|done]|].
  apply (Hx x); [set_solver|done].
Qed.

Lemma queue_rep_except ws L m m' q h xs :
  queue_rep m q h xs -> same_except ws m m' -> nodes_ok 4 L -> (forall w, w ∈ ws -> w ∈ L) ->
  (forall x, x ∈ q :: q + 4 :: h :: xs -> x ∈ L /\ x ∉ ws) -> queue_rep m' q h xs.
Proof.
  intros [Eh Et Hc Hok] Hse HL Hws Hx.
  assert (forall w, w ∈ q :: q + 4 :: h :: xs -> load32 m' w = load32 m w) as Hw.
  { intros w Hw. destruct (Hx w Hw). by apply (load32_frame ws _ _ _ L). }
  constructor; [by rewrite Hw by set_solver|by rewrite Hw by set_solver| |done].
  apply (circ_frame (load32 m)); [|done]. intros w Hw'. apply Hw. set_solver.
Qed.

(** The search loop of [ThreadWake]. *)
Lemma wake_search s bl n pre post fuel :
  clist (mem s) bl (pre ++ post) -> n ∉ pre -> first_of bl post = bl \/ first_of bl post = n ->
  (length pre < fuel)%nat ->
  runs (loop fuel (fun tmp =>
    next <- ld32 tmp ;;
    if (next =? bl) || (next =? n) then ret (inr tmp) else ret (inl next)) bl) s (tail_of bl pre) s.
Proof.
  intros [Hc (Hnd & _)] Hn Hpost Hf.
  enough (forall done_ todo f, pre = done_ ++ todo -> (length todo < f)%nat ->
    runs (loop f (fun tmp => next <- ld32 tmp ;;
      if (next =? bl) || (next =? n) then ret (inr tmp) else ret (inl next)) (tail_of bl done_)) s (tail_of bl pre) s) as Hg.
  { apply (Hg [] pre fuel); done. }
  intros done_ todo. revert done_. induction todo as [|x todo IH]; intros done_ f E Hlen.
  - destruct f as [|f]; [lia|]. rewrite app_nil_r in E. subst done_.
    apply loop_exit. eapply runs_bind; [apply runs_ld32|]. cbv beta. rewrite (circ_succ _ _ _ _ Hc).
    replace ((first_of bl post =? bl) || (first_of bl post =? n)) with true by lia. reflexivity.
  - destruct f as [|f]; [cbn in Hlen; lia|]. subst pre. rewrite <- app_assoc in Hc, Hnd. cbn in Hc, Hnd.
    eapply loop_step.
    + eapply runs_bind; [apply runs_ld32|]. cbv beta. rewrite (circ_next _ _ _ _ _ Hc).
      replace ((x =? bl) || (x =? n)) with false; [reflexivity|].
      apply NoDup_cons in Hnd as [Hb _]. assert (x <> bl) by set_solver. assert (x <> n) by set_solver. lia.
    + specialize (IH (done_ ++ [x]) f). rewrite tail_of_app in IH. cbn [tail_of] in IH.
      apply IH; [by rewrite <- app_assoc|cbn in Hlen; lia].
Qed.

Lemma filter_absent (n : Z) (l : list Z) : n ∉ l -> filter (fun x => x <> n) l = l.
Proof.
  induction l as [|x l IH]; [done|]. intros Hn. rewrite filter_cons_True by set_solver.
  f_equal. apply IH. set_solver.
Qed.

(** Moving the node after [pre] from the list of blocked threads to the queue. *)
Lemma wake_move s q h xs bl pre n post :
  queue_rep (mem s) q h xs -> clist (mem s) bl (pre ++ n :: post) ->
  nodes_ok 4 (q :: q + 4 :: h :: bl :: xs ++ pre ++ n :: post) ->
  exists m', runs (ListRemove (tail_of bl pre) ;;; Enqueue q n) s tt (set_mem m' s) /\
    clist m' bl (pre ++ post) /\ queue_rep m' q h (xs ++ [n]).
Proof.
  intros HQ Hcl Hok. destruct (ListRemove_spec s bl pre n post Hcl) as (m1 & Hr1 & Hcl1 & _ & Hse).
  pose proof (tail_of_in bl pre) as Htl. pose proof Hok as (Hnd & _).
  assert (forall x, x ∈ q :: q + 4 :: h :: xs -> x ∉ bl :: pre ++ n :: post) as Hdisj.
  { intros x Hx Hx'. apply (NoDup_app (q :: q + 4 :: h :: xs) (bl :: pre ++ n :: post)) with x; [|done..].
    eapply NoDup_Permutation_proper; [|exact Hnd]. solve_Permutation. }
  assert (queue_rep m1 q h xs) as HQ1.
  { eapply queue_rep_except; [exact HQ|exact Hse|exact Hok|set_solver|]. intros x Hx.
    split; [set_solver|]. specialize (Hdisj x Hx). set_solver. }
  assert (nodes_ok 4 (n :: q :: q + 4 :: h :: xs)) as Hok1.
  { eapply nodes_ok_sub; [exact Hok| |set_solver]. apply NoDup_cons. split.
    - intros Hn. apply (Hdisj n Hn). set_solver.
    - apply (sublist_NoDup _ (q :: q + 4 :: h :: bl :: xs ++ pre ++ n :: post)); [done|].
      do 3 constructor. constructor. apply sublist_inserts_r. reflexivity. }
  destruct (Enqueue_spec (set_mem m1 s) q h xs n HQ1 Hok1) as (m2 & Hr2 & HQ2).
  assert (kspan n 4) as Kn by (eapply nodes_ok_kspan; [exact Hok1|set_solver]).
  pose proof (Enqueue_only (set_mem m1 s) _ _ _ _ m2 HQ1 Kn Hr2) as Ho.
  exists m2. split_and!; [|split; [|apply Hcl1]|exact HQ2].
  - eapply runs_bind; [exact Hr1|exact Hr2].
  - apply (circ_frame (load32 m1)); [|apply Hcl1]. intros w Hw.
    apply (only_load32 _ _ _ _ Ho); [apply kspan_span; eapply nodes_ok_kspan; [apply Hcl1|done]|].
    intros i Hi. apply (qbytes_apart (q :: q + 4 :: h :: bl :: xs ++ pre ++ n :: post)); [done|set_solver|set_solver| |done].
    intros Hx. destruct (decide (w = n)) as [->|Hwn].
    + destruct Hcl as [_ (Hndb & _)]. apply NoDup_mid in Hndb as [Hnb _]. done.
    + apply (Hdisj w); set_solver.
Qed.

(** C20: [ThreadWake] moves a blocked thread to the end of the waiting queue, and does nothing
    for a thread that is not blocked; it always returns, after at most one step per
    blocked thread, and both lists stay well formed. *)
Theorem thread_wake s q h xs bl bs t fuel :
  wait_thread_queue (thr s) = q -> block_thread_list (thr s) = bl ->
  queue_rep (mem s) q h xs -> clist (mem s) bl bs -> nodes_ok 4 (q :: q + 4 :: h :: bl :: xs ++ bs) ->
  kspan t 24 -> t + 16 <> bl -> (length bs < fuel)%nat ->
  exists m', runs (ThreadWake fuel t) s tt (set_mem m' s) /\
    clist m' bl (filter (fun x => x <> t + 16) bs) /\
    queue_rep m' q h (if decide (t + 16 ∈ bs) then xs ++ [t + 16] else xs).
Proof.
  intros Eq Ebl HQ Hcl Hok Hk Hne Hf. set (n := t + 16) in *.
  assert (t_node t = n) as En by (unfold t_node; apply u32_small; unfold kspan in Hk; lia).
  assert (forall p r m', runs (loop fuel (fun tmp => next <- ld32 tmp ;;
      if (next =? bl) || (next =? n) then ret (inr tmp) else ret (inl next)) bl) s p s ->
    runs (next <- ld32 p ;; if next =? n then ListRemove p ;;; Enqueue q n else ret tt) s r (set_mem m' s) ->
    runs (ThreadWake fuel t) s r (set_mem m' s)) as Hrun.
  { intros p r m' Hl Hk'. unfold ThreadWake. eapply runs_bind; [reflexivity|]. rewrite Ebl, En.
    eapply runs_bind; [exact Hl|]. unfold runs, bind, gets in *. rewrite <- Hk'.
    unfold ld32, gets. destruct (_ =? n); [|reflexivity]. destruct (ListRemove p s) as [[? s2]| | | |] eqn:Er; [|reflexivity..].
    unfold ListRemove, bind, ld32, st32, modify, gets, ret in Er. injection Er as _ <-. cbn [thr set_mem]. by rewrite Eq. }
  destruct (decide (n ∈ bs)) as [Hin|Hin].
  - apply list_elem_of_split_l in Hin as (pre & post & -> & Hpre).
    destruct (wake_move s q h xs bl pre n post HQ Hcl Hok) as (m' & Hr & Hcl' & HQ').
    assert (n ∉ post) as Hpost by (destruct Hcl as [_ (Hnd & _)]; apply NoDup_mid in Hnd as [Hnd _]; set_solver).
    exists m'. split_and!; [|rewrite filter_app, filter_cons_False, !filter_absent by (done || naive_solver); done|done].
    apply (Hrun (tail_of bl pre)); [eapply wake_search; [exact Hcl|done|by right|rewrite length_app in Hf; lia]|].
    eapply runs_bind; [apply runs_ld32|]. cbv beta. destruct Hcl as [Hc _]. rewrite (circ_next _ _ _ _ _ Hc), Z.eqb_refl. exact Hr.
  - exists (mem s). rewrite filter_absent by done. split_and!; [|done|done].
    apply (Hrun (tail_of bl bs)); [apply (wake_search s bl n bs []); [by rewrite app_nil_r|done|by left|done]|].
    rewrite set_mem_mem. eapply runs_bind; [apply runs_ld32|]. cbv beta. destruct Hcl as [Hc _].
    rewrite (circ_next_end _ _ _ Hc). destruct (Z.eqb_spec bl n); [congruence|reflexivity].
Qed.

(** ** Instances *)

(** Two kernel threads: the running one at [0xc1000040] and a waiting one at [0xc1000080], on
    the queue at [0xc1000000] with list head [0xc1000010]; the blocked threads' list has
    its head at [0xc1000020], the TSS is at [0xc1000200]. *)
Definition sched_example : kstate :=
  let s := set_mem (foldr (fun av m => store32 m av.1 av.2) ∅
    [(3238002688, 3238002704); (3238002692, 3238002832); (3238002704, 3238002832); (3238002832, 3238002704);
     (3238002720, 3238002720); (3238003204, 3238006780); (3238006780, 3238002752);
     (3238002760, 3238002944); (3238002824, 3238002944); (3238002820, 3238010880); (3238010876, 3238002816);
     (3238002828, 3238010856); (3238010872, 1060000)])
    (set_cpu (set_esp 3238006720 zero_cpu) zero_state) in
  set_tss 3238003200 (set_thr (mk_ThrG 0 3238002688 3238002720) s).

Lemma sched_example_ready :
  ready sched_example 3238002688 3238002704 3238002752 3238002816 [] 3238002944.
Proof.
  constructor.
  - reflexivity.
  - constructor; [vm_compute; reflexivity|vm_compute; reflexivity| |by apply nodes_okb_sound].
    split; [split; [vm_compute; reflexivity|exact I]|vm_compute; reflexivity].
  - by apply nodes_okb_sound.
  - repeat constructor; vm_compute; discriminate.
  - vm_compute. reflexivity.
  - vm_compute. reflexivity.
  - vm_compute. reflexivity.
  - vm_compute. reflexivity.
  - vm_compute. reflexivity.
  - vm_compute. repeat split; discriminate.
  - apply regions_okb_sound. vm_compute. reflexivity.
Qed.

Lemma sched_example_new : c_eip (saved (mem sched_example) (3238002816 + 12)) <> @ThreadSwitch_ret null_platform.
Proof. vm_compute. discriminate. Qed.

Lemma thread_switch_round_robin_witness :
  exists s', enters (@ThreadSwitch null_platform) sched_example s' /\
    queue_rep (mem s') 3238002688 3238002704 [3238002768] /\ runs GetCurThread s' 3238002816 s' /\
    cpu_context (cpu s') = mk_context 3238010876 0 0 0 0 1060000.
Proof.
  destruct (@thread_switch_round_robin null_platform _ _ _ _ _ _ _ sched_example_ready) as (s' & Hr & HQ & Hc & Hx & _).
  - vm_compute. split; [discriminate|reflexivity].
  - exists s'. split; [exact (lands_enters _ _ _ _ sched_example_new Hr)|]. split; [exact HQ|]. split; [exact Hc|]. rewrite Hx. vm_compute. reflexivity.
Defined.

Lemma thread_sleep_requeues_witness :
  exists s', enters (@ThreadSleep null_platform) sched_example s' /\
    queue_rep (mem s') 3238002688 3238002704 [3238002768] /\
    load32 (mem s') 3238002720 = 3238002768 /\ load32 (mem s') 3238002768 = 3238002704.
Proof.
  destruct (@thread_sleep_requeues null_platform _ _ _ _ _ _ _ 3238002720 sched_example_ready) as (s' & Hr & _ & HQ & H1 & H2).
  - vm_compute. split; [discriminate|reflexivity].
  - reflexivity.
  - apply regions_okb_sound. vm_compute. reflexivity.
  - exists s'. split; [exact (lands_enters _ _ _ _ sched_example_new Hr)|]. split; [exact HQ|]. split; [exact H1|exact H2].
Defined.

(** A blocked thread at [0xc1000080], woken from a list with head [0xc1000020]. *)
Definition wake_example : kstate :=
  let s := set_mem (foldr (fun av m => store32 m av.1 av.2) ∅
    [(3238002688, 3238002704); (3238002692, 3238002704); (3238002704, 3238002704);
     (3238002720, 3238002832); (3238002832, 3238002720)]) zero_state in
  set_thr (mk_ThrG 0 3238002688 3238002720) s.

Lemma thread_wake_witness :
  exists m', runs (ThreadWake 2 3238002816) wake_example tt (set_mem m' wake_example) /\
    clist m' 3238002720 [] /\ queue_rep m' 3238002688 3238002704 [3238002832].
Proof.
  apply (thread_wake wake_example 3238002688 3238002704 [] 3238002720 [3238002832] 3238002816 2).
  - reflexivity.
  - reflexivity.
  - constructor; [vm_compute; reflexivity|vm_compute; reflexivity| |by apply nodes_okb_sound].
    split; [exact I|vm_compute; reflexivity].
  - by apply clistb_sound.
  - by apply nodes_okb_sound.
  - vm_compute. split; discriminate.
  - lia.
  - cbn. lia.
Defined.
