(* ===== verification/ThreadSpec.v ===== *)
(** * Creating a thread

    [CreateThread] against the allocator's interface: the new thread gets a stack that
    nothing else uses, finds its own structure at the top of it, and is linked into its
    process. *)

From Stdlib Require Import ZArith Lia ZifyBool.
From stdpp Require Import base numbers gmap list.
From S2P Require Import Prelude Memory Machine Lists Allocator AllocRep AllocReq AllocHeap AllocInit AllocSafety AllocIface AllocRoom Queues Thread ContextSwitch.

(** [n] bytes from [w] on lie in a block of [A]. *)
Definition inside (A : list (Z * Z)) (w n : Z) : Prop := exists a z, (a, z) ∈ A /\ a <= w /\ w + n <= a + z.

(** The words of the lists and of the new thread's structure. *)
Definition create_words (fl t : Z) (rest : list Z) (p : Z) (ths : list Z) : list Z :=
  t + 4 :: t + 8 :: t + 12 :: p + 44 :: ths ++ fl :: t + 16 :: rest.

(** ** The code *)

(** The memory after the four assignments, for a stack whose last byte is [v]. *)
Definition create_mem (m : gmap Z Z) (t p v : Z) : gmap Z Z :=
  store32 (store32 (store32 (store32 m (t + 4) v) (t + 8) p) (t + 12) (v - 4)) (v - 4) t.

Lemma create_runs fuel s fl t p stk m1 m2 m7 :
  free_thread_list (thr s) = fl -> runs (IsListEmpty fl) s false s ->
  runs (ListRemove fl) s (t + 16) (set_mem m1 s) ->
  runs (ReqBytes fuel kKStackSize) (set_mem m1 s) stk (set_mem m2 (set_mem m1 s)) ->
  kspan t 24 -> kspan (p + 44) 4 -> 0 <= stk -> stk + 4096 <= W32 ->
  runs (ListAdd (p + 44) (t + 16)) (set_mem (create_mem m2 t p (stk + 4095)) s) tt (set_mem m7 s) ->
  runs (CreateThread fuel p) s t (set_mem m7 s).
Proof.
  intros Hfl He Hrm Hreq Ht Hp H0 H1 Hadd. unfold kspan in Ht, Hp. unfold CreateThread.
  eapply runs_bind; [reflexivity|]. cbv beta. rewrite Hfl. eapply runs_bind; [exact He|]. cbv beta iota.
  eapply runs_bind; [reflexivity|]. cbv beta. rewrite Hfl. eapply runs_bind; [exact Hrm|]. cbv beta zeta.
  replace (GET_STRUCT (t + 16) 16) with t by (unfold GET_STRUCT; rewrite u32_small; lia).
  eapply runs_bind; [exact Hreq|]. cbv beta. unfold t_stack_addr, t_pcb, t_esp, t_node, p_thread_list, kKStackSize.
  rewrite !(u32_small (t + _)) by lia. rewrite (u32_small (p + 44)) by lia.
  replace (4096 + stk - 1) with (stk + 4095) by lia. rewrite (u32_small (stk + 4095)) by lia.
  eapply runs_bind; [apply runs_st32|]. eapply runs_bind; [apply runs_st32|].
  eapply runs_bind; [apply runs_ld32|]. cbv beta. cbn [mem set_mem].
  rewrite load32_store32_ne, load32_store32_same, (u32_small (stk + 4095)), (u32_small (stk + 4095 - 4))
    by (unfold kspan, apart; lia).
  eapply runs_bind; [apply runs_st32|]. eapply runs_bind; [apply runs_ld32|]. cbv beta. cbn [mem set_mem].
  rewrite load32_store32_same, (u32_small (stk + 4095 - 4)) by (unfold kspan; lia).
  eapply runs_bind; [apply runs_st32|]. cbv beta. eapply runs_bind; [exact Hadd|]. reflexivity.
Qed.

(** ** Frames *)

Lemma pool_same_except ws m m' :
  (forall w, w ∈ ws -> KVA <= w /\ w + 4 <= POOL) -> same_except ws m m' -> pool_same m m'.
Proof.
  intros Hw Hs n b Hb Hn. apply Hs; [unfold kspan; lia|]. rewrite Forall_forall. intros w Hin.
  specialize (Hw w Hin). unfold apart. lia.
Qed.

Lemma clist_pool m m' h xs :
  pool_only m m' -> (forall q, q ∈ h :: xs -> q + 4 <= POOL) -> clist m h xs -> clist m' h xs.
Proof.
  intros Hp Hq [Hc Hn]. split; [|done]. apply (circ_frame (load32 m)); [|done]. intros q Hin.
  apply (Hp 4%nat); [by eapply nodes_ok_kspan|]. specialize (Hq q Hin). unfold apart. lia.
Qed.

(** The assignments, when the words are separate. *)
Lemma create_mem_spec m t p v l :
  nodes_ok 4 l -> (forall w, w ∈ [t + 4; t + 8; t + 12; v - 4] -> w ∈ l) -> t + 4 <> v - 4 -> t + 8 <> v - 4 ->
  t + 12 <> v - 4 -> 0 <= v - 4 -> v < W32 -> 0 <= p < W32 -> 0 <= t < W32 ->
  let m' := create_mem m t p v in
  same_except [t + 4; t + 8; t + 12; v - 4] m m' /\
  load32 m' (t + 4) = v /\ load32 m' (t + 8) = p /\ load32 m' (t + 12) = v - 4 /\ load32 m' (v - 4) = t.
Proof.
  intros Hok Hin N1 N2 N3 Hv1 Hv2 Hp Ht m'.
  assert (forall w, w ∈ [t + 4; t + 8; t + 12; v - 4] -> kspan w 4) as Hk by (intros w Hw; by eapply nodes_ok_kspan, Hin).
  assert (forall a b, a ∈ [t + 4; t + 8; t + 12; v - 4] -> b ∈ [t + 4; t + 8; t + 12; v - 4] -> a <> b -> apart a 4 b 4) as Ha
    by (intros a b ? ? ?; by apply Hok; auto).
  split_and!.
  - change [t + 4; t + 8; t + 12; v - 4] with ([t + 4] ++ [t + 8] ++ [t + 12] ++ [v - 4]).
    repeat (eapply same_except_trans; [apply same_except_store32, Hk; set_solver|]). apply same_except_store32, Hk. set_solver.
  - unfold m', create_mem. rewrite !load32_store32_ne by (first [apply Hk; set_solver|apply Ha; [set_solver|set_solver|lia]]).
    rewrite load32_store32_same by (apply Hk; set_solver). apply u32_small. lia.
  - unfold m', create_mem. rewrite !load32_store32_ne by (first [apply Hk; set_solver|apply Ha; [set_solver|set_solver|lia]]).
    rewrite load32_store32_same by (apply Hk; set_solver). by apply u32_small.
  - unfold m', create_mem. rewrite !load32_store32_ne by (first [apply Hk; set_solver|apply Ha; [set_solver|set_solver|lia]]).
    rewrite load32_store32_same by (apply Hk; set_solver). apply u32_small. lia.
  - unfold m', create_mem. rewrite load32_store32_same by (apply Hk; set_solver). by apply u32_small.
Qed.

Section Create.
Context `{ByteAllocator}.

(** A thread [t] is free, all structures involved lie in blocks in use outside the first
    page, and their words are separate. *)
Record creatable (fuel n : nat) (s : kstate) (fl t : Z) (rest : list Z) (p : Z) (ths : list Z) (A : list (Z * Z)) : Prop := {
  cr_fl : free_thread_list (thr s) = fl;
  cr_free : clist (mem s) fl (t + 16 :: rest);
  cr_ths : clist (mem s) (p + 44) ths;
  cr_words : nodes_ok 4 (create_words fl t rest p ths);
  cr_in w : w ∈ create_words fl t rest p ths -> inside A w 4;
  cr_high w : w ∈ create_words fl t rest p ths -> KVA + 4096 <= w;
  cr_t : KVA <= t;
  cr_p : 0 <= p;
  cr_owns : owns fuel (S n) s A;
}.

(** What the theorem says of the result. *)
Definition created (fuel n : nat) (s : kstate) (fl t : Z) (rest : list Z) (p : Z) (ths : list Z) (A : list (Z * Z))
    (stk : Z) (m' : gmap Z Z) : Prop :=
  owns fuel n (set_mem m' s) ((stk, 4096) :: A) /\ (forall a z, (a, z) ∈ A -> apart stk 4096 a z) /\
  load32 m' (t + 8) = p /\ load32 m' (t + 12) = stk + 4091 /\ load32 m' (stk + 4091) = t /\
  clist m' fl rest /\ clist m' (p + 44) (t + 16 :: ths).

Section With.
Context (fuel n : nat) (s : kstate) (fl t : Z) (rest : list Z) (p : Z) (ths : list Z) (A : list (Z * Z)).
Hypothesis C : creatable fuel n s fl t rest p ths A.

Lemma create_range w : w ∈ create_words fl t rest p ths -> KVA <= w /\ w + 4 <= POOL.
Proof.
  intros Hw. destruct (cr_in _ _ _ _ _ _ _ _ _ C w Hw) as (a & z & Hin & H1 & H2).
  pose proof (owns_range _ _ _ _ _ _ (cr_owns _ _ _ _ _ _ _ _ _ C) Hin). lia.
Qed.

(** The thread taken off the free list. *)
Lemma create_remove :
  exists m1, runs (ListRemove fl) s (t + 16) (set_mem m1 s) /\ clist m1 fl rest /\ clist m1 (p + 44) ths /\
    pool_same (mem s) m1.
Proof.
  destruct (ListRemove_spec s fl [] (t + 16) rest (cr_free _ _ _ _ _ _ _ _ _ C)) as (m1 & Hr & Hc & _ & Hse).
  cbn [tail_of app] in *. exists m1. split_and!; [exact Hr|exact Hc| |].
  - pose proof (cr_words _ _ _ _ _ _ _ _ _ C) as Hok.
    eapply (clist_frame _ _ _ _ _ (create_words fl t rest p ths)); [exact Hse|exact Hok| | |apply C].
    + unfold create_words. set_solver.
    + intros q Hq. split; [unfold create_words; set_solver|]. destruct Hok as (Hnd & _).
      unfold create_words in Hnd. clear -Hq Hnd.
      rewrite !NoDup_cons, NoDup_app, !NoDup_cons in Hnd. destruct Hnd as (_ & _ & _ & N1 & N2 & N3 & _).
      apply elem_of_cons in Hq as [->|Hq]; [set_solver|]. specialize (N3 q Hq). set_solver.
  - eapply pool_same_except; [|exact Hse]. intros w Hw. apply create_range. unfold create_words. set_solver.
Qed.

(** The new stack's top word is separate from everything. *)
Lemma create_top stk :
  stk <> 0 -> KVA <= stk /\ stk + 4096 <= POOL -> (forall a z, (a, z) ∈ A -> apart stk 4096 a z) ->
  nodes_ok 4 (stk + 4091 :: create_words fl t rest p ths).
Proof.
  intros _ Hr Hap. pose proof (cr_words _ _ _ _ _ _ _ _ _ C) as (Hnd & Hk & Ha).
  assert (forall w, w ∈ create_words fl t rest p ths -> apart (stk + 4091) 4 w 4) as Hw.
  { intros w Hw. destruct (cr_in _ _ _ _ _ _ _ _ _ C w Hw) as (a & z & Hin & H1 & H2).
    specialize (Hap a z Hin). unfold apart in *. lia. }
  split_and!.
  - apply NoDup_cons. split; [|done]. intros Hin. specialize (Hw _ Hin). unfold apart in Hw. lia.
  - apply Forall_cons. split; [unfold kspan; lia|done].
  - intros x y Hx Hy Hne. apply elem_of_cons in Hx as [->|Hx]; apply elem_of_cons in Hy as [->|Hy]; [done|auto|apply apart_sym; auto|auto].
Qed.

(** The nodes of the two lists, without the thread that moves. *)
Definition stay : list Z := p + 44 :: ths ++ fl :: rest.

Lemma create_elem w :
  w ∈ create_words fl t rest p ths <-> (w = t + 4 \/ w = t + 8 \/ w = t + 12 \/ w = t + 16) \/ w ∈ stay.
Proof. unfold create_words, stay. rewrite !elem_of_cons, !elem_of_app, !elem_of_cons. tauto. Qed.

Lemma stay_ne w : w ∈ stay -> w <> t + 4 /\ w <> t + 8 /\ w <> t + 12 /\ w <> t + 16.
Proof.
  intros Hw. pose proof (cr_words _ _ _ _ _ _ _ _ _ C) as (Hnd & _). unfold create_words, stay in *.
  rewrite !elem_of_cons, elem_of_app, elem_of_cons in Hw. rewrite !NoDup_cons, NoDup_app, !NoDup_cons in Hnd.
  rewrite !elem_of_cons, !elem_of_app, !elem_of_cons in Hnd. destruct Hnd as (N1 & N2 & N3 & N4 & N5 & N6 & N7 & N8 & N9).
  split_and!; intros ->; [clear -N1 Hw; tauto|clear -N2 Hw; tauto|clear -N3 Hw; tauto|].
  destruct Hw as [Hw|[Hw|[Hw|Hw]]]; [| | |done].
  - apply N4. rewrite Hw. tauto.
  - apply (N6 _ Hw). rewrite !elem_of_cons. tauto.
  - apply N7. rewrite Hw. tauto.
Qed.

Lemma stay_nodup : NoDup (t + 16 :: p + 44 :: ths).
Proof.
  pose proof (cr_words _ _ _ _ _ _ _ _ _ C) as (Hnd & _). unfold create_words in Hnd.
  rewrite !NoDup_cons, NoDup_app in Hnd. destruct Hnd as (_ & _ & _ & N4 & N5 & _).
  rewrite elem_of_app in N4. apply NoDup_cons. split; [|apply NoDup_cons; tauto].
  intros Hin. destruct (stay_ne (t + 16)) as (_ & _ & _ & N); [|done]. unfold stay.
  rewrite elem_of_cons, elem_of_app. apply elem_of_cons in Hin. tauto.
Qed.

(** A list among the nodes that stay, after writes to other words. *)
Lemma stay_frame stk ws m m' h xs :
  nodes_ok 4 (stk + 4091 :: create_words fl t rest p ths) -> same_except ws m m' ->
  (forall w, w ∈ ws -> w = stk + 4091 \/ w = t + 4 \/ w = t + 8 \/ w = t + 12 \/ w = t + 16 \/ w ∈ stay) ->
  (forall q, q ∈ h :: xs -> q ∈ stay /\ q ∉ ws) -> clist m h xs -> clist m' h xs.
Proof.
  intros Hok Hse Hws Hq. eapply clist_frame; [exact Hse|exact Hok| |].
  - intros w Hw. rewrite elem_of_cons, create_elem. specialize (Hws w Hw). tauto.
  - intros q Hin. destruct (Hq q Hin) as [H1 H2]. split; [|exact H2]. rewrite elem_of_cons, create_elem. tauto.
Qed.

Lemma free_ne q : q ∈ fl :: rest -> q ∈ stay /\ q <> p + 44.
Proof.
  intros Hq. pose proof (cr_words _ _ _ _ _ _ _ _ _ C) as (Hnd & _). unfold create_words, stay in *.
  rewrite !NoDup_cons in Hnd. destruct Hnd as (_ & _ & _ & N4 & _). rewrite elem_of_app, !elem_of_cons in N4.
  apply elem_of_cons in Hq. split; [rewrite elem_of_cons, elem_of_app, elem_of_cons; tauto|].
  intros ->. tauto.
Qed.

Lemma ths_stay q : q ∈ p + 44 :: ths -> q ∈ stay.
Proof. unfold stay. rewrite !elem_of_cons, elem_of_app. tauto. Qed.

(** The assignments to the new thread. *)
Lemma create_fields m2 stk (m6 := create_mem m2 t p (stk + 4095)) :
  nodes_ok 4 (stk + 4091 :: create_words fl t rest p ths) -> KVA <= stk -> stk + 4096 <= POOL ->
  same_except [t + 4; t + 8; t + 12; stk + 4091] m2 m6 /\
  load32 m6 (t + 4) = stk + 4095 /\ load32 m6 (t + 8) = p /\ load32 m6 (t + 12) = stk + 4091 /\
  load32 m6 (stk + 4091) = t.
Proof.
  intros Hok H1 H2. pose proof (proj1 (NoDup_cons _ _) (proj1 Hok)) as [Htop _].
  rewrite create_elem in Htop.
  assert (p + 44 ∈ create_words fl t rest p ths) as HpW by (apply create_elem; right; left).
  assert (t + 12 ∈ create_words fl t rest p ths) as HtW by (apply create_elem; tauto).
  apply create_range in HpW, HtW.
  pose proof (cr_t _ _ _ _ _ _ _ _ _ C) as Htk. pose proof (cr_p _ _ _ _ _ _ _ _ _ C) as Hp0.
  pose proof (create_mem_spec m2 t p (stk + 4095) (stk + 4091 :: create_words fl t rest p ths)) as Hspec.
  replace (stk + 4095 - 4) with (stk + 4091) in Hspec by lia.
  apply Hspec; [exact Hok| |intros E; apply Htop; rewrite <- E; tauto..|lia|lia|lia|lia].
  intros w Hw. rewrite !elem_of_cons in Hw. rewrite elem_of_cons, create_elem.
  destruct Hw as [->|[->|[->|[->|Hw]]]]; [tauto..|]. by apply not_elem_of_nil in Hw.
Qed.

(** [ListAdd] of the new thread: the free list, the fields and the allocator stay. *)
Lemma create_link m6 stk :
  nodes_ok 4 (stk + 4091 :: create_words fl t rest p ths) -> clist m6 fl rest -> clist m6 (p + 44) ths ->
  exists m7, runs (ListAdd (p + 44) (t + 16)) (set_mem m6 s) tt (set_mem m7 s) /\
    clist m7 fl rest /\ clist m7 (p + 44) (t + 16 :: ths) /\ pool_same m6 m7 /\
    (forall q, q = stk + 4091 \/ q = t + 4 \/ q = t + 8 \/ q = t + 12 -> load32 m7 q = load32 m6 q).
Proof.
  intros Hok Hfl Hths. pose proof (proj1 (NoDup_cons _ _) (proj1 Hok)) as [Htop _]. rewrite create_elem in Htop.
  assert (p + 44 ∈ stay) as Hps by (apply ths_stay; left). pose proof (stay_ne _ Hps) as Hpn.
  destruct (ListAdd_spec (set_mem m6 s) (p + 44) [] ths (t + 16) Hths) as (m7 & Hr7 & Hc7 & Hse7).
  { eapply (nodes_ok_sub 4 _ _ Hok); [exact stay_nodup|]. intros x. rewrite !elem_of_cons, create_elem.
    intros [->|Hx]; [tauto|]. right. right. apply ths_stay. by apply elem_of_cons. }
  cbn [tail_of app mem set_mem] in Hr7, Hc7, Hse7.
  assert (forall w, w ∈ [p + 44; t + 16] -> w = p + 44 \/ w = t + 16) as Hw.
  { intros w. rewrite !elem_of_cons. intros [|[|Hw]]; [tauto..|]. by apply not_elem_of_nil in Hw. }
  exists m7. split_and!; [exact Hr7| |exact Hc7| |].
  - apply (stay_frame stk _ _ _ _ _ Hok Hse7); [intros w Hin; destruct (Hw w Hin) as [->| ->]; tauto| |exact Hfl].
    intros q Hq. destruct (free_ne q Hq) as [H1 H2]. split; [done|]. intros Hin.
    destruct (stay_ne q H1) as (_ & _ & _ & H3). destruct (Hw q Hin); tauto.
  - eapply pool_same_except; [|exact Hse7]. intros w Hin. apply create_range, create_elem.
    destruct (Hw w Hin) as [->| ->]; tauto.
  - intros q Hq. eapply (load32_frame _ _ _ _ _ Hse7 Hok).
    + intros w Hin. rewrite elem_of_cons, create_elem. destruct (Hw w Hin) as [->| ->]; tauto.
    + rewrite elem_of_cons, create_elem. tauto.
    + intros Hin. destruct (Hw q Hin) as [->| ->].
      * destruct Hq as [Hq|Hq]; [rewrite Hq in Hps; tauto|tauto].
      * destruct Hq as [Hq|[|[|]]]; [rewrite <- Hq in Htop; tauto|lia..].
Qed.

(** The thread with a stack, linked into its process. *)
Lemma create_good m2 stk :
  stk <> 0 -> (forall a z, (a, z) ∈ A -> apart stk 4096 a z) -> owns fuel n (set_mem m2 s) ((stk, 4096) :: A) ->
  clist m2 fl rest -> clist m2 (p + 44) ths ->
  exists m7, runs (ListAdd (p + 44) (t + 16)) (set_mem (create_mem m2 t p (stk + 4095)) s) tt (set_mem m7 s) /\
    load32 m7 (t + 4) = stk + 4095 /\ created fuel n s fl t rest p ths A stk m7.
Proof.
  intros Hne Hap Hown Hfl Hths. pose proof (owns_range _ _ _ _ _ _ Hown (list_elem_of_here _ _)) as Hr.
  pose proof (create_top stk Hne Hr Hap) as Hok.
  pose proof (proj1 (NoDup_cons _ _) (proj1 Hok)) as [Htop _]. rewrite create_elem in Htop.
  destruct (create_fields m2 stk Hok) as (Hse & E1 & E2 & E3 & E4); [lia|lia|].
  set (m6 := create_mem m2 t p (stk + 4095)) in *.
  assert (forall w, w ∈ [t + 4; t + 8; t + 12; stk + 4091] -> w = stk + 4091 \/ w = t + 4 \/ w = t + 8 \/ w = t + 12) as Hws.
  { intros w. rewrite !elem_of_cons. intros [|[|[|[|Hw]]]]; [tauto..|]. by apply not_elem_of_nil in Hw. }
  assert (forall h xs, (forall q, q ∈ h :: xs -> q ∈ stay) -> clist m2 h xs -> clist m6 h xs) as Hf6.
  { intros h xs Hq. apply (stay_frame stk _ _ _ _ _ Hok Hse); [intros w Hw; specialize (Hws w Hw); tauto|].
    intros q Hin. split; [auto|]. intros Hin'. destruct (stay_ne q (Hq q Hin)) as (? & ? & ? & _).
    destruct (Hws q Hin') as [->|[|[|]]]; [|done..]. apply Htop. right. by apply Hq. }
  destruct (create_link m6 stk Hok) as (m7 & Hr7 & Hc1 & Hc2 & Hps & Hl7);
    [apply Hf6; [intros q Hq; by apply free_ne|exact Hfl]|apply Hf6; [exact ths_stay|exact Hths]|].
  exists m7. split_and!; [exact Hr7|by rewrite Hl7, E1 by tauto|].
  unfold created. rewrite !Hl7 by tauto. split_and!; [|exact Hap|exact E2|exact E3|exact E4|exact Hc1|exact Hc2].
  eapply owns_frame; [exact Hown|reflexivity|]. intros k b Hb1 Hb2. cbn [mem set_mem]. rewrite Hps by done.
  revert k b Hb1 Hb2. eapply pool_same_except; [|exact Hse]. intros w Hw. destruct (Hws w Hw) as [->|Hw']; [lia|].
  apply create_range, create_elem. tauto.
Qed.

(** Without memory for a stack: [stack_addr] is 4095. *)
Lemma create_bad m2 :
  exists m7, runs (ListAdd (p + 44) (t + 16)) (set_mem (create_mem m2 t p 4095) s) tt (set_mem m7 s) /\
    load32 m7 (t + 4) = 4095.
Proof.
  destruct (ListAdd_runs (p + 44) (t + 16) (set_mem (create_mem m2 t p 4095) s)) as (m7 & Hr & ->).
  eexists. split; [exact Hr|]. cbn [mem set_mem]. unfold create_mem.
  pose proof (cr_words _ _ _ _ _ _ _ _ _ C) as (_ & _ & Ha).
  assert (forall w, w ∈ create_words fl t rest p ths -> kspan w 4) as Hk.
  { intros w Hw. apply create_range in Hw. unfold kspan. lia. }
  assert (t + 4 ∈ create_words fl t rest p ths) as H4 by (apply create_elem; tauto).
  assert (forall w, w ∈ create_words fl t rest p ths -> w <> t + 4 -> forall m v, load32 (store32 m w v) (t + 4) = load32 m (t + 4)) as Hne.
  { intros w Hw Hn m v. apply load32_store32_ne; auto. }
  assert (p + 44 ∈ stay) as Hps by (apply ths_stay; left). destruct (stay_ne _ Hps) as (Hn & _).
  rewrite !Hne by (first [apply create_elem; tauto|lia]).
  rewrite span_store32_ne.
  - rewrite !Hne by (first [apply create_elem; tauto|lia]). rewrite load32_store32_same by auto. reflexivity.
  - pose proof (cr_high _ _ _ _ _ _ _ _ _ C _ H4). pose proof (create_range _ H4).
    unfold wsep. rewrite phys_low, phys_high by lia. unfold span, apart. lia.
Qed.
End With.

(** [CreateThread] with the result of its request. *)
Lemma create_thread_req fuel n s fl t rest p ths A :
  creatable fuel n s fl t rest p ths A ->
  exists m1 stk m2 m', runs (ListRemove fl) s (t + 16) (set_mem m1 s) /\ pool_same (mem s) m1 /\
    runs (ReqBytes fuel kKStackSize) (set_mem m1 s) stk (set_mem m2 s) /\
    runs (CreateThread fuel p) s t (set_mem m' s) /\ load32 m' (t + 4) = stk + 4095 /\
    (stk <> 0 -> created fuel n s fl t rest p ths A stk m').
Proof.
  intros C. destruct (create_remove _ _ _ _ _ _ _ _ _ C) as (m1 & Hr1 & Hf1 & Ht1 & Hps1).
  assert (owns fuel (S n) (set_mem m1 s) A) as Ho1 by (eapply owns_frame; [apply C|reflexivity|exact Hps1]).
  pose proof (IsListEmpty_spec _ _ _ (cr_free _ _ _ _ _ _ _ _ _ C)) as He.
  destruct (owns_req fuel n (set_mem m1 s) A 4096 Ho1) as (stk & m2 & Hr2 & Hpo & Hres); [lia|].
  assert (forall q, q ∈ create_words fl t rest p ths -> KVA <= q /\ q + 4 <= POOL) as Hrg
    by (intros q; apply (create_range _ _ _ _ _ _ _ _ _ C)).
  assert (kspan t 24 /\ kspan (p + 44) 4) as [Hkt Hkp].
  { pose proof (cr_t _ _ _ _ _ _ _ _ _ C). assert (t + 16 ∈ create_words fl t rest p ths /\ p + 44 ∈ create_words fl t rest p ths) as [H1 H2].
    { rewrite !create_elem. split; [tauto|]. right. left. }
    apply Hrg in H1, H2. unfold kspan. lia. }
  destruct Hres as [[-> _]|(Hne & Ho2 & Hap)].
  - destruct (create_bad _ _ _ _ _ _ _ _ _ C m2) as (m7 & Hr7 & E). exists m1, 0, m2, m7. split_and!; [exact Hr1|exact Hps1|exact Hr2| |exact E|done].
    eapply (create_runs fuel s fl t p 0 m1 m2); [apply C|exact He|exact Hr1|exact Hr2|done|done|lia|lia|exact Hr7].
  - assert (clist m2 fl rest /\ clist m2 (p + 44) ths) as [Hf2 Ht2].
    { split; (eapply clist_pool; [exact Hpo| |assumption]); intros q Hq; apply Hrg, create_elem; right.
      - by apply (free_ne _ _ _ _ _ _ _ _ _ C).
      - by apply ths_stay. }
    pose proof (owns_range _ _ _ _ _ _ Ho2 (list_elem_of_here _ _)) as Hr.
    destruct (create_good _ _ _ _ _ _ _ _ _ C m2 stk Hne Hap Ho2 Hf2 Ht2) as (m7 & Hr7 & E & Hc).
    exists m1, stk, m2, m7. split_and!; [exact Hr1|exact Hps1|exact Hr2| |exact E|done].
    eapply (create_runs fuel s fl t p stk m1 m2); [apply C|exact He|exact Hr1|exact Hr2|done|done|lia|lia|exact Hr7].
Qed.
End Create.

(** C19: [CreateThread], against the allocator's interface. It returns the first free thread,
    taken off the pool, and asks the allocator once, for a page: the stack of the thread is
    what that request returned. When the request is served, the stack is apart from every
    block in use, the thread's stack pointer points to the word that ends one byte below the
    stack's end and holds the thread's address, as [GetCurThread] expects, the thread is
    linked into its process, the pool has lost it, and the allocator can serve the next
    request ([created]). The request is served as long as the allocator has room ([ample]).
    When it returns 0, the thread is returned all the same, with the stack at the end of
    page 0. *)
Theorem create_thread `{RoomyAllocator} fuel n s fl t rest p ths A :
  creatable fuel n s fl t rest p ths A ->
  exists m1 stk m2 m', runs (ListRemove fl) s (t + 16) (set_mem m1 s) /\
    runs (ReqBytes fuel kKStackSize) (set_mem m1 s) stk (set_mem m2 s) /\
    runs (CreateThread fuel p) s t (set_mem m' s) /\ load32 m' (t + 4) = stk + 4095 /\
    (stk <> 0 -> created fuel n s fl t rest p ths A stk m') /\
    (ample fuel (S n) s A -> stk <> 0).
Proof.
  intros C. destruct (create_thread_req fuel n s fl t rest p ths A C) as (m1 & stk & m2 & m' & H1 & Hps & H2 & H3 & H4 & H5).
  exists m1, stk, m2, m'. split_and!; [exact H1|exact H2|exact H3|exact H4|exact H5|]. intros Ha.
  assert (ample fuel (S n) (set_mem m1 s) A) as Ha1 by (eapply ample_frame; [exact Ha|reflexivity|exact Hps]).
  destruct (ample_req fuel n _ A 4096 Ha1 ltac:(lia)) as (r & m3 & Hr & _ & Hne & _).
  destruct (runs_det _ _ _ _ _ _ H2 Hr) as [-> _]. exact Hne.
Qed.


(** ** Instances

    After the initialisation of the allocator the image's 2 MB are in use. One free thread
    at [0xc0150000], the head of the free list at [0xc0151000] and a process at [0xc0152000]. *)

Definition with_threads (s : kstate) : kstate :=
  set_mem (store32 (store32 (store32 (mem s) 3222605824 3222601744) 3222601744 3222605824) 3222609964 3222609964)
    (set_thr (mk_ThrG 3222605824 0 0) s).

Lemma threads_creatable s :
  heap_at 2097152 s (boot_free 21) (boot_alloc 21) 130992 ->
  creatable 40 1 (with_threads s) 3222605824 3222601728 [] 3222609920 [] [(3221225472, 2097152)].
Proof.
  intros Hh.
  assert (forall w, w ∈ create_words 3222605824 3222601728 [] 3222609920 [] ->
    3222601732 <= w <= 3222609964) as Hw.
  { unfold create_words. intros w. rewrite !elem_of_cons, elem_of_app, !elem_of_cons, !elem_of_nil. lia. }
  assert (nodes_ok 4 (create_words 3222605824 3222601728 [] 3222609920 [])) as Hok.
  { apply nodes_okb_sound; [lia|vm_compute; reflexivity]. }
  constructor.
  - reflexivity.
  - split; [|eapply (nodes_ok_sub 4 _ _ Hok); [apply (bool_decide_unpack _); vm_compute; exact I|]].
    + unfold with_threads. cbn [mem set_mem circ]. split; cbn [path tail_of].
      * split; [|exact I]. rewrite !load32_store32_ne by (unfold kspan, apart; lia).
        rewrite load32_store32_same by (unfold kspan; lia). reflexivity.
      * rewrite load32_store32_ne by (unfold kspan, apart; lia).
        rewrite load32_store32_same by (unfold kspan; lia). reflexivity.
    + unfold create_words. set_solver.
  - split; [|eapply (nodes_ok_sub 4 _ _ Hok); [apply (bool_decide_unpack _); vm_compute; exact I|unfold create_words; set_solver]].
    split; [done|]. cbn [tail_of]. apply load32_store32_same. unfold kspan. lia.
  - exact Hok.
  - intros w Hin. specialize (Hw w Hin). exists 3221225472, 2097152. split; [left|lia].
  - intros w Hin. specialize (Hw w Hin). lia.
  - lia.
  - lia.
  - apply (owns_frame 40 2 s); [|reflexivity|].
    + exists 2097152, (boot_free 21), (boot_alloc 21). split_and!.
      * destruct Hh as (? & L & ? & ?). split; [done|]. exists L. split; [done|lia].
      * intros k. pose proof (boot_alloc_length 21 k). lia.
      * intros a z Hin. apply list_elem_of_singleton in Hin. injection Hin as -> ->. exists 21%nat.
        split; [apply boot_alloc_blk; [lia|done]|lia].
    + intros k b H1 H2. unfold with_threads. cbn [mem set_mem].
      rewrite !(load_store_ne k 4) by (unfold kspan, apart; lia). reflexivity.
Qed.

Lemma threads_ample s :
  heap_at 2097152 s (boot_free 21) (boot_alloc 21) 130992 -> ample 40 2 (with_threads s) [(3221225472, 2097152)].
Proof.
  intros Hh. apply (ample_frame 40 2 s); [|reflexivity|].
  - exists 2097152, (boot_free 21), (boot_alloc 21). split_and!.
    + destruct Hh as (? & L & ? & ?). split; [done|]. exists L. split; [done|lia].
    + intros k. pose proof (boot_alloc_length 21 k). lia.
    + intros a z Hin. apply list_elem_of_singleton in Hin. injection Hin as -> ->. exists 21%nat.
      split; [apply boot_alloc_blk; [lia|done]|lia].
    + vm_compute. discriminate.
  - intros k b H1 H2. unfold with_threads. cbn [mem set_mem].
    rewrite !(load_store_ne k 4) by (unfold kspan, apart; lia). reflexivity.
Qed.

(** The thread is returned with a stack. *)
Lemma create_thread_witness :
  exists s stk m', runs (CreateThread 40 3222609920) s 3222601728 (set_mem m' s) /\ stk <> 0 /\
    created 40 1 s 3222605824 3222601728 [] 3222609920 [] [(3221225472, 2097152)] stk m'.
Proof.
  destruct null_boot as (s & Hs).
  destruct (create_thread 40 1 (with_threads s) 3222605824 3222601728 [] 3222609920 [] [(3221225472, 2097152)])
    as (m1 & stk & m2 & m' & _ & _ & Hr & _ & Hc & Hne).
  - exact (threads_creatable s Hs).
  - exists (with_threads s), stk, m'. specialize (Hne (threads_ample s Hs)). split; [exact Hr|]. split; [exact Hne|exact (Hc Hne)].
Defined.
