(* ===== verification/Process.v ===== *)
(** * process/process.c and the page fault handler of memory/paging.c

    A [Pcb] is 48 bytes: [pid] at offset 0, [page_dir] 4, [state] 8, [code] 12 and 16, [data] 20
    and 24, [father] 28, [left] 32, [right] 36, [node] 40, [thread_list] 44. The
    process tree is a chain of [right] nodes from the father's [left] node, ended by NULL. *)

From Stdlib Require Import ZArith Lia ZifyBool.
From stdpp Require Import base numbers gmap list.
From S2P Require Import Prelude Memory Machine Bits AsmWrapper Lists Allocator Queues Interrupt Paging Thread.

Definition kProcInitNum : Z := 16.
Definition sizeof_Pcb : Z := 48.
Definition kPdSize : Z := 4096.

Definition p_code_addr (p : Z) : Z := u32 (p + 12).
Definition p_code_size (p : Z) : Z := u32 (p + 16).
Definition p_data_addr (p : Z) : Z := u32 (p + 20).
Definition p_data_size (p : Z) : Z := u32 (p + 24).
Definition p_father (p : Z) : Z := u32 (p + 28).
Definition p_left (p : Z) : Z := u32 (p + 32).
Definition p_right (p : Z) : Z := u32 (p + 36).
Definition p_node (p : Z) : Z := u32 (p + 40).

(** One round of the loop of [ProcManagerInit]; [cur] is a [ListNode *]. *)
Definition init_pcb (i cur : Z) : K unit :=
  fl <- gets (fun s => free_proc_list (proc s)) ;;
  ListAdd fl cur ;;;
  let tmp := GET_STRUCT cur 40 in
  st32 tmp (kProcInitNum - i) ;;;
  st32 (p_thread_list tmp) 0 ;;;
  st32 (p_left tmp) 0 ;;;
  st32 (p_right tmp) 0 ;;;
  st32 (p_father tmp) 0 ;;;
  st32 (p_page_dir tmp) 0.

(** The loop: [cur++] on a [ListNode *] is 4 bytes further, not a [Pcb] further. *)
Definition init_pcbs (cur : Z) : K unit :=
  for_ (Z.to_nat kProcInitNum) 0 (fun i => init_pcb i (u32 (cur + 4 * i))).

Definition ProcManagerInit (fuel : nat) : K unit :=
  pcb_list <- ReqBytes fuel (kProcInitNum * sizeof_Pcb) ;;
  l <- List fuel ;;
  modify (fun s => set_proc (set_free_proc_list l (proc s)) s) ;;;
  init_pcbs (p_node pcb_list) ;;;
  k <- ReqBytes fuel sizeof_Pcb ;;
  modify (fun s => set_proc (set_k_pcb k (proc s)) s) ;;;
  st32 k 0 ;;;
  st32 (p_node k) 0 ;;;
  pd <- get_cr 3 ;;
  st32 (p_page_dir k) pd ;;;
  st32 (p_thread_list k) (p_thread_list k) ;;;
  st32 (p_father k) 0 ;;;
  st32 (p_left k) 0 ;;;
  st32 (p_right k) 0 ;;;
  st32 (p_state k) RUN.

Definition AddSon (fuel : nat) (son father : Z) : K unit :=
  tmp <- loop fuel (fun tmp =>
    next <- ld32 tmp ;;
    if next =? 0 then ret (inr tmp) else ret (inl next)) father ;;
  st32 tmp son.

Definition CreateProc (fuel : nat) (father : Z) : K Z :=
  fl <- gets (fun s => free_proc_list (proc s)) ;;
  e <- IsListEmpty fl ;;
  if e then ret 0
  else
    fl <- gets (fun s => free_proc_list (proc s)) ;;
    node <- ListRemove fl ;;
    let new_pcb := GET_STRUCT node 40 in
    st32 (p_state new_pcb) WAIT ;;;
    st32 (p_thread_list new_pcb) (p_thread_list new_pcb) ;;;
    pd <- ReqBytes fuel kPdSize ;;
    st32 (p_page_dir new_pcb) pd ;;;
    npd <- ld32 (p_page_dir new_pcb) ;;
    fpd <- ld32 (p_page_dir father) ;;
    UPdClone npd fpd ;;;
    st32 (p_father new_pcb) father ;;;
    AddSon fuel (p_right new_pcb) (p_left father) ;;;
    st32 (p_node new_pcb) 0 ;;;
    v <- ld32 (p_code_addr father) ;; st32 (p_code_addr new_pcb) v ;;;
    v <- ld32 (p_code_size father) ;; st32 (p_code_size new_pcb) v ;;;
    v <- ld32 (p_data_addr father) ;; st32 (p_data_addr new_pcb) v ;;;
    v <- ld32 (p_data_size father) ;; st32 (p_data_size new_pcb) v ;;;
    ret new_pcb.

Section Process.
Context `{Platform}.

(** [while (son->state != DIE);] reads the same word for ever: within one run of the
    processor nothing else changes it. *)
Definition wait_dead (fuel : nat) (son : Z) : K unit :=
  loop fuel (fun _ : unit =>
    st <- ld32 (p_state son) ;;
    if st =? DIE then ret (inr tt) else ret (inl tt)) tt.

Definition DestructAllSons (fuel : nat) (pcb : Z) : K unit :=
  l <- ld32 (p_left pcb) ;;
  if l =? 0 then ret tt
  else
    tmp <- ld32 (p_left pcb) ;;
    loop fuel (fun tmp =>
      if tmp =? 0 then ret (inr tt)
      else
        let son := GET_STRUCT tmp 36 in
        wait_dead fuel son ;;;
        t <- ld32 (p_thread_list son) ;;
        DestructThread fuel (GET_STRUCT t 20) ;;;
        st32 (p_thread_list son) 0 ;;;
        next <- ld32 tmp ;;
        st32 (p_right son) 0 ;;;
        fl <- gets (fun s => free_proc_list (proc s)) ;;
        ListAdd fl (p_node son) ;;;
        ret (inl next)) tmp ;;;
    st32 (p_left pcb) 0.

(** The threads of the process but the running one. *)
Definition destruct_threads (fuel : nat) (pcb cur_thread : Z) : K unit :=
  loop fuel (fun tmp =>
    next <- ld32 tmp ;;
    if next =? p_thread_list pcb then ret (inr tt)
    else if next =? t_sibling cur_thread then ret (inl next)
    else DestructThread fuel (GET_STRUCT next 20) ;;; ret (inl tmp)) (p_thread_list pcb).

Definition CloseProc (fuel : nat) : K unit :=
  cur_thread <- GetCurThread ;;
  pcb <- ld32 (t_pcb cur_thread) ;;
  DestructAllSons fuel pcb ;;;
  SwitchPd kKPdAddr ;;;
  destruct_threads fuel pcb cur_thread ;;;
  page_dir <- ld32 (p_page_dir pcb) ;;
  for_ (Z.to_nat kPdeNum) 0 (fun i =>
    pt <- get_field (page_dir + 4 * i) 12 20 ;;
    if negb (pt =? kPdeAbsentAddr) then
      RelPages fuel pt ;;;
      pt <- get_field (page_dir + 4 * i) 12 20 ;;
      RelBytes fuel (DirectMappingVirtualAddr pt)
    else ret tt) ;;;
  RelBytes fuel page_dir ;;;
  st32 (p_state pcb) DIE.

(** [(int) addr / (kPteMaxNum * PageSize)]: a signed division that rounds to 0. *)
Definition pd_index (addr : Z) : Z := Z.quot (i32 addr) (kPteMaxNum * PageSize).

(** A present page directory entry for the faulting address. *)
Definition pf_directory (fuel : nat) (entry err_code : Z) : K unit :=
  pt <- get_field entry 12 20 ;;
  if pt =? kPdeAbsentAddr then
    b <- ReqBytes fuel kPtMaxSize ;;
    SetPde entry (if IsBitSet err_code 1 then kUPdeWritePresentAccess else kUPdeReadPresentAccess)
      (DirectMappingPhysAddr b)
  else ret tt.

(** An absent page: the page table and a fresh page for it. The entry of the directory holds the
    physical address of the table, which is used as a pointer. *)
Definition pf_absent (fuel : nat) (addr pd err_code : Z) : K unit :=
  let entry := u32 (pd + 4 * pd_index addr) in
  pf_directory fuel entry err_code ;;;
  p <- get_field entry 12 20 ;;
  let pt := shl32 p 12 in
  let pt_i := Z.rem (GetPageNo addr) kPteMaxNum in
  page <- ReqPage ;;
  paged (pt + 4 * pt_i) (fun entry =>
    SetPte entry (if IsBitSet err_code 1 then kUPteWritePresentAccess else kUPteReadPresentAccess) page).

Definition PfHandler (fuel : nat) (intr_reg : Z) : K unit :=
  addr <- get_cr 2 ;;
  c <- get_cr 3 ;;
  let pd := DirectMappingVirtualAddr c in
  err_code <- ld32 (intr_reg_err intr_reg) ;;
  if negb (IsBitSet err_code 0) then pf_absent fuel addr pd err_code
  else if IsBitSet err_code 2 then CloseProc fuel
  else if IsBitSet err_code 1 then CloseProc fuel
  else ret tt.
End Process.
