(* ===== verification/HeapInit.v ===== *)
(** * Initialisation of the process and thread pools

    [ProcManagerInit] and [ThreadInit] as clients of the allocator. [held] is the view of a
    component that requests memory during start-up: the blocks handed out so far are
    separate and lie above the kernel image. A step that takes the blocks [B] writes only
    those, the allocator's own bytes, and fixed bytes of low memory ([touch]), so whatever
    is stored in the other blocks is kept. *)

From Stdlib Require Import ZArith Lia ZifyBool.
From stdpp Require Import base numbers gmap list.
From S2P Require Import Prelude Memory Machine Bits AsmWrapper Lists Allocator AllocRep AllocReq AllocHeap AllocInit AllocSafety AllocIface AllocRoom.
From S2P Require Import Queues Segment Paging Thread ContextSwitch ThreadSpec Process.

(** Membership in lists that are written out. *)
Ltac listed := clear; set_solver.

(** ** Footprints *)

(** The allocator's bytes, and the physical memory that no kernel address reaches. *)
Definition pool_byte (p : Z) : Prop := POOL - KVA <= p < POOL_END - KVA \/ 1073741824 <= p.

Definition nowhere (p : Z) : Prop := False.

Definition inblocks (B : list (Z * Z)) (p : Z) : Prop := exists r, r ∈ B /\ inr_ p r.

Lemma inblocks_mono (B B' : list (Z * Z)) : (forall r, r ∈ B -> r ∈ B') -> forall p, inblocks B p -> inblocks B' p.
Proof. intros HB p (r & Hr & Hp). exists r. auto. Qed.

(** The bytes [P], the allocator's and those of the blocks [B]. *)
Definition touch (P : Z -> Prop) (B : list (Z * Z)) (p : Z) : Prop := P p \/ pool_byte p \/ inblocks B p.

Lemma pool_only_bytes m m' : pool_only m m' -> only pool_byte m m'.
Proof.
  intros Hp b Hb. assert (0 <= phys b < 1073741824 /\ ~ (POOL - KVA <= phys b < POOL_END - KVA)) as [Hr Hn].
  { unfold pool_byte in Hb. unfold phys in *. pose proof (u32_range b). destruct (Z.ltb_spec (u32 b) KVA); lia. }
  assert (forall m0, load8 m0 b = load 1 m0 (phys b + KVA)) as E.
  { intros m0. cbn [load]. rewrite Z.mul_0_r, Z.add_0_r. unfold load8. rewrite (phys_high (phys b + KVA)) by lia.
    by replace (phys b + KVA - KVA) with (phys b) by lia. }
  rewrite !E. apply Hp; [unfold kspan; lia|]. unfold apart. change (Z.of_nat 1) with 1. lia.
Qed.

Lemma touch_mono (P P' : Z -> Prop) B B' p :
  (forall p, P p -> P' p) -> (forall r, r ∈ B -> r ∈ B') -> touch P B p -> touch P' B' p.
Proof. intros HP HB [H|[H|(r & Hr & H)]]; [left; auto|right; left; auto|right; right; exists r; auto]. Qed.

Lemma only_grow P (B B' : list (Z * Z)) m m' :
  only (touch P B) m m' -> (forall r, r ∈ B -> r ∈ B') -> only (touch P B') m m'.
Proof. intros Ho HB. eapply only_mono; [|exact Ho]. intros p. by apply touch_mono. Qed.

Lemma only_widen P (B B' : list (Z * Z)) m m' :
  only (touch nowhere B) m m' -> (forall r, r ∈ B -> r ∈ B') -> only (touch P B') m m'.
Proof. intros Ho HB. eapply only_mono; [|exact Ho]. intros p. by apply touch_mono. Qed.

Lemma touch_pool P B m m' : only pool_byte m m' -> only (touch P B) m m'.
Proof. apply only_mono. intros p Hp. right. by left. Qed.

(** A word written in a block of [B]. *)
Lemma block_store B a z w m v :
  (a, z) ∈ B -> KVA <= a -> a + z <= W32 -> a <= w -> w + 4 <= a + z -> only (inblocks B) m (store32 m w v).
Proof.
  intros Hin Ha Hz Hw Hw'. apply only_store32; [right; lia|]. intros i Hi. exists (a, z). split; [done|].
  unfold inr_. cbn [fst snd]. rewrite !phys_high by lia. lia.
Qed.

Lemma touch_blocks P B m m' : only (inblocks B) m m' -> only (touch P B) m m'.
Proof. apply only_mono. intros p Hp. right. by right. Qed.

Lemma touch_store P B a z w m v :
  (a, z) ∈ B -> KVA <= a -> a + z <= W32 -> a <= w -> w + 4 <= a + z -> only (touch P B) m (store32 m w v).
Proof. intros. apply touch_blocks. by eapply block_store. Qed.

(** ** Blocks in use during start-up *)

Definition sep (A : list (Z * Z)) : Prop :=
  forall i j r1 r2, A !! i = Some r1 -> A !! j = Some r2 -> i <> j -> apart r1.1 r1.2 r2.1 r2.2.

Lemma sep_cons a z A : sep A -> (forall b y, (b, y) ∈ A -> apart a z b y) -> sep ((a, z) :: A).
Proof.
  intros Hs Hr [|i] [|j] [b1 y1] [b2 y2] Hi Hj Hne; cbn in Hi, Hj; simplify_eq; cbn [fst snd].
  - apply Hr. by eapply list_elem_of_lookup_2.
  - apply apart_sym, Hr. by eapply list_elem_of_lookup_2.
  - by apply (Hs i j (b1, y1) (b2, y2)); [| |lia].
Qed.

Lemma sep_app (B A : list (Z * Z)) r1 r2 : sep (B ++ A) -> r1 ∈ B -> r2 ∈ A -> apart r1.1 r1.2 r2.1 r2.2.
Proof.
  intros Hs H1 H2. apply list_elem_of_lookup in H1 as (i & Hi). apply list_elem_of_lookup in H2 as (j & Hj).
  pose proof (lookup_lt_Some _ _ _ Hi). apply (Hs i (length B + j)%nat); [by rewrite lookup_app_l| |lia].
  rewrite lookup_app_r by lia. by replace (length B + j - length B)%nat with j by lia.
Qed.

Section Held.
Context `{RoomyAllocator}.
Context (img : Z) (fuel : nat).

Record held (n : nat) (s : kstate) (A : list (Z * Z)) : Prop := {
  hl_ample : ample fuel n s (A ++ [(KVA, img)]);
  hl_sep : sep (A ++ [(KVA, img)]);
  hl_pos a z : (a, z) ∈ A -> 0 < z;
  hl_img : 1048576 <= img;
}.

Lemma held_range n s A a z : held n s A -> (a, z) ∈ A -> KVA + 1048576 <= a /\ 0 < z /\ a + z <= POOL.
Proof.
  intros Hh Hin. pose proof (hl_pos _ _ _ Hh _ _ Hin). pose proof (hl_img _ _ _ Hh).
  pose proof (owns_range _ _ _ _ a z (ample_owns _ _ _ _ (hl_ample _ _ _ Hh)) ltac:(set_solver)).
  pose proof (sep_app _ _ _ _ (hl_sep _ _ _ Hh) Hin (proj2 (list_elem_of_singleton _ _) eq_refl)) as Ha.
  unfold apart in Ha. cbn [fst snd] in Ha. lia.
Qed.

Lemma held_frame n s s' A P :
  held n s A -> alloc s' = alloc s -> only P (mem s) (mem s') ->
  (forall p, P p -> ~ (POOL - KVA <= p < POOL_END - KVA)) -> held n s' A.
Proof.
  intros [Ha Hs Hp Hi] Ea Ho HP. split; [|done..]. eapply ample_frame; [exact Ha|exact Ea|].
  intros k b Hb Hk. apply load_ext. intros i Hi'. apply Ho. intros Hc. apply (HP _ Hc). rewrite phys_high by lia. lia.
Qed.

(** Writes to blocks in use and to low memory are no concern of the allocator. *)
Lemma held_writes n s s' (A : list (Z * Z)) P (B : list (Z * Z)) :
  held n s A -> alloc s' = alloc s -> only (fun p => P p \/ inblocks B p) (mem s) (mem s') ->
  (forall p, P p -> p < 1048576) -> (forall r, r ∈ B -> r ∈ A) -> held n s' A.
Proof.
  intros Hh Ea Ho HP HB. eapply held_frame; [exact Hh|exact Ea|exact Ho|]. cbv beta.
  intros p [Hp|((a & z) & Hr & Hp)]; [specialize (HP p Hp); lia|].
  pose proof (held_range n s A a z Hh (HB _ Hr)). unfold inr_ in Hp. cbn [fst snd] in Hp. rewrite phys_high in Hp by lia. lia.
Qed.

Lemma held_blocks n s s' (A B : list (Z * Z)) :
  held n s A -> alloc s' = alloc s -> only (inblocks B) (mem s) (mem s') -> (forall r, r ∈ B -> r ∈ A) -> held n s' A.
Proof.
  intros Hh Ea Ho HB. apply (held_writes n s s' A nowhere B Hh Ea); [|done|exact HB].
  eapply only_mono; [|exact Ho]. intros p Hp. by right.
Qed.

Lemma held_state n s s' A : held n s A -> alloc s' = alloc s -> mem s' = mem s -> held n s' A.
Proof.
  intros Hh Ea Em. eapply (held_frame _ _ _ _ nowhere); [exact Hh|exact Ea|rewrite Em; apply only_refl|done].
Qed.

Lemma held_less n s A : held (S n) s A -> held n s A.
Proof. intros [Ha Hs Hp Hi]. split; [by apply ample_less|done..]. Qed.

Lemma held_req n s A z :
  held (S n) s A -> 0 < z <= 4096 ->
  exists r m', runs (ReqBytes fuel z) s r (set_mem m' s) /\ only pool_byte (mem s) m' /\
    held n (set_mem m' s) ((r, z) :: A).
Proof.
  intros [Ha Hs Hp Hi] Hz. destruct (ample_req _ _ _ _ z Ha Hz) as (r & m' & Hr & Hpo & _ & Ha' & Hap).
  exists r, m'. split_and!; [exact Hr|by apply pool_only_bytes|]. split; [exact Ha'| | |exact Hi].
  - cbn [app]. by apply sep_cons.
  - intros a y Hin. apply elem_of_cons in Hin as [[= -> ->]|Hin]; [lia|by eapply Hp].
Qed.

(** A word of a block that is not among the new ones is kept. *)
Lemma held_kept n s (A : list (Z * Z)) P (B : list (Z * Z)) a z w m m' :
  held n s (B ++ A) -> only (touch P B) m m' -> (forall p, P p -> p < 1048576) ->
  (a, z) ∈ A -> a <= w -> w + 4 <= a + z -> load32 m' w = load32 m w.
Proof.
  intros Hh Ho HP Hin Hw Hw'. pose proof (held_range n s _ a z Hh ltac:(set_solver)) as Hr.
  apply (only_load32 _ _ _ _ Ho); [right; lia|]. intros i Hi Hc. rewrite phys_high in Hc by lia.
  destruct Hc as [Hc|[Hc|((b & y) & Hb & Hc)]]; [specialize (HP _ Hc); lia|unfold pool_byte in Hc; lia|].
  pose proof (held_range n s _ b y Hh ltac:(set_solver)).
  pose proof (hl_sep _ _ _ Hh) as Hs. rewrite <- app_assoc in Hs.
  pose proof (sep_app _ _ _ (a, z) Hs Hb ltac:(set_solver)) as Ha. unfold apart in Ha. cbn [fst snd] in Ha.
  unfold inr_ in Hc. cbn [fst snd] in Hc. rewrite phys_high in Hc by lia. lia.
Qed.

Lemma held_clist n s (A : list (Z * Z)) P (B : list (Z * Z)) h xs m m' :
  held n s (B ++ A) -> only (touch P B) m m' -> (forall p, P p -> p < 1048576) ->
  (forall q, q ∈ h :: xs -> inside A q 4) -> clist m h xs -> clist m' h xs.
Proof.
  intros Hh Ho HP Hq [Hc Hn]. split; [|done]. apply (circ_frame (load32 m)); [|done]. intros q Hin.
  destruct (Hq q Hin) as (a & z & Ha & H1 & H2). by eapply held_kept.
Qed.

Lemma held_queue n s (A : list (Z * Z)) P (B : list (Z * Z)) q h m m' :
  held n s (B ++ A) -> only (touch P B) m m' -> (forall p, P p -> p < 1048576) ->
  (q, 8) ∈ A -> (h, 4) ∈ A -> queue_rep m q h [] -> queue_rep m' q h [].
Proof.
  intros Hh Ho HP Hq Hl [E1 E2 E3 E4]. split; [| | |done].
  - by rewrite (held_kept n s A P B q 8 q m m') by (done || lia).
  - by rewrite (held_kept n s A P B q 8 (q + 4) m m') by (done || lia).
  - apply circ_nil. rewrite (held_kept n s A P B h 4 h m m') by (done || lia). exact (proj1 (circ_nil _ _) E3).
Qed.

(** ** Lists and queues *)

(** A word in a new block, then a state that agrees on the rest. *)
Lemma held_store n s A a z w v :
  held n s A -> (a, z) ∈ A -> a <= w -> w + 4 <= a + z ->
  held n (set_mem (store32 (mem s) w v) s) A /\ load32 (store32 (mem s) w v) w = u32 v.
Proof.
  intros Hh Hin Hw Hw'. pose proof (held_range n s A a z Hh Hin). split.
  - apply (held_blocks n s _ A [(a, z)] Hh); [reflexivity| |set_solver].
    cbn [mem set_mem]. apply (block_store [(a, z)] a z); first [set_solver|lia].
  - apply load32_store32_same. unfold kspan. lia.
Qed.

Lemma List_held n s A :
  held (S n) s A ->
  exists l m', runs (List fuel) s l (set_mem m' s) /\ only (touch nowhere [(l, 4)]) (mem s) m' /\
    held n (set_mem m' s) ((l, 4) :: A) /\ load32 m' l = l.
Proof.
  intros Hh. destruct (held_req n s A 4 Hh ltac:(lia)) as (l & m1 & Hr & Ho & Hh1).
  pose proof (held_range _ _ _ l 4 Hh1 ltac:(set_solver)) as Hl.
  destruct (held_store _ _ _ l 4 l l Hh1 ltac:(set_solver) ltac:(lia) ltac:(lia)) as [Hh2 E].
  exists l, (store32 m1 l l). split_and!; [| |exact Hh2|].
  - eapply runs_bind; [exact Hr|]. cbv beta. rewrite (proj2 (Z.eqb_neq _ _)) by lia. reflexivity.
  - eapply only_trans; [by apply touch_pool|]. apply (touch_store _ _ l 4); [set_solver|lia..].
  - cbn [mem set_mem] in E. rewrite E. apply u32_small. lia.
Qed.

Lemma queue_held n s A :
  held (S (S n)) s A ->
  exists q h m', runs (queue fuel) s q (set_mem m' s) /\ only (touch nowhere [(q, 8); (h, 4)]) (mem s) m' /\
    held n (set_mem m' s) ((q, 8) :: (h, 4) :: A) /\ queue_rep m' q h [].
Proof.
  intros Hh. destruct (List_held (S n) s A Hh) as (h & m1 & Hr1 & Ho1 & Hh1 & Eh).
  destruct (held_req n _ _ 8 Hh1 ltac:(lia)) as (q & m2 & Hr2 & Ho2 & Hh2). cbn [mem set_mem] in *.
  pose proof (held_range _ _ _ q 8 Hh2 ltac:(set_solver)) as Hq.
  pose proof (held_range _ _ _ h 4 Hh2 ltac:(set_solver)) as Hl.
  destruct (held_store _ _ _ q 8 q h Hh2 ltac:(set_solver) ltac:(lia) ltac:(lia)) as [Hh3 E3].
  destruct (held_store _ _ _ q 8 (q + 4) h Hh3 ltac:(set_solver) ltac:(lia) ltac:(lia)) as [Hh4 E4].
  cbn [mem set_mem] in *. set (m4 := store32 (store32 m2 q h) (q + 4) h) in *.
  assert (only (touch nowhere [(q, 8)]) m1 m4) as Ho14.
  { eapply only_trans; [apply touch_pool; exact Ho2|].
    eapply only_trans; apply (touch_store _ _ q 8); first [set_solver|lia]. }
  pose proof (sep_app [(q, 8)] _ (q, 8) (h, 4) (hl_sep _ _ _ Hh4) ltac:(set_solver) ltac:(set_solver)) as Hap.
  cbn [fst snd] in Hap. exists q, h, m4. split_and!; [| |exact Hh4|].
  - eapply runs_bind; [exact Hr1|]. cbv beta. eapply runs_bind; [exact Hr2|]. reflexivity.
  - eapply only_trans; (eapply only_mono; [|first [exact Ho1|exact Ho14]]); intros p; apply touch_mono; set_solver.
  - split.
    + unfold m4. rewrite load32_store32_ne by (unfold kspan, apart in *; lia). rewrite E3. apply u32_small. lia.
    + rewrite E4. cbn [tail_of]. apply u32_small. lia.
    + apply circ_nil. rewrite <- Eh at 2. eapply (held_kept n _ _ nowhere [(q, 8)] h 4 h m1 m4 Hh4 Ho14); [done|set_solver|lia|lia].
    + split_and!.
      * unfold apart in Hap. rewrite !NoDup_cons, !elem_of_cons, !elem_of_nil. split_and!; [lia..|apply NoDup_nil_2].
      * repeat (apply Forall_cons; split; [unfold kspan; lia|]). by apply Forall_nil.
      * intros x y Hx Hy Hne. rewrite !elem_of_cons, elem_of_nil in Hx, Hy. unfold apart in *. lia.
Qed.

(** A node put at the front of a list. *)
Lemma ListAdd_held n s A l x xs a z b y :
  held n s A -> (a, z) ∈ A -> a <= l -> l + 4 <= a + z -> (b, y) ∈ A -> b <= x -> x + 4 <= b + y ->
  clist (mem s) l xs -> nodes_ok 4 (x :: l :: xs) ->
  exists m', runs (ListAdd l x) s tt (set_mem m' s) /\ clist m' l (x :: xs) /\
    only (touch nowhere [(a, z); (b, y)]) (mem s) m' /\ held n (set_mem m' s) A.
Proof.
  intros Hh Ha L1 L2 Hb X1 X2 Hc Hn. destruct (ListAdd_spec s l [] xs x Hc Hn) as (m' & Hr & Hc' & _).
  destruct (ListAdd_runs l x s) as (m2 & Hr2 & Em). cbn [tail_of app] in *.
  destruct (runs_det _ _ _ _ _ _ Hr Hr2) as [_ E]. apply (f_equal mem) in E. cbn [mem set_mem] in E. subst m'.
  pose proof (held_range _ _ _ a z Hh Ha). pose proof (held_range _ _ _ b y Hh Hb).
  exists m2. split_and!; [exact Hr2|exact Hc'| |].
  - subst m2. eapply only_trans; [apply (touch_store _ _ a z)|apply (touch_store _ _ b y)]; first [set_solver|lia].
  - destruct (held_store n s A a z l x Hh Ha L1 L2) as [Hh1 _].
    destruct (held_store n _ A b y x (load32 (mem s) l) Hh1 Hb X1 X2) as [Hh2 _]. subst m2. exact Hh2.
Qed.

(** ** The process manager *)

(** One round of the loop: the fields of the 16 structures and the list head. *)
Lemma init_pcb_stores s0 l pc i m1 (B := [(pc, 768); (l, 4)]) :
  free_proc_list (proc s0) = l -> 0 <= i < 16 -> KVA <= pc -> pc + 768 <= W32 -> KVA <= l -> l + 4 <= W32 ->
  exists m2, runs (init_pcb i (u32 (p_node pc + 4 * i))) (set_mem m1 s0) tt (set_mem m2 s0) /\ only (inblocks B) m1 m2.
Proof.
  intros Hl Hi P1 P2 L1 L2. unfold init_pcb, p_node. rewrite (u32_small (pc + 40)), u32_small by lia.
  unfold GET_STRUCT, p_thread_list, p_left, p_right, p_father, p_page_dir, kProcInitNum.
  rewrite (u32_small (pc + 40 + 4 * i - 40)) by lia. rewrite !u32_small by lia.
  eexists. split.
  - eapply runs_bind; [reflexivity|]. cbv beta. cbn [proc set_mem]. rewrite Hl. reflexivity.
  - cbn [mem set_mem]. repeat (eapply only_trans;
      [|first [solve [apply (block_store B pc 768); first [set_solver|lia]]|
               solve [apply (block_store B l 4); first [set_solver|lia]]]]).
    apply only_refl.
Qed.

Lemma init_pcbs_runs s0 l pc (B := [(pc, 768); (l, 4)]) :
  free_proc_list (proc s0) = l -> KVA <= pc -> pc + 768 <= W32 -> KVA <= l -> l + 4 <= W32 ->
  exists m2, runs (init_pcbs (p_node pc)) s0 tt (set_mem m2 s0) /\ only (inblocks B) (mem s0) m2.
Proof.
  intros Hl P1 P2 L1 L2. destruct (for_inv (fun _ s1 => exists m1, s1 = set_mem m1 s0 /\ only (inblocks B) (mem s0) m1)
    (Z.to_nat kProcInitNum) 0 (fun i => init_pcb i (u32 (p_node pc + 4 * i))) s0) as (s' & Hr & m2 & -> & Ho).
  - exists (mem s0). split; [by rewrite set_mem_mem|apply only_refl].
  - intros j s1 Hj (m1 & -> & Ho). destruct (init_pcb_stores s0 l pc j m1 Hl) as (m2 & Hr & Ho2); [unfold kProcInitNum in *; lia|lia..|].
    exists (set_mem m2 s0). split; [exact Hr|]. exists m2. split; [reflexivity|]. by eapply only_trans.
  - exists m2. split; [exact Hr|exact Ho].
Qed.

(** The kernel's process: identifier 0, the page directory in use, no threads, no relatives. *)
Definition kernel_proc (m : gmap Z Z) (k pd : Z) : Prop :=
  load32 m k = 0 /\ load32 m (k + 4) = pd /\ load32 m (k + 8) = RUN /\ load32 m (k + 28) = 0 /\
  load32 m (k + 32) = 0 /\ load32 m (k + 36) = 0 /\ clist m (k + 44) [].

Definition kernel_proc_mem (m : gmap Z Z) (k pd : Z) : gmap Z Z :=
  store32 (store32 (store32 (store32 (store32 (store32 (store32 (store32 m k 0) (k + 40) 0) (k + 4) pd) (k + 44) (k + 44))
    (k + 28) 0) (k + 32) 0) (k + 36) 0) (k + 8) RUN.

Lemma kernel_proc_stored m k pd :
  kspan k 48 -> 0 <= pd < W32 -> kernel_proc (kernel_proc_mem m k pd) k pd /\ only (inblocks [(k, 48)]) m (kernel_proc_mem m k pd).
Proof.
  intros Hk Hpd. unfold kspan in Hk. split.
  - unfold kernel_proc, clist. rewrite circ_nil. split_and!;
      try (unfold kernel_proc_mem, RUN; repeat (rewrite load32_store32_ne by (unfold kspan, apart; lia));
           rewrite load32_store32_same by (unfold kspan; lia); apply u32_small; lia).
    split_and!; [apply NoDup_singleton|repeat constructor; lia|].
    intros x y Hx Hy. apply list_elem_of_singleton in Hx, Hy. congruence.
  - unfold kernel_proc_mem. repeat (eapply only_trans; [|apply (block_store _ k 48); first [set_solver|lia]]). apply only_refl.
Qed.

Lemma ProcManagerInit_held n s A :
  held (3 + n) s A -> 0 <= cr3 (cpu s) < W32 ->
  exists k l pc m', let s' := set_mem m' (set_proc (mk_ProcG k l) s) in
    let B := [(k, 48); (l, 4); (pc, 768)] in
    runs (ProcManagerInit fuel) s tt s' /\ held n s' (B ++ A) /\ only (touch nowhere B) (mem s) m' /\
    kernel_proc m' k (cr3 (cpu s)).
Proof.
  intros Hh Hcr. cbn [Nat.add] in Hh.
  destruct (held_req _ _ _ 768 Hh ltac:(lia)) as (pc & m1 & Hr1 & Ho1 & Hh1).
  destruct (List_held _ _ _ Hh1) as (l & m2 & Hr2 & Ho2 & Hh2 & _). cbn [mem set_mem] in Ho2.
  pose proof (held_range _ _ _ pc 768 Hh2 ltac:(listed)) as Rp.
  pose proof (held_range _ _ _ l 4 Hh2 ltac:(listed)) as Rl.
  set (s2 := set_mem m2 (set_proc (set_free_proc_list l (proc s)) s)).
  destruct (init_pcbs_runs s2 l pc eq_refl) as (m3 & Hr3 & Ho3); [lia..|]. cbn [mem set_mem] in Ho3.
  assert (held (S n) (set_mem m3 s2) ((l, 4) :: (pc, 768) :: A)) as Hh3.
  { apply (held_blocks _ _ _ _ [(pc, 768); (l, 4)] Hh2); [reflexivity|exact Ho3|listed]. }
  destruct (held_req _ _ _ 48 Hh3 ltac:(lia)) as (k & m4 & Hr4 & Ho4 & Hh4). cbn [mem set_mem] in Ho4.
  pose proof (held_range _ _ _ k 48 Hh4 ltac:(listed)) as Rk.
  destruct (kernel_proc_stored m4 k (cr3 (cpu s))) as [Hk Ho5]; [unfold kspan; lia|done|].
  exists k, l, pc, (kernel_proc_mem m4 k (cr3 (cpu s))). split_and!; [| | |exact Hk].
  - unfold ProcManagerInit. eapply runs_bind; [exact Hr1|]. cbv beta. eapply runs_bind; [exact Hr2|]. cbv beta.
    eapply runs_bind; [reflexivity|]. eapply runs_bind; [exact Hr3|]. eapply runs_bind; [exact Hr4|]. cbv beta.
    unfold p_node, p_page_dir, p_thread_list, p_father, p_left, p_right, p_state.
    rewrite !(u32_small (k + _)) by lia. destruct s. reflexivity.
  - apply (held_blocks _ _ _ _ [(k, 48)] Hh4); [reflexivity|exact Ho5|listed].
  - eapply only_trans; [apply touch_pool; exact Ho1|].
    eapply only_trans; [eapply only_mono; [|exact Ho2]; intros p; apply touch_mono; listed|].
    eapply only_trans; [apply touch_blocks; eapply only_mono; [|exact Ho3]; apply inblocks_mono; listed|].
    eapply only_trans; [apply touch_pool; exact Ho4|].
    apply touch_blocks; eapply only_mono; [|exact Ho5]; apply inblocks_mono; listed.
Qed.

(** ** The thread pool *)

(** The list nodes of the first [n] threads of the array at [t], the last one first. *)
Fixpoint tnodes (t : Z) (n : nat) : list Z :=
  match n with
  | O => []
  | S n' => t + 16 + 24 * Z.of_nat n' :: tnodes t n'
  end.

Lemma tnodes_elem t n x : x ∈ tnodes t n -> exists i, 0 <= i < Z.of_nat n /\ x = t + 16 + 24 * i.
Proof.
  induction n as [|n IH]; cbn [tnodes]; intros Hx; [by apply not_elem_of_nil in Hx|].
  apply elem_of_cons in Hx as [->|Hx]; [exists (Z.of_nat n); lia|]. destruct (IH Hx) as (i & Hi & E). exists i. lia.
Qed.

Lemma tnodes_ok l t n :
  KVA <= t -> t + 24 * Z.of_nat n <= W32 -> kspan l 4 -> apart l 4 t (24 * Z.of_nat n) -> nodes_ok 4 (l :: tnodes t n).
Proof.
  intros Ht Hn Hl Ha. assert (forall x, x ∈ tnodes t n -> kspan x 4 /\ apart l 4 x 4) as Hx.
  { intros x Hx. apply tnodes_elem in Hx as (i & Hi & ->). unfold kspan, apart in *. lia. }
  split_and!.
  - apply NoDup_cons. split.
    { intros Hin. destruct (Hx l Hin) as [_ H1]. unfold apart in H1. lia. }
    clear. induction n as [|n IH]; cbn [tnodes]; [apply NoDup_nil_2|]. apply NoDup_cons. split; [|exact IH].
    intros Hin. apply tnodes_elem in Hin as (i & Hi & E). lia.
  - apply Forall_cons. split; [exact Hl|]. apply Forall_forall. intros x Hin. apply Hx, Hin.
  - intros x y Hi Hj Hne. apply elem_of_cons in Hi as [->|Hi]; apply elem_of_cons in Hj as [->|Hj]; [done|by apply Hx| |].
    + apply apart_sym. by apply Hx.
    + apply tnodes_elem in Hi as (i & Hi & ->), Hj as (j & Hj & ->). unfold apart. lia.
Qed.

Section Threads.
Context (s0 : kstate) (n : nat) (A : list (Z * Z)) (l t : Z).
Context (Hl : free_thread_list (thr s0) = l) (Hlin : (l, 4) ∈ A) (Htin : (t, 3072) ∈ A) (Hlt : apart l 4 t 3072).
Let B : list (Z * Z) := [(l, 4); (t, 3072)].

Lemma init_thread_runs k m1 :
  held n (set_mem m1 s0) A -> (k < 128)%nat -> clist m1 l (tnodes t k) ->
  exists m2, runs (init_thread t (Z.of_nat k)) (set_mem m1 s0) tt (set_mem m2 s0) /\
    held n (set_mem m2 s0) A /\ clist m2 l (tnodes t (S k)) /\ only (touch nowhere B) m1 m2.
Proof using Hl Hlin Htin Hlt.
  intros Hh Hk Hc. pose proof (held_range _ _ _ _ _ Hh Hlin) as Rl. pose proof (held_range _ _ _ _ _ Hh Htin) as Rt.
  unfold init_thread, sizeof_Thread, GET_STRUCT. rewrite (u32_small (t + 16 + _)), u32_small by lia.
  set (x := t + 16 + 24 * Z.of_nat k). replace (x - 16) with (t + 24 * Z.of_nat k) by lia.
  destruct (held_store _ _ _ t 3072 (t + 24 * Z.of_nat k) (kThreadPoolInitNum - Z.of_nat k) Hh Htin) as [Hh1 _]; [lia..|].
  cbn [mem set_mem] in Hh1. set (m1' := store32 m1 _ _) in *.
  assert (clist m1' l (tnodes t k)) as Hc1.
  { destruct Hc as [Hc Hn]. split; [|exact Hn]. apply (circ_frame (load32 m1)); [|exact Hc]. intros q Hq.
    apply load32_store32_ne; [unfold kspan; lia|by eapply nodes_ok_kspan|].
    apply elem_of_cons in Hq as [->|Hq]; [unfold apart in *; lia|]. apply tnodes_elem in Hq as (i & Hi & ->). unfold apart. lia. }
  destruct (ListAdd_held n (set_mem m1' s0) A l x (tnodes t k) l 4 t 3072) as (m2 & Hr2 & Hc2 & Ho2 & Hh2);
    [exact Hh1|exact Hlin|lia|lia|exact Htin|lia|lia|exact Hc1| |].
  { eapply (nodes_ok_perm 4 (l :: tnodes t (S k))); [cbn [tnodes]; fold x; apply perm_swap|].
    apply tnodes_ok; [lia|lia|unfold kspan; lia|unfold apart in *; lia]. }
  exists m2. split_and!; [|exact Hh2|exact Hc2|].
  - eapply runs_bind; [reflexivity|]. eapply runs_bind; [reflexivity|]. cbv beta. cbn [thr set_mem]. rewrite Hl. exact Hr2.
  - eapply only_trans; [|exact Ho2]. cbn [mem set_mem]. apply (touch_store _ B t 3072); [listed|lia..].
Qed.

Lemma thread_pool_runs :
  held n s0 A -> load32 (mem s0) l = l ->
  exists m2, runs (for_ (Z.to_nat kThreadPoolInitNum) 0 (init_thread t)) s0 tt (set_mem m2 s0) /\
    held n (set_mem m2 s0) A /\ clist m2 l (tnodes t 128) /\ only (touch nowhere B) (mem s0) m2.
Proof using Hl Hlin Htin Hlt.
  intros Hh El. destruct (for_inv (fun j s1 => exists m1, s1 = set_mem m1 s0 /\ held n s1 A /\
      clist m1 l (tnodes t (Z.to_nat j)) /\ only (touch nowhere B) (mem s0) m1)
    (Z.to_nat kThreadPoolInitNum) 0 (init_thread t) s0) as (s' & Hr & m2 & -> & Hh2 & Hc2 & Ho2).
  - exists (mem s0). rewrite set_mem_mem. split_and!; [reflexivity|exact Hh| |apply only_refl].
    pose proof (held_range _ _ _ _ _ Hh Hlin) as Rl. split; [by apply circ_nil|]. cbn [tnodes Z.to_nat].
    apply (tnodes_ok l KVA 0); [lia|lia|unfold kspan; lia|unfold apart; lia].
  - intros j s1 Hj (m1 & -> & Hh1 & Hc1 & Ho1). unfold kThreadPoolInitNum in Hj.
    destruct (init_thread_runs (Z.to_nat j) m1 Hh1) as (m2 & Hr2 & Hh2 & Hc2 & Ho2); [lia|exact Hc1|].
    rewrite Z2Nat.id in Hr2 by lia. exists (set_mem m2 s0). split; [exact Hr2|]. exists m2.
    replace (Z.to_nat (j + 1)) with (S (Z.to_nat j)) by lia.
    split_and!; [reflexivity|exact Hh2|exact Hc2|by eapply only_trans].
  - exists m2. split_and!; [exact Hr|exact Hh2|exact Hc2|exact Ho2].
Qed.
End Threads.

(** The words of low memory that [ThreadInit] writes: the topmost one of the boot stack and
    [esp0] of the TSS. *)
Definition boot_word (p : Z) : Prop := 48124 <= p < 48128 \/ 122884 <= p < 122888.

(** The thread that runs the kernel's start-up code. *)
Definition main_thread (m : gmap Z Z) (x kp : Z) : Prop :=
  load32 m x = 0 /\ load32 m (x + 4) = 48128 /\ load32 m (x + 8) = kp /\ load32 m (x + 12) = 48124 /\
  load32 m (x + 16) = 0 /\ load32 m 48124 = x /\ load32 m (kTssBaseAddr + 4) = 48124.

Definition main_mem (m : gmap Z Z) (x kp : Z) : gmap Z Z :=
  store32 (store32 (store32 (store32 (store32 (store32 (store32 m (x + 8) kp) (x + 4) 48128) (x + 12) 48124) 48124 x) x 0)
    (x + 16) 0) (kTssBaseAddr + 4) 48124.

Lemma wsep_words a b : span a 4 -> span b 4 -> apart (phys a) 4 (phys b) 4 -> wsep a b.
Proof. done. Qed.

Lemma main_stored m x kp :
  KVA + 1048576 <= x -> x + 24 <= POOL -> 0 <= kp < W32 ->
  main_thread (main_mem m x kp) x kp /\ only (fun p => boot_word p \/ inblocks [(x, 24)] p) m (main_mem m x kp).
Proof.
  intros H1 H2 Hk. assert (forall k, 0 <= k -> k + 4 <= 24 -> span (x + k) 4 /\ phys (x + k) = x + k - KVA) as Hx.
  { intros k K1 K2. split; [right; lia|]. apply phys_high. lia. }
  assert (span x 4 /\ phys x = x - KVA) as [S0 P0] by (split; [right; lia|apply phys_high; lia]).
  assert (span 48124 4 /\ phys 48124 = 48124) as [S1 P1] by (split; [left; lia|by apply phys_low]).
  assert (span (kTssBaseAddr + 4) 4 /\ phys (kTssBaseAddr + 4) = 122884) as [S2 P2].
  { unfold kTssBaseAddr. split; [right; lia|rewrite phys_high; lia]. }
  destruct (Hx 4) as [S3 P3]; [lia..|]. destruct (Hx 8) as [S4 P4]; [lia..|]. destruct (Hx 12) as [S5 P5]; [lia..|].
  destruct (Hx 16) as [S6 P6]; [lia..|]. split.
  - unfold main_thread. split_and!;
      (unfold main_mem; repeat (rewrite span_store32_ne by (apply wsep_words; [done|done|unfold apart; lia]));
       rewrite span_store32_same by done; apply u32_small; lia).
  - unfold main_mem. repeat (eapply only_trans; [|apply only_store32; [done|]]); [apply only_refl|..];
      intros i Hi; unfold boot_word, inblocks;
      first [left; lia | right; exists (x, 24); split; [listed|unfold inr_; cbn [fst snd]; lia]].
Qed.

Lemma main_runs s x m kp :
  k_pcb (proc s) = kp -> tss s = kTssBaseAddr -> KVA + 1048576 <= x -> x + 24 <= POOL ->
  runs (kp <- GetKPcb ;;
    st32 (t_pcb x) kp ;;;
    st32 (t_stack_addr x) kMainStackAddr ;;;
    st32 (t_esp x) (kMainStackAddr - 4) ;;;
    t <- ld32 (t_esp x) ;;
    st32 t x ;;;
    st32 x 0 ;;;
    st32 (t_node x) 0 ;;;
    ts <- gets tss ;;
    e <- ld32 (t_esp x) ;;
    st32 (u32 (ts + 4)) e) (set_mem m s) tt (set_mem (main_mem m x kp) s).
Proof.
  intros Hk Ht H1 H2. unfold t_pcb, t_stack_addr, t_esp, t_node. rewrite !(u32_small (x + _)) by lia.
  eapply runs_bind; [reflexivity|]. cbv beta. cbn [proc set_mem]. rewrite Hk.
  change kMainStackAddr with 48128. change (48128 - 4) with 48124.
  do 3 (eapply runs_bind; [apply runs_st32|]). eapply runs_bind; [apply runs_ld32|]. cbv beta. cbn [mem set_mem].
  rewrite load32_store32_same by (unfold kspan; lia). change (u32 48124) with 48124.
  do 3 (eapply runs_bind; [apply runs_st32|]). eapply runs_bind; [reflexivity|]. cbv beta. cbn [tss set_mem]. rewrite Ht.
  eapply runs_bind; [apply runs_ld32|]. cbv beta. cbn [mem set_mem].
  assert (phys x = x - KVA /\ phys (x + 12) = x + 12 - KVA /\ phys (x + 16) = x + 16 - KVA) as (P0 & P1 & P2) by (rewrite !phys_high by lia; done).
  rewrite !(span_store32_ne _ _ (x + 12)) by
    (apply wsep_words; [first [right; lia|left; lia]|right; lia|rewrite ?P0, ?P1, ?P2, ?(phys_low 48124) by lia; unfold apart; lia]).
  rewrite span_store32_same by (right; lia). reflexivity.
Qed.

Lemma boot_word_low p : boot_word p -> p < 1048576.
Proof. unfold boot_word. lia. Qed.

Lemma inside_block (A : list (Z * Z)) a z w n : (a, z) ∈ A -> a <= w -> w + n <= a + z -> inside A w n.
Proof. intros. by exists a, z. Qed.

Lemma ThreadInit_held n s A :
  held (6 + n) s A -> tss s = kTssBaseAddr -> 0 <= k_pcb (proc s) < W32 ->
  exists x b q h l t m', let s' := set_mem m' (set_thr (mk_ThrG l q b) s) in
    let B := [(x, 24); (b, 4); (q, 8); (h, 4); (l, 4); (t, 3072)] in
    runs (ThreadInit fuel) s tt s' /\ held n s' (B ++ A) /\ only (touch boot_word B) (mem s) m' /\
    clist m' l (tnodes t 128) /\ queue_rep m' q h [] /\ load32 m' b = b /\ main_thread m' x (k_pcb (proc s)).
Proof.
  intros Hh Ht Hk. cbn [Nat.add] in Hh.
  destruct (held_req _ _ _ 3072 Hh ltac:(lia)) as (t & m1 & Hr1 & Ho1 & Hh1).
  destruct (List_held _ _ _ Hh1) as (l & m2 & Hr2 & Ho2 & Hh2 & El). cbn [mem set_mem] in Ho2.
  pose proof (held_range _ _ _ t 3072 Hh2 ltac:(listed)) as Rt.
  set (s2 := set_mem m2 (set_thr (set_free_thread_list l (thr s)) s)).
  pose proof (sep_app [(l, 4)] _ (l, 4) (t, 3072) (hl_sep _ _ _ Hh2) ltac:(listed) ltac:(listed)) as Hlt. cbn [fst snd] in Hlt.
  destruct (thread_pool_runs s2 (4 + n) ((l, 4) :: (t, 3072) :: A) l t eq_refl ltac:(listed) ltac:(listed) Hlt)
    as (m3 & Hr3 & Hh3 & Hc3 & Ho3); [apply (held_state _ _ s2 _ Hh2); reflexivity|exact El|]. cbn [mem set_mem] in Ho3.
  destruct (queue_held _ _ _ Hh3) as (q & h & m4 & Hr4 & Ho4 & Hh4 & HQ4). cbn [mem set_mem] in Ho4.
  set (s4 := set_thr (set_wait_thread_queue q (thr s2)) (set_mem m4 s2)).
  destruct (List_held _ s4 _ (held_state _ _ s4 _ Hh4 eq_refl eq_refl)) as (b & m5 & Hr5 & Ho5 & Hh5 & Eb).
  set (s5 := set_mem m5 (set_thr (mk_ThrG l q b) s)).
  destruct (held_req _ s5 _ 24 (held_state _ _ s5 _ Hh5 eq_refl eq_refl) ltac:(lia)) as (x & m6 & Hr6 & Ho6 & Hh6).
  change (mem s4) with m4 in Ho5. change (mem s5) with m5 in Ho6.
  pose proof (held_range _ _ _ x 24 Hh6 ltac:(listed)) as Rx.
  destruct (main_stored m6 x (k_pcb (proc s))) as [Hm Ho7]; [lia|lia|exact Hk|].
  set (m7 := main_mem m6 x (k_pcb (proc s))) in *. set (s7 := set_mem m7 (set_thr (mk_ThrG l q b) s)).
  assert (held n s7 ((x, 24) :: (b, 4) :: (q, 8) :: (h, 4) :: (l, 4) :: (t, 3072) :: A)) as Hh7.
  { apply (held_writes _ _ s7 _ boot_word [(x, 24)] Hh6); [reflexivity|exact Ho7|exact boot_word_low|listed]. }
  assert (only (touch boot_word [(x, 24)]) m5 m7) as O57.
  { eapply only_trans; [apply touch_pool; exact Ho6|]. eapply only_mono; [|exact Ho7].
    intros p [Hp|Hp]; [by left|right; by right]. }
  assert (only (touch boot_word [(x, 24); (b, 4)]) m4 m7) as O47.
  { eapply only_trans; [eapply only_widen; [exact Ho5|listed]|eapply only_grow; [exact O57|listed]]. }
  assert (only (touch boot_word [(x, 24); (b, 4); (q, 8); (h, 4)]) m3 m7) as O37.
  { eapply only_trans; [eapply only_widen; [exact Ho4|listed]|eapply only_grow; [exact O47|listed]]. }
  exists x, b, q, h, l, t, m7. split_and!; [|exact Hh7| | | | |exact Hm].
  - unfold ThreadInit. eapply runs_bind; [exact Hr1|]. cbv beta. rewrite (proj2 (Z.eqb_neq _ _)) by lia.
    eapply runs_bind; [exact Hr2|]. cbv beta. eapply runs_bind; [reflexivity|]. eapply runs_bind; [exact Hr3|].
    eapply runs_bind; [exact Hr4|]. cbv beta. eapply runs_bind; [reflexivity|]. eapply runs_bind; [exact Hr5|]. cbv beta.
    eapply runs_bind; [reflexivity|]. eapply runs_bind; [exact Hr6|]. cbv beta.
    apply (main_runs (set_thr (mk_ThrG l q b) s)); [reflexivity|exact Ht|lia|lia].
  - eapply only_trans; [apply touch_pool; exact Ho1|].
    eapply only_trans; [eapply only_widen; [exact Ho2|listed]|].
    eapply only_trans; [eapply only_widen; [exact Ho3|listed]|]. eapply only_grow; [exact O37|listed].
  - apply (held_clist n s7 ((l, 4) :: (t, 3072) :: A) boot_word [(x, 24); (b, 4); (q, 8); (h, 4)] l _ m3 m7 Hh7 O37 boot_word_low); [|exact Hc3].
    intros y Hy. apply elem_of_cons in Hy as [->|Hy]; [apply (inside_block _ l 4); [listed|lia|lia]|].
    apply tnodes_elem in Hy as (i & Hi & ->). apply (inside_block _ t 3072); [listed|lia|lia].
  - apply (held_queue n s7 ((q, 8) :: (h, 4) :: (l, 4) :: (t, 3072) :: A) boot_word [(x, 24); (b, 4)] q h m4 m7 Hh7 O47 boot_word_low); [listed|listed|exact HQ4].
  - rewrite <- Eb at 2. apply (held_kept n s7 ((b, 4) :: (q, 8) :: (h, 4) :: (l, 4) :: (t, 3072) :: A) boot_word [(x, 24)] b 4 b m5 m7 Hh7 O57 boot_word_low); [listed|lia|lia].
Qed.
End Held.
