(* ===== verification/Footprint.v ===== *)
(** * Footprints: what every run of a computation leaves alone

    A small logic for facts that hold of every run, whatever the values read: [within R c]
    says that each run of [c] relates its states by the preorder [R]. The main preorder is
    [wr P], memory changes only at the physical addresses [P]. The rules follow the
    structure of the code, so the footprint of a routine with fixed addresses is found by the
    tactic [footprint]. *)

From Stdlib Require Import ZArith Lia ZifyBool.
From stdpp Require Import base numbers gmap list.
From S2P Require Import Prelude Memory Machine Bits AsmWrapper Lists Pic Segment Interrupt Paging Thread ContextSwitch.

Definition within (R : kstate -> kstate -> Prop) {A} (c : K A) : Prop := forall s a s', runs c s a s' -> R s s'.

Section Rules.
Context (R : kstate -> kstate -> Prop) `{!PreOrder R}.

Lemma within_ret {A} (a : A) : within R (ret a).
Proof. intros s b s' Hr. injection Hr as <- <-. reflexivity. Qed.

Lemma within_gets {A} (f : kstate -> A) : within R (gets f).
Proof. intros s b s' Hr. injection Hr as <- <-. reflexivity. Qed.

Lemma within_modify (f : kstate -> kstate) : (forall s, R s (f s)) -> within R (modify f).
Proof. intros Hf s b s' Hr. injection Hr as <- <-. apply Hf. Qed.

Lemma within_crash {A} : within R (@crash kstate A).
Proof. intros s b s' Hr. discriminate Hr. Qed.

Lemma within_bind {A B} (c : K A) (k : A -> K B) : within R c -> (forall a, within R (k a)) -> within R (bind c k).
Proof.
  intros Hc Hk s b s' Hr. apply runs_bind_inv in Hr as (a & s1 & H1 & H2).
  etransitivity; [exact (Hc _ _ _ H1)|exact (Hk a _ _ _ H2)].
Qed.

Lemma within_for n i (body : Z -> K unit) :
  (forall j, i <= j < i + Z.of_nat n -> within R (body j)) -> within R (for_ n i body).
Proof.
  revert i. induction n as [|n IH]; intros i Hb; [apply within_ret|]. cbn [for_].
  apply within_bind; [apply Hb; lia|]. intros _. apply IH. intros j Hj. apply Hb. lia.
Qed.

Lemma within_loop {X Y} fuel (body : X -> K (X + Y)) x : (forall x, within R (body x)) -> within R (loop fuel body x).
Proof.
  intros Hb. revert x. induction fuel as [|fuel IH]; intros x; [intros s b s' Hr; discriminate Hr|].
  cbn [loop]. apply within_bind; [apply Hb|]. intros [x'|y]; [apply IH|apply within_ret].
Qed.

(** A global read right after it was set. *)
Lemma within_known {A B} (f : kstate -> kstate) (g : kstate -> A) v (k : A -> K B) :
  (forall s, g (f s) = v) -> within R (modify f ;;; k v) -> within R (modify f ;;; x <- gets g ;; k x).
Proof.
  intros E Hk s b s' Hr. apply (Hk s b s'). unfold runs, bind, modify, gets in *. by rewrite E in Hr.
Qed.

Lemma within_if {A} (b : bool) (c d : K A) : within R c -> within R d -> within R (if b then c else d).
Proof. by destruct b. Qed.
End Rules.

(** ** Memory writes *)

Definition wr (P : Z -> Prop) (s s' : kstate) : Prop := only P (mem s) (mem s').

#[export] Instance wr_preorder P : PreOrder (wr P).
Proof.
  split; [intros s; apply only_refl|]. intros s1 s2 s3 H1 H2. eapply only_trans; [exact H1|exact H2].
Qed.

Notation writes P := (within (wr P)).

Section Writes.
Context (P : Z -> Prop).

Lemma writes_keep (f : kstate -> kstate) : (forall s, mem (f s) = mem s) -> writes P (modify f).
Proof. intros Hf. apply within_modify. intros s. unfold wr. rewrite Hf. apply only_refl. Qed.

Lemma writes_ld8 a : writes P (ld8 a).
Proof. apply within_gets, _. Qed.
Lemma writes_ld16 a : writes P (ld16 a).
Proof. apply within_gets, _. Qed.
Lemma writes_ld32 a : writes P (ld32 a).
Proof. apply within_gets, _. Qed.

Lemma only_store n m a v : (forall i, 0 <= i < Z.of_nat n -> P (phys (a + i))) -> only P m (store n m a v).
Proof. intros HP b Hb. apply load8_store_ne. intros i Hi E. apply Hb. rewrite <- E. by apply HP. Qed.

Lemma writes_st8 a v : P (phys a) -> writes P (st8 a v).
Proof.
  intros HP. apply within_modify. intros s b Hb. cbn [mem set_mem]. apply load8_store8_ne. intros E. by rewrite E in HP.
Qed.
Lemma writes_st16 a v : (forall i, 0 <= i < 2 -> P (phys (a + i))) -> writes P (st16 a v).
Proof. intros HP. apply within_modify. intros s. by apply (only_store 2). Qed.
Lemma writes_st32 a v : (forall i, 0 <= i < 4 -> P (phys (a + i))) -> writes P (st32 a v).
Proof. intros HP. apply within_modify. intros s. by apply (only_store 4). Qed.
End Writes.

Lemma within_mono (P Q : Z -> Prop) {A} (c : K A) : (forall p, P p -> Q p) -> writes P c -> writes Q c.
Proof. intros HPQ Hc s a s' Hr. eapply only_mono; [exact HPQ|exact (Hc _ _ _ Hr)]. Qed.

Ltac footprint_step :=
  lazymatch goal with
  | |- within _ (bind _ _) => apply within_bind; [exact _| |intros ?]
  | |- within _ (ret _) => apply within_ret, _
  | |- within _ (gets _) => apply within_gets, _
  | |- within _ (modify _) => apply writes_keep; intros; reflexivity
  | |- within _ (ld8 _) => apply writes_ld8
  | |- within _ (ld16 _) => apply writes_ld16
  | |- within _ (ld32 _) => apply writes_ld32
  | |- within _ (for_ _ _ _) => apply within_for; [exact _|intros ? ?]
  | |- within _ (loop _ _ _) => apply within_loop; [exact _|intros ?]
  | |- within _ (if _ then _ else _) => apply within_if
  | |- within _ crash => apply within_crash
  | |- within _ (match ?x with (_, _) => _ end) => destruct x
  end.

(** [footprint tac]: decompose the code; [tac] proves that a store is inside the footprint. *)
Ltac footprint tac :=
  repeat footprint_step;
  try lazymatch goal with
      | |- within _ (st8 _ _) => apply writes_st8; tac
      | |- within _ (st16 _ _) => apply writes_st16; intros ? ?; tac
      | |- within _ (st32 _ _) => apply writes_st32; intros ? ?; tac
      end.

(** ** Routines with fixed addresses *)

(** The table of segment descriptors, and the interrupt descriptor table. *)
Definition gdt_bytes (p : Z) : Prop := 0 <= p < 48.
Definition gate_bytes (p : Z) : Prop := 126976 <= p < 129024.

(** The page directory and the page tables. *)
Definition page_bytes (p : Z) : Prop := 4096 <= p < 8192 \/ 49152 <= p < 118784.

Ltac gate_store := unfold gate, kIdtBaseAddr, gate_bytes; rewrite phys_high; lia.

Section Fixed.
Context `{Platform}.

Lemma EnableIdt_writes i : 0 <= i < 256 -> writes gate_bytes (EnableIdt i).
Proof. intros Hi. unfold EnableIdt. footprint gate_store. Qed.

Lemma RegIntrHandler_writes i h : 0 <= i < 256 -> writes gate_bytes (RegIntrHandler i h).
Proof. intros Hi. unfold RegIntrHandler. footprint idtac. by apply EnableIdt_writes. Qed.

Lemma RemoveIntrHandler_writes i : 0 <= i < 256 -> writes gate_bytes (RemoveIntrHandler i).
Proof. intros Hi. unfold RemoveIntrHandler, DisableIdt. footprint gate_store. Qed.

Lemma SetIdtEntry_writes i sel ty : 0 <= i < 256 -> writes gate_bytes (SetIdtEntry i sel ty).
Proof. intros Hi. unfold SetIdtEntry. footprint gate_store. Qed.

(** [IntrInit] also writes [ss0] of the TSS. *)
Definition intr_bytes (p : Z) : Prop := gate_bytes p \/ 122888 <= p < 122892.

Lemma IdtInit_writes : writes intr_bytes IdtInit.
Proof.
  assert (forall i sel ty, 0 <= i < 256 -> writes intr_bytes (SetIdtEntry i sel ty)) as Hset.
  { intros i sel ty Hi. eapply (within_mono gate_bytes); [by left|by apply SetIdtEntry_writes]. }
  unfold IdtInit. apply within_bind; [exact _|apply writes_keep; reflexivity|]. intros _.
  apply (within_known _ _ _ kTssBaseAddr); [reflexivity|].
  footprint ltac:(unfold kTssBaseAddr, intr_bytes; rewrite phys_high; lia);
    apply Hset; unfold kIdtExcNum, kIdtEntryNum, kIdtSyscallNum in *; lia.
Qed.

Lemma IntrInit_writes : writes intr_bytes IntrInit.
Proof.
  unfold IntrInit, PicInit, outb. footprint idtac; [apply IdtInit_writes|..];
    (eapply (within_mono gate_bytes); [by left|]; first [apply RegIntrHandler_writes|apply RemoveIntrHandler_writes]);
    unfold kIdtExcNum, kPfVec in *; lia.
Qed.

Lemma GdtInit_writes : writes gdt_bytes GdtInit.
Proof. unfold GdtInit, set_gdt_entry, kGdtBaseAddr. footprint ltac:(unfold gdt_bytes; rewrite phys_high; lia). Qed.
End Fixed.
