(* ===== verification/ProcessSpec.v ===== *)
(** * Properties of page faults, address space copies and the process tree

    A page fault on an absent page is repaired by mapping a fresh page when the page table is
    mapped at its physical address, and ends in another page fault when it is not; [UPdClone] shares an
    address space read-only; [AddSon] appends to the process tree; the pool of process
    structures is destroyed by its own initialisation. *)

From Stdlib Require Import ZArith Lia ZifyBool.
From stdpp Require Import base numbers gmap list.
From S2P Require Import Prelude Memory Machine Bits AsmWrapper Lists Allocator AllocRep AllocReq AllocHeap AllocInit AllocSafety AllocIface Queues Interrupt Paging PagingSpec Thread ContextSwitch Process.

(** ** The two views *)

Lemma load_direct n m a : 0 <= a -> a + Z.of_nat n <= 1073741824 -> load n m (a + KVA) = load n m a.
Proof.
  revert a. induction n as [|n IH]; intros a H0 H1; [done|]. cbn [load].
  replace (a + KVA + 1) with (a + 1 + KVA) by lia. rewrite IH by lia. f_equal.
  unfold load8. rewrite phys_high, phys_low by lia. do 3 f_equal. lia.
Qed.

(** A word of physical memory below 1 GB read through the direct mapping. *)
Lemma load32_direct m a : 0 <= a -> a + 4 <= 1073741824 -> load32 m (a + KVA) = load32 m a.
Proof. exact (load_direct 4 m a). Qed.

Lemma store_direct n m a v : 0 <= a -> a + Z.of_nat n <= 1073741824 -> store n m (a + KVA) v = store n m a v.
Proof.
  revert m a v. induction n as [|n IH]; intros m a v H0 H1; [done|]. cbn [store].
  replace (a + KVA + 1) with (a + 1 + KVA) by lia. rewrite IH by lia. f_equal.
  unfold store8. rewrite phys_high, phys_low by lia. f_equal. lia.
Qed.

Lemma store32_direct m a v : 0 <= a -> a + 4 <= 1073741824 -> store32 m (a + KVA) v = store32 m a v.
Proof. exact (store_direct 4 m a v). Qed.

Lemma bf_get_pt w : 0 <= w < W32 -> bf_get w 12 20 = w / 4096.
Proof.
  intros Hw. unfold bf_get. rewrite Z.land_ones, Z.shiftr_div_pow2 by lia. change (2 ^ 12) with 4096.
  apply Z.mod_small. split; [apply Z.div_pos; lia|]. apply Z.div_lt_upper_bound; lia.
Qed.

Lemma pd_index_low addr : 0 <= addr < 2147483648 -> pd_index addr = addr / 4194304.
Proof.
  intros Ha. unfold pd_index. rewrite i32_small by done. change (kPteMaxNum * PageSize) with 4194304.
  apply Z.quot_div_nonneg; lia.
Qed.

(** From the upper half of the address space on the index is negative: the quotient of the
    address as a signed number. *)
Lemma pd_index_high addr : 2147483648 <= addr < W32 -> -512 <= pd_index addr <= 0.
Proof.
  intros Ha. unfold pd_index. change (kPteMaxNum * PageSize) with 4194304.
  assert (i32 addr = addr - W32) as -> by (unfold i32; rewrite u32_small by lia; destruct (Z.ltb_spec addr 2147483648); lia).
  replace (addr - W32) with (- (W32 - addr)) by lia. rewrite Z.quot_opp_l by lia.
  rewrite Z.quot_div_nonneg by lia. assert (0 <= (W32 - addr) / 4194304 <= 512); [|lia].
  split; [apply Z.div_pos; lia|]. apply Z.div_le_upper_bound; lia.
Qed.

(** ** Page faults *)

Lemma ReqPage_runs s : exists page bm,
  runs ReqPage s page (set_page_state bm s) /\ page mod 4096 = 0 /\ 0 <= page < W32 /\
  (page <> 0 -> 67108864 <= page /\ IsBitmapSet (page_state s) (page / 4096) = false).
Proof.
  destruct (req_page_from_spec (Z.to_nat (kVirtualPageNum - kDynamicMappingStartPage)) 16384 s)
    as [(j & Hj & Hfree & _ & Hr)|[_ Hr]]; [lia|unfold kVirtualPageNum, kDynamicMappingStartPage; lia| |].
  - unfold kVirtualPageNum, kDynamicMappingStartPage in Hj. exists (4096 * j), (SetBitmap (page_state s) j).
    split_and!; [exact Hr|by rewrite Z.mul_comm, Z.mod_mul|lia|lia|].
    intros _. split; [lia|]. by rewrite Z.mul_comm, Z.div_mul.
  - exists 0, (page_state s). split_and!; [|done|lia|lia|done].
    replace (set_page_state (page_state s) s) with s by by destruct s. exact Hr.
Qed.

(** The entry of the page table that the handler writes. *)
Definition pte_addr (pt addr : Z) : Z := 4096 * pt + 4 * (addr / 4096 mod 1024).

(** The faulting context: a page table for the address exists and is mapped at its physical
    address, the page is absent. *)
Record pf_ready (s : kstate) (r addr c pt : Z) : Prop := {
  pf_addr : cr2 (cpu s) = addr;
  pf_low : 0 <= addr < 2147483648;
  pf_cr3 : cr3 (cpu s) = c;
  pf_aligned : c mod 4096 = 0;
  pf_dir : 0 <= c < 67108864;
  pf_err : IsBitSet (load32 (mem s) (r + 44)) 0 = false;
  pf_table : load32 (mem s) (c + 4 * (addr / 4194304)) / 4096 = pt;
  pf_present : Z.testbit (load32 (mem s) (c + 4 * (addr / 4194304))) 0 = true;
  pf_pt : 0 < pt /\ 4096 * pt + 4096 <= KVA;
  pf_seen : translate (mem s) c (pte_addr pt addr) = Some (pte_addr pt addr);
  pf_distinct : 4096 * pt <> c;
}.

Lemma entry_word_bit acc pg k : 0 <= acc < 4096 -> 0 <= k < 12 -> Z.testbit (entry_word acc pg) k = Z.testbit acc k.
Proof.
  intros Ha Hk. rewrite <- (Z.mod_pow2_bits_low (entry_word acc pg) 12 k) by lia. f_equal.
  unfold entry_word. change (2 ^ 12) with 4096. rewrite Z.mul_comm, Z.mod_add by lia. by apply Z.mod_small.
Qed.

(** The pointer to the entry, as the handler computes it. *)
Lemma pte_pointer pt addr : 0 <= addr < W32 -> 0 <= pt -> 4096 * pt + 4096 <= W32 ->
  u32 (shl32 pt 12 + 4 * Z.rem (GetPageNo addr) kPteMaxNum) = pte_addr pt addr.
Proof.
  intros Ha Hp0 Hp. assert (0 <= addr / 4096 < 1048576) as Hn by (split; [apply Z.div_pos; lia|apply Z.div_lt_upper_bound; lia]).
  pose proof (Z.mod_pos_bound (addr / 4096) 1024 ltac:(lia)).
  unfold GetPageNo, PageSize, kPteMaxNum, shl32, pte_addr. rewrite (u32_small addr) by lia. rewrite i32_small by lia.
  rewrite Z.rem_mod_nonneg by lia. rewrite (u32_small pt), Z.shiftl_mul_pow2 by lia.
  change (2 ^ 12) with 4096. rewrite (u32_small (pt * 4096)) by lia. rewrite u32_small by lia. lia.
Qed.

Lemma paged_runs {A} va p (access : Z -> K A) s r s' :
  translate (mem s) (cr3 (cpu s)) (u32 va) = Some p -> runs (access p) s r s' -> runs (paged va access) s r s'.
Proof. intros Ht Hr. eapply runs_bind; [reflexivity|]. by rewrite Ht. Qed.

Lemma paged_faults {A} va (access : Z -> K A) s :
  translate (mem s) (cr3 (cpu s)) (u32 va) = None -> yields (paged va access) s (Fault 14).
Proof. intros Ht. eapply yields_bind; [reflexivity|]. by rewrite Ht. Qed.

(** The directory, read through the direct mapping area. *)
Lemma pd_entry c i : 0 <= c < 67108864 -> 0 <= i < 1024 ->
  u32 (DirectMappingVirtualAddr c + 4 * i) = c + 4 * i + KVA.
Proof.
  intros Hc Hi. unfold DirectMappingVirtualAddr, kKVirtualAddr. change (i32 3221225472) with (-1073741824).
  replace (u32 (c + -1073741824)) with (c + KVA); [rewrite u32_small; lia|].
  unfold u32. apply (Z.mod_unique_pos _ _ (-1)); lia.
Qed.

Lemma get_pt_addr s a : 0 <= a -> a + 4 <= 1073741824 ->
  runs (get_field (a + KVA) 12 20) s (load32 (mem s) a / 4096) s.
Proof.
  intros H0 H1. unfold runs, get_field, bind, ld32, gets, ret. rewrite load32_direct by lia.
  rewrite bf_get_pt; [done|]. apply load32_range.
Qed.

Lemma set_field_direct a lo k v s : 0 <= a -> a + 4 <= 1073741824 ->
  set_field (a + KVA) lo k v s = set_field a lo k v s.
Proof.
  intros H0 H1. unfold set_field, bind, ld32, st32, gets, modify. rewrite load32_direct by lia.
  by rewrite store32_direct by lia.
Qed.

Lemma SetPde_direct a acc addr s : 0 <= a -> a + 4 <= 1073741824 ->
  SetPde (a + KVA) acc addr s = SetPde a acc addr s.
Proof.
  intros H0 H1. unfold SetPde, bind. rewrite set_field_direct by lia.
  destruct (set_field a 0 8 _ s) as [[[] s1]| | | |]; [|done..]. rewrite set_field_direct by lia.
  destruct (set_field a 8 4 _ s1) as [[[] s2]| | | |]; [|done..]. by rewrite set_field_direct by lia.
Qed.

(** The allocator keeps the low words: its pool starts at 63 MB. *)
Lemma low_pool m m' a : pool_only m m' -> 0 <= a <= 66060284 -> load32 m' a = load32 m a.
Proof.
  intros Hpo Ha. rewrite <- (load32_direct m' a), <- (load32_direct m a) by lia. apply (Hpo 4%nat); [unfold kspan|unfold apart]; lia.
Qed.

Lemma paging_pool m m' : pool_only m m' -> paging_mem m -> paging_mem m'.
Proof.
  intros Hpo [P0 T0 Pu Pd Py]. split.
  - by rewrite (low_pool _ _ _ Hpo) by lia.
  - intros j Hj. rewrite (low_pool _ _ _ Hpo) by lia. by apply T0.
  - intros i Hi. rewrite (low_pool _ _ _ Hpo) by lia. by apply Pu.
  - intros i Hi. destruct (Pd i Hi) as [E T]. split; [by rewrite (low_pool _ _ _ Hpo) by lia|].
    intros j Hj. rewrite (low_pool _ _ _ Hpo) by lia. by apply T.
  - intros i Hi. rewrite (low_pool _ _ _ Hpo) by lia. by apply Py.
Qed.

Section PageFault.
Context `{Platform}.

Lemma pf_absent_runs fuel s r addr c pt page bm acc :
  pf_ready s r addr c pt -> runs ReqPage s page (set_page_state bm s) ->
  acc = (if IsBitSet (load32 (mem s) (r + 44)) 1 then 7 else 5) ->
  exists m', runs (PfHandler fuel r) s tt (set_mem m' (set_page_state bm s)) /\
    load32 m' (pte_addr pt addr) = entry_word acc (u32 page / 4096) /\
    low_only (pte_addr pt addr) 4 (mem s) m'.
Proof.
  intros [Ea Hlow Ec Hal Hd Herr Hpt Hpr Hp Hseen Hdis] Hreq Eacc.
  set (w := load32 (mem s) (c + 4 * (addr / 4194304))) in *. pose proof (load32_range (mem s) (c + 4 * (addr / 4194304))) as Hw. fold w in Hw.
  assert (0 <= addr / 4194304 < 512) as Hi by (split; [apply Z.div_pos; lia|apply Z.div_lt_upper_bound; lia]).
  pose proof (Z.mod_pos_bound (addr / 4096) 1024 ltac:(lia)) as Hj.
  destruct (SetPte_runs (set_page_state bm s) (pte_addr pt addr) acc page) as (m' & Hr & Em & Hlo).
  { unfold lspan, pte_addr. lia. }
  { subst acc. destruct (IsBitSet _ 1); lia. }
  exists m'. split_and!; [|exact Em|exact Hlo].
  unfold PfHandler. eapply runs_bind; [reflexivity|]. eapply runs_bind; [reflexivity|].
  eapply runs_bind; [apply runs_ld32|]. unfold intr_reg_err. rewrite Herr. cbn [negb].
  change (match 2 with 0 => _ | _ => _ end) with (cr2 (cpu s)). change (match 3 with 0 => _ | _ => _ end) with (cr3 (cpu s)).
  rewrite Ea, Ec. unfold pf_absent. rewrite pd_index_low by done.
  rewrite pd_entry by lia. pose proof (get_pt_addr s (c + 4 * (addr / 4194304)) ltac:(lia) ltac:(lia)) as Hg.
  fold w in Hg. rewrite Hpt in Hg.
  eapply runs_bind.
  { unfold pf_directory. eapply runs_bind; [exact Hg|]. cbv beta. unfold kPdeAbsentAddr.
    rewrite (proj2 (Z.eqb_neq pt 0)) by lia. reflexivity. }
  eapply runs_bind; [exact Hg|]. cbv beta zeta. eapply runs_bind; [exact Hreq|].
  eapply paged_runs; [rewrite pte_pointer by lia; cbn [mem cpu set_page_state]; rewrite Ec; exact Hseen|].
  subst acc. exact Hr.
Qed.

(** C15: the page fault handler maps the page. For an absent page below 2 GB whose page table
    exists and is mapped at its own physical address (in the kernel's address space that is a
    table in the first 4 MB), it returns after one request to the page allocator, and then the processor
    translates the address to the page it got, user accessible, and writable exactly
    when the fault was a write; only the one page table entry is written, so every other
    page of the table keeps its translation. (When no page is left the request gives 0, and
    the entry maps physical page 0.) *)
Theorem pf_maps_page fuel s r addr c pt :
  pf_ready s r addr c pt ->
  exists page bm m', runs ReqPage s page (set_page_state bm s) /\
    runs (PfHandler fuel r) s tt (set_mem m' (set_page_state bm s)) /\
    translate m' c addr = Some (page + addr mod 4096) /\
    Z.testbit (load32 m' (pte_addr pt addr)) 2 = true /\
    Z.testbit (load32 m' (pte_addr pt addr)) 1 = IsBitSet (load32 (mem s) (r + 44)) 1 /\
    low_only (pte_addr pt addr) 4 (mem s) m' /\
    (page <> 0 -> 67108864 <= page /\ IsBitmapSet (page_state s) (page / 4096) = false).
Proof.
  intros Hpf. destruct (ReqPage_runs s) as (page & bm & Hreq & Hal & Hpg & Hfresh).
  destruct (pf_absent_runs fuel s r addr c pt page bm _ Hpf Hreq eq_refl) as (m' & Hr & Em & Hlo).
  exists page, bm, m'. destruct Hpf as [Ea Hlow Ec Hc Hd Herr Hpt Hpr Hp Hseen Hdis].
  assert (0 <= addr / 4194304 < 512) as Hi by (split; [apply Z.div_pos; lia|apply Z.div_lt_upper_bound; lia]).
  pose proof (Z.mod_pos_bound (addr / 4096) 1024 ltac:(lia)) as Hj.
  pose proof (Z.div_mod c 4096 ltac:(lia)) as Ec'. pose proof (Z.div_mod page 4096 ltac:(lia)) as Ep.
  rewrite (u32_small page) in Em by lia.
  assert (load32 m' (c + 4 * (addr / 4194304)) = load32 (mem s) (c + 4 * (addr / 4194304))) as Epde.
  { apply (low_load32 _ _ _ _ _ Hlo); [unfold lspan; lia|]. unfold pte_addr, apart. lia. }
  set (acc := if IsBitSet (load32 (mem s) (r + 44)) 1 then 7 else 5) in *.
  assert (acc = 7 \/ acc = 5) as Hacc by (unfold acc; destruct (IsBitSet _ 1); lia).
  split_and!; [exact Hreq|exact Hr| | | |exact Hlo|exact Hfresh].
  - unfold translate. replace (4096 * (c / 4096)) with c by lia. rewrite Epde, Hpr, Hpt. cbn [negb].
    fold (pte_addr pt addr). rewrite Em, entry_word_present, entry_word_frame by lia.
    assert (Z.testbit acc 0 = true) as -> by (destruct Hacc as [-> | ->]; reflexivity). cbn [negb]. f_equal. lia.
  - rewrite Em, entry_word_bit by lia. destruct Hacc as [-> | ->]; reflexivity.
  - rewrite Em, entry_word_bit by lia. unfold acc. destruct (IsBitSet _ 1); reflexivity.
Qed.

(** The first fault in a region of 4 MB without a page table, in the kernel's address space. *)
Record pf_untabled (s : kstate) (r addr : Z) : Prop := {
  pu_addr : cr2 (cpu s) = addr;
  pu_range : 67108864 <= addr < 2147483648;
  pu_cr3 : cr3 (cpu s) = 4096;
  pu_err : IsBitSet (load32 (mem s) (r + 44)) 0 = false;
  pu_pages : paging_mem (mem s);
}.

(** The new table [b] is entered in the directory, and the entries of the other regions stay. *)
Lemma pf_directory_new fuel s i e b m1 :
  16 <= i < 512 -> paging_mem (mem s) -> runs (ReqBytes fuel kPtMaxSize) s b (set_mem m1 s) ->
  pool_only (mem s) m1 -> KVA <= b < KVA + 67108864 ->
  exists m2, runs (pf_directory fuel (4096 + 4 * i + KVA) e) s tt (set_mem m2 s) /\
    load32 m2 (4096 + 4 * i) / 4096 = (b - KVA) / 4096 /\
    (forall j, 1 <= j < 16 -> load32 m2 (4096 + 4 * j) = entry_word 6 0).
Proof.
  intros Hi Hpm Hreq Hpo Hb. set (acc := if IsBitSet e 1 then kUPdeWritePresentAccess else kUPdeReadPresentAccess).
  assert (0 <= acc < 256) as Hacc by (unfold acc; destruct (IsBitSet e 1); vm_compute; split; (discriminate || reflexivity)).
  destruct (SetPde_runs (set_mem m1 s) (4096 + 4 * i) acc (DirectMappingPhysAddr b)) as (m2 & Hr & E & Hlo);
    [unfold lspan; lia|exact Hacc|].
  exists m2. split_and!.
  - unfold pf_directory. eapply runs_bind; [apply get_pt_addr; lia|]. cbv beta.
    rewrite (pm_user _ Hpm) by lia. rewrite entry_word_frame by lia. cbn [Z.eqb kPdeAbsentAddr].
    eapply runs_bind; [exact Hreq|]. fold acc. unfold runs. rewrite SetPde_direct by lia. exact Hr.
  - rewrite E, entry_word_frame by lia. unfold DirectMappingPhysAddr, kKVirtualAddr. f_equal.
    unfold u32. rewrite Z.mod_mod by lia. symmetry. apply (Z.mod_unique_pos _ _ 1); change (i32 3221225472) with (-1073741824); lia.
  - intros j Hj. rewrite (low_load32 _ _ _ _ _ Hlo) by (unfold lspan, apart; lia). cbn [mem set_mem].
    rewrite (low_pool _ _ _ Hpo) by lia. apply (pm_user _ Hpm). lia.
Qed.

(** C16: a page fault in a region without a page table does not return. In the kernel's address space,
    for a read or write of an absent page from 64 MB to 2 GB, the handler requests a table from the
    byte allocator and uses its physical address as a pointer. Only the first 4 MB are mapped at
    their physical address, so for a table beyond them the handler itself is stopped by a page
    fault. *)
Theorem pf_new_table_faults `{ByteAllocator} fuel n s r addr A :
  pf_untabled s r addr -> owns fuel (S n) s A ->
  exists b m1, runs (ReqBytes fuel kPtMaxSize) s b (set_mem m1 s) /\
    (KVA + 4194304 <= b -> yields (PfHandler fuel r) s (Fault 14)).
Proof.
  intros [Ea Hrg Ec Herr Hpm] Ho. destruct (owns_req fuel n s A 4096 Ho ltac:(lia)) as (b & m1 & Hreq & Hpo & Hcase).
  exists b, m1. split; [exact Hreq|]. intros Hb.
  assert (b + 4096 <= POOL) as Hb2.
  { destruct Hcase as [[-> _]|(_ & Ho1 & _)]; [lia|]. apply (owns_range fuel n _ _ b 4096 Ho1). left. }
  assert (16 <= addr / 4194304 < 512) as Hi by (split; [apply Z.div_le_lower_bound|apply Z.div_lt_upper_bound]; lia).
  destruct (pf_directory_new fuel s (addr / 4194304) (load32 (mem s) (r + 44)) b m1 Hi Hpm Hreq Hpo ltac:(lia)) as (m2 & Hd & E & Hj).
  destruct (ReqPage_runs (set_mem m2 s)) as (page & bm & Hpg & _).
  unfold PfHandler. eapply yields_bind; [reflexivity|]. eapply yields_bind; [reflexivity|].
  eapply yields_bind; [apply runs_ld32|]. unfold intr_reg_err. rewrite Herr. cbn [negb].
  change (match 2 with 0 => _ | _ => _ end) with (cr2 (cpu s)). change (match 3 with 0 => _ | _ => _ end) with (cr3 (cpu s)).
  rewrite Ea, Ec. unfold pf_absent. rewrite pd_index_low, pd_entry by lia.
  eapply yields_bind; [exact Hd|]. cbv beta. eapply yields_bind; [apply get_pt_addr; lia|]. cbv beta zeta.
  eapply yields_bind; [exact Hpg|]. cbv beta. apply paged_faults. cbn [mem cpu set_mem set_page_state]. rewrite E, Ec.
  pose proof (Z.div_mod (b - KVA) 4096 ltac:(lia)) as Hdm. pose proof (Z.mod_pos_bound (b - KVA) 4096 ltac:(lia)).
  rewrite pte_pointer by lia. pose proof (Z.mod_pos_bound (addr / 4096) 1024 ltac:(lia)).
  assert (1024 <= (b - KVA) / 4096) by (apply Z.div_le_lower_bound; lia).
  apply (translate_absent _ _ 6); [|auto]. apply Hj. unfold pte_addr.
  split; [apply Z.div_le_lower_bound|apply Z.div_lt_upper_bound]; lia.
Qed.
End PageFault.

(** A write fault at [0x08048000] in an address space whose directory is at physical [0x300000],
    whose table for that address is at [0x301000], and whose table for the first 4 MB, at
    [0x302000], maps that page to itself. *)
Definition pf_example : kstate :=
  set_mem (store32 (store32 (store32 (store32 ∅ 3145728 3153923) 3156996 3149827) 3145856 3149831) 3221291052 6)
    (set_cpu (set_cr2 134512640 (set_cr3 3145728 zero_cpu)) zero_state).

Lemma pf_maps_page_witness :
  exists page bm m', runs (@PfHandler null_platform 0 3221291008) pf_example tt (set_mem m' (set_page_state bm pf_example)) /\
    translate m' 3145728 134512640 = Some (page + 0).
Proof.
  destruct (@pf_maps_page null_platform 0 pf_example 3221291008 134512640 3145728 769) as (page & bm & m' & _ & Hr & Ht & _).
  - constructor; try (vm_compute; reflexivity); lia.
  - exists page, bm, m'. split; [exact Hr|exact Ht].
Defined.

(** A read fault at [0x08048000] with the kernel's tables and the allocator initialised: the
    error code, in the frame at [0xc01fffd4], is 0. *)
Definition pu_base (m : gmap Z Z) : kstate :=
  set_mem m (set_cpu (set_cr2 134512640 (set_cr3 4096 zero_cpu)) zero_state).

Lemma untabled_booted : exists s, pf_untabled s 3223322580 134512640 /\ heap_at 2097152 s (boot_free 21) (boot_alloc 21) 130992.
Proof.
  destruct (paging_tables_runs zero_state) as (m & _ & Hpm & Hfr).
  destruct (@boot_at null_platform (pu_base m) 2) as (m1 & al & _ & Hpo & Hh & _); [by split|exact null_image_ok|lia|].
  change (mem (pu_base m)) with m in Hpo.
  exists (set_mem m1 (set_alloc al (pu_base m))). split; [|exact Hh]. split; [reflexivity|lia|reflexivity| |exact (paging_pool _ _ Hpo Hpm)].
  cbn [mem set_mem set_alloc]. change (3223322580 + 44) with (2097152 + KVA). rewrite load32_direct, (low_pool _ _ _ Hpo) by lia.
  change (IsBitSet (load 4 m 2097152) 0 = false). rewrite (Hfr 2097152 4%nat) by (unfold lspan, apart; lia). reflexivity.
Qed.

(** The allocator serves the first page at the end of the memory below its pool, at 63 MB. *)
Lemma first_page : (fst ∘ fst) <$> req_spec (boot_free 21) (boot_alloc 21) (class_of 4096) = Some 3287281664.
Proof. vm_compute. reflexivity. Qed.

Lemma pf_new_table_faults_witness :
  exists s, pf_untabled s 3223322580 134512640 /\ yields (@PfHandler null_platform 40 3223322580) s (Fault 14).
Proof.
  destruct untabled_booted as (s & Hu & Hh). exists s. split; [exact Hu|].
  destruct (req_step 2097152 40 s (boot_free 21) (boot_alloc 21) 130966 4096) as (b & m & f' & g' & Hr & _ & _ & _ & _ & _ & _ & Hz & Hsp);
    [exact Hh|lia|lia|change (class_of 4096) with 12%nat; vm_compute; lia|].
  assert (b = 3287281664) as ->.
  { assert (b <> 0) as Hb.
    { intros E. apply Hz with (k := 25%nat) in E; [vm_compute in E; discriminate E|vm_compute; lia]. }
    pose proof first_page as E. rewrite (Hsp Hb) in E. cbn in E. congruence. }
  destruct (@pf_new_table_faults null_platform heap_allocator 40 1 s 3223322580 134512640 []) as (b & m1 & Hr1 & Hf).
  - exact Hu.
  - exists 2097152, (boot_free 21), (boot_alloc 21). split_and!.
    + destruct Hh as (? & L & ? & ?). split; [done|]. exists L. split; [done|lia].
    + intros k. pose proof (boot_alloc_length 21 k). lia.
    + intros a z Hin. destruct (not_elem_of_nil _ Hin).
  - destruct (runs_det _ _ _ _ _ _ Hr Hr1) as [<- _]. apply Hf. lia.
Defined.

(** ** Copying an address space *)

Lemma bf_get_spec w lo n k : 0 <= lo -> 0 <= n -> 0 <= k ->
  Z.testbit (bf_get w lo n) k = Z.testbit w (k + lo) && (k <? n).
Proof.
  intros. unfold bf_get. rewrite Z.land_spec, Z.shiftr_spec by done. f_equal.
  destruct (Z.ltb_spec k n); [apply Z.ones_spec_low; lia|apply Z.ones_spec_high; lia].
Qed.

(** The three field assignments of the copy transfer the whole entry. *)
Lemma pde_copy c f : 0 <= f < W32 ->
  bf_set (bf_set (bf_set c 8 4 (bf_get f 8 4)) 0 8 (bf_get f 0 8)) 12 20 (bf_get f 12 20) = f.
Proof.
  intros Hf. apply Z.bits_inj'. intros k Hk. rewrite !bf_set_spec by lia.
  assert (32 <= k -> Z.testbit f k = false) as Hhi.
  { intros. apply (testbit_above f 32); [change (2 ^ 32) with W32|]; lia. }
  destruct (Z.leb_spec 12 k), (Z.ltb_spec k (12 + 20)); cbn [andb]; [| | |lia].
  - rewrite bf_get_spec by lia. rewrite (proj2 (Z.ltb_lt (k - 12) 20)) by lia. rewrite andb_true_r. f_equal. lia.
  - rewrite Hhi by lia. rewrite (proj2 (Z.ltb_ge k 32)) by lia. apply andb_false_r.
  - rewrite (proj2 (Z.ltb_lt k 32)) by lia. rewrite !andb_true_r.
    destruct (Z.leb_spec 0 k), (Z.ltb_spec k (0 + 8)); cbn [andb]; [| |lia|lia].
    + rewrite bf_get_spec by lia. rewrite (proj2 (Z.ltb_lt (k - 0) 8)) by lia. rewrite andb_true_r. f_equal. lia.
    + rewrite (proj2 (Z.leb_le 8 k)), (proj2 (Z.ltb_lt k (8 + 4))) by lia. cbn [andb].
      rewrite bf_get_spec by lia. rewrite (proj2 (Z.ltb_lt (k - 8) 4)) by lia. rewrite andb_true_r. f_equal. lia.
Qed.

(** The entry with the R/W flag cleared. *)
Definition read_only (w : Z) : Z := Z.land w (not32 2).

Lemma pde_read_only w : 0 <= w < W32 -> bf_set w 0 8 (Z.land (bf_get w 0 8) (not32 2)) = read_only w.
Proof.
  intros Hw. apply Z.bits_inj'. intros k Hk. unfold read_only. rewrite bf_set_spec, !Z.land_spec by lia.
  assert (32 <= k -> Z.testbit w k = false) as Hhi.
  { intros. apply (testbit_above w 32); [change (2 ^ 32) with W32|]; lia. }
  assert (8 <= k < 32 -> Z.testbit (not32 2) k = true) as Hn.
  { intros. unfold not32. rewrite testbit_u32, Z.lnot_spec by lia.
    rewrite (testbit_above 2 2) by (change (2 ^ 2) with 4; lia). cbn. lia. }
  destruct (Z.leb_spec 0 k), (Z.ltb_spec k (0 + 8)); cbn [andb]; [| |lia|lia].
  - rewrite bf_get_spec by lia. rewrite Z.sub_0_r, Z.add_0_r, (proj2 (Z.ltb_lt k 8)) by lia. by rewrite andb_true_r.
  - destruct (Z.ltb_spec k 32); [rewrite Hn by lia; done|]. rewrite Hhi by lia. done.
Qed.

Lemma u32_read_only w : 0 <= w < W32 -> u32 (read_only w) = read_only w.
Proof. intros Hw. rewrite <- pde_read_only by done. apply u32_bf_set; lia. Qed.

(** Directories as arrays of 1024 words in kernel memory. *)
Definition entries (m : gmap Z Z) (pd : Z) (w : Z -> Z) : Prop :=
  forall k, 0 <= k < 1024 -> load32 m (pd + 4 * k) = w k.

Lemma entry_store m pd w i v :
  kspan pd 4096 -> 0 <= i < 1024 -> entries m pd w ->
  entries (store32 m (pd + 4 * i) v) pd (fun k => if k =? i then u32 v else w k).
Proof.
  intros Hk Hi He k Hk'. unfold kspan in Hk. destruct (Z.eqb_spec k i) as [->|Hne].
  - apply load32_store32_same. unfold kspan. lia.
  - rewrite load32_store32_ne; [by apply He|unfold kspan; lia|unfold kspan; lia|unfold apart; lia].
Qed.

Lemma entry_store_other m pd pd' w i v :
  kspan pd 4096 -> kspan pd' 4096 -> apart pd 4096 pd' 4096 -> 0 <= i < 1024 -> entries m pd' w ->
  entries (store32 m (pd + 4 * i) v) pd' w.
Proof.
  intros Hk Hk' Ha Hi He k Hk2. unfold kspan, apart in *.
  rewrite load32_store32_ne; [by apply He|unfold kspan; lia|unfold kspan; lia|unfold apart; lia].
Qed.

Lemma entries_ext m pd w w' : entries m pd w -> (forall k, 0 <= k < 1024 -> w k = w' k) -> entries m pd w'.
Proof. intros He Hw k Hk. rewrite <- Hw by done. by apply He. Qed.

Lemma entry_only m pd i v : kspan pd 4096 -> 0 <= i < 1024 ->
  only (fun b => inr_ b (pd, 4096)) m (store32 m (pd + 4 * i) v).
Proof.
  intros Hk Hi. apply only_store32; [unfold span, kspan in *; lia|]. intros j Hj. unfold inr_, kspan in *. cbn [fst snd].
  rewrite !phys_high by lia. lia.
Qed.

(** The first loop of [UPdClone]. *)
Lemma clone_father s pd w :
  kspan pd 4096 -> entries (mem s) pd w ->
  exists m', runs (for_ (Z.to_nat kUPdeNum) 0 (fun i =>
      a <- get_field (pd + 4 * i) 0 8 ;;
      set_field (pd + 4 * i) 0 8 (Z.land a (not32 2)))) s tt (set_mem m' s) /\
    entries m' pd (fun k => if k <? 768 then read_only (w k) else w k) /\
    only (fun b => inr_ b (pd, 4096)) (mem s) m'.
Proof.
  intros Hk He.
  destruct (for_inv (fun i s1 => exists m', s1 = set_mem m' s /\
    entries m' pd (fun k => if k <? i then read_only (w k) else w k) /\ only (fun b => inr_ b (pd, 4096)) (mem s) m')
    (Z.to_nat kUPdeNum) 0 (fun i => a <- get_field (pd + 4 * i) 0 8 ;; set_field (pd + 4 * i) 0 8 (Z.land a (not32 2))) s)
    as (s' & Hr & m' & -> & He' & Ho).
  - exists (mem s). split_and!; [by rewrite set_mem_mem| |apply only_refl].
    apply (entries_ext _ _ _ _ He). intros k Hk'. destruct (Z.ltb_spec k 0); [lia|done].
  - intros i s1 Hi (m1 & -> & He1 & Ho1). change (Z.of_nat (Z.to_nat kUPdeNum)) with 768 in Hi.
    pose proof (He1 i ltac:(lia)) as Ei. cbv beta in Ei. rewrite Z.ltb_irrefl in Ei.
    assert (0 <= w i < W32) as Hwi by (rewrite <- Ei; apply load32_range).
    exists (set_mem (store32 m1 (pd + 4 * i) (read_only (w i))) (set_mem m1 s)). split.
    + unfold runs, get_field, set_field, bind, ld32, st32, gets, modify, ret. cbn [mem set_mem]. rewrite Ei.
      by rewrite pde_read_only.
    + eexists. split_and!; [reflexivity| |].
      * eapply entries_ext; [apply entry_store; [done|lia|exact He1]|]. intros k Hk'. cbv beta.
        destruct (Z.eqb_spec k i) as [E|E].
        -- subst k. rewrite (proj2 (Z.ltb_lt i (i + 1))) by lia. by apply u32_read_only.
        -- destruct (Z.ltb_spec k i), (Z.ltb_spec k (i + 1)); done || lia.
      * eapply only_trans; [exact Ho1|]. apply entry_only; [done|lia].
  - exists m'. split_and!; [exact Hr|exact He'|exact Ho].
Qed.

(** The second loop. *)
Lemma clone_copy s cur_pd father_pd w :
  kspan cur_pd 4096 -> kspan father_pd 4096 -> apart cur_pd 4096 father_pd 4096 -> entries (mem s) father_pd w ->
  exists m', runs (for_ (Z.to_nat kPdeNum) 0 (fun i =>
      g <- get_field (father_pd + 4 * i) 8 4 ;;
      set_field (cur_pd + 4 * i) 8 4 g ;;;
      a <- get_field (father_pd + 4 * i) 0 8 ;;
      set_field (cur_pd + 4 * i) 0 8 a ;;;
      p <- get_field (father_pd + 4 * i) 12 20 ;;
      set_field (cur_pd + 4 * i) 12 20 p)) s tt (set_mem m' s) /\
    entries m' father_pd w /\ entries m' cur_pd w /\ only (fun b => inr_ b (cur_pd, 4096)) (mem s) m'.
Proof.
  intros Hk Hkf Ha He.
  destruct (for_inv (fun i s1 => exists m', s1 = set_mem m' s /\ entries m' father_pd w /\
    (forall k, 0 <= k < i -> k < 1024 -> load32 m' (cur_pd + 4 * k) = w k) /\ only (fun b => inr_ b (cur_pd, 4096)) (mem s) m')
    (Z.to_nat kPdeNum) 0 (fun i => g <- get_field (father_pd + 4 * i) 8 4 ;; set_field (cur_pd + 4 * i) 8 4 g ;;;
      a <- get_field (father_pd + 4 * i) 0 8 ;; set_field (cur_pd + 4 * i) 0 8 a ;;;
      p <- get_field (father_pd + 4 * i) 12 20 ;; set_field (cur_pd + 4 * i) 12 20 p) s)
    as (s' & Hr & m' & -> & Hf' & Hc' & Ho).
  - exists (mem s). split_and!; [by rewrite set_mem_mem|done|lia|apply only_refl].
  - intros i s1 Hi (m1 & -> & Hf1 & Hc1 & Ho1). change (Z.of_nat (Z.to_nat kPdeNum)) with 1024 in Hi.
    set (a := cur_pd + 4 * i). assert (kspan a 4) as Hka by (unfold kspan in *; lia).
    set (c := load32 m1 a). set (x1 := bf_set c 8 4 (bf_get (w i) 8 4)). set (x2 := bf_set x1 0 8 (bf_get (w i) 0 8)).
    assert (0 <= w i < W32) as Hwi by (rewrite <- (Hf1 i ltac:(lia)); apply load32_range).
    assert (u32 x1 = x1) as Ex1 by (apply u32_bf_set; lia). assert (u32 x2 = x2) as Ex2 by (apply u32_bf_set; lia).
    assert (bf_set x2 12 20 (bf_get (w i) 12 20) = w i) as Ex3 by by apply pde_copy.
    assert (forall m v, entries m father_pd w -> entries (store32 m a v) father_pd w) as Hst.
    { intros m v. apply entry_store_other; done || lia. }
    exists (set_mem (store32 (store32 (store32 m1 a x1) a x2) a (w i)) s). split.
    + unfold runs, get_field, set_field, bind, ld32, st32, gets, modify, ret. fold a. cbn [mem set_mem].
      rewrite (Hf1 i) by lia. fold c x1. rewrite (Hst _ _ Hf1 i) by lia.
      rewrite (load32_store32_same m1 a x1), Ex1 by done. fold x2.
      rewrite (Hst _ _ (Hst _ _ Hf1) i) by lia. rewrite (load32_store32_same _ a x2), Ex2 by done.
      by rewrite Ex3.
    + eexists. split_and!; [reflexivity|by do 3 apply Hst| |].
      * intros k Hk1 Hk2. destruct (Z.eq_dec k i) as [->|Hne].
        -- fold a. rewrite load32_store32_same by done. by apply u32_small.
        -- unfold a. rewrite !load32_store32_ne by (unfold kspan, apart in *; lia). apply Hc1; lia.
      * do 3 (eapply only_trans; [|apply entry_only; [done|lia]]). exact Ho1.
  - exists m'. split_and!; [exact Hr|exact Hf'| |exact Ho]. intros k Hk'. apply Hc'; [|lia].
    change (Z.of_nat (Z.to_nat kPdeNum)) with 1024. lia.
Qed.

(** C21: [UPdClone] makes the child's page directory an exact copy of the father's in which every
    entry of the user half is read-only, as copy on write needs, and makes the father's user
    half read-only too; no entry loses its page table, the kernel half is shared
    unchanged, and nothing but the two directories is written. (The user half is entries 0 to 767;
    the comment of the source says all pages.) *)
Theorem upd_clone s cur_pd father_pd w :
  kspan cur_pd 4096 -> kspan father_pd 4096 -> apart cur_pd 4096 father_pd 4096 -> entries (mem s) father_pd w ->
  exists m', runs (UPdClone cur_pd father_pd) s tt (set_mem m' s) /\
    entries m' cur_pd (fun k => if k <? 768 then read_only (w k) else w k) /\
    entries m' father_pd (fun k => if k <? 768 then read_only (w k) else w k) /\
    (forall k, 0 <= k < 1024 -> read_only (w k) / 4096 = w k / 4096) /\
    only (fun b => inr_ b (cur_pd, 4096) \/ inr_ b (father_pd, 4096)) (mem s) m'.
Proof.
  intros Hk Hkf Ha He. destruct (clone_father s father_pd w Hkf He) as (m1 & Hr1 & He1 & Ho1).
  destruct (clone_copy (set_mem m1 s) cur_pd father_pd _ Hk Hkf Ha He1) as (m2 & Hr2 & Hf2 & Hc2 & Ho2).
  exists m2. split; [unfold UPdClone; eapply runs_bind; [exact Hr1|exact Hr2]|]. clear Hr1 Hr2.
  split; [exact Hc2|]. split; [exact Hf2|]. split.
  - intros k Hk'. rewrite <- (He k Hk'). unfold read_only.
    change 4096 with (2 ^ 12). rewrite <- !Z.shiftr_div_pow2, Z.shiftr_land by lia.
    change (Z.shiftr (not32 2) 12) with (Z.ones 20). rewrite Z.land_ones by lia. apply Z.mod_small.
    rewrite Z.shiftr_div_pow2 by lia. pose proof (load32_range (mem s) (father_pd + 4 * k)).
    split; [apply Z.div_pos; lia|]. apply Z.div_lt_upper_bound; lia.
  - eapply only_trans; (eapply only_mono; [|first [exact Ho1|exact Ho2]]); cbv beta; tauto.
Qed.

(** A father at [0xc1000000] that has one writable user page table, and a child at [0xc1001000]. *)
Definition clone_example : kstate := set_mem (store32 ∅ 3238002688 3149831) zero_state.

Lemma upd_clone_witness :
  exists m', runs (UPdClone 3238006784 3238002688) clone_example tt (set_mem m' clone_example) /\
    load32 m' 3238006784 = 3149829 /\ load32 m' 3238002688 = 3149829.
Proof.
  destruct (upd_clone clone_example 3238006784 3238002688 (fun k => if k =? 0 then 3149831 else 0)) as (m' & Hr & Hc & Hf & _).
  - unfold kspan. lia.
  - unfold kspan. lia.
  - unfold apart. lia.
  - intros k Hk. unfold clone_example. cbn [mem set_mem]. destruct (Z.eqb_spec k 0) as [E|E].
    + subst k. vm_compute. reflexivity.
    + rewrite load32_store32_ne; [vm_compute; reflexivity|unfold kspan; lia|unfold kspan; lia|unfold apart; lia].
  - exists m'. split; [exact Hr|]. split; [exact (Hc 0 ltac:(lia))|exact (Hf 0 ltac:(lia))].
Defined.

(** ** The process tree *)

(** A chain of nodes from [a] that ends in NULL. *)
Definition chain (m : gmap Z Z) (a : Z) (xs : list Z) : Prop :=
  path (load32 m) a xs /\ load32 m (tail_of a xs) = 0 /\ nodes_ok 4 (a :: xs).

Lemma path_in_ne nx a xs x : path nx a xs -> Forall (fun y => y <> 0) xs -> x ∈ xs -> x <> 0.
Proof. intros _ Hf Hx. rewrite Forall_forall in Hf. auto. Qed.

(** The loop of [AddSon] reaches the last node. *)
Lemma chain_walk s a xs fuel :
  chain (mem s) a xs -> (length xs < fuel)%nat ->
  runs (loop fuel (fun tmp => next <- ld32 tmp ;; if next =? 0 then ret (inr tmp) else ret (inl next)) a)
    s (tail_of a xs) s.
Proof.
  intros (Hp & Ht & Hok) Hf. assert (Forall (fun y => y <> 0) xs) as Hnz.
  { apply Forall_forall. intros y Hy. pose proof (nodes_ok_kspan 4 _ y Hok ltac:(set_solver)) as Hk. unfold kspan in Hk. lia. }
  clear Hok. revert a fuel Hp Ht Hf. induction xs as [|x xs IH]; intros a fuel Hp Ht Hf; (destruct fuel as [|fuel]; [cbn in Hf; lia|]).
  - apply loop_exit. eapply runs_bind; [apply runs_ld32|]. cbv beta. cbn [tail_of] in *. rewrite Ht. reflexivity.
  - destruct Hp as [Hx Hp]. apply Forall_cons in Hnz as [Hx0 Hnz]. eapply loop_step.
    + eapply runs_bind; [apply runs_ld32|]. cbv beta. rewrite Hx, (proj2 (Z.eqb_neq x 0)) by done. reflexivity.
    + apply IH; [done|done|done|cbn in Hf; lia].
Qed.

(** [AddSon] appends the new son to the chain of the father's sons: it returns after
    one step per son, the earlier sons keep their order, and only the last link is
    written. *)
Theorem add_son s father sons son fuel :
  chain (mem s) father sons -> nodes_ok 4 (son :: father :: sons) -> load32 (mem s) son = 0 ->
  (length sons < fuel)%nat ->
  exists m', runs (AddSon fuel son father) s tt (set_mem m' s) /\
    chain m' father (sons ++ [son]) /\ same_except [tail_of father sons] (mem s) m'.
Proof.
  intros Hc Hok Hson Hf. pose proof (tail_of_in father sons) as Htl. pose proof Hc as (Hp & _ & Hok1).
  assert (kspan (tail_of father sons) 4) as Hkt by (eapply nodes_ok_kspan; [exact Hok1|done]).
  assert (son <> tail_of father sons) as Hne.
  { destruct Hok as (Hnd & _). apply NoDup_cons in Hnd as [Hnd _]. intros E. apply Hnd. by rewrite E. }
  exists (store32 (mem s) (tail_of father sons) son). split_and!.
  - eapply runs_bind; [by apply chain_walk|]. reflexivity.
  - assert (forall q, q ∈ son :: father :: sons -> q <> tail_of father sons ->
      load32 (store32 (mem s) (tail_of father sons) son) q = load32 (mem s) q) as Hfr.
    { intros q Hq Hqn. apply load32_store32_ne; [done|exact (nodes_ok_kspan 4 _ q Hok Hq)|]. apply Hok; [set_solver|done|congruence]. }
    split_and!.
    + apply path_app. split.
      * apply (path_frame (load32 (mem s))); [apply Hok1| |done]. intros q Hq Hqn. apply Hfr; [set_solver|done].
      * split; [|exact I]. rewrite load32_store32_same by done. eapply (nodes_ok_u32 4); [lia|exact Hok|set_solver].
    + rewrite tail_of_app. cbn [tail_of]. rewrite Hfr by (done || set_solver). done.
    + eapply nodes_ok_perm; [|exact Hok]. rewrite (Permutation_app_comm sons [son]). cbn. solve_Permutation.
  - by apply same_except_store32.
Qed.

(** The first son of a process whose [left] node is at [0xc1000020]. *)
Lemma add_son_witness :
  exists m', runs (AddSon 1 3238002784 3238002720) zero_state tt (set_mem m' zero_state) /\
    chain m' 3238002720 [3238002784].
Proof.
  destruct (add_son zero_state 3238002720 [] 3238002784 1) as (m' & Hr & Hc & _).
  - split_and!; [exact I|vm_compute; reflexivity|by apply nodes_okb_sound].
  - by apply nodes_okb_sound.
  - vm_compute. reflexivity.
  - cbn. lia.
  - exists m'. split; [exact Hr|exact Hc].
Defined.

(** ** The pool of process structures *)

(** What one round writes: the list head, the new node and, through the overlapping
    structure, the words of its neighbours. *)
Lemma init_pcb_runs s hd c i first :
  free_proc_list (proc s) = hd -> kspan hd 4 -> kspan (c - 40) 48 -> apart hd 4 (c - 40) 48 ->
  load32 (mem s) hd = first ->
  exists m', runs (init_pcb i c) s tt (set_mem m' s) /\
    load32 m' hd = c /\ load32 m' c = first /\ load32 m' (c - 4) = 0.
Proof.
  intros Eh Hh Hc Ha Ef. unfold kspan in Hc, Hh. unfold apart in Ha.
  unfold init_pcb, GET_STRUCT, p_thread_list, p_left, p_right, p_father, p_page_dir.
  rewrite (u32_small (c - 40)) by lia.
  rewrite (u32_small (c - 40 + 44)), (u32_small (c - 40 + 32)), (u32_small (c - 40 + 36)),
    (u32_small (c - 40 + 28)), (u32_small (c - 40 + 4)) by lia.
  eexists. split.
  { eapply runs_bind; [reflexivity|]. rewrite Eh. eapply runs_bind; [reflexivity|].
    do 5 (eapply runs_bind; [reflexivity|]). reflexivity. }
  cbn [mem set_mem]. rewrite Ef.
  split_and!.
  - rewrite !(load32_store32_ne _ _ hd) by (unfold kspan, apart; lia).
    rewrite load32_store32_same by (unfold kspan; lia). apply u32_small. lia.
  - rewrite !(load32_store32_ne _ (c - 40 + _) c) by (unfold kspan, apart; lia).
    rewrite (load32_store32_ne _ (c - 40) c) by (unfold kspan, apart; lia).
    rewrite load32_store32_same by (unfold kspan; lia). rewrite <- Ef. apply u32_load32.
  - rewrite (load32_store32_ne _ (c - 40 + 4) (c - 4)), (load32_store32_ne _ (c - 40 + 28) (c - 4)) by (unfold kspan, apart; lia).
    replace (c - 40 + 36) with (c - 4) by lia. by rewrite load32_store32_same by (unfold kspan; lia).
Qed.

(** C35: the pool of process structures does not survive its initialisation. [cur++] moves 4
    bytes instead of a whole [Pcb], so each structure overlaps the one before and clears its
    link: of the 16 structures only two are on the free list, which ends in NULL and never
    returns to its head. (The third [CreateProc] takes a null node out of it.) *)
Theorem proc_pool_broken s hd cur :
  free_proc_list (proc s) = hd -> kspan hd 4 -> kspan (cur - 40) 108 -> apart hd 4 (cur - 40) 108 ->
  exists m', runs (init_pcbs cur) s tt (set_mem m' s) /\
    load32 m' hd = cur + 60 /\ load32 m' (cur + 60) = cur + 56 /\ load32 m' (cur + 56) = 0.
Proof.
  intros Eh Hh Hc Ha. unfold kspan in Hc. unfold apart in Ha.
  destruct (for_inv (fun i s1 => exists m', s1 = set_mem m' s /\
    (1 <= i -> load32 m' hd = cur + 4 * (i - 1)) /\
    (2 <= i -> load32 m' (cur + 4 * (i - 1)) = cur + 4 * (i - 2) /\ load32 m' (cur + 4 * (i - 2)) = 0))
    (Z.to_nat kProcInitNum) 0 (fun i => init_pcb i (u32 (cur + 4 * i))) s) as (s' & Hr & m' & -> & H1 & H2).
  - exists (mem s). split_and!; [by rewrite set_mem_mem|lia|lia].
  - intros i s1 Hi (m1 & -> & I1 & I2). change (Z.of_nat (Z.to_nat kProcInitNum)) with 16 in Hi.
    rewrite u32_small by lia.
    destruct (init_pcb_runs (set_mem m1 s) hd (cur + 4 * i) i (load32 m1 hd)) as (m' & Hr & E1 & E2 & E3);
      [exact Eh|exact Hh|unfold kspan; lia|unfold apart; lia|reflexivity|].
    exists (set_mem m' s). split; [exact Hr|]. exists m'. split_and!; [done| |].
    + intros _. rewrite E1. lia.
    + intros Hi2. replace (cur + 4 * (i + 1 - 1)) with (cur + 4 * i) by lia.
      replace (cur + 4 * (i + 1 - 2)) with (cur + 4 * i - 4) by lia. split; [|exact E3].
      rewrite E2, I1 by lia. lia.
  - change (0 + Z.of_nat (Z.to_nat kProcInitNum)) with 16 in H1, H2. exists m'.
    split; [exact Hr|]. clear Hr. specialize (H1 ltac:(lia)). specialize (H2 ltac:(lia)).
    replace (cur + 4 * (16 - 1)) with (cur + 60) in * by lia. replace (cur + 4 * (16 - 2)) with (cur + 56) in * by lia.
    split; [exact H1|exact H2].
Qed.

Definition pool_example : kstate := set_proc (mk_ProcG 0 3238002688) zero_state.

Lemma proc_pool_broken_witness :
  exists m', runs (init_pcbs 3238002984) pool_example tt (set_mem m' pool_example) /\ load32 m' 3238003040 = 0.
Proof.
  destruct (proc_pool_broken pool_example 3238002688 3238002984) as (m' & Hr & _ & _ & H0).
  - reflexivity.
  - unfold kspan. lia.
  - unfold kspan. lia.
  - unfold apart. lia.
  - exists m'. split; [exact Hr|exact H0].
Defined.
