(* ===== verification/Timer.v ===== *)
(** * driver/timer.c: the programmable interval timer

    Every timer interrupt decrements the one-byte counter [timer]; when it reaches 0 the
    counter starts again at 15 and the processor is given to the next thread. *)

From Stdlib Require Import ZArith Lia ZifyBool.
From stdpp Require Import base numbers gmap strings list.
From S2P Require Import Prelude Memory Machine Bits AsmWrapper Lists Allocator Queues Console Pic Interrupt Paging Thread ContextSwitch Scheduler.

Definition kChannel0Port : Z := 64.
Definition kModeRegPort : Z := 67.
Definition kModeRegVal : Z := 54.
Definition kReloadVal : Z := 0.
Definition kTimerReset : Z := 15.

Definition switch_msg : list Z := str "Process switch happens." ++ [10].

Section Timer.
Context `{Platform}.

Definition TimerInit : K unit :=
  outb kModeRegPort kModeRegVal ;;;
  outb kChannel0Port kReloadVal ;;;
  outb kChannel0Port (shr32 kReloadVal 8) ;;;
  RegIntrHandler kTimerVec TimerHandlerId ;;;
  modify (set_timer kTimerReset) ;;;
  EnableIrq kTimerVec.

Definition TimerHandler (intr_reg : Z) : K unit :=
  modify (fun s => set_timer (u8 (timer s - 1)) s) ;;;
  v <- ld32 (intr_reg_vec intr_reg) ;;
  SendEoi (i32 v) ;;;
  t <- gets timer ;;
  if t =? 0 then
    modify (set_timer kTimerReset) ;;;
    printf 32 switch_msg [] ;;;
    ThreadSwitch
  else ret tt.
End Timer.

(** ** Time slices *)

Section Slice.
Context `{Platform}.

(** An interrupt that does not end the slice acknowledges itself and counts. *)
Lemma tick_counts s r t :
  load32 (mem s) (r + 40) = 32 -> timer s = t -> 1 < t < 256 ->
  runs (TimerHandler r) s tt (set_timer (t - 1) (set_io (Outb 32 32 :: io s) s)).
Proof.
  intros Hv Et Ht. unfold TimerHandler. eapply runs_bind; [reflexivity|]. eapply runs_bind; [apply runs_ld32|].
  unfold intr_reg_vec. cbn [mem set_timer]. rewrite Hv, Et, u8_small by lia. eapply runs_bind; [reflexivity|].
  eapply runs_bind; [reflexivity|]. cbn [timer set_timer set_io io].
  destruct (Z.eqb_spec (t - 1) 0); [lia|]. by destruct s.
Qed.

(** The interrupt that ends the slice. *)
Lemma tick_switches s r o :
  load32 (mem s) (r + 40) = 32 -> timer s = 1 ->
  yields (printf 32 switch_msg [] ;;; ThreadSwitch) (set_timer 15 (set_io (Outb 32 32 :: io s) s)) o ->
  yields (TimerHandler r) s o.
Proof.
  intros Hv Et Hk. unfold TimerHandler. eapply yields_bind; [reflexivity|]. eapply yields_bind; [apply runs_ld32|].
  unfold intr_reg_vec. cbn [mem set_timer]. rewrite Hv. eapply yields_bind; [reflexivity|].
  eapply yields_bind; [reflexivity|]. cbn [timer set_timer set_io io]. rewrite Et. cbn -[printf ThreadSwitch switch_msg].
  eapply yields_bind; [reflexivity|]. unfold yields in *. rewrite <- Hk. by destruct s.
Qed.
End Slice.
