(* ===== verification/Poll.v ===== *)
(** * Busy waiting on a status port

    The drivers wait for a device with loops such as [while ((inb(port) & mask) == 0);].
    The device answers each read as it likes; [answer] is the sequence of values it gives
    when it is read again and again. A wait returns exactly when one of them is a
    value that ends it. *)

From Stdlib Require Import ZArith Lia ZifyBool.
From stdpp Require Import base numbers gmap list.
From S2P Require Import Prelude Memory Machine Bits AsmWrapper.

Section Poll.
Context `{Platform}.

(** Read [port] until [stop] holds of the value read, which is returned. *)
Definition poll (fuel : nat) (port : Z) (stop : Z -> bool) : K Z :=
  loop fuel (fun _ : unit =>
    v <- inb port ;;
    if stop v then ret (inr v) else ret (inl tt)) tt.

(** The history after [n] reads of [port], and the answer to the next one. *)
Fixpoint polled (n : nat) (port : Z) (h : list IoEvent) : list IoEvent :=
  match n with
  | O => h
  | S n' => let h' := polled n' port h in Inb (u16 port) (u8 (device h' (u16 port))) :: h'
  end.

Definition answer (port : Z) (h : list IoEvent) (n : nat) : Z := u8 (device (polled n port h) (u16 port)).

(** The first answer that ends the wait is number [n]. *)
Definition ends_at (port : Z) (stop : Z -> bool) (h : list IoEvent) (n : nat) : Prop :=
  (forall k, (k < n)%nat -> stop (answer port h k) = false) /\ stop (answer port h n) = true.

Lemma polled_cons n port h :
  polled n port (Inb (u16 port) (u8 (device h (u16 port))) :: h) = polled (S n) port h.
Proof. induction n as [|n IH]; [done|]. cbn [polled] in *. by rewrite IH. Qed.

Lemma inb_runs port s : runs (inb port) s (answer port (io s) 0) (set_io (polled 1 port (io s)) s).
Proof. reflexivity. Qed.

(** A wait that the device ends returns the value that ended it. *)
Lemma poll_runs n fuel port stop s :
  ends_at port stop (io s) n -> (n < fuel)%nat ->
  runs (poll fuel port stop) s (answer port (io s) n) (set_io (polled (S n) port (io s)) s).
Proof.
  revert fuel s. induction n as [|n IH]; intros fuel s [Hbusy Hend] Hf; (destruct fuel as [|fuel]; [lia|]).
  - apply loop_exit. eapply runs_bind; [apply inb_runs|]. cbv beta. rewrite Hend. reflexivity.
  - set (s1 := set_io (polled 1 port (io s)) s).
    assert (forall k, answer port (io s1) k = answer port (io s) (S k)) as Ea.
    { intros k. unfold answer. cbn [io s1 set_io polled]. by rewrite polled_cons. }
    eapply loop_step.
    + eapply runs_bind; [apply inb_runs|]. cbv beta. rewrite (Hbusy 0%nat) by lia. reflexivity.
    + fold s1. assert (runs (poll fuel port stop) s1 (answer port (io s1) n) (set_io (polled (S n) port (io s1)) s1)) as Hr.
      { apply IH; [|lia]. split; [intros k Hk; rewrite Ea; apply Hbusy; lia|by rewrite Ea]. }
      rewrite Ea in Hr. unfold s1 in Hr at 2 3. cbn [io set_io] in Hr.
      change (polled 1 port (io s)) with (Inb (u16 port) (u8 (device (io s) (u16 port))) :: io s) in Hr at 1.
      rewrite polled_cons in Hr. destruct s. exact Hr.
Qed.

(** A wait that the device never ends never returns. *)
Lemma poll_diverges fuel port stop s :
  (forall k, stop (answer port (io s) k) = false) -> poll fuel port stop s = NoFuel.
Proof.
  revert s. induction fuel as [|fuel IH]; intros s Hbusy; [done|].
  unfold poll. cbn [loop]. unfold bind. rewrite (inb_runs port s), (Hbusy 0%nat). unfold ret at 1.
  apply IH. intros k. specialize (Hbusy (S k)). unfold answer in *. cbn [io set_io].
  change (polled 1 port (io s)) with (Inb (u16 port) (u8 (device (io s) (u16 port))) :: io s). by rewrite polled_cons.
Qed.
End Poll.
