(* ===== verification/Keyboard.v ===== *)
(** * driver/keyboard.c: the PS/2 keyboard

    The driver waits for the controller with status polls, and counts the bytes of a key
    press in [key_counter]. [input_buf] has 1024 elements: an index outside is undefined
    behaviour. *)

From Stdlib Require Import ZArith Lia ZifyBool.
From stdpp Require Import base numbers gmap list.
From S2P Require Import Prelude Memory Machine Bits AsmWrapper Lists Allocator Queues Pic Interrupt Poll.

Definition kPs2DataPort : Z := 96.
Definition kStatusReg : Z := 100.
Definition kCmdReg : Z := 100.
Definition kKeyboardBufSize : Z := 1024.
Definition kCtrlConfig : Z := 4.
Definition kDisablePort1 : Z := 173.
Definition kEnablePort1 : Z := 174.
Definition kDisablePort2 : Z := 167.
Definition kCtrlSelfTest : Z := 170.
Definition kTestPort1 : Z := 171.
Definition kWCtrlConfig : Z := 96.
Definition kResetDevice : Z := 255.

Definition set_kbd_ (f : KbdG -> KbdG) : K unit := modify (fun s => set_kbd (f (kbd s)) s).

Section Keyboard.
Context `{Platform}.

(** [while ((inb(kStatusReg) & 0x1u) == 0);] *)
Definition Read (fuel : nat) (port : Z) : K Z :=
  poll fuel kStatusReg (fun st => negb (Z.land st 1 =? 0)) ;;;
  inb port.

(** [while ((inb(kStatusReg) & 0x2u) != 0);] *)
Definition Write (fuel : nat) (port data : Z) : K unit :=
  poll fuel kStatusReg (fun st => Z.land st 2 =? 0) ;;;
  outb port data.

Definition KeymapInit (fuel : nat) : K unit :=
  m <- map_new fuel ;;
  set_kbd_ (set_keymap m).

Definition free_keyboard_buffer : K unit :=
  set_kbd_ (set_cur 0) ;;;
  set_kbd_ (set_key_counter 0).

(** [input_buf[cur] = (char) c] *)
Definition store_input (c : Z) : K unit :=
  i <- gets (fun s => cur (kbd s)) ;;
  if i <? kKeyboardBufSize then set_kbd_ (fun g => set_input_buf (<[i := u8 c]> (input_buf g)) g) else crash.

Definition KeyboardHandler (fuel : nat) (intr_reg : Z) : K unit :=
  input <- Read fuel kPs2DataPort ;;
  k <- gets (fun s => key_counter (kbd s)) ;;
  (if k mod 3 =? 0 then
     km <- gets (fun s => keymap (kbd s)) ;;
     c <- MapGet fuel km input ;;
     store_input c ;;;
     set_kbd_ (fun g => set_cur (u32 (cur g + 1)) g) ;;;
     set_kbd_ (fun g => set_key_counter (u8 (key_counter g + 1)) g)
   else if (k mod 3 =? 1) && negb (input =? 240) then
     set_kbd_ (fun g => set_cur (u32 (cur g - 1)) g) ;;;
     set_kbd_ (fun g => set_key_counter (u8 (key_counter g + 1)) g)
   else
     set_kbd_ (set_key_counter 0)) ;;;
  v <- ld32 (intr_reg_vec intr_reg) ;;
  SendEoi (i32 v).

(** The data structures and the interrupt, once the device has answered. *)
Definition keyboard_start (fuel : nat) : K bool :=
  set_kbd_ (set_key_counter 0) ;;;
  set_kbd_ (set_cur 0) ;;;
  KeymapInit fuel ;;;
  Write fuel kCmdReg kWCtrlConfig ;;;
  Write fuel kPs2DataPort (Z.lor kCtrlConfig 1) ;;;
  RegIntrHandler kKeyboardVec KeyboardHandlerId ;;;
  EnableIrq kKeyboardVec ;;;
  ret true.

Definition KeyboardInit (fuel : nat) : K bool :=
  Write fuel kCmdReg kDisablePort1 ;;;
  Write fuel kCmdReg kDisablePort2 ;;;
  inb kPs2DataPort ;;;
  Write fuel kCmdReg kWCtrlConfig ;;;
  Write fuel kPs2DataPort kCtrlConfig ;;;
  Write fuel kCmdReg kCtrlSelfTest ;;;
  r <- Read fuel kPs2DataPort ;;
  if negb (r =? 85) then ret false
  else
    Write fuel kCmdReg kTestPort1 ;;;
    r <- Read fuel kPs2DataPort ;;
    if negb (r =? 0) then ret false
    else
      Write fuel kCmdReg kEnablePort1 ;;;
      Write fuel kPs2DataPort kResetDevice ;;;
      Read fuel kPs2DataPort ;;;
      r <- inb kPs2DataPort ;;
      if negb (r =? 170) then ret false
      else keyboard_start fuel.
End Keyboard.

(** ** The handler as a function of the byte received *)

(** The driver's state after a byte when the key map gives the character [c]: [None] when the
    character does not fit into the buffer. *)
Definition kbd_spec (c input : Z) (g : KbdG) : option KbdG :=
  let k := key_counter g in
  if k mod 3 =? 0 then
    if cur g <? kKeyboardBufSize
    then Some (mk_KbdG (keymap g) (u8 (k + 1)) (<[cur g := u8 c]> (input_buf g)) (u32 (cur g + 1)))
    else None
  else if (k mod 3 =? 1) && negb (input =? 240)
  then Some (mk_KbdG (keymap g) (u8 (k + 1)) (input_buf g) (u32 (cur g - 1)))
  else Some (mk_KbdG (keymap g) 0 (input_buf g) (cur g)).

Section Spec.
Context `{Platform}.

Definition full (st : Z) : bool := negb (Z.land st 1 =? 0).

Lemma Read_runs n fuel port s :
  ends_at kStatusReg full (io s) n -> (n < fuel)%nat ->
  let h := polled (S n) kStatusReg (io s) in
  runs (Read fuel port) s (answer port h 0) (set_io (polled 1 port h) s).
Proof.
  intros He Hf h. eapply runs_bind; [by apply poll_runs|]. fold h. destruct s. reflexivity.
Qed.

(** An empty map has no entry for any key. *)
Lemma MapGet_empty fuel map key s : load32 (mem s) map = map -> runs (MapGet (S fuel) map key) s 0 s.
Proof.
  intros He. eapply (runs_bind _ _ s None s); [|reflexivity]. apply loop_exit.
  eapply runs_bind; [apply runs_ld32|]. cbv beta. rewrite He, Z.eqb_refl. reflexivity.
Qed.

Lemma store_input_runs c s g' k :
  key_counter (kbd s) mod 3 = 0 -> kbd_spec c k (kbd s) = Some g' ->
  runs (store_input c ;;; set_kbd_ (fun g => set_cur (u32 (cur g + 1)) g) ;;;
    set_kbd_ (fun g => set_key_counter (u8 (key_counter g + 1)) g)) s tt (set_kbd g' s).
Proof.
  intros Hk. unfold kbd_spec. rewrite Hk. cbn [Z.eqb]. destruct (cur (kbd s) <? kKeyboardBufSize) eqn:E; [|done].
  intros [= <-]. eapply runs_bind.
  { unfold store_input. eapply runs_bind; [reflexivity|]. cbv beta. rewrite E. reflexivity. }
  destruct s as [? ? ? ? ? ? ? ? ? g]. destruct g. reflexivity.
Qed.

Lemma keyboard_runs n fuel r s g' (h := polled (S n) kStatusReg (io s)) (input := answer kPs2DataPort h 0) :
  ends_at kStatusReg full (io s) n -> (n < fuel)%nat ->
  load32 (mem s) (keymap (kbd s)) = keymap (kbd s) -> load32 (mem s) (r + 40) = kKeyboardVec ->
  kbd_spec 0 input (kbd s) = Some g' ->
  runs (KeyboardHandler fuel r) s tt (set_kbd g' (set_io (Outb 32 32 :: polled 1 kPs2DataPort h) s)).
Proof.
  intros He Hf Hmap Hv Hg. unfold KeyboardHandler. eapply runs_bind; [by apply (Read_runs n)|]. fold h input. cbv beta.
  set (s1 := set_io (polled 1 kPs2DataPort h) s). eapply runs_bind; [reflexivity|]. change (kbd s1) with (kbd s).
  eapply (runs_bind _ _ s1 tt (set_kbd g' s1)).
  - destruct (Z.eqb_spec (key_counter (kbd s) mod 3) 0) as [E|E].
    + eapply runs_bind; [reflexivity|]. change (kbd s1) with (kbd s). destruct fuel as [|f]; [lia|].
      eapply runs_bind; [apply MapGet_empty; exact Hmap|]. by apply (store_input_runs 0 s1 g' input).
    + unfold kbd_spec in Hg. rewrite (proj2 (Z.eqb_neq _ _) E) in Hg.
      destruct ((key_counter (kbd s) mod 3 =? 1) && negb (input =? 240)); injection Hg as <-;
        destruct s as [? ? ? ? ? ? ? ? ? g]; destruct g; reflexivity.
  - cbv beta. eapply runs_bind; [apply runs_ld32|]. unfold intr_reg_vec. change (mem (set_kbd g' s1)) with (mem s).
    rewrite Hv. destruct s. reflexivity.
Qed.

(** The keyboard interrupt handler refines its byte-by-byte specification, for the empty
    key map that [KeymapInit] builds: however long the controller makes it wait, it
    returns as soon as a byte is there, takes exactly that byte, moves to the specified
    state, acknowledges the interrupt and changes nothing else. *)
Theorem keyboard_refines n fuel r s g' (h := polled (S n) kStatusReg (io s)) (input := answer kPs2DataPort h 0) :
  ends_at kStatusReg full (io s) n -> (n < fuel)%nat ->
  load32 (mem s) (keymap (kbd s)) = keymap (kbd s) -> load32 (mem s) (r + 40) = kKeyboardVec ->
  kbd_spec 0 input (kbd s) = Some g' ->
  runs (KeyboardHandler fuel r) s tt (set_kbd g' (set_io (Outb 32 32 :: polled 1 kPs2DataPort h) s)).
Proof. apply keyboard_runs. Qed.

(** The history after one interrupt when the status always says that a byte is there, and
    the byte of the next one. *)
Definition after_key (h : list IoEvent) : list IoEvent :=
  Outb 32 32 :: polled 1 kPs2DataPort (polled 1 kStatusReg h).

Definition next_key (h : list IoEvent) : Z := answer kPs2DataPort (polled 1 kStatusReg h) 0.

Lemma keyboard_ready_runs fuel r s g' :
  (forall h, full (u8 (device h kStatusReg)) = true) -> (0 < fuel)%nat ->
  load32 (mem s) (keymap (kbd s)) = keymap (kbd s) -> load32 (mem s) (r + 40) = kKeyboardVec ->
  kbd_spec 0 (next_key (io s)) (kbd s) = Some g' ->
  runs (KeyboardHandler fuel r) s tt (set_kbd g' (set_io (after_key (io s)) s)).
Proof.
  intros Hready Hf Hmap Hv Hg. apply (keyboard_runs 0); [|done..]. split; [lia|]. apply Hready.
Qed.

(** One key press is recorded twice. The three bytes of a press and release (the scan
    code, [0xf0], the scan code again) leave two characters in the buffer instead of one,
    and the driver in the middle of a key sequence: [0xf0] resets the byte counter, so the
    second scan code counts as a new press. *)
Theorem keyboard_release_counts fuel r s :
  (forall h, full (u8 (device h kStatusReg)) = true) -> (0 < fuel)%nat ->
  load32 (mem s) (keymap (kbd s)) = keymap (kbd s) -> load32 (mem s) (r + 40) = kKeyboardVec ->
  key_counter (kbd s) = 0 -> 0 <= cur (kbd s) < 1022 -> next_key (after_key (io s)) = 240 ->
  exists s', runs (KeyboardHandler fuel r ;;; KeyboardHandler fuel r ;;; KeyboardHandler fuel r) s tt s' /\
    cur (kbd s') = cur (kbd s) + 2 /\ key_counter (kbd s') = 1.
Proof.
  intros Hready Hf Hmap Hv Hk Hc H240.
  assert (forall x, 0 <= x < 1024 -> (x <? kKeyboardBufSize) = true) as Hlt by (intros; unfold kKeyboardBufSize; lia).
  eexists. split.
  - eapply runs_bind; [eapply keyboard_ready_runs; [done|done|done|done|]|].
    { unfold kbd_spec. rewrite Hk, Hlt by lia. reflexivity. }
    eapply runs_bind; [eapply keyboard_ready_runs; [done|done|done|done|]|].
    { cbn [io kbd set_kbd set_io]. rewrite H240. reflexivity. }
    eapply keyboard_ready_runs; [done|done|done|done|].
    unfold kbd_spec. cbn [kbd set_kbd key_counter cur]. rewrite (u32_small (cur (kbd s) + 1)), Hlt by lia. reflexivity.
  - cbn [kbd set_kbd cur key_counter]. rewrite !u32_small by lia. split; [lia|reflexivity].
Qed.
End Spec.

(** A keyboard that has sent the bytes 28, 240, 28: the letter A pressed and released. *)
Fixpoint data_reads (h : list IoEvent) : nat :=
  match h with
  | [] => 0
  | Inb 96 _ :: h' => S (data_reads h')
  | _ :: h' => data_reads h'
  end.

Definition kbd_platform : Platform := {|
  K_END := 1572864;
  intr_vec := fun i => 1048576 + 16 * i;
  GdtLimit_fn := 1050000;
  RunIde_fn := 1060000;
  ThreadSwitch_ret := 1070000;
  device := fun h port => if port =? 100 then 1 else nth (data_reads h) [28; 240; 28] 0;
|}.

Definition kbd_example : kstate :=
  set_mem (store32 (store32 ∅ 3238002688 3238002688) 3238006568 33)
    (set_kbd (mk_KbdG 3238002688 0 ∅ 0) zero_state).

Lemma keyboard_refines_witness :
  exists s', runs (@KeyboardHandler kbd_platform 1 3238006528) kbd_example tt s' /\ cur (kbd s') = 1.
Proof.
  eexists. split.
  - eapply (@keyboard_refines kbd_platform 0 1 3238006528 kbd_example).
    + split; [lia|vm_compute; reflexivity].
    + lia.
    + vm_compute. reflexivity.
    + vm_compute. reflexivity.
    + reflexivity.
  - reflexivity.
Defined.

Lemma keyboard_release_counts_witness :
  exists s', runs (@KeyboardHandler kbd_platform 1 3238006528 ;;; @KeyboardHandler kbd_platform 1 3238006528 ;;;
      @KeyboardHandler kbd_platform 1 3238006528) kbd_example tt s' /\ cur (kbd s') = 2.
Proof.
  destruct (@keyboard_release_counts kbd_platform 1 3238006528 kbd_example) as (s' & Hr & Hc & _).
  - intros h. reflexivity.
  - lia.
  - vm_compute. reflexivity.
  - vm_compute. reflexivity.
  - reflexivity.
  - vm_compute. split; [discriminate|reflexivity].
  - vm_compute. reflexivity.
  - exists s'. split; [exact Hr|exact Hc].
Defined.
