(* ===== verification/Ide.v ===== *)
(** * driver/ide.c: the IDE disk

    Requests are [IdeBlock]s of 28 bytes ([dev_no] at offset 0, [sec_addr] 4, [mem_addr] 8, [op] 12,
    [sec_num] 16, [node] 20, [req_thread] 24) on the queue [block_queue]. The thread [RunIde] sends
    the command for the first request and sleeps; the interrupt handler moves the data.
    The drive is the platform's [device]: it sees the port accesses. *)

From Stdlib Require Import ZArith Lia ZifyBool.
From stdpp Require Import base numbers gmap list.
From S2P Require Import Prelude Memory Machine Bits AsmWrapper Lists Allocator Queues Pic Interrupt Paging Thread Poll.

Definition kIoBase : Z := 496.
Definition kCtrlBase : Z := 1014.
Definition kDataReg : Z := kIoBase + 0.
Definition kSecCountReg : Z := kIoBase + 2.
Definition kSecNoReg : Z := kIoBase + 3.
Definition kCylinderLowReg : Z := kIoBase + 4.
Definition kCylinderHighReg : Z := kIoBase + 5.
Definition kDriveHeadSelReg : Z := kIoBase + 6.
Definition kStatusReg : Z := kIoBase + 7.
Definition kCmdReg : Z := kIoBase + 7.
Definition kAlternateStatusReg : Z := kCtrlBase + 0.
Definition kDeviceCtrlReg : Z := kCtrlBase + 0.
Definition kIdeBsy : Z := 128.
Definition kIdeErr : Z := 1.
Definition kIdeDf : Z := 32.
Definition kIdeRdy : Z := 64.
Definition kIdeDrq : Z := 8.
Definition kIdentity : Z := 236.
Definition kRead : Z := 32.
Definition kWrite : Z := 48.
Definition kSecSize : Z := 512.
Definition kBlockSize : Z := 8.
Definition WORD_SIZE : Z := 4.
Definition sizeof_IdeBlock : Z := 28.

Definition b_dev_no (b : Z) : Z := u32 b.
Definition b_sec_addr (b : Z) : Z := u32 (b + 4).
Definition b_mem_addr (b : Z) : Z := u32 (b + 8).
Definition b_op (b : Z) : Z := u32 (b + 12).
Definition b_sec_num (b : Z) : Z := u32 (b + 16).
Definition b_node (b : Z) : Z := u32 (b + 20).
Definition b_req_thread (b : Z) : Z := u32 (b + 24).

Section Ide.
Context `{Platform}.

Definition DisableIntr : K unit := outb kDeviceCtrlReg 2.
Definition EnableIntr : K unit := outb kDeviceCtrlReg 0.

(** Returns -1 on an error, 0 when the drive is not busy. *)
Definition IdeWait (fuel : nat) (check_err : bool) : K Z :=
  loop fuel (fun _ : unit =>
    status <- inb kAlternateStatusReg ;;
    if negb (Z.land status kIdeBsy =? 0) then
      if check_err && negb (Z.land status (Z.lor kIdeDf kIdeErr) =? 0) then ret (inr (-1)) else ret (inl tt)
    else ret (inr 0)) tt.

(** [insl] into the local array [buffer], which nothing reads. *)
Definition discard_words (port n : Z) : K unit :=
  for_ (Z.to_nat n) 0 (fun _ s => Done (tt, set_io (Inl (u16 port) (u32 (device (io s) (u16 port))) :: io s) s)).

(** The thread that serves the requests, [KThreadRun]'s start function. *)
Definition ide_thread_start (fuel : nat) : K unit :=
  kp <- GetKPcb ;;
  t <- CreateThread fuel kp ;;
  KThreadRun t RunIde_fn.

Definition IdeInit (fuel : nat) : K bool :=
  IdeWait fuel false ;;;
  DisableIntr ;;;
  outb kDriveHeadSelReg 240 ;;;
  outb kSecCountReg 0 ;;;
  outb kSecNoReg 0 ;;;
  outb kCylinderLowReg 0 ;;;
  outb kCylinderHighReg 0 ;;;
  outb kCmdReg kIdentity ;;;
  lo <- inb kCylinderLowReg ;;
  bad <- (if negb (lo =? 0) then ret true else hi <- inb kCylinderHighReg ;; ret (negb (hi =? 0))) ;;
  if bad then ret false
  else
    st <- inb kStatusReg ;;
    bad <- (if st =? 0 then ret true else w <- IdeWait fuel true ;; ret (negb (w =? 0))) ;;
    if bad then ret false
    else
      discard_words kDataReg (kSecSize / WORD_SIZE) ;;;
      q <- queue fuel ;;
      modify (set_block_queue q) ;;;
      EnableIrq kIdeVec ;;;
      RegIntrHandler kIdeVec IdeHandlerId ;;;
      EnableIntr ;;;
      ide_thread_start fuel ;;;
      ret true.

(** The command of [RSec] and [WSec]: one sector at address [sec_addr] of drive [dev_no]. *)
Definition ide_select (dev_no sec_addr cmd : Z) : K unit :=
  outb kDeviceCtrlReg 0 ;;;
  outb kSecCountReg 1 ;;;
  outb kSecNoReg sec_addr ;;;
  outb kCylinderLowReg (shr32 sec_addr 8) ;;;
  outb kCylinderHighReg (shr32 sec_addr 16) ;;;
  outb kDriveHeadSelReg (Z.lor (Z.lor 224 (shl32 (Z.land dev_no 1) 4)) (shr32 sec_addr 24)) ;;;
  outb kCmdReg cmd.

Definition RSec (fuel : nat) (dev_no sec_addr : Z) : K unit :=
  IdeWait fuel false ;;;
  ide_select dev_no sec_addr kRead ;;;
  ThreadSleep.

Definition has_bits (bits st : Z) : bool := negb (Z.land st bits =? 0).

Definition WSec (fuel : nat) (dev_no sec_addr src : Z) : K unit :=
  IdeWait fuel false ;;;
  ide_select dev_no sec_addr kWrite ;;;
  poll fuel kAlternateStatusReg (has_bits kIdeRdy) ;;;
  w <- IdeWait fuel true ;;
  (if w =? 0 then
     st <- inb kAlternateStatusReg ;;
     if has_bits kIdeDrq st then outsl kDataReg src (kSecSize / WORD_SIZE) else ret tt
   else ret tt) ;;;
  ThreadSleep.

(** The last sector of a request: it leaves the queue and the requesting thread wakes. *)
Definition ide_finish (fuel : nat) (block : Z) : K unit :=
  q <- gets block_queue ;;
  node <- Dequeue q ;;
  RelBytes fuel node ;;;
  RelBytes fuel block ;;;
  t <- ld32 (b_req_thread block) ;;
  ThreadWake fuel t.

Definition IdeHandler (fuel : nat) (intr_reg : Z) : K unit :=
  v <- ld32 (intr_reg_vec intr_reg) ;;
  SendEoi (i32 v) ;;;
  st <- inb kStatusReg ;;
  if has_bits (Z.lor kIdeErr kIdeDf) st then ret tt
  else
    q <- gets block_queue ;;
    node <- QueueGetHead q ;;
    let block := GET_STRUCT node 20 in
    op <- ld8 (b_op block) ;;
    (if op =? 0 then
       poll fuel kAlternateStatusReg (has_bits kIdeRdy) ;;;
       a <- ld32 (b_mem_addr block) ;;
       insl kDataReg a (kSecSize / WORD_SIZE)
     else ret tt) ;;;
    n <- ld32 (b_sec_num block) ;;
    st32 (b_sec_num block) (u32 (n - 1)) ;;;
    n <- ld32 (b_sec_num block) ;;
    if n =? 0 then ide_finish fuel block else ret tt.

(** One round of the thread's loop. *)
Definition run_ide_once (fuel : nat) : K unit :=
  q <- gets block_queue ;;
  new_node <- QueueGetHead q ;;
  if new_node =? 0 then ret tt
  else
    let new_task := GET_STRUCT new_node 20 in
    op <- ld8 (b_op new_task) ;;
    dev <- ld8 (b_dev_no new_task) ;;
    sec <- ld32 (b_sec_addr new_task) ;;
    if negb (op =? 0) then
      a <- ld32 (b_mem_addr new_task) ;;
      WSec fuel dev sec a
    else RSec fuel dev sec.

(** [RunIde] never returns. *)
Definition RunIde (fuel : nat) : K Empty_set :=
  loop fuel (fun _ : unit => run_ide_once fuel ;;; ret (inl tt)) tt.

(** [IdeWrite] and [IdeRead] differ in [op]. *)
Definition ide_request (fuel : nat) (op dev_no sec_addr addr block_num : Z) : K unit :=
  block <- ReqBytes fuel sizeof_IdeBlock ;;
  st8 (b_op block) op ;;;
  st32 (b_mem_addr block) addr ;;;
  st8 (b_dev_no block) dev_no ;;;
  st32 (b_sec_addr block) sec_addr ;;;
  st32 (b_sec_num block) (u32 (block_num * kBlockSize)) ;;;
  t <- GetCurThread ;;
  st32 (b_req_thread block) t ;;;
  st32 (b_node block) 0 ;;;
  q <- gets block_queue ;;
  Enqueue q (b_node block).

Definition IdeWrite (fuel : nat) (dev_no sec_addr src block_num : Z) : K unit :=
  ide_request fuel 1 dev_no sec_addr src block_num.

Definition IdeRead (fuel : nat) (dev_no sec_addr dst block_num : Z) : K unit :=
  ide_request fuel 0 dev_no sec_addr dst block_num.
End Ide.
