(* ===== verification/IdeSpec.v ===== *)
(** * Properties of the IDE driver

    The drive's registers hold the last byte written to their ports. The theorems: the
    drive decodes the sector address and the drive number that [RSec] and [WSec] encode;
    one interrupt moves one sector. *)

From Stdlib Require Import ZArith Lia ZifyBool.
From stdpp Require Import base numbers gmap list.
From S2P Require Import Prelude Memory Machine Bits AsmWrapper Lists Allocator Queues Pic Interrupt Paging Thread ContextSwitch Scheduler Poll Ide.

(** ** The drive's view of a command (28-bit LBA) *)

Definition lba (h : list IoEvent) : Z :=
  imr kSecNoReg h + 256 * imr kCylinderLowReg h + 65536 * imr kCylinderHighReg h +
  16777216 * (imr kDriveHeadSelReg h mod 16).

(** Bit 4 selects the drive, bit 6 LBA addressing. *)
Definition second_drive (h : list IoEvent) : bool := Z.testbit (imr kDriveHeadSelReg h) 4.
Definition lba_mode (h : list IoEvent) : bool := Z.testbit (imr kDriveHeadSelReg h) 6.

(** The registers after a command. *)
Lemma ide_select_regs dev sec cmd s :
  exists h, runs (ide_select dev sec cmd) s tt (set_io h s) /\
    imr kSecNoReg h = u8 sec /\ imr kCylinderLowReg h = u8 (shr32 sec 8) /\
    imr kCylinderHighReg h = u8 (shr32 sec 16) /\
    imr kDriveHeadSelReg h = u8 (Z.lor (Z.lor 224 (shl32 (Z.land dev 1) 4)) (shr32 sec 24)) /\
    imr kSecCountReg h = 1 /\ head h = Some (Outb kCmdReg (u8 cmd)).
Proof. eexists. split; [reflexivity|]. split_and!; reflexivity. Qed.

Lemma head_sel_value dev top :
  0 <= dev -> 0 <= top < 16 ->
  u8 (Z.lor (Z.lor 224 (shl32 (Z.land dev 1) 4)) top) = 224 + 16 * (dev mod 2) + top.
Proof.
  intros Hd Ht. change 1 with (Z.ones 1). rewrite Z.land_ones by lia. change (2 ^ 1) with 2.
  pose proof (Z.mod_pos_bound dev 2 ltac:(lia)).
  assert (dev mod 2 = 0 \/ dev mod 2 = 1) as [E|E] by lia; rewrite E.
  all: assert (exists n, top = Z.of_nat n /\ (n < 16)%nat) as (n & -> & Hn) by (exists (Z.to_nat top); lia).
  all: do 16 (destruct n as [|n]; [reflexivity|]); lia.
Qed.

Lemma head_sel_bits (b : bool) top :
  0 <= top < 16 ->
  let v := 224 + 16 * (if b then 1 else 0) + top in Z.testbit v 4 = b /\ Z.testbit v 6 = true.
Proof.
  intros Ht. assert (exists n, top = Z.of_nat n /\ (n < 16)%nat) as (n & -> & Hn) by (exists (Z.to_nat top); lia).
  destruct b; do 16 (destruct n as [|n]; [split; reflexivity|]); lia.
Qed.

(** C29: the drive decodes the command. For every 28-bit sector address and every drive number,
    the registers after the command of [RSec] or [WSec] hold exactly that address, the
    drive's number modulo 2, LBA mode and a count of one sector, and the command byte is
    written last. *)
Theorem ide_lba dev sec cmd s :
  0 <= dev -> 0 <= sec < 268435456 ->
  exists h, runs (ide_select dev sec cmd) s tt (set_io h s) /\
    lba h = sec /\ second_drive h = Z.odd dev /\ lba_mode h = true /\
    imr kSecCountReg h = 1 /\ head h = Some (Outb kCmdReg (u8 cmd)).
Proof.
  intros Hd Hs. destruct (ide_select_regs dev sec cmd s) as (h & Hr & E1 & E2 & E3 & E4 & E5 & E6).
  assert (shr32 sec 24 = sec / 16777216) as S24 by (unfold shr32; rewrite u32_small, Z.shiftr_div_pow2 by lia; done).
  assert (shr32 sec 16 = sec / 65536) as S16 by (unfold shr32; rewrite u32_small, Z.shiftr_div_pow2 by lia; done).
  assert (shr32 sec 8 = sec / 256) as S8 by (unfold shr32; rewrite u32_small, Z.shiftr_div_pow2 by lia; done).
  assert (0 <= sec / 16777216 < 16) as Htop by (split; [apply Z.div_pos; lia|apply Z.div_lt_upper_bound; lia]).
  rewrite S24, head_sel_value in E4 by done.
  pose proof (Z.mod_pos_bound dev 2 ltac:(lia)) as Hm.
  exists h. split; [exact Hr|]. clear Hr. split_and!; [| | |exact E5|exact E6].
  - unfold lba. rewrite E1, E2, E3, E4, S8, S16. unfold u8.
    replace (224 + 16 * (dev mod 2) + sec / 16777216) with (sec / 16777216 + (14 + dev mod 2) * 16) by lia.
    rewrite Z.mod_add, (Z.mod_small (sec / 16777216)) by lia.
    pose proof (Z.div_mod sec 256 ltac:(lia)). pose proof (Z.div_mod (sec / 256) 256 ltac:(lia)) as D2.
    pose proof (Z.div_mod (sec / 65536) 256 ltac:(lia)) as D3.
    rewrite Z.div_div in D2, D3 by lia. change (256 * 256) with 65536 in D2. change (65536 * 256) with 16777216 in D3. lia.
  - unfold second_drive. rewrite E4, Zmod_odd. by apply head_sel_bits.
  - unfold lba_mode. rewrite E4, Zmod_odd. by apply head_sel_bits.
Qed.

Lemma ide_lba_witness :
  exists h, runs (ide_select 1 74565 kRead) zero_state tt (set_io h zero_state) /\ lba h = 74565.
Proof.
  destruct (ide_lba 1 74565 kRead zero_state) as (h & Hr & Hl & _); [lia|lia|].
  exists h. split; [exact Hr|exact Hl].
Defined.

(** ** Moving a sector *)

Section Transfer.
Context `{Platform}.

(** The history after [n] word reads of the data port. *)
Fixpoint words_read (n : nat) (h : list IoEvent) : list IoEvent :=
  match n with
  | O => h
  | S n' => let h' := words_read n' h in Inl kDataReg (u32 (device h' kDataReg)) :: h'
  end.

Definition word_at (h : list IoEvent) (i : Z) : Z := u32 (device (words_read (Z.to_nat i) h) kDataReg).

(** [insl] stores the words the drive delivers one after the other. *)
Lemma insl_runs s a n :
  kspan a (4 * Z.of_nat n) ->
  exists m', runs (insl kDataReg a (Z.of_nat n)) s tt (set_mem m' (set_io (words_read n (io s)) s)) /\
    (forall i, 0 <= i < Z.of_nat n -> load32 m' (a + 4 * i) = word_at (io s) i) /\
    only (fun b => inr_ b (a, 4 * Z.of_nat n)) (mem s) m'.
Proof.
  intros Hk. unfold insl. rewrite Nat2Z.id.
  destruct (for_inv (fun i s1 => exists m', s1 = set_mem m' (set_io (words_read (Z.to_nat i) (io s)) s) /\
    (forall j, 0 <= j < i -> j < Z.of_nat n -> load32 m' (a + 4 * j) = word_at (io s) j) /\
    only (fun b => inr_ b (a, 4 * Z.of_nat n)) (mem s) m') n 0
    (fun i s => let w := u32 (device (io s) (u16 kDataReg)) in
      Done (tt, set_mem (store32 (mem s) (a + 4 * i) w) (set_io (Inl (u16 kDataReg) w :: io s) s))) s)
    as (s' & Hr & m' & -> & Hw & Ho).
  - exists (mem s). split_and!; [by destruct s|lia|apply only_refl].
  - intros i s1 Hi (m1 & -> & Hw1 & Ho1). eexists. split; [reflexivity|]. cbn [mem io set_mem set_io].
    unfold kspan in Hk. eexists. split_and!.
    + replace (Z.to_nat (i + 1)) with (S (Z.to_nat i)) by lia. destruct s. reflexivity.
    + intros j Hj Hj2. destruct (Z.eq_dec j i) as [->|Hne].
      * rewrite load32_store32_same by (unfold kspan; lia). apply u32_idem.
      * rewrite load32_store32_ne by (unfold kspan, apart; lia). apply Hw1; lia.
    + eapply only_trans; [exact Ho1|]. apply only_store32; [unfold span; lia|]. intros j Hj.
      unfold inr_. cbn [fst snd]. rewrite !phys_high by lia. lia.
  - exists m'. rewrite Z.add_0_l, Nat2Z.id in Hr. split_and!; [exact Hr|intros i Hi; apply Hw; lia|exact Ho].
Qed.

(** A read request at the head of the queue with more than one sector to go; its buffer, its
    sector count and the queue are at separate places. *)
Record reading (s : kstate) (q h : Z) (xs : list Z) (blk a n : Z) : Prop := {
  rg_queue : block_queue s = q;
  rg_rep : queue_rep (mem s) q h (blk + 20 :: xs);
  rg_block : kspan blk 28;
  rg_op : load8 (mem s) (blk + 12) = 0;
  rg_addr : load32 (mem s) (blk + 8) = a;
  rg_count : load32 (mem s) (blk + 16) = n;
  rg_more : 1 < n;
  rg_buffer : kspan a 512;
  rg_sep : apart a 512 blk 28;
  rg_nodes : Forall (fun w => apart w 4 a 512 /\ apart w 4 (blk + 16) 4) (q :: q + 4 :: h :: blk + 20 :: xs);
}.

(** The history when the handler has acknowledged the interrupt and read the status, and when
    the drive has become ready. *)
Definition acked (h : list IoEvent) : list IoEvent := polled 1 kStatusReg (Outb 32 32 :: Outb 160 32 :: h).

Definition moved (a blk b : Z) : Prop := inr_ b (a, 512) \/ inr_ b (blk + 16, 4).

Lemma moved_apart a blk w n :
  kspan w n -> 0 <= n -> kspan a 512 -> kspan (blk + 16) 4 -> apart w n a 512 -> apart w n (blk + 16) 4 ->
  forall i, 0 <= i < n -> ~ moved a blk (phys w + i).
Proof.
  intros Hw Hn Ha Hb A1 A2 i Hi. unfold moved, inr_, kspan, apart in *. cbn [fst snd].
  rewrite !phys_high by lia. lia.
Qed.


Lemma set_collapse m m1 h h1 s :
  set_mem m (set_mem m1 (set_io h (set_io h1 s))) = set_mem m (set_io h s).
Proof. by destruct s. Qed.

Lemma inb_at port h s : runs (inb port) (set_io h s) (answer port h 0) (set_io (polled 1 port h) s).
Proof. by destruct s. Qed.

Lemma moved_queue s q h xs blk a n b :
  reading s q h xs blk a n -> qbytes q h (blk + 20 :: xs) b -> ~ moved a blk b.
Proof.
  intros [_ [_ _ _ (_ & Hk & _)] Hb _ _ _ _ Hbuf _ Hn] Hq. rewrite Forall_forall in Hk, Hn.
  assert (kspan (blk + 16) 4) as Hk16 by (unfold kspan in *; lia).
  assert (forall w, w ∈ q :: q + 4 :: h :: blk + 20 :: xs -> phys w <= b < phys w + 4 -> ~ moved a blk b) as Hw.
  { intros w Hw Hin. destruct (Hn w Hw) as [A1 A2]. replace b with (phys w + (b - phys w)) by lia.
    by apply (moved_apart a blk w 4 (Hk w Hw) ltac:(lia) Hbuf Hk16 A1 A2); lia. }
  pose proof (Hk q ltac:(set_solver)) as Kq. pose proof (Hk (q + 4) ltac:(set_solver)) as Kq4.
  assert (phys (q + 4) = phys q + 4) as Pq by (unfold kspan in *; rewrite !phys_high by lia; lia).
  destruct Hq as [Hq|[Hq|(w & Hin & Hq)]].
  - destruct (Z.lt_ge_cases b (phys q + 4)); [apply (Hw q); [set_solver|lia]|apply (Hw (q + 4)); [set_solver|lia]].
  - apply (Hw h); [set_solver|lia].
  - apply (Hw w); [set_solver|lia].
Qed.

Lemma handler_prefix fuel r s q h xs blk a n k :
  reading s q h xs blk a n -> load32 (mem s) (r + 40) = kIdeVec ->
  has_bits (Z.lor kIdeErr kIdeDf) (answer kStatusReg (Outb 32 32 :: Outb 160 32 :: io s) 0) = false ->
  ends_at kAlternateStatusReg (has_bits kIdeRdy) (acked (io s)) k -> (k < fuel)%nat ->
  let s1 := set_io (polled (S k) kAlternateStatusReg (acked (io s))) s in
  forall x s', runs (insl kDataReg a 128 ;;;
      n <- ld32 (blk + 16) ;; st32 (blk + 16) (u32 (n - 1)) ;;;
      n <- ld32 (blk + 16) ;; if n =? 0 then ide_finish fuel blk else ret tt) s1 x s' ->
    runs (IdeHandler fuel r) s x s'.
Proof.
  intros [Eq HQ Hb Eop Ea En Hmore Hbuf Hsep Hnodes] Hv Hst He Hf s1 x s' Hk.
  unfold IdeHandler. eapply runs_bind; [apply runs_ld32|]. unfold intr_reg_vec. rewrite Hv.
  eapply (runs_bind _ _ _ tt (set_io (Outb 32 32 :: Outb 160 32 :: io s) s)); [by destruct s|].
  eapply (runs_bind _ _ _ _ (set_io (acked (io s)) s)); [apply inb_at|]. cbv beta. rewrite Hst.
  eapply runs_bind; [reflexivity|]. cbn [block_queue set_io]. rewrite Eq.
  eapply runs_bind; [apply (QueueGetHead_spec _ q h (blk + 20 :: xs)); exact HQ|]. cbv beta iota zeta.
  assert (GET_STRUCT (blk + 20) 20 = blk) as -> by (unfold GET_STRUCT; rewrite u32_small; unfold kspan in Hb; lia).
  unfold kspan in Hb. unfold b_op, b_mem_addr, b_sec_num. rewrite !(u32_small (blk + _)) by lia.
  eapply runs_bind; [apply runs_ld8|]. cbn [mem set_io]. rewrite Eop. cbn [Z.eqb].
  pose proof (poll_runs k fuel kAlternateStatusReg (has_bits kIdeRdy) (set_io (acked (io s)) s) He Hf) as Hp.
  replace (set_io (polled (S k) kAlternateStatusReg (io (set_io (acked (io s)) s))) (set_io (acked (io s)) s))
    with s1 in Hp by (unfold s1; by destruct s).
  assert (kSecSize / WORD_SIZE = 128) as -> by reflexivity.
  apply runs_bind_inv in Hk as ([] & s2 & Hi & Hk). eapply runs_bind; [|exact Hk].
  eapply runs_bind; [exact Hp|]. eapply runs_bind; [apply runs_ld32|].
  change (mem s1) with (mem s). rewrite Ea. exact Hi.
Qed.

(** C25: one disk interrupt moves one sector. For a read request with sectors to go, whatever
    the drive's delays, the handler acknowledges both interrupt controllers, stores the
    128 words the drive delivers at the request's address, decrements the count and
    writes nothing else. The request's memory address and sector address stay the same:
    the next sector overwrites this one. *)
Theorem ide_handler_transfers fuel r s q h xs blk a n k
    (h1 := polled (S k) kAlternateStatusReg (acked (io s))) :
  reading s q h xs blk a n -> load32 (mem s) (r + 40) = kIdeVec ->
  has_bits (Z.lor kIdeErr kIdeDf) (answer kStatusReg (Outb 32 32 :: Outb 160 32 :: io s) 0) = false ->
  ends_at kAlternateStatusReg (has_bits kIdeRdy) (acked (io s)) k -> (k < fuel)%nat ->
  exists m', runs (IdeHandler fuel r) s tt (set_mem m' (set_io (words_read 128 h1) s)) /\
    (forall i, 0 <= i < 128 -> load32 m' (a + 4 * i) = word_at h1 i) /\
    load32 m' (blk + 16) = n - 1 /\ load32 m' (blk + 8) = a /\ load32 m' (blk + 4) = load32 (mem s) (blk + 4) /\
    queue_rep m' q h (blk + 20 :: xs) /\ only (moved a blk) (mem s) m'.
Proof.
  intros Hrg Hv Hst He Hf. pose proof Hrg as [Eq HQ Hb Eop Ea En Hmore Hbuf Hsep Hnodes].
  set (s1 := set_io h1 s). destruct (insl_runs s1 a 128 Hbuf) as (m1 & Hi & Hw & Ho).
  change (4 * Z.of_nat 128) with 512 in Ho. change (Z.of_nat 128) with 128 in Hi, Hw.
  change (io s1) with h1 in Hi, Hw. change (mem s1) with (mem s) in Ho.
  assert (kspan (blk + 16) 4) as Hk16 by (unfold kspan in *; lia).
  pose proof (load32_range (mem s) (blk + 16)) as Hn. rewrite En in Hn.
  assert (only (moved a blk) (mem s) (store32 m1 (blk + 16) (n - 1))) as Ho2.
  { eapply only_trans; [eapply only_mono; [|exact Ho]; unfold moved; tauto|].
    apply only_store32; [by apply kspan_span|]. intros i Hi'. right. unfold inr_. cbn [fst snd]. lia. }
  assert (load32 m1 (blk + 16) = n) as En1.
  { rewrite <- En. apply (only_load32 _ _ _ _ Ho); [by apply kspan_span|]. intros i Hi'.
    unfold inr_, kspan, apart in *. cbn [fst snd]. rewrite !phys_high by lia. lia. }
  assert (forall o, 0 <= o <= 12 -> load32 (store32 m1 (blk + 16) (n - 1)) (blk + o) = load32 (mem s) (blk + o)) as Hfld.
  { intros o Ho'. apply (only_load32 _ _ _ _ Ho2); [unfold span, kspan in *; lia|].
    apply moved_apart; unfold kspan, apart in *; lia. }
  exists (store32 m1 (blk + 16) (n - 1)). split; [|clear Hi; split_and!; [..|exact Ho2]].
  - apply (handler_prefix fuel r s q h xs blk a n k Hrg Hv Hst He Hf). fold h1 s1.
    eapply runs_bind; [exact Hi|]. eapply runs_bind; [apply runs_ld32|]. cbn [mem set_mem]. rewrite En1, u32_small by lia.
    eapply runs_bind; [apply runs_st32|]. eapply runs_bind; [apply runs_ld32|]. cbn [mem set_mem].
    rewrite (load32_store32_same _ _ _ Hk16), u32_small by lia. destruct (Z.eqb_spec (n - 1) 0); [lia|].
    unfold s1. rewrite set_collapse. apply runs_ret.
  - intros i Hi'. rewrite load32_store32_ne; [by apply Hw|done|unfold kspan in *; lia|unfold apart in *; lia].
  - rewrite load32_store32_same by done. apply u32_small. lia.
  - rewrite Hfld by lia. exact Ea.
  - apply Hfld. lia.
  - apply (queue_rep_only _ _ _ _ _ _ HQ Ho2). intros b. by apply (moved_queue s q h xs blk a n).
Qed.
End Transfer.

(** A drive that answers every data read with 7, is always ready and never reports an error,
    and a request for two sectors to [0xc1001000]. *)
Definition ide_platform : Platform := {|
  K_END := 1572864;
  intr_vec := fun i => 1048576 + 16 * i;
  GdtLimit_fn := 1050000;
  RunIde_fn := 1060000;
  ThreadSwitch_ret := 1070000;
  device := fun h port => if port =? 496 then 7 else if port =? 1014 then 64 else 0;
|}.

Definition ide_example : kstate :=
  set_block_queue 3238002688 (set_mem (foldr (fun av m => store32 m av.1 av.2) ∅
    [(3238002688, 3238002704); (3238002692, 3238002772); (3238002704, 3238002772); (3238002772, 3238002704);
     (3238002760, 3238006784); (3238002768, 2); (3238003240, 46)]) zero_state).

Lemma ide_handler_transfers_witness :
  exists m' io', runs (@IdeHandler ide_platform 1 3238003200) ide_example tt (set_mem m' (set_io io' ide_example)) /\
    load32 m' 3238002768 = 1 /\ load32 m' 3238002760 = 3238006784.
Proof.
  destruct (@ide_handler_transfers ide_platform 1 3238003200 ide_example 3238002688 3238002704 [] 3238002752 3238006784 2 0)
    as (m' & Hr & _ & E1 & E2 & _).
  - constructor.
    + reflexivity.
    + constructor; [vm_compute; reflexivity|vm_compute; reflexivity| |apply nodes_okb_sound; [lia|vm_compute; reflexivity]].
      split; [split; [vm_compute; reflexivity|exact I]|vm_compute; reflexivity].
    + unfold kspan. lia.
    + vm_compute. reflexivity.
    + vm_compute. reflexivity.
    + vm_compute. reflexivity.
    + lia.
    + unfold kspan. lia.
    + unfold apart. lia.
    + repeat constructor; unfold apart; lia.
  - vm_compute. reflexivity.
  - vm_compute. reflexivity.
  - split; [lia|vm_compute; reflexivity].
  - lia.
  - eexists _, _. split; [exact Hr|]. split; [exact E1|exact E2].
Defined.
