(* ===== verification/Kernel.v ===== *)
(** * The kernel put together: init.c, memory_manager.c, driver.c, syscall.c, fs.c and the
      interrupt dispatcher of interrupt.c

    [kernel_start] receives the multiboot information ([flags] at offset 0, [mem_lower] 4,
    [mem_upper] 8, [mmap_length] 44, [mmap_addr] 48; a memory map entry has [size] at 0, [addr] 4,
    [len] 12, [type] 20), checks it, copies the available regions to the table at
    [0x20000] and initialises the components in order. *)

From Stdlib Require Import ZArith Lia ZifyBool.
From stdpp Require Import base numbers gmap strings list.
From S2P Require Import Prelude Memory Machine Bits AsmWrapper Lists Allocator Queues Console Pic Segment Interrupt Paging Thread Process Timer Poll Keyboard Ide.

(** ** System calls *)

Definition kSyscallMaxNum : Z := 128.

(** [p_eax] 36, [p_ebx] 24, [p_ecx] 32, [p_edx] 28, [p_edi] 8, [p_esi] 12 of [IntrReg]. *)
Definition r_eax (r : Z) : Z := r + 36.
Definition r_ebx (r : Z) : Z := r + 24.
Definition r_ecx (r : Z) : Z := r + 32.
Definition r_edx (r : Z) : Z := r + 28.
Definition r_edi (r : Z) : Z := r + 8.
Definition r_esi (r : Z) : Z := r + 12.

(** A table of functions that take the number of arguments and the arguments; NULL is [None].
    An index outside the table is undefined behaviour. *)
Definition syscall_table : Type := list (option (list Z -> K Z)).

(** [syscall[i](...)]: calling a null pointer is undefined behaviour too. *)
Definition call_syscall (tbl : syscall_table) (i : Z) (args : list Z) : K Z :=
  match tbl !! Z.to_nat i with
  | Some (Some f) => f args
  | _ => crash
  end.

(** [intr_reg->p_eax = syscall[intr_reg->p_eax](n, ...)] with [n] arguments. *)
Definition syscall_case (tbl : syscall_table) (r : Z) (n : Z) : K unit :=
  i <- ld32 (r_eax r) ;;
  a1 <- ld32 (r_ecx r) ;;
  a2 <- ld32 (r_edx r) ;;
  a3 <- ld32 (r_edi r) ;;
  a4 <- ld32 (r_esi r) ;;
  v <- call_syscall tbl i (n :: take (Z.to_nat n) [a1; a2; a3; a4]) ;;
  st32 (r_eax r) v.

(** The switch: no case ends with [break], so case [n] runs all the later ones. *)
Fixpoint syscall_cases (tbl : syscall_table) (r : Z) (k : nat) (n : Z) : K unit :=
  match k with
  | O => ret tt
  | S k' => syscall_case tbl r n ;;; syscall_cases tbl r k' (n + 1)
  end.

Definition Syscall_with (tbl : syscall_table) (r : Z) : K unit :=
  i <- ld32 (r_eax r) ;;
  if kSyscallMaxNum <=? i then st32 (r_eax r) (u32 (-1))
  else
    match tbl !! Z.to_nat i with
    | None => crash
    | Some None => ret tt
    | Some (Some _) =>
        n <- ld32 (r_ebx r) ;;
        if n <=? 4 then syscall_cases tbl r (Z.to_nat (5 - n)) n else ret tt
    end.

(** The kernel's table is declared without a size and never filled: one null entry. *)
Definition Syscall (r : Z) : K unit := Syscall_with [None] r.

Definition SyscallInit : K unit :=
  RegIntrHandler kSyscallVec SyscallId ;;; ret tt.

(** ** The memory map *)

Definition MULTIBOOT_BOOTLOADER_MAGIC : Z := 732803074.
Definition MULTIBOOT_MEMORY_AVAILABLE : Z := 1.
Definition MIN_LOWER_MEM : Z := 600.
Definition MIN_UPPER_MEM : Z := 65536.

(** Fields of [multiboot_info_t] and of [multiboot_memory_map_t], of which the kernel reads
    the low words of [addr] and [len]. *)
Definition mi_flags (i : Z) : Z := i.
Definition mi_mem_lower (i : Z) : Z := i + 4.
Definition mi_mem_upper (i : Z) : Z := i + 8.
Definition mi_mmap_length (i : Z) : Z := i + 44.
Definition mi_mmap_addr (i : Z) : Z := i + 48.
Definition mm_size (e : Z) : Z := e.
Definition mm_addr (e : Z) : Z := e + 4.
Definition mm_len (e : Z) : Z := e + 12.
Definition mm_type (e : Z) : Z := e + 20.

Definition GetAvlMem : Z := kAvlMemAddr.

(** The loop over the memory map: from entry [mmap] on, the next free element of the
    table is [t]. *)
Definition mmap_loop (fuel : nat) (info mmap t : Z) : K Z :=
  loop fuel (fun '(mmap, t) =>
    a <- ld32 (mi_mmap_addr info) ;;
    l <- ld32 (mi_mmap_length info) ;;
    if mmap <? u32 (a + l) then
      ty <- ld32 (mm_type mmap) ;;
      t <- (if ty =? MULTIBOOT_MEMORY_AVAILABLE then
              addr <- ld32 (mm_addr mmap) ;; st32 t addr ;;;
              len <- ld32 (mm_len mmap) ;; st32 (t + 4) len ;;;
              ret (t + 8)
            else ret t) ;;
      size <- ld32 (mm_size mmap) ;;
      ret (inl (u32 (mmap + size + 4), t))
    else ret (inr t)) (mmap, t).

Definition scan_mmap (fuel : nat) (info : Z) : K unit :=
  mmap <- ld32 (mi_mmap_addr info) ;;
  t <- mmap_loop fuel info mmap GetAvlMem ;;
  st32 (t + 4) UINT32_MAX.

(** ** Initialisation *)

Section Kernel.
Context `{Platform}.

Definition line (msg : string) : K unit := printf 32 (str msg ++ [10]) [].

Definition MemInit (fuel : nat) : K unit :=
  line "Open paging..." ;;;
  PagingInit fuel ;;;
  line "Reset GDT..." ;;;
  GdtInit ;;;
  line "Initialize direct mapping allocator..." ;;;
  DirectMappingInit fuel.

Definition DriverInit (fuel : nat) : K unit :=
  IdeInit fuel ;;;
  TimerInit ;;;
  KeyboardInit fuel ;;;
  ret tt.

(** The components in the order of init.c. *)
Definition start_components (fuel : nat) : K unit :=
  line "Initialize memory management..." ;;;
  MemInit fuel ;;;
  line "Complete." ;;;
  line "Initialize interrupt..." ;;;
  IntrInit ;;;
  line "Complete." ;;;
  line "Register syscall..." ;;;
  SyscallInit ;;;
  line "Complete." ;;;
  line "Initialize process manager..." ;;;
  ProcManagerInit fuel ;;;
  line "Complete." ;;;
  line "Initialize thread..." ;;;
  ThreadInit fuel ;;;
  line "Complete." ;;;
  line "Initialize driver..." ;;;
  DriverInit fuel ;;;
  line "Complete." ;;;
  intr_enable.

Definition magic_msg : list Z := str "Invalid magic number: 0x%x" ++ [10].

(** The assignment to [video] on line 27 sets the copy of init.c, which nothing reads
    ([video] is declared [static] in console.h): it is not part of the state. The result
    is [None] where the function ends without a return statement. *)
Definition kernel_start (fuel : nat) (magic info : Z) : K (option Z) :=
  cls ;;;
  if negb (u32 magic =? MULTIBOOT_BOOTLOADER_MAGIC) then
    printf 32 magic_msg [u32 magic] ;;;
    ret (Some (-1))
  else
    flags <- ld32 (mi_flags info) ;;
    small <- (if IsBitSet flags 0 then
                lower <- ld32 (mi_mem_lower info) ;;
                if lower <? MIN_LOWER_MEM then ret true
                else upper <- ld32 (mi_mem_upper info) ;; ret (upper <? MIN_UPPER_MEM)
              else ret false) ;;
    if small then ret (Some (-1))
    else
      flags <- ld32 (mi_flags info) ;;
      (if IsBitSet flags 6 then scan_mmap fuel info else ret tt) ;;;
      start_components fuel ;;;
      ret None.

(** ** Interrupts *)

Definition run_handler (fuel : nat) (h : handler_id) (r : Z) : K unit :=
  match h with
  | ExcHandlerId => ExcHandler r
  | PfHandlerId => PfHandler fuel r
  | TimerHandlerId => TimerHandler r
  | KeyboardHandlerId => KeyboardHandler fuel r
  | IdeHandlerId => IdeHandler fuel r
  | SyscallId => Syscall r
  end.

(** [intr_handler] has 256 entries; an index outside is undefined behaviour. *)
Definition IntrHandlerSel (fuel : nat) (r : Z) : K unit :=
  v <- ld32 (intr_reg_vec r) ;;
  if kIdtEntryNum <=? v then crash
  else
    h <- gets (fun s => intr_handler (intr s) !! v) ;;
    match h with
    | Some h => run_handler fuel h r
    | None => ret tt
    end.
End Kernel.

(** ** segment.c: printing the segment registers

    [buf] is declared without a value in the source: the address is an argument. *)

Definition print_seg (fuel : nat) (buf : Z) (label : string) (seg : Z) : K unit :=
  itoa buf 120 seg ;;;
  printf fuel (str label) [] ;;;
  printf_at fuel buf ;;;
  printf fuel (str " ") [].

Definition print_seg_reg (fuel : nat) (buf : Z) : K unit :=
  c <- gets cpu ;;
  print_seg fuel buf "cs=" (u16 (cs c)) ;;;
  print_seg fuel buf "ds=" (u16 (ds c)) ;;;
  print_seg fuel buf "es=" (u16 (es c)) ;;;
  print_seg fuel buf "fs=" (u16 (fs c)) ;;;
  print_seg fuel buf "gs=" (u16 (gs c)) ;;;
  print_seg fuel buf "ss=" (u16 (ss c)) ;;;
  printf fuel [10] [].

(** ** The file system *)

Definition FileTreeInit (fuel : nat) : K unit :=
  b <- ReqBytes fuel (kSecSize * kBlockSize) ;;
  modify (set_kSuperBlock b) ;;;
  sb <- gets kSuperBlock ;;
  IdeRead fuel 1 0 sb 1.
