(* ===== verification/Layout.v ===== *)
(** * The C declarations of the kernel's structures

    A structure that the C code reaches through a pointer is bytes in memory; where its
    members are is decided by the compiler, from the declaration. This file has the
    declarations of the headers as data ([ctype]) and the layout rules of the i386 ABI as
    gcc applies them, executable: [size_of], [align_of] and [find], the position of a member
    given by its path. Everything is in bits, so that bit-fields and plain members are the
    same thing. LayoutSpec compares them with the offsets the other files use. *)

From Stdlib Require Import ZArith Lia ZifyBool.
From stdpp Require Import base numbers gmap strings list.
From S2P Require Import Prelude Memory.

(** How the members of an aggregate are placed: a plain [struct], a [struct] with
    [__attribute__((packed))], a [union]. *)
Inductive placing : Type := Natural | Packed | Overlay.

#[export] Instance placing_eq_dec : EqDecision placing.
Proof. solve_decision. Defined.

(** Types. A scalar, an integer, an enumeration or a pointer, is given by its size in bytes. *)
Inductive ctype : Type :=
| Scalar (size : Z)
| Agg (k : placing) (ms : members)
with members : Type :=
| MNil
| MField (name : string) (t : ctype) (ms : members)
| MBits (name : string) (size width : Z) (ms : members).

Scheme ctype_mut := Induction for ctype Sort Prop
with members_mut := Induction for members Sort Prop.
Combined Scheme layout_ind from ctype_mut, members_mut.

Notation "'STRUCT' [ x ; .. ; y ]" := (Agg Natural (x .. (y MNil) ..)) (at level 0).
Notation "'PACKED' [ x ; .. ; y ]" := (Agg Packed (x .. (y MNil) ..)) (at level 0).
Notation "'UNION' [ x ; .. ; y ]" := (Agg Overlay (x .. (y MNil) ..)) (at level 0).

(** ** The layout rules *)

Definition round_up (x a : Z) : Z := (x + a - 1) / a * a.

(** Inside structures the i386 ABI aligns to at most 4 bytes, [uint64_t] too. *)
Definition scalar_align (size : Z) : Z := Z.min size 4.

Fixpoint align_of (t : ctype) : Z :=
  match t with
  | Scalar n => scalar_align n
  | Agg Packed _ => 1
  | Agg _ ms => members_align ms
  end
with members_align (ms : members) : Z :=
  match ms with
  | MNil => 1
  | MField _ t ms => Z.max (align_of t) (members_align ms)
  | MBits _ n _ ms => Z.max (scalar_align n) (members_align ms)
  end.

(** The first bit of a member of alignment [al] when [pos] bits are in use. *)
Definition start (k : placing) (al pos : Z) : Z :=
  match k with
  | Natural => round_up pos (8 * al)
  | Packed => round_up pos 8
  | Overlay => 0
  end.

(** The first bit of a bit-field of [w] bits declared with a type of [n] bytes: outside
    packed structures it does not cross a boundary of that type. *)
Definition bits_start (k : placing) (n w pos : Z) : Z :=
  match k with
  | Natural => if pos / (8 * n) =? (pos + w - 1) / (8 * n) then pos else round_up pos (8 * n)
  | Packed => pos
  | Overlay => 0
  end.

Fixpoint size_of (t : ctype) : Z :=
  match t with
  | Scalar n => n
  | Agg k ms => round_up (members_end k ms 0) (8 * align_of t) / 8
  end
with members_end (k : placing) (ms : members) (pos : Z) : Z :=
  match ms with
  | MNil => pos
  | MField _ t ms => members_end k ms (Z.max pos (start k (align_of t) pos + 8 * size_of t))
  | MBits _ n w ms => members_end k ms (Z.max pos (bits_start k n w pos + w))
  end.

(** [find t path]: the first bit and the number of bits of the member [path] names. An
    anonymous member has the empty name. *)
Fixpoint find (t : ctype) (path : list string) : option (Z * Z) :=
  match path, t with
  | [], _ => Some (0, 8 * size_of t)
  | _, Scalar _ => None
  | n :: rest, Agg k ms => find_in k ms 0 n rest
  end
with find_in (k : placing) (ms : members) (pos : Z) (n : string) (rest : list string) : option (Z * Z) :=
  match ms with
  | MNil => None
  | MField m t ms =>
      let o := start k (align_of t) pos in
      let later := find_in k ms (Z.max pos (o + 8 * size_of t)) n rest in
      if bool_decide (m = n) then
        match find t rest with
        | Some (o', w) => Some (o + o', w)
        | None => later
        end
      else later
  | MBits m s w ms =>
      let o := bits_start k s w pos in
      if bool_decide (m = n /\ rest = []) then Some (o, w)
      else find_in k ms (Z.max pos (o + w)) n rest
  end.

(** The value of a member: the bits [find] gives, of the structure at [a]. *)
Definition member (m : gmap Z Z) (t : ctype) (path : list string) (a : Z) : option Z :=
  '(o, w) ← find t path;
  Some (Z.land (Z.shiftr (load (Z.to_nat (size_of t)) m a) o) (Z.ones w)).

(** Declarations the rules are meant for. *)
Fixpoint wf_type (t : ctype) : Prop :=
  match t with
  | Scalar n => n ∈ [1; 2; 4; 8]
  | Agg _ ms => wf_members ms
  end
with wf_members (ms : members) : Prop :=
  match ms with
  | MNil => True
  | MField _ t ms => wf_type t /\ wf_members ms
  | MBits _ n w ms => n ∈ [1; 2; 4] /\ 0 < w <= 8 * n /\ wf_members ms
  end.

(** ** The declarations *)

Notation uint8_t := (Scalar 1).
Notation uint16_t := (Scalar 2).
Notation uint32_t := (Scalar 4).
Notation uint64_t := (Scalar 8).
Notation uintptr_t := (Scalar 4).
Notation unsigned := (Scalar 4).
Notation pointer := (Scalar 4).

(** lib/list.h, lib/queue.h, lib/map.h *)
Definition ListNode_t : ctype := STRUCT [ MField "next" pointer ].
Definition DoublyListNode_t : ctype := STRUCT [ MField "prev" pointer ; MField "next" pointer ].
Definition Queue_t : ctype := STRUCT [ MField "head" pointer ; MField "tail" pointer ].
Definition MapEntry_t : ctype :=
  STRUCT [ MField "key" uint8_t ; MField "value" pointer ; MField "node" ListNode_t ].

(** direct_mapping_allocator.c and process.h each declare a [MemBlock]. *)
Definition MemBlock_t : ctype := STRUCT [ MField "addr" uintptr_t ; MField "node" ListNode_t ].
Definition ProcMemBlock_t : ctype := STRUCT [ MField "addr" uintptr_t ; MField "size" unsigned ].

(** memory_manager.h *)
Definition AvlPhysMem_t : ctype := STRUCT [ MField "addr" uintptr_t ; MField "size" uint32_t ].

(** paging.h *)
Definition Pde_t : ctype :=
  PACKED [ MField "access" uint8_t ; MBits "ignored" 1 4 ; MBits "pt_addr" 4 20 ].
Definition Pte_t : ctype :=
  PACKED [ MBits "access" 2 9 ; MBits "ignored" 1 3 ; MBits "page_addr" 4 20 ].
Definition Cr3_t : ctype :=
  STRUCT [ MBits "access" 1 5 ; MBits "ignored" 1 7 ; MBits "pd_addr" 4 20 ].

(** segment.h *)
Definition SegDescriptor_t : ctype :=
  PACKED [ MField "limit_0_15" uint16_t ; MField "base_addr_0_15" uint16_t ;
           MField "base_addr_16_23" uint8_t ; MField "access" uint8_t ;
           MBits "limit_16_19" 1 4 ; MBits "flags" 1 4 ; MField "base_addr_24_31" uint8_t ].
Definition Gdtr_t : ctype := PACKED [ MField "limit" uint16_t ; MField "base_addr" uint32_t ].

(** idt.h *)
Definition Tss_t : ctype :=
  PACKED [ MField "prev_task_link" uint32_t ; MField "esp0" uint32_t ; MField "ss0" uint32_t ;
           MField "esp1" uint32_t ; MField "ss1" uint32_t ; MField "esp2" uint32_t ;
           MField "ss2" uint32_t ; MField "cr3" uint32_t ; MField "eip" uint32_t ;
           MField "eflags" uint32_t ; MField "eax" uint32_t ; MField "ecx" uint32_t ;
           MField "edx" uint32_t ; MField "ebx" uint32_t ; MField "esp" uint32_t ;
           MField "ebp" uint32_t ; MField "esi" uint32_t ; MField "edi" uint32_t ;
           MField "es" uint32_t ; MField "cs" uint32_t ; MField "ss" uint32_t ;
           MField "ds" uint32_t ; MField "fs" uint32_t ; MField "gs" uint32_t ;
           MField "ldt_seg_sel" uint32_t ; MField "t" uint16_t ; MField "io_map_addr" uint16_t ;
           MField "ssp" uint32_t ].
Definition IntrReg_t : ctype :=
  PACKED [ MField "ds" uint16_t ; MField "es" uint16_t ; MField "fs" uint16_t ;
           MField "gs" uint16_t ; MField "p_edi" uint32_t ; MField "p_esi" uint32_t ;
           MField "p_ebp" uint32_t ; MField "p_esp" uint32_t ; MField "p_ebx" uint32_t ;
           MField "p_edx" uint32_t ; MField "p_ecx" uint32_t ; MField "p_eax" uint32_t ;
           MField "intr_vec_no" uint32_t ; MField "err_code" uint32_t ; MField "eip" uint32_t ;
           MField "cs" uint32_t ; MField "eflags" uint32_t ; MField "esp" uint32_t ;
           MField "ss" uint16_t ].
Definition TaskGateDescriptor_t : ctype :=
  PACKED [ MField "reserved_0_15" uint16_t ; MField "tss_seg_sel" uint16_t ;
           MField "type" uint16_t ; MField "reserved_24_39" uint16_t ].
Definition IntrGateDescriptor_t : ctype :=
  PACKED [ MField "offset_0_15" uint16_t ; MField "seg_sel" uint16_t ;
           MField "type" uint16_t ; MField "offset_16_31" uint16_t ].
Definition TrapGateDescriptor_t : ctype :=
  PACKED [ MField "offset_0_15" uint16_t ; MField "seg_sel" uint16_t ;
           MField "type" uint16_t ; MField "offset_16_31" uint16_t ].
Definition Idtr_t : ctype := PACKED [ MField "limit" uint16_t ; MField "base_addr" uint32_t ].

(** process.h, thread.h *)
Definition Pcb_t : ctype :=
  STRUCT [ MField "pid" unsigned ; MField "page_dir" pointer ; MField "state" unsigned ;
           MField "code" ProcMemBlock_t ; MField "data" ProcMemBlock_t ; MField "father" pointer ;
           MField "left" ListNode_t ; MField "right" ListNode_t ; MField "node" ListNode_t ;
           MField "thread_list" ListNode_t ].
Definition Thread_t : ctype :=
  STRUCT [ MField "tid" unsigned ; MField "stack_addr" uintptr_t ; MField "pcb" pointer ;
           MField "esp" uintptr_t ; MField "node" ListNode_t ; MField "sibling" ListNode_t ].

(** ide.c; [bool] is [uint8_t] (lib/def.h) *)
Definition IdeBlock_t : ctype :=
  STRUCT [ MField "dev_no" uint8_t ; MField "sec_addr" uint32_t ; MField "mem_addr" uintptr_t ;
           MField "op" uint8_t ; MField "sec_num" unsigned ; MField "node" ListNode_t ;
           MField "req_thread" pointer ].

(** file_system/fs.h, file_system/file.h *)
Definition block_list_t : ctype := STRUCT [ MField "block_addr" unsigned ; MField "node" pointer ].
Definition drive_inode_t : ctype :=
  STRUCT [ MField "size" unsigned ; MField "head" pointer ; MField "type" unsigned ].
Definition file_tree_node_t : ctype :=
  STRUCT [ MField "name" pointer ; MField "drive_inode" pointer ; MField "left" ListNode_t ;
           MField "right" ListNode_t ].
Definition dev_inode_t : ctype := Agg Natural MNil.
Definition mem_inode_t : ctype :=
  STRUCT [ MField "inode" (UNION [ MField "file_tree_inode" pointer ; MField "dev_inode" pointer ]) ;
           MField "ref" unsigned ; MField "modified" unsigned ].
Definition file_t : ctype := STRUCT [ MField "inode" pointer ; MField "cur" unsigned ].

(** boot/multiboot.h *)
Definition multiboot_header_t : ctype :=
  STRUCT [ MField "magic" uint32_t ; MField "flags" uint32_t ; MField "checksum" uint32_t ;
           MField "header_addr" uint32_t ; MField "load_addr" uint32_t ;
           MField "load_end_addr" uint32_t ; MField "bss_end_addr" uint32_t ;
           MField "entry_addr" uint32_t ; MField "mode_type" uint32_t ; MField "width" uint32_t ;
           MField "height" uint32_t ; MField "depth" uint32_t ].
Definition multiboot_aout_symbol_table_t : ctype :=
  STRUCT [ MField "tabsize" uint32_t ; MField "strsize" uint32_t ; MField "addr" uint32_t ;
           MField "reserved" uint32_t ].
Definition multiboot_elf_section_header_table_t : ctype :=
  STRUCT [ MField "num" uint32_t ; MField "size" uint32_t ; MField "addr" uint32_t ;
           MField "shndx" uint32_t ].
Definition multiboot_info_t : ctype :=
  STRUCT [ MField "flags" uint32_t ; MField "mem_lower" uint32_t ; MField "mem_upper" uint32_t ;
           MField "boot_device" uint32_t ; MField "cmdline" uint32_t ; MField "mods_count" uint32_t ;
           MField "mods_addr" uint32_t ;
           MField "u" (UNION [ MField "aout_sym" multiboot_aout_symbol_table_t ;
                               MField "elf_sec" multiboot_elf_section_header_table_t ]) ;
           MField "mmap_length" uint32_t ; MField "mmap_addr" uint32_t ;
           MField "drives_length" uint32_t ; MField "drives_addr" uint32_t ;
           MField "config_table" uint32_t ; MField "boot_loader_name" uint32_t ;
           MField "apm_table" uint32_t ; MField "vbe_control_info" uint32_t ;
           MField "vbe_mode_info" uint32_t ; MField "vbe_mode" uint16_t ;
           MField "vbe_interface_seg" uint16_t ; MField "vbe_interface_off" uint16_t ;
           MField "vbe_interface_len" uint16_t ; MField "framebuffer_addr" uint64_t ;
           MField "framebuffer_pitch" uint32_t ; MField "framebuffer_width" uint32_t ;
           MField "framebuffer_height" uint32_t ; MField "framebuffer_bpp" uint8_t ;
           MField "framebuffer_type" uint8_t ;
           MField "" (UNION [
             MField "" (STRUCT [ MField "framebuffer_palette_addr" uint32_t ;
                                 MField "framebuffer_palette_num_colors" uint16_t ]) ;
             MField "" (STRUCT [ MField "framebuffer_red_field_position" uint8_t ;
                                 MField "framebuffer_red_mask_size" uint8_t ;
                                 MField "framebuffer_green_field_position" uint8_t ;
                                 MField "framebuffer_green_mask_size" uint8_t ;
                                 MField "framebuffer_blue_field_position" uint8_t ;
                                 MField "framebuffer_blue_mask_size" uint8_t ]) ]) ].
Definition multiboot_color_t : ctype :=
  STRUCT [ MField "red" uint8_t ; MField "green" uint8_t ; MField "blue" uint8_t ].
Definition multiboot_mmap_entry_t : ctype :=
  PACKED [ MField "size" uint32_t ; MField "addr" uint64_t ; MField "len" uint64_t ;
           MField "type" uint32_t ].
Definition multiboot_mod_list_t : ctype :=
  STRUCT [ MField "mod_start" uint32_t ; MField "mod_end" uint32_t ; MField "cmdline" uint32_t ;
           MField "pad" uint32_t ].
Definition multiboot_apm_info_t : ctype :=
  STRUCT [ MField "version" uint16_t ; MField "cseg" uint16_t ; MField "offset" uint32_t ;
           MField "cseg_16" uint16_t ; MField "dseg" uint16_t ; MField "flags" uint16_t ;
           MField "cseg_len" uint16_t ; MField "cseg_16_len" uint16_t ; MField "dseg_len" uint16_t ].

(** The structures of the kernel, all of them. *)
Definition declarations : list (string * ctype) :=
  [("ListNode", ListNode_t); ("DoublyListNode", DoublyListNode_t); ("Queue", Queue_t);
   ("MapEntry", MapEntry_t); ("MemBlock", MemBlock_t); ("MemBlock", ProcMemBlock_t);
   ("AvlPhysMem", AvlPhysMem_t); ("Pde", Pde_t); ("Pte", Pte_t); ("Cr3", Cr3_t);
   ("SegDescriptor", SegDescriptor_t); ("Gdtr", Gdtr_t); ("Tss", Tss_t); ("IntrReg", IntrReg_t);
   ("TaskGateDescriptor", TaskGateDescriptor_t); ("IntrGateDescriptor", IntrGateDescriptor_t);
   ("TrapGateDescriptor", TrapGateDescriptor_t); ("Idtr", Idtr_t); ("Pcb", Pcb_t);
   ("Thread", Thread_t); ("IdeBlock", IdeBlock_t); ("block_list", block_list_t);
   ("drive_inode", drive_inode_t); ("file_tree_node", file_tree_node_t);
   ("dev_inode", dev_inode_t); ("mem_inode", mem_inode_t); ("file", file_t);
   ("multiboot_header", multiboot_header_t);
   ("multiboot_aout_symbol_table", multiboot_aout_symbol_table_t);
   ("multiboot_elf_section_header_table", multiboot_elf_section_header_table_t);
   ("multiboot_info", multiboot_info_t); ("multiboot_color", multiboot_color_t);
   ("multiboot_mmap_entry", multiboot_mmap_entry_t); ("multiboot_mod_list", multiboot_mod_list_t);
   ("multiboot_apm_info", multiboot_apm_info_t)].

(** ** The rules are sound *)

Lemma round_up_ge x a : 0 < a -> x <= round_up x a.
Proof. intros. unfold round_up. pose proof (Z.div_mod (x + a - 1) a). pose proof (Z.mod_pos_bound (x + a - 1) a). lia. Qed.

Lemma round_up_divide x a : Z.divide a (round_up x a).
Proof. exists ((x + a - 1) / a). reflexivity. Qed.

Lemma scalar_align_pos n : n ∈ [1; 2; 4; 8] -> 1 <= scalar_align n.
Proof. unfold scalar_align. rewrite !elem_of_cons, elem_of_nil. lia. Qed.

Lemma align_pos :
  (forall t, wf_type t -> 1 <= align_of t) /\ (forall ms, wf_members ms -> 1 <= members_align ms).
Proof.
  apply layout_ind; cbn.
  - exact scalar_align_pos.
  - intros [] ms IH Hw; [auto|lia|auto].
  - lia.
  - intros _ t IHt ms IH [Ht Hms]. specialize (IHt Ht). specialize (IH Hms). lia.
  - intros _ n w ms IH (Hn & Hw & Hms). specialize (IH Hms). lia.
Qed.

Lemma start_ge k al pos : 1 <= al -> k <> Overlay -> pos <= start k al pos.
Proof. intros. destruct k; cbn; [apply round_up_ge; lia..|done]. Qed.

Lemma start_nonneg k al pos : 1 <= al -> 0 <= pos -> 0 <= start k al pos.
Proof. intros. destruct (decide (k = Overlay)) as [->|]; [done|].
  pose proof (start_ge k al pos ltac:(lia) ltac:(done)). lia. Qed.

Lemma bits_start_ge k n w pos : 1 <= n -> k <> Overlay -> pos <= bits_start k n w pos.
Proof.
  intros. destruct k; cbn; [|lia|done]. destruct (_ =? _); [lia|]. apply round_up_ge. lia.
Qed.

Lemma bits_start_nonneg k n w pos : 1 <= n -> 0 <= pos -> 0 <= bits_start k n w pos.
Proof. intros. destruct (decide (k = Overlay)) as [->|]; [done|].
  pose proof (bits_start_ge k n w pos ltac:(lia) ltac:(done)). lia. Qed.

Lemma members_end_ge k ms pos : pos <= members_end k ms pos.
Proof.
  revert pos. induction ms as [|m t ms IH|m n w ms IH]; intros pos; cbn [members_end]; [lia|..].
  - etrans; [|apply IH]. lia.
  - etrans; [|apply IH]. lia.
Qed.

(** The size of an aggregate in bits is the end of its last member, rounded up. *)
Lemma size_of_agg k ms :
  wf_members ms ->
  members_end k ms 0 <= 8 * size_of (Agg k ms) /\ Z.divide (align_of (Agg k ms)) (size_of (Agg k ms)).
Proof.
  intros Hw. change (size_of (Agg k ms)) with (round_up (members_end k ms 0) (8 * align_of (Agg k ms)) / 8).
  pose proof (proj1 align_pos (Agg k ms) Hw) as Ha. set (al := align_of _) in *.
  pose proof (round_up_ge (members_end k ms 0) (8 * al) ltac:(lia)) as Hge.
  destruct (round_up_divide (members_end k ms 0) (8 * al)) as [q Hq]. rewrite Hq in Hge |- *.
  replace (q * (8 * al) / 8) with (q * al) by (replace (q * (8 * al)) with (q * al * 8) by lia; by rewrite Z.div_mul).
  split; [lia|]. exists q. lia.
Qed.

Lemma size_nonneg t : wf_type t -> 0 <= size_of t.
Proof.
  destruct t as [n|k ms]; cbn [wf_type]; intros Hw.
  - rewrite !elem_of_cons, elem_of_nil in Hw. cbn. lia.
  - pose proof (proj1 (size_of_agg k ms Hw)). pose proof (members_end_ge k ms 0). lia.
Qed.

(** What [find] gives lies inside the type, and behind the members that come before. *)
Lemma find_within :
  (forall t, wf_type t -> forall path o w, find t path = Some (o, w) ->
     0 <= o /\ 0 <= w /\ o + w <= 8 * size_of t) /\
  (forall ms, wf_members ms -> forall k pos n rest o w, 0 <= pos -> find_in k ms pos n rest = Some (o, w) ->
     0 <= o /\ 0 <= w /\ (k <> Overlay -> pos <= o) /\ o + w <= members_end k ms pos).
Proof.
  apply layout_ind.
  - intros n Hn [|? ?] o w E; cbn in E; [|done]. injection E as <- <-.
    cbn [wf_type] in Hn. rewrite !elem_of_cons, elem_of_nil in Hn. cbn. lia.
  - intros k ms IH Hw [|n rest] o w E.
    + change (Some (0, 8 * size_of (Agg k ms)) = Some (o, w)) in E.
      pose proof (size_nonneg (Agg k ms) Hw). revert E. generalize dependent (size_of (Agg k ms)).
      intros z Hz [= <- <-]. lia.
    + cbn [find] in E. apply (IH Hw) in E; [|lia]. pose proof (proj1 (size_of_agg k ms Hw)). lia.
  - done.
  - intros m t IHt ms IH [Ht Hms] k pos n rest o w Hpos E.
    pose proof (proj1 align_pos t Ht) as Ha. pose proof (size_nonneg t Ht) as Hs.
    pose proof (start_nonneg k (align_of t) pos Ha Hpos) as H0.
    pose proof (start_ge k (align_of t) pos Ha) as H1.
    cbn [find_in members_end] in E |- *. set (p' := Z.max pos _) in *.
    assert (Hlater : find_in k ms p' n rest = Some (o, w) ->
      0 <= o /\ 0 <= w /\ (k <> Overlay -> pos <= o) /\ o + w <= members_end k ms p').
    { intros E'. destruct (IH Hms k p' n rest o w ltac:(lia) E') as (?&?&?&?).
      repeat split; try lia. intros ?. etrans; [|by apply H3]. lia. }
    case_bool_decide; [|auto]. destruct (find t rest) as [[o' w']|] eqn:Ef; [|auto].
    injection E as <- <-. destruct (IHt Ht rest o' w' Ef) as (?&?&?).
    pose proof (members_end_ge k ms p'). repeat split; try lia. intros Hk. specialize (H1 Hk). lia.
  - intros m s w0 ms IH (Hs & Hw0 & Hms) k pos n rest o w Hpos E.
    assert (Hs1 : 1 <= s) by (rewrite !elem_of_cons, elem_of_nil in Hs; lia).
    pose proof (bits_start_nonneg k s w0 pos Hs1 Hpos) as H0.
    pose proof (bits_start_ge k s w0 pos Hs1) as H1.
    cbn [find_in members_end] in E |- *. set (p' := Z.max pos _) in *.
    case_bool_decide.
    + injection E as <- <-. pose proof (members_end_ge k ms p'). repeat split; try lia. auto.
    + destruct (IH Hms k p' n rest o w ltac:(lia) E) as (?&?&Hk&?).
      repeat split; try lia. intros ?. etrans; [|by apply Hk]. lia.
Qed.

(** Two members with different names, at whatever depth below them, share no bit. *)
Lemma find_in_disjoint k ms :
  wf_members ms -> k <> Overlay ->
  forall pos n1 r1 o1 w1 n2 r2 o2 w2, 0 <= pos -> n1 <> n2 ->
  find_in k ms pos n1 r1 = Some (o1, w1) -> find_in k ms pos n2 r2 = Some (o2, w2) ->
  o1 + w1 <= o2 \/ o2 + w2 <= o1.
Proof.
  intros Hw Hk. induction ms as [|m t ms IH|m s w0 ms IH]; intros pos n1 r1 o1 w1 n2 r2 o2 w2 Hpos Hne E1 E2; [done|..].
  - destruct Hw as [Ht Hms]. specialize (IH Hms).
    pose proof (start_nonneg k (align_of t) pos (proj1 align_pos t Ht) Hpos).
    pose proof (size_nonneg t Ht).
    assert (Hcase : forall n r n' r' o w o' w',
      n = m -> n' <> m ->
      find_in k (MField m t ms) pos n r = Some (o, w) -> find_in k (MField m t ms) pos n' r' = Some (o', w') ->
      o + w <= o' \/ (exists p, 0 <= p /\ find_in k ms p n r = Some (o, w) /\ find_in k ms p n' r' = Some (o', w'))).
    { intros n r n' r' o w o' w' -> Hn' E E'. cbn [find_in] in E, E'.
      rewrite bool_decide_true in E by done. rewrite bool_decide_false in E' by done.
      destruct (find t r) as [[x y]|] eqn:Ef; [left|right; eexists; split; [|eauto]; lia].
      injection E as <- <-. destruct (proj1 find_within t Ht r x y Ef) as (?&?&?).
      apply (proj2 find_within ms Hms) in E' as (?&?&Hge&?); [|lia]. specialize (Hge Hk). lia. }
    destruct (decide (n1 = m)) as [->|]; [|destruct (decide (n2 = m)) as [->|]].
    + destruct (Hcase m r1 n2 r2 o1 w1 o2 w2) as [?|(p&?&?&?)]; eauto.
    + destruct (Hcase m r2 n1 r1 o2 w2 o1 w1) as [?|(p&?&?&?)]; eauto.
    + cbn [find_in] in E1, E2. rewrite bool_decide_false in E1, E2 by done.
      eapply IH; [|exact Hne|exact E1|exact E2]. lia.
  - destruct Hw as (Hs & Hw0 & Hms). specialize (IH Hms).
    assert (Hs1 : 1 <= s) by (rewrite !elem_of_cons, elem_of_nil in Hs; lia).
    pose proof (bits_start_nonneg k s w0 pos Hs1 Hpos).
    cbn [find_in] in E1, E2.
    destruct (bool_decide_reflect (m = n1 /\ r1 = [])) as [C1|C1], (bool_decide_reflect (m = n2 /\ r2 = [])) as [C2|C2].
    + destruct C1 as [-> _], C2 as [-> _]. done.
    + injection E1 as <- <-. apply (proj2 find_within ms Hms) in E2 as (?&?&Hge&?); [|lia]. specialize (Hge Hk). lia.
    + injection E2 as <- <-. apply (proj2 find_within ms Hms) in E1 as (?&?&Hge&?); [|lia]. specialize (Hge Hk). lia.
    + eapply IH; [|exact Hne|exact E1|exact E2]. lia.
Qed.

(** Whatever the nesting of structures, unions and bit-fields, the layout of a well-formed
    declaration is sound. *)
Lemma layout_sound k ms :
  wf_members ms ->
  Z.divide (align_of (Agg k ms)) (size_of (Agg k ms)) /\
  (forall path o w, find (Agg k ms) path = Some (o, w) -> 0 <= o /\ 0 <= w /\ o + w <= 8 * size_of (Agg k ms)) /\
  (k <> Overlay -> forall n1 r1 o1 w1 n2 r2 o2 w2, n1 <> n2 ->
     find (Agg k ms) (n1 :: r1) = Some (o1, w1) -> find (Agg k ms) (n2 :: r2) = Some (o2, w2) ->
     o1 + w1 <= o2 \/ o2 + w2 <= o1).
Proof.
  intros Hw. split; [exact (proj2 (size_of_agg k ms Hw))|].
  split; [exact (proj1 find_within (Agg k ms) Hw)|].
  intros Hk n1 r1 o1 w1 n2 r2 o2 w2 Hne E1 E2.
  exact (find_in_disjoint k ms Hw Hk 0 n1 r1 o1 w1 n2 r2 o2 w2 ltac:(lia) Hne E1 E2).
Qed.

Lemma declarations_wf : Forall (fun '(_, t) => wf_type t) declarations.
Proof.
  unfold declarations. repeat (apply List.Forall_cons; [|]); try apply List.Forall_nil;
    cbv -[elem_of Z.lt Z.le]; repeat split; rewrite ?elem_of_cons; lia.
Qed.

(** The layout of every structure of the kernel is sound: a member, at any depth, lies
    inside its structure; the size of a structure is a multiple of its alignment, so the elements of
    an array of them stay aligned; and in a [struct], packed or not, members with different
    names, and everything below them, share no bit. *)
Lemma declared_layouts_sound :
  Forall (fun '(_, t) =>
    Z.divide (align_of t) (size_of t) /\
    (forall path o w, find t path = Some (o, w) -> 0 <= o /\ 0 <= w /\ o + w <= 8 * size_of t) /\
    (match t with Agg Overlay _ => False | _ => True end ->
     forall n1 r1 o1 w1 n2 r2 o2 w2, n1 <> n2 ->
     find t (n1 :: r1) = Some (o1, w1) -> find t (n2 :: r2) = Some (o2, w2) -> o1 + w1 <= o2 \/ o2 + w2 <= o1))
    declarations.
Proof.
  assert (Hs : Forall (fun '(_, t) => match t with Agg _ _ => True | Scalar _ => False end) declarations)
    by (unfold declarations; repeat constructor).
  pose proof declarations_wf as Hw. rewrite Forall_forall in Hs, Hw |- *. intros [n t] Hin.
  specialize (Hs _ Hin). specialize (Hw _ Hin). cbn in Hs, Hw. destruct t as [z|k ms]; [done|].
  destruct (layout_sound k ms Hw) as (H1 & H2 & H3). split; [exact H1|]. split; [exact H2|].
  intros Hk. apply H3. intros ->. exact Hk.
Qed.

(** [Cr3], without [packed], takes two words, its [pd_addr] in the second one; the register has
    it in bits 12 to 31. *)
Lemma cr3_layout : size_of Cr3_t = 8 /\ find Cr3_t ["pd_addr"] = Some (32, 20).
Proof. vm_compute. done. Qed.
