(* ===== verification/LayoutSpec.v ===== *)
(** * The declarations and the model agree

    The other files reach the members of a structure by offsets: through an accessor of their
    own, through a number added to the address, or, for a node of a list, a number subtracted
    from it ([GET_STRUCT]). Here the accessors ([word_accessors], [byte_accessors]), the numbers
    ([literal_words], [literal_bytes], [list_nodes]), the bit-fields and the sizes are compared with the
    declarations in Layout: reading through them is reading the member the C source names. This
    is a check of the model, not a property of the kernel. *)

From Stdlib Require Import ZArith Lia ZifyBool.
From stdpp Require Import base numbers gmap strings list.
From S2P Require Import Prelude Memory Machine Lists Allocator Queues Segment Interrupt Paging.
From S2P Require Import Thread Process Ide Kernel Layout.

(** ** Members as bytes of memory *)

Lemma load_mod n m a k :
  (k <= n)%nat -> load n m a mod 2 ^ (8 * Z.of_nat k) = load k m a.
Proof.
  revert a n; induction k as [|k IH]; intros a n Hk; [cbn; apply Z.mod_1_r|].
  destruct n as [|n]; [lia|]. cbn [load].
  replace (8 * Z.of_nat (S k)) with (8 + 8 * Z.of_nat k) by lia.
  rewrite Z.pow_add_r by lia. change (2 ^ 8) with 256.
  pose proof (load8_range m a). pose proof (IH (a + 1) n ltac:(lia)) as E.
  rewrite Z.rem_mul_r by (lia || (apply Z.pow_nonzero; lia)).
  assert (E1 : (load8 m a + 256 * load n m (a + 1)) mod 256 = load8 m a)
    by (Z.to_euclidean_division_equations; lia).
  assert (E2 : (load8 m a + 256 * load n m (a + 1)) / 256 = load n m (a + 1))
    by (Z.to_euclidean_division_equations; lia).
  by rewrite E1, E2, E.
Qed.

Lemma load_div n m a o :
  (o <= n)%nat -> load n m a / 2 ^ (8 * Z.of_nat o) = load (n - o) m (a + Z.of_nat o).
Proof.
  revert a n; induction o as [|o IH]; intros a n Ho.
  - change (2 ^ (8 * Z.of_nat 0)) with 1. by rewrite Z.div_1_r, Nat.sub_0_r, Z.add_0_r.
  - destruct n as [|n]; [lia|]. cbn [load Nat.sub].
    replace (8 * Z.of_nat (S o)) with (8 + 8 * Z.of_nat o) by lia.
    rewrite Z.pow_add_r, <- Z.div_div by (lia || (apply Z.pow_nonzero; lia) || (apply Z.pow_pos_nonneg; lia)).
    change (2 ^ 8) with 256. pose proof (load8_range m a).
    assert (E : (load8 m a + 256 * load n m (a + 1)) / 256 = load n m (a + 1))
      by (Z.to_euclidean_division_equations; lia).
    rewrite E, IH by lia. f_equal. lia.
Qed.

Lemma u32_succ a b : u32 a = u32 b -> u32 (a + 1) = u32 (b + 1).
Proof. unfold u32. intros E. rewrite (Z.add_mod a), (Z.add_mod b), E by lia. done. Qed.

(** Addresses are taken modulo 2^32. *)
Lemma load_cong n m a b : u32 a = u32 b -> load n m a = load n m b.
Proof.
  revert a b; induction n as [|n IH]; intros a b E; [done|]. cbn [load].
  rewrite (IH (a + 1) (b + 1)) by (by apply u32_succ).
  unfold load8. rewrite <- (phys_u32 a), <- (phys_u32 b), E. done.
Qed.

Lemma member_bits m t path a o w :
  find t path = Some (o, w) -> 0 <= o -> 0 <= w ->
  member m t path a = Some (load (Z.to_nat (size_of t)) m a / 2 ^ o mod 2 ^ w).
Proof. intros E ? ?. unfold member. rewrite E. cbn. by rewrite Z.land_ones, Z.shiftr_div_pow2. Qed.

(** A member of [k] whole bytes at byte [o] is read with a [k]-byte load. *)
Lemma member_bytes m t path a o k :
  find t path = Some (8 * Z.of_nat o, 8 * Z.of_nat k) -> Z.of_nat (o + k) <= size_of t ->
  member m t path a = Some (load k m (a + Z.of_nat o)).
Proof.
  intros E Hs. erewrite member_bits by (exact E || lia).
  rewrite load_div, load_mod by lia. done.
Qed.

(** ... through any accessor that adds [o] to the address of the structure. *)
Lemma reads_at k o f m t path a :
  find t path = Some (8 * Z.of_nat o, 8 * Z.of_nat k) -> Z.of_nat (o + k) <= size_of t ->
  u32 (f a) = u32 (a + Z.of_nat o) ->
  member m t path a = Some (load k m (f a)).
Proof. intros E Hs Hf. rewrite (member_bytes _ _ _ _ o k E Hs). f_equal. by apply load_cong. Qed.

(** ** The accessors *)

(** The 4-byte members the kernel uses, each with the function that gives its address. *)
Definition word_accessors : list (ctype * list string * (Z -> Z)) :=
  [(Thread_t, ["stack_addr"], t_stack_addr); (Thread_t, ["pcb"], t_pcb); (Thread_t, ["esp"], t_esp);
   (Thread_t, ["node"; "next"], t_node); (Thread_t, ["sibling"; "next"], t_sibling);
   (Pcb_t, ["page_dir"], p_page_dir); (Pcb_t, ["state"], p_state);
   (Pcb_t, ["code"; "addr"], p_code_addr); (Pcb_t, ["code"; "size"], p_code_size);
   (Pcb_t, ["data"; "addr"], p_data_addr); (Pcb_t, ["data"; "size"], p_data_size);
   (Pcb_t, ["father"], p_father); (Pcb_t, ["left"; "next"], p_left); (Pcb_t, ["right"; "next"], p_right);
   (Pcb_t, ["node"; "next"], p_node); (Pcb_t, ["thread_list"; "next"], p_thread_list);
   (IdeBlock_t, ["sec_addr"], b_sec_addr); (IdeBlock_t, ["mem_addr"], b_mem_addr);
   (IdeBlock_t, ["sec_num"], b_sec_num); (IdeBlock_t, ["node"; "next"], b_node);
   (IdeBlock_t, ["req_thread"], b_req_thread);
   (MemBlock_t, ["node"; "next"], node_of);
   (IntrReg_t, ["intr_vec_no"], intr_reg_vec); (IntrReg_t, ["err_code"], intr_reg_err);
   (IntrReg_t, ["p_eax"], intr_reg_eax);
   (IntrReg_t, ["p_eax"], r_eax); (IntrReg_t, ["p_ebx"], r_ebx); (IntrReg_t, ["p_ecx"], r_ecx);
   (IntrReg_t, ["p_edx"], r_edx); (IntrReg_t, ["p_edi"], r_edi); (IntrReg_t, ["p_esi"], r_esi);
   (multiboot_info_t, ["flags"], mi_flags); (multiboot_info_t, ["mem_lower"], mi_mem_lower);
   (multiboot_info_t, ["mem_upper"], mi_mem_upper); (multiboot_info_t, ["mmap_length"], mi_mmap_length);
   (multiboot_info_t, ["mmap_addr"], mi_mmap_addr);
   (multiboot_mmap_entry_t, ["size"], mm_size); (multiboot_mmap_entry_t, ["type"], mm_type)].

(** The 1-byte members. *)
Definition byte_accessors : list (ctype * list string * (Z -> Z)) :=
  [(IdeBlock_t, ["dev_no"], b_dev_no); (IdeBlock_t, ["op"], b_op)].

(** The 4-byte members that Lists, Queues, Allocator, Paging, Interrupt, Thread and Process reach
    by a number. *)
Definition literal_words : list (ctype * list string * Z) :=
  [(ListNode_t, ["next"], 0); (DoublyListNode_t, ["prev"], 0); (DoublyListNode_t, ["next"], 4);
   (Queue_t, ["head"], 0); (Queue_t, ["tail"], 4);
   (MapEntry_t, ["value"], 4); (MapEntry_t, ["node"; "next"], 8);
   (MemBlock_t, ["addr"], 0); (MemBlock_t, ["node"; "next"], 4);
   (AvlPhysMem_t, ["addr"], 0); (AvlPhysMem_t, ["size"], 4);
   (Tss_t, ["esp0"], 4); (Tss_t, ["ss0"], 8);
   (Thread_t, ["tid"], 0); (Pcb_t, ["pid"], 0)].

Definition literal_bytes : list (ctype * list string * Z) := [(MapEntry_t, ["key"], 0)].

(** The nodes from which [GET_STRUCT] finds the structure, with what it subtracts. *)
Definition list_nodes : list (ctype * string * Z) :=
  [(MemBlock_t, "node", 4); (MapEntry_t, "node", 8); (Thread_t, "node", 16); (Thread_t, "sibling", 20);
   (Pcb_t, "node", 40); (Pcb_t, "right", 36); (IdeBlock_t, "node", 20)].

(** The sizes the kernel allocates or steps by. *)
Definition sizes : list (ctype * Z) :=
  [(Thread_t, sizeof_Thread); (Pcb_t, sizeof_Pcb); (IdeBlock_t, sizeof_IdeBlock); (MemBlock_t, 8);
   (AvlPhysMem_t, 8); (Queue_t, 8); (ListNode_t, 4); (DoublyListNode_t, 8); (SegDescriptor_t, 8);
   (IntrGateDescriptor_t, 8); (Pde_t, 4); (Pte_t, 4); (multiboot_mmap_entry_t, 24)].

Ltac member_offset t path :=
  let o := eval vm_compute in (match find t path with Some (x, _) => Z.to_nat (x / 8) | None => 0%nat end) in o.

(** Solves [member m t path a = Some (load k m (f a))]. *)
Ltac solve_reads k :=
  intros m a;
  lazymatch goal with
  | |- member _ ?t ?path _ = Some (_ _ (?f _)) =>
      let o := member_offset t path in
      apply (reads_at k o f); [reflexivity|vm_compute; congruence|try unfold f]
  end;
  cbn [Z.of_nat]; rewrite ?Z.add_0_r, ?u32_idem; reflexivity.

Lemma words_agree :
  Forall (fun '(t, path, f) => forall m a, member m t path a = Some (load32 m (f a))) word_accessors.
Proof. unfold word_accessors. repeat (apply List.Forall_cons; [solve_reads 4%nat|]). apply List.Forall_nil. Qed.

Lemma bytes_agree :
  Forall (fun '(t, path, f) => forall m a, member m t path a = Some (load8 m (f a))) byte_accessors.
Proof.
  assert (E : forall m a, load8 m a = load 1 m a) by (intros; cbn [load]; lia).
  unfold byte_accessors. repeat (apply List.Forall_cons; [intros m a; rewrite E; revert m a; solve_reads 1%nat|]).
  apply List.Forall_nil.
Qed.

Lemma literals_agree :
  Forall (fun '(t, path, o) => forall m a, member m t path a = Some (load32 m (a + o))) literal_words /\
  Forall (fun '(t, path, o) => forall m a, member m t path a = Some (load8 m (a + o))) literal_bytes.
Proof.
  assert (E : forall m a, load8 m a = load 1 m a) by (intros; cbn [load]; lia). split.
  - unfold literal_words. repeat (apply List.Forall_cons;
      [intros m a; lazymatch goal with |- member _ ?t ?path _ = Some (_ _ (_ + ?o)) =>
         apply (member_bytes m t path a (Z.to_nat o) 4); [reflexivity|vm_compute; congruence] end|]).
    apply List.Forall_nil.
  - unfold literal_bytes. apply List.Forall_cons; [|apply List.Forall_nil]. intros m a. rewrite E.
    apply (member_bytes m _ _ a 0 1); [reflexivity|vm_compute; congruence].
Qed.

(** A 16-bit or 8-bit member at byte [o]. *)
Lemma member_u16 m t path a o :
  find t path = Some (8 * Z.of_nat o, 16) -> Z.of_nat (o + 2) <= size_of t ->
  member m t path a = Some (load16 m (a + Z.of_nat o)).
Proof. intros. by apply (member_bytes _ _ _ _ o 2). Qed.

Lemma member_u8 m t path a o :
  find t path = Some (8 * Z.of_nat o, 8) -> Z.of_nat (o + 1) <= size_of t ->
  member m t path a = Some (load8 m (a + Z.of_nat o)).
Proof.
  intros. rewrite (member_bytes _ _ _ _ o 1) by done. f_equal. cbn [load]. lia.
Qed.

(** The two nibbles of byte 6 of a segment descriptor. *)
Lemma descriptor_nibbles m a :
  member m SegDescriptor_t ["limit_16_19"] a = Some (load8 m (a + 6) mod 16) /\
  member m SegDescriptor_t ["flags"] a = Some (load8 m (a + 6) / 16).
Proof.
  pose proof (load8_range m (a + 6)) as H6. pose proof (load8_range m (a + 6 + 1)) as H7.
  assert (E : load 8 m a / 2 ^ 48 = load8 m (a + 6) + 256 * load8 m (a + 6 + 1)).
  { change 48 with (8 * Z.of_nat 6). rewrite load_div by lia. cbn [Nat.sub load]. change (Z.of_nat 6) with 6. lia. }
  split.
  - rewrite (member_bits _ _ _ _ 48 4) by (reflexivity || lia). change (Z.to_nat _) with 8%nat.
    rewrite E. f_equal. change (2 ^ 4) with 16. Z.to_euclidean_division_equations. lia.
  - rewrite (member_bits _ _ _ _ 52 4) by (reflexivity || lia). change (Z.to_nat _) with 8%nat.
    change (2 ^ 52) with (2 ^ 48 * 2 ^ 4). rewrite <- Z.div_div, E by lia. f_equal.
    change (2 ^ 4) with 16. Z.to_euclidean_division_equations. lia.
Qed.

(** What the descriptor decoders of Segment read, member by member. *)
Lemma descriptor_agrees m a :
  exists b0 b1 b2 l0 l1,
    member m SegDescriptor_t ["base_addr_0_15"] a = Some b0 /\
    member m SegDescriptor_t ["base_addr_16_23"] a = Some b1 /\
    member m SegDescriptor_t ["base_addr_24_31"] a = Some b2 /\
    member m SegDescriptor_t ["limit_0_15"] a = Some l0 /\
    member m SegDescriptor_t ["limit_16_19"] a = Some l1 /\
    desc_base m a = b0 + 2 ^ 16 * b1 + 2 ^ 24 * b2 /\ desc_limit m a = l0 + 2 ^ 16 * l1 /\
    member m SegDescriptor_t ["access"] a = Some (desc_access m a) /\
    member m SegDescriptor_t ["flags"] a = Some (desc_flags m a).
Proof.
  destruct (descriptor_nibbles m a) as [E1 E2].
  exists (load16 m (a + 2)), (load8 m (a + 4)), (load8 m (a + 7)), (load16 m (a + 0)), (load8 m (a + 6) mod 16).
  split; [apply (member_u16 _ _ _ _ 2); [reflexivity|vm_compute; congruence]|].
  split; [apply (member_u8 _ _ _ _ 4); [reflexivity|vm_compute; congruence]|].
  split; [apply (member_u8 _ _ _ _ 7); [reflexivity|vm_compute; congruence]|].
  split; [apply (member_u16 _ _ _ _ 0); [reflexivity|vm_compute; congruence]|].
  split; [exact E1|]. split; [reflexivity|].
  split; [unfold desc_limit; by rewrite Z.add_0_r|].
  split; [apply (member_u8 _ _ _ _ 5); [reflexivity|vm_compute; congruence]|exact E2].
Qed.

Lemma gate_agrees m i :
  exists lo hi,
    member m IntrGateDescriptor_t ["offset_0_15"] (gate i) = Some lo /\
    member m IntrGateDescriptor_t ["offset_16_31"] (gate i) = Some hi /\
    gate_offset m i = lo + 2 ^ 16 * hi /\
    member m IntrGateDescriptor_t ["seg_sel"] (gate i) = Some (gate_sel m i) /\
    member m IntrGateDescriptor_t ["type"] (gate i) = Some (gate_type m i).
Proof.
  exists (load16 m (gate i + 0)), (load16 m (gate i + 6)).
  split; [apply (member_u16 _ _ _ _ 0); [reflexivity|vm_compute; congruence]|].
  split; [apply (member_u16 _ _ _ _ 6); [reflexivity|vm_compute; congruence]|].
  split; [reflexivity|].
  split; [apply (member_u16 _ _ _ _ 2)|apply (member_u16 _ _ _ _ 4)]; (reflexivity || (vm_compute; congruence)).
Qed.

(** The low words of the 64-bit members of the memory map, all the kernel reads. *)
Lemma mmap_entry_agrees m a :
  exists addr len,
    member m multiboot_mmap_entry_t ["addr"] a = Some addr /\
    member m multiboot_mmap_entry_t ["len"] a = Some len /\
    load32 m (mm_addr a) = u32 addr /\ load32 m (mm_len a) = u32 len.
Proof.
  exists (load 8 m (a + 4)), (load 8 m (a + 12)).
  split; [apply (member_bytes _ _ _ _ 4 8); [reflexivity|vm_compute; congruence]|].
  split; [apply (member_bytes _ _ _ _ 12 8); [reflexivity|vm_compute; congruence]|].
  split; symmetry; apply (load_mod 8 m _ 4); lia.
Qed.

Definition entry_fields : list (ctype * string * Z * Z) :=
  [(Pde_t, "access", 0, 8); (Pde_t, "ignored", 8, 4); (Pde_t, "pt_addr", 12, 20);
   (Pte_t, "access", 0, 9); (Pte_t, "ignored", 9, 3); (Pte_t, "page_addr", 12, 20)].

Lemma entries_agree :
  Forall (fun '(t, n, lo, w) => forall m a, member m t [n] a = Some (bf_get (load32 m a) lo w)) entry_fields.
Proof. unfold entry_fields. repeat (apply List.Forall_cons; [reflexivity|]). apply List.Forall_nil. Qed.

(** The declarations are well formed, and the offsets of the model are those of the
    declarations: for each member the kernel uses, reading memory through the model's accessor or
    number gives the value of that member, whatever the memory; [GET_STRUCT] subtracts the offset
    of the node; the fields of segment descriptors, interrupt gates and page table entries are the
    declared bit-fields; and the sizes requested from the allocator are the sizes of the
    structures. *)
Lemma accessors_agree :
  Forall (fun '(_, t) => wf_type t) declarations /\
  Forall (fun '(t, path, f) => forall m a, member m t path a = Some (load32 m (f a))) word_accessors /\
  Forall (fun '(t, path, f) => forall m a, member m t path a = Some (load8 m (f a))) byte_accessors /\
  (Forall (fun '(t, path, o) => forall m a, member m t path a = Some (load32 m (a + o))) literal_words /\
   Forall (fun '(t, path, o) => forall m a, member m t path a = Some (load8 m (a + o))) literal_bytes) /\
  Forall (fun '(t, n, o) => fst <$> find t [n] = Some (8 * o)) list_nodes /\
  Forall (fun '(t, n, lo, w) => forall m a, member m t [n] a = Some (bf_get (load32 m a) lo w)) entry_fields /\
  Forall (fun '(t, n) => size_of t = n) sizes /\
  (forall m a, exists b0 b1 b2 l0 l1,
    member m SegDescriptor_t ["base_addr_0_15"] a = Some b0 /\
    member m SegDescriptor_t ["base_addr_16_23"] a = Some b1 /\
    member m SegDescriptor_t ["base_addr_24_31"] a = Some b2 /\
    member m SegDescriptor_t ["limit_0_15"] a = Some l0 /\
    member m SegDescriptor_t ["limit_16_19"] a = Some l1 /\
    desc_base m a = b0 + 2 ^ 16 * b1 + 2 ^ 24 * b2 /\ desc_limit m a = l0 + 2 ^ 16 * l1 /\
    member m SegDescriptor_t ["access"] a = Some (desc_access m a) /\
    member m SegDescriptor_t ["flags"] a = Some (desc_flags m a)) /\
  (forall m i, exists lo hi,
    member m IntrGateDescriptor_t ["offset_0_15"] (gate i) = Some lo /\
    member m IntrGateDescriptor_t ["offset_16_31"] (gate i) = Some hi /\
    gate_offset m i = lo + 2 ^ 16 * hi /\
    member m IntrGateDescriptor_t ["seg_sel"] (gate i) = Some (gate_sel m i) /\
    member m IntrGateDescriptor_t ["type"] (gate i) = Some (gate_type m i)) /\
  (forall m a, exists addr len,
    member m multiboot_mmap_entry_t ["addr"] a = Some addr /\
    member m multiboot_mmap_entry_t ["len"] a = Some len /\
    load32 m (mm_addr a) = u32 addr /\ load32 m (mm_len a) = u32 len).
Proof.
  split; [apply declarations_wf|]. split; [apply words_agree|]. split; [apply bytes_agree|].
  split; [exact literals_agree|]. split; [unfold list_nodes; repeat constructor|]. split; [apply entries_agree|].
  split; [unfold sizes; repeat constructor|].
  split; [apply descriptor_agrees|]. split; [apply gate_agrees|apply mmap_entry_agrees].
Qed.
