(* ===== verification/KernelSpec.v ===== *)
(** * The start of the kernel: the memory map, the checks and the system call dispatcher

    [boot_memory] composes init.c with paging.c: the table of available regions that
    [kernel_start] copies is the one on which [PagingInit] turns paging on. *)

From Stdlib Require Import ZArith Lia ZifyBool.
From stdpp Require Import base numbers gmap strings list.
From S2P Require Import Prelude Memory Machine Bits AsmWrapper Lists Console Paging PagingSpec Kernel.

(** Arithmetic on the fields of the boot loader's structures. *)
Ltac mb_lia :=
  unfold lspan, apart, mi_flags, mi_mem_lower, mi_mem_upper, mi_mmap_length, mi_mmap_addr,
    mm_size, mm_addr, mm_len, mm_type in *; lia.

(** ** The memory map of the boot loader *)

(** The low words of an entry's fields. *)
Record mmap_entry := mk_entry { e_size : Z; e_addr : Z; e_len : Z; e_type : Z }.

Fixpoint mmap_at (m : gmap Z Z) (a : Z) (es : list mmap_entry) : Prop :=
  match es with
  | [] => True
  | e :: es' =>
      load32 m (mm_size a) = e_size e /\ load32 m (mm_addr a) = e_addr e /\ load32 m (mm_len a) = e_len e /\
      load32 m (mm_type a) = e_type e /\ 20 <= e_size e /\ mmap_at m (a + e_size e + 4) es'
  end.

Fixpoint mmap_bytes (es : list mmap_entry) : Z :=
  match es with [] => 0 | e :: es' => e_size e + 4 + mmap_bytes es' end.

(** What the table must hold: the regions of type 1, in order. *)
Fixpoint available (es : list mmap_entry) : list (Z * Z) :=
  match es with
  | [] => []
  | e :: es' =>
      if e_type e =? MULTIBOOT_MEMORY_AVAILABLE then (e_addr e, e_len e) :: available es' else available es'
  end.

(** No region has the size that marks the end of the table. *)
Definition no_mark (r : Z * Z) : Prop := r.2 <> UINT32_MAX.

Lemma mmap_bytes_nonneg m a es : mmap_at m a es -> 0 <= mmap_bytes es.
Proof.
  revert a. induction es as [|e es IH]; intros a H; [done|]. destruct H as (_ & _ & _ & _ & Hs & H).
  specialize (IH _ H). cbn. lia.
Qed.

(** A write outside the map keeps it. *)
Lemma mmap_at_only t n m m' a es :
  low_only t n m m' -> 0 <= a -> a + mmap_bytes es <= KVA -> apart t n a (mmap_bytes es) -> 0 <= n ->
  mmap_at m a es -> mmap_at m' a es.
Proof.
  intros Hl. revert a. induction es as [|e es IH]; intros a Ha Hk Hap Hn H; [done|].
  cbn [mmap_bytes mmap_at] in *. destruct H as (H1 & H2 & H3 & H4 & Hs & H).
  pose proof (mmap_bytes_nonneg _ _ _ H).
  rewrite !(low_load32 _ _ _ _ _ Hl) by (mb_lia).
  split_and!; [done..|]. apply IH; [lia|lia|unfold apart in *; lia|done|done].
Qed.

(** The boot information: the map lies at [a0] and ends at [a1]. *)
Definition info_at (m : gmap Z Z) (info a0 a1 : Z) : Prop :=
  load32 m (mi_mmap_addr info) = a0 /\ load32 m (mi_mmap_length info) = a1 - a0 /\ 0 <= a0 <= a1 /\ a1 <= KVA.

Lemma info_at_only t n m m' info a0 a1 :
  low_only t n m m' -> lspan info 52 -> apart t n info 52 -> 0 <= n ->
  info_at m info a0 a1 -> info_at m' info a0 a1.
Proof.
  intros Hl Hi Ha Hn (H1 & H2 & H3). unfold info_at.
  rewrite !(low_load32 _ _ _ _ _ Hl) by (mb_lia). done.
Qed.

(** One available region copied to element [t]. *)
Lemma copy_region s mmap t :
  lspan t 8 -> lspan (mmap + 12) 4 -> apart t 8 (mmap + 12) 4 ->
  exists m1, runs (addr <- ld32 (mm_addr mmap) ;; st32 t addr ;;;
      len <- ld32 (mm_len mmap) ;; st32 (t + 4) len ;;; ret (t + 8)) s (t + 8) (set_mem m1 s) /\
    low_only t 8 (mem s) m1 /\ load32 m1 t = load32 (mem s) (mm_addr mmap) /\
    load32 m1 (t + 4) = load32 (mem s) (mm_len mmap).
Proof.
  intros Ht Hm Ha. set (v := load32 (mem s) (mm_addr mmap)). set (ma := store32 (mem s) t v).
  assert (low_only t 4 (mem s) ma) as La by (apply low_store32_only; unfold lspan in *; lia).
  set (w := load32 (mem s) (mm_len mmap)). set (mb := store32 ma (t + 4) w).
  assert (low_only (t + 4) 4 ma mb) as Lb by (apply low_store32_only; unfold lspan in *; lia).
  exists mb. split_and!.
  - do 2 (eapply runs_bind; [first [apply runs_ld32|apply runs_st32]|]; cbv beta).
    eapply runs_bind; [apply runs_ld32|]. cbv beta. cbn [mem set_mem]. fold v ma.
    rewrite (low_load32 _ _ _ _ _ La) by (mb_lia). fold w.
    eapply runs_bind; [apply runs_st32|]. reflexivity.
  - eapply low_only_trans; [eapply low_only_weaken; [exact La|lia|lia]|].
    eapply low_only_weaken; [exact Lb|lia|lia].
  - rewrite (low_load32 _ _ _ _ _ Lb) by (mb_lia). unfold ma.
    rewrite low_store32_same by (unfold lspan in *; lia). apply u32_load32.
  - unfold mb. rewrite low_store32_same by (unfold lspan in *; lia). apply u32_load32.
Qed.

(** One turn of the loop. *)
Lemma mmap_step fuel info a0 a1 a t e s :
  info_at (mem s) info a0 a1 -> 0 <= a -> 0 <= e_size e /\ a + e_size e + 4 <= a1 ->
  forall t1 s1 r s2, load32 (mem s1) (mm_size a) = e_size e ->
  runs (if load32 (mem s) (mm_type a) =? MULTIBOOT_MEMORY_AVAILABLE then
          addr <- ld32 (mm_addr a) ;; st32 t addr ;;; len <- ld32 (mm_len a) ;; st32 (t + 4) len ;;; ret (t + 8)
        else ret t) s t1 s1 ->
  runs (mmap_loop fuel info (a + e_size e + 4) t1) s1 r s2 ->
  runs (mmap_loop (S fuel) info a t) s r s2.
Proof.
  intros (E1 & E2 & E3 & E4) Ha Hs t1 s1 r s2 Hsz Hr1 Hr2. eapply loop_step; [|exact Hr2].
  do 2 (eapply runs_bind; [apply runs_ld32|]; cbv beta). rewrite E1, E2, u32_small by lia.
  rewrite (proj2 (Z.ltb_lt _ _)) by lia. eapply runs_bind; [apply runs_ld32|]. cbv beta.
  eapply runs_bind; [exact Hr1|]. cbv beta. eapply runs_bind; [apply runs_ld32|]. cbv beta.
  rewrite Hsz, u32_small by lia. reflexivity.
Qed.

(** The loop, from entry [a] and element [t] on. *)
Lemma mmap_loop_runs info a0 a1 es : forall fuel a t s,
  let n := 8 * Z.of_nat (length (available es)) in
  lspan info 52 -> info_at (mem s) info a0 a1 -> a0 <= a -> a + mmap_bytes es = a1 ->
  mmap_at (mem s) a es -> Forall no_mark (available es) ->
  0 <= t -> t + n + 8 <= KVA -> apart t n info 52 -> apart t n a (mmap_bytes es) -> (length es < fuel)%nat ->
  exists m', runs (mmap_loop fuel info a t) s (t + n) (set_mem m' s) /\ low_only t n (mem s) m' /\
    (forall m2, low_only (t + n) 8 m' m2 -> load32 m2 (t + n + 4) = UINT32_MAX -> regs_at m2 t (available es)).
Proof.
  induction es as [|e es IH]; intros fuel a t s n Hi Hinfo Ha Hend Hat Hnm Ht Hk Hai Ham Hf;
    (destruct fuel as [|fuel]; [cbn in Hf; lia|]); subst n.
  - exists (mem s). cbn [available length] in *. cbn in Hend. rewrite !Z.add_0_r in *. split_and!; [|by intros b k|].
    + rewrite set_mem_mem. apply loop_exit. destruct Hinfo as (E1 & E2 & E3 & E4).
      do 2 (eapply runs_bind; [apply runs_ld32|]; cbv beta). rewrite E1, E2, u32_small by lia.
      destruct (Z.ltb_spec a (a0 + (a1 - a0))); [lia|reflexivity].
    + intros m2 _ E. exact E.
  - cbn [mmap_bytes length] in Hend, Ham, Hf. pose proof Hinfo as (E1 & E2 & E3 & E4).
    cbn [mmap_at] in Hat. destruct Hat as (H1 & H2 & H3 & H4 & Hs & Hat).
    pose proof (mmap_bytes_nonneg _ _ _ Hat) as Hpos.
    pose proof (mmap_step fuel info a0 a1 a t e s Hinfo ltac:(lia) ltac:(lia)) as Hstep.
    cbn [available] in *. rewrite H4 in Hstep. destruct (e_type e =? MULTIBOOT_MEMORY_AVAILABLE).
    + apply Forall_cons in Hnm as [Hm0 Hnm]. cbn [length] in *.
      destruct (copy_region s a t) as (m1 & Hr1 & L1 & F1 & F2); [mb_lia..|].
      destruct (IH fuel (a + e_size e + 4) (t + 8) (set_mem m1 s)) as (m2 & Hr2 & L2 & Hreg);
        [done| |lia|lia| |done|lia|lia|unfold apart in *; lia|unfold apart in *; lia|lia|].
      { eapply info_at_only; [exact L1|done|unfold apart in *; lia|lia|exact Hinfo]. }
      { eapply mmap_at_only; [exact L1|lia|lia|unfold apart in *; lia|lia|exact Hat]. }
      replace (t + 8 + 8 * Z.of_nat (length (available es))) with (t + 8 * Z.of_nat (S (length (available es)))) in * by lia.
      exists m2. split_and!.
      * eapply Hstep; [|exact Hr1|exact Hr2]. cbn [mem set_mem]. rewrite <- H1.
        apply (low_load32 _ _ _ _ _ L1); mb_lia.
      * eapply low_only_trans; eapply low_only_weaken; [exact L1|lia|lia|exact L2|lia|lia].
      * intros m3 L3 E. cbn [regs_at]. cbn [mem set_mem] in L2.
        rewrite !(low_load32 _ _ _ _ _ L3), !(low_load32 _ _ _ _ _ L2) by (mb_lia).
        rewrite F1, F2, H2, H3. split_and!; [done|done|done|]. by apply Hreg.
    + destruct (IH fuel (a + e_size e + 4) t s) as (m2 & Hr2 & L2 & Hreg);
        [done|exact Hinfo|lia|lia|exact Hat|done|lia|lia|done|unfold apart in *; lia|lia|].
      exists m2. split_and!; [|exact L2|exact Hreg]. eapply Hstep; [exact H1|reflexivity|exact Hr2].
Qed.

Lemma scan_mmap_runs fuel info a0 es s :
  let n := 8 * (Z.of_nat (length (available es)) + 1) in
  lspan info 52 -> info_at (mem s) info a0 (a0 + mmap_bytes es) -> mmap_at (mem s) a0 es ->
  Forall no_mark (available es) -> kAvlMemAddr + n <= KVA -> apart kAvlMemAddr n info 52 ->
  apart kAvlMemAddr n a0 (mmap_bytes es) -> (length es < fuel)%nat ->
  exists m', runs (scan_mmap fuel info) s tt (set_mem m' s) /\ low_only kAvlMemAddr n (mem s) m' /\
    regs_at m' kAvlMemAddr (available es).
Proof.
  intros n Hi Hinfo Hat Hnm Hk Hai Ham Hf. subst n. pose proof Hinfo as (E1 & E2 & E3 & E4).
  destruct (mmap_loop_runs info a0 (a0 + mmap_bytes es) es fuel a0 kAvlMemAddr s) as (m1 & Hr & L1 & Hreg);
    [done|done|lia|lia|done|done|unfold kAvlMemAddr; lia|lia|unfold apart in *; lia|unfold apart in *; lia|done|].
  set (t := kAvlMemAddr + 8 * Z.of_nat (length (available es))) in *.
  assert (0 <= t /\ t + 8 <= KVA) as Ht by (unfold t, kAvlMemAddr in *; lia).
  assert (low_only (t + 4) 4 m1 (store32 m1 (t + 4) UINT32_MAX)) as L2 by (apply low_store32_only; unfold lspan; lia).
  exists (store32 m1 (t + 4) UINT32_MAX). split_and!.
  - eapply runs_bind; [apply runs_ld32|]. cbv beta. rewrite E1. eapply runs_bind; [exact Hr|]. reflexivity.
  - eapply low_only_trans; eapply low_only_weaken; [exact L1|lia|lia|exact L2|unfold t; lia|unfold t; lia].
  - apply Hreg; [eapply low_only_weaken; [exact L2|lia|lia]|].
    rewrite low_store32_same by (unfold lspan; lia). reflexivity.
Qed.

(** ** The checks *)

(** [cls] blanks the screen. *)
Lemma cls_runs s :
  exists m', runs cls s tt (set_mem m' (set_con (set_ypos 0 (set_xpos 0 (set_video VIDEO (con s)))) s)) /\
    screen_only (mem s) m' /\ (forall i, 0 <= i < COLUMNS * LINES * 2 -> load8 m' (VIDEO + i) = 0).
Proof.
  set (s0 := set_con (set_video VIDEO (con s)) s).
  destruct (for_inv (fun j s1 => exists m1, s1 = set_mem m1 s0 /\ screen_only (mem s) m1 /\
      (forall i, 0 <= i < j -> load8 m1 (VIDEO + i) = 0)) (Z.to_nat (COLUMNS * LINES * 2)) 0
    (fun i => video <- gets (fun s => video (con s)) ;; st8 (video + i) 0) s0) as (s1 & Hr & m1 & -> & H1 & H2).
  - exists (mem s). split_and!; [by destruct s|done|lia].
  - intros j s1 Hj (m1 & -> & H1 & H2). unfold COLUMNS, LINES in Hj. cbn in Hj. eexists. split; [reflexivity|].
    exists (store8 m1 (VIDEO + j) 0). split_and!; [reflexivity| |].
    + eapply screen_only_trans; [exact H1|]. apply screen_only_store8. unfold COLUMNS, LINES. lia.
    + intros i Hi. destruct (Z.eq_dec i j) as [->|Hne]; [apply load8_store8_same|].
      rewrite load8_store8_ne; [apply H2; lia|]. rewrite !phys_low by (unfold VIDEO; lia). lia.
  - exists m1. split_and!; [|exact H1|exact H2]. eapply runs_bind; [reflexivity|].
    eapply runs_bind; [exact Hr|reflexivity].
Qed.

(** Words outside the screen. *)
Lemma screen_only_load32 m m' a :
  screen_only m m' -> lspan a 4 -> apart a 4 VIDEO (COLUMNS * LINES * 2) -> load32 m' a = load32 m a.
Proof.
  intros Hs Ha Hap. apply (load_ext 4). intros i Hi. apply Hs. unfold lspan in Ha.
  rewrite phys_low by lia. unfold apart in Hap. lia.
Qed.

Section Spec.
Context `{Platform}.

(** From the boot loader's memory map to address translation. The loop of
    [kernel_start] ends for every well-formed map and stores at [0x20000] exactly the
    regions of type 1, in order, followed by the end mark, writing nothing else;
    [PagingInit] then returns on this table and turns paging on with the identity map of
    the first 4 MB and the direct mapping area. *)
Theorem boot_memory fuel info a0 es s :
  let n := 8 * (Z.of_nat (length (available es)) + 1) in
  lspan info 52 -> info_at (mem s) info a0 (a0 + mmap_bytes es) -> mmap_at (mem s) a0 es ->
  Forall no_mark (available es) -> kAvlMemAddr + n <= KVA -> apart kAvlMemAddr n info 52 ->
  apart kAvlMemAddr n a0 (mmap_bytes es) ->
  Forall reg_ok (available es) -> 1 <= last_page (available es) ->
  (Z.to_nat 1048576 < fuel)%nat -> (length es < fuel)%nat ->
  exists m' s', runs (scan_mmap fuel info) s tt (set_mem m' s) /\
    low_only kAvlMemAddr n (mem s) m' /\ regs_at m' kAvlMemAddr (available es) /\
    runs (PagingInit fuel) (set_mem m' s) tt s' /\
    (forall va, 0 <= va < W32 -> translate (mem s') (cr3 (cpu s')) va =
       if (va <? 4194304) || ((KVA <=? va) && (va <? KVA + 67108864)) then Some (phys va) else None).
Proof.
  intros n Hi Hinfo Hat Hnm Hk Hai Ham Hok Hl Hf Hn.
  destruct (scan_mmap_runs fuel info a0 es s Hi Hinfo Hat Hnm Hk Hai Ham Hn) as (m' & Hr & Hlo & Hreg).
  assert (length (available es) <= length es)%nat as Hle.
  { clear. induction es as [|e es IH]; [done|]. cbn. destruct (_ =? _); cbn; lia. }
  destruct (PagingInit_runs fuel (available es) (set_mem m' s) Hreg Hok Hl Hf ltac:(lia))
    as (s' & Hr2 & _ & _ & _ & Ht).
  exists m', s'. split_and!; [exact Hr|exact Hlo|exact Hreg|exact Hr2|exact Ht].
Qed.

(** [kernel_start] refuses to start without a compliant boot loader or with too little
    memory: it returns -1 after having written nothing but the screen. *)
Lemma kernel_rejects fuel magic info s :
  lspan info 12 -> apart info 12 VIDEO (COLUMNS * LINES * 2) ->
  u32 magic <> MULTIBOOT_BOOTLOADER_MAGIC \/
  (IsBitSet (load32 (mem s) (mi_flags info)) 0 = true /\
   (load32 (mem s) (mi_mem_lower info) < MIN_LOWER_MEM \/ load32 (mem s) (mi_mem_upper info) < MIN_UPPER_MEM)) ->
  exists m' g', runs (kernel_start fuel magic info) s (Some (-1)) (set_mem m' (set_con g' s)) /\
    screen_only (mem s) m'.
Proof.
  intros Hi Ha Hbad. destruct (cls_runs s) as (m1 & Hr1 & Hs1 & _).
  set (g1 := set_ypos 0 _) in Hr1. set (s1 := set_mem m1 (set_con g1 s)) in Hr1.
  assert (con_ok g1) as Hg by (unfold con_ok, COLUMNS, LINES; cbn; lia).
  destruct (Z.eqb_spec (u32 magic) MULTIBOOT_BOOTLOADER_MAGIC) as [E|E].
  - destruct Hbad as [Hbad|[Hf Hbad]]; [exfalso; exact (Hbad E)|].
    exists m1, g1. split; [|exact Hs1]. unfold kernel_start. eapply runs_bind; [exact Hr1|]. cbv beta.
    rewrite (proj2 (Z.eqb_eq _ _) E). cbn [negb]. eapply runs_bind; [apply runs_ld32|]. cbv beta.
    assert (forall a, info <= a <= info + 8 -> load32 (mem s1) a = load32 (mem s) a) as El.
    { intros a Ha'. apply screen_only_load32; [exact Hs1|mb_lia..]. }
    rewrite El, Hf by mb_lia.
    eapply (runs_bind _ _ _ true s1); [|reflexivity]. eapply runs_bind; [apply runs_ld32|]. cbv beta.
    rewrite El by mb_lia. destruct (Z.ltb_spec (load32 (mem s) (mi_mem_lower info)) MIN_LOWER_MEM); [reflexivity|].
    eapply runs_bind; [apply runs_ld32|]. cbv beta. rewrite El by mb_lia.
    rewrite (proj2 (Z.ltb_lt _ _)) by lia. reflexivity.
  - destruct (printf_step 32 magic_msg [u32 magic] s1 eq_refl Hg) as (m2 & g2 & Hr2 & _ & Hs2).
    exists m2, g2. split; [|eapply screen_only_trans; [exact Hs1|exact Hs2]].
    unfold kernel_start. eapply runs_bind; [exact Hr1|]. cbv beta. rewrite (proj2 (Z.eqb_neq _ _) E). cbn [negb].
    eapply runs_bind; [exact Hr2|reflexivity].
Qed.
End Spec.

(** ** System calls *)

(** The arguments the handler passes for [n] of them. *)
Definition syscall_args (m : gmap Z Z) (r n : Z) : list Z :=
  n :: take (Z.to_nat n) [load32 m (r_ecx r); load32 m (r_edx r); load32 m (r_edi r); load32 m (r_esi r)].

(** One case of the switch, for a function that returns. *)
Lemma syscall_case_runs (tbl : syscall_table) r n (f : list Z -> K Z) v s s1 :
  tbl !! Z.to_nat (load32 (mem s) (r_eax r)) = Some (Some f) -> runs (f (syscall_args (mem s) r n)) s v s1 ->
  runs (syscall_case tbl r n) s tt (set_mem (store32 (mem s1) (r_eax r) v) s1).
Proof.
  intros Ht Hf. unfold syscall_case. do 5 (eapply runs_bind; [apply runs_ld32|]; cbv beta).
  unfold call_syscall. rewrite Ht. eapply runs_bind; [exact Hf|]. apply runs_st32.
Qed.

(** A call through an entry that is null or missing. *)
Lemma syscall_case_crash (tbl : syscall_table) r n s :
  (forall f : list Z -> K Z, tbl !! Z.to_nat (load32 (mem s) (r_eax r)) <> Some (Some f)) -> syscall_case tbl r n s = Crash.
Proof.
  intros Ht. unfold syscall_case, bind, ld32, gets, call_syscall.
  destruct (tbl !! Z.to_nat (load32 (mem s) (r_eax r))) as [[f|]|] eqn:E; [|reflexivity|reflexivity].
  destruct (Ht f eq_refl).
Qed.

(** C27: the system call handler. A number from 128 on makes it return -1 in [eax]; a null
    entry or more than four arguments leave everything unchanged; with four arguments the
    function is called once with the argument registers and its result is returned. With
    fewer, no [break] ends the case: the result is used as the number of a second system
    call, which is a call of a null pointer unless the result is itself a registered number. *)
Theorem syscall_dispatch (tbl : syscall_table) r s :
  kspan r 56 ->
  let i := load32 (mem s) (r_eax r) in
  let n := load32 (mem s) (r_ebx r) in
  (kSyscallMaxNum <= i -> runs (Syscall_with tbl r) s tt (set_mem (store32 (mem s) (r_eax r) UINT32_MAX) s)) /\
  (i < kSyscallMaxNum -> tbl !! Z.to_nat i = Some None -> runs (Syscall_with tbl r) s tt s) /\
  (forall f : list Z -> K Z, i < kSyscallMaxNum -> tbl !! Z.to_nat i = Some (Some f) ->
    (4 < n -> runs (Syscall_with tbl r) s tt s) /\
    (n = 4 -> forall v s1, runs (f (syscall_args (mem s) r 4)) s v s1 ->
       runs (Syscall_with tbl r) s tt (set_mem (store32 (mem s1) (r_eax r) v) s1)) /\
    (n < 4 -> forall v s1, runs (f (syscall_args (mem s) r n)) s v s1 ->
       (forall g : list Z -> K Z, tbl !! Z.to_nat (u32 v) <> Some (Some g)) -> Syscall_with tbl r s = Crash)).
Proof.
  intros Hr i n. pose proof (load32_range (mem s) (r_ebx r)) as Hn. fold n in Hn.
  assert (forall k : option (option (list Z -> K Z)), i < kSyscallMaxNum -> tbl !! Z.to_nat i = k ->
    Syscall_with tbl r s = match k with
      | None => Crash
      | Some None => Done (tt, s)
      | Some (Some _) => (if n <=? 4 then syscall_cases tbl r (Z.to_nat (5 - n)) n else ret tt) s
      end) as Hlow.
  { intros k Hi Hk. unfold Syscall_with, bind, ld32, gets. fold i. rewrite (proj2 (Z.leb_gt _ _)) by lia.
    rewrite Hk. destruct k as [[f|]|]; reflexivity. }
  split_and!.
  - intros Hi. unfold Syscall_with. eapply runs_bind; [apply runs_ld32|]. cbv beta. fold i.
    rewrite (proj2 (Z.leb_le _ _)) by lia. apply runs_st32.
  - intros Hi Hk. exact (Hlow _ Hi Hk).
  - intros f Hi Hk. pose proof (Hlow _ Hi Hk) as E. cbv beta iota in E. split_and!.
    + intros H4. unfold runs. rewrite E, (proj2 (Z.leb_gt _ _)) by lia. reflexivity.
    + intros H4 v s1 Hf. unfold runs. rewrite E, H4. cbn [Z.leb Z.compare Pos.compare Pos.compare_cont Z.sub Z.add Z.opp Z.to_nat].
      change (runs (syscall_case tbl r 4 ;;; ret tt) s tt (set_mem (store32 (mem s1) (r_eax r) v) s1)).
      eapply runs_bind; [exact (syscall_case_runs tbl r 4 f v s s1 Hk Hf)|reflexivity].
    + intros H4 v s1 Hf Hv. rewrite E, (proj2 (Z.leb_le _ _)) by lia.
      replace (Z.to_nat (5 - n)) with (S (S (Z.to_nat (3 - n)))) by lia. cbn [syscall_cases].
      unfold bind at 1. rewrite (syscall_case_runs tbl r n f v s s1 Hk Hf). unfold bind at 1.
      rewrite syscall_case_crash; [reflexivity|]. intros g. cbn [mem set_mem].
      replace (load32 _ _) with (u32 v); [apply Hv|]. symmetry.
      apply (load_store_same 4). unfold r_eax, span, kspan in *. lia.
Qed.

(** A boot loader's map of two entries, at 36864: 640 KB reserved, 127 MB available from 1 MB. *)
Definition boot_example : kstate :=
  set_mem (fold_left (fun m p => store32 m p.1 p.2)
    [(32768, 64); (32772, 639); (32776, 130048); (32812, 48); (32816, 36864);
     (36864, 20); (36868, 0); (36876, 655360); (36884, 2);
     (36888, 20); (36892, 1048576); (36900, 133169152); (36908, 1)] ∅) zero_state.

Definition boot_map : list mmap_entry :=
  [mk_entry 20 0 655360 2; mk_entry 20 1048576 133169152 1].

Lemma boot_memory_witness :
  exists m' s', runs (scan_mmap (Z.to_nat 1048580) 32768) boot_example tt (set_mem m' boot_example) /\
    regs_at m' kAvlMemAddr [(1048576, 133169152)] /\
    runs (PagingInit (Z.to_nat 1048580)) (set_mem m' boot_example) tt s' /\
    translate (mem s') (cr3 (cpu s')) 3221225472 = Some 0.
Proof.
  destruct (boot_memory (Z.to_nat 1048580) 32768 36864 boot_map boot_example)
    as (m' & s' & Hr1 & _ & Hreg & Hr2 & Ht).
  - unfold lspan. lia.
  - vm_compute. repeat split; discriminate.
  - vm_compute. repeat split; discriminate.
  - repeat constructor; discriminate.
  - vm_compute. discriminate.
  - right. vm_compute. discriminate.
  - right. vm_compute. discriminate.
  - repeat constructor; vm_compute; discriminate.
  - vm_compute. discriminate.
  - lia.
  - cbn [length boot_map]. lia.
  - exists m', s'. split_and!; [exact Hr1|exact Hreg|exact Hr2|]. rewrite Ht by lia. reflexivity.
Defined.

(** One registered call that returns its first argument, called with one argument, 5. *)
Definition syscall_example : kstate :=
  set_mem (fold_left (fun m p => store32 m p.1 p.2)
    [(3238006528 + 36, 0); (3238006528 + 24, 1); (3238006528 + 32, 5)] ∅) zero_state.

Lemma syscall_dispatch_witness :
  kspan 3238006528 56 /\
  Syscall_with [Some (fun args => ret (nth 1 args 0))] 3238006528 syscall_example = Crash.
Proof.
  assert (kspan 3238006528 56) as Hs by (unfold kspan; lia). split; [exact Hs|].
  destruct (syscall_dispatch [Some (fun args => ret (nth 1 args 0))] 3238006528 syscall_example Hs) as (_ & _ & H).
  destruct (H _ eq_refl eq_refl) as (_ & _ & H1).
  apply (H1 eq_refl 5 syscall_example); [reflexivity|]. intros g. vm_compute. discriminate.
Defined.
