(* ===== verification/IntrEntry.v ===== *)
(** * interrupt/intr_vec.S, intr_entry.S and boot/boot.S: from an interrupt to its handler and
      back, and from the boot loader to [kernel_start]

    Translated instruction by instruction on the processor state. The processor takes an
    interrupt through the gate of its vector: it checks the gate and the code segment the
    gate names, and raises an exception ([Fault]) when they are not fit; it checks the selectors
    that are loaded into the segment registers and the one [iret] returns to in the same way.
    Interrupts are taken in kernel mode (no code of the kernel leaves ring 0), so the
    processor pushes EFLAGS, CS and EIP, and an error code for the exceptions that have one,
    and stays on the same stack. What compiled C code leaves in the
    registers it does not preserve ([eax], [ecx], [edx]) is the parameter [scratch]; the addresses
    after the calls of C functions are the parameters [alltraps_ret] and [boot_ret]. *)

From Stdlib Require Import ZArith Lia ZifyBool.
From stdpp Require Import base numbers gmap list.
From S2P Require Import Prelude Memory Machine AsmWrapper Lists Segment Interrupt Thread Kernel.

(** ** Instructions *)

Definition push_reg (f : Cpu -> Z) : K unit := v <- gets (fun s => f (cpu s)) ;; pushl v.

Definition pushw (v : Z) : K unit :=
  e <- gets (fun s => esp (cpu s)) ;;
  set_reg (set_esp (u32 (e - 2))) ;;;
  st16 (u32 (e - 2)) v.

Definition popw : K Z :=
  e <- gets (fun s => esp (cpu s)) ;;
  v <- ld16 e ;;
  set_reg (set_esp (u32 (e + 2))) ;;;
  ret v.

(** [movw v, %ax] *)
Definition set_ax (v : Z) (c : Cpu) : Cpu := set_eax (65536 * (eax c / 65536) + u16 v) c.
Definition ax (c : Cpu) : Z := u16 (eax c).

Definition pushal : K unit :=
  temp <- gets (fun s => esp (cpu s)) ;;
  push_reg eax ;;; push_reg ecx ;;; push_reg edx ;;; push_reg ebx ;;;
  pushl temp ;;; push_reg ebp ;;; push_reg esi ;;; push_reg edi.

Definition popal : K unit :=
  v <- popl ;; set_reg (set_edi v) ;;;
  v <- popl ;; set_reg (set_esi v) ;;;
  v <- popl ;; set_reg (set_ebp v) ;;;
  v <- popl ;; set_reg (fun c => c) ;;;
  v <- popl ;; set_reg (set_ebx v) ;;;
  v <- popl ;; set_reg (set_edx v) ;;;
  v <- popl ;; set_reg (set_ecx v) ;;;
  v <- popl ;; set_reg (set_eax v).

(** [movw f, %ax; pushw %ax] *)
Definition push_seg (f : Cpu -> Z) : K unit :=
  v <- gets (fun s => f (cpu s)) ;; set_reg (set_ax v) ;;;
  a <- gets (fun s => ax (cpu s)) ;; pushw a.

(** ** The processor's checks *)

(** The exceptions: general protection, segment not present. *)
Definition GP : Z := 13.
Definition NP : Z := 11.

(** The current privilege level. *)
Definition cpl (c : Cpu) : Z := cs c mod 4.

(** The access byte of the descriptor that a selector names; none for the null selector, the
    local table (there is none) and beyond the limit. *)
Definition seg_access (c : Cpu) (m : gmap Z Z) (sel : Z) : option Z :=
  let i := sel / 8 in
  if (i =? 0) || Z.testbit sel 2 || ((gdtr c).1 <? 8 * i + 7) then None
  else Some (desc_access m ((gdtr c).2 + 8 * i)).

Definition acc_present (a : Z) : bool := Z.testbit a 7.
Definition acc_dpl (a : Z) : Z := (a / 32) mod 4.
Definition acc_code (a : Z) : bool := Z.testbit a 4 && Z.testbit a 3.
Definition acc_conforming (a : Z) : bool := acc_code a && Z.testbit a 2.
Definition acc_readable (a : Z) : bool := Z.testbit a 4 && (negb (Z.testbit a 3) || Z.testbit a 1).

(** A transfer to the code segment [sel] at the current privilege level: the exception it
    raises, if any. *)
Definition code_check (c : Cpu) (m : gmap Z Z) (sel : Z) : option Z :=
  match seg_access c m sel with
  | None => Some GP
  | Some a =>
      if negb (acc_code a && (if acc_conforming a then acc_dpl a <=? cpl c else acc_dpl a =? cpl c)) then Some GP
      else if negb (acc_present a) then Some NP
      else None
  end.

(** [sel] loaded into a data segment register; a null selector may be loaded. *)
Definition data_check (c : Cpu) (m : gmap Z Z) (sel : Z) : option Z :=
  if sel / 4 =? 0 then None
  else
    match seg_access c m sel with
    | None => Some GP
    | Some a =>
        if negb (acc_readable a && (acc_conforming a || (Z.max (sel mod 4) (cpl c) <=? acc_dpl a))) then Some GP
        else if negb (acc_present a) then Some NP
        else None
    end.

(** The gate of a vector: inside the table, an interrupt or trap gate (types 14 and 15), present,
    its code segment fit. *)
Definition gate_check (c : Cpu) (m : gmap Z Z) (v : Z) : option Z :=
  let g := (idtr c).2 + 8 * v in
  let type := load16 m (g + 4) in
  if negb ((8 * v + 7 <=? (idtr c).1) && (((type / 256) mod 32 =? 14) || ((type / 256) mod 32 =? 15))) then Some GP
  else if negb (Z.testbit type 15) then Some NP
  else code_check c m (load16 m (g + 2)).

Definition refuse (check : option Z) : K unit :=
  match check with
  | Some v => fault v
  | None => ret tt
  end.

(** [movw v, f] for a data segment register [f]. *)
Definition load_seg (set : Z -> Cpu -> Cpu) (v : Z) : K unit :=
  s <- gets (fun s => s) ;;
  refuse (data_check (cpu s) (mem s) v) ;;;
  set_reg (set v).

(** [popw %ax; movw %ax, f] *)
Definition pop_seg (set : Z -> Cpu -> Cpu) : K unit :=
  v <- popw ;; set_reg (set_ax v) ;;;
  a <- gets (fun s => ax (cpu s)) ;; load_seg set a.

(** [iret]. A return to another privilege level also pops a stack pointer; nothing in the
    kernel prepares one, and it is not modelled. *)
Definition iret : K unit :=
  ip <- popl ;;
  sel <- popl ;;
  fl <- popl ;;
  s <- gets (fun s => s) ;;
  if negb (u16 sel mod 4 =? cpl (cpu s)) then crash
  else
    refuse (code_check (cpu s) (mem s) (u16 sel)) ;;;
    set_reg (fun c => set_eflags fl (set_cs (u16 sel) (set_eip ip c))).

(** ** The code *)

(** The vectors for which the processor pushes an error code (scripts/intr_vec.sh). *)
Definition has_err_code (v : Z) : bool := bool_decide (v ∈ [8; 10; 11; 12; 13; 14; 17; 21]).


(** [intr_vec<v>] *)
Definition intr_stub (v : Z) : K unit :=
  intr_disable ;;;
  (if has_err_code v then ret tt else pushl 0) ;;;
  pushl v.

Definition save_segs : K unit := push_seg gs ;;; push_seg fs ;;; push_seg es ;;; push_seg ds.

Definition kernel_segs : K unit :=
  set_reg (set_eax kKDataSeg) ;;;
  a <- gets (fun s => ax (cpu s)) ;; load_seg set_ds a ;;;
  a <- gets (fun s => ax (cpu s)) ;; load_seg set_es a ;;;
  a <- gets (fun s => ax (cpu s)) ;; load_seg set_fs a ;;;
  a <- gets (fun s => ax (cpu s)) ;; load_seg set_gs a.

Definition restore_segs : K unit := pop_seg set_ds ;;; pop_seg set_es ;;; pop_seg set_fs ;;; pop_seg set_gs.

Section Entry.
Context `{Platform}.
Context (alltraps_ret : Z) (scratch : Z * Z * Z).

(** The processor takes the interrupt [v]: the gate is checked, what is interrupted is pushed, and
    CS is loaded from the gate. An interrupt of user mode, which switches stacks, and a gate that
    does not lead to the stub of its vector are not modelled. [cli] of the stub also covers the
    clearing of the interrupt flag. *)
Definition cpu_interrupt (v err : Z) : K unit :=
  s <- gets (fun s => s) ;;
  let g := (idtr (cpu s)).2 + 8 * v in
  refuse (gate_check (cpu s) (mem s) v) ;;;
  if negb ((cpl (cpu s) =? 0) && (load16 (mem s) (g + 0) + 65536 * load16 (mem s) (g + 6) =? u32 (intr_vec v)))
  then crash
  else
    push_reg eflags ;;; push_reg cs ;;; push_reg eip ;;;
    (if has_err_code v then pushl err else ret tt) ;;;
    set_reg (set_cs (8 * (load16 (mem s) (g + 2) / 8) + cpl (cpu s))).

(** [call _IntrHandlerSel], whose argument is on the stack. *)
Definition call_handler (fuel : nat) : K unit :=
  pushl alltraps_ret ;;;
  e <- gets (fun s => esp (cpu s)) ;;
  r <- ld32 (u32 (e + 4)) ;;
  IntrHandlerSel fuel r ;;;
  set_reg (fun c => set_eax scratch.1.1 (set_ecx scratch.1.2 (set_edx scratch.2 c))) ;;;
  v <- popl ;; set_reg (set_eip v).

(** The two halves of [_alltraps] around the call. *)
Definition trap_save : K unit :=
  pushal ;;;
  save_segs ;;;
  kernel_segs ;;;
  push_reg esp.

Definition trap_restore : K unit :=
  e <- popl ;; set_reg (set_esp e) ;;;
  restore_segs ;;;
  popal ;;;
  (e <- gets (fun s => esp (cpu s)) ;; set_reg (set_esp (u32 (e + 8)))) ;;;
  iret.

Definition alltraps (fuel : nat) : K unit := trap_save ;;; call_handler fuel ;;; trap_restore.

(** An interrupt with vector [v]. *)
Definition interrupt (fuel : nat) (v err : Z) : K unit :=
  cpu_interrupt v err ;;; intr_stub v ;;; alltraps fuel.
End Entry.

(** ** boot.S *)

(** The header the boot loader looks for. In the assembler [|] binds more tightly than [+], so
    the flags, a macro without parentheses, are added as one number. *)
Definition MULTIBOOT_HEADER_MAGIC : Z := 464367618.
Definition MULTIBOOT_PAGE_ALIGN : Z := 1.
Definition MULTIBOOT_MEMORY_INFO : Z := 2.
Definition MULTIBOOT_AOUT_KLUDGE : Z := 65536.
Definition MULTIBOOT_HEADER_FLAGS : Z := Z.lor MULTIBOOT_PAGE_ALIGN MULTIBOOT_MEMORY_INFO.

Definition multiboot_header : list Z :=
  [MULTIBOOT_HEADER_MAGIC; MULTIBOOT_HEADER_FLAGS; u32 (- (MULTIBOOT_HEADER_MAGIC + MULTIBOOT_HEADER_FLAGS))].

Definition init_stack : Z := 31744.

(** [popf]: bit 1 of EFLAGS is always set. *)
Definition popf : K unit := v <- popl ;; set_reg (set_eflags (Z.lor v 2)).

Section Boot.
Context `{Platform}.
Context (boot_ret : Z).

(** [_start] up to the return of [kernel_start]; it then halts for ever, whatever the result. *)
Definition start (fuel : nat) : K (option Z) :=
  set_reg (set_esp init_stack) ;;;
  e <- gets (fun s => esp (cpu s)) ;; set_reg (set_esp (u32 (e + 16380))) ;;;
  pushl 0 ;;;
  popf ;;;
  push_reg ebx ;;;
  push_reg eax ;;;
  pushl boot_ret ;;;
  e <- gets (fun s => esp (cpu s)) ;;
  magic <- ld32 (u32 (e + 4)) ;;
  info <- ld32 (u32 (e + 8)) ;;
  kernel_start fuel magic info.
End Boot.
