(* ===== verification/IntrEntrySpec.v ===== *)
(** * The entry code: interrupts are transparent, and the boot code calls the kernel

    The 68 bytes below the interrupted stack pointer hold, from the lowest address on, the
    return address and the argument of the dispatcher's call, and the register frame [IntrReg]
    the handlers see. *)

From Stdlib Require Import ZArith Lia ZifyBool.
From stdpp Require Import base numbers gmap list.
From S2P Require Import Prelude Memory Machine AsmWrapper Lists Segment Interrupt Thread ContextSwitch Poll Keyboard Console Paging Bits Kernel KernelSpec IntrEntry.

(** ** The bytes written below the stack pointer *)

(** A sequence of stores relative to [b], the last one first: size, offset, value. *)
Fixpoint pokes (m : gmap Z Z) (b : Z) (l : list (nat * Z * Z)) : gmap Z Z :=
  match l with
  | [] => m
  | (n, o, v) :: l' => store n (pokes m b l') (b + o) v
  end.

(** All inside the [N] bytes from [b] on, no two overlapping. *)
Fixpoint pokes_okb (N : Z) (l : list (nat * Z)) : bool :=
  match l with
  | [] => true
  | (n, o) :: l' =>
      (0 <=? o) && (o + Z.of_nat n <=? N) &&
      forallb (fun '(n', o') => apartb o (Z.of_nat n) o' (Z.of_nat n')) l' && pokes_okb N l'
  end.

Lemma pokes_okb_spec N l n o : pokes_okb N l = true -> (n, o) ∈ l -> 0 <= o /\ o + Z.of_nat n <= N.
Proof.
  induction l as [|[n' o'] l IH]; [intros _ Hin; by apply not_elem_of_nil in Hin|].
  cbn [pokes_okb]. intros H Hin. apply elem_of_cons in Hin as [[= -> ->]|Hin]; [lia|].
  apply IH; [lia|done].
Qed.

(** Each value reads back. *)
Lemma pokes_read N m b l n o v :
  span b N -> pokes_okb N l.*1 = true -> (n, o, v) ∈ l ->
  load n (pokes m b l) (b + o) = v mod 256 ^ Z.of_nat n.
Proof.
  intros Hb. induction l as [|[[n' o'] v'] l IH]; [intros _ Hin; by apply not_elem_of_nil in Hin|].
  cbn [fmap list_fmap fst pokes_okb pokes]. intros H Hin.
  apply andb_prop in H as [H Hl]. apply andb_prop in H as [Ho Hd].
  apply elem_of_cons in Hin as [[= -> -> ->]|Hin].
  - apply load_store_same. unfold span in *. lia.
  - assert ((n, o) ∈ l.*1) as Hin1 by (apply list_elem_of_fmap; by exists (n, o, v)).
    pose proof (pokes_okb_spec N _ _ _ Hl Hin1). rewrite forallb_forall in Hd.
    specialize (Hd (n, o) ltac:(by apply list_elem_of_In)). cbn in Hd.
    destruct n as [|n]; [cbn; by rewrite Z.mod_1_r|]. destruct n' as [|n']; [apply IH; done|].
    rewrite load_store_ne_phys; [by apply IH|unfold span in *; lia|unfold span in *; lia|].
    rewrite !(phys_span b N) by (done || lia). unfold apartb in Hd. unfold apart. lia.
Qed.

Lemma pokes_only N m b l :
  span b N -> pokes_okb N l.*1 = true -> only (fun p => inr_ p (b, N)) m (pokes m b l).
Proof.
  intros Hb. induction l as [|[[n o] v] l IH]; [intros _; apply only_refl|].
  cbn [fmap list_fmap fst pokes_okb pokes]. intros H. eapply only_trans; [apply IH; lia|].
  intros p Hp. apply load8_store_ne. intros i Hi E. apply Hp. rewrite <- E. unfold inr_. cbn [fst snd].
  replace (b + o + i) with (b + (o + i)) by lia. rewrite (phys_span b N) by (done || lia). lia.
Qed.

(** ** Executing the entry code *)

(** The stack pointer kept apart from the other registers. *)
Lemma set_esp_esp x y c : set_esp x (set_esp y c) = set_esp x c.
Proof. reflexivity. Qed.

Lemma push_on s m e e' c v {A} (k : K A) r s' :
  e' = e - 4 -> 4 <= e <= W32 ->
  runs k (at_ s (store 4 m e' v) (set_esp e' c)) r s' ->
  runs (pushl v ;;; k) (at_ s m (set_esp e c)) r s'.
Proof.
  intros He' He Hk. apply (push_into s m _ e e'); [reflexivity|exact He'|exact He|]. exact Hk.
Qed.

Lemma push_reg_on s m e e' c f v {A} (k : K A) r s' :
  f (set_esp e c) = v -> e' = e - 4 -> 4 <= e <= W32 ->
  runs k (at_ s (store 4 m e' v) (set_esp e' c)) r s' ->
  runs (push_reg f ;;; k) (at_ s m (set_esp e c)) r s'.
Proof.
  intros Hf He' He Hk. eapply (runs_bind _ _ _ tt); [|exact Hk]. unfold push_reg.
  eapply runs_bind; [reflexivity|]. cbv beta. change (cpu (at_ s m (set_esp e c))) with (set_esp e c). rewrite Hf.
  pose proof (pushl_at s m (set_esp e c) v He) as Hp. change (esp (set_esp e c)) with e in Hp.
  rewrite <- He' in Hp. exact Hp.
Qed.

Lemma ax_set_ax v c : 0 <= v < 65536 -> ax (set_ax v c) = v.
Proof.
  intros Hv. unfold ax, set_ax. change (eax (set_eax ?x c)) with x. unfold u16. rewrite (Z.mod_small v) by lia.
  rewrite Z.add_comm, Z.mul_comm, Z.mod_add by lia. by apply Z.mod_small.
Qed.

(** A segment register pushed through [ax]: only [eax] changes. *)
Lemma push_seg_on s m e e' x c f v {A} (k : K A) r s' :
  (forall e x, f (set_esp e (set_eax x c)) = v) -> 0 <= v < 65536 -> e' = e - 2 -> 2 <= e <= W32 ->
  (forall x', runs k (at_ s (store 2 m e' v) (set_esp e' (set_eax x' c))) r s') ->
  runs (push_seg f ;;; k) (at_ s m (set_esp e (set_eax x c))) r s'.
Proof.
  intros Hf Hv He' He Hk. set (c1 := set_ax v (set_esp e (set_eax x c))).
  eapply (runs_bind _ _ _ tt); [|apply (Hk (eax c1))]. unfold push_seg.
  eapply runs_bind; [reflexivity|]. cbv beta. change (cpu (at_ ?s ?m ?c)) with c. rewrite Hf.
  eapply runs_bind; [apply set_reg_at|]. fold c1. eapply runs_bind; [reflexivity|]. cbv beta.
  change (cpu (at_ ?s ?m ?c)) with c. unfold c1 at 1. rewrite ax_set_ax by done. fold c1. unfold pushw.
  eapply runs_bind; [reflexivity|]. cbv beta. change (esp (cpu (at_ s m c1))) with e.
  rewrite u32_small by lia. rewrite <- He'. eapply runs_bind; [apply set_reg_at|]. reflexivity.
Qed.

Lemma intr_disable_on s m e c {A} (k : K A) r s' :
  runs k (at_ s m (set_esp e (set_eflags (Z.land (eflags c) (not32 (2 ^ 9))) c))) r s' ->
  runs (intr_disable ;;; k) (at_ s m (set_esp e c)) r s'.
Proof. intros Hk. eapply runs_bind; [reflexivity|exact Hk]. Qed.

Lemma seq_assoc {A B C} (a : K A) (f : A -> K B) (g : B -> K C) s r s' :
  runs (bind a (fun x => bind (f x) g)) s r s' -> runs (bind (bind a f) g) s r s'.
Proof. intros Hr. rewrite bind_assoc. exact Hr. Qed.

Lemma skip_on {A} (k : K A) s r s' : runs k s r s' -> runs (ret tt ;;; k) s r s'.
Proof. done. Qed.

(** ** The kernel's tables *)

(** The kernel's descriptors in the GDT. *)
Record kernel_desc (c : Cpu) (m : gmap Z Z) : Prop := {
  kd_base : (gdtr c).2 = kGdtBaseAddr;
  kd_limit : 23 <= (gdtr c).1;
  kd_code : desc_access m (kGdtBaseAddr + 8) = Access kSegPriority0 kSegTypeCode;
  kd_data : desc_access m (kGdtBaseAddr + 16) = Access kSegPriority0 kSegTypeData;
}.

(** The gate of vector [v] as the kernel installs it for a handler. *)
Record gate_ready `{Platform} (c : Cpu) (m : gmap Z Z) (v : Z) : Prop := {
  gr_vec : 0 <= v < kIdtEntryNum;
  gr_idtr : idtr c = (2047, kIdtBaseAddr);
  gr_type : gate_type m v = kIdtIntrType + 32768;
  gr_sel : gate_sel m v = kKCodeSeg;
  gr_offset : gate_offset m v = u32 (intr_vec v);
}.

(** The selectors that kernel code has in its data segment registers. *)
Definition kernel_sel (x : Z) : Prop := x = 0 \/ x = kKDataSeg.

Lemma kernel_desc_only P c m m' :
  only P m m' -> (forall p, P p -> ~ (8 <= p < 24)) -> kernel_desc c m -> kernel_desc c m'.
Proof.
  intros Ho HP [K1 K2 K3 K4].
  assert (forall a, 3 <= a < 19 -> load8 m' (kGdtBaseAddr + a + 5) = load8 m (kGdtBaseAddr + a + 5)) as E.
  { intros a Ha. apply Ho. intros Hp. apply (HP _ Hp). unfold kGdtBaseAddr. rewrite phys_high by lia. lia. }
  split; [exact K1|exact K2|rewrite <- K3; apply (E 8); lia|rewrite <- K4; apply (E 16); lia].
Qed.

Lemma gate_ready_only `{Platform} P c m m' v :
  only P m m' -> (forall p, P p -> ~ (phys (gate v) <= p < phys (gate v) + 8)) -> gate_ready c m v -> gate_ready c m' v.
Proof.
  intros Ho HP [K0 K1 K2 K3 K4].
  assert (forall k, 0 <= k <= 6 -> load16 m' (gate v + k) = load16 m (gate v + k)) as E.
  { intros k Hk. apply (load_ext 2). intros i Hi. apply Ho. intros Hp. apply (HP _ Hp).
    unfold gate, kIdtBaseAddr, kIdtEntryNum in *. rewrite !phys_high by lia. lia. }
  unfold gate_type, gate_sel, gate_offset in *.
  split; [exact K0|exact K1|unfold gate_type|unfold gate_sel|unfold gate_offset]; rewrite ?E by lia; done.
Qed.

Section Checks.
Context (c : Cpu) (m : gmap Z Z) (Hd : kernel_desc c m) (Hcs : cs c = kKCodeSeg).

Lemma code_check_kernel : code_check c m kKCodeSeg = None.
Proof using Hd Hcs.
  destruct Hd as [K1 K2 K3 K4]. unfold code_check, seg_access, cpl. rewrite Hcs, K1. change (kKCodeSeg / 8) with 1.
  change (8 * 1) with 8. rewrite K3, (proj2 (Z.ltb_ge _ _)) by lia. reflexivity.
Qed.

Lemma data_check_kernel x : kernel_sel x -> data_check c m x = None.
Proof using Hd Hcs.
  destruct Hd as [K1 K2 K3 K4]. intros [->| ->]; [reflexivity|]. unfold data_check, seg_access, cpl. rewrite Hcs, K1.
  change (kKDataSeg / 8) with 2. change (8 * 2) with 16. rewrite K4, (proj2 (Z.ltb_ge _ _)) by lia. reflexivity.
Qed.

Lemma gate_check_kernel `{Platform} v : gate_ready c m v -> gate_check c m v = None.
Proof using Hd Hcs.
  intros [K0 K1 K2 K3 K4]. unfold gate_check. rewrite K1. cbn [fst snd]. fold (gate v). fold (gate_type m v). fold (gate_sel m v).
  rewrite K2, K3, code_check_kernel. unfold kIdtEntryNum in K0. rewrite (proj2 (Z.leb_le _ _)) by lia. reflexivity.
Qed.

Lemma load_seg_on s set v : kernel_sel v -> runs (load_seg set v) (at_ s m c) tt (at_ s m (set v c)).
Proof using Hd Hcs.
  intros Hv. unfold load_seg. eapply runs_bind; [reflexivity|]. cbv beta.
  change (cpu (at_ s m c)) with c. change (mem (at_ s m c)) with m. rewrite data_check_kernel by done. reflexivity.
Qed.
End Checks.

(** The registers with the kernel's data segments loaded. *)
Definition kseg (c : Cpu) : Cpu :=
  set_gs kKDataSeg (set_fs kKDataSeg (set_es kKDataSeg (set_ds kKDataSeg (set_eax kKDataSeg c)))).

Lemma kernel_segs_on s m e x c :
  kernel_desc c m -> cs c = kKCodeSeg ->
  runs kernel_segs (at_ s m (set_esp e (set_eax x c))) tt (at_ s m (set_esp e (kseg c))).
Proof.
  intros [K1 K2 K3 K4] Hcs. unfold kernel_segs. eapply runs_bind; [apply set_reg_at|].
  replace (at_ s m (set_esp e (kseg c))) with (at_ s m (set_gs kKDataSeg (set_fs kKDataSeg (set_es kKDataSeg (set_ds kKDataSeg
    (set_eax kKDataSeg (set_esp e (set_eax x c)))))))) by (by destruct c).
  do 3 (eapply runs_bind; [reflexivity|]; cbv beta; eapply runs_bind; [apply load_seg_on; [by split|exact Hcs|by right]|]).
  eapply runs_bind; [reflexivity|]. cbv beta. apply load_seg_on; [by split|exact Hcs|by right].
Qed.

Lemma cpu_esp c : c = set_esp (esp c) c.
Proof. by destruct c. Qed.

Lemma eax_on c : c = set_eax (eax c) c.
Proof. by destruct c. Qed.

Definition err_word (v err : Z) : Z := if has_err_code v then err else 0.

(** The frame, from the return address slot [b] of the dispatcher's call on. *)
Definition entry_pokes (c : Cpu) (b v err : Z) : list (nat * Z * Z) :=
  [(4%nat, 4, b + 8); (2%nat, 8, ds c); (2%nat, 10, es c); (2%nat, 12, fs c); (2%nat, 14, gs c);
   (4%nat, 16, edi c); (4%nat, 20, esi c); (4%nat, 24, ebp c); (4%nat, 28, b + 48); (4%nat, 32, ebx c);
   (4%nat, 36, edx c); (4%nat, 40, ecx c); (4%nat, 44, eax c); (4%nat, 48, v); (4%nat, 52, err_word v err);
   (4%nat, 56, eip c); (4%nat, 60, cs c); (4%nat, 64, eflags c)].

(** Interrupts disabled. *)
Definition cli_cpu (c : Cpu) : Cpu := set_eflags (Z.land (eflags c) (not32 (2 ^ 9))) c.

(** The processor's pushes and the stub. *)
Lemma stub_on `{Platform} s m b c v err {A} (k : K A) r s' :
  0 <= b -> b + 68 <= W32 -> kernel_desc c m -> gate_ready c m v -> cs c = kKCodeSeg ->
  runs k (at_ s (pokes m b (drop 13 (entry_pokes c b v err))) (set_esp (b + 48) (cli_cpu c))) r s' ->
  runs (cpu_interrupt v err ;;; intr_stub v ;;; k) (at_ s m (set_esp (b + 68) c)) r s'.
Proof.
  intros H0 H1 Hd Hg Hcs Hk. unfold cpu_interrupt, intr_stub. apply seq_assoc.
  eapply runs_bind; [reflexivity|]. cbv beta zeta. change (cpu (at_ s m (set_esp (b + 68) c))) with (set_esp (b + 68) c).
  change (mem (at_ s m (set_esp (b + 68) c))) with m.
  rewrite (gate_check_kernel (set_esp (b + 68) c) m ltac:(by destruct Hd) Hcs v ltac:(by destruct Hg)). apply seq_assoc, skip_on.
  assert (cpl (set_esp (b + 68) c) = 0) as -> by (unfold cpl; change (cs (set_esp (b + 68) c)) with (cs c); by rewrite Hcs).
  change (idtr (set_esp (b + 68) c)) with (idtr c). rewrite (gr_idtr _ _ _ Hg). cbn [fst snd]. fold (gate v).
  fold (gate_offset m v). fold (gate_sel m v). rewrite (gr_offset _ _ _ Hg), (gr_sel _ _ _ Hg), !Z.eqb_refl. cbn [andb negb].
  assert (forall m1 e, runs (set_reg (set_cs (8 * (kKCodeSeg / 8) + 0))) (at_ s m1 (set_esp e c)) tt (at_ s m1 (set_esp e c))) as Hload.
  { intros m1 e. replace (at_ s m1 (set_esp e c)) with (at_ s m1 (set_cs kKCodeSeg (set_esp e c))) at 2; [reflexivity|].
    rewrite <- Hcs. by destruct c. }
  apply seq_assoc. apply (push_reg_on s _ _ (b + 64) c eflags (eflags c)); [reflexivity|lia|lia|]. apply seq_assoc.
  apply (push_reg_on s _ _ (b + 60) c cs (cs c)); [reflexivity|lia|lia|]. apply seq_assoc.
  apply (push_reg_on s _ _ (b + 56) c eip (eip c)); [reflexivity|lia|lia|]. apply seq_assoc.
  cbn [drop entry_pokes pokes] in Hk. unfold err_word in Hk. destruct (has_err_code v).
  - apply (push_on s _ _ (b + 52)); [lia|lia|]. eapply runs_bind; [apply Hload|]. apply seq_assoc. apply intr_disable_on.
    apply seq_assoc, skip_on. apply (push_on s _ _ (b + 48)); [lia|lia|]. exact Hk.
  - apply skip_on. eapply runs_bind; [apply Hload|]. apply seq_assoc. apply intr_disable_on. apply seq_assoc.
    apply (push_on s _ _ (b + 52)); [lia|lia|]. apply (push_on s _ _ (b + 48)); [lia|lia|]. exact Hk.
Qed.

(** Kernel code is interrupted: its code segment and data selectors are the kernel's. *)
Definition kernel_sels (c : Cpu) : Prop :=
  cs c = kKCodeSeg /\ kernel_sel (ds c) /\ kernel_sel (es c) /\ kernel_sel (fs c) /\ kernel_sel (gs c).

Lemma kernel_sel_16 x : kernel_sel x -> 0 <= x < 65536.
Proof. intros [->| ->]; [lia|unfold kKDataSeg; lia]. Qed.

(** The 68 bytes from [b] on are not part of the kernel's descriptors. *)
Definition off_gdt (b : Z) : Prop := span b 68 /\ apart (phys b) 68 8 16.

Lemma pokes_desc b c m l : off_gdt b -> pokes_okb 68 l.*1 = true -> kernel_desc c m -> kernel_desc c (pokes m b l).
Proof.
  intros [Hb Ha] Hl. apply (kernel_desc_only (fun p => inr_ p (b, 68))); [by apply pokes_only|].
  intros p. unfold inr_, apart in *. cbn [fst snd]. lia.
Qed.

(** The first half of [_alltraps]. *)
Lemma trap_save_on s m b c v err {A} (k : K A) r s' :
  off_gdt b -> kernel_desc c m -> kernel_sels c ->
  runs k (at_ s (pokes m b (entry_pokes c b v err)) (set_esp (b + 4) (kseg (cli_cpu c)))) r s' ->
  runs (trap_save ;;; k) (at_ s (pokes m b (drop 13 (entry_pokes c b v err))) (set_esp (b + 48) (cli_cpu c))) r s'.
Proof.
  intros Hb Hdesc (Hcs & Hd & He & Hf & Hg) Hk. apply kernel_sel_16 in Hd, He, Hf, Hg.
  assert (0 <= b /\ b + 68 <= W32) as [H0 H1] by (destruct Hb as [Hb _]; unfold span in Hb; lia).
  unfold trap_save, pushal, save_segs. apply seq_assoc, seq_assoc.
  apply (reg_into s _ _ esp (b + 48)); [reflexivity|]. apply seq_assoc.
  apply (push_reg_on s _ _ (b + 44) _ eax (eax c)); [reflexivity|lia|lia|]. apply seq_assoc.
  apply (push_reg_on s _ _ (b + 40) _ ecx (ecx c)); [reflexivity|lia|lia|]. apply seq_assoc.
  apply (push_reg_on s _ _ (b + 36) _ edx (edx c)); [reflexivity|lia|lia|]. apply seq_assoc.
  apply (push_reg_on s _ _ (b + 32) _ ebx (ebx c)); [reflexivity|lia|lia|]. apply seq_assoc.
  apply (push_on s _ _ (b + 28)); [lia|lia|]. apply seq_assoc.
  apply (push_reg_on s _ _ (b + 24) _ ebp (ebp c)); [reflexivity|lia|lia|]. apply seq_assoc.
  apply (push_reg_on s _ _ (b + 20) _ esi (esi c)); [reflexivity|lia|lia|].
  apply (push_reg_on s _ _ (b + 16) _ edi (edi c)); [reflexivity|lia|lia|].
  apply seq_assoc, seq_assoc. rewrite (eax_on (cli_cpu c)).
  apply (push_seg_on s _ _ (b + 14) _ _ gs (gs c)); [reflexivity|done|lia|lia|]. intros x1. apply seq_assoc.
  apply (push_seg_on s _ _ (b + 12) _ _ fs (fs c)); [reflexivity|done|lia|lia|]. intros x2. apply seq_assoc.
  apply (push_seg_on s _ _ (b + 10) _ _ es (es c)); [reflexivity|done|lia|lia|]. intros x3.
  apply (push_seg_on s _ _ (b + 8) _ _ ds (ds c)); [reflexivity|done|lia|lia|]. intros x4.
  apply seq_assoc. eapply runs_bind.
  { apply kernel_segs_on; [|exact Hcs]. apply (pokes_desc b _ m (drop 1 (entry_pokes c b v err)) Hb eq_refl) in Hdesc.
    destruct Hdesc as [K1 K2 K3 K4]. split; [exact K1|exact K2|exact K3|exact K4]. }
  apply (push_reg_on s _ _ (b + 4) _ esp (b + 8)); [reflexivity|lia|lia|]. exact Hk.
Qed.

(** The registers that the second half loads from a frame at [f]. *)
Definition restored (m : gmap Z Z) (f : Z) (c : Cpu) : Cpu :=
  mk_Cpu (cr0 c) (cr1 c) (cr2 c) (cr3 c) (cr4 c) (load32 m (f + 56)) (f + 60) (load32 m (f + 24)) (load32 m (f + 12))
    (load32 m (f + 8)) (load32 m (f + 16)) (load32 m (f + 48)) (load32 m (f + 36)) (load32 m (f + 32)) (load32 m (f + 28))
    (u16 (load32 m (f + 52))) (load16 m f) (load16 m (f + 2)) (load16 m (f + 4)) (load16 m (f + 6)) (ss c) (gdtr c)
    (idtr c) (tr c).

Lemma pop_seg_on s m c f f' (set : Z -> Cpu -> Cpu) {A} (k : K A) r s' :
  kernel_desc c m -> cs c = kKCodeSeg -> kernel_sel (load16 m f) -> esp c = f -> f' = f + 2 -> 0 <= f < W32 - 2 ->
  runs k (at_ s m (set (load16 m f) (set_ax (load16 m f) (set_esp f' c)))) r s' ->
  runs (pop_seg set ;;; k) (at_ s m c) r s'.
Proof.
  intros [K1 K2 K3 K4] Hcs Hsel He Hf' Hf Hk. pose proof (load16_range m f) as Hv.
  eapply (runs_bind _ _ _ tt); [|exact Hk]. unfold pop_seg.
  eapply (runs_bind _ _ _ (load16 m f) (at_ s m (set_esp f' c))).
  { unfold popw. eapply runs_bind; [reflexivity|]. cbv beta. change (cpu (at_ s m c)) with c. rewrite He.
    eapply runs_bind; [reflexivity|]. cbv beta. rewrite u32_small by lia. rewrite <- Hf'.
    eapply runs_bind; [apply set_reg_at|]. reflexivity. }
  eapply runs_bind; [apply set_reg_at|]. eapply runs_bind; [reflexivity|]. cbv beta.
  change (cpu (at_ ?s ?m ?c)) with c. rewrite ax_set_ax by done. apply load_seg_on; [by split|exact Hcs|exact Hsel].
Qed.

Lemma pop_last s m c f f' g : esp c = f -> f' = f + 4 -> 0 <= f < W32 - 4 ->
  runs (v <- popl ;; set_reg (g v)) (at_ s m c) tt (at_ s m (g (load32 m f) (set_esp f' c))).
Proof. intros <- -> Hf. eapply runs_bind; [by apply popl_at|]. apply set_reg_at. Qed.

Definition popped (m : gmap Z Z) (f : Z) (c : Cpu) : Cpu :=
  set_esp (f + 32) (set_eax (load32 m (f + 28)) (set_ecx (load32 m (f + 24)) (set_edx (load32 m (f + 20))
    (set_ebx (load32 m (f + 16)) (set_ebp (load32 m (f + 8)) (set_esi (load32 m (f + 4)) (set_edi (load32 m f) c))))))).

Lemma popal_at s m c f : esp c = f -> 0 <= f -> f + 32 < W32 -> runs popal (at_ s m c) tt (at_ s m (popped m f c)).
Proof.
  intros He H0 H1. unfold popal.
  apply (pop_into s m c f (f + 4) set_edi); [done|lia|lia|].
  apply (pop_into s m _ (f + 4) (f + 8) set_esi); [reflexivity|lia|lia|].
  apply (pop_into s m _ (f + 8) (f + 12) set_ebp); [reflexivity|lia|lia|].
  apply (pop_into s m _ (f + 12) (f + 16) (fun _ c => c)); [reflexivity|lia|lia|].
  apply (pop_into s m _ (f + 16) (f + 20) set_ebx); [reflexivity|lia|lia|].
  apply (pop_into s m _ (f + 20) (f + 24) set_edx); [reflexivity|lia|lia|].
  apply (pop_into s m _ (f + 24) (f + 28) set_ecx); [reflexivity|lia|lia|].
  replace (popped m f c) with (set_eax (load32 m (f + 28)) (set_esp (f + 32) (set_ecx (load32 m (f + 24)) (set_esp (f + 28)
    (set_edx (load32 m (f + 20)) (set_esp (f + 24) (set_ebx (load32 m (f + 16)) (set_esp (f + 20) (set_esp (f + 16)
    (set_ebp (load32 m (f + 8)) (set_esp (f + 12) (set_esi (load32 m (f + 4)) (set_esp (f + 8) (set_edi (load32 m f)
    (set_esp (f + 4) c))))))))))))))) by (destruct c; reflexivity).
  apply (pop_last s m _ (f + 28) (f + 32) set_eax); [reflexivity|lia|lia].
Qed.

Lemma iret_at s m c f :
  kernel_desc c m -> cs c = kKCodeSeg -> u16 (load32 m (f + 4)) = kKCodeSeg -> esp c = f -> 0 <= f -> f + 12 < W32 ->
  runs iret (at_ s m c) tt (at_ s m (set_esp (f + 12) (set_eflags (load32 m (f + 8)) (set_cs (u16 (load32 m (f + 4)))
    (set_eip (load32 m f) c))))).
Proof.
  intros [K1 K2 K3 K4] Hcs Hsel He H0 H1. unfold iret.
  eapply runs_bind; [apply popl_at; lia|]. rewrite He. eapply runs_bind; [apply popl_at; change (esp _) with (f + 4); lia|].
  change (esp (set_esp (f + 4) c)) with (f + 4). eapply runs_bind; [apply popl_at; change (esp _) with (f + 4 + 4); lia|].
  change (esp (set_esp (f + 4 + 4) _)) with (f + 4 + 4). replace (f + 4 + 4) with (f + 8) by lia.
  eapply runs_bind; [reflexivity|]. cbv beta. change (cpu (at_ ?s ?m ?c)) with c. change (mem (at_ ?s ?m ?c)) with m. rewrite Hsel.
  match goal with |- context [cpl ?x] => assert (cpl x = 0) as -> by (unfold cpl; change (cs x) with (cs c); by rewrite Hcs) end.
  change (kKCodeSeg mod 4 =? 0) with true. cbn [negb].
  rewrite code_check_kernel; [|by split|exact Hcs]. destruct c. cbn in He, Hsel |- *. rewrite <- Hsel. unfold runs, bind, refuse, ret, set_reg, modify, at_. cbn.
  replace (f + 8 + 4) with (f + 12) by lia. done.
Qed.

(** The selectors of a frame at [f] are the kernel's. *)
Definition frame_sels (m : gmap Z Z) (f : Z) : Prop :=
  u16 (load32 m (f + 52)) = kKCodeSeg /\ kernel_sel (load16 m f) /\ kernel_sel (load16 m (f + 2)) /\
  kernel_sel (load16 m (f + 4)) /\ kernel_sel (load16 m (f + 6)).

(** The second half of [_alltraps]. *)
Lemma trap_restore_on s m c b :
  kernel_desc c m -> cs c = kKCodeSeg -> frame_sels m (b + 8) ->
  esp c = b + 4 -> load32 m (b + 4) = b + 8 -> 0 <= b -> b + 68 < W32 ->
  runs trap_restore (at_ s m c) tt (at_ s m (restored m (b + 8) c)).
Proof.
  intros [K1 K2 K3 K4] Hcs (S0 & S1 & S2 & S3 & S4) He Harg H0 H1. unfold trap_restore, restore_segs. set (f := b + 8) in *.
  apply (pop_into s m c (b + 4) (b + 8) set_esp); [done|lia|lia|]. rewrite Harg. apply seq_assoc.
  apply (pop_seg_on s m _ f (f + 2) set_ds); [by split|exact Hcs|exact S1|reflexivity|lia|lia|]. apply seq_assoc.
  apply (pop_seg_on s m _ (f + 2) (f + 4) set_es); [by split|exact Hcs|exact S2|reflexivity|lia|lia|]. apply seq_assoc.
  apply (pop_seg_on s m _ (f + 4) (f + 6) set_fs); [by split|exact Hcs|exact S3|reflexivity|lia|lia|].
  apply (pop_seg_on s m _ (f + 6) (f + 8) set_gs); [by split|exact Hcs|exact S4|reflexivity|lia|lia|].
  match goal with |- runs _ (at_ _ _ ?c1) _ _ =>
    replace (restored m f c) with (restored m f c1) by (destruct c; reflexivity);
    assert (ds c1 = load16 m f /\ es c1 = load16 m (f + 2) /\ fs c1 = load16 m (f + 4) /\ gs c1 = load16 m (f + 6) /\
      esp c1 = f + 8 /\ gdtr c1 = gdtr c /\ cs c1 = cs c) as (E1 & E2 & E3 & E4 & E5 & E6 & E7) by (repeat split);
    rewrite <- E7 in Hcs; rewrite <- E6 in K1, K2; revert E1 E2 E3 E4 E5 Hcs K1 K2; clear E6 E7; generalize c1 end.
  clear c He. intros c E1 E2 E3 E4 E5 Hcs K1 K2. eapply runs_bind; [apply (popal_at s m c (f + 8)); [done|lia|lia]|].
  eapply runs_bind.
  { eapply runs_bind; [reflexivity|]. cbv beta. change (esp (cpu (at_ s m (popped m (f + 8) c)))) with (f + 8 + 32).
    rewrite u32_small by lia. apply set_reg_at. }
  match goal with |- runs _ _ _ (at_ _ _ ?c2) => replace c2 with (set_esp (f + 60) (set_eflags (load32 m (f + 56))
    (set_cs (u16 (load32 m (f + 52))) (set_eip (load32 m (f + 48)) (set_esp (f + 48) (popped m (f + 8) c)))))) end.
  - replace (f + 8 + 32 + 8) with (f + 48) by lia.
    replace (f + 60) with (f + 48 + 12) by lia. replace (f + 56) with (f + 48 + 8) by lia.
    replace (f + 52) with (f + 48 + 4) by lia. apply iret_at; [by split|exact Hcs|by replace (f + 48 + 4) with (f + 52) by lia|reflexivity|lia|lia].
  - unfold restored, popped. rewrite <- E1, <- E2, <- E3, <- E4.
    replace (f + 8 + 28) with (f + 36) by lia. replace (f + 8 + 24) with (f + 32) by lia.
    replace (f + 8 + 20) with (f + 28) by lia. replace (f + 8 + 16) with (f + 24) by lia.
    replace (f + 8 + 8) with (f + 16) by lia. replace (f + 8 + 4) with (f + 12) by lia. destruct c. reflexivity.
Qed.

(** ** The whole path *)

Section Path.
Context `{Platform}.
Context (ra : Z) (scratch : Z * Z * Z).

(** The processor runs kernel code, and the registers have the width of the machine. *)
Definition cpu_ok (c : Cpu) : Prop :=
  kernel_sels c /\
  Forall (fun x => 0 <= x < W32) [eflags c; eip c; eax c; ecx c; edx c; ebx c; ebp c; esi c; edi c].

(** The state in which the dispatcher is entered, [b] being its return address slot. *)
Definition entered (s : kstate) (b v err : Z) : kstate :=
  at_ s (pokes (mem s) b ((4%nat, 0, ra) :: entry_pokes (cpu s) b v err)) (set_esp b (kseg (cli_cpu (cpu s)))).

Lemma entry_ok c b v err : pokes_okb 68 (((4%nat, 0, ra) :: entry_pokes c b v err).*1) = true.
Proof. reflexivity. Qed.

(** A word or half word of the frame. *)
Lemma entered_read s b v err n o x :
  span b 68 -> (n, o, x) ∈ (4%nat, 0, ra) :: entry_pokes (cpu s) b v err -> 0 <= x < 256 ^ Z.of_nat n ->
  load n (mem (entered s b v err)) (b + o) = x.
Proof.
  intros Hb Hin Hx. unfold entered. cbn [mem at_ set_mem]. rewrite (pokes_read 68 _ _ _ _ _ x); [|done|done|done].
  by apply Z.mod_small.
Qed.

(** The processor can take the interrupt [v] with the stack pointer at [b + 68]: the kernel's
    descriptors and the gate are in place, and the stack does not overwrite them. *)
Record takes (s : kstate) (b v : Z) : Prop := {
  ti_off : off_gdt b;
  ti_desc : kernel_desc (cpu s) (mem s);
  ti_gate : gate_ready (cpu s) (mem s) v;
}.

(** The interrupted code can be returned to, with the frame at [b]. *)
Record leaves (s : kstate) (b : Z) : Prop := {
  lv_esp : esp (cpu s) = b;
  lv_arg : load32 (mem s) (b + 4) = b + 8;
  lv_cs : cs (cpu s) = kKCodeSeg;
  lv_desc : kernel_desc (cpu s) (mem s);
  lv_sels : frame_sels (mem s) (b + 8);
}.

(** The handler may return on another stack, with the frame at [b2] then. *)
Lemma interrupt_runs fuel s s2 b b2 v err :
  esp (cpu s) = b + 68 -> takes s b v -> b + 68 < W32 -> kernel_sels (cpu s) ->
  runs (IntrHandlerSel fuel (b + 8)) (entered s b v err) tt s2 ->
  0 <= b2 -> b2 + 68 < W32 -> leaves s2 b2 ->
  runs (interrupt ra scratch fuel v err) s tt (set_cpu (restored (mem s2) (b2 + 8) (cpu s2)) s2).
Proof.
  intros He [Hoff Hd Hg] Hw Hs Hh H2 Hw2 [Hesp Harg Hcs2 [K1 K2 K3 K4] Hsels]. pose proof (proj1 Hoff) as Hb.
  assert (0 <= b) as H0 by (unfold span in Hb; lia).
  rewrite (at_self s) at 1. rewrite (cpu_esp (cpu s)), He. unfold interrupt.
  apply stub_on; [done|lia|exact Hd|exact Hg|apply Hs|]. unfold alltraps. apply trap_save_on; [exact Hoff|exact Hd|exact Hs|].
  set (c3 := set_eip (load32 (mem s2) b2) (set_esp (b2 + 4)
    (set_eax scratch.1.1 (set_ecx scratch.1.2 (set_edx scratch.2 (cpu s2)))))).
  eapply (runs_bind _ _ _ tt (at_ s2 (mem s2) c3)).
  - unfold call_handler. apply (push_on s _ _ (b + 0)); [lia|lia|].
    apply (reg_into s _ _ esp b); [change (b + 0 = b); lia|]. rewrite u32_small by lia.
    apply (load_into s _ _ _ (b + 8)).
    { pose proof (entered_read s b v err 4 4 (b + 8) Hb) as E. apply E; [right; left|lia]. }
    eapply runs_bind; [|].
    { replace (b + 0) with b at 2 by lia. exact Hh. }
    rewrite (at_self s2) at 1. eapply runs_bind; [apply set_reg_at|].
    apply (pop_last s2 _ _ b2 (b2 + 4) set_eip); [exact Hesp|lia|lia].
  - replace (set_cpu (restored (mem s2) (b2 + 8) (cpu s2)) s2) with (at_ s2 (mem s2) (restored (mem s2) (b2 + 8) c3)).
    + apply trap_restore_on; [by split|exact Hcs2|exact Hsels|reflexivity|exact Harg|lia|lia].
    + clear. unfold c3. destruct s2 as [? c2]. destruct c2. reflexivity.
Qed.

(** The code before the call of the dispatcher. *)
Lemma entry_prefix s b v err :
  esp (cpu s) = b + 68 -> takes s b v -> kernel_sels (cpu s) ->
  exists s1 s2 m c, runs (cpu_interrupt v err) s tt s1 /\ runs (intr_stub v) s1 tt s2 /\
    runs trap_save s2 tt (at_ s m (set_esp (b + 4) c)) /\ entered s b v err = at_ s (store 4 m b ra) (set_esp b c) /\
    load32 (store 4 m b ra) (b + 4) = b + 8.
Proof.
  intros He [Hoff Hd Hg] Hs. pose proof (proj1 Hoff) as Hb.
  assert (0 <= b) as H0 by (unfold span in Hb; lia). assert (b + 68 <= W32) as H1 by (unfold span in Hb; lia).
  set (st := at_ s (pokes (mem s) b (drop 13 (entry_pokes (cpu s) b v err))) (set_esp (b + 48) (cli_cpu (cpu s)))).
  assert (runs (cpu_interrupt v err ;;; intr_stub v ;;; ret tt) s tt st) as Hr.
  { rewrite (at_self s) at 1. rewrite (cpu_esp (cpu s)), He. apply stub_on; [done|lia|exact Hd|exact Hg|apply Hs|reflexivity]. }
  assert (runs (trap_save ;;; ret tt) st tt
    (at_ s (pokes (mem s) b (entry_pokes (cpu s) b v err)) (set_esp (b + 4) (kseg (cli_cpu (cpu s)))))) as Hr2.
  { apply trap_save_on; [exact Hoff|exact Hd|exact Hs|reflexivity]. }
  apply runs_bind_inv in Hr as ([] & s1 & Hr1 & Hr3). apply runs_skip_inv in Hr2, Hr3.
  exists s1, st. eexists _, _. split; [exact Hr1|]. split; [exact Hr3|]. split; [exact Hr2|]. split.
  - unfold entered. cbn [pokes]. replace (b + 0) with b by lia. reflexivity.
  - pose proof (entered_read s b v err 4 4 (b + 8) Hb) as E. unfold entered in E. cbn [pokes] in E.
    replace (b + 0) with b in E by lia. apply E; [right; left|lia].
Qed.

(** An interrupt whose handler gives the processor to a new thread. *)
Lemma interrupt_enters fuel s s2 b v err :
  esp (cpu s) = b + 68 -> takes s b v -> b + 68 < W32 -> kernel_sels (cpu s) ->
  enters (IntrHandlerSel fuel (b + 8)) (entered s b v err) s2 ->
  enters (interrupt ra scratch fuel v err) s s2.
Proof.
  intros He Ht Hw Hs Hh. pose proof (proj1 (ti_off _ _ _ Ht)) as Hb. assert (0 <= b) as H0 by (unfold span in Hb; lia).
  destruct (entry_prefix s b v err He Ht Hs) as (s1 & s1' & m & c & H1 & H2 & H3 & Ee & Harg).
  change (store 4 m b ra) with (store32 m b ra) in Ee, Harg.
  unfold interrupt. eapply enters_bind; [exact H1|]. eapply enters_bind; [exact H2|].
  unfold alltraps. eapply enters_bind; [exact H3|]. apply enters_first. unfold call_handler.
  eapply enters_bind.
  { pose proof (pushl_at s m (set_esp (b + 4) c) ra) as Hp. change (esp (set_esp (b + 4) c)) with (b + 4) in Hp.
    replace (b + 4 - 4) with b in Hp by lia. apply Hp. lia. }
  change (set_esp b (set_esp (b + 4) c)) with (set_esp b c).
  eapply enters_bind; [reflexivity|]. cbv beta. change (esp (cpu (at_ _ _ (set_esp b c)))) with b.
  rewrite u32_small by lia. eapply enters_bind; [apply runs_ld32|]. cbv beta.
  cbn [mem at_ set_mem]. rewrite Harg. apply enters_first. rewrite <- Ee. exact Hh.
Qed.

(** The 68 bytes are as they were when the dispatcher was entered. *)
Definition keeps_frame (b : Z) (m m' : gmap Z Z) : Prop :=
  forall k, 0 <= k < 68 -> load8 m' (b + k) = load8 m (b + k).

Lemma keeps_load b m m' n o : keeps_frame b m m' -> 0 <= o -> o + Z.of_nat n <= 68 -> load n m' (b + o) = load n m (b + o).
Proof.
  intros Hk H0 H1. apply load_ext. intros i Hi. replace (b + o + i) with (b + (o + i)) by lia. apply Hk. lia.
Qed.

Lemma frame_restores s b v err m c :
  esp (cpu s) = b + 68 -> span b 68 -> cpu_ok (cpu s) -> 0 <= v < W32 -> 0 <= err < W32 ->
  keeps_frame b (mem (entered s b v err)) m -> sys_of c = sys_of (cpu s) -> restored m (b + 8) c = cpu s.
Proof.
  intros He Hb ((Hcs & Hds & Hes & Hfs & Hgs) & Hall) Hv Herr Hk Hsys. apply kernel_sel_16 in Hds, Hes, Hfs, Hgs.
  assert (0 <= cs (cpu s) < 65536) by (rewrite Hcs; unfold kKCodeSeg; lia).
  rewrite !Forall_cons in Hall. destruct Hall as (H1 & H2 & H3 & H4 & H5 & H6 & H7 & H8 & H9 & _).
  assert (forall n o x f, (n, o, x) ∈ entry_pokes (cpu s) b v err -> 0 <= o -> o + Z.of_nat n <= 68 ->
    0 <= x < 256 ^ Z.of_nat n -> f = b + o -> load n m f = x) as Hread.
  { intros n o x f Hin Ho1 Ho2 Hx ->. rewrite (keeps_load _ _ _ _ _ Hk) by done. apply entered_read; [done|by right|done]. }
  assert (forall o x f, (4%nat, o, x) ∈ entry_pokes (cpu s) b v err -> 0 <= o -> o + 4 <= 68 -> 0 <= x < W32 ->
    f = b + o -> load32 m f = x) as R4 by (intros o x f Hin ? ? ? ->; exact (Hread 4%nat o x _ Hin ltac:(lia) ltac:(lia) ltac:(lia) eq_refl)).
  assert (forall o x f, (2%nat, o, x) ∈ entry_pokes (cpu s) b v err -> 0 <= o -> o + 2 <= 68 -> 0 <= x < 65536 ->
    f = b + o -> load16 m f = x) as R2 by (intros o x f Hin ? ? ? ->; exact (Hread 2%nat o x _ Hin ltac:(lia) ltac:(lia) ltac:(lia) eq_refl)).
  unfold restored.
  rewrite (R4 64 (eflags (cpu s))), (R4 32 (ebx (cpu s))), (R4 20 (esi (cpu s))), (R4 16 (edi (cpu s))),
    (R4 24 (ebp (cpu s))), (R4 56 (eip (cpu s))), (R4 44 (eax (cpu s))), (R4 40 (ecx (cpu s))), (R4 36 (edx (cpu s))),
    (R4 60 (cs (cpu s))), (R2 8 (ds (cpu s))), (R2 10 (es (cpu s))), (R2 12 (fs (cpu s))), (R2 14 (gs (cpu s)))
    by (first [solve [unfold entry_pokes; repeat first [left | right]] | lia]).
  rewrite u16_small by done. replace (b + 8 + 60) with (esp (cpu s)) by lia.
  unfold sys_of in Hsys. injection Hsys as -> -> -> -> -> -> -> -> ->. by destruct (cpu s).
Qed.

(** A frame that the handler has left alone can be returned to. *)
Lemma kept_frame_sels s b v err m :
  span b 68 -> cpu_ok (cpu s) -> keeps_frame b (mem (entered s b v err)) m ->
  load32 m (b + 4) = b + 8 /\ frame_sels m (b + 8).
Proof.
  intros Hb ((Hcs & Hds & Hes & Hfs & Hgs) & _) Hk.
  assert (forall n o x, (n, o, x) ∈ entry_pokes (cpu s) b v err -> 0 <= o -> o + Z.of_nat n <= 68 ->
    0 <= x < 256 ^ Z.of_nat n -> load n m (b + o) = x) as R.
  { intros n o x Hin Ho1 Ho2 Hx. rewrite (keeps_load _ _ _ _ _ Hk) by done. apply entered_read; [done|by right|done]. }
  assert (forall o x, (2%nat, o, x) ∈ entry_pokes (cpu s) b v err -> 0 <= o -> o + 2 <= 68 -> kernel_sel x -> kernel_sel (load16 m (b + o))) as R2.
  { intros o x Hin H0 H1 Hx. pose proof (kernel_sel_16 x Hx). enough (load16 m (b + o) = x) as -> by done. exact (R 2%nat o x Hin H0 H1 ltac:(lia)). }
  split; [exact (R 4%nat 4 (b + 8) ltac:(left) ltac:(lia) ltac:(lia) ltac:(unfold span in Hb; lia))|].
  unfold frame_sels. replace (b + 8 + 52) with (b + 60) by lia. replace (b + 8 + 2) with (b + 10) by lia.
  replace (b + 8 + 4) with (b + 12) by lia. replace (b + 8 + 6) with (b + 14) by lia. split_and!.
  - replace (load32 m (b + 60)) with (cs (cpu s)); [by rewrite Hcs|]. symmetry.
    apply (R 4%nat 60 (cs (cpu s))); [unfold entry_pokes; repeat first [left | right]|lia|lia|rewrite Hcs; unfold kKCodeSeg; lia].
  - apply (R2 8 (ds (cpu s))); [unfold entry_pokes; repeat first [left | right]|lia|lia|done].
  - apply (R2 10 (es (cpu s))); [unfold entry_pokes; repeat first [left | right]|lia|lia|done].
  - apply (R2 12 (fs (cpu s))); [unfold entry_pokes; repeat first [left | right]|lia|lia|done].
  - apply (R2 14 (gs (cpu s))); [unfold entry_pokes; repeat first [left | right]|lia|lia|done].
Qed.

(** The descriptors are still there when the dispatcher is entered. *)
Lemma entered_desc s b v err : takes s b v -> kernel_desc (cpu (entered s b v err)) (mem (entered s b v err)).
Proof.
  intros [Hoff Hd _]. apply (pokes_desc b (cpu s) (mem s) _ Hoff (entry_ok (cpu s) b v err)) in Hd.
  destruct Hd as [K1 K2 K3 K4]. split; [exact K1|exact K2|exact K3|exact K4].
Qed.

Lemma cli_bit c : Z.testbit (Z.land (eflags c) (not32 (2 ^ 9))) 9 = false.
Proof. rewrite Z.land_spec. apply andb_false_r. Qed.

(** C13: the entry code is transparent to the interrupted code. For every vector whose gate is
    as the kernel installs it, with the kernel's descriptors in place ([takes]) and kernel code
    interrupted ([cpu_ok]), with and without an error code of the processor, the handler runs
    with interrupts disabled and the kernel's segments, on a frame that holds the vector, the
    error code and the registers of the interrupted code; only the 68 bytes below the stack
    pointer have been written. When the handler returns and the selectors in the frame are
    still fit ([leaves]), the registers are loaded back from the frame: a handler that leaves
    the frame alone leaves every register as it was, whatever compiled code did to [eax],
    [ecx] and [edx], and one that changes the frame returns a value. *)
Theorem interrupt_transparent fuel s b v err (s1 := entered s b v err) :
  esp (cpu s) = b + 68 -> takes s b v -> b + 68 < W32 -> cpu_ok (cpu s) -> 0 <= err < W32 ->
    load32 (mem s1) (intr_reg_vec (b + 8)) = v /\
    load32 (mem s1) (intr_reg_err (b + 8)) = (if has_err_code v then err else 0) /\
    load32 (mem s1) (r_eax (b + 8)) = eax (cpu s) /\ load32 (mem s1) (r_ebx (b + 8)) = ebx (cpu s) /\
    load32 (mem s1) (r_ecx (b + 8)) = ecx (cpu s) /\ load32 (mem s1) (r_edx (b + 8)) = edx (cpu s) /\
    ds (cpu s1) = kKDataSeg /\ Z.testbit (eflags (cpu s1)) 9 = false /\
    only (fun p => inr_ p (b, 68)) (mem s) (mem s1) /\ kernel_desc (cpu s1) (mem s1) /\
    (forall m, keeps_frame b (mem s1) m -> load32 m (b + 4) = b + 8 /\ frame_sels m (b + 8)) /\
    forall s2, runs (IntrHandlerSel fuel (b + 8)) s1 tt s2 -> leaves s2 b ->
      runs (interrupt ra scratch fuel v err) s tt (set_cpu (restored (mem s2) (b + 8) (cpu s2)) s2) /\
      (keeps_frame b (mem s1) (mem s2) -> sys_of (cpu s2) = sys_of (cpu s) ->
       restored (mem s2) (b + 8) (cpu s2) = cpu s).
Proof.
  intros He Ht Hw Hc Herr. pose proof (proj1 (ti_off _ _ _ Ht)) as Hb. pose proof (gr_vec _ _ _ (ti_gate _ _ _ Ht)) as Hv.
  unfold kIdtEntryNum in Hv. pose proof Hc as (Hs & Hall). rewrite !Forall_cons in Hall. destruct Hall as (H1 & H2 & H3 & H4 & H5 & H6 & H7 & H8 & H9 & _).
  assert (forall o x f, (4%nat, o, x) ∈ entry_pokes (cpu s) b v err -> 0 <= x < W32 -> f = b + o ->
    load32 (mem s1) f = x) as R.
  { intros o x f Hin Hx ->. apply (entered_read s b v err 4 o x Hb); [by right|exact Hx]. }
  assert (0 <= err_word v err < W32) by (unfold err_word; destruct (has_err_code v); lia).
  split_and!; [| | | | | | | |by apply (pokes_only 68)|by apply entered_desc|intros m; by apply kept_frame_sels|].
  - apply (R 48); [unfold entry_pokes; repeat first [left | right]|lia|unfold intr_reg_vec; lia].
  - apply (R 52); [unfold entry_pokes; repeat first [left | right]|done|unfold intr_reg_err; lia].
  - apply (R 44); [unfold entry_pokes; repeat first [left | right]|done|unfold r_eax; lia].
  - apply (R 32); [unfold entry_pokes; repeat first [left | right]|done|unfold r_ebx; lia].
  - apply (R 40); [unfold entry_pokes; repeat first [left | right]|done|unfold r_ecx; lia].
  - apply (R 36); [unfold entry_pokes; repeat first [left | right]|done|unfold r_edx; lia].
  - reflexivity.
  - apply (cli_bit (cpu s)).
  - intros s2 Hh Hlv. split; [apply (interrupt_runs fuel s s2 b); unfold span in Hb; (done || lia)|].
    intros Hk Hsys. apply (frame_restores s b v err); (done || lia).
Qed.

(** The dispatcher calls the registered handler of the frame's vector. *)
Lemma dispatch_runs fuel r s v hd o :
  load32 (mem s) (intr_reg_vec r) = v -> v < kIdtEntryNum -> intr_handler (intr s) !! v = Some hd ->
  yields (run_handler fuel hd r) s o -> yields (IntrHandlerSel fuel r) s o.
Proof.
  intros Hv Hlt Hh Hr. unfold IntrHandlerSel. eapply yields_bind; [apply runs_ld32|]. cbv beta. rewrite Hv.
  rewrite (proj2 (Z.leb_gt _ _)) by lia. eapply yields_bind; [reflexivity|]. cbv beta. rewrite Hh. exact Hr.
Qed.

(** C26: a whole keyboard interrupt, with the keyboard's gate and the kernel's descriptors in
    place ([takes]). From the processor's check of the gate and its pushes through the stub, the entry
    code, the dispatcher and the driver back to the interrupted code: it returns, takes one
    byte from the controller and moves the driver to the specified state, and of
    everything else, all processor registers included, only the 68 bytes below the
    stack pointer and the history of port accesses differ. *)
Theorem keyboard_interrupt n fuel s b km g' (h := polled (S n) kStatusReg (io s)) (input := answer kPs2DataPort h 0) :
  esp (cpu s) = b + 68 -> takes s b kKeyboardVec -> b + 68 < W32 -> cpu_ok (cpu s) ->
  intr_handler (intr s) !! kKeyboardVec = Some KeyboardHandlerId ->
  keymap (kbd s) = km -> span km 4 -> apart (phys b) 68 (phys km) 4 -> load32 (mem s) km = km ->
  ends_at kStatusReg full (io s) n -> (n < fuel)%nat -> kbd_spec 0 input (kbd s) = Some g' ->
  exists m', only (fun p => inr_ p (b, 68)) (mem s) m' /\
    runs (interrupt ra scratch fuel kKeyboardVec 0) s tt
      (set_mem m' (set_kbd g' (set_io (Outb 32 32 :: polled 1 kPs2DataPort h) s))).
Proof.
  intros He Ht Hw Hc Hh Hkm Hks Hap Hmap Hends Hf Hg. pose proof (proj1 (ti_off _ _ _ Ht)) as Hb. set (s1 := entered s b kKeyboardVec 0).
  assert (only (fun p => inr_ p (b, 68)) (mem s) (mem s1)) as Ho by (by apply (pokes_only 68)).
  assert (forall o x, (4%nat, o, x) ∈ entry_pokes (cpu s) b kKeyboardVec 0 -> 0 <= x < W32 ->
    load32 (mem s1) (b + o) = x) as R.
  { intros o x Hin Hx. apply (entered_read s b kKeyboardVec 0 4 o x Hb); [by right|exact Hx]. }
  set (s2 := set_kbd g' (set_io (Outb 32 32 :: polled 1 kPs2DataPort h) s1)).
  assert (load32 (mem s1) (b + 48) = kKeyboardVec) as Hv.
  { apply R; [unfold entry_pokes; repeat first [left | right]|unfold kKeyboardVec; lia]. }
  assert (runs (IntrHandlerSel fuel (b + 8)) s1 tt s2) as Hr.
  { apply (dispatch_runs fuel _ s1 kKeyboardVec KeyboardHandlerId); [|unfold kKeyboardVec, kIdtEntryNum; lia|exact Hh|].
    - unfold intr_reg_vec. by replace (b + 8 + 40) with (b + 48) by lia.
    - apply (keyboard_runs n fuel (b + 8) s1 g'); [exact Hends|exact Hf| | |exact Hg].
      + change (keymap (kbd s1)) with (keymap (kbd s)). rewrite Hkm, (only_load32 _ _ _ _ Ho); [done|done|].
        intros i Hi Hin. unfold inr_, apart in *. cbn [fst snd] in Hin. lia.
      + by replace (b + 8 + 40) with (b + 48) by lia. }
  exists (mem s1). split; [exact Ho|].
  replace (set_mem (mem s1) (set_kbd g' _)) with (set_cpu (restored (mem s2) (b + 8) (cpu s2)) s2).
  - apply (interrupt_runs fuel s s2 b b kKeyboardVec 0); [done|done|done|apply Hc|exact Hr|unfold span in Hb; lia|done|].
    destruct (kept_frame_sels s b kKeyboardVec 0 (mem s2) Hb Hc) as [Harg Hsels]; [by intros k Hk|].
    split; [reflexivity|exact Harg|exact (proj1 (proj1 Hc))|exact (entered_desc s b kKeyboardVec 0 Ht)|exact Hsels].
  - rewrite (frame_restores s b kKeyboardVec 0 (mem s2) (cpu s2)); [reflexivity|done|done|done|unfold kKeyboardVec; lia|lia| |reflexivity].
    intros k Hk. reflexivity.
Qed.
End Path.

(** ** The boot loader's entry *)

(** The multiboot header is valid: its three words sum to 0 modulo 2^32, it asks for the memory
    map, and it does not announce load addresses, which it does not have. *)
Lemma multiboot_header_valid :
  u32 (foldr Z.add 0 multiboot_header) = 0 /\ Z.testbit MULTIBOOT_HEADER_FLAGS 1 = true /\
  Z.land MULTIBOOT_HEADER_FLAGS MULTIBOOT_AOUT_KLUDGE = 0.
Proof. vm_compute. done. Qed.

(** The state in which [kernel_start] is called. *)
Definition booted (ra : Z) (s : kstate) : kstate :=
  at_ s (pokes (mem s) 48112 [(4%nat, 0, ra); (4%nat, 4, eax (cpu s)); (4%nat, 8, ebx (cpu s)); (4%nat, 8, 0)])
    (set_esp 48112 (set_eflags 2 (cpu s))).

Section BootSpec.
Context `{Platform}.

(** [_start] calls [kernel_start] with the values of the boot loader. *)
Lemma start_calls ra fuel s r s' :
  0 <= eax (cpu s) < W32 -> 0 <= ebx (cpu s) < W32 ->
  runs (kernel_start fuel (eax (cpu s)) (ebx (cpu s))) (booted ra s) r s' -> runs (start ra fuel) s r s'.
Proof.
  intros Ha Hb Hk. rewrite (at_self s) at 1. unfold start.
  eapply runs_bind; [apply set_reg_at|]. eapply runs_bind; [reflexivity|]. cbv beta.
  match goal with |- context [u32 (esp ?c + 16380)] => change (u32 (esp c + 16380)) with (48112 + 12) end.
  eapply runs_bind; [apply set_reg_at|]. rewrite set_esp_esp.
  apply (push_on s _ _ (48112 + 8)); [lia|lia|].
  eapply (runs_bind _ _ _ tt (at_ s _ (set_esp (48112 + 12) (set_eflags 2 (cpu s))))).
  { unfold popf. eapply runs_bind; [apply popl_at; change (esp _) with (48112 + 8); lia|].
    change (esp _) with (48112 + 8).
    replace (load32 _ (48112 + 8)) with 0; [reflexivity|]. symmetry. apply (load_store_same 4). left. lia. }
  apply (push_reg_on s _ _ (48112 + 8) _ ebx (ebx (cpu s))); [reflexivity|lia|lia|].
  apply (push_reg_on s _ _ (48112 + 4) _ eax (eax (cpu s))); [reflexivity|lia|lia|].
  apply (push_on s _ _ (48112 + 0)); [lia|lia|]. apply (reg_into s _ _ esp 48112); [reflexivity|].
  apply (load_into s _ _ _ (eax (cpu s))).
  { rewrite u32_small by lia. pose proof (pokes_read 12 (store 4 (mem s) (48112 + 8) 0) 48112
      [(4%nat, 0, ra); (4%nat, 4, eax (cpu s)); (4%nat, 8, ebx (cpu s))] 4 4 (eax (cpu s))) as E.
    etransitivity; [apply E|apply Z.mod_small; exact Ha]; [left; lia|reflexivity|right; left]. }
  apply (load_into s _ _ _ (ebx (cpu s))).
  { rewrite u32_small by lia. pose proof (pokes_read 12 (store 4 (mem s) (48112 + 8) 0) 48112
      [(4%nat, 0, ra); (4%nat, 4, eax (cpu s)); (4%nat, 8, ebx (cpu s))] 4 8 (ebx (cpu s))) as E.
    etransitivity; [apply E|apply Z.mod_small; exact Hb]; [left; lia|reflexivity|right; right; left]. }
  exact Hk.
Qed.

(** The 12 bytes of the boot stack that the entry code uses. *)
Lemma booted_only ra s : only (fun p => 48112 <= p < 48124) (mem s) (mem (booted ra s)).
Proof.
  eapply only_trans; [|apply (only_mono (fun p => inr_ p (48112, 12)))].
  - apply (only_store32 _ (mem s) 48120 0); [left; lia|]. intros i Hi. rewrite phys_low by lia. lia.
  - unfold inr_. cbn [fst snd]. change (phys 48112) with 48112. lia.
  - apply (pokes_only 12 _ 48112 [(4%nat, 0, ra); (4%nat, 4, eax (cpu s)); (4%nat, 8, ebx (cpu s))]);
      [left; lia|reflexivity].
Qed.

(** C28: what happens without a compliant boot loader or with too little memory: from the
    first instruction of boot.S on, the kernel returns -1, with interrupts disabled, having
    written only the screen and the 12 bytes of stack below [0xbbfc]. (The word at
    [0xbbfc] is the one that [ThreadInit] reserves for the main thread.) *)
Theorem boot_rejects ra fuel s (info := ebx (cpu s)) :
  0 <= eax (cpu s) < W32 -> lspan info 12 ->
  apart info 12 VIDEO (COLUMNS * LINES * 2) -> apart info 12 48112 12 ->
  eax (cpu s) <> MULTIBOOT_BOOTLOADER_MAGIC \/
  (IsBitSet (load32 (mem s) (mi_flags info)) 0 = true /\
   (load32 (mem s) (mi_mem_lower info) < MIN_LOWER_MEM \/ load32 (mem s) (mi_mem_upper info) < MIN_UPPER_MEM)) ->
  exists s', runs (start ra fuel) s (Some (-1)) s' /\ Z.testbit (eflags (cpu s')) 9 = false /\
    only (fun p => VIDEO <= p < VIDEO + COLUMNS * LINES * 2 \/ kMainStackAddr - 16 <= p < kMainStackAddr - 4)
      (mem s) (mem s').
Proof.
  intros Ha Hi Hv Hst Hbad. pose proof (booted_only ra s) as Ho.
  assert (0 <= info < W32) as Hinfo by (unfold lspan in Hi; lia).
  assert (forall a, info <= a <= info + 8 -> load32 (mem (booted ra s)) a = load32 (mem s) a) as El.
  { intros a Har. unfold lspan, apart in *. apply (only_load32 _ _ _ _ Ho); [left; lia|]. intros i Hi'.
    rewrite phys_low by lia. lia. }
  destruct (kernel_rejects fuel (eax (cpu s)) info (booted ra s) Hi Hv) as (m' & g' & Hr & Hs).
  { rewrite !El by mb_lia. rewrite u32_small by done. exact Hbad. }
  eexists. split_and!; [apply (start_calls ra fuel s _ _ Ha Hinfo Hr)|reflexivity|].
  change (mem (set_mem m' _)) with m'. intros p Hp. rewrite Hs by tauto. apply Ho.
  intros Hin. apply Hp. right. exact Hin.
Qed.
End BootSpec.

(** Kernel code with the stack pointer at [0xc1000fc0] and the tables in place: the descriptors
    of the kernel's segments, and gates for a page fault and the keyboard. *)
Definition intr_cpu : Cpu :=
  set_gdtr (47, kGdtBaseAddr) (set_idtr (2047, kIdtBaseAddr)
    (set_esp 3238006720 (set_eax 7 (set_ebx 8 (set_eip 1050000 (set_ds 16 (set_cs 8 (set_eflags 514 zero_cpu)))))))).

Definition gate_words (v offset : Z) : list (Z * Z) :=
  [(gate v, 8 * 65536 + offset mod 65536); (gate v + 4, 36352 + 65536 * (offset / 65536))].

Definition table_words : list (Z * Z) :=
  [(kGdtBaseAddr + 8, 65535); (kGdtBaseAddr + 12, 13605376); (kGdtBaseAddr + 16, 65535); (kGdtBaseAddr + 20, 13603328)].

Definition words_mem (l : list (Z * Z)) : gmap Z Z := foldr (fun av m => store32 m av.1 av.2) ∅ l.

Definition intr_example : kstate :=
  set_mem (words_mem ((3238002688, 3238002688) :: table_words ++ gate_words 14 1000 ++ gate_words 33 1000)) (set_cpu intr_cpu
    (set_intr (mk_IntrG ∅ {[33 := KeyboardHandlerId]}) (set_kbd (mk_KbdG 3238002688 0 ∅ 0) zero_state))).

(** The stubs at 1000. *)
Definition stub_platform (P : Platform) : Platform := {|
  K_END := @K_END P;
  intr_vec := fun _ => 1000;
  GdtLimit_fn := @GdtLimit_fn P;
  RunIde_fn := @RunIde_fn P;
  ThreadSwitch_ret := @ThreadSwitch_ret P;
  device := @device P;
|}.

Lemma intr_cpu_ok : cpu_ok intr_cpu.
Proof.
  split; [|repeat constructor; vm_compute; discriminate].
  split_and!; [reflexivity|by right|by left|by left|by left].
Qed.

Lemma example_takes P v : v = 14 \/ v = 33 -> @takes (stub_platform P) intr_example 3238006652 v.
Proof.
  intros Hv. split.
  - split; [right; lia|]. right. vm_compute. discriminate.
  - split; [reflexivity|vm_compute; discriminate|vm_compute; reflexivity..].
  - destruct Hv as [->| ->]; (split; [unfold kIdtEntryNum; lia|reflexivity|vm_compute; reflexivity..]).
Qed.

Lemma entered_same ra s b v err : set_cpu (cpu s) (entered ra s b v err) = set_mem (mem (entered ra s b v err)) s.
Proof. by destruct s. Qed.

(** No handler is registered for vector 14 here: the dispatcher returns at once. *)
Lemma interrupt_transparent_witness :
  runs (@interrupt (stub_platform null_platform) 1048900 (1, 2, 3) 0 14 2) intr_example tt
    (set_mem (mem (entered 1048900 intr_example 3238006652 14 2)) intr_example).
Proof.
  destruct (@interrupt_transparent (stub_platform null_platform) 1048900 (1, 2, 3) 0 intr_example 3238006652 14 2)
    as (Hvec & _ & _ & _ & _ & _ & _ & _ & _ & Hd & Hkeep & Hrun).
  - reflexivity.
  - apply example_takes. by left.
  - lia.
  - exact intr_cpu_ok.
  - lia.
  - set (s1 := entered 1048900 intr_example 3238006652 14 2) in *.
    destruct (Hkeep (mem s1)) as [Harg Hsels]; [by intros k Hk|].
    destruct (Hrun s1) as [Hr Hsame].
    + unfold IntrHandlerSel. eapply runs_bind; [apply runs_ld32|]. cbv beta. rewrite Hvec. reflexivity.
    + split; [reflexivity|exact Harg|reflexivity|exact Hd|exact Hsels].
    + rewrite (Hsame (fun k _ => eq_refl) eq_refl) in Hr. unfold s1 in Hr. rewrite entered_same in Hr. exact Hr.
Defined.

Lemma keyboard_interrupt_witness :
  exists s', runs (@interrupt (stub_platform kbd_platform) 1048900 (1, 2, 3) 1 33 0) intr_example tt s' /\
    cur (kbd s') = 1 /\ cpu s' = cpu intr_example.
Proof.
  destruct (@keyboard_interrupt (stub_platform kbd_platform) 1048900 (1, 2, 3) 0 1 intr_example 3238006652 3238002688
    (mk_KbdG 3238002688 1 {[0 := 0]} 1)) as (m' & _ & Hr).
  - reflexivity.
  - apply example_takes. by right.
  - lia.
  - exact intr_cpu_ok.
  - reflexivity.
  - reflexivity.
  - right. lia.
  - vm_compute. right. discriminate.
  - vm_compute. reflexivity.
  - split; [lia|vm_compute; reflexivity].
  - lia.
  - vm_compute. reflexivity.
  - eexists. split; [exact Hr|]. split; reflexivity.
Defined.

(** A boot loader that leaves 0 in [eax]. *)
Lemma boot_rejects_witness :
  exists s', runs (@start null_platform 1048600 1) zero_state (Some (-1)) s' /\ Z.testbit (eflags (cpu s')) 9 = false.
Proof.
  destruct (@boot_rejects null_platform 1048600 1 zero_state) as (s' & Hr & Hf & _).
  - cbn. lia.
  - unfold lspan. cbn. lia.
  - left. vm_compute. discriminate.
  - left. vm_compute. discriminate.
  - left. vm_compute. discriminate.
  - exists s'. split; [exact Hr|exact Hf].
Defined.
