(* ===== verification/Preempt.v ===== *)
(** * Preemptive multitasking, from the timer interrupt to the resumed thread

    The composition of the interrupt entry code, the dispatcher, the timer driver, the
    console, the waiting queue and the context switch. [sched] describes a kernel with one
    running and any number of preempted threads, each of them ([task]) with its stack and
    the registers it was interrupted with. The abstract machine is a list of tasks and a
    counter; a timer interrupt decrements the counter or rotates the list. *)

From Stdlib Require Import ZArith Lia ZifyBool.
From stdpp Require Import base numbers gmap list.
From S2P Require Import Prelude Memory Machine AsmWrapper Lists Queues Segment Interrupt Thread ContextSwitch Scheduler.
From S2P Require Import Timer Console Kernel IntrEntry IntrEntrySpec.

(** ** Tasks *)

(** A thread: its structure, the lower end [base] of the 68 bytes its interrupt frame takes, the
    topmost word of its stack, its registers, and its start function if it has not run yet (the
    registers are not its own then). *)
Record task : Type := mk_task {
  tk : Z;
  base : Z;
  top : Z;
  regs : Cpu;
  entry : option Z;
}.

(** The thread once it has the processor, with the registers [c] if it starts. *)
Definition resume_as (c : Cpu) (x : task) : task :=
  match entry x with
  | None => x
  | Some _ => mk_task (tk x) (base x) (top x) c None
  end.

(** What holds of every thread, running or not. *)
Record task_ok (m : gmap Z Z) (p : Z) (c0 : Cpu) (x : task) : Prop := {
  tk_kspan : kspan (tk x) 24;
  tk_pcb : load32 m (tk x + 8) = p;
  tk_stack : load32 m (tk x + 4) = top x + 4;
  tk_top : load32 m (top x) = tk x;
  tk_esp : esp (regs x) = base x + 68;
  tk_range : base x + 68 < W32;
  tk_regs : cpu_ok (regs x);
  tk_sys : sys_of (regs x) = sys_of c0;
}.

(** The separate places: screen, queue, TSS slot and process; the threads, their frames with the
    28 bytes the context switch uses, and their topmost words; the kernel's segment descriptors
    and the gate of the timer. *)
Definition sched_regions (s : kstate) (q h p : Z) (ts : list task) : list (Z * Z) :=
  [(VIDEO, 3840); (q, 8); (h, 4); (tss s + 4, 4); (p, 4)] ++
  map (fun x => (tk x, 24)) ts ++ map (fun x => (base x - 28, 96)) ts ++ map (fun x => (top x, 4)) ts ++
  [(kGdtBaseAddr + 8, 16); (gate kTimerVec, 8)].

Section Sched.
Context `{Platform}.

(** A thread that was preempted with the registers [regs x]. *)
Record preempted (m : gmap Z Z) (x : task) : Prop := {
  w_esp : load32 m (tk x + 12) = base x - 28;
  w_eip : load32 m (base x - 12) = ThreadSwitch_ret;
  w_arg : load32 m (base x + 4) = base x + 8;
  w_frame : forall c, sys_of c = sys_of (regs x) -> restored m (base x + 8) c = regs x;
}.

(** A thread that [KThreadRun] has prepared: the stack is empty but for the context with [fn]. *)
Record unstarted (m : gmap Z Z) (x : task) (fn : Z) : Prop := {
  u_base : base x = top x - 68;
  u_range : top x + 8 < W32;
  u_saved : saved m (tk x + 12) = mk_context (top x) 0 0 0 0 fn;
  u_fn : fn <> ThreadSwitch_ret;
}.

Definition waits (m : gmap Z Z) (x : task) : Prop :=
  match entry x with
  | None => preempted m x
  | Some fn => unstarted m x fn
  end.

(** The head of the list is running; the others wait, in this order. *)
Record sched (s : kstate) (q h p : Z) (x : task) (ws : list task) : Prop := {
  sc_queue : wait_thread_queue (thr s) = q;
  sc_rep : queue_rep (mem s) q h (nodes (map tk ws));
  sc_nodes : nodes_ok 4 (q :: q + 4 :: h :: nodes (map tk (x :: ws)));
  sc_cur : load32 (mem s) (tss s + 4) = top x;
  sc_tasks : Forall (task_ok (mem s) p (cpu s)) (x :: ws);
  sc_wait : Forall (waits (mem s)) ws;
  sc_cpu : cpu s = regs x;
  sc_run : entry x = None;
  sc_regions : regions_ok (sched_regions s q h p (x :: ws));
  sc_con : con_ok (con s);
  sc_handler : intr_handler (intr s) !! kTimerVec = Some TimerHandlerId;
  sc_timer : 1 <= timer s <= kTimerReset;
  sc_desc : kernel_desc (cpu s) (mem s);
  sc_gate : gate_ready (cpu s) (mem s) kTimerVec;
}.

(** The specification: one timer interrupt on the list of tasks and the counter. A thread that
    starts has the registers [c]. *)
Definition rotate_tasks (c : Cpu) (x : task) (ws : list task) : task * list task :=
  match ws with
  | [] => (x, [])
  | y :: ws' => (resume_as c y, ws' ++ [x])
  end.

Definition spec_tick (c : Cpu) (st : task * list task * Z) : task * list task * Z :=
  let '(x, ws, t) := st in
  if t =? 1 then (rotate_tasks c x ws, kTimerReset) else ((x, ws), t - 1).

(** The function that starts with this interrupt, if one does. *)
Definition spec_entry (st : task * list task * Z) : option Z :=
  let '(x, ws, t) := st in
  match ws with
  | y :: _ => if t =? 1 then entry y else None
  | [] => None
  end.
End Sched.

Lemma resume_as_place c x : tk (resume_as c x) = tk x /\ base (resume_as c x) = base x /\ top (resume_as c x) = top x.
Proof. unfold resume_as. by destruct (entry x). Qed.

Lemma resume_as_entry c x : entry (resume_as c x) = None.
Proof. unfold resume_as. by destruct (entry x) eqn:E. Qed.

(** The saved context lies in the thread's frame. *)
Lemma waits_esp `{Platform} m x :
  waits m x -> base x + 68 < W32 ->
  base x - 28 <= load32 m (tk x + 12) /\ load32 m (tk x + 12) + 20 <= base x + 68 /\ load32 m (tk x + 12) + 28 < W32.
Proof.
  unfold waits. destruct (entry x) as [fn|]; intros [H1 H2 H3 H4] Hb; [|lia].
  apply (f_equal c_esp) in H3. cbn [c_esp saved] in H3. lia.
Qed.

(** ** Separation *)

Section Places.
Context (s : kstate) (q h p : Z) (ts : list task) (Hok : regions_ok (sched_regions s q h p ts)).

Lemma place_thread i x : ts !! i = Some x -> sched_regions s q h p ts !! (5 + i)%nat = Some (tk x, 24).
Proof.
  intros Hx. unfold sched_regions. rewrite lookup_app_r by (cbn; lia). cbn [length]. replace (5 + i - 5)%nat with i by lia.
  rewrite lookup_app_l by (rewrite length_map; by eapply lookup_lt_Some). rewrite list_lookup_fmap, Hx. done.
Qed.

Lemma place_base i x :
  ts !! i = Some x -> sched_regions s q h p ts !! (5 + length ts + i)%nat = Some (base x - 28, 96).
Proof.
  intros Hx. unfold sched_regions. rewrite lookup_app_r by (cbn; lia). cbn [length].
  rewrite lookup_app_r by (rewrite length_map; lia). rewrite length_map.
  rewrite lookup_app_l by (rewrite length_map; apply lookup_lt_Some in Hx; lia).
  replace (5 + length ts + i - 5 - length ts)%nat with i by lia. rewrite list_lookup_fmap, Hx. done.
Qed.

Lemma place_top i x :
  ts !! i = Some x -> sched_regions s q h p ts !! (5 + 2 * length ts + i)%nat = Some (top x, 4).
Proof.
  intros Hx. unfold sched_regions. rewrite lookup_app_r by (cbn; lia). cbn [length].
  rewrite lookup_app_r by (rewrite length_map; lia). rewrite length_map.
  rewrite lookup_app_r by (rewrite length_map; lia). rewrite length_map.
  rewrite lookup_app_l by (rewrite length_map; apply lookup_lt_Some in Hx; lia).
  replace (5 + 2 * length ts + i - 5 - length ts - length ts)%nat with i by lia. rewrite list_lookup_fmap, Hx. done.
Qed.

Lemma place_tables i :
  sched_regions s q h p ts !! (5 + 3 * length ts + i)%nat = [(kGdtBaseAddr + 8, 16); (gate kTimerVec, 8)] !! i.
Proof.
  unfold sched_regions. rewrite lookup_app_r by (cbn; lia). cbn [length].
  do 3 (rewrite lookup_app_r by (rewrite !length_map; lia); rewrite length_map). f_equal. lia.
Qed.

(** Two places at different positions share no byte. *)
Lemma place_apart i j r1 r2 b :
  sched_regions s q h p ts !! i = Some r1 -> sched_regions s q h p ts !! j = Some r2 -> i <> j ->
  inr_ b r1 -> inr_ b r2 -> False.
Proof. intros H1 H2 Hne B1 B2. destruct Hok as [_ Hsep]. pose proof (Hsep i j r1 r2 H1 H2 Hne). unfold inr_, apart in *. lia. Qed.

Lemma place_span i r : sched_regions s q h p ts !! i = Some r -> span r.1 r.2.
Proof. destruct Hok as [Hsp _]. apply Hsp. Qed.

(** In none of the places. *)
Definition spare (b : Z) : Prop := forall j r, sched_regions s q h p ts !! j = Some r -> ~ inr_ b r.

(** Everything that a timer interrupt in the thread at the head writes, given as places; bytes
    elsewhere do not matter. *)
Definition written (x : task) (b : Z) : Prop :=
  inr_ b (VIDEO, 3840) \/ inr_ b (q, 8) \/ inr_ b (h, 4) \/ inr_ b (tss s + 4, 4) \/
  inr_ b (base x - 28, 96) \/ phys (tk x + 12) <= b < phys (tk x + 12) + 4 \/
  (exists y, y ∈ ts /\ phys (tk y + 16) <= b < phys (tk y + 16) + 4) \/ spare b.

Context (Hk : Forall (fun x => kspan (tk x) 24) ts).

Lemma thread_phys x k : x ∈ ts -> 0 <= k < 24 -> phys (tk x + k) = phys (tk x) + k.
Proof.
  intros Hx ?. rewrite Forall_forall in Hk. apply (phys_span _ 24); [|lia]. by apply kspan_span, Hk.
Qed.

(** Where a written byte lies: of the threads, only the links and the [esp] field of the
    running one. *)
Lemma written_place x b :
  ts !! 0%nat = Some x -> written x b ->
  spare b \/ exists j r, sched_regions s q h p ts !! j = Some r /\ inr_ b r /\
    ((j < 4)%nat \/ j = (5 + length ts + 0)%nat \/
     exists i y, j = (5 + i)%nat /\ ts !! i = Some y /\ (if decide (i = 0%nat) then 12 else 16) <= b - phys (tk y)).
Proof.
  intros Hx [Hw|[Hw|[Hw|[Hw|[Hw|[Hw|[(z & Hz & Hw)|Hw]]]]]]]; [right..|by left].
  - exists 0%nat. eexists. split; [reflexivity|]. split; [exact Hw|lia].
  - exists 1%nat. eexists. split; [reflexivity|]. split; [exact Hw|lia].
  - exists 2%nat. eexists. split; [reflexivity|]. split; [exact Hw|lia].
  - exists 3%nat. eexists. split; [reflexivity|]. split; [exact Hw|lia].
  - eexists _, _. split; [exact (place_base 0 x Hx)|]. split; [exact Hw|by right; left].
  - rewrite thread_phys in Hw by (lia || by eapply list_elem_of_lookup_2).
    eexists _, _. split; [exact (place_thread 0 x Hx)|]. split; [unfold inr_; cbn [fst snd]; lia|].
    right; right. exists 0%nat, x. rewrite decide_True by done. split; [done|]. split; [done|lia].
  - rewrite thread_phys in Hw by (done || lia). apply list_elem_of_lookup in Hz as (j & Hj).
    eexists _, _. split; [exact (place_thread j z Hj)|]. split; [unfold inr_; cbn [fst snd]; lia|].
    right; right. exists j, z. split; [done|]. split; [done|]. case_decide; lia.
Qed.

(** What an interrupt leaves alone: the topmost words, the other threads' frames and the
    fields of the threads. *)
Lemma written_top x i y b : ts !! 0%nat = Some x -> ts !! i = Some y -> written x b -> ~ inr_ b (top y, 4).
Proof.
  intros Hx Hy Hw Hb. pose proof (place_top i y Hy) as Ly. apply lookup_lt_Some in Hy.
  destruct (written_place x b Hx Hw) as [Hs|(j & r & Hr & Hbr & Hj)]; [exact (Hs _ _ Ly Hb)|].
  apply (place_apart j _ r _ b Hr Ly); [|done|done].
  destruct Hj as [Hj|[->|(i' & z & -> & Hz & _)]]; [lia|lia|]. apply lookup_lt_Some in Hz. lia.
Qed.

Lemma written_base x i y b :
  ts !! 0%nat = Some x -> ts !! i = Some y -> i <> 0%nat -> written x b -> ~ inr_ b (base y - 28, 96).
Proof.
  intros Hx Hy Hi Hw Hb. pose proof (place_base i y Hy) as Ly.
  destruct (written_place x b Hx Hw) as [Hs|(j & r & Hr & Hbr & Hj)]; [exact (Hs _ _ Ly Hb)|].
  apply (place_apart j _ r _ b Hr Ly); [|done|done].
  destruct Hj as [Hj|[->|(i' & z & -> & Hz & _)]]; [lia|lia|]. apply lookup_lt_Some in Hz. lia.
Qed.

Lemma written_tables x i r b :
  ts !! 0%nat = Some x -> [(kGdtBaseAddr + 8, 16); (gate kTimerVec, 8)] !! i = Some r -> written x b -> ~ inr_ b r.
Proof.
  intros Hx Hr Hw Hb. rewrite <- place_tables in Hr.
  destruct (written_place x b Hx Hw) as [Hs|(j & r' & Hr' & Hbr & Hj)]; [exact (Hs _ _ Hr Hb)|].
  apply (place_apart j _ r' r b Hr' Hr); [|done|done].
  destruct Hj as [Hj|[->|(i' & z & -> & Hz & _)]]; [lia|apply lookup_lt_Some in Hx; lia|]. apply lookup_lt_Some in Hz. lia.
Qed.

Lemma written_thread x i y b :
  ts !! 0%nat = Some x -> ts !! i = Some y -> written x b ->
  ~ (phys (tk y) <= b < phys (tk y) + (if decide (i = 0%nat) then 12 else 16)).
Proof.
  intros Hx Hy Hw Hb. pose proof (place_thread i y Hy) as Ly.
  assert (inr_ b (tk y, 24)) as Hby by (unfold inr_; cbn [fst snd]; case_decide; lia).
  destruct (written_place x b Hx Hw) as [Hs|(j & r & Hr & Hbr & Hj)]; [exact (Hs _ _ Ly Hby)|].
  destruct (decide (j = (5 + i)%nat)) as [->|Hne]; [|exact (place_apart j _ r _ b Hr Ly Hne Hbr Hby)].
  destruct Hj as [Hj|[Hj|(i' & z & Hj & Hz & Hlow)]]; [lia|apply lookup_lt_Some in Hy; lia|].
  replace i' with i in * by lia. rewrite Hy in Hz. injection Hz as <-. lia.
Qed.

(** Memory after such writes reads the same there. *)
Context (x : task) (m m' : gmap Z Z) (Hx : ts !! 0%nat = Some x) (Ho : only (written x) m m').

Lemma kept_top i y : ts !! i = Some y -> load32 m' (top y) = load32 m (top y).
Proof.
  intros Hy. apply (only_load32 _ _ _ _ Ho); [exact (place_span _ _ (place_top i y Hy))|].
  intros j Hj Hw. apply (written_top x i y _ Hx Hy Hw). unfold inr_. cbn [fst snd]. lia.
Qed.

Lemma kept_field i y k :
  ts !! i = Some y -> 0 <= k -> k + 4 <= (if decide (i = 0%nat) then 12 else 16) ->
  load32 m' (tk y + k) = load32 m (tk y + k).
Proof.
  intros Hy H0 Hle. pose proof (place_span _ _ (place_thread i y Hy)) as Hs. cbn [fst snd] in Hs.
  assert (k + 4 <= 16) by (case_decide; lia).
  apply (only_load32 _ _ _ _ Ho); [unfold span in *; lia|]. intros j Hj Hw. apply (written_thread x i y _ Hx Hy Hw).
  rewrite thread_phys by (lia || by eapply list_elem_of_lookup_2). lia.
Qed.

Lemma kept_frame i y k :
  ts !! i = Some y -> i <> 0%nat -> 0 <= k < 96 -> load8 m' (base y - 28 + k) = load8 m (base y - 28 + k).
Proof.
  intros Hy Hi Hk'. pose proof (place_span _ _ (place_base i y Hy)) as Hs. cbn [fst snd] in Hs.
  apply Ho. rewrite (phys_span _ 96) by (done || lia). intros Hw. apply (written_base x i y _ Hx Hy Hi Hw).
  unfold inr_. cbn [fst snd]. lia.
Qed.
End Places.

(** Places inside other places, at different positions, are separate too. *)
Lemma regions_ok_embed (R R' : list (Z * Z)) (g : nat -> nat) :
  regions_ok R ->
  (forall i r, R' !! i = Some r -> exists r', R !! g i = Some r' /\ r'.1 <= r.1 /\ r.1 + r.2 <= r'.1 + r'.2 /\ 0 < r.2) ->
  (forall i j, (i < length R')%nat -> (j < length R')%nat -> g i = g j -> i = j) ->
  regions_ok R'.
Proof.
  intros [Hsp Hsep] Hg Hinj.
  assert (forall i r, R' !! i = Some r -> exists r', R !! g i = Some r' /\ span r'.1 r'.2 /\
    r'.1 <= r.1 /\ r.1 + r.2 <= r'.1 + r'.2 /\ 0 < r.2 /\ phys r.1 = phys r'.1 + (r.1 - r'.1)) as Hg'.
  { intros i r Hr. destruct (Hg i r Hr) as (r' & Hr' & H1 & H2 & H3). exists r'. split_and!; try done.
    - by apply (Hsp (g i)).
    - pose proof (Hsp _ _ Hr') as Hs. rewrite <- (phys_span r'.1 r'.2) by (done || lia). f_equal. lia. }
  split.
  - intros i r Hr. destruct (Hg' i r Hr) as (r' & _ & Hs & H1 & H2 & H3 & _). unfold span in *. lia.
  - intros i j r1 r2 H1 H2 Hne. destruct (Hg' i r1 H1) as (x1 & L1 & _ & ? & ? & ? & P1).
    destruct (Hg' j r2 H2) as (x2 & L2 & _ & ? & ? & ? & P2).
    assert (g i <> g j) as Hne' by (intros E; apply Hne, Hinj; [by eapply lookup_lt_Some..|done]).
    pose proof (Hsep _ _ _ _ L1 L2 Hne'). unfold apart in *. lia.
Qed.

Lemma restored_ext m m' f c :
  (forall k, 0 <= k < 60 -> load8 m' (f + k) = load8 m (f + k)) -> restored m' f c = restored m f c.
Proof.
  intros E.
  assert (forall n k, 0 <= k -> k + Z.of_nat n <= 60 -> load n m' (f + k) = load n m (f + k)) as L.
  { intros n k H0 H1. apply load_ext. intros i Hi. replace (f + k + i) with (f + (k + i)) by lia. apply E. lia. }
  assert (forall k, 0 <= k <= 56 -> load32 m' (f + k) = load32 m (f + k)) as L4 by (intros; apply (L 4%nat); lia).
  assert (forall k, 0 <= k <= 56 -> load16 m' (f + k) = load16 m (f + k)) as L2 by (intros; apply (L 2%nat); lia).
  unfold restored. pose proof (L2 0 ltac:(lia)) as L0. rewrite Z.add_0_r in L0. rewrite L0, !L4, !L2 by lia. done.
Qed.

Section Kept.
Context `{Platform}.
Context (s : kstate) (q h p : Z) (x : task) (ws : list task) (Hs : sched s q h p x ws).
Context (m' : gmap Z Z) (Ho : only (written s q h p (x :: ws) x) (mem s) m').

Lemma sched_kspan : Forall (fun x => kspan (tk x) 24) (x :: ws).
Proof. eapply Forall_impl; [exact (sc_tasks _ _ _ _ _ _ Hs)|]. intros y Hy. apply Hy. Qed.

Lemma tasks_kept c : sys_of c = sys_of (cpu s) -> Forall (task_ok m' p c) (x :: ws).
Proof.
  intros Hc. pose proof (sc_tasks _ _ _ _ _ _ Hs) as Ht. rewrite Forall_lookup in Ht |- *. intros i y Hy.
  destruct (Ht i y Hy) as [H1 H2 H3 H4 H5 H6 H7 H8].
  pose proof (fun k => kept_field s q h p _ (sc_regions _ _ _ _ _ _ Hs) sched_kspan x _ _ eq_refl Ho i y k Hy) as Kf.
  constructor; try done.
  - rewrite Kf by (case_decide; lia). done.
  - rewrite Kf by (case_decide; lia). done.
  - rewrite (kept_top s q h p _ (sc_regions _ _ _ _ _ _ Hs) sched_kspan x _ _ eq_refl Ho i y Hy). done.
  - congruence.
Qed.

Lemma tables_kept c : sys_of c = sys_of (cpu s) -> kernel_desc c m' /\ gate_ready c m' kTimerVec.
Proof.
  intros Hc. pose proof (fun i r b => written_tables s q h p _ (sc_regions _ _ _ _ _ _ Hs) sched_kspan x i r b eq_refl) as Hw.
  assert (gdtr c = gdtr (cpu s) /\ idtr c = idtr (cpu s)) as [Eg Ei] by (unfold sys_of in Hc; by injection Hc).
  pose proof (sc_desc _ _ _ _ _ _ Hs) as Hd. pose proof (sc_gate _ _ _ _ _ _ Hs) as Hg.
  apply (kernel_desc_only _ _ _ _ Ho) in Hd; [apply (gate_ready_only _ _ _ _ _ Ho) in Hg|].
  - destruct Hd as [K1 K2 K3 K4], Hg as [G0 G1 G2 G3 G4]. split; split; rewrite ?Eg, ?Ei; assumption.
  - intros b Hb Hin. apply (Hw 1%nat _ b eq_refl Hb). exact Hin.
  - intros b Hb Hin. apply (Hw 0%nat _ b eq_refl Hb). unfold inr_. cbn [fst snd]. change (phys (kGdtBaseAddr + 8)) with 8. lia.
Qed.

Lemma waits_kept : Forall (waits m') ws.
Proof.
  pose proof (sc_wait _ _ _ _ _ _ Hs) as Hw. rewrite Forall_lookup in Hw |- *. intros i y Hy. specialize (Hw i y Hy).
  pose proof (fun k => kept_frame s q h p _ (sc_regions _ _ _ _ _ _ Hs) sched_kspan x _ _ eq_refl Ho (S i) y k Hy ltac:(lia)) as Kb.
  assert (forall o, - 28 <= o <= 64 -> load32 m' (base y + o) = load32 (mem s) (base y + o)) as K4.
  { intros o Hr. apply (load_ext 4). intros j Hj.
    replace (base y + o + j) with (base y - 28 + (28 + o + j)) by lia. apply Kb. lia. }
  pose proof (kept_field s q h p _ (sc_regions _ _ _ _ _ _ Hs) sched_kspan x _ _ eq_refl Ho (S i) y 12 Hy
    ltac:(lia) ltac:(case_decide; lia)) as K12.
  unfold waits in *. destruct (entry y) as [fn|]; destruct Hw as [H1 H2 H3 H4]; constructor; try done.
  - rewrite <- H3. pose proof (f_equal c_esp H3) as E. cbn [c_esp saved] in E. unfold saved. rewrite K12.
    assert (forall k, 0 <= k <= 16 -> load32 m' (load32 (mem s) (tk y + 12) + k) = load32 (mem s) (load32 (mem s) (tk y + 12) + k)) as Kk.
    { intros k Hk. replace (load32 (mem s) (tk y + 12) + k) with (base y + (48 + k)) by lia. apply K4. lia. }
    pose proof (Kk 0 ltac:(lia)) as K0. rewrite Z.add_0_r in K0. rewrite K0, !Kk by lia. done.
  - by rewrite K12.
  - specialize (K4 (-12)). rewrite <- H2. apply K4. lia.
  - rewrite K4 by lia. done.
  - intros c Hc. rewrite <- (H4 c Hc). apply restored_ext. intros k Hk.
    replace (base y + 8 + k) with (base y - 28 + (36 + k)) by lia. apply Kb. lia.
Qed.
End Kept.

(** ** Reaching the scheduler *)

Section Reach.
Context `{Platform}.
Context (s : kstate) (q h p : Z) (x : task) (ws : list task) (Hs : sched s q h p x ws).

(** What has been written when [ThreadSwitch] is called: the screen and the interrupt frame. *)
Definition early (b : Z) : Prop := inr_ b (VIDEO, 3840) \/ inr_ b (base x - 28, 96).

Lemma early_written b : early b -> written s q h p (x :: ws) x b.
Proof. unfold early, written. tauto. Qed.

Lemma early_place b : early b -> exists j r, sched_regions s q h p (x :: ws) !! j = Some r /\ inr_ b r /\
  (j = 0%nat \/ j = (5 + length (x :: ws) + 0)%nat).
Proof.
  intros [Hb|Hb]; [exists 0%nat|exists (5 + length (x :: ws) + 0)%nat]; eexists; (split; [|split; [exact Hb|lia]]).
  - reflexivity.
  - exact (place_base s q h p (x :: ws) 0 x eq_refl).
Qed.

(** Early writes spare every place but those two. *)
Lemma early_apart i r b :
  sched_regions s q h p (x :: ws) !! i = Some r -> i <> 0%nat -> i <> (5 + length (x :: ws))%nat ->
  early b -> ~ inr_ b r.
Proof.
  intros Hr H0 H1 He Hb. destruct (early_place b He) as (j & r' & Hr' & Hb' & Hj).
  apply (place_apart s q h p _ (sc_regions _ _ _ _ _ _ Hs) j i r' r b Hr' Hr); [lia|done|done].
Qed.

Lemma early_load i r m' :
  sched_regions s q h p (x :: ws) !! i = Some r -> i <> 0%nat -> i <> (5 + length (x :: ws))%nat -> r.2 = 4 ->
  only early (mem s) m' -> load32 m' r.1 = load32 (mem s) r.1.
Proof.
  intros Hr H0 H1 E4 Ho. pose proof (place_span s q h p _ (sc_regions _ _ _ _ _ _ Hs) i r Hr) as Hsp. rewrite E4 in Hsp.
  apply (only_load32 _ _ _ _ Ho Hsp). intros j Hj He. apply (early_apart i r _ Hr H0 H1 He). unfold inr_. lia.
Qed.

(** The queue is as it was. *)
Lemma early_queue m' : only early (mem s) m' -> queue_rep m' q h (nodes (map tk ws)).
Proof.
  intros Ho. apply (queue_rep_only _ _ _ _ _ _ (sc_rep _ _ _ _ _ _ Hs) Ho). intros b [Hb|[Hb|(n & Hn & Hb)]] He.
  - exact (early_apart 1 (q, 8) b eq_refl ltac:(lia) ltac:(lia) He Hb).
  - exact (early_apart 2 (h, 4) b eq_refl ltac:(lia) ltac:(lia) He Hb).
  - apply list_elem_of_lookup in Hn as (i & Hi). apply nodes_lookup in Hi as (t & Ht & ->).
    rewrite list_lookup_fmap in Ht. apply fmap_Some in Ht as (y & Hy & ->).
    apply (early_apart (5 + S i) (tk y, 24) b (place_thread s q h p (x :: ws) (S i) y Hy));
      [lia|cbn [length]; apply lookup_lt_Some in Hy; lia|exact He|].
    rewrite (thread_phys (x :: ws) (sched_kspan s q h p x ws Hs)) in Hb by (lia || (right; by eapply list_elem_of_lookup_2)).
    unfold inr_. cbn [fst snd]. lia.
Qed.

Lemma early_cur m' : only early (mem s) m' -> load32 m' (tss s + 4) = top x /\ load32 m' (top x) = tk x.
Proof.
  intros Ho. pose proof (sc_tasks _ _ _ _ _ _ Hs) as Ht. apply Forall_cons_1 in Ht as [Hx _]. split.
  - etransitivity; [exact (early_load 3 (tss s + 4, 4) m' eq_refl ltac:(lia) ltac:(cbn [length]; lia) eq_refl Ho)|apply Hs].
  - etransitivity; [|apply Hx].
    exact (early_load (5 + 2 * length (x :: ws) + 0) (top x, 4) m' (place_top s q h p (x :: ws) 0 x eq_refl)
      ltac:(cbn [length]; lia) ltac:(cbn [length]; lia) eq_refl Ho).
Qed.
End Reach.

(** Where the places of [ready] are among those of [sched]. *)
Definition place_of (n i : nat) : nat :=
  match i with
  | 0 => 1
  | 1 => 2
  | 2 => 3
  | 3 => 5 + n
  | 4 => 5 + n + 1
  | 5 => 5 + 2 * n + 1
  | 6 => 5 + 2 * n
  | 7 => 4
  | _ => i - 3
  end%nat.

Lemma place_of_inj n i j : (i < 8 + n)%nat -> (j < 8 + n)%nat -> (2 <= n)%nat -> place_of n i = place_of n j -> i = j.
Proof.
  intros Hi Hj Hn.
  do 8 (destruct i as [|i]; [do 8 (destruct j as [|j]; [cbn [place_of]; lia|]); cbn [place_of]; lia|]).
  do 8 (destruct j as [|j]; [cbn [place_of]; lia|]). cbn [place_of]. lia.
Qed.

Section Ready.
Context `{Platform}.
Context (s : kstate) (q h p : Z) (x y : task) (ws : list task) (Hs : sched s q h p x (y :: ws)).
Context (sb : kstate) (Ho : only (early x) (mem s) (mem sb)) (Ethr : thr sb = thr s) (Etss : tss sb = tss s).
Context (Eesp : esp (cpu sb) = base x) (Hregs : regs32 (cpu sb)).

Lemma ready_tasks : Forall (task_ok (mem sb) p (cpu s)) (x :: y :: ws) /\ Forall (waits (mem sb)) (y :: ws).
Proof.
  assert (only (written s q h p (x :: y :: ws) x) (mem s) (mem sb)) as How
    by (eapply only_mono; [|exact Ho]; intros b; apply early_written).
  split; [by apply (tasks_kept s q h p x (y :: ws) Hs _ How)|by apply (waits_kept s q h p x (y :: ws) Hs _ How)].
Qed.

Lemma ready_regions : regions_ok (switch_regions sb q h (tk x) (tk y) (map tk ws) p).
Proof.
  destruct ready_tasks as [Ht Hw]. apply Forall_cons_1 in Ht as [Hx Ht]. apply Forall_cons_1 in Ht as [Hy _].
  apply Forall_cons_1 in Hw as [Hwy _]. destruct (early_cur s q h p x (y :: ws) Hs (mem sb) Ho) as [Ecur _].
  pose proof (sc_regions _ _ _ _ _ _ Hs) as Hr. set (ts := x :: y :: ws) in *.
  apply (regions_ok_embed _ _ (place_of (length ts)) Hr).
  - pose proof (waits_esp _ _ Hwy (tk_range _ _ _ _ Hy)) as He. unfold switch_regions. rewrite Etss, Eesp, Ecur, (tk_stack _ _ _ _ Hy).
    replace (top y + 4 - 4) with (top y) by lia. intros i r Hi.
    destruct i as [|[|[|[|[|[|[|[|i]]]]]]]]; [injection Hi as <-; cbn [place_of fst snd]..|].
    + exists (q, 8). cbn. split; [done|lia].
    + exists (h, 4). cbn. split; [done|lia].
    + exists (tss s + 4, 4). cbn. split; [done|lia].
    + exists (base x - 28, 96). cbn [fst snd]. split; [|lia].
      pose proof (place_base s q h p ts 0 x eq_refl) as E. by rewrite Nat.add_0_r in E.
    + exists (base y - 28, 96). cbn [fst snd]. split; [exact (place_base s q h p ts 1 y eq_refl)|lia].
    + exists (top y, 4). cbn [fst snd]. split; [exact (place_top s q h p ts 1 y eq_refl)|lia].
    + exists (top x, 4). cbn [fst snd]. split; [|lia].
      pose proof (place_top s q h p ts 0 x eq_refl) as E. by rewrite Nat.add_0_r in E.
    + exists (p, 4). cbn. split; [done|lia].
    + change (map (fun t => (t, 24)) (map tk ts) !! i = Some r) in Hi. rewrite !list_lookup_fmap in Hi.
      destruct (ts !! i) as [z|] eqn:Ez; [|done]. injection Hi as <-. exists (tk z, 24). cbn [fst snd].
      split; [|lia]. exact (place_thread s q h p ts i z Ez).
  - assert (length (switch_regions sb q h (tk x) (tk y) (map tk ws) p) = 8 + length ts)%nat as ->.
    { unfold switch_regions, ts. cbn [map app length]. by rewrite !length_map. }
    intros i j Hi Hj. apply place_of_inj; [done|done|]. unfold ts. cbn [length]. lia.
Qed.

Lemma sched_ready : ready sb q h (tk x) (tk y) (map tk ws) p.
Proof.
  destruct ready_tasks as [Ht Hw]. pose proof Ht as Ht'. apply Forall_cons_1 in Ht' as [Hx Ht'].
  apply Forall_cons_1 in Ht' as [Hy _]. apply Forall_cons_1 in Hw as [Hwy _].
  destruct (early_cur s q h p x (y :: ws) Hs (mem sb) Ho) as [Ecur Etop].
  constructor.
  - rewrite Ethr. apply Hs.
  - exact (early_queue s q h p x (y :: ws) Hs (mem sb) Ho).
  - eapply nodes_ok_perm; [|exact (sc_nodes _ _ _ _ _ _ Hs)]. cbn [map nodes].
    change (q :: q + 4 :: h :: tk x + 16 :: ?l) with ([q; q + 4; h] ++ tk x + 16 :: l).
    rewrite <- Permutation_middle. reflexivity.
  - change (tk x :: tk y :: map tk ws) with (map tk (x :: y :: ws)). rewrite Forall_forall. intros t Hin.
    apply list_elem_of_fmap in Hin as (z & -> & Hz). rewrite Forall_forall in Ht. apply Ht. exact Hz.
  - rewrite Etss, Ecur. exact Etop.
  - apply Hx.
  - apply Hy.
  - rewrite (tk_stack _ _ _ _ Hy). replace (top y + 4 - 4) with (top y) by lia. apply Hy.
  - apply (waits_esp _ _ Hwy (tk_range _ _ _ _ Hy)).
  - exact Hregs.
  - exact ready_regions.
Qed.
End Ready.

(** ** The timer interrupt *)

Lemma regions_ok_perm R R' : R ≡ₚ R' -> regions_ok R -> regions_ok R'.
Proof.
  intros Hp [Hsp Hsep]. symmetry in Hp. apply Permutation_inj in Hp as (_ & f & Hinj & Hf). split.
  - intros i r Hr. rewrite Hf in Hr. by eapply Hsp.
  - intros i j r1 r2 H1 H2 Hne. rewrite Hf in H1, H2. apply (Hsep (f i) (f j)); [done|done|].
    intros E. apply Hne. by apply Hinj.
Qed.

Lemma sched_regions_perm s q h p ts ts' : ts ≡ₚ ts' -> sched_regions s q h p ts ≡ₚ sched_regions s q h p ts'.
Proof. intros Hp. unfold sched_regions. by rewrite Hp. Qed.

Lemma cpu_ok_regs32 c : cpu_ok c -> regs32 c.
Proof.
  intros (_ & Hall). rewrite !Forall_cons in Hall. unfold regs32. tauto.
Qed.

Section Step.
Context `{Platform}.
Context (ra : Z) (scratch : Z * Z * Z) (Hra : 0 <= ThreadSwitch_ret < W32).
Context (s : kstate) (q h p : Z) (x : task) (ws : list task) (Hs : sched s q h p x ws).

(** The state in which the dispatcher is called. *)
Definition at_entry : kstate := entered ra s (base x) kTimerVec 0.

Lemma head_ok : task_ok (mem s) p (cpu s) x.
Proof. pose proof (sc_tasks _ _ _ _ _ _ Hs) as Ht. by apply Forall_cons_1 in Ht as [Hx _]. Qed.

Lemma head_span : span (base x - 28) 96.
Proof. exact (place_span s q h p _ (sc_regions _ _ _ _ _ _ Hs) _ _ (place_base s q h p (x :: ws) 0 x eq_refl)). Qed.

Lemma head_frame_span : span (base x) 68.
Proof. pose proof head_span as Hb. unfold span in *. lia. Qed.

Lemma head_phys k : 0 <= k < 68 -> phys (base x + k) = phys (base x - 28) + 28 + k.
Proof.
  intros Hk. pose proof head_span as Hb. replace (base x + k) with (base x - 28 + (28 + k)) by lia.
  rewrite (phys_span _ 96) by (done || lia). lia.
Qed.

Lemma entry_early : only (early x) (mem s) (mem at_entry).
Proof.
  eapply only_mono; [|apply (pokes_only 68); [exact head_frame_span|apply (entry_ok ra)]].
  intros b Hb. right. unfold inr_ in *. cbn [fst snd] in *. pose proof (head_phys 0 ltac:(lia)) as E.
  rewrite Z.add_0_r in E. lia.
Qed.

Lemma entry_esp : esp (cpu s) = base x + 68.
Proof. rewrite (sc_cpu _ _ _ _ _ _ Hs). apply head_ok. Qed.

Lemma entry_cpu_ok : cpu_ok (cpu s).
Proof. rewrite (sc_cpu _ _ _ _ _ _ Hs). apply head_ok. Qed.

Lemma entry_takes : takes s (base x) kTimerVec.
Proof.
  split; [|apply Hs|apply Hs]. split; [exact head_frame_span|].
  pose proof (sc_regions _ _ _ _ _ _ Hs) as [_ Hsep].
  pose proof (Hsep _ _ _ _ (place_base s q h p (x :: ws) 0 x eq_refl) (place_tables s q h p (x :: ws) 0) ltac:(cbn [length]; lia)) as A.
  cbn [fst snd] in A. change (phys (kGdtBaseAddr + 8)) with 8 in A. pose proof (head_phys 0 ltac:(lia)) as E.
  rewrite Z.add_0_r in E. unfold apart in *. lia.
Qed.

Lemma entry_word o v :
  (4%nat, o, v) ∈ entry_pokes (cpu s) (base x) kTimerVec 0 -> 0 <= v < W32 -> load32 (mem at_entry) (base x + o) = v.
Proof. intros Hin Hv. apply (entered_read ra s (base x) kTimerVec 0 4 o v head_frame_span); [by right|exact Hv]. Qed.

Lemma entry_vec : load32 (mem at_entry) (base x + 8 + 40) = 32.
Proof.
  replace (base x + 8 + 40) with (base x + 48) by lia. apply entry_word; [|lia].
  unfold entry_pokes. repeat first [left | right].
Qed.

Lemma entry_arg : load32 (mem at_entry) (base x + 4) = base x + 8.
Proof.
  apply entry_word; [left|]. pose proof head_frame_span as Hb. unfold span in Hb. lia.
Qed.

(** The dispatcher calls the timer's handler. *)
Lemma entry_dispatch fuel o :
  yields (TimerHandler (base x + 8)) at_entry o -> yields (IntrHandlerSel fuel (base x + 8)) at_entry o.
Proof.
  intros Hr. apply (dispatch_runs fuel _ at_entry kTimerVec TimerHandlerId); [exact entry_vec|done| |exact Hr].
  exact (sc_handler _ _ _ _ _ _ Hs).
Qed.

(** The frame of the running thread keeps what the entry code wrote. *)
Lemma late_frame b :
  inr_ b (VIDEO, 3840) \/ qbytes q h (nodes (map tk (x :: ws))) b \/ inr_ b (tss s + 4, 4) \/
    stack_or (base x) (tk x + 12) b ->
  forall k, 0 <= k < 68 -> b <> phys (base x + k).
Proof.
  intros Hb k Hk ->. rewrite head_phys in Hb by done.
  pose proof (sc_regions _ _ _ _ _ _ Hs) as Hr. pose proof (sched_kspan s q h p x ws Hs) as Hks.
  pose proof (place_base s q h p (x :: ws) 0 x eq_refl) as Lb.
  assert (forall i r, sched_regions s q h p (x :: ws) !! i = Some r -> i <> (5 + length (x :: ws) + 0)%nat ->
    inr_ (phys (base x - 28) + 28 + k) r -> False) as A.
  { intros i r Hi Hne Hin. apply (place_apart s q h p _ Hr i _ r _ _ Hi Lb Hne Hin). unfold inr_. cbn [fst snd]. lia. }
  assert (forall i y o, (x :: ws) !! i = Some y -> 0 <= o <= 20 ->
    phys (tk y + o) <= phys (base x - 28) + 28 + k < phys (tk y + o) + 4 -> False) as At.
  { intros i y o Hy Ho' Hin. apply (A _ _ (place_thread s q h p _ i y Hy)); [apply lookup_lt_Some in Hy; lia|].
    rewrite (thread_phys _ Hks) in Hin by (lia || by eapply list_elem_of_lookup_2). unfold inr_. cbn [fst snd]. lia. }
  destruct Hb as [Hb|[[Hb|[Hb|(n & Hn & Hb)]]|[Hb|[Hb|Hb]]]].
  - exact (A 0%nat _ eq_refl ltac:(lia) Hb).
  - exact (A 1%nat _ eq_refl ltac:(lia) Hb).
  - exact (A 2%nat _ eq_refl ltac:(lia) Hb).
  - apply list_elem_of_lookup in Hn as (i & Hi). apply nodes_lookup in Hi as (t & Ht & ->).
    rewrite list_lookup_fmap in Ht.
    apply fmap_Some in Ht as (y & Hy & ->). exact (At i y 16 Hy ltac:(lia) Hb).
  - exact (A 3%nat _ eq_refl ltac:(cbn [length]; lia) Hb).
  - lia.
  - exact (At 0%nat x 12 eq_refl ltac:(lia) Hb).
Qed.

(** Leaving the interrupt on the stack it was taken on, with the frame as it was. *)
Lemma entry_leaves fuel s2 :
  runs (TimerHandler (base x + 8)) at_entry tt s2 -> cpu s2 = cpu at_entry -> kernel_desc (cpu s) (mem s2) ->
  (forall k, 0 <= k < 68 -> load8 (mem s2) (base x + k) = load8 (mem at_entry) (base x + k)) ->
  runs (interrupt ra scratch fuel kTimerVec 0) s tt (set_cpu (cpu s) s2).
Proof.
  intros Hr Hc Hd Hk. pose proof (tk_range _ _ _ _ head_ok) as Hw. pose proof head_frame_span as Hb.
  destruct (kept_frame_sels ra s (base x) kTimerVec 0 (mem s2) Hb entry_cpu_ok Hk) as [Harg Hsels].
  rewrite <- (frame_restores ra s (base x) kTimerVec 0 (mem s2) (cpu s2) entry_esp Hb entry_cpu_ok
    ltac:(unfold kTimerVec; lia) ltac:(lia) Hk ltac:(rewrite Hc; reflexivity)).
  apply (interrupt_runs ra scratch fuel s s2 (base x) (base x) kTimerVec 0 entry_esp entry_takes Hw);
    [apply entry_cpu_ok|exact (entry_dispatch fuel _ Hr)|unfold span in Hb; lia|exact Hw|].
  split; rewrite ?Hc; [reflexivity|exact Harg|exact (proj1 (proj1 entry_cpu_ok))| |exact Hsels].
  destruct Hd as [K1 K2 K3 K4]. split; [exact K1|exact K2|exact K3|exact K4].
Qed.

(** A state that differs from [s] in early bytes and in the timer, the port history and the
    cursor has the same tasks. *)
Lemma sched_early s' :
  only (early x) (mem s) (mem s') -> cpu s' = cpu s -> thr s' = thr s -> tss s' = tss s -> intr s' = intr s ->
  con_ok (con s') -> 1 <= timer s' <= kTimerReset -> sched s' q h p x ws.
Proof.
  intros Ho Ec Eh Et Ei Hcon Htm.
  assert (only (written s q h p (x :: ws) x) (mem s) (mem s')) as How
    by (eapply only_mono; [|exact Ho]; intros b; apply early_written).
  constructor; rewrite ?Ec, ?Eh, ?Et, ?Ei; try done; try apply Hs.
  - exact (early_queue s q h p x ws Hs _ Ho).
  - apply (early_cur s q h p x ws Hs _ Ho).
  - by apply (tasks_kept s q h p x ws Hs _ How).
  - by apply (waits_kept s q h p x ws Hs _ How).
  - unfold sched_regions. rewrite Et. apply Hs.
  - by apply (tables_kept s q h p x ws Hs _ How).
  - by apply (tables_kept s q h p x ws Hs _ How).
Qed.

(** Early writes keep the descriptors. *)
Lemma early_desc m' : only (early x) (mem s) m' -> kernel_desc (cpu s) m'.
Proof.
  intros Ho. apply (tables_kept s q h p x ws Hs m'); [|done]. eapply only_mono; [|exact Ho]. intros b. apply early_written.
Qed.

(** An interrupt that does not end the slice. *)
Lemma tick_step fuel :
  1 < timer s -> exists s', runs (interrupt ra scratch fuel kTimerVec 0) s tt s' /\
    sched s' q h p x ws /\ timer s' = timer s - 1.
Proof.
  intros Htm. pose proof (sc_timer _ _ _ _ _ _ Hs) as Hmax. unfold kTimerReset in Hmax.
  pose proof (tick_counts at_entry (base x + 8) (timer s) entry_vec eq_refl ltac:(lia)) as Hr.
  eexists. split; [apply (entry_leaves fuel _ Hr); [reflexivity|exact (early_desc _ entry_early)|intros; reflexivity]|].
  split; [|reflexivity]. clear Hr. apply sched_early; try reflexivity; [exact entry_early|apply Hs|].
  cbn. unfold kTimerReset. lia.
Qed.

(** The last interrupt of a slice up to the call of [ThreadSwitch]. *)
Definition at_switch (m1 : gmap Z Z) (g1 : ConG) : kstate :=
  set_mem m1 (set_con g1 (set_timer 15 (set_io (Outb 32 32 :: io at_entry) at_entry))).

Lemma slice_begins :
  timer s = 1 -> exists m1 g1, con_ok g1 /\ only (fun b => inr_ b (VIDEO, 3840)) (mem at_entry) m1 /\
    only (early x) (mem s) m1 /\
    forall o, yields ThreadSwitch (at_switch m1 g1) o -> yields (TimerHandler (base x + 8)) at_entry o.
Proof.
  intros Htm.
  destruct (printf_step 32 switch_msg [] (set_timer 15 (set_io (Outb 32 32 :: io at_entry) at_entry)) eq_refl
    (sc_con _ _ _ _ _ _ Hs)) as (m1 & g1 & Hp & Hg & Hscr).
  assert (only (fun b => inr_ b (VIDEO, 3840)) (mem at_entry) m1) as Ho by (intros b Hb; by apply Hscr).
  exists m1, g1. split; [exact Hg|]. split; [exact Ho|]. split.
  - eapply only_trans; [exact entry_early|]. eapply only_mono; [|exact Ho]. intros b Hb. by left.
  - intros o Hr. apply tick_switches; [exact entry_vec|exact Htm|]. eapply yields_bind; [exact Hp|exact Hr].
Qed.

(** Alone, the running thread goes on with a new slice. *)
Lemma idle_step fuel :
  timer s = 1 -> ws = [] -> exists s', runs (interrupt ra scratch fuel kTimerVec 0) s tt s' /\
    sched s' q h p x ws /\ timer s' = kTimerReset.
Proof.
  intros Htm Ews. destruct (slice_begins Htm) as (m1 & g1 & Hg & Hov & Hoe & Hrun).
  assert (runs ThreadSwitch (at_switch m1 g1) tt (at_switch m1 g1)) as Hsw.
  { pose proof (early_queue s q h p x ws Hs m1 Hoe) as HQ. rewrite Ews in HQ.
    unfold ThreadSwitch. eapply runs_bind; [reflexivity|]. cbv beta.
    change (wait_thread_queue (thr (at_switch m1 g1))) with (wait_thread_queue (thr s)).
    rewrite (sc_queue _ _ _ _ _ _ Hs). eapply (runs_bind _ _ _ 0); [|reflexivity].
    unfold Dequeue. eapply runs_bind; [apply runs_ld32|]. cbv beta. change (mem (at_switch m1 g1)) with m1.
    rewrite (qr_head _ _ _ _ HQ). eapply runs_bind; [apply (IsListEmpty_spec (at_switch m1 g1) h []); by eapply queue_clist|].
    reflexivity. }
  eexists. split; [apply (entry_leaves fuel _ (Hrun _ Hsw)); [reflexivity|exact (early_desc _ Hoe)|]|].
  - intros k Hk. apply Hov. intros Hb. exact (late_frame _ (or_introl Hb) k Hk eq_refl).
  - split; [|reflexivity]. clear Hrun Hsw. apply sched_early; try reflexivity; [exact Hoe|exact Hg|]. cbn. unfold kTimerReset. lia.
Qed.
End Step.

Lemma bits_range z : 0 <= z -> Z.log2 z < 32 -> z < W32.
Proof. intros H0 Hl. destruct (decide (z = 0)) as [->|Hz]; [lia|]. apply (Z.log2_lt_pow2 z 32); lia. Qed.

Lemma lor_u32 a b : 0 <= a < W32 -> 0 <= b < W32 -> 0 <= Z.lor a b < W32.
Proof.
  intros Ha Hb. assert (0 <= Z.lor a b) as H0 by (apply Z.lor_nonneg; lia). split; [exact H0|]. apply bits_range; [exact H0|].
  rewrite Z.log2_lor by lia. pose proof (Z.log2_le_mono a 4294967295 ltac:(lia)). pose proof (Z.log2_le_mono b 4294967295 ltac:(lia)).
  change (Z.log2 4294967295) with 31 in *. lia.
Qed.

Lemma land_u32 a b : 0 <= a < W32 -> 0 <= b -> 0 <= Z.land a b < W32.
Proof.
  intros Ha Hb. assert (0 <= Z.land a b) as H0 by (apply Z.land_nonneg; lia). split; [exact H0|]. apply bits_range; [exact H0|].
  pose proof (Z.log2_land a b ltac:(lia) Hb). pose proof (Z.log2_le_mono a 4294967295 ltac:(lia)).
  change (Z.log2 4294967295) with 31 in *. lia.
Qed.

(** The end of a slice with threads waiting. *)
Section Switch.
Context `{Platform}.
Context (ra : Z) (scratch : Z * Z * Z) (Hra : 0 <= ThreadSwitch_ret < W32).
Context (s : kstate) (q h p : Z) (x y : task) (ws : list task) (Hs : sched s q h p x (y :: ws)).
Context (m1 : gmap Z Z) (g1 : ConG) (Hg : con_ok g1).
Context (Hov : only (fun b => inr_ b (VIDEO, 3840)) (mem (at_entry ra s x)) m1) (Hoe : only (early x) (mem s) m1).

Let sb : kstate := at_switch ra s x m1 g1.

Lemma switch_ready : ready sb q h (tk x) (tk y) (map tk ws) p.
Proof.
  apply (sched_ready s q h p x y ws Hs sb Hoe); [reflexivity|reflexivity|reflexivity|].
  exact (cpu_ok_regs32 _ (entry_cpu_ok s q h p x _ Hs)).
Qed.

Context (s2 : kstate).
Context (HQ : queue_rep (mem s2) q h (nodes (map tk ws ++ [tk x]))).
Context (Hctx : cpu_context (cpu s2) = resumed (saved (mem sb) (tk y + 12))).
Context (Hsv : saved (mem s2) (tk x + 12) = suspended (cpu sb)).
Context (Hfl : eflags (cpu s2) = Z.lor (eflags (cpu sb)) (2 ^ 9)) (Hlf : left_of (cpu s2) = left_of (cpu sb)).
Context (Hspl : spoilt (cpu s2) = (tk x + 12, ecx (cpu sb), tk y + 12)).
Context (Hsys : sys_of (cpu s2) = sys_of (cpu sb)) (Es : s2 = at_ sb (mem s2) (cpu s2)).
Context (Hw : only (fun b => qb q h (tk x) (tk y) (map tk ws) b \/ inr_ b (tss sb + 4, 4) \/
  stack_or (esp (cpu sb)) (tk x + 12) b) (mem sb) (mem s2)).
Context (Hslot : load32 (mem s2) (tss sb + 4) = load32 (mem sb) (tk y + 4) - 4).

Lemma switch_written : only (written s q h p (x :: y :: ws) x) (mem s) (mem s2).
Proof.
  eapply only_trans; [eapply only_mono; [|exact Hoe]; intros b; apply early_written|].
  eapply only_mono; [|exact Hw]. change (tss sb) with (tss s). change (esp (cpu sb)) with (base x).
  unfold written. intros b [[Hb|[Hb|(n & Hn & Hb)]]|[Hb|[Hb|Hb]]].
  - right; left. exact Hb.
  - do 2 right; left. exact Hb.
  - do 6 right; left. apply list_elem_of_lookup in Hn as (i & Hi). apply nodes_lookup in Hi as (t & Ht & ->).
    change (map tk (x :: y :: ws) !! i = Some t) in Ht. rewrite list_lookup_fmap in Ht.
    apply fmap_Some in Ht as (z & Hz & ->). exists z. split; [by eapply list_elem_of_lookup_2|exact Hb].
  - do 3 right; left. exact Hb.
  - do 4 right; left. unfold inr_. cbn [fst snd]. lia.
  - do 5 right; left. exact Hb.
Qed.

Lemma switch_keeps : keeps_frame (base x) (mem (at_entry ra s x)) (mem s2).
Proof.
  intros k Hk. rewrite Hw.
  - apply Hov. intros Hb. exact (late_frame s q h p x (y :: ws) Hs _ (or_introl Hb) k Hk eq_refl).
  - intros Hb. exact (late_frame s q h p x (y :: ws) Hs _ (or_intror Hb) k Hk eq_refl).
Qed.

(** The thread that lost the processor waits with the registers it was interrupted with. *)
Lemma switch_waits : waits (mem s2) x.
Proof.
  unfold waits. rewrite (sc_run _ _ _ _ _ _ Hs).
  pose proof (f_equal c_esp Hsv) as E1. pose proof (f_equal c_eip Hsv) as E2. cbn [c_esp c_eip saved suspended] in E1, E2.
  change (esp (cpu sb)) with (base x) in E1.
  assert (load32 (mem s2) (tk x + 12) = base x - 28) as E3 by lia.
  constructor; [exact E3| | |].
  - rewrite E3 in E2. replace (base x - 12) with (base x - 28 + 16) by lia. exact E2.
  - rewrite <- (entry_arg ra s q h p x (y :: ws) Hs). apply (keeps_load _ _ _ 4 4 switch_keeps); lia.
  - rewrite <- (sc_cpu _ _ _ _ _ _ Hs). intros c Hc. apply (frame_restores ra s (base x) kTimerVec 0);
      [exact (entry_esp s q h p x _ Hs)|exact (head_frame_span s q h p x _ Hs)|exact (entry_cpu_ok s q h p x _ Hs)|
       unfold kTimerVec; lia|lia|exact switch_keeps|exact Hc].
Qed.

Lemma next_ok : task_ok (mem s2) p (cpu s) y /\ waits (mem s2) y.
Proof.
  pose proof (tasks_kept s q h p x (y :: ws) Hs _ switch_written (cpu s) eq_refl) as Ht.
  pose proof (waits_kept s q h p x (y :: ws) Hs _ switch_written) as Hw2.
  apply Forall_cons_1 in Ht as [_ Ht]. apply Forall_cons_1 in Ht as [Ht _]. by apply Forall_cons_1 in Hw2 as [Hw2 _].
Qed.

Lemma next_saved : waits (mem sb) y.
Proof. destruct (ready_tasks s q h p x y ws Hs sb Hoe) as [_ Hwb]. by apply Forall_cons_1 in Hwb as [Hwb _]. Qed.

(** The processor is on the frame of the thread that waited longest. *)
Lemma switch_resumes :
  entry y = None -> c_eip (saved (mem sb) (tk y + 12)) = ThreadSwitch_ret /\
    leaves s2 (base y) /\ restored (mem s2) (base y + 8) (cpu s2) = regs y.
Proof.
  intros Ey. pose proof next_saved as Hb. destruct next_ok as [Hy Hy2]. unfold waits in Hb, Hy2. rewrite Ey in Hb, Hy2.
  destruct Hb as [B1 B2 _ _]. destruct Hy2 as [_ _ W3 W4].
  assert (c_eip (saved (mem sb) (tk y + 12)) = ThreadSwitch_ret) as E.
  { unfold saved. cbn [c_eip]. rewrite B1. replace (base y - 28 + 16) with (base y - 12) by lia. exact B2. }
  assert (restored (mem s2) (base y + 8) (cpu s2) = regs y) as Hres by (apply W4; rewrite Hsys, (tk_sys _ _ _ _ Hy); reflexivity).
  split; [exact E|]. split; [|exact Hres]. split.
  - change (esp (cpu s2)) with (c_esp (cpu_context (cpu s2))). rewrite Hctx. unfold resumed. rewrite E, Z.eqb_refl.
    unfold saved. cbn [c_esp]. rewrite B1. lia.
  - exact W3.
  - unfold left_of in Hlf. injection Hlf as -> _ _ _ _. exact (proj1 (proj1 (entry_cpu_ok s q h p x _ Hs))).
  - apply (tables_kept s q h p x (y :: ws) Hs _ switch_written). by rewrite Hsys.
  - destruct (tk_regs _ _ _ _ Hy) as [Hsel _]. rewrite <- Hres in Hsel. exact Hsel.
Qed.

(** ... or at the start of it. *)
Lemma switch_starts fn :
  entry y = Some fn -> c_eip (saved (mem sb) (tk y + 12)) <> ThreadSwitch_ret /\
    cpu_context (cpu s2) = mk_context (top y) 0 0 0 0 fn.
Proof.
  intros Ey. pose proof next_saved as Hb. unfold waits in Hb. rewrite Ey in Hb. destruct Hb as [_ _ B3 B4].
  rewrite Hctx, B3. unfold resumed. cbn [c_eip]. rewrite (proj2 (Z.eqb_neq _ _) B4). split; [exact B4|done].
Qed.

Lemma start_cpu_ok fn : entry y = Some fn -> cpu_ok (cpu s2).
Proof.
  intros Ey. destruct (switch_starts fn Ey) as [_ E]. pose proof (entry_cpu_ok s q h p x _ Hs) as ((Hcs & _) & Hall).
  rewrite !Forall_cons in Hall. destruct Hall as (Hf & _ & _ & Hcx & _).
  pose proof (sched_kspan s q h p x (y :: ws) Hs) as Hks. apply Forall_cons_1 in Hks as [Kx Hks]. apply Forall_cons_1 in Hks as [Ky _].
  assert (left_of (cpu sb) = (cs (cpu s), 16, 16, 16, 16)) as El by reflexivity. rewrite Hcs in El.
  assert (eflags (cpu sb) = Z.land (eflags (cpu s)) (not32 (2 ^ 9))) as Ef by reflexivity.
  rewrite El in Hlf. rewrite Ef in Hfl. unfold left_of in Hlf. injection Hlf as L1 L2 L3 L4 L5.
  change (ecx (cpu sb)) with (ecx (cpu s)) in Hspl. unfold spoilt in Hspl. injection Hspl as L6 L7 L8.
  assert (0 <= eip (cpu s2) < W32) as Hip.
  { change (eip (cpu s2)) with (c_eip (cpu_context (cpu s2))). rewrite Hctx. unfold resumed, saved.
    destruct (_ =? _); cbn [c_eip]; apply load32_range. }
  unfold cpu_context in E. injection E as E1 E2 E3 E4 E5 E6. clear - Hf Kx Ky Hcx Hfl L1 L2 L3 L4 L5 L6 L7 L8 E2 E3 E4 E5 Hip.
  unfold cpu_ok, kernel_sels, kspan in *. rewrite !Forall_cons, L1, L2, L3, L4, L5, L6, L7, L8, E2, E3, E4, E5, Hfl.
  pose proof (lor_u32 (Z.land (eflags (cpu s)) (not32 (2 ^ 9))) (2 ^ 9) (land_u32 _ (not32 (2 ^ 9)) Hf ltac:(done)) ltac:(done)) as Hr.
  split_and!; try (by right); try done; first [lia|apply Hr].
Qed.

Lemma switch_sched (y' := resume_as (cpu s2) y) : sched (set_cpu (regs y') s2) q h p y' (ws ++ [x]).
Proof.
  pose proof switch_written as How. destruct (resume_as_place (cpu s2) y) as (P1 & P2 & P3). fold y' in P1, P2, P3.
  assert (thr s2 = thr s /\ tss s2 = tss s /\ con s2 = g1 /\ intr s2 = intr s /\ timer s2 = 15) as (E1 & E2 & E3 & E4 & E5)
    by (rewrite Es; repeat split).
  destruct next_ok as [Hy _].
  assert (task_ok (mem s2) p (cpu s) y') as Hy'.
  { destruct (entry y) as [fn|] eqn:Ey; [|unfold y', resume_as; rewrite Ey; exact Hy].
    pose proof (start_cpu_ok fn Ey) as Hc. destruct (switch_starts fn Ey) as [_ Ec]. pose proof next_saved as Hb.
    unfold waits in Hb. rewrite Ey in Hb. destruct Hy as [K1 K2 K3 K4 K5 K6 K7 K8]. unfold y', resume_as. rewrite Ey.
    constructor; cbn [tk base top regs]; try assumption.
    apply (f_equal c_esp) in Ec. cbn [c_esp cpu_context] in Ec. rewrite (u_base _ _ _ Hb). lia. }
  assert (Forall (task_ok (mem s2) p (regs y')) (y' :: ws ++ [x])) as Ht.
  { pose proof (tasks_kept s q h p x (y :: ws) Hs _ How (regs y') (tk_sys _ _ _ _ Hy')) as Ht.
    apply Forall_cons_1 in Ht as [Hx Ht]. apply Forall_cons_1 in Ht as [_ Ht].
    apply Forall_cons. split; [destruct Hy'; constructor; assumption || reflexivity|]. apply Forall_app. split; [exact Ht|by apply Forall_singleton]. }
  constructor; cbn [mem cpu thr tss con intr timer set_cpu]; rewrite ?E1, ?E2, ?E3, ?E4, ?E5.
  - apply Hs.
  - rewrite map_app. exact HQ.
  - eapply nodes_ok_perm; [|exact (sc_nodes _ _ _ _ _ _ Hs)]. unfold nodes. cbn [map]. rewrite P1, !map_app. cbn [map].
    do 3 constructor. rewrite perm_swap. constructor. apply Permutation_cons_append.
  - etransitivity; [exact Hslot|].
    destruct (ready_tasks s q h p x y ws Hs sb Hoe) as [Hb _]. apply Forall_cons_1 in Hb as [_ Hb].
    apply Forall_cons_1 in Hb as [Hb _]. rewrite (tk_stack _ _ _ _ Hb), P3. lia.
  - exact Ht.
  - apply Forall_app. split; [|apply Forall_singleton; exact switch_waits].
    pose proof (waits_kept s q h p x (y :: ws) Hs _ How) as Hw2. by apply Forall_cons_1 in Hw2 as [_ Hw2].
  - done.
  - apply resume_as_entry.
  - assert (sched_regions (set_cpu (regs y') s2) q h p (y' :: ws ++ [x]) = sched_regions s q h p (y :: ws ++ [x])) as ->.
    { unfold sched_regions. cbn [tss set_cpu map]. by rewrite E2, P1, P2, P3. }
    eapply regions_ok_perm; [|exact (sc_regions _ _ _ _ _ _ Hs)]. apply sched_regions_perm.
    rewrite <- Permutation_cons_append. apply perm_swap.
  - exact Hg.
  - apply Hs.
  - unfold kTimerReset. lia.
  - apply (tables_kept s q h p x (y :: ws) Hs _ How), (tk_sys _ _ _ _ Hy').
  - apply (tables_kept s q h p x (y :: ws) Hs _ How), (tk_sys _ _ _ _ Hy').
Qed.
End Switch.

(** ** The refinement and what follows from it *)

Fixpoint times (n : nat) (c : K unit) : K unit :=
  match n with
  | O => ret tt
  | S n' => c ;;; times n' c
  end.

Lemma times_S n (c : K unit) s s1 s2 : runs c s tt s1 -> runs (times n c) s1 tt s2 -> runs (times (S n) c) s tt s2.
Proof. intros H1 H2. cbn [times]. eapply runs_bind; [exact H1|exact H2]. Qed.

Lemma times_app n k (c : K unit) s s1 s2 :
  runs (times n c) s tt s1 -> runs (times k c) s1 tt s2 -> runs (times (n + k) c) s tt s2.
Proof.
  revert s. induction n as [|n IH]; intros s Hn Hk; cbn [times Nat.add] in *.
  - injection Hn as ->. exact Hk.
  - apply runs_bind_inv in Hn as ([] & s' & E & Hn). eapply runs_bind; [exact E|]. by apply IH.
Qed.

(** The processor after an interrupt: in the code that was interrupted, or in a new thread. *)
Definition carry_on (c : K unit) : K unit := fun s =>
  match c s with
  | Enter s' => Done (tt, s')
  | o => o
  end.

Section Multitasking.
Context `{Platform}.
Context (ra : Z) (scratch : Z * Z * Z) (fuel : nat) (Hra : 0 <= ThreadSwitch_ret < W32).

(** A timer interrupt that gives the processor to the thread [y]: back to where it was
    interrupted, or to its start with an empty stack, registers 0 and interrupts enabled. *)
Definition gives (s s' : kstate) (y : task) : Prop :=
  match entry y with
  | None => runs (interrupt ra scratch fuel kTimerVec 0) s tt s' /\ cpu s' = regs y
  | Some fn => enters (interrupt ra scratch fuel kTimerVec 0) s s' /\ cpu_context (cpu s') = mk_context (top y) 0 0 0 0 fn /\
      Z.testbit (eflags (cpu s')) 9 = true
  end.

Lemma switch_step s q h p x y ws :
  sched s q h p x (y :: ws) -> timer s = 1 ->
  exists s', gives s s' y /\ sched s' q h p (resume_as (cpu s') y) (ws ++ [x]) /\ timer s' = kTimerReset.
Proof.
  intros Hs Htm. destruct (slice_begins ra s q h p x (y :: ws) Hs Htm) as (m1 & g1 & Hg & Hov & Hoe & Hrun).
  destruct (thread_switch_runs _ _ _ _ _ _ _ (switch_ready ra s q h p x y ws Hs m1 g1 Hoe) Hra)
    as (s2 & Hr & HQ & _ & Hctx & Hsv & (Hfl & Hlf & Hspl) & Hsys & Es & Hw & Hslot).
  pose proof (switch_sched ra s q h p x y ws Hs m1 g1 Hg Hov Hoe s2 HQ Hctx Hsv Hfl Hlf Hspl Hsys Es Hw Hslot) as Hs'. cbv zeta in Hs'.
  pose proof (entry_esp _ _ _ _ _ _ Hs) as He. pose proof (entry_takes _ _ _ _ _ _ Hs) as Hb.
  pose proof (tk_range _ _ _ _ (head_ok _ _ _ _ _ _ Hs)) as Hbw. pose proof (entry_cpu_ok _ _ _ _ _ _ Hs) as [Hseg _].
  unfold gives. destruct (entry y) as [fn|] eqn:Ey.
  - destruct (switch_starts ra s q h p x y ws Hs m1 g1 Hoe s2 Hctx fn Ey) as [Hne Ec].
    assert (set_cpu (regs (resume_as (cpu s2) y)) s2 = s2) as E by (unfold resume_as; rewrite Ey; by destruct s2).
    rewrite E in Hs'. exists s2. split; [|split; [exact Hs'|rewrite Es; reflexivity]]. split; [|split; [exact Ec|]].
    + apply (interrupt_enters ra scratch fuel s s2 (base x) kTimerVec 0 He Hb Hbw Hseg).
      apply (entry_dispatch ra s q h p x (y :: ws) Hs). apply Hrun. exact (lands_enters _ _ _ _ Hne Hr).
    + rewrite Hfl, Z.lor_spec. apply orb_true_r.
  - destruct (switch_resumes ra s q h p x y ws Hs m1 g1 Hoe s2 Hctx Hlf Hsys Hw Ey) as (Epc & Hlv & Hres).
    assert (resume_as (cpu s2) y = y) as E by (unfold resume_as; by rewrite Ey). rewrite E in Hs'.
    pose proof (sc_tasks _ _ _ _ _ _ Hs') as Ht. apply Forall_cons_1 in Ht as [Hy _].
    pose proof (head_frame_span _ _ _ _ _ _ Hs') as Hby. exists (set_cpu (regs y) s2).
    assert (resume_as (cpu (set_cpu (regs y) s2)) y = y) as -> by (unfold resume_as; by rewrite Ey).
    split; [split; [|reflexivity]|split; [exact Hs'|rewrite Es; reflexivity]].
    rewrite <- Hres. apply (interrupt_runs ra scratch fuel s s2 (base x) (base y) kTimerVec 0 He Hb Hbw Hseg);
      [|unfold span in Hby; lia|exact (tk_range _ _ _ _ Hy)|exact Hlv].
    apply (entry_dispatch ra s q h p x (y :: ws) Hs). apply Hrun. rewrite Epc in Hr. exact (lands_runs _ _ _ Hr).
Qed.

(** C2: the timer interrupt refines the abstract scheduler. From the processor's pushes
    through the entry code, the dispatcher, the timer driver, the console, the waiting queue
    and the context switch, and back through the exit code, a timer interrupt always
    ends, and takes a kernel in which [x] runs and [ws] wait to the state the
    specification names: inside a slice the same thread continues with a smaller counter; at
    the end of the slice the longest waiting thread continues with exactly the registers it
    was interrupted with, all of them, or, if it is new, is entered at its start function with an
    empty stack; the interrupted thread waits, with its registers kept, behind all others. That
    the timer's gate and the kernel's segment descriptors are in place is part of [sched]. *)
Theorem timer_interrupt_refines s q h p x ws :
  sched s q h p x ws ->
  exists s', let '(x', ws', t') := spec_tick (cpu s') (x, ws, timer s) in
    sched s' q h p x' ws' /\ timer s' = t' /\ cpu s' = regs x' /\
    match spec_entry (x, ws, timer s) with
    | None => runs (interrupt ra scratch fuel kTimerVec 0) s tt s'
    | Some fn => enters (interrupt ra scratch fuel kTimerVec 0) s s' /\
        cpu_context (cpu s') = mk_context (top x') 0 0 0 0 fn /\ Z.testbit (eflags (cpu s')) 9 = true
    end.
Proof.
  intros Hs. cbn [spec_tick spec_entry]. destruct (Z.eqb_spec (timer s) 1) as [E|E].
  - destruct ws as [|y ws]; cbn [rotate_tasks].
    + destruct (idle_step ra scratch s q h p x [] Hs fuel E eq_refl) as (s' & Hr & Hs' & Et).
      exists s'. split; [exact Hs'|]. split; [exact Et|]. split; [apply Hs'|exact Hr].
    + destruct (switch_step s q h p x y ws Hs E) as (s' & Hg & Hs' & Et).
      exists s'. split; [exact Hs'|]. split; [exact Et|]. split; [apply Hs'|].
      destruct (resume_as_place (cpu s') y) as (_ & _ & ->). unfold gives in Hg. destruct (entry y); [exact Hg|apply Hg].
  - pose proof (sc_timer _ _ _ _ _ _ Hs).
    destruct (tick_step ra scratch s q h p x ws Hs fuel ltac:(lia)) as (s' & Hr & Hs' & Et).
    exists s'. split; [exact Hs'|]. split; [exact Et|]. split; [apply Hs'|]. by destruct ws.
Qed.

(** [n] timer interrupts, one after the other. *)
Definition interrupts (n : nat) : K unit := times n (carry_on (interrupt ra scratch fuel kTimerVec 0)).

Lemma carry_runs s s' : runs (interrupt ra scratch fuel kTimerVec 0) s tt s' ->
  runs (carry_on (interrupt ra scratch fuel kTimerVec 0)) s tt s'.
Proof. unfold runs, carry_on. by intros ->. Qed.

Lemma carry_gives s s' y : gives s s' y -> runs (carry_on (interrupt ra scratch fuel kTimerVec 0)) s tt s'.
Proof.
  unfold gives. destruct (entry y); [intros [Hr _]|intros [Hr _]; by apply carry_runs].
  unfold runs, enters, carry_on in *. by rewrite Hr.
Qed.

(** The processor belongs to [y], which goes on or starts. *)
Definition runs_now (s : kstate) (y : task) : Prop :=
  runs GetCurThread s (tk y) s /\
  match entry y with
  | None => cpu s = regs y
  | Some fn => cpu_context (cpu s) = mk_context (top y) 0 0 0 0 fn /\ Z.testbit (eflags (cpu s)) 9 = true
  end.

Lemma sched_current s q h p x ws : sched s q h p x ws -> runs GetCurThread s (tk x) s.
Proof.
  intros Hs. pose proof (sc_tasks _ _ _ _ _ _ Hs) as Ht. apply Forall_cons_1 in Ht as [Hx _].
  pose proof (place_span s q h p _ (sc_regions _ _ _ _ _ _ Hs) 3 _ eq_refl) as Hsp. cbn [fst snd] in Hsp.
  unfold runs, GetCurThread, bind, ld32, gets. rewrite u32_small by (unfold span in Hsp; lia).
  by rewrite (sc_cur _ _ _ _ _ _ Hs), (tk_top _ _ _ _ Hx).
Qed.

Lemma gives_now s s' q h p y ws : gives s s' y -> sched s' q h p (resume_as (cpu s') y) ws -> runs_now s' y.
Proof.
  intros Hg Hs. pose proof (sched_current _ _ _ _ _ _ Hs) as Hc. destruct (resume_as_place (cpu s') y) as (E & _).
  rewrite E in Hc. split; [exact Hc|]. unfold gives in Hg. destruct (entry y); apply Hg.
Qed.

(** A whole slice. *)
Lemma slice_runs s q h p x y ws :
  sched s q h p x (y :: ws) ->
  exists s', runs (interrupts (Z.to_nat (timer s))) s tt s' /\ sched s' q h p (resume_as (cpu s') y) (ws ++ [x]) /\
    timer s' = kTimerReset /\ runs_now s' y.
Proof.
  remember (Z.to_nat (timer s)) as n eqn:En. revert s En. induction n as [|n IH]; intros s En Hs;
    pose proof (sc_timer _ _ _ _ _ _ Hs) as Ht; [lia|].
  destruct (decide (timer s = 1)) as [E|E].
  - destruct (switch_step s q h p x y ws Hs E) as (s' & Hg & Hs' & Et). pose proof (gives_now _ _ _ _ _ _ _ Hg Hs') as Hn.
    exists s'. split; [|split; [exact Hs'|split; [exact Et|exact Hn]]].
    replace n with 0%nat by lia. exact (times_S 0 _ _ _ _ (carry_gives _ _ _ Hg) eq_refl).
  - destruct (tick_step ra scratch s q h p x (y :: ws) Hs fuel ltac:(lia)) as (s1 & Hr & Hs1 & Et).
    destruct (IH s1 ltac:(lia) Hs1) as (s' & Hr' & Hs' & Et' & Hn).
    exists s'. split; [exact (times_S n _ _ _ _ (carry_runs _ _ Hr) Hr')|]. split; [exact Hs'|split; [exact Et'|exact Hn]].
Qed.

Lemma interrupts_app n k s s1 s2 :
  runs (interrupts n) s tt s1 -> runs (interrupts k) s1 tt s2 -> runs (interrupts (n + k)) s tt s2.
Proof. unfold interrupts. generalize (carry_on (interrupt ra scratch fuel kTimerVec 0)). intros c. apply times_app. Qed.

(** The thread [y'] is [y] after it has had the processor. *)
Definition has_run (y y' : task) : Prop := exists c, y' = resume_as c y.

(** [i] slices more. *)
Lemma slices_run i : forall s q h p x ws y,
  sched s q h p x ws -> ws !! i = Some y ->
  exists s' ts, runs (interrupts (Z.to_nat (timer s) + i * Z.to_nat kTimerReset)) s tt s' /\
    sched s' q h p (resume_as (cpu s') y) (drop (S i) ws ++ x :: ts) /\ timer s' = kTimerReset /\ runs_now s' y /\
    Forall2 has_run (take i ws) ts.
Proof.
  induction i as [|i IH]; intros s q h p x ws y Hs Hy; (destruct ws as [|z ws]; [done|]).
  - injection Hy as ->. destruct (slice_runs s q h p x y ws Hs) as (s' & Hr & Hs' & Et & Hn).
    exists s', []. split; [|split; [exact Hs'|split; [exact Et|split; [exact Hn|constructor]]]].
    replace (Z.to_nat (timer s) + 0 * Z.to_nat kTimerReset)%nat with (Z.to_nat (timer s)) by lia. exact Hr.
  - change (ws !! i = Some y) in Hy. pose proof (lookup_lt_Some _ _ _ Hy) as Hlt.
    destruct (slice_runs s q h p x z ws Hs) as (s1 & Hr1 & Hs1 & Et1 & _).
    destruct (IH s1 q h p _ (ws ++ [x]) y Hs1 ltac:(by rewrite lookup_app_l)) as (s' & ts & Hr & Hs' & Et & Hn & Hts).
    rewrite Et1 in Hr. rewrite take_app_le in Hts by lia. rewrite drop_app_le in Hs' by lia. rewrite <- app_assoc in Hs'.
    exists s', (resume_as (cpu s1) z :: ts).
    split; [exact (interrupts_app _ _ _ _ _ Hr1 Hr)|]. split; [exact Hs'|]. split; [exact Et|]. split; [exact Hn|].
    constructor; [by eexists|exact Hts].
Qed.

(** C6: every thread runs. When [ws] wait, the thread at position [i] of the queue gets the
    processor with the last of the first [timer + 15 * i] timer interrupts, and continues with
    exactly the registers it was preempted with, or starts if it is new; after one full round the
    thread that was running has it back, with its registers, and the queue is in its old
    order, every thread of it having run. *)
Theorem every_thread_runs s q h p x ws :
  sched s q h p x ws ->
  (forall i y, ws !! i = Some y ->
    exists s', runs (interrupts (Z.to_nat (timer s) + i * Z.to_nat kTimerReset)) s tt s' /\ runs_now s' y) /\
  (ws <> [] -> exists s' ts, runs (interrupts (Z.to_nat (timer s) + length ws * Z.to_nat kTimerReset)) s tt s' /\
    cpu s' = cpu s /\ sched s' q h p x ts /\ Forall2 has_run ws ts).
Proof.
  intros Hs. split.
  - intros i y Hy. destruct (slices_run i s q h p x ws y Hs Hy) as (s' & ts & Hr & _ & _ & Hn & _). by exists s'.
  - intros Hne. destruct (exists_last Hne) as (pre & y & ->).
    destruct (slices_run (length pre) s q h p x (pre ++ [y]) y Hs) as (s1 & ts & Hr1 & Hs1 & Et1 & _ & Hts).
    { by rewrite lookup_app_r, Nat.sub_diag by lia. }
    rewrite drop_ge in Hs1 by (rewrite length_app; cbn; lia). rewrite take_app_length in Hts. cbn [app] in Hs1.
    destruct (slice_runs s1 q h p _ x ts Hs1) as (s' & Hr & Hs' & _). rewrite Et1 in Hr.
    assert (resume_as (cpu s') x = x) as E by (unfold resume_as; by rewrite (sc_run _ _ _ _ _ _ Hs)). rewrite E in Hs'.
    exists s', (ts ++ [resume_as (cpu s1) y]).
    split; [|split; [rewrite (sc_cpu _ _ _ _ _ _ Hs); apply Hs'|split; [exact Hs'|]]].
    + replace (Z.to_nat (timer s) + length (pre ++ [y]) * Z.to_nat kTimerReset)%nat
        with (Z.to_nat (timer s) + length pre * Z.to_nat kTimerReset + Z.to_nat kTimerReset)%nat
        by (rewrite length_app; cbn [length]; lia).
      exact (interrupts_app _ _ _ _ _ Hr1 Hr).
    + apply Forall2_app; [exact Hts|]. constructor; [by eexists|constructor].
Qed.
End Multitasking.

(** ** Instances *)

(** The thread at [0xc1000040] is running; the one at [0xc1000080] was preempted at
    address 1060000 with 42 in [eax]; the one at [0xc10000c0] has not run yet. The current
    slice ends with the next interrupt. *)
Definition table_cpu : Cpu := set_gdtr (47, kGdtBaseAddr) (set_idtr (2047, kIdtBaseAddr) zero_cpu).

Definition running_task : task :=
  mk_task 3238002752 3238006652 3238006780
    (set_esp 3238006720 (set_eax 7 (set_eip 1050000 (set_cs 8 (set_eflags 514 table_cpu))))) None.

Definition waiting_task : task :=
  mk_task 3238002816 3238010720 3238010876
    (set_esp 3238010788 (set_eax 42 (set_eip 1060000 (set_cs 8 (set_eflags 518
      (set_ds 16 (set_es 16 (set_fs 16 (set_gs 16 table_cpu))))))))) None.

Definition new_task : task :=
  mk_task 3238002880 3238014904 3238014972 (set_esp 3238014972 (regs running_task)) (Some 1080000).

Definition multi_example : kstate :=
  set_mem (words_mem (table_words ++ gate_words 32 1000 ++
    [(3238002688, 3238002704); (3238002692, 3238002896); (3238002704, 3238002832); (3238002832, 3238002896); (3238002896, 3238002704);
     (3238003204, 3238006780); (3238006780, 3238002752); (3238002756, 3238006784); (3238002760, 3238002944);
     (3238010876, 3238002816); (3238002820, 3238010880); (3238002824, 3238002944); (3238002828, 3238010692);
     (3238010708, 1070000); (3238010724, 3238010728); (3238010728, 1048592); (3238010732, 1048592);
     (3238010764, 42); (3238010776, 1060000); (3238010780, 8); (3238010784, 518); (3238002884, 3238014976);
     (3238002888, 3238002944); (3238002892, 3238014952); (3238014972, 3238002880); (3238014968, 1080000)]))
    (set_cpu (regs running_task) (set_intr (mk_IntrG ∅ {[32 := TimerHandlerId]}) (set_timer 1
      (set_con (mk_ConG 0 0 VIDEO) (set_tss 3238003200 (set_thr (mk_ThrG 0 3238002688 0) zero_state)))))).

Ltac task_by_compute :=
  constructor; [vm_compute; split; discriminate|vm_compute; reflexivity..|
    split; [unfold kernel_sels, kernel_sel; cbn; unfold kKCodeSeg, kKDataSeg; lia|repeat constructor; vm_compute; discriminate]|reflexivity].

Lemma multi_example_sched :
  @sched (stub_platform null_platform) multi_example 3238002688 3238002704 3238002944 running_task [waiting_task; new_task].
Proof.
  constructor.
  - reflexivity.
  - constructor; [vm_compute; reflexivity|vm_compute; reflexivity| |by apply nodes_okb_sound].
    split; [split; [vm_compute; reflexivity|split; [vm_compute; reflexivity|exact I]]|vm_compute; reflexivity].
  - by apply nodes_okb_sound.
  - vm_compute. reflexivity.
  - do 3 (apply Forall_cons_2; [task_by_compute|]). by apply Forall_nil_2.
  - apply Forall_cons_2; [|apply Forall_singleton].
    + constructor; [vm_compute; reflexivity..|].
      intros c Hc. unfold restored. unfold sys_of in Hc. injection Hc as -> -> -> -> -> -> -> -> ->. vm_compute. reflexivity.
    + constructor; [vm_compute; reflexivity..|vm_compute; discriminate].
  - reflexivity.
  - reflexivity.
  - apply regions_okb_sound. vm_compute. reflexivity.
  - unfold con_ok, COLUMNS, LINES. cbn. lia.
  - reflexivity.
  - cbn. unfold kTimerReset. lia.
  - split; [reflexivity|vm_compute; discriminate|vm_compute; reflexivity..].
  - split; [unfold kTimerVec, kIdtEntryNum; lia|reflexivity|vm_compute; reflexivity..].
Qed.

Lemma timer_interrupt_refines_witness :
  exists s', runs (@interrupt (stub_platform null_platform) 1048900 (1, 2, 3) 1 kTimerVec 0) multi_example tt s' /\
    cpu s' = regs waiting_task /\ eax (cpu s') = 42 /\ timer s' = 15.
Proof.
  assert (0 <= @ThreadSwitch_ret (stub_platform null_platform) < W32) as Hra by (vm_compute; split; [discriminate|reflexivity]).
  destruct (@timer_interrupt_refines (stub_platform null_platform) 1048900 (1, 2, 3) 1 Hra _ _ _ _ _ _ multi_example_sched) as (s' & _ & Et & Ec & Hr).
  exists s'. split; [exact Hr|]. split; [exact Ec|]. split; [rewrite Ec; reflexivity|exact Et].
Defined.

Lemma every_thread_runs_witness :
  (exists s', runs (@interrupts (stub_platform null_platform) 1048900 (1, 2, 3) 1 16) multi_example tt s' /\
    cpu_context (cpu s') = mk_context 3238014972 0 0 0 0 1080000) /\
  exists s', runs (@interrupts (stub_platform null_platform) 1048900 (1, 2, 3) 1 31) multi_example tt s' /\
    cpu s' = cpu multi_example.
Proof.
  assert (0 <= @ThreadSwitch_ret (stub_platform null_platform) < W32) as Hra by (vm_compute; split; [discriminate|reflexivity]).
  destruct (@every_thread_runs (stub_platform null_platform) 1048900 (1, 2, 3) 1 Hra _ _ _ _ _ _ multi_example_sched) as [Hnew Hround]. split.
  - destruct (Hnew 1%nat new_task eq_refl) as (s' & Hr & _ & Hc & _). exists s'. split; [exact Hr|exact Hc].
  - destruct (Hround ltac:(discriminate)) as (s' & ts & Hr & Hc & _). exists s'. split; [exact Hr|exact Hc].
Defined.
