(* ===== verification/Vectors.v ===== *)
(** * Which interrupts the processor takes

    The interrupt descriptor table as [IntrInit] and the registration of handlers leave it,
    read the way the processor reads it: a vector without a handler is refused because its
    gate is not present, one with a handler is taken, and the system call vector is refused
    in kernel mode because its gate names the user code segment. *)

From Stdlib Require Import ZArith Lia ZifyBool.
From stdpp Require Import base numbers gmap list.
From S2P Require Import Prelude Memory Machine AsmWrapper Lists Pic Segment Interrupt Thread ContextSwitch Kernel Footprint IntrEntry IntrEntrySpec.

(** ** The gates through initialisation and registration *)

(** Selector, offset and type of every gate, the present bit apart. *)
Definition gates_same (m m' : gmap Z Z) : Prop :=
  forall j, 0 <= j < 256 -> gate_sel m' j = gate_sel m j /\ gate_offset m' j = gate_offset m j /\
    gate_type m' j mod 32768 = gate_type m j mod 32768.

Definition same_gates (s s' : kstate) : Prop := gates_same (mem s) (mem s').

#[export] Instance same_gates_preorder : PreOrder same_gates.
Proof.
  split; [by intros s j Hj|]. intros s1 s2 s3 H1 H2 j Hj.
  destruct (H1 j Hj) as (A1 & A2 & A3), (H2 j Hj) as (B1 & B2 & B3). split_and!; congruence.
Qed.

Lemma gates_same_only P m m' : only P m m' -> (forall p, P p -> ~ gate_bytes p) -> gates_same m m'.
Proof.
  intros Ho HP j Hj.
  assert (forall k, 0 <= k <= 6 -> load16 m' (gate j + k) = load16 m (gate j + k)) as E.
  { intros k Hk. apply (load_ext 2). intros i Hi. apply Ho. intros Hp. apply (HP _ Hp).
    unfold gate, kIdtBaseAddr, gate_bytes. rewrite phys_high by lia. lia. }
  unfold gate_sel, gate_offset, gate_type. by rewrite !E by lia.
Qed.

Lemma low15_lor t : Z.lor t 32768 mod 32768 = t mod 32768.
Proof.
  change 32768 with (2 ^ 15) at 2 3. rewrite <- !Z.land_ones by lia. rewrite Z.land_lor_distr_l.
  change (Z.land 32768 (Z.ones 15)) with 0. apply Z.lor_0_r.
Qed.

Lemma low15_land t : Z.land t 32767 mod 32768 = t mod 32768.
Proof.
  change 32768 with (2 ^ 15). rewrite <- !Z.land_ones by lia. change 32767 with (Z.ones 15).
  by rewrite <- Z.land_assoc, Z.land_diag.
Qed.

Lemma EnableIdt_same i : 0 <= i < 256 -> within same_gates (EnableIdt i).
Proof.
  intros Hi s [] s' Hr. destruct (EnableIdt_runs i s Hi) as (m' & Hr' & Hm).
  destruct (runs_det _ _ _ _ _ _ Hr Hr') as [_ ->]. intros j Hj. destruct (Hm j Hj) as (E1 & E2 & E3). cbn [mem set_mem].
  rewrite E1, E2, E3. destruct (i =? j); [by rewrite low15_lor|done].
Qed.

Lemma DisableIdt_same i : 0 <= i < 256 -> within same_gates (DisableIdt i).
Proof.
  intros Hi s [] s' Hr. destruct (DisableIdt_runs i s Hi) as (m' & Hr' & Hm).
  destruct (runs_det _ _ _ _ _ _ Hr Hr') as [_ ->]. intros j Hj. destruct (Hm j Hj) as (E1 & E2 & E3). cbn [mem set_mem].
  rewrite E1, E2, E3. destruct (i =? j); [by rewrite low15_land|done].
Qed.

Lemma modify_same f : (forall s, mem (f s) = mem s) -> within same_gates (modify f).
Proof. intros Hf. apply within_modify. intros s. unfold same_gates. by rewrite Hf. Qed.

Lemma RegIntrHandler_same i h : 0 <= i < 256 -> within same_gates (RegIntrHandler i h).
Proof.
  intros Hi. unfold RegIntrHandler. apply within_bind; [exact _|apply within_gets, _|]. intros [|]; [apply within_ret, _|].
  do 2 (apply within_bind; [exact _|by apply modify_same|]; intros _).
  apply within_bind; [exact _|by apply EnableIdt_same|]. intros _. apply within_ret, _.
Qed.

Lemma RemoveIntrHandler_same i : 0 <= i < 256 -> within same_gates (RemoveIntrHandler i).
Proof.
  intros Hi. unfold RemoveIntrHandler. apply within_bind; [exact _|by apply DisableIdt_same|]. intros _.
  apply within_bind; [exact _|by apply modify_same|]. intros _. by apply modify_same.
Qed.

Section Vectors.
Context `{Platform}.

(** Every gate leads to the stub of its vector. All are interrupt gates with the kernel's code
    segment but the one for system calls, a trap gate with the segment of user code. *)
Definition installed (m : gmap Z Z) : Prop := forall j, 0 <= j < 256 ->
  gate_sel m j = (if j =? kSyscallVec then kUCodeSeg else kKCodeSeg) /\ gate_offset m j = u32 (intr_vec j) /\
  gate_type m j mod 32768 = if j =? kSyscallVec then kIdtTrapType else kIdtIntrType.

Lemma installed_same m m' : gates_same m m' -> installed m -> installed m'.
Proof. intros Hs Hi j Hj. destruct (Hs j Hj) as (-> & -> & ->). by apply Hi. Qed.

Lemma IntrInit_installed s a s' : runs IntrInit s a s' -> installed (mem s').
Proof.
  unfold IntrInit. intros Hr. apply runs_bind_inv in Hr as ([] & s1 & H1 & Hr).
  destruct (IdtInit_runs s) as (m1 & c1 & Hr1 & _ & Hg). destruct (runs_det _ _ _ _ _ _ H1 Hr1) as [_ ->].
  apply (installed_same m1).
  - revert Hr. match goal with |- runs ?c _ _ _ -> _ => enough (within same_gates c) as Hw by (intros Hr; exact (Hw _ _ _ Hr)) end.
    apply within_bind; [exact _|unfold PicInit, outb; repeat (apply within_bind; [exact _|by apply modify_same|]; intros _); by apply modify_same|]. intros _.
    apply within_bind; [exact _|by apply modify_same|]. intros _. apply within_bind; [exact _| |].
    { apply within_for; [exact _|]. intros j Hj. apply within_bind; [exact _| |intros _; apply within_ret, _].
      apply RegIntrHandler_same. unfold kIdtExcNum in Hj. lia. }
    intros _. apply within_bind; [exact _|apply RemoveIntrHandler_same; unfold kPfVec; lia|]. intros _.
    apply within_bind; [exact _|apply RegIntrHandler_same; unfold kPfVec; lia|]. intros _. apply within_ret, _.
  - intros j Hj. destruct (Hg j Hj) as (-> & -> & ->). change kSyscallVec with 128. split_and!; [done|done|]. by destruct (j =? 128).
Qed.

(** ** What the processor does *)

(** Kernel code runs, with the tables of the kernel and the gates matching the handlers. *)
Record vectored (s : kstate) : Prop := {
  vd_cs : cs (cpu s) = kKCodeSeg;
  vd_idtr : idtr (cpu s) = (2047, kIdtBaseAddr);
  vd_desc : kernel_desc (cpu s) (mem s);
  vd_user : desc_access (mem s) (kGdtBaseAddr + 24) = Access kSegPriority3 kSegTypeCode;
  vd_gates : installed (mem s);
  vd_inv : intr_inv s;
}.

Lemma gate_type_full s v :
  vectored s -> 0 <= v < 256 ->
  gate_type (mem s) v = (if v =? kSyscallVec then kIdtTrapType else kIdtIntrType) +
    (match intr_handler (intr s) !! v with Some _ => 32768 | None => 0 end).
Proof.
  intros [_ _ _ _ Hg Hi] Hv. destruct (Hg v Hv) as (_ & _ & Et). specialize (Hi v Hv).
  pose proof (load16_range (mem s) (gate v + 4)) as Hr. fold (gate_type (mem s) v) in Hr.
  unfold gate_present in Hi. rewrite Z.testbit_odd, Z.shiftr_div_pow2 in Hi by lia. change (2 ^ 15) with 32768 in Hi.
  pose proof (Z.div_mod (gate_type (mem s) v) 32768 ltac:(lia)) as E. rewrite Et in E.
  assert (gate_type (mem s) v / 32768 = 0 \/ gate_type (mem s) v / 32768 = 1) as [D|D].
  { pose proof (Z.div_pos (gate_type (mem s) v) 32768 ltac:(lia) ltac:(lia)).
    pose proof (Z.div_lt_upper_bound (gate_type (mem s) v) 32768 2 ltac:(lia) ltac:(lia)). lia. }
  - rewrite D in E, Hi. destruct (intr_handler (intr s) !! v) as [hd|]; [|lia].
    rewrite bool_decide_eq_true_2 in Hi by done. discriminate Hi.
  - rewrite D in E, Hi. destruct (intr_handler (intr s) !! v) as [hd|]; [lia|].
    rewrite bool_decide_eq_false_2 in Hi by (by intros [? ?]). discriminate Hi.
Qed.

(** A gate that the check refuses. *)
Lemma interrupt_refused ra scratch fuel v err s x :
  gate_check (cpu s) (mem s) v = Some x -> interrupt ra scratch fuel v err s = Fault x.
Proof. intros E. unfold interrupt, cpu_interrupt, bind, gets, refuse. by rewrite E. Qed.

Lemma gate_check_installed s v :
  vectored s -> 0 <= v < 256 ->
  gate_check (cpu s) (mem s) v =
    match intr_handler (intr s) !! v with
    | None => Some NP
    | Some _ => if v =? kSyscallVec then Some GP else None
    end.
Proof.
  intros Hs Hv. pose proof (gate_type_full s v Hs Hv) as Et. destruct Hs as [Hcs Hid Hd Hu Hg _].
  destruct (Hg v Hv) as (Es & _). unfold gate_check. rewrite Hid. cbn [fst snd]. fold (gate v). fold (gate_type (mem s) v).
  fold (gate_sel (mem s) v). rewrite Et, Es, (proj2 (Z.leb_le (8 * v + 7) 2047)) by lia.
  destruct (v =? kSyscallVec); destruct (intr_handler (intr s) !! v) as [hd|]; [|reflexivity|apply (code_check_kernel _ _ Hd Hcs)|reflexivity].
  change (code_check (cpu s) (mem s) kUCodeSeg = Some GP).
  unfold code_check, seg_access, cpl. rewrite Hcs, (kd_base _ _ Hd). change (kUCodeSeg / 8) with 3. change (8 * 3) with 24. rewrite Hu.
  change (Z.testbit kUCodeSeg 2) with false. by destruct (_ <? 24 + 7).
Qed.

(** A vector the processor takes is ready in the sense of [takes]. *)
Lemma installed_ready s v :
  vectored s -> 0 <= v < 256 -> is_Some (intr_handler (intr s) !! v) -> v <> kSyscallVec -> gate_ready (cpu s) (mem s) v.
Proof.
  intros Hs Hv [hd Hh] Hne. pose proof (gate_type_full s v Hs Hv) as Et. rewrite Hh in Et. destruct Hs as [_ Hid _ _ Hg _].
  destruct (Hg v Hv) as (Es & Eo & _). rewrite (proj2 (Z.eqb_neq _ _) Hne) in Et, Es.
  split; [exact Hv|exact Hid|exact Et|exact Es|exact Eo].
Qed.
End Vectors.
