(* ===== verification/BootSteps.v ===== *)
(** * The steps of the kernel's start

    Each component's initialisation on the state its predecessors leave: memory and interrupts
    ([interrupts_booting]), processes and threads ([pools_booting]), timer, keyboard and
    disk ([TimerInit_booting], [KeyboardInit_runs], [IdeInit_absent]). [booting] is what holds
    between them. *)

From Stdlib Require Import ZArith Lia ZifyBool.
From stdpp Require Import base numbers gmap strings list.
From S2P Require Import Prelude Memory Machine Bits AsmWrapper Lists Allocator AllocRep AllocReq AllocHeap AllocInit AllocSafety AllocIface AllocRoom.
From S2P Require Import Queues Console Pic Segment Interrupt Paging PagingSpec Thread ContextSwitch ThreadSpec Process HeapInit Footprint Scheduler Timer.
From S2P Require Import Poll Keyboard Ide Kernel KernelSpec IntrEntry IntrEntrySpec Preempt Vectors.

(** ** What each step leaves alone *)

Definition screen_byte (p : Z) : Prop := VIDEO <= p < VIDEO + COLUMNS * LINES * 2.

Lemma screen_range p : screen_byte p -> 753664 <= p < 757504.
Proof. unfold screen_byte. change VIDEO with 753664. change (COLUMNS * LINES * 2) with 3840. lia. Qed.

(** The message lines. *)
Lemma line_runs msg s :
  (forall m, fmt_ok 32 m (str msg ++ [10]) [] = true) -> con_ok (con s) ->
  exists m' g', runs (line msg) s tt (set_mem m' (set_con g' s)) /\ con_ok g' /\ only screen_byte (mem s) m'.
Proof. intros Hf Hc. exact (printf_step 32 _ _ s (Hf _) Hc). Qed.

(** The page tables. *)
Lemma page_word P m m' a :
  only P m m' -> (forall p, P p -> ~ page_bytes p) -> (4096 <= a /\ a + 4 <= 8192) \/ (49152 <= a /\ a + 4 <= 118784) ->
  load32 m' a = load32 m a.
Proof.
  intros Ho HP Ha. apply (only_load32 _ _ _ _ Ho); [left; lia|]. intros i Hi Hc. apply (HP _ Hc).
  rewrite phys_low by lia. unfold page_bytes. lia.
Qed.

Lemma paging_kept P m m' : only P m m' -> (forall p, P p -> ~ page_bytes p) -> paging_mem m -> paging_mem m'.
Proof.
  intros Ho HP [P0 T0 Pu Pd Py]. pose proof (fun a => page_word P m m' a Ho HP) as W. split.
  - by rewrite W by lia.
  - intros j Hj. rewrite W by lia. by apply T0.
  - intros i Hi. rewrite W by lia. by apply Pu.
  - intros i Hi. destruct (Pd i Hi) as [E1 E2]. split; [by rewrite W by lia|]. intros j Hj. rewrite W by lia. by apply E2.
  - intros i Hi. rewrite W by lia. by apply Py.
Qed.

(** The interrupt gates. *)
Lemma gates_kept P m m' hs : only P m m' -> (forall p, P p -> ~ gate_bytes p) -> gates_ok m hs -> gates_ok m' hs.
Proof.
  intros Ho HP Hg i Hi. rewrite <- (Hg i Hi). unfold gate_present, gate_type. f_equal.
  apply (load_ext 2). intros k Hk. apply Ho. intros Hc. apply (HP _ Hc).
  unfold gate, kIdtBaseAddr. rewrite phys_high by lia. unfold gate_bytes. lia.
Qed.

(** The descriptors of the kernel's and the users' code. *)
Definition gdt_mem (m : gmap Z Z) : Prop :=
  desc_access m (kGdtBaseAddr + 8) = Access kSegPriority0 kSegTypeCode /\
  desc_access m (kGdtBaseAddr + 16) = Access kSegPriority0 kSegTypeData /\
  desc_access m (kGdtBaseAddr + 24) = Access kSegPriority3 kSegTypeCode.

Lemma gdt_kept P m m' : only P m m' -> (forall p, P p -> ~ gdt_bytes p) -> gdt_mem m -> gdt_mem m'.
Proof.
  intros Ho HP.
  assert (forall a, 0 <= a <= 40 -> desc_access m' (kGdtBaseAddr + a) = desc_access m (kGdtBaseAddr + a)) as E.
  { intros a Ha. apply Ho. intros Hp. apply (HP _ Hp). unfold kGdtBaseAddr, gdt_bytes. rewrite phys_high by lia. lia. }
  unfold gdt_mem. by rewrite !E by lia.
Qed.

(** The table of available memory. *)
Lemma regs_kept m m' a regs :
  only screen_byte m m' -> 0 <= a -> a + 8 * (Z.of_nat (length regs) + 1) <= 753664 -> regs_at m a regs -> regs_at m' a regs.
Proof.
  intros Ho. assert (forall w, 0 <= w -> w + 4 <= 753664 -> load32 m' w = load32 m w) as W.
  { intros w H1 H2. apply (only_load32 _ _ _ _ Ho); [left; lia|]. intros i Hi Hc. apply screen_range in Hc.
    rewrite phys_low in Hc by lia. lia. }
  revert a. induction regs as [|[b z] regs IH]; intros a Ha Hn Hr; cbn [length regs_at] in *.
  - rewrite W by lia. exact Hr.
  - destruct Hr as (E1 & E2 & E3 & Hr). rewrite !W by lia. split_and!; [done..|]. apply IH; [lia|lia|exact Hr].
Qed.

(** ** Memory *)

(** The registers that [GdtInit] loads. *)
Definition gdt_cpu `{Platform} (c : Cpu) : Cpu :=
  set_gs kKDataSeg (set_fs kKDataSeg (set_ss kKDataSeg (set_es kKDataSeg (set_ds kKDataSeg
    (set_gdtr (u16 GdtLimit_fn, kGdtBaseAddr) c))))).

Lemma gdt_entry_then a b lim acc fl (k : K unit) s s1 :
  (forall m, exists m', runs k (set_mem m s) tt (set_mem m' s1)) ->
  forall m, exists m', runs (set_gdt_entry a b lim acc fl ;;; k) (set_mem m s) tt (set_mem m' s1).
Proof.
  intros Hk m. destruct (Hk (entry_mem m a b lim acc fl)) as (m' & Hr). exists m'.
  eapply runs_bind; [apply set_gdt_entry_mem|exact Hr].
Qed.

Lemma GdtInit_runs `{Platform} s :
  exists m', runs GdtInit s tt (set_mem m' (set_cpu (gdt_cpu (cpu s)) s)) /\ only gdt_bytes (mem s) m' /\ gdt_mem m'.
Proof.
  assert (forall m, exists m', runs GdtInit (set_mem m s) tt (set_mem m' (set_cpu (gdt_cpu (cpu s)) s))) as Hall.
  { unfold GdtInit. do 6 apply gdt_entry_then. intros m. exists m. eapply runs_bind; [apply runs_modify|].
    unfold runs, modify, gdt_cpu, set_cpu, set_mem. cbn [mem cpu io alloc page_state intr tss con timer kbd thr proc block_queue kSuperBlock].
    reflexivity. }
  destruct (Hall (mem s)) as (m' & Hr). rewrite set_mem_mem in Hr.
  exists m'. split; [exact Hr|]. split; [exact (GdtInit_writes s tt _ Hr)|].
  destruct (GdtInit_table s) as (s' & Hr' & Ht & _). destruct (runs_det _ _ _ _ _ _ Hr Hr') as [_ <-]. cbn [mem set_mem] in Ht.
  split_and!; [apply (Ht 1%nat _ _ _ _ eq_refl)|apply (Ht 2%nat _ _ _ _ eq_refl)|apply (Ht 3%nat _ _ _ _ eq_refl)].
Qed.

Section Boot.
Context `{Platform}.

Lemma MemInit_boots fuel n regs s :
  con_ok (con s) -> regs_at (mem s) kAvlMemAddr regs -> Forall reg_ok regs -> 1 <= last_page regs ->
  kAvlMemAddr + 8 * (Z.of_nat (length regs) + 1) <= VIDEO -> (Z.to_nat 1048576 < fuel)%nat ->
  arrays_ok s -> 1048576 <= K_END <= 33554432 -> (n <= 5000)%nat ->
  exists m' g al ps, let s' := set_mem m' (set_con g (set_alloc al (set_page_state ps (set_cpu (gdt_cpu (paging_cpu (cpu s))) s)))) in
    runs (MemInit fuel) s tt s' /\ con_ok g /\ paging_mem m' /\ gdt_mem m' /\ held reserved fuel n s' [].
Proof.
  intros Hc Hat Hok Hl Hn Hf Ha Hi Hn5. change VIDEO with 753664 in Hn. unfold kAvlMemAddr in Hn.
  destruct (line_runs "Open paging..." s (fun _ => eq_refl) Hc) as (m1 & g1 & Hr1 & Hc1 & Ho1).
  destruct (PagingInit_mem fuel regs (set_mem m1 (set_con g1 s))) as (ps & m2 & Hr2 & Hp2 & _);
    [eapply regs_kept; [exact Ho1|unfold kAvlMemAddr; lia|unfold kAvlMemAddr; lia|exact Hat]|exact Hok|exact Hl|exact Hf|lia|].
  set (s2 := set_mem m2 (set_page_state _ _)) in Hr2.
  destruct (line_runs "Reset GDT..." s2 (fun _ => eq_refl) Hc1) as (m3 & g3 & Hr3 & Hc3 & Ho3).
  set (s3 := set_mem m3 (set_con g3 s2)) in Hr3.
  destruct (GdtInit_runs s3) as (m4 & Hr4 & Ho4 & Hg4).
  set (s4 := set_mem m4 (set_cpu _ s3)) in Hr4.
  destruct (line_runs "Initialize direct mapping allocator..." s4 (fun _ => eq_refl) Hc3) as (m5 & g5 & Hr5 & Hc5 & Ho5).
  set (s5 := set_mem m5 (set_con g5 s4)) in Hr5.
  destruct (boot_ample s5 fuel n) as (m6 & al & Hr6 & Hpo & Hamp); [exact Ha|lia|exact Hn5|lia|].
  exists m6, g5, al, ps. split_and!; [|exact Hc5| | |].
  - unfold MemInit. eapply runs_bind; [exact Hr1|]. eapply runs_bind; [exact Hr2|]. eapply runs_bind; [exact Hr3|].
    eapply runs_bind; [exact Hr4|]. eapply runs_bind; [exact Hr5|]. exact Hr6.
  - clear Hr1 Hr2 Hr3 Hr4 Hr5 Hr6. apply pool_only_bytes in Hpo.
    eapply paging_kept; [exact Hpo|intros p; unfold pool_byte, page_bytes; lia|].
    eapply paging_kept; [exact Ho5|intros p Hp; apply screen_range in Hp; unfold page_bytes; lia|].
    eapply paging_kept; [exact Ho4|intros p; unfold gdt_bytes, page_bytes; lia|].
    eapply paging_kept; [exact Ho3|intros p Hp; apply screen_range in Hp; unfold page_bytes; lia|]. exact Hp2.
  - clear Hr1 Hr2 Hr3 Hr4 Hr5 Hr6. apply pool_only_bytes in Hpo.
    eapply gdt_kept; [exact Hpo|intros p; unfold pool_byte, gdt_bytes; lia|].
    eapply gdt_kept; [exact Ho5|intros p Hp; apply screen_range in Hp; unfold gdt_bytes; lia|]. exact Hg4.
  - clear Hr1 Hr2 Hr3 Hr4 Hr5 Hr6. split.
    + eapply ample_frame; [exact Hamp|reflexivity|]. intros k b _ _. reflexivity.
    + intros [|i] [|j] r1 r2 Hr1 Hr2 Hne; cbn in Hr1, Hr2; done.
    + intros a z Hin. by apply not_elem_of_nil in Hin.
    + destruct (class_of_spec K_END) as (_ & _ & Hz & _); [lia|]. lia.
Qed.

(** ** The state between the components *)

Context (fuel : nat).

(** From [IntrInit] on: the blocks [A] are in use, the registers are [c], the page tables
    are in place and the gates match the registered handlers. *)
Record booting (n : nat) (c : Cpu) (s : kstate) (A : list (Z * Z)) : Prop := {
  bt_held : held reserved fuel n s A;
  bt_con : con_ok (con s);
  bt_pages : paging_mem (mem s);
  bt_cpu : cpu s = c;
  bt_gates : intr_inv s;
  bt_tss : tss s = kTssBaseAddr;
  bt_gdt : gdt_mem (mem s);
  bt_idt : installed (mem s);
}.

(** A step that writes low memory away from the page tables. *)
Lemma booting_frame n c s s' A P :
  booting n c s A -> cpu s' = cpu s -> tss s' = tss s -> alloc s' = alloc s -> con_ok (con s') -> intr_inv s' -> installed (mem s') ->
  only P (mem s) (mem s') -> (forall p, P p -> p < 1048576 /\ ~ page_bytes p /\ ~ gdt_bytes p) -> booting n c s' A.
Proof.
  intros [B1 B2 B3 B4 B5 B6 B7 B8] Ec Et Ea Hc Hi Hin Ho HP. split; [|done| |by rewrite Ec|done|by rewrite Et| |exact Hin].
  - eapply held_frame; [exact B1|exact Ea|exact Ho|]. intros p Hp. destruct (HP p Hp). lia.
  - eapply paging_kept; [exact Ho| |exact B3]. intros p Hp. by apply HP.
  - eapply gdt_kept; [exact Ho| |exact B7]. intros p Hp. by apply HP.
Qed.

Definition says (msgs : list string) (k : K unit) : K unit := fold_right (fun msg k => line msg ;;; k) k msgs.

Lemma says_runs msgs s :
  Forall (fun msg => forall m, fmt_ok 32 m (str msg ++ [10]) [] = true) msgs -> con_ok (con s) ->
  exists m' g', (forall k r s2, runs k (set_mem m' (set_con g' s)) r s2 -> runs (says msgs k) s r s2) /\
    con_ok g' /\ only screen_byte (mem s) m'.
Proof.
  intros Hm. revert s. induction Hm as [|msg msgs Hf _ IH]; intros s Hc.
  - exists (mem s), (con s). assert (set_mem (mem s) (set_con (con s) s) = s) as E by (by destruct s).
    rewrite E. split_and!; [done|exact Hc|apply only_refl].
  - destruct (line_runs msg s Hf Hc) as (m1 & g1 & Hr1 & Hc1 & Ho1).
    destruct (IH (set_mem m1 (set_con g1 s)) Hc1) as (m2 & g2 & Hk & Hc2 & Ho2).
    exists m2, g2. split_and!; [|exact Hc2|by eapply only_trans].
    intros k r s2 Hr. cbn [says fold_right]. eapply runs_bind; [exact Hr1|]. by apply Hk.
Qed.

Lemma screen_apart p : screen_byte p -> p < 1048576 /\ ~ page_bytes p /\ ~ gate_bytes p /\ ~ gdt_bytes p.
Proof. intros Hp. apply screen_range in Hp. unfold page_bytes, gate_bytes, gdt_bytes. lia. Qed.

Lemma says_booting msgs n c s A :
  Forall (fun msg => forall m, fmt_ok 32 m (str msg ++ [10]) [] = true) msgs -> booting n c s A ->
  exists m' g', let s' := set_mem m' (set_con g' s) in
    (forall k r s2, runs k s' r s2 -> runs (says msgs k) s r s2) /\ booting n c s' A /\ only screen_byte (mem s) m'.
Proof.
  intros Hm Hb. destruct (says_runs msgs s Hm (bt_con _ _ _ _ Hb)) as (m' & g' & Hk & Hc & Ho).
  exists m', g'. split_and!; [exact Hk| |exact Ho].
  apply (booting_frame n c s _ A screen_byte Hb); [done|done|done|exact Hc| | |exact Ho|].
  - eapply gates_kept; [exact Ho| |apply Hb]. intros p Hp. by apply screen_apart in Hp as (_ & _ & ? & _).
  - eapply installed_same; [|apply Hb]. eapply gates_same_only; [exact Ho|]. intros p Hp. by apply screen_apart in Hp as (_ & _ & ? & _).
  - intros p Hp. apply screen_apart in Hp. tauto.
Qed.

(** Registering a handler for a free vector. *)
Lemma reg_booting i hd n c s A :
  0 <= i < 256 -> IsBitmapSet (IntrVecMap (intr s)) i = false -> booting n c s A ->
  exists m', let g := mk_IntrG (SetBitmap (IntrVecMap (intr s)) i) (<[i := hd]> (intr_handler (intr s))) in
    let s' := set_mem m' (set_intr g s) in
    runs (RegIntrHandler i hd) s true s' /\ booting n c s' A /\ only gate_bytes (mem s) m'.
Proof.
  intros Hi Hbit Hb. destruct (RegIntrHandler_free i hd s Hbit Hi (bt_gates _ _ _ _ Hb)) as (m' & Hr & Hinv & _).
  pose proof (RegIntrHandler_writes i hd Hi _ _ _ Hr) as Ho. pose proof (RegIntrHandler_same i hd Hi _ _ _ Hr) as Hsame. exists m'. split_and!; [exact Hr| |exact Ho]. clear Hr.
  apply (booting_frame n c s _ A gate_bytes Hb); [done|done|done|apply Hb|exact Hinv| |exact Ho|].
  { eapply installed_same; [exact Hsame|apply Hb]. }
  intros p. unfold gate_bytes, page_bytes, gdt_bytes. lia.
Qed.

(** The registers that [IdtInit] loads. *)
Definition idt_cpu (c : Cpu) : Cpu := set_tr kTssSel (set_idtr (2047, kIdtBaseAddr) c).

Lemma IntrInit_booting n s A :
  held reserved fuel n s A -> con_ok (con s) -> paging_mem (mem s) -> gdt_mem (mem s) -> intr_handler (intr s) = ∅ ->
  exists m' h' g', let s' := set_mem m' (set_intr g' (set_io h' (set_tss kTssBaseAddr (set_cpu (idt_cpu (cpu s)) s)))) in
    runs IntrInit s tt s' /\ booting n (idt_cpu (cpu s)) s' A /\ boot_bits (IntrVecMap g').
Proof.
  intros Hh Hc Hp Hgd He. destruct (IntrInit_runs s He) as (m' & c' & h' & g' & Hr & Hinv & _ & Hb & ->).
  pose proof (IntrInit_writes _ _ _ Hr) as Ho. pose proof (IntrInit_installed _ _ _ Hr) as Hin.
  exists m', h', g'. split_and!; [exact Hr| |exact Hb]. clear Hr.
  split; [|exact Hc| |done|exact Hinv|done| |exact Hin].
  - eapply held_frame; [exact Hh|done|exact Ho|]. intros p. unfold intr_bytes, gate_bytes. lia.
  - eapply paging_kept; [exact Ho| |exact Hp]. intros p. unfold intr_bytes, gate_bytes, page_bytes. lia.
  - eapply gdt_kept; [exact Ho| |exact Hgd]. intros p. unfold intr_bytes, gate_bytes, gdt_bytes. lia.
Qed.

(** A step that takes the blocks [B]. *)
Lemma booting_alloc n n' c s s' A B P :
  booting n c s A -> held reserved fuel n' s' (B ++ A) -> cpu s' = cpu s -> tss s' = tss s -> con s' = con s -> intr s' = intr s ->
  only (touch P B) (mem s) (mem s') -> (forall p, P p -> p < 1048576 /\ ~ page_bytes p /\ ~ gate_bytes p /\ ~ gdt_bytes p) ->
  booting n' c s' (B ++ A).
Proof.
  intros [B1 B2 B3 B4 B5 B6 B7 B8] Hh Ec Et En Ei Ho HP.
  assert (forall p, touch P B p -> ~ page_bytes p /\ ~ gate_bytes p /\ ~ gdt_bytes p) as Hap.
  { intros p [Hp|[Hp|((a & z) & Hin & Hp)]]; [by apply HP|unfold pool_byte, page_bytes, gate_bytes, gdt_bytes in *; lia|].
    pose proof (held_range _ _ _ _ _ a z Hh ltac:(set_solver)). unfold inr_ in Hp. cbn [fst snd] in Hp.
    rewrite phys_high in Hp by lia. unfold page_bytes, gate_bytes, gdt_bytes. lia. }
  split; [exact Hh|by rewrite En| |by rewrite Ec| |by rewrite Et| |].
  - eapply paging_kept; [exact Ho|intros p Hp; by apply Hap|exact B3].
  - unfold intr_inv in *. rewrite Ei. eapply gates_kept; [exact Ho|intros p Hp; by apply Hap|exact B5].
  - eapply gdt_kept; [exact Ho|intros p Hp; by apply Hap|exact B7].
  - eapply installed_same; [|exact B8]. eapply gates_same_only; [exact Ho|intros p Hp; by apply Hap].
Qed.

(** ** Memory and interrupts *)

Definition boot_cpu (c : Cpu) : Cpu := idt_cpu (gdt_cpu (paging_cpu c)).

Lemma interrupts_booting n regs s :
  con_ok (con s) -> regs_at (mem s) kAvlMemAddr regs -> Forall reg_ok regs -> 1 <= last_page regs ->
  kAvlMemAddr + 8 * (Z.of_nat (length regs) + 1) <= VIDEO -> (Z.to_nat 1048576 < fuel)%nat ->
  arrays_ok s -> 1048576 <= K_END <= 33554432 -> (n <= 5000)%nat -> intr_handler (intr s) = ∅ ->
  exists s', (forall k r s2, runs k s' r s2 ->
      runs (line "Initialize memory management..." ;;; MemInit fuel ;;;
        says ["Complete."; "Initialize interrupt..."] (IntrInit ;;;
        says ["Complete."; "Register syscall..."] (SyscallInit ;;;
        says ["Complete."; "Initialize process manager..."] k))) s r s2) /\
    booting n (boot_cpu (cpu s)) s' [] /\ intr_handler (intr s') !! kSyscallVec = Some SyscallId /\
    forall i, 32 <= i < 64 -> IsBitmapSet (IntrVecMap (intr s')) i = false.
Proof.
  intros Hc Hat Hok Hl Hn Hf Ha Hi Hn5 He. assert (kAvlMemAddr + 8 * (Z.of_nat (length regs) + 1) <= 753664) as Hn' by exact Hn.
  destruct (line_runs "Initialize memory management..." s (fun _ => eq_refl) Hc) as (m0 & g0 & Hr0 & Hc0 & Ho0).
  destruct (MemInit_boots fuel n regs (set_mem m0 (set_con g0 s))) as (m1 & g1 & al & ps & Hr1 & Hc1 & Hp1 & Hgd1 & Hh1);
    [exact Hc0|eapply regs_kept; [exact Ho0|unfold kAvlMemAddr; lia|exact Hn'|exact Hat]|exact Hok|exact Hl|exact Hn|exact Hf|exact Ha|exact Hi|exact Hn5|].
  set (s1 := set_mem m1 _) in Hr1, Hh1.
  destruct (says_runs ["Complete."; "Initialize interrupt..."] s1) as (m2 & g2 & Hk2 & Hc2 & Ho2);
    [repeat constructor|exact Hc1|].
  destruct (IntrInit_booting n (set_mem m2 (set_con g2 s1)) []) as (m3 & h3 & g3 & Hr3 & Hb3 & Hbits); [|exact Hc2| | |exact He|].
  { eapply held_frame; [exact Hh1|done|exact Ho2|]. intros p Hp. apply screen_apart in Hp. lia. }
  { eapply paging_kept; [exact Ho2| |exact Hp1]. intros p Hp. apply screen_apart in Hp. tauto. }
  { eapply gdt_kept; [exact Ho2| |exact Hgd1]. intros p Hp. apply screen_apart in Hp. tauto. }
  set (s3 := set_mem m3 _) in Hr3, Hb3. change (idt_cpu _) with (boot_cpu (cpu s)) in Hb3.
  destruct (says_booting ["Complete."; "Register syscall..."] n (boot_cpu (cpu s)) s3 []) as (m4 & g4 & Hk4 & Hb4 & _); [repeat constructor|exact Hb3|].
  set (s4 := set_mem m4 _) in Hk4, Hb4.
  destruct (reg_booting kSyscallVec SyscallId n (boot_cpu (cpu s)) s4 []) as (m5 & Hr5 & Hb5 & _); [unfold kSyscallVec; lia| |exact Hb4|].
  { change (IntrVecMap (intr s4)) with (IntrVecMap g3). rewrite Hbits by (unfold kSyscallVec; lia). reflexivity. }
  set (s5 := set_mem m5 _) in Hr5, Hb5.
  destruct (says_booting ["Complete."; "Initialize process manager..."] n (boot_cpu (cpu s)) s5 []) as (m6 & g6 & Hk6 & Hb6 & _); [repeat constructor|exact Hb5|].
  exists (set_mem m6 (set_con g6 s5)). split_and!; [|exact Hb6| |].
  - intros k r s2 Hk. eapply runs_bind; [exact Hr0|]. eapply runs_bind; [exact Hr1|]. apply Hk2.
    eapply runs_bind; [exact Hr3|]. apply Hk4. eapply runs_bind; [unfold SyscallInit; eapply runs_bind; [exact Hr5|reflexivity]|].
    by apply Hk6.
  - change (<[kSyscallVec := SyscallId]> (intr_handler g3) !! kSyscallVec = Some SyscallId). apply lookup_insert_eq.
  - intros i Hi'. change (IsBitmapSet (SetBitmap (IntrVecMap g3) kSyscallVec) i = false).
    rewrite IsBitmapSet_SetBitmap, Hbits by lia. unfold same_slot, kSyscallVec. rewrite !u32_small by lia.
    change (128 / 32) with 4. assert (i / 32 = 1) as -> by (symmetry; apply (Z.div_unique_pos _ _ _ (i - 32)); lia).
    cbn [Z.eqb Pos.eqb andb orb]. lia.
Qed.

(** ** Processes and threads *)

(** What the pools hold: 128 free threads, no waiting and no blocked ones, the main thread [x]
    and the kernel's process [p]. *)
Record pools (m : gmap Z Z) (x b q h l t p : Z) : Prop := {
  po_free : clist m l (tnodes t 128);
  po_queue : queue_rep m q h [];
  po_block : load32 m b = b;
  po_main : main_thread m x p;
  po_proc : kernel_proc m p 4096;
}.

Definition pool_blocks (x b q h l t p pl pc : Z) : list (Z * Z) :=
  [(x, 24); (b, 4); (q, 8); (h, 4); (l, 4); (t, 3072); (p, 48); (pl, 4); (pc, 768)].

Lemma proc_kept n s (A B : list (Z * Z)) P m m' p pd :
  held reserved fuel n s (B ++ A) -> only (touch P B) m m' -> (forall a, P a -> a < 1048576) -> (p, 48) ∈ A ->
  kernel_proc m p pd -> kernel_proc m' p pd.
Proof.
  intros Hh Ho HP Hin (E1 & E2 & E3 & E4 & E5 & E6 & E7).
  assert (forall k, 0 <= k -> k + 4 <= 48 -> load32 m' (p + k) = load32 m (p + k)) as W.
  { intros k K1 K2. eapply (held_kept _ _ n s A P B p 48); [exact Hh|exact Ho|exact HP|exact Hin|lia|lia]. }
  pose proof (W 0 ltac:(lia) ltac:(lia)) as W0. rewrite Z.add_0_r in W0. unfold kernel_proc.
  rewrite W0, !W by lia. split_and!; [done..|].
  eapply (held_clist _ _ n s A P B); [exact Hh|exact Ho|exact HP| |exact E7].
  intros w Hw. apply list_elem_of_singleton in Hw as ->. eapply inside_block; [exact Hin|lia|lia].
Qed.

(** They stay while other blocks and low memory are written. *)
Lemma pools_kept n s B P m m' x b q h l t p pl pc :
  held reserved fuel n s (B ++ pool_blocks x b q h l t p pl pc) -> only (touch P B) m m' ->
  (forall a, P a -> a < 1048576 /\ ~ boot_word a) -> pools m x b q h l t p -> pools m' x b q h l t p.
Proof.
  intros Hh Ho HP [P1 P2 P3 P4 P5]. assert (forall a, P a -> a < 1048576) as HP' by (intros a Ha; by apply HP).
  assert (forall a z w, (a, z) ∈ pool_blocks x b q h l t p pl pc -> a <= w -> w + 4 <= a + z -> load32 m' w = load32 m w) as W
    by (intros a z w; by eapply held_kept).
  assert (forall w, w = 48124 \/ w = kTssBaseAddr + 4 -> load32 m' w = load32 m w) as Wl.
  { intros w Hw. unfold kTssBaseAddr in Hw. assert (span w 4 /\ forall i, 0 <= i < 4 -> boot_word (phys w + i)) as [Hs Hbw].
    { destruct Hw as [->| ->]; (split; [unfold span; lia|]); intros i Hi; unfold boot_word;
        [rewrite phys_low by lia|rewrite phys_high by lia]; lia. }
    apply (only_load32 _ _ _ _ Ho); [exact Hs|]. intros i Hi Hc. specialize (Hbw i Hi).
    destruct Hc as [Hc|[Hc|((a & z) & Hin & Hc)]]; [by apply (HP _ Hc)|unfold boot_word, pool_byte in *; lia|].
    pose proof (held_range _ _ _ _ _ a z Hh ltac:(set_solver)). unfold inr_ in Hc. cbn [fst snd] in Hc.
    rewrite phys_high in Hc by lia. unfold boot_word in Hbw. lia. }
  split.
  - eapply held_clist; [exact Hh|exact Ho|exact HP'| |exact P1]. intros y Hy.
    apply elem_of_cons in Hy as [->|Hy]; [apply (inside_block _ l 4); [listed|lia|lia]|].
    apply tnodes_elem in Hy as (i & Hi & ->). apply (inside_block _ t 3072); [listed|lia|lia].
  - eapply held_queue; [exact Hh|exact Ho|exact HP'|listed|listed|exact P2].
  - rewrite (W b 4) by (listed || lia). exact P3.
  - destruct P4 as (E1 & E2 & E3 & E4 & E5 & E6 & E7). unfold main_thread.
    rewrite (Wl 48124), (Wl (kTssBaseAddr + 4)) by tauto. rewrite !(W x 24) by (listed || lia). done.
  - eapply proc_kept; [exact Hh|exact Ho|exact HP'|listed|exact P5].
Qed.

Lemma pools_booting n c s :
  booting (9 + n) c s [] -> cr3 c = 4096 ->
  exists x b q h l t p pl pc s', let A := pool_blocks x b q h l t p pl pc in
    (forall k r s2, runs k s' r s2 -> runs (ProcManagerInit fuel ;;; says ["Complete."; "Initialize thread..."]
        (ThreadInit fuel ;;; says ["Complete."; "Initialize driver..."] k)) s r s2) /\
    booting n c s' A /\ pools (mem s') x b q h l t p /\ thr s' = mk_ThrG l q b /\ k_pcb (proc s') = p /\ intr s' = intr s.
Proof.
  intros Hb Hcr. pose proof (bt_cpu _ _ _ _ Hb) as Ec.
  destruct (ProcManagerInit_held reserved fuel (6 + n) s [] (bt_held _ _ _ _ Hb)) as (p & pl & pc & m1 & Hr1 & Hh1 & Ho1 & Hp1);
    [rewrite Ec, Hcr; lia|]. rewrite Ec, Hcr in Hp1. set (s1 := set_mem m1 _) in Hr1, Hh1.
  assert (booting (6 + n) c s1 ([(p, 48); (pl, 4); (pc, 768)] ++ [])) as Hb1.
  { eapply booting_alloc; [exact Hb|exact Hh1|done|done|done|done|exact Ho1|]. by intros ? []. }
  destruct (says_booting ["Complete."; "Initialize thread..."] _ c s1 _ ltac:(repeat constructor) Hb1) as (m2 & g2 & Hk2 & Hb2 & Ho2).
  set (s2 := set_mem m2 _) in Hk2, Hb2. pose proof (held_range _ _ _ _ _ p 48 Hh1 ltac:(listed)) as Rp.
  assert (kernel_proc m2 p 4096) as Hp2.
  { eapply (proc_kept _ s2 _ [] screen_byte m1 m2); [exact (bt_held _ _ _ _ Hb2)| | |listed|exact Hp1].
    - eapply only_mono; [|exact Ho2]. intros a Ha. by left.
    - intros a Ha. by apply screen_apart in Ha as [? _]. }
  destruct (ThreadInit_held reserved fuel n s2 _ (bt_held _ _ _ _ Hb2) (bt_tss _ _ _ _ Hb2)) as
    (x & b & q & h & l & t & m3 & Hr3 & Hh3 & Ho3 & Hc3 & HQ3 & Eb3 & Hm3); [cbn; lia|].
  set (s3 := set_mem m3 _) in Hr3, Hh3. set (B := [(x, 24); (b, 4); (q, 8); (h, 4); (l, 4); (t, 3072)]) in *.
  assert (forall a, boot_word a -> a < 1048576 /\ ~ page_bytes a /\ ~ gate_bytes a /\ ~ gdt_bytes a) as Hbw
    by (intros a; unfold boot_word, page_bytes, gate_bytes, gdt_bytes; lia).
  assert (booting n c s3 (B ++ [(p, 48); (pl, 4); (pc, 768)])) as Hb3.
  { eapply booting_alloc; [exact Hb2|exact Hh3|done|done|done|done|exact Ho3|exact Hbw]. }
  assert (pools m3 x b q h l t p) as Hpo3.
  { split; [exact Hc3|exact HQ3|exact Eb3|exact Hm3|].
    eapply (proc_kept _ s3 _ B boot_word m2 m3); [exact Hh3|exact Ho3|exact boot_word_low|listed|exact Hp2]. }
  destruct (says_booting ["Complete."; "Initialize driver..."] _ c s3 _ ltac:(repeat constructor) Hb3) as (m4 & g4 & Hk4 & Hb4 & Ho4).
  set (s4 := set_mem m4 _) in Hk4, Hb4.
  exists x, b, q, h, l, t, p, pl, pc, s4. split_and!; [|exact Hb4| |reflexivity|reflexivity|reflexivity].
  - intros k r s5 Hk. eapply runs_bind; [exact Hr1|]. apply Hk2. eapply runs_bind; [exact Hr3|]. by apply Hk4.
  - eapply (pools_kept n s4 [] screen_byte m3 m4); [exact (bt_held _ _ _ _ Hb4)| | |exact Hpo3].
    + eapply only_mono; [|exact Ho4]. intros a Ha. by left.
    + intros a Ha. apply screen_range in Ha. unfold boot_word. lia.
Qed.

(** ** The drivers *)

(** No disk: both status registers read 0. *)
Definition no_drive : Prop := forall h, device h kAlternateStatusReg = 0 /\ device h kStatusReg = 0.

(** The keyboard controller always becomes ready for a byte, and always has an answer. *)
Definition kbd_answers : Prop := forall h,
  (exists n, (n < fuel)%nat /\ ends_at Keyboard.kStatusReg full h n) /\
  (exists n, (n < fuel)%nat /\ ends_at Keyboard.kStatusReg (fun st => Z.land st 2 =? 0) h n).

(** The 8259's data ports read back the mask register. *)
Definition pic_answers : Prop := forall h port, port = kMPicData \/ port = kSPicData -> device h port = imr port h.

(** Register accesses of a driver that leave the timer's interrupt line alone. *)
Definition io_step {A} (c : K A) : Prop := forall s, exists a h', runs c s a (set_io h' s) /\
  (masked kTimerVec (io s) = false -> masked kTimerVec h' = false).

Lemma io_bind {A B} (c : K A) (k : A -> K B) : io_step c -> (forall a, io_step (k a)) -> io_step (bind c k).
Proof.
  intros Hc Hk s. destruct (Hc s) as (a & h1 & Hr1 & M1). destruct (Hk a (set_io h1 s)) as (b & h2 & Hr2 & M2).
  exists b, h2. split; [|auto]. eapply runs_bind; [exact Hr1|]. exact Hr2.
Qed.

Lemma io_inb port : io_step (inb port).
Proof. intros s. eexists _, _. split; [reflexivity|]. done. Qed.

Lemma io_outb port v : u16 port <> 33 -> io_step (outb port v).
Proof.
  intros Hp s. eexists _, _. split; [reflexivity|]. unfold masked. change (data_port kTimerVec) with 33. cbn [imr].
  destruct (Z.eqb_spec (u16 port) 33); [lia|done].
Qed.

Lemma imr_polled p n port h : imr p (polled n port h) = imr p h.
Proof. induction n as [|n IH]; [done|]. exact IH. Qed.

Lemma io_poll port stop : (forall h, exists n, (n < fuel)%nat /\ ends_at port stop h n) -> io_step (poll fuel port stop).
Proof.
  intros He s. destruct (He (io s)) as (n & Hn & Hend). eexists _, _. split; [by apply poll_runs|].
  unfold masked. by rewrite imr_polled.
Qed.

(** Register accesses with a known result. *)
Definition io_gives {A} (v : A) (c : K A) : Prop := forall s, exists h', runs c s v (set_io h' s).

Lemma gives_ret {A} (v : A) : io_gives v (ret v).
Proof. intros s. exists (io s). by destruct s. Qed.

Lemma gives_bind {A B} (a : A) (v : B) c k : io_gives a c -> io_gives v (k a) -> io_gives v (bind c k).
Proof.
  intros Hc Hk s. destruct (Hc s) as (h1 & Hr1). destruct (Hk (set_io h1 s)) as (h2 & Hr2). exists h2.
  eapply runs_bind; [exact Hr1|exact Hr2].
Qed.

Lemma gives_any {A B} (v : B) (c : K A) k : io_step c -> (forall a, io_gives v (k a)) -> io_gives v (bind c k).
Proof.
  intros Hc Hk s. destruct (Hc s) as (a & h1 & Hr1 & _). destruct (Hk a (set_io h1 s)) as (h2 & Hr2). exists h2.
  eapply runs_bind; [exact Hr1|exact Hr2].
Qed.

Lemma gives_inb port v : (forall h, device h (u16 port) = v) -> u8 v = v -> io_gives v (inb port).
Proof. intros Hd Hv s. eexists. unfold runs, inb. rewrite Hd, Hv. reflexivity. Qed.

Lemma gives_IdeWait : no_drive -> (0 < fuel)%nat -> io_gives 0 (IdeWait fuel false).
Proof.
  intros Hd Hf s. destruct fuel as [|f]; [lia|]. eexists. apply loop_exit.
  eapply (runs_bind _ _ _ 0); [|reflexivity]. unfold runs, inb. change (u16 kAlternateStatusReg) with kAlternateStatusReg.
  rewrite (proj1 (Hd _)). reflexivity.
Qed.

(** Without a disk the driver gives up. *)
Lemma IdeInit_absent : no_drive -> (0 < fuel)%nat -> io_gives false (IdeInit fuel).
Proof.
  intros Hd Hf. unfold IdeInit. eapply gives_bind; [by apply gives_IdeWait|]. cbv beta.
  do 7 (apply gives_any; [apply io_outb; vm_compute; discriminate|intros _]).
  apply gives_any; [apply io_inb|]. intros lo.
  assert (io_step (if negb (lo =? 0) then ret true else hi <- inb kCylinderHighReg ;; ret (negb (hi =? 0)))) as Hbad.
  { destruct (negb (lo =? 0)).
    - intros s. exists true, (io s). split; [by destruct s|done].
    - apply io_bind; [apply io_inb|]. intros hi s. eexists _, (io s). split; [by destruct s|done]. }
  apply gives_any; [exact Hbad|]. intros [|]; [apply gives_ret|].
  eapply gives_bind; [apply (gives_inb _ 0); [intros h; apply Hd|reflexivity]|]. cbv beta. change (0 =? 0) with true. cbv iota.
  eapply gives_bind; [apply gives_ret|]. apply gives_ret.
Qed.

Lemma io_Read port : kbd_answers -> io_step (Read fuel port).
Proof. intros Hk. apply io_bind; [apply io_poll; intros h; apply Hk|]. intros _. apply io_inb. Qed.

Lemma io_Write port v : kbd_answers -> u16 port <> 33 -> io_step (Write fuel port v).
Proof. intros Hk Hp. apply io_bind; [apply io_poll; intros h; apply Hk|]. intros _. by apply io_outb. Qed.

Lemma io_EnableIrq v : pic_answers -> 32 <= v < 48 -> io_step (EnableIrq v).
Proof.
  intros Hp Hv s. destruct (irq_mask Hp v kTimerVec s Hv ltac:(unfold kTimerVec; lia)) as (h1 & _ & Hr & _ & M & _).
  exists tt, h1. split; [exact Hr|]. intros E. by rewrite M, E.
Qed.

Lemma booting_same n c s s' A :
  booting n c s A -> mem s' = mem s -> cpu s' = cpu s -> tss s' = tss s -> alloc s' = alloc s -> con s' = con s ->
  intr s' = intr s -> booting n c s' A.
Proof.
  intros Hb Em Ec Et Ea En Ei. apply (booting_frame n c s s' A nowhere Hb); [done|done|done| | |rewrite Em; apply Hb| |by intros ? []].
  - rewrite En. apply Hb.
  - unfold intr_inv. rewrite Em, Ei. apply Hb.
  - rewrite Em. apply only_refl.
Qed.

Lemma TimerInit_booting n c s A :
  pic_answers -> IsBitmapSet (IntrVecMap (intr s)) kTimerVec = false -> booting n c s A ->
  exists m' h', let g := mk_IntrG (SetBitmap (IntrVecMap (intr s)) kTimerVec) (<[kTimerVec := TimerHandlerId]> (intr_handler (intr s))) in
    let s' := set_mem m' (set_io h' (set_timer kTimerReset (set_intr g s))) in
    runs TimerInit s tt s' /\ booting n c s' A /\ only gate_bytes (mem s) m' /\ masked kTimerVec h' = false.
Proof.
  intros Hp Hbit Hb. set (s1 := set_io ([Outb 64 0; Outb 64 0; Outb 67 54] ++ io s) s).
  destruct (reg_booting kTimerVec TimerHandlerId n c s1 A) as (m2 & Hr2 & Hb2 & Ho2);
    [unfold kTimerVec; lia|exact Hbit|by apply (booting_same n c s s1 A Hb)|].
  set (sr := set_mem m2 _) in Hr2, Hb2. set (s2 := set_timer kTimerReset sr).
  destruct (irq_mask Hp kTimerVec kTimerVec s2) as (h3 & _ & Hr3 & _ & M & _); [unfold kTimerVec; lia..|].
  rewrite Z.eqb_refl, andb_false_r in M. exists m2, h3. split_and!; [| |exact Ho2|exact M].
  - unfold TimerInit. do 3 (eapply runs_bind; [reflexivity|]). eapply runs_bind; [exact Hr2|].
    eapply runs_bind; [reflexivity|]. exact Hr3.
  - eapply booting_same; [exact Hb2|reflexivity..].
Qed.

Section Keyboard.
Context (n : nat) (c : Cpu) (A : list (Z * Z)).

(** What the keyboard driver's initialisation may change. *)
Record kbd_ok (s s' : kstate) (B : list (Z * Z)) : Prop := {
  kb_booting : booting n c s' (B ++ A);
  kb_only : only (touch gate_bytes B) (mem s) (mem s');
  kb_same : thr s' = thr s /\ proc s' = proc s /\ timer s' = timer s;
  kb_handlers j : j <> kKeyboardVec -> intr_handler (intr s') !! j = intr_handler (intr s) !! j;
  kb_mask : masked kTimerVec (io s) = false -> masked kTimerVec (io s') = false;
}.

Definition kbd_run (k : K bool) : Prop := forall s,
  booting (S n) c s A -> IsBitmapSet (IntrVecMap (intr s)) kKeyboardVec = false -> exists b s' B, runs k s b s' /\ kbd_ok s s' B.

Lemma kbd_bind {X} (d : K X) (k : X -> K bool) : io_step d -> (forall x, kbd_run (k x)) -> kbd_run (bind d k).
Proof.
  intros Hd Hk s Hb Hbit. destruct (Hd s) as (x & h1 & Hr1 & M1).
  destruct (Hk x (set_io h1 s)) as (b & s' & B & Hr & [K1 K2 K3 K4 K5]); [by apply (booting_same _ _ s)|exact Hbit|].
  exists b, s', B. split; [eapply runs_bind; [exact Hr1|exact Hr]|]. split; [exact K1|exact K2|exact K3|exact K4|]. intros E. apply K5, M1, E.
Qed.

Lemma kbd_ret b : kbd_run (ret b).
Proof.
  intros s Hb _. exists b, s, []. split; [reflexivity|]. split; [|apply only_refl|done|done|done].
  destruct Hb as [B1 B2 B3 B4 B5 B6 B7 B8]. split; [by apply held_less|done..].
Qed.

Lemma keyboard_start_runs : kbd_answers -> pic_answers -> kbd_run (keyboard_start fuel).
Proof.
  intros Hk Hp s Hb Hbit. set (s1 := set_kbd (set_cur 0 (set_key_counter 0 (kbd s))) s).
  assert (booting (S n) c s1 A) as Hb1 by (by apply (booting_same _ _ s)).
  destruct (List_held _ _ _ _ _ (bt_held _ _ _ _ Hb1)) as (km & m2 & Hr2 & Ho2 & Hh2 & _).
  assert (booting n c (set_mem m2 s1) ([(km, 4)] ++ A)) as Hb2.
  { eapply booting_alloc; [exact Hb1|exact Hh2|done|done|done|done|exact Ho2|by intros ? []]. }
  set (s2 := set_kbd (set_keymap km (kbd s1)) (set_mem m2 s1)).
  destruct (io_bind _ _ (io_Write Keyboard.kCmdReg kWCtrlConfig Hk ltac:(vm_compute; discriminate))
    (fun _ => io_Write kPs2DataPort (Z.lor kCtrlConfig 1) Hk ltac:(vm_compute; discriminate)) s2) as ([] & h3 & Hr3 & M3).
  set (s3 := set_io h3 s2). assert (booting n c s3 ([(km, 4)] ++ A)) as Hb3 by (by apply (booting_same _ _ (set_mem m2 s1))).
  destruct (reg_booting kKeyboardVec KeyboardHandlerId n c s3 _ ltac:(unfold kKeyboardVec; lia) Hbit Hb3) as (m4 & Hr4 & Hb4 & Ho4).
  set (s4 := set_mem m4 _) in Hr4, Hb4.
  destruct (io_EnableIrq kKeyboardVec Hp ltac:(unfold kKeyboardVec; lia) s4) as ([] & h5 & Hr5 & M5).
  exists true, (set_io h5 s4), [(km, 4)]. split; [|split].
  - unfold keyboard_start. do 2 (eapply runs_bind; [reflexivity|]). eapply runs_bind; [unfold KeymapInit, map_new; eapply runs_bind; [exact Hr2|reflexivity]|].
    apply runs_bind_inv in Hr3 as ([] & sa & Hra & Hrb). eapply runs_bind; [exact Hra|]. eapply runs_bind; [exact Hrb|].
    eapply runs_bind; [exact Hr4|]. eapply runs_bind; [exact Hr5|]. reflexivity.
  - by apply (booting_same _ _ s4).
  - eapply only_trans; [eapply only_widen; [exact Ho2|listed]|]. eapply only_mono; [|exact Ho4]. intros a Ha. by left.
  - done.
  - intros j Hj. change (<[kKeyboardVec := KeyboardHandlerId]> (intr_handler (intr s)) !! j = intr_handler (intr s) !! j).
    by apply lookup_insert_ne.
  - intros E. apply M5, M3, E.
Qed.

Lemma KeyboardInit_runs : kbd_answers -> pic_answers -> kbd_run (KeyboardInit fuel).
Proof.
  intros Hk Hp. unfold KeyboardInit.
  assert (forall port v (k : K bool), u16 port <> 33 -> kbd_run k -> kbd_run (Write fuel port v ;;; k)) as Hw.
  { intros port v k Hne Hr. apply kbd_bind; [by apply io_Write|done]. }
  assert (forall port (k : Z -> K bool), (forall v, kbd_run (k v)) -> kbd_run (r <- Read fuel port ;; k r)) as Hrd.
  { intros port k Hr. apply kbd_bind; [by apply io_Read|done]. }
  do 2 (apply Hw; [vm_compute; discriminate|]). apply kbd_bind; [apply io_inb|intros _].
  do 3 (apply Hw; [vm_compute; discriminate|]). apply Hrd. intros r1. destruct (negb (r1 =? 85)); [apply kbd_ret|].
  apply Hw; [vm_compute; discriminate|]. apply Hrd. intros r2. destruct (negb (r2 =? 0)); [apply kbd_ret|].
  do 2 (apply Hw; [vm_compute; discriminate|]). apply Hrd. intros _. apply kbd_bind; [apply io_inb|]. intros r3.
  destruct (negb (r3 =? 170)); [apply kbd_ret|by apply keyboard_start_runs].
Qed.
End Keyboard.
End Boot.
