(* ===== verification/Launch.v ===== *)
(** * Starting kernel threads

    [CreateThread] followed by [KThreadRun], as in [IdeInit], in a kernel where the scheduler's
    invariant holds: against the allocator's interface, the new thread joins the waiting
    threads with a stack of its own, everything the scheduler knows about the others is kept,
    and the kernel is ready for the next one. *)

From Stdlib Require Import ZArith Lia ZifyBool.
From stdpp Require Import base numbers gmap list.
From S2P Require Import Prelude Memory Machine Lists Allocator AllocRep AllocReq AllocHeap AllocInit AllocSafety AllocIface AllocRoom.
From S2P Require Import Queues Console Interrupt Thread ContextSwitch Scheduler ThreadSpec HeapInit Timer IntrEntrySpec Preempt.

(** ** Places *)

(** The bytes of [r] lie in a block of [A]. *)
Definition covered (A : list (Z * Z)) (r : Z * Z) : Prop :=
  exists a z, (a, z) ∈ A /\ phys a <= phys r.1 /\ phys r.1 + r.2 <= phys a + z.

(** The scheduler's places, the free threads, the head of their list and that of the process's
    threads. *)
Definition launch_regions (s : kstate) (q h p fl : Z) (free : list Z) (ts : list task) : list (Z * Z) :=
  (fl, 4) :: (p + 44, 4) :: map (fun t => (t, 24)) free ++ sched_regions s q h p ts.

Lemma regions_ok_cons r R :
  span r.1 r.2 -> Forall (fun r' => apart (phys r.1) r.2 (phys r'.1) r'.2) R -> regions_ok R -> regions_ok (r :: R).
Proof.
  intros Hs Ha [R1 R2]. rewrite Forall_forall in Ha. split.
  - intros [|i] r' Hi; cbn in Hi; [by simplify_eq|by eapply R1].
  - intros [|i] [|j] r1 r2 Hi Hj Hne; cbn in Hi, Hj; simplify_eq.
    + apply Ha. by eapply list_elem_of_lookup_2.
    + apply apart_sym, Ha. by eapply list_elem_of_lookup_2.
    + eapply R2; [exact Hi|exact Hj|lia].
Qed.

Lemma regions_ok_nil : regions_ok [].
Proof. split; [intros i r Hi|intros i j r1 r2 Hi]; by rewrite lookup_nil in Hi. Qed.

Lemma regions_ok_app_r R R' : regions_ok (R ++ R') -> regions_ok R'.
Proof.
  intros [R1 R2]. assert (forall i r, R' !! i = Some r -> (R ++ R') !! (length R + i)%nat = Some r) as E.
  { intros i r Hi. rewrite lookup_app_r by lia. by replace (length R + i - length R)%nat with i by lia. }
  split; [intros i r Hi; exact (R1 _ _ (E _ _ Hi))|].
  intros i j r1 r2 Hi Hj Hne. apply (R2 _ _ _ _ (E _ _ Hi) (E _ _ Hj)). lia.
Qed.

Lemma pool_same_only P m m' :
  only P m m' -> (forall b, P b -> ~ (POOL - KVA <= b < POOL_END - KVA)) -> pool_same m m'.
Proof.
  intros Ho HP k b Hb Hk. apply load_ext. intros i Hi. apply Ho. intros Hc. apply (HP _ Hc). rewrite phys_high by lia. lia.
Qed.

Lemma regions_perm (F C T B P G : list (Z * Z)) a b c d e :
  a :: b :: F ++ C ++ (T ++ [c]) ++ (B ++ [d]) ++ (P ++ [e]) ++ G ≡ₚ d :: e :: a :: b :: c :: F ++ C ++ T ++ B ++ P ++ G.
Proof.
  rewrite <- !Permutation_cons_append. cbn [app]. rewrite <- !Permutation_middle.
  generalize (F ++ C ++ T ++ B ++ P ++ G). intros l. exact (Permutation_app_tail l (Permutation_app_comm [a; b; c] [d; e])).
Qed.

(** ** The invariant *)

Section Launch.
Context `{Platform} `{RoomyAllocator}.

(** The kernel multitasks, [free] are the free threads, process [p] is the kernel's, and [n] more
    requests for memory will be served. *)
Record launchable (fuel n : nat) (s : kstate) (q h p : Z) (x : task) (ws : list task) (fl : Z) (free : list Z)
    (A : list (Z * Z)) : Prop := {
  la_sched : sched s q h p x ws;
  la_fl : free_thread_list (thr s) = fl;
  la_free : clist (mem s) fl (nodes free);
  la_pid : load32 (mem s) p = 0;
  la_kspan : Forall (fun t => kspan t 24) free;
  la_nodes : nodes_ok 4 (fl :: p + 44 :: nodes free ++ q :: q + 4 :: h :: nodes (map tk (x :: ws)));
  la_regions : regions_ok (launch_regions s q h p fl free (x :: ws));
  la_cover r : r ∈ launch_regions s q h p fl free (x :: ws) -> covered A r /\ 0 < r.2;
  la_ample : ample fuel n s A;
}.

(** A covered place is in the direct mapping area, below the allocator's pool. *)
Lemma cover_block fuel n s A r :
  ample fuel n s A -> covered A r -> 0 < r.2 ->
  exists a z, (a, z) ∈ A /\ KVA <= a /\ a + z <= POOL /\ a - KVA <= phys r.1 /\ phys r.1 + r.2 <= a - KVA + z.
Proof.
  intros Ha (a & z & Hin & C1 & C2) Hr. pose proof (owns_range _ _ _ _ a z (ample_owns _ _ _ _ Ha) Hin) as Hb.
  assert (phys a = a - KVA) as E by (apply phys_high; lia). rewrite E in C1, C2. exists a, z. split_and!; first [done|lia].
Qed.

(** Memory asked for later is apart from it. *)
Lemma cover_apart fuel n s A r stk z :
  ample fuel n s A -> covered A r -> 0 < r.2 -> KVA <= stk < W32 -> (forall a y, (a, y) ∈ A -> apart stk z a y) ->
  apart (phys stk) z (phys r.1) r.2.
Proof.
  intros Ha Hc Hr Hs Hap. destruct (cover_block fuel n s A r Ha Hc Hr) as (a & y & Hin & C1 & C2 & C3 & C4).
  specialize (Hap a y Hin). rewrite (phys_high stk) by lia. unfold apart in *. lia.
Qed.

Section One.
Context (fuel n : nat) (s : kstate) (q h p : Z) (x : task) (ws : list task) (fl t : Z) (free : list Z) (A : list (Z * Z)).
Context (L : launchable fuel (S n) s q h p x ws fl (t :: free) A).

Let R : list (Z * Z) := launch_regions s q h p fl (t :: free) (x :: ws).

Lemma place_free i y : (t :: free) !! i = Some y -> R !! (2 + i)%nat = Some (y, 24).
Proof.
  intros Hy. change (R !! (2 + i)%nat) with ((map (fun t => (t, 24)) (t :: free) ++ sched_regions s q h p (x :: ws)) !! i).
  rewrite lookup_app_l by (rewrite length_map; by eapply lookup_lt_Some). rewrite list_lookup_fmap, Hy. done.
Qed.

Lemma place_sched j r : sched_regions s q h p (x :: ws) !! j = Some r -> R !! (3 + length free + j)%nat = Some r.
Proof.
  intros Hr. unfold R, launch_regions.
  change ((map (fun t => (t, 24)) (t :: free) ++ sched_regions s q h p (x :: ws)) !! (1 + length free + j)%nat = Some r).
  rewrite lookup_app_r by (rewrite length_map; cbn [length]; lia). rewrite length_map. cbn [length].
  by replace (1 + length free + j - S (length free))%nat with j by lia.
Qed.

Lemma one_apart i j r1 r2 : R !! i = Some r1 -> R !! j = Some r2 -> i <> j -> apart (phys r1.1) r1.2 (phys r2.1) r2.2.
Proof using L. destruct (la_regions _ _ _ _ _ _ _ _ _ _ _ L) as [_ Hs]. apply Hs. Qed.

Lemma one_cover i r : R !! i = Some r -> covered A r /\ 0 < r.2.
Proof using L. intros Hi. apply (la_cover _ _ _ _ _ _ _ _ _ _ _ L). by eapply list_elem_of_lookup_2. Qed.

(** What [CreateThread] writes: the two list heads, the thread, its stack and the allocator's bytes. *)
Definition made (stk b : Z) : Prop :=
  pool_byte b \/ inr_ b (fl, 4) \/ inr_ b (p + 44, 4) \/ inr_ b (t, 24) \/ inr_ b (stk, 4096).

(** A stack of its own. *)
Definition fresh (stk : Z) : Prop := KVA <= stk /\ stk + 4096 <= POOL /\ forall a z, (a, z) ∈ A -> apart stk 4096 a z.

Lemma made_place stk i r b : fresh stk -> R !! i = Some r -> (2 < i)%nat -> made stk b -> ~ inr_ b r.
Proof using L.
  intros (F1 & F2 & F3) Hr Hi Hm Hb. destruct (one_cover i r Hr) as [Hc Hp]. pose proof (la_ample _ _ _ _ _ _ _ _ _ _ _ L) as Ha.
  unfold inr_ in Hb. destruct Hm as [Hm|[Hm|[Hm|[Hm|Hm]]]].
  - destruct (cover_block _ _ _ _ _ Ha Hc Hp) as (a & z & _ & B1 & B2 & B3 & B4). unfold pool_byte in Hm. lia.
  - pose proof (one_apart 0 i (fl, 4) r eq_refl Hr ltac:(lia)) as X. unfold inr_, apart in *. cbn [fst snd] in *. lia.
  - pose proof (one_apart 1 i (p + 44, 4) r eq_refl Hr ltac:(lia)) as X. unfold inr_, apart in *. cbn [fst snd] in *. lia.
  - pose proof (one_apart 2 i (t, 24) r eq_refl Hr ltac:(lia)) as X. unfold inr_, apart in *. cbn [fst snd] in *. lia.
  - pose proof (cover_apart _ _ _ _ r stk 4096 Ha Hc Hp ltac:(lia) F3) as X. unfold inr_, apart in *. cbn [fst snd] in *. lia.
Qed.

Lemma kspan_of_node w : w ∈ fl :: p + 44 :: nodes (t :: free) -> kspan w 4.
Proof using L.
  intros Hw. eapply nodes_ok_kspan; [exact (la_nodes _ _ _ _ _ _ _ _ _ _ _ L)|].
  rewrite !elem_of_cons, elem_of_app in *. tauto.
Qed.

Lemma thread_ok : kspan t 24.
Proof using L. pose proof (la_kspan _ _ _ _ _ _ _ _ _ _ _ L) as Hk. by apply Forall_cons_1 in Hk as [Hk _]. Qed.

(** The words and places of [CreateThread], as addresses. *)
Lemma create_places :
  kspan fl 4 /\ kspan (p + 44) 4 /\ fl + 4 <= POOL /\ p + 48 <= POOL /\ t + 24 <= POOL /\
  apart fl 4 (p + 44) 4 /\ apart fl 4 t 24 /\ apart (p + 44) 4 t 24.
Proof using L.
  pose proof (kspan_of_node fl ltac:(left)) as Kf. pose proof (kspan_of_node (p + 44) ltac:(right; left)) as Kp.
  pose proof thread_ok as Kt. pose proof (la_ample _ _ _ _ _ _ _ _ _ _ _ L) as Ha.
  assert (forall i r, R !! i = Some r -> phys r.1 + r.2 <= POOL - KVA) as Hr.
  { intros i r Hi. destruct (one_cover i r Hi) as [Hc Hp].
    destruct (cover_block _ _ _ _ _ Ha Hc Hp) as (a & z & _ & B1 & B2 & B3 & B4). lia. }
  pose proof (Hr 0%nat _ eq_refl) as R0. pose proof (Hr 1%nat _ eq_refl) as R1. pose proof (Hr 2%nat _ eq_refl) as R2.
  pose proof (one_apart 0 1 _ _ eq_refl eq_refl ltac:(lia)) as A01. pose proof (one_apart 0 2 _ _ eq_refl eq_refl ltac:(lia)) as A02.
  pose proof (one_apart 1 2 _ _ eq_refl eq_refl ltac:(lia)) as A12. cbn [fst snd] in *. unfold kspan, apart in *.
  rewrite !phys_high in * by lia. lia.
Qed.

(** A word in a place, written. *)
Lemma store_in (P : Z -> Prop) r w m v :
  (forall b, inr_ b r -> P b) -> span r.1 r.2 -> r.1 <= w -> w + 4 <= r.1 + r.2 -> only P m (store32 m w v).
Proof.
  intros HP Hs H1' H2'. apply only_store32; [unfold span in *; lia|]. intros i Hi. apply HP. unfold inr_.
  replace w with (r.1 + (w - r.1)) by lia. rewrite (phys_span r.1 r.2) by (done || lia). lia.
Qed.

Ltac stored r := apply (store_in _ r); cbn [fst snd]; [tauto|right; lia|lia|lia].

(** Writes that spare the free threads but the first. *)
Lemma free_kept P m m' :
  only P m m' -> (forall i r b, R !! i = Some r -> i = 0%nat \/ (2 < i < 3 + length free)%nat -> P b -> ~ inr_ b r) ->
  clist m fl (nodes free) -> clist m' fl (nodes free).
Proof using L.
  intros Ho HP [Hc Hn]. split; [|exact Hn]. apply (circ_frame (load32 m)); [|exact Hc]. intros w Hw.
  apply elem_of_cons in Hw as [->|Hw].
  - apply (only_load32 _ _ _ _ Ho); [apply kspan_span, kspan_of_node; left|]. intros k Hk Hb.
    apply (HP 0%nat (fl, 4) _ eq_refl ltac:(lia) Hb). unfold inr_. cbn [fst snd]. lia.
  - apply list_elem_of_lookup in Hw as (j & Hj). apply nodes_lookup in Hj as (y & Hy & ->).
    pose proof (la_kspan _ _ _ _ _ _ _ _ _ _ _ L) as Hk. apply Forall_cons_1 in Hk as [_ Hk]. rewrite Forall_lookup in Hk.
    specialize (Hk j y Hy). apply (only_load32 _ _ _ _ Ho); [apply kspan_span in Hk; unfold span in *; lia|]. intros k Hk' Hb.
    pose proof (lookup_lt_Some _ _ _ Hy). apply (HP (3 + j)%nat (y, 24) _ (place_free (S j) y Hy) ltac:(lia) Hb).
    unfold inr_. cbn [fst snd]. rewrite (phys_span y 24) by (lia || by apply kspan_span). lia.
Qed.

(** The free list without its first thread. *)
Lemma create_take :
  exists m1, runs (IsListEmpty fl) s false s /\ runs (ListRemove fl) s (t + 16) (set_mem m1 s) /\
    clist m1 fl (nodes free) /\ only (fun b => inr_ b (fl, 4) \/ inr_ b (t, 24)) (mem s) m1.
Proof using L.
  pose proof (la_free _ _ _ _ _ _ _ _ _ _ _ L) as Hf. destruct create_places as (Kf & _). pose proof thread_ok as Kt.
  destruct (ListRemove_spec s fl [] (t + 16) (nodes free) Hf) as (m1 & Hr & Hc & _).
  destruct (ListRemove_runs fl s) as (m2 & Hr2 & Em). cbn [tail_of app] in *.
  destruct (runs_det _ _ _ _ _ _ Hr Hr2) as [E1 E]. apply (f_equal mem) in E. cbn [mem set_mem] in E.
  rewrite <- E, <- E1 in Em. exists m1. split_and!; [exact (IsListEmpty_spec s fl _ Hf)|exact Hr|exact Hc|]. rewrite Em.
  eapply only_trans; [apply (store_in _ (fl, 4))|apply (store_in _ (t, 24))]; cbn [fst snd];
    first [tauto|apply kspan_span; assumption|unfold kspan in *; lia].
Qed.

(** [CreateThread]. *)
Lemma create_part :
  exists stk m', runs (CreateThread fuel p) s t (set_mem m' s) /\ only (made stk) (mem s) m' /\ fresh stk /\
    ample fuel n (set_mem m' s) ((stk, 4096) :: A) /\ clist m' fl (nodes free) /\
    load32 m' (t + 4) = stk + 4095 /\ load32 m' (t + 8) = p /\ load32 m' (t + 12) = stk + 4091 /\ load32 m' (stk + 4091) = t.
Proof using L.
  destruct create_take as (m1 & He & Hr1 & Hc1 & Ho1). destruct create_places as (Kf & Kp & Pf & Pp & Pt & A01 & A02 & A12).
  pose proof thread_ok as Kt. pose proof (la_ample _ _ _ _ _ _ _ _ _ _ _ L) as Ha.
  assert (ample fuel (S n) (set_mem m1 s) A) as Ha1.
  { eapply ample_frame; [exact Ha|reflexivity|]. apply (pool_same_only _ _ _ Ho1). unfold inr_, kspan in *. cbn [fst snd].
    intros b Hb. rewrite !phys_high in Hb by lia. lia. }
  destruct (ample_req fuel n _ A 4096 Ha1 ltac:(lia)) as (stk & m2 & Hr2 & Hpo & _ & Ha2 & Hap). cbn [mem set_mem] in Hpo.
  pose proof (owns_range _ _ _ _ stk 4096 (ample_owns _ _ _ _ Ha2) (list_elem_of_here _ _)) as [F1 F2].
  assert (fresh stk) as Hfr by exact (conj F1 (conj F2 Hap)).
  assert (forall r, r ∈ [(fl, 4); (p + 44, 4); (t, 24)] -> apart stk 4096 r.1 r.2) as Hst.
  { intros r Hr. apply list_elem_of_lookup in Hr as (i & Hi).
    assert (R !! i = Some r) as HR by (destruct i as [|[|[|i]]]; [exact Hi..|discriminate Hi]).
    destruct (one_cover i r HR) as [Hc Hp]. pose proof (cover_apart _ _ _ _ r stk 4096 Ha Hc Hp ltac:(lia) Hap) as X.
    destruct i as [|[|[|i]]]; cbn in Hi; simplify_eq; cbn [fst snd] in *; unfold kspan, apart in *; rewrite !phys_high in X by lia; lia. }
  pose proof (Hst (fl, 4) ltac:(left)) as S0. pose proof (Hst (p + 44, 4) ltac:(right; left)) as S1.
  pose proof (Hst (t, 24) ltac:(right; right; left)) as S2. cbn [fst snd] in S0, S1, S2.
  set (m6 := create_mem m2 t p (stk + 4095)). set (m7 := store32 (store32 m6 (p + 44) (t + 16)) (t + 16) (load32 m6 (p + 44))).
  assert (only (fun b => inr_ b (p + 44, 4) \/ inr_ b (t, 24) \/ inr_ b (stk, 4096)) m2 m7) as Ho7.
  { unfold m7, m6, create_mem, kspan in *.
    repeat (eapply only_trans; [|first [stored (t, 24)|stored (p + 44, 4)|stored (stk, 4096)]]). apply only_refl. }
  exists stk, m7. split_and!; [| |exact Hfr| | |unfold m7, m6, create_mem, kspan, apart in *..].
  - eapply (create_runs fuel s fl t p stk m1 m2); [apply L|exact He|exact Hr1|exact Hr2|exact Kt|exact Kp|lia|lia|].
    destruct (ListAdd_runs (p + 44) (t + 16) (set_mem m6 s)) as (m' & Hr & ->). exact Hr.
  - eapply only_trans; [eapply only_mono; [|exact Ho1]; unfold made; tauto|].
    eapply only_trans; [eapply only_mono; [|exact (pool_only_bytes _ _ Hpo)]; unfold made; tauto|].
    eapply only_mono; [|exact Ho7]. unfold made. tauto.
  - eapply ample_frame; [exact Ha2|reflexivity|]. apply (pool_same_only _ _ _ Ho7). unfold inr_, kspan in *. cbn [fst snd].
    intros b Hb. rewrite !phys_high in Hb by lia. lia.
  - assert (only (fun b => pool_byte b \/ inr_ b (p + 44, 4) \/ inr_ b (t, 24) \/ inr_ b (stk, 4096)) m1 m7) as Ho17.
    { eapply only_trans; (eapply only_mono; [|first [exact (pool_only_bytes _ _ Hpo)|exact Ho7]]); tauto. }
    apply (free_kept _ _ _ Ho17); [|exact Hc1]. intros i r b Hi Hlt Hb Hin. destruct (one_cover i r Hi) as [Hc Hp].
    destruct Hb as [Hb|[Hb|[Hb|Hb]]].
    + destruct (cover_block _ _ _ _ _ Ha Hc Hp) as (a & z & _ & B1 & B2 & B3 & B4). unfold inr_, pool_byte in *. lia.
    + pose proof (one_apart 1 i _ _ eq_refl Hi ltac:(lia)) as X. unfold inr_, apart in *. cbn [fst snd] in *. lia.
    + pose proof (one_apart 2 i _ _ eq_refl Hi ltac:(lia)) as X. unfold inr_, apart in *. cbn [fst snd] in *. lia.
    + pose proof (cover_apart _ _ _ _ r stk 4096 Ha Hc Hp ltac:(lia) Hap) as X. unfold inr_, apart in *. cbn [fst snd] in *. lia.
  - rewrite !load32_store32_ne by (unfold kspan, apart; lia). rewrite load32_store32_same by (unfold kspan; lia). apply u32_small. lia.
  - rewrite !load32_store32_ne by (unfold kspan, apart; lia). rewrite load32_store32_same by (unfold kspan; lia). apply u32_small. lia.
  - rewrite !load32_store32_ne by (unfold kspan, apart; lia). rewrite load32_store32_same by (unfold kspan; lia). rewrite u32_small; lia.
  - replace (stk + 4095 - 4) with (stk + 4091) by lia.
    rewrite !load32_store32_ne by (unfold kspan, apart; lia). rewrite load32_store32_same by (unfold kspan; lia). apply u32_small. lia.
Qed.

(** ** After [CreateThread] *)

Lemma fresh_regions stk : fresh stk -> regions_ok ((stk, 4096) :: R).
Proof using L.
  intros (F1 & F2 & F3). apply regions_ok_cons; [right; cbn [fst snd]; lia| |apply L]. rewrite Forall_lookup. intros i r Hi.
  destruct (one_cover i r Hi) as [Hc Hp]. exact (cover_apart _ _ _ _ r stk 4096 (la_ample _ _ _ _ _ _ _ _ _ _ _ L) Hc Hp ltac:(lia) F3).
Qed.

(** Where the queue's bytes are. *)
Lemma queue_place b :
  qbytes q h (nodes (map tk ws)) b ->
  exists j r, sched_regions s q h p (x :: ws) !! j = Some r /\ inr_ b r /\
    (j = 1%nat \/ j = 2%nat \/ exists i y, ws !! i = Some y /\ j = (6 + i)%nat /\ phys (tk y + 16) <= b < phys (tk y + 16) + 4).
Proof using L.
  pose proof (sched_kspan _ _ _ _ _ _ (la_sched _ _ _ _ _ _ _ _ _ _ _ L)) as Hks.
  intros [Hb|[Hb|(w & Hw & Hb)]].
  - exists 1%nat, (q, 8). split; [reflexivity|]. split; [exact Hb|lia].
  - exists 2%nat, (h, 4). split; [reflexivity|]. split; [exact Hb|lia].
  - apply list_elem_of_lookup in Hw as (i & Hi). apply nodes_lookup in Hi as (z & Hz & ->).
    rewrite list_lookup_fmap in Hz. apply fmap_Some in Hz as (y & Hy & ->).
    exists (6 + i)%nat, (tk y, 24). split; [exact (place_thread s q h p (x :: ws) (S i) y Hy)|]. split.
    + rewrite (thread_phys (x :: ws) Hks) in Hb by (lia || (right; by eapply list_elem_of_lookup_2)). unfold inr_. cbn [fst snd]. lia.
    + right. right. exists i, y. split; [exact Hy|]. split; [lia|exact Hb].
Qed.

Lemma start_nodes : nodes_ok 4 (t + 16 :: q :: q + 4 :: h :: nodes (map tk ws)).
Proof using L.
  pose proof (la_nodes _ _ _ _ _ _ _ _ _ _ _ L) as Hn. eapply nodes_ok_sub; [exact Hn| |].
  - destruct Hn as [Hnd _]. eapply sublist_NoDup; [exact Hnd|]. cbn [nodes map app]. do 2 apply sublist_cons. apply sublist_skip.
    apply sublist_inserts_l. do 3 apply sublist_skip. apply sublist_cons. reflexivity.
  - intros w Hw. cbn [nodes map app]. rewrite !elem_of_cons, elem_of_app, !elem_of_cons. rewrite !elem_of_cons in Hw. tauto.
Qed.

Definition start_place (i : nat) : nat :=
  match i with
  | 0 => 3
  | 1 => 0
  | 2 => 4 + length free + 1
  | 3 => 4 + length free + 2
  | 4 => 4 + length free + 4
  | S (S (S (S (S k)))) => 4 + length free + (6 + k)
  end%nat.

Lemma start_regions stk :
  fresh stk -> regions_ok ([(t, 24); (stk + 4091 - 20, 20); (q, 8); (h, 4); (p, 4)] ++ node_regions (nodes (map tk ws))).
Proof using L.
  intros Hf. apply (regions_ok_embed _ _ start_place (fresh_regions stk Hf)).
  - intros i r Hi. destruct i as [|[|[|[|[|i]]]]]; [injection Hi as <-; cbn [start_place fst snd]..|].
    + exists (t, 24). split; [exact (place_free 0 t eq_refl)|cbn [fst snd]; lia].
    + exists (stk, 4096). split; [reflexivity|cbn [fst snd]; lia].
    + exists (q, 8). split; [exact (place_sched 1 _ eq_refl)|cbn [fst snd]; lia].
    + exists (h, 4). split; [exact (place_sched 2 _ eq_refl)|cbn [fst snd]; lia].
    + exists (p, 4). split; [exact (place_sched 4 _ eq_refl)|cbn [fst snd]; lia].
    + change (node_regions (nodes (map tk ws)) !! i = Some r) in Hi. unfold node_regions, nodes in Hi. rewrite !list_lookup_fmap in Hi.
      destruct (ws !! i) as [y|] eqn:Ey; [|done]. injection Hi as <-. exists (tk y, 24).
      split; [exact (place_sched (6 + i) _ (place_thread s q h p (x :: ws) (S i) y Ey))|cbn [fst snd]; lia].
  - intros i j _ _ E.
    destruct i as [|[|[|[|[|i]]]]], j as [|[|[|[|[|j]]]]]; cbn [start_place] in E; lia.
Qed.

Lemma start_ready stk m' :
  fresh stk -> only (made stk) (mem s) m' -> load32 m' (t + 8) = p -> load32 m' (t + 12) = stk + 4091 ->
  startable (set_mem m' s) q h (nodes (map tk ws)) t p (stk + 4091).
Proof using L.
  intros Hf Ho E8 E12. pose proof (la_sched _ _ _ _ _ _ _ _ _ _ _ L) as Hs. constructor; cbn [mem set_mem thr].
  - apply Hs.
  - apply (queue_rep_only _ _ _ _ _ _ (sc_rep _ _ _ _ _ _ Hs) Ho). intros b Hb Hm.
    destruct (queue_place b Hb) as (j & r & Hj & Hin & _).
    exact (made_place stk _ r b Hf (place_sched j r Hj) ltac:(lia) Hm Hin).
  - exact start_nodes.
  - exact thread_ok.
  - exact E8.
  - rewrite <- (la_pid _ _ _ _ _ _ _ _ _ _ _ L). apply (only_load32 _ _ _ _ Ho).
    + exact (place_span s q h p _ (sc_regions _ _ _ _ _ _ Hs) 4 _ eq_refl).
    + intros k Hk Hm. apply (made_place stk _ _ _ Hf (place_sched 4 _ eq_refl) ltac:(lia) Hm). unfold inr_. cbn [fst snd]. lia.
  - exact E12.
  - exact (start_regions stk Hf).
Qed.

(** ** After [KThreadRun] *)

Definition new_task stk fn : task := mk_task t (stk + 4023) (stk + 4091) (set_esp (stk + 4091) (cpu s)) (Some fn).

(** Everything that is written. *)
Definition touched (stk b : Z) : Prop := made stk b \/ qbytes q h (nodes (map tk ws)) b.

Lemma touched_written stk b : fresh stk -> touched stk b -> written s q h p (x :: ws) x b.
Proof using L.
  intros Hf [Hm|Hq].
  - do 7 right. intros j r Hj. exact (made_place stk _ r b Hf (place_sched j r Hj) ltac:(lia) Hm).
  - destruct (queue_place b Hq) as (j & r & Hj & Hin & [->|[->|(i & y & Hy & -> & Hb)]]).
    + right; left. injection Hj as <-. exact Hin.
    + do 2 right; left. injection Hj as <-. exact Hin.
    + do 6 right; left. exists y. split; [right; by eapply list_elem_of_lookup_2|exact Hb].
Qed.

Lemma touched_place stk j r b :
  fresh stk -> touched stk b -> sched_regions s q h p (x :: ws) !! j = Some r -> (2 < j < 5)%nat -> ~ inr_ b r.
Proof using L.
  intros Hf [Hm|Hq] Hj Hlt Hin; [exact (made_place stk _ r b Hf (place_sched j r Hj) ltac:(lia) Hm Hin)|].
  destruct (queue_place b Hq) as (j' & r' & Hj' & Hin' & Hc).
  apply (place_apart s q h p _ (sc_regions _ _ _ _ _ _ (la_sched _ _ _ _ _ _ _ _ _ _ _ L)) j j' r r' b Hj Hj'); [|exact Hin|exact Hin'].
  destruct Hc as [->|[->|(i' & y & _ & -> & _)]]; lia.
Qed.

(** What [KThreadRun] writes. *)
Definition begun (stk b : Z) : Prop := start_bytes t (stk + 4091) b \/ qbytes q h (t + 16 :: nodes (map tk ws)) b.

Lemma begun_place stk b :
  fresh stk -> begun stk b ->
  (phys t + 12 <= b < phys t + 20 \/ phys stk + 4071 <= b < phys stk + 4091) \/ qbytes q h (nodes (map tk ws)) b.
Proof using L.
  intros (F1 & F2 & _) Hb. pose proof thread_ok as Kt. unfold kspan in Kt. unfold begun, start_bytes in Hb.
  rewrite (phys_high (stk + 4091 - 20)), (phys_high t) in Hb by lia. rewrite (phys_high t), (phys_high stk) by lia.
  destruct Hb as [Hb|[Hb|[Hb|(w & Hw & Hb)]]]; [lia|right; by left|right; right; by left|].
  apply elem_of_cons in Hw as [->|Hw]; [left; rewrite phys_high in Hb by lia; lia|right; right; right; by exists w].
Qed.

Lemma begun_touched stk b : fresh stk -> begun stk b -> touched stk b.
Proof using L.
  intros Hf Hb. destruct (begun_place stk b Hf Hb) as [[Hb'|Hb']|Hq]; [left; do 3 right; left|left; do 4 right|by right];
    unfold inr_; cbn [fst snd]; lia.
Qed.

(** Words of the thread and its stack that stay. *)
Lemma begun_word stk m m' w :
  fresh stk -> only (begun stk) m m' -> w = t + 4 \/ w = t + 8 \/ w = stk + 4091 -> load32 m' w = load32 m w.
Proof using L.
  intros Hf Ho Hw. pose proof thread_ok as Kt. pose proof Hf as (F1 & F2 & _). unfold kspan in Kt.
  pose proof (fresh_regions stk Hf) as [_ Hsep].
  pose proof (Hsep 0%nat 3%nat _ _ eq_refl (place_free 0 t eq_refl) ltac:(lia)) as A03. cbn [fst snd] in A03.
  assert (span w 4) as Hsp by (destruct Hw as [->|[->| ->]]; right; lia).
  assert (phys w = phys t + 4 \/ phys w = phys t + 8 \/ phys w = phys stk + 4091) as Hpw.
  { destruct Hw as [->|[->| ->]]; rewrite !phys_high by lia; lia. }
  apply (only_load32 _ _ _ _ Ho Hsp). intros k Hk Hb. apply (begun_place stk _ Hf) in Hb. unfold apart in A03.
  destruct Hb as [Hb|Hq]; [lia|].
  destruct (queue_place _ Hq) as (j & r & Hj & Hin & _). unfold inr_ in Hin. pose proof (place_sched j r Hj) as Hr.
  pose proof (Hsep 0%nat (S (3 + length free + j)) _ r eq_refl Hr ltac:(lia)) as X0.
  pose proof (one_apart 2 _ _ _ eq_refl Hr ltac:(lia)) as X3. unfold apart in X0, X3. cbn [fst snd] in X0, X3. lia.
Qed.

Lemma begun_free stk m m' :
  fresh stk -> only (begun stk) m m' -> clist m fl (nodes free) -> clist m' fl (nodes free).
Proof using L.
  intros Hf Ho. apply (free_kept _ _ _ Ho). intros i r b Hi Hlt Hb Hin. pose proof (fresh_regions stk Hf) as [_ Hsep].
  pose proof (Hsep 0%nat (S i) _ _ eq_refl Hi ltac:(lia)) as X0. unfold apart, inr_ in *. cbn [fst snd] in X0.
  destruct (begun_place stk b Hf Hb) as [Hc|Hq].
  - pose proof (one_apart 2 i _ _ eq_refl Hi ltac:(lia)) as X2. unfold apart in X2. cbn [fst snd] in X2. lia.
  - destruct (queue_place b Hq) as (j & r' & Hj & Hin' & _). unfold inr_ in Hin'.
    pose proof (one_apart _ _ _ _ (place_sched j r' Hj) Hi ltac:(lia)) as X. unfold apart in X. lia.
Qed.

(** ** The kernel with the new thread *)

Lemma launched_regions stk fn : fresh stk ->
  regions_ok (launch_regions s q h p fl free (x :: ws ++ [new_task stk fn])) /\
  forall r, r ∈ launch_regions s q h p fl free (x :: ws ++ [new_task stk fn]) -> covered ((stk, 4096) :: A) r /\ 0 < r.2.
Proof using L.
  intros Hf. pose proof Hf as (F1 & F2 & _). pose proof (fresh_regions stk Hf) as Hfr.
  assert ((stk + 3995, 96) :: (stk + 4091, 4) :: R ≡ₚ launch_regions s q h p fl free (x :: ws ++ [new_task stk fn])) as Hp.
  { unfold R, launch_regions, sched_regions. cbn [map]. rewrite !map_app. cbn [map new_task tk base top].
    replace (stk + 4023 - 28) with (stk + 3995) by lia. symmetry.
    exact (regions_perm (map (fun t => (t, 24)) free) [(VIDEO, 3840); (q, 8); (h, 4); (tss s + 4, 4); (p, 4)]
      (map (fun x => (tk x, 24)) (x :: ws)) (map (fun x => (base x - 28, 96)) (x :: ws)) (map (fun x => (top x, 4)) (x :: ws)) _ _ _ _ _ _). }
  split.
  - eapply regions_ok_perm; [exact Hp|]. apply regions_ok_cons; [right; cbn [fst snd]; lia| |].
    + apply Forall_cons. split; [unfold apart; cbn [fst snd]; rewrite !phys_high by lia; lia|]. rewrite Forall_lookup. intros i r Hi.
      pose proof (proj2 Hfr 0%nat (S i) _ r eq_refl Hi ltac:(lia)) as X. unfold apart in *. cbn [fst snd] in *. rewrite !phys_high in * by lia. lia.
    + apply regions_ok_cons; [right; cbn [fst snd]; lia| |apply L]. rewrite Forall_lookup. intros i r Hi.
      pose proof (proj2 Hfr 0%nat (S i) _ r eq_refl Hi ltac:(lia)) as X. unfold apart in *. cbn [fst snd] in *. rewrite !phys_high in * by lia. lia.
  - intros r Hr. rewrite <- Hp in Hr. rewrite !elem_of_cons in Hr. destruct Hr as [->|[->|Hr]].
    + split; [|cbn [snd]; lia]. exists stk, 4096. split; [left|]. cbn [fst snd]. rewrite !phys_high by lia. lia.
    + split; [|cbn [snd]; lia]. exists stk, 4096. split; [left|]. cbn [fst snd]. rewrite !phys_high by lia. lia.
    + destruct (la_cover _ _ _ _ _ _ _ _ _ _ _ L r Hr) as [(a & z & Hin & Hc) Hz]. split; [|exact Hz].
      exists a, z. split; [by right|exact Hc].
Qed.

Lemma launched_nodes stk fn :
  nodes_ok 4 (fl :: p + 44 :: nodes free ++ q :: q + 4 :: h :: nodes (map tk (x :: ws ++ [new_task stk fn]))).
Proof using L.
  eapply nodes_ok_perm; [|exact (la_nodes _ _ _ _ _ _ _ _ _ _ _ L)]. unfold nodes. cbn [map]. rewrite !map_app. cbn [map new_task tk app].
  do 2 constructor. rewrite Permutation_middle. apply Permutation_app_head.
  change (q :: q + 4 :: h :: tk x + 16 :: ?l) with ([q; q + 4; h; tk x + 16] ++ l).
  rewrite app_assoc. apply Permutation_cons_append.
Qed.

Section Assemble.
Context (stk fn : Z) (Hf : fresh stk) (Hfn : fn <> ThreadSwitch_ret) (m' : gmap Z Z) (Ho : only (touched stk) (mem s) m').
Context (HQ : queue_rep m' q h (nodes (map tk ws) ++ [t + 16])) (Hsv : saved m' (t + 12) = mk_context (stk + 4091) 0 0 0 0 fn).
Context (E4 : load32 m' (t + 4) = stk + 4095) (E8 : load32 m' (t + 8) = p) (Et : load32 m' (stk + 4091) = t).

Lemma launched_word j a : sched_regions s q h p (x :: ws) !! j = Some (a, 4) -> (2 < j < 5)%nat -> load32 m' a = load32 (mem s) a.
Proof using L Hf Ho.
  intros Hj Hlt. pose proof (la_sched _ _ _ _ _ _ _ _ _ _ _ L) as Hs. apply (only_load32 _ _ _ _ Ho).
  - exact (place_span s q h p _ (sc_regions _ _ _ _ _ _ Hs) j _ Hj).
  - intros k Hk Hb. apply (touched_place stk j _ _ Hf Hb Hj Hlt). unfold inr_. cbn [fst snd]. lia.
Qed.

Lemma launched_sched : sched (set_mem m' s) q h p x (ws ++ [new_task stk fn]).
Proof using All.
  pose proof (la_sched _ _ _ _ _ _ _ _ _ _ _ L) as Hs. pose proof Hf as (F1 & F2 & _).
  assert (only (written s q h p (x :: ws) x) (mem s) m') as How by (eapply only_mono; [|exact Ho]; intros b; by apply touched_written).
  constructor; cbn [mem set_mem cpu thr tss con intr timer].
  - apply Hs.
  - rewrite map_app. unfold nodes in *. rewrite map_app. exact HQ.
  - pose proof (launched_nodes stk fn) as Hn. eapply nodes_ok_sub; [exact Hn| |].
    + destruct Hn as [Hnd _]. eapply sublist_NoDup; [exact Hnd|]. do 2 apply sublist_cons. apply sublist_inserts_l. reflexivity.
    + intros w Hw. do 2 right. apply elem_of_app. by right.
  - rewrite (launched_word 3 (tss s + 4) eq_refl ltac:(lia)). apply Hs.
  - change (Forall (task_ok m' p (cpu s)) ((x :: ws) ++ [new_task stk fn])). apply Forall_app. split.
    + by apply (tasks_kept s q h p x ws Hs _ How).
    + apply Forall_singleton. constructor; cbn [tk base top regs new_task]; [exact thread_ok|exact E8|lia|exact Et|cbn [esp set_esp]; lia|lia| |reflexivity].
      exact (entry_cpu_ok s q h p x ws Hs).
  - apply Forall_app. split; [by apply (waits_kept s q h p x ws Hs _ How)|]. apply Forall_singleton.
    constructor; cbn [tk base top new_task]; [lia|lia|exact Hsv|exact Hfn].
  - apply Hs.
  - apply Hs.
  - destruct (launched_regions stk fn Hf) as [Hr _]. unfold launch_regions in Hr.
    apply (regions_ok_app_r ((fl, 4) :: (p + 44, 4) :: map (fun t => (t, 24)) free)). exact Hr.
  - apply Hs.
  - apply Hs.
  - apply Hs.
  - by apply (tables_kept s q h p x ws Hs _ How).
  - by apply (tables_kept s q h p x ws Hs _ How).
Qed.

Lemma launched : clist m' fl (nodes free) -> ample fuel n (set_mem m' s) ((stk, 4096) :: A) ->
  launchable fuel n (set_mem m' s) q h p x (ws ++ [new_task stk fn]) fl free ((stk, 4096) :: A).
Proof using All.
  intros Hc Ha. destruct (launched_regions stk fn Hf) as [Hr Hcov]. constructor.
  - exact launched_sched.
  - exact (la_fl _ _ _ _ _ _ _ _ _ _ _ L).
  - exact Hc.
  - cbn [mem set_mem]. rewrite (launched_word 4 p eq_refl ltac:(lia)). apply L.
  - pose proof (la_kspan _ _ _ _ _ _ _ _ _ _ _ L) as Hk. by apply Forall_cons_1 in Hk as [_ Hk].
  - exact (launched_nodes stk fn).
  - exact Hr.
  - exact Hcov.
  - exact Ha.
Qed.
End Assemble.

(** A thread created and started. *)
Lemma launch_step fn :
  0 <= fn < W32 -> fn <> ThreadSwitch_ret ->
  exists stk m', runs (r <- CreateThread fuel p ;; KThreadRun r fn) s tt (set_mem m' s) /\
    launchable fuel n (set_mem m' s) q h p x (ws ++ [new_task stk fn]) fl free ((stk, 4096) :: A).
Proof using L.
  intros Hfn Hne. destruct create_part as (stk & m1 & Hr1 & Ho1 & Hf & Ha1 & Hc1 & E4 & E8 & E12 & Et).
  destruct (kthread_start _ q h _ t p (stk + 4091) fn (start_ready stk m1 Hf Ho1 E8 E12) Hfn) as (m2 & Hr2 & Hsv & HQ & Ho2).
  change (only (begun stk) m1 m2) in Ho2. exists stk, m2. split; [eapply runs_bind; [exact Hr1|exact Hr2]|].
  apply launched; [exact Hf|exact Hne| |exact HQ|exact Hsv|..].
  - eapply only_trans; [eapply only_mono; [|exact Ho1]; intros b Hb; by left|]. eapply only_mono; [|exact Ho2].
    intros b. by apply begun_touched.
  - rewrite <- E4. apply (begun_word stk _ _ _ Hf Ho2). tauto.
  - rewrite <- E8. apply (begun_word stk _ _ _ Hf Ho2). tauto.
  - etransitivity; [apply (begun_word stk _ _ _ Hf Ho2); tauto|exact Et].
  - exact (begun_free stk _ _ Hf Ho2 Hc1).
  - eapply ample_frame; [exact Ha1|reflexivity|]. apply (pool_same_only _ _ _ Ho2). intros b Hb.
    destruct create_places as (_ & _ & _ & _ & Pt & _). pose proof thread_ok as Kt. unfold kspan in Kt. pose proof Hf as (F1 & F2 & _).
    pose proof (la_ample _ _ _ _ _ _ _ _ _ _ _ L) as Ha.
    destruct (begun_place stk b Hf Hb) as [Hb'|Hq]; [rewrite !phys_high in Hb' by lia; lia|].
    destruct (queue_place b Hq) as (j & r & Hj & Hin & _). destruct (one_cover _ r (place_sched j r Hj)) as [Hc Hp].
    destruct (cover_block _ _ _ _ _ Ha Hc Hp) as (a & z & _ & B1 & B2 & B3 & B4). unfold inr_ in Hin. lia.
Qed.
End One.

(** ** Several threads, one after the other *)

(** The calls of [IdeInit], for each of several start functions. *)
Fixpoint start_threads (fuel : nat) (fns : list Z) : K unit :=
  match fns with
  | [] => ret tt
  | fn :: fns' =>
      kp <- GetKPcb ;;
      r <- CreateThread fuel kp ;;
      KThreadRun r fn ;;;
      start_threads fuel fns'
  end.

Definition start_ok (fn : Z) : Prop := 0 <= fn < W32 /\ fn <> ThreadSwitch_ret.

(** The thread [y] with structure [t] is about to start with [fn]. *)
Definition starts (t fn : Z) (y : task) : Prop := tk y = t /\ entry y = Some fn.

Lemma launch_all fuel n q h p x fl free : forall fns ts s ws A,
  launchable fuel (length fns + n) s q h p x ws fl (ts ++ free) A -> k_pcb (proc s) = p -> length ts = length fns ->
  Forall start_ok fns ->
  exists s' ys A', runs (start_threads fuel fns) s tt s' /\ launchable fuel n s' q h p x (ws ++ ys) fl free A' /\
    timer s' = timer s /\ Forall2 (fun tf y => starts tf.1 tf.2 y) (zip ts fns) ys.
Proof.
  induction fns as [|fn fns IH]; intros ts s ws A HL Ep Hl Hok.
  - destruct ts as [|t ts]; [|done]. exists s, [], A. rewrite app_nil_r. split_and!; [reflexivity|exact HL|done|constructor].
  - destruct ts as [|t ts]; [done|]. apply Forall_cons in Hok as [[Hf1 Hf2] Hok].
    destruct (launch_step _ _ _ _ _ _ _ _ _ _ _ _ HL fn Hf1 Hf2) as (stk & m' & Hr & HL').
    destruct (IH ts _ _ _ HL' Ep ltac:(by injection Hl) Hok) as (s' & ys & A' & Hr' & HL'' & Etm & Hys).
    exists s', (new_task s t stk fn :: ys), A'. rewrite <- app_assoc in HL''. split_and!.
    + cbn [start_threads]. eapply runs_bind; [reflexivity|]. cbv beta. rewrite Ep. apply runs_bind_inv in Hr as (r & s1 & Hr1 & Hr2).
      eapply runs_bind; [exact Hr1|]. eapply runs_bind; [exact Hr2|exact Hr'].
    + exact HL''.
    + exact Etm.
    + cbn [zip zip_with]. constructor; [split; reflexivity|exact Hys].
Qed.

(** After [k] other threads the functions [fns] get the processor, each in its thread of [ts], with
    registers 0, an empty stack and interrupts enabled. *)
Definition run_in_turn (ra : Z) (scratch : Z * Z * Z) (fuel : nat) (s : kstate) (k : nat) (ts fns : list Z) : Prop :=
  forall i t fn, ts !! i = Some t -> fns !! i = Some fn ->
    exists s' e, runs (interrupts ra scratch fuel (Z.to_nat (timer s) + (k + i) * Z.to_nat kTimerReset)) s tt s' /\
      runs GetCurThread s' t s' /\ cpu_context (cpu s') = mk_context e 0 0 0 0 fn /\ Z.testbit (eflags (cpu s')) 9 = true.

Lemma turns ra scratch fuel n s q h p x ws ys fl ts free A fns :
  launchable fuel n s q h p x (ws ++ ys) fl free A -> Forall2 (fun tf y => starts tf.1 tf.2 y) (zip ts fns) ys ->
  0 <= ThreadSwitch_ret < W32 -> run_in_turn ra scratch fuel s (length ws) ts fns.
Proof.
  intros HL Hys Hra i t fn Hi Hfn. assert (zip ts fns !! i = Some (t, fn)) as Hz by (apply lookup_zip_with_Some; eauto).
  destruct (Forall2_lookup_l _ _ _ _ _ Hys Hz) as (y & Hy & E1 & E2). cbn [fst snd] in E1, E2.
  destruct (slices_run ra scratch fuel Hra (length ws + i) s q h p x (ws ++ ys) y (la_sched _ _ _ _ _ _ _ _ _ _ _ HL))
    as (s2 & us & Hr2 & _ & _ & [Hc Hn] & _).
  { rewrite lookup_app_r by lia. by replace (length ws + i - length ws)%nat with i by lia. }
  rewrite E2 in Hn. rewrite E1 in Hc. exists s2, (top y). split_and!; [exact Hr2|exact Hc|apply Hn|apply Hn].
Qed.

(** C18: threads that are started run. In a kernel where [ws] wait, the calls of [CreateThread] and
    [KThreadRun] for several functions succeed, as long as there are free threads and memory;
    the timer interrupts that follow leave the waiting threads their turn and then enter the
    functions one after the other, 15 interrupts apart, each in the thread created for it, with
    registers 0, an empty stack and interrupts enabled. *)
Theorem threads_start ra scratch fuel n s q h p x ws fl ts free A fns :
  launchable fuel (length fns + n) s q h p x ws fl (ts ++ free) A -> k_pcb (proc s) = p -> length ts = length fns ->
  Forall start_ok fns -> 0 <= ThreadSwitch_ret < W32 ->
  exists s', runs (start_threads fuel fns) s tt s' /\ timer s' = timer s /\ run_in_turn ra scratch fuel s' (length ws) ts fns.
Proof.
  intros HL Ep Hl Hok Hra. destruct (launch_all _ _ _ _ _ _ _ _ _ _ _ _ _ HL Ep Hl Hok) as (s' & ys & A' & Hr & HL' & Et & Hys).
  exists s'. split; [exact Hr|]. split; [exact Et|]. exact (turns ra scratch _ _ _ _ _ _ _ _ _ _ _ _ _ _ HL' Hys Hra).
Qed.
End Launch.
