(* ===== verification/Boot.v ===== *)
(** * The start of the kernel on a compliant machine

    All components in the order of init.c: from the first instruction of boot.S, [start]
    returns with paging on, interrupts enabled and the invariant [sched] of multitasking
    established. The machine has no disk and a keyboard controller that answers. *)

From Stdlib Require Import ZArith Lia ZifyBool.
From stdpp Require Import base numbers gmap strings list.
From S2P Require Import Prelude Memory Machine Bits AsmWrapper Lists Allocator AllocRep AllocReq AllocHeap AllocInit AllocSafety AllocIface AllocRoom.
From S2P Require Import Queues Console Pic Segment Interrupt Paging PagingSpec Thread ContextSwitch ThreadSpec Process HeapInit Footprint Scheduler Timer.
From S2P Require Import Poll Keyboard Ide Kernel KernelSpec IntrEntry IntrEntrySpec Preempt Vectors BootSteps Launch.

(** ** The machine *)

(** The 12 bytes of stack that boot.S uses. *)
Definition entry_stack (p : Z) : Prop := 48112 <= p < 48124.

(** [n] bytes from [a] that neither the entry code nor the screen nor the table of available
    memory overwrites. *)
Definition clear_of (regs : list (Z * Z)) (a n : Z) : Prop :=
  apart a n 48112 12 /\ apart a n VIDEO 3840 /\ apart kAvlMemAddr (8 * (Z.of_nat (length regs) + 1)) a n.

(** What the boot loader leaves: the kernel's code selector 8 in CS (the kernel never loads CS, and
    returns to that selector from its first interrupt) and null or 16 in the data segment
    registers; its magic number, and information at [ebx] with a memory map of the entries [es]
    at [a0]; enough memory; the kernel's own variables are 0. The limit of the GDT, the low half of
    the address of the function [GdtLimit], covers the kernel's segments. *)
Record compliant `{Platform} (fuel : nat) (s : kstate) (a0 : Z) (es : list mmap_entry) : Prop := {
  cm_cpu : cpu_ok (cpu s);
  cm_magic : eax (cpu s) = MULTIBOOT_BOOTLOADER_MAGIC;
  cm_info : lspan (ebx (cpu s)) 52 /\ clear_of (available es) (ebx (cpu s)) 52;
  cm_flags : IsBitSet (load32 (mem s) (mi_flags (ebx (cpu s)))) 6 = true;
  cm_mem : IsBitSet (load32 (mem s) (mi_flags (ebx (cpu s)))) 0 = true ->
    MIN_LOWER_MEM <= load32 (mem s) (mi_mem_lower (ebx (cpu s))) /\ MIN_UPPER_MEM <= load32 (mem s) (mi_mem_upper (ebx (cpu s)));
  cm_map : info_at (mem s) (ebx (cpu s)) a0 (a0 + mmap_bytes es) /\ mmap_at (mem s) a0 es /\ clear_of (available es) a0 (mmap_bytes es);
  cm_regions : Forall no_mark (available es) /\ Forall reg_ok (available es) /\ 1 <= last_page (available es);
  cm_table : kAvlMemAddr + 8 * (Z.of_nat (length (available es)) + 1) <= VIDEO;
  cm_image : 1048576 <= K_END <= 33554432;
  cm_limit : 23 <= u16 GdtLimit_fn;
  cm_zero : arrays_ok s /\ intr_handler (intr s) = ∅;
  cm_fuel : (Z.to_nat 1048576 < fuel)%nat /\ (length es < fuel)%nat;
  cm_devices : no_drive /\ kbd_answers fuel /\ pic_answers;
}.

(** ** The boot loader's structures survive the entry code and [cls] *)

Lemma mmap_kept P m m' a es :
  only P m m' -> 0 <= a -> a + mmap_bytes es <= KVA -> (forall p, a <= p < a + mmap_bytes es -> ~ P p) ->
  mmap_at m a es -> mmap_at m' a es.
Proof.
  intros Ho. revert a. induction es as [|e es IH]; intros a Ha Hk HP Hm; [done|].
  cbn [mmap_bytes mmap_at] in *. destruct Hm as (H1 & H2 & H3 & H4 & Hs & Hm). pose proof (mmap_bytes_nonneg _ _ _ Hm).
  assert (forall w, a <= w <= a + 20 -> load32 m' w = load32 m w) as W.
  { intros w Hw. apply (only_load32 _ _ _ _ Ho); [left; lia|]. intros i Hi. rewrite phys_low by lia. apply HP. lia. }
  rewrite !W by mb_lia. split_and!; [done..|]. apply IH; [lia|lia| |done]. intros p Hp. apply HP. lia.
Qed.

Section Start.
Context `{Platform}.
Context (ra : Z) (fuel : nat) (s : kstate) (a0 : Z) (es : list mmap_entry).
Context (C : compliant fuel s a0 es).
Let info : Z := ebx (cpu s).

(** The bytes written before the structures are read. *)
Let early (p : Z) : Prop := entry_stack p \/ screen_byte p.

Lemma early_clear a n p : clear_of (available es) a n -> a <= p < a + n -> ~ early p.
Proof.
  intros (H1 & H2 & _) Hp [Hc|Hc]; [|apply screen_range in Hc; change VIDEO with 753664 in H2]; unfold entry_stack, apart in *; lia.
Qed.

Lemma info_word m w : only early (mem s) m -> info <= w <= info + 48 -> load32 m w = load32 (mem s) w.
Proof.
  intros Ho Hw. destruct (cm_info _ _ _ _ C) as [Hi Hc]. fold info in Hi, Hc. unfold lspan in Hi.
  apply (only_load32 _ _ _ _ Ho); [left; lia|]. intros i Hi'. rewrite phys_low by lia. apply (early_clear info 52); [exact Hc|lia].
Qed.

(** [kernel_start] up to the initialisation of the components. *)
Lemma checks_pass (s1 := booted ra s) :
  exists m' g', con_ok g' /\ regs_at m' kAvlMemAddr (available es) /\
    forall s2, runs (start_components fuel) (set_mem m' (set_con g' s1)) tt s2 ->
      runs (kernel_start fuel (eax (cpu s)) info) s1 None s2.
Proof using C.
  destruct (cls_runs s1) as (m1 & Hr1 & Hs1 & _). set (g1 := set_ypos 0 _) in Hr1.
  assert (only early (mem s) m1) as Ho.
  { eapply only_trans; [eapply only_mono; [|apply booted_only]; by left|]. apply (only_mono screen_byte); [by right|exact Hs1]. }
  pose proof (info_word m1) as W. destruct (cm_map _ _ _ _ C) as ((I1 & I2 & I3) & Hmap & Hmc). fold info in I1, I2.
  destruct (cm_info _ _ _ _ C) as [Hspan Hic]. fold info in Hspan, Hic.
  destruct (cm_regions _ _ _ _ C) as (Hnm & _). destruct (cm_fuel _ _ _ _ C) as [_ Hf].
  pose proof (cm_table _ _ _ _ C) as Htab. change VIDEO with 753664 in Htab.
  destruct (scan_mmap_runs fuel info a0 es (set_mem m1 (set_con g1 s1))) as (m2 & Hr2 & _ & Hreg).
  - exact Hspan.
  - cbn [mem set_mem]. unfold info_at. rewrite !W by (exact Ho || mb_lia). exact (conj I1 (conj I2 I3)).
  - cbn [mem set_mem]. eapply mmap_kept; [exact Ho|lia|lia| |exact Hmap]. intros p Hp. apply (early_clear a0 (mmap_bytes es)); [exact Hmc|exact Hp].
  - exact Hnm.
  - lia.
  - apply Hic.
  - apply Hmc.
  - exact Hf.
  - exists m2, g1. split_and!; [unfold con_ok, COLUMNS, LINES; cbn; lia|exact Hreg|]. intros s2 Hk.
    unfold kernel_start. eapply runs_bind; [exact Hr1|]. cbv beta. rewrite (cm_magic _ _ _ _ C). cbn [negb].
    change (u32 MULTIBOOT_BOOTLOADER_MAGIC =? MULTIBOOT_BOOTLOADER_MAGIC) with true. cbn [negb].
    eapply runs_bind; [apply runs_ld32|]. cbv beta. cbn [mem set_mem]. rewrite W by (exact Ho || mb_lia).
    eapply (runs_bind _ _ _ false).
    { destruct (IsBitSet (load32 (mem s) (mi_flags info)) 0) eqn:E; [|reflexivity].
      destruct (cm_mem _ _ _ _ C E) as [L1 L2]. fold info in L1, L2. eapply runs_bind; [apply runs_ld32|]. cbv beta. cbn [mem set_mem].
      rewrite W by (exact Ho || mb_lia). rewrite (proj2 (Z.ltb_ge _ _) L1). eapply runs_bind; [apply runs_ld32|]. cbv beta.
      cbn [mem set_mem]. rewrite W by (exact Ho || mb_lia). rewrite (proj2 (Z.ltb_ge _ _) L2). reflexivity. }
    cbv iota. eapply runs_bind; [apply runs_ld32|]. cbv beta. cbn [mem set_mem]. rewrite W by (exact Ho || mb_lia).
    unfold info. rewrite (cm_flags _ _ _ _ C). fold info. eapply runs_bind; [exact Hr2|]. eapply runs_bind; [exact Hk|]. reflexivity.
Qed.
End Start.

(** ** The invariants of the running kernel *)

Lemma sep_suffix (B A : list (Z * Z)) : sep (B ++ A) -> sep A.
Proof.
  intros Hs i j r1 r2 Hi Hj Hne. apply (Hs (length B + i)%nat (length B + j)%nat); [rewrite lookup_app_r by lia..|lia].
  - by replace (length B + i - length B)%nat with i by lia.
  - by replace (length B + j - length B)%nat with j by lia.
Qed.

Lemma nodes_perm (a b : Z) c d : a :: c ++ b :: d ≡ₚ b :: a :: d ++ c.
Proof. rewrite <- Permutation_middle, (Permutation_app_comm c d). apply perm_swap. Qed.

(** The threads of the pool, last one first. *)
Fixpoint pool_threads (t : Z) (k : nat) : list Z :=
  match k with
  | O => []
  | S k' => t + 24 * Z.of_nat k' :: pool_threads t k'
  end.

Lemma pool_threads_nodes t k : nodes (pool_threads t k) = tnodes t k.
Proof. induction k as [|k IH]; [done|]. cbn [pool_threads nodes map tnodes]. unfold nodes in IH. rewrite IH. f_equal. lia. Qed.

Lemma pool_threads_elem t k y : y ∈ pool_threads t k -> exists i, 0 <= i < Z.of_nat k /\ y = t + 24 * i.
Proof.
  induction k as [|k IH]; cbn [pool_threads]; intros Hy; [by apply not_elem_of_nil in Hy|].
  apply elem_of_cons in Hy as [->|Hy]; [exists (Z.of_nat k); lia|]. destruct (IH Hy) as (i & Hi & E). exists i. lia.
Qed.

Lemma pool_threads_length t k : length (pool_threads t k) = k.
Proof. induction k as [|k IH]; [done|]. cbn [pool_threads length]. by rewrite IH. Qed.

Lemma pool_threads_nodup t k : NoDup (pool_threads t k).
Proof.
  induction k as [|k IH]; [constructor|]. cbn [pool_threads]. constructor; [|exact IH]. intros Hin.
  apply pool_threads_elem in Hin as (i & Hi & E). lia.
Qed.

(** They lie apart from each other and from what lies apart from their block. *)
Lemma pool_threads_regions t k R :
  KVA <= t -> t + 24 * Z.of_nat k <= W32 -> regions_ok R ->
  Forall (fun r => apart (phys t) (24 * Z.of_nat k) (phys r.1) r.2) R -> regions_ok (map (fun t => (t, 24)) (pool_threads t k) ++ R).
Proof.
  intros Ht. induction k as [|k IH]; intros Hk HR Ha; [exact HR|]. cbn [pool_threads map app].
  assert (Forall (fun r => apart (phys t) (24 * Z.of_nat k) (phys r.1) r.2) R) as Ha'.
  { eapply Forall_impl; [exact Ha|]. intros r. unfold apart. lia. }
  apply regions_ok_cons; [right; cbn [fst snd]; lia| |apply IH; [lia|exact HR|exact Ha']].
  apply Forall_app. split.
  - apply Forall_forall. intros r Hr. apply list_elem_of_fmap in Hr as (y & -> & Hy). apply pool_threads_elem in Hy as (i & Hi & ->).
    unfold apart. cbn [fst snd]. rewrite !phys_high by lia. lia.
  - eapply Forall_impl; [exact Ha|]. intros r. cbn [fst snd]. rewrite (phys_high (t + 24 * Z.of_nat k)), (phys_high t) by lia. unfold apart. lia.
Qed.

Section Running.
Context `{Platform}.
Context (fuel n : nat) (s : kstate) (x b q h l t p pl pc : Z) (B : list (Z * Z)).
Context (Hh : held reserved fuel n s (B ++ pool_blocks x b q h l t p pl pc)) (Hp : pools (mem s) x b q h l t p).

Lemma pool_range a z : (a, z) ∈ pool_blocks x b q h l t p pl pc -> KVA + 1048576 <= a /\ a + z <= POOL.
Proof using Hh. intros Hin. pose proof (held_range _ _ _ _ _ a z Hh ltac:(apply elem_of_app; by right)). lia. Qed.

Lemma pool_sep : sep (pool_blocks x b q h l t p pl pc).
Proof using Hh.
  pose proof (hl_sep _ _ _ _ _ Hh) as Hs. rewrite <- app_assoc in Hs. apply sep_suffix in Hs.
  intros i j r1 r2 Hi Hj Hne. apply (Hs i j r1 r2); [apply lookup_app_l_Some, Hi|apply lookup_app_l_Some, Hj|exact Hne].
Qed.

(** The blocks of the scheduler: the main thread, the queue, its list head, the process. *)
Lemma sched_blocks :
  (KVA + 1048576 <= x /\ x + 24 <= POOL) /\ (KVA + 1048576 <= q /\ q + 8 <= POOL) /\
  (KVA + 1048576 <= h /\ h + 4 <= POOL) /\ (KVA + 1048576 <= p /\ p + 48 <= POOL) /\
  apart x 24 q 8 /\ apart x 24 h 4 /\ apart x 24 p 48 /\ apart q 8 h 4 /\ apart q 8 p 48 /\ apart h 4 p 48.
Proof using Hh.
  pose proof pool_sep as S. split; [apply pool_range; listed|]. split; [apply pool_range; listed|].
  split; [apply pool_range; listed|]. split; [apply pool_range; listed|]. split_and!.
  - exact (S 0%nat 2%nat _ _ eq_refl eq_refl ltac:(done)).
  - exact (S 0%nat 3%nat _ _ eq_refl eq_refl ltac:(done)).
  - exact (S 0%nat 6%nat _ _ eq_refl eq_refl ltac:(done)).
  - exact (S 2%nat 3%nat _ _ eq_refl eq_refl ltac:(done)).
  - exact (S 2%nat 6%nat _ _ eq_refl eq_refl ltac:(done)).
  - exact (S 3%nat 6%nat _ _ eq_refl eq_refl ltac:(done)).
Qed.

Definition main_task : task := mk_task x 48044 48124 (cpu s) None.

Lemma main_regions : tss s = kTssBaseAddr -> regions_ok (sched_regions s q h p [main_task]).
Proof using Hh.
  intros Ht. destruct sched_blocks as (Rx & Rq & Rh & Rp & A1 & A2 & A3 & A4 & A5 & A6).
  unfold sched_regions. rewrite Ht. unfold main_task, kTssBaseAddr, apart in *. cbn [map app tk base top].
  assert (phys VIDEO = 753664 /\ phys q = q - KVA /\ phys h = h - KVA /\ phys (3221348352 + 4) = 122884 /\ phys p = p - KVA /\
    phys x = x - KVA /\ phys (48044 - 28) = 48016 /\ phys 48124 = 48124 /\ phys 3221225480 = 8 /\ phys 3221352704 = 127232)
    as (E1 & E2 & E3 & E4 & E5 & E6 & E7 & E8 & E9 & E10).
  { rewrite (phys_high q), (phys_high h), (phys_high p), (phys_high x) by lia. done. }
  change VIDEO with 753664 in *. change (kGdtBaseAddr + 8) with 3221225480. change (gate kTimerVec) with 3221352704.
  repeat (apply regions_ok_cons; [unfold span; cbn [fst snd]; lia|repeat (apply Forall_cons; split); [..|by apply Forall_nil];
    unfold apart; cbn [fst snd]; rewrite ?E1, ?E2, ?E3, ?E4, ?E5, ?E6, ?E7, ?E8, ?E9, ?E10; lia|]).
  apply regions_ok_nil.
Qed.

Lemma main_nodes : nodes_ok 4 (q :: q + 4 :: h :: nodes (map tk [main_task])).
Proof using Hh.
  destruct sched_blocks as (Rx & Rq & Rh & Rp & A1 & A2 & A3 & A4 & A5 & A6). unfold apart in *. cbn [map nodes tk main_task].
  split_and!.
  - rewrite !NoDup_cons, !elem_of_cons, !elem_of_nil. split_and!; [lia..|apply NoDup_nil_2].
  - repeat (apply Forall_cons; split; [unfold kspan; lia|]). by apply Forall_nil.
  - intros w y Hw Hy Hne. rewrite !elem_of_cons, elem_of_nil in Hw, Hy. unfold apart. lia.
Qed.

Lemma main_sched :
  wait_thread_queue (thr s) = q -> tss s = kTssBaseAddr -> con_ok (con s) -> cpu_ok (cpu s) -> esp (cpu s) = 48112 ->
  intr_handler (intr s) !! kTimerVec = Some TimerHandlerId -> timer s = kTimerReset -> vectored s -> sched s q h p main_task [].
Proof using Hh Hp.
  intros Eq Et Hc Hcpu He Hi Htm Hv. destruct Hp as [_ P2 _ (M1 & M2 & M3 & M4 & M5 & M6 & M7) _].
  destruct sched_blocks as (Rx & _). split.
  - exact Eq.
  - exact P2.
  - exact main_nodes.
  - rewrite Et. exact M7.
  - apply Forall_singleton. split; cbn [tk base top regs main_task];
      [unfold kspan; lia|exact M3|exact M2|exact M6|rewrite He; reflexivity|lia|exact Hcpu|reflexivity].
  - apply Forall_nil. exact I.
  - reflexivity.
  - reflexivity.
  - by apply main_regions.
  - exact Hc.
  - exact Hi.
  - rewrite Htm. unfold kTimerReset. lia.
  - apply Hv.
  - apply installed_ready; [exact Hv|unfold kTimerVec; lia|by rewrite Hi|done].
Qed.

(** ** The next threads can be started *)

Lemma nodes_ok_cons a (xs : list Z) : kspan a 4 -> (forall y, y ∈ xs -> apart a 4 y 4) -> nodes_ok 4 xs -> nodes_ok 4 (a :: xs).
Proof.
  intros Ha Hx (N1 & N2 & N3). split_and!.
  - apply NoDup_cons. split; [|exact N1]. intros Hin. specialize (Hx a Hin). unfold apart in Hx. lia.
  - by apply Forall_cons.
  - intros y z Hy Hz Hne. apply elem_of_cons in Hy as [->|Hy]; apply elem_of_cons in Hz as [->|Hz]; [done|auto|apply apart_sym; auto|auto].
Qed.

(** The words of the free list. *)
Lemma free_word y : y ∈ l :: tnodes t 128 -> y = l \/ exists i, 0 <= i < 128 /\ y = t + 16 + 24 * i.
Proof. intros Hy. apply elem_of_cons in Hy as [->|Hy]; [by left|right]. by apply tnodes_elem in Hy. Qed.

Lemma free_apart w : w + 4 <= l \/ l + 4 <= w -> w + 4 <= t \/ t + 3072 <= w -> forall y, y ∈ l :: tnodes t 128 -> apart w 4 y 4.
Proof. intros W1 W2 y Hy. apply free_word in Hy as [->|(i & Hi & ->)]; unfold apart; lia. Qed.

(** The blocks of the pool: the list head, the threads, the process. *)
Lemma free_blocks :
  (KVA + 1048576 <= l /\ l + 4 <= POOL) /\ (KVA + 1048576 <= t /\ t + 3072 <= POOL) /\ apart l 4 t 3072 /\ apart l 4 p 48 /\ apart t 3072 p 48 /\
  (forall a z, (a, z) ∈ [(x, 24); (q, 8); (h, 4)] -> apart a z l 4 /\ apart a z t 3072).
Proof using Hh.
  pose proof pool_sep as S. split; [apply pool_range; listed|]. split; [apply pool_range; listed|]. split_and!.
  - exact (S 4%nat 5%nat _ _ eq_refl eq_refl ltac:(done)).
  - exact (S 4%nat 6%nat _ _ eq_refl eq_refl ltac:(done)).
  - exact (S 5%nat 6%nat _ _ eq_refl eq_refl ltac:(done)).
  - intros a z Hin. rewrite !elem_of_cons, elem_of_nil in Hin. destruct Hin as [[= -> ->]|[[= -> ->]|[[= -> ->]|[]]]].
    + split; [exact (S 0%nat 4%nat _ _ eq_refl eq_refl ltac:(done))|exact (S 0%nat 5%nat _ _ eq_refl eq_refl ltac:(done))].
    + split; [exact (S 2%nat 4%nat _ _ eq_refl eq_refl ltac:(done))|exact (S 2%nat 5%nat _ _ eq_refl eq_refl ltac:(done))].
    + split; [exact (S 3%nat 4%nat _ _ eq_refl eq_refl ltac:(done))|exact (S 3%nat 5%nat _ _ eq_refl eq_refl ltac:(done))].
Qed.

Lemma launch_nodes : nodes_ok 4 (l :: p + 44 :: nodes (pool_threads t 128) ++ q :: q + 4 :: h :: nodes (map tk [main_task])).
Proof using Hh Hp.
  destruct sched_blocks as (Rx & Rq & Rh & Rp & A1 & A2 & A3 & A4 & A5 & A6). destruct free_blocks as (Rl & Rt & B1 & B2 & B3 & B4).
  destruct (B4 x 24 ltac:(listed)) as [C1 C2]. destruct (B4 q 8 ltac:(listed)) as [C3 C4]. destruct (B4 h 4 ltac:(listed)) as [C5 C6].
  rewrite pool_threads_nodes. cbn [map nodes tk main_task].
  assert (nodes_ok 4 (p + 44 :: q :: q + 4 :: h :: x + 16 :: l :: tnodes t 128)) as Hn.
  { pose proof (proj2 (po_free _ _ _ _ _ _ _ _ Hp)) as Hn. unfold apart in *.
    pose proof free_apart as Hw.
    set (tl := l :: tnodes t 128) in *.
    assert (nodes_ok 4 (x + 16 :: tl)) as N1.
    { apply nodes_ok_cons; [unfold kspan; lia| |exact Hn]. intros y Hy. apply Hw; [lia|lia|exact Hy]. }
    assert (nodes_ok 4 (h :: x + 16 :: tl)) as N2.
    { apply nodes_ok_cons; [unfold kspan; lia| |exact N1]. intros y Hy. do 1 (apply elem_of_cons in Hy as [->|Hy]; [unfold apart; lia|]). apply Hw; [lia|lia|exact Hy]. }
    assert (nodes_ok 4 (q + 4 :: h :: x + 16 :: tl)) as N3.
    { apply nodes_ok_cons; [unfold kspan; lia| |exact N2]. intros y Hy. do 2 (apply elem_of_cons in Hy as [->|Hy]; [unfold apart; lia|]). apply Hw; [lia|lia|exact Hy]. }
    assert (nodes_ok 4 (q :: q + 4 :: h :: x + 16 :: tl)) as N4.
    { apply nodes_ok_cons; [unfold kspan; lia| |exact N3]. intros y Hy. do 3 (apply elem_of_cons in Hy as [->|Hy]; [unfold apart; lia|]). apply Hw; [lia|lia|exact Hy]. }
    apply nodes_ok_cons; [unfold kspan; lia| |exact N4].
    intros y Hy. do 4 (apply elem_of_cons in Hy as [->|Hy]; [unfold apart; lia|]). apply Hw; [lia|lia|exact Hy]. }
  exact (nodes_ok_perm 4 _ _ (nodes_perm (p + 44) l [q; q + 4; h; x + 16] (tnodes t 128)) Hn).
Qed.

Let A : list (Z * Z) := (B ++ pool_blocks x b q h l t p pl pc) ++ [(KVA, reserved)].

(** The places of the start-up code: each in a block of the pools or in the reserved block. *)
Lemma block_covered a z r : (a, z) ∈ pool_blocks x b q h l t p pl pc -> a <= r.1 -> r.1 + r.2 <= a + z -> 0 < r.2 -> covered A r /\ 0 < r.2.
Proof using Hh.
  intros Hin R1 R2 R3. split; [|exact R3]. pose proof (pool_range a z Hin) as Ra. exists a, z.
  split; [unfold A; rewrite !elem_of_app; tauto|]. rewrite !phys_high by lia. lia.
Qed.

Lemma low_covered r : 0 <= phys r.1 -> phys r.1 + r.2 <= 1048576 -> 0 < r.2 -> covered A r /\ 0 < r.2.
Proof using Hh.
  intros R1 R2 R3. split; [|exact R3]. pose proof (hl_img _ _ _ _ _ Hh) as Hi. exists KVA, reserved.
  split; [unfold A; rewrite !elem_of_app; right; left|]. rewrite (phys_high KVA) by lia. lia.
Qed.

Lemma main_covered r : tss s = kTssBaseAddr -> r ∈ sched_regions s q h p [main_task] -> covered A r /\ 0 < r.2.
Proof using Hh.
  intros Ht Hr. unfold sched_regions in Hr. rewrite Ht in Hr. cbn [map app main_task tk base top] in Hr.
  rewrite !elem_of_cons, elem_of_nil in Hr. destruct Hr as [->|[->|[->|[->|[->|[->|[->|[->|[->|[->|[]]]]]]]]]]].
  - apply low_covered; vm_compute; first [discriminate|reflexivity].
  - apply (block_covered q 8); [listed|cbn [fst snd]; lia..].
  - apply (block_covered h 4); [listed|cbn [fst snd]; lia..].
  - apply low_covered; vm_compute; first [discriminate|reflexivity].
  - apply (block_covered p 48); [listed|cbn [fst snd]; lia..].
  - apply (block_covered x 24); [listed|cbn [fst snd]; lia..].
  - apply low_covered; vm_compute; first [discriminate|reflexivity].
  - apply low_covered; vm_compute; first [discriminate|reflexivity].
  - apply low_covered; vm_compute; first [discriminate|reflexivity].
  - apply low_covered; vm_compute; first [discriminate|reflexivity].
Qed.

Lemma main_apart a z :
  tss s = kTssBaseAddr -> KVA + 1048576 <= a /\ a + z <= POOL -> 0 <= z ->
  apart a z x 24 -> apart a z q 8 -> apart a z h 4 -> apart a z p 4 ->
  Forall (fun r => apart (phys a) z (phys r.1) r.2) (sched_regions s q h p [main_task]).
Proof using Hh.
  intros Ht Ra Hz X1 X2 X3 X4. destruct sched_blocks as (Rx & Rq & Rh & Rp & _).
  unfold sched_regions. rewrite Ht. cbn [map app main_task tk base top].
  assert (phys VIDEO = 753664 /\ phys (kTssBaseAddr + 4) = 122884 /\ phys (48044 - 28) = 48016 /\ phys 48124 = 48124 /\
    phys (kGdtBaseAddr + 8) = 8 /\ phys (gate kTimerVec) = 127232) as (E1 & E2 & E3 & E4 & E5 & E6) by done.
  repeat (apply Forall_cons; split; [cbn [fst snd]|]); [..|by apply Forall_nil]; rewrite ?E1, ?E2, ?E3, ?E4, ?E5, ?E6.
  all: rewrite (phys_high a) by lia; clear E1 E2 E3 E4 E5 E6.
  - right. clear - Ra. lia.
  - rewrite phys_high by (clear - Rq; lia). clear - X2. unfold apart in *. lia.
  - rewrite phys_high by (clear - Rh; lia). clear - X3. unfold apart in *. lia.
  - right. clear - Ra. lia.
  - rewrite phys_high by (clear - Rp; lia). clear - X4. unfold apart in *. lia.
  - rewrite phys_high by (clear - Rx; lia). clear - X1. unfold apart in *. lia.
  - right. clear - Ra. lia.
  - right. clear - Ra. lia.
  - right. clear - Ra. lia.
  - right. clear - Ra. lia.
Qed.

Lemma threads_apart a z :
  KVA <= a -> a < W32 -> KVA <= t -> t + 3072 <= W32 -> apart a z t 3072 ->
  Forall (fun r => apart (phys a) z (phys r.1) r.2) (map (fun t => (t, 24)) (pool_threads t 128)).
Proof.
  intros Ha Ha' Ht Ht' Hap. apply Forall_forall. intros r Hr. apply list_elem_of_fmap in Hr as (y & -> & Hy).
  apply pool_threads_elem in Hy as (i & Hi & ->). cbn [fst snd]. rewrite !phys_high by lia. unfold apart in *. lia.
Qed.

Lemma main_launch_regions : tss s = kTssBaseAddr -> regions_ok (launch_regions s q h p l (pool_threads t 128) [main_task]).
Proof using Hh.
  intros Ht. destruct sched_blocks as (Rx & Rq & Rh & Rp & _ & _ & A3 & _ & A5 & A6). destruct free_blocks as (Rl & Rt & B1 & B2 & B3 & B4).
  destruct (B4 x 24 ltac:(listed)) as [C1 C2]. destruct (B4 q 8 ltac:(listed)) as [C3 C4]. destruct (B4 h 4 ltac:(listed)) as [C5 C6].
  apply apart_sym in C1, C2, C3, C4, C5, C6, A3, A5, A6. clear B4 Rx Rq Rh.
  unfold launch_regions. apply regions_ok_cons; [right; cbn [fst snd]; lia| |apply regions_ok_cons; [right; cbn [fst snd]; lia| |]].
  - apply Forall_cons. split; [cbn [fst snd]; rewrite !phys_high by lia; clear - B2; unfold apart in *; lia|]. apply Forall_app. split.
    + apply (threads_apart l 4); [lia|lia|lia|lia|exact B1].
    + apply (main_apart l 4); [exact Ht|exact Rl|lia|exact C1|exact C3|exact C5|clear - B2; unfold apart in *; lia].
  - apply Forall_app. split.
    + apply (threads_apart (p + 44) 4); [lia|lia|lia|lia|clear - B3; unfold apart in *; lia].
    + apply (main_apart (p + 44) 4); [exact Ht|lia|lia|clear - A3; unfold apart in *; lia|clear - A5; unfold apart in *; lia|clear - A6; unfold apart in *; lia|
        clear; unfold apart; lia].
  - apply pool_threads_regions; [lia|lia|by apply main_regions|].
    apply (main_apart t 3072); [exact Ht|lia|lia|exact C2|exact C4|exact C6|clear - B3; unfold apart in *; lia].
Qed.

Lemma main_launchable :
  free_thread_list (thr s) = l -> tss s = kTssBaseAddr -> sched s q h p main_task [] ->
  launchable fuel n s q h p main_task [] l (pool_threads t 128) A.
Proof using Hh Hp.
  intros El Ht Hs. destruct free_blocks as (Rl & Rt & _). pose proof (pool_range p 48 ltac:(listed)) as Rp. constructor.
  - exact Hs.
  - exact El.
  - rewrite pool_threads_nodes. apply Hp.
  - destruct (po_proc _ _ _ _ _ _ _ _ Hp) as [E _]. exact E.
  - apply Forall_forall. intros y Hy. apply pool_threads_elem in Hy as (i & Hi & ->). unfold kspan. lia.
  - exact launch_nodes.
  - by apply main_launch_regions.
  - intros r Hr. unfold launch_regions in Hr. rewrite !elem_of_cons, elem_of_app in Hr. destruct Hr as [->|[->|[Hr|Hr]]].
    + apply (block_covered l 4); [listed|cbn [fst snd]; lia..].
    + apply (block_covered p 48); [listed|cbn [fst snd]; lia..].
    + apply list_elem_of_fmap in Hr as (y & -> & Hy). apply pool_threads_elem in Hy as (i & Hi & ->).
      apply (block_covered t 3072); [listed|cbn [fst snd]; lia..].
    + by apply main_covered.
  - exact (hl_ample _ _ _ _ _ Hh).
Qed.
End Running.

(** ** All components *)

Section Components.
Context `{Platform}.
Context (fuel : nat).

Definition driver_bytes (a : Z) : Prop := gate_bytes a \/ screen_byte a.

Lemma driver_low a : driver_bytes a -> a < 1048576 /\ ~ boot_word a.
Proof. intros [Ha|Ha]; [|apply screen_range in Ha]; unfold gate_bytes, boot_word in *; lia. Qed.

Lemma drivers_booting n c s A :
  no_drive -> kbd_answers fuel -> pic_answers -> (0 < fuel)%nat -> booting fuel (S n) c s A ->
  (forall i, 32 <= i < 64 -> IsBitmapSet (IntrVecMap (intr s)) i = false) ->
  exists s' B, (forall k r s2, runs k s' r s2 -> runs (DriverInit fuel ;;; says ["Complete."] k) s r s2) /\
    booting fuel n c s' (B ++ A) /\ only (touch driver_bytes B) (mem s) (mem s') /\
    (thr s' = thr s /\ proc s' = proc s /\ timer s' = kTimerReset) /\
    intr_handler (intr s') !! kTimerVec = Some TimerHandlerId /\
    intr_handler (intr s') !! kSyscallVec = intr_handler (intr s) !! kSyscallVec /\ masked kTimerVec (io s') = false.
Proof.
  intros Hd Hk Hp Hf Hb Hbits. destruct (IdeInit_absent fuel Hd Hf s) as (h1 & Hr1). set (s1 := set_io h1 s) in Hr1.
  assert (booting fuel (S n) c s1 A) as Hb1 by (by apply (booting_same _ _ _ s)).
  destruct (TimerInit_booting fuel (S n) c s1 A Hp) as (m2 & h2 & Hr2 & Hb2 & Ho2 & M2); [apply (Hbits 32); lia|exact Hb1|].
  set (s2 := set_mem m2 _) in Hr2, Hb2.
  destruct (KeyboardInit_runs fuel n c A Hk Hp s2 Hb2) as (kb & s3 & B & Hr3 & [Hb3 Ho3 (E1 & E2 & E3) Hh3 M3]).
  { change (IsBitmapSet (SetBitmap (IntrVecMap (intr s)) kTimerVec) kKeyboardVec = false).
    rewrite IsBitmapSet_SetBitmap, (Hbits kKeyboardVec) by (unfold kKeyboardVec; lia). reflexivity. }
  destruct (says_booting fuel ["Complete."] n c s3 (B ++ A)) as (m4 & g4 & Hk4 & Hb4 & Ho4); [repeat constructor|exact Hb3|].
  exists (set_mem m4 (set_con g4 s3)), B. split_and!.
  - intros k r s5 Hk5. eapply runs_bind; [|by apply Hk4]. unfold DriverInit. eapply runs_bind; [exact Hr1|].
    eapply runs_bind; [exact Hr2|]. eapply runs_bind; [exact Hr3|]. reflexivity.
  - exact Hb4.
  - eapply only_trans; [eapply only_mono; [|exact Ho2]; intros a Ha; left; by left|].
    eapply only_trans; [eapply only_mono; [|exact Ho3]; intros a; apply touch_mono; [by left|listed]|].
    eapply only_mono; [|exact Ho4]. intros a Ha. left. by right.
  - exact E1.
  - exact E2.
  - exact E3.
  - change (intr_handler (intr s3) !! kTimerVec = Some TimerHandlerId). rewrite Hh3 by done. apply lookup_insert_eq.
  - change (intr_handler (intr s3) !! kSyscallVec = intr_handler (intr s) !! kSyscallVec). rewrite Hh3 by done.
    by apply lookup_insert_ne.
  - exact (M3 M2).
Qed.

Lemma start_components_says :
  start_components fuel = (line "Initialize memory management..." ;;; MemInit fuel ;;;
    says ["Complete."; "Initialize interrupt..."] (IntrInit ;;;
    says ["Complete."; "Register syscall..."] (SyscallInit ;;;
    says ["Complete."; "Initialize process manager..."] (ProcManagerInit fuel ;;;
    says ["Complete."; "Initialize thread..."] (ThreadInit fuel ;;;
    says ["Complete."; "Initialize driver..."] (DriverInit fuel ;;;
    says ["Complete."] intr_enable)))))).
Proof. reflexivity. Qed.

(** The registers when the components are up: interrupts enabled. *)
Definition sti_cpu (c : Cpu) : Cpu := set_eflags (Z.lor (eflags c) (2 ^ 9)) c.

Lemma components_boot n regs s :
  con_ok (con s) -> regs_at (mem s) kAvlMemAddr regs -> Forall reg_ok regs -> 1 <= last_page regs ->
  kAvlMemAddr + 8 * (Z.of_nat (length regs) + 1) <= VIDEO -> (Z.to_nat 1048576 < fuel)%nat ->
  arrays_ok s -> 1048576 <= K_END <= 33554432 -> (10 + n <= 5000)%nat -> intr_handler (intr s) = ∅ ->
  no_drive -> kbd_answers fuel -> pic_answers ->
  exists x b q h l t p pl pc B s', runs (start_components fuel) s tt s' /\
    booting fuel n (sti_cpu (boot_cpu (cpu s))) s' (B ++ pool_blocks x b q h l t p pl pc) /\
    pools (mem s') x b q h l t p /\ thr s' = mk_ThrG l q b /\ timer s' = kTimerReset /\ k_pcb (proc s') = p /\
    intr_handler (intr s') !! kTimerVec = Some TimerHandlerId /\
    intr_handler (intr s') !! kSyscallVec = Some SyscallId /\ masked kTimerVec (io s') = false.
Proof.
  intros Hc Hat Hok Hl Hn Hf Ha Hi Hn5 He Hd Hk Hp. rewrite start_components_says.
  destruct (interrupts_booting fuel (10 + n) regs s Hc Hat Hok Hl Hn Hf Ha Hi Hn5 He) as (s1 & Hk1 & Hb1 & Hsys & Hbits).
  destruct (pools_booting fuel (S n) _ s1 Hb1 eq_refl) as (x & b & q & h & l & t & p & pl & pc & s2 & Hk2 & Hb2 & Hpo2 & Et & Ep & Ei).
  destruct (drivers_booting n _ s2 _ Hd Hk Hp ltac:(lia) Hb2) as (s3 & B & Hk3 & Hb3 & Ho3 & (E1 & E2 & E3) & Ht & Hs & M).
  { intros i Hi'. rewrite Ei. by apply Hbits. }
  exists x, b, q, h, l, t, p, pl, pc, B, (set_cpu (sti_cpu (cpu s3)) s3). split_and!.
  - apply Hk1, Hk2, Hk3. reflexivity.
  - destruct Hb3 as [B1 B2 B3 B4 B5 B6 B7 B8]. split; [|exact B2|exact B3| |exact B5|exact B6|exact B7|exact B8].
    + apply (held_state _ _ _ s3); [exact B1|reflexivity|reflexivity].
    + cbn [cpu set_cpu]. rewrite B4. reflexivity.
  - eapply pools_kept; [exact (bt_held _ _ _ _ _ Hb3)|exact Ho3|exact driver_low|exact Hpo2].
  - cbn [thr set_cpu]. by rewrite E1.
  - exact E3.
  - cbn [proc set_cpu]. by rewrite E2.
  - exact Ht.
  - cbn [intr set_cpu]. rewrite Hs, Ei. exact Hsys.
  - exact M.
Qed.
End Components.

(** ** The theorem *)

Section KernelBoots.
Context `{Platform}.

(** The registers after the start: what the boot loader left, with the stack pointer of boot.S, the
    tables and segments of the kernel, and interrupts enabled. *)
Definition running_cpu (c : Cpu) : Cpu := sti_cpu (boot_cpu (set_esp 48112 (set_eflags 2 c))).

Lemma running_cpu_ok c : cpu_ok c -> cpu_ok (running_cpu c).
Proof.
  intros ((Hcs & _) & Hall). split.
  - split_and!; [exact Hcs|by right..].
  - rewrite !Forall_cons in Hall |- *. destruct Hall as (_ & H2 & H3 & H4 & H5 & H6 & H7 & H8 & H9 & H10).
    split_and!; [vm_compute; discriminate|vm_compute; reflexivity|..]; first [apply H2|apply H3|apply H4|apply H5|apply H6|apply H7|apply H8|apply H9|exact H10].
Qed.

(** The state of the kernel when it is up: [x] is the thread of the start-up code, [t] the pool of
    threads, [A] the memory in use. *)
Record kernel_up (fuel n : nat) (s : kstate) (x q h l t p : Z) (A : list (Z * Z)) : Prop := {
  up_threads : launchable fuel n s q h p (mk_task x 48044 48124 (cpu s) None) [] l (pool_threads t 128) A;
  up_proc : k_pcb (proc s) = p;
  up_timer : timer s = kTimerReset;
  up_enabled : Z.testbit (eflags (cpu s)) 9 = true;
  up_unmasked : masked kTimerVec (io s) = false;
  up_paging : Z.testbit (cr0 (cpu s)) 31 = true;
  up_map va : 0 <= va < W32 -> translate (mem s) (cr3 (cpu s)) va =
    if (va <? 4194304) || ((KVA <=? va) && (va <? KVA + 67108864)) then Some (phys va) else None;
  up_gates : intr_inv s;
  up_vectors : vectored s;
  up_syscall : intr_handler (intr s) !! kSyscallVec = Some SyscallId;
}.

Lemma boots ra fuel n s a0 es :
  compliant fuel s a0 es -> (n <= 4900)%nat ->
  exists s' x q h l t p A, runs (start ra fuel) s None s' /\ kernel_up fuel n s' x q h l t p A.
Proof.
  intros C Hn. destruct (checks_pass ra fuel s a0 es C) as (m1 & g1 & Hc1 & Hreg & Hk).
  destruct (cm_regions _ _ _ _ C) as (_ & Hok & Hl). destruct (cm_zero _ _ _ _ C) as [Ha He].
  destruct (cm_devices _ _ _ _ C) as (Hd & Hkb & Hp). destruct (cm_fuel _ _ _ _ C) as [Hf _].
  destruct (components_boot fuel n (available es) (set_mem m1 (set_con g1 (booted ra s)))) as
    (x & b & q & h & l & t & p & pl & pc & B & s' & Hr & Hb & Hpo & Et & Etm & Ep & Ht & Hs & M);
    [exact Hc1|exact Hreg|exact Hok|exact Hl|exact (cm_table _ _ _ _ C)|exact Hf|exact Ha|exact (cm_image _ _ _ _ C)|lia|exact He|exact Hd|exact Hkb|exact Hp|].
  change (cpu (set_mem m1 _)) with (set_esp 48112 (set_eflags 2 (cpu s))) in Hb. fold (running_cpu (cpu s)) in Hb.
  pose proof (running_cpu_ok _ (cm_cpu _ _ _ _ C)) as Hrun. pose proof (bt_cpu _ _ _ _ _ Hb) as Ec.
  assert (vectored s') as Hv.
  { destruct (bt_gdt _ _ _ _ _ Hb) as (D1 & D2 & D3). pose proof (cm_limit _ _ _ _ C) as Hlim. split; rewrite ?Ec.
    - exact (proj1 (proj1 (cm_cpu _ _ _ _ C))).
    - reflexivity.
    - split; [reflexivity|exact Hlim|exact D1|exact D2].
    - exact D3.
    - apply Hb.
    - apply Hb. }
  exists s', x, q, h, l, t, p, ((B ++ pool_blocks x b q h l t p pl pc) ++ [(KVA, reserved)]). split.
  { apply start_calls; [|unfold lspan in *; destruct (cm_info _ _ _ _ C) as [Hi _]; unfold lspan in Hi; lia|apply Hk, Hr].
    rewrite (cm_magic _ _ _ _ C). vm_compute. split; [discriminate|reflexivity]. }
  constructor.
  - apply main_launchable; [exact (bt_held _ _ _ _ _ Hb)|exact Hpo|by rewrite Et|apply Hb|].
    eapply (main_sched fuel n); [exact (bt_held _ _ _ _ _ Hb)|exact Hpo|by rewrite Et|apply Hb|apply Hb| | |exact Ht|exact Etm|exact Hv].
    + rewrite Ec. exact Hrun.
    + rewrite Ec. reflexivity.
  - exact Ep.
  - exact Etm.
  - rewrite Ec. reflexivity.
  - exact M.
  - rewrite Ec. apply paging_cpu_on.
  - intros va Hva. rewrite Ec. apply translate_map; [apply Hb|exact Hva].
  - apply Hb.
  - exact Hv.
  - exact Hs.
Qed.

(** C4: the kernel boots. On a machine with a compliant boot loader, no disk and a keyboard
    controller that answers, the code from the entry in boot.S on returns from [kernel_start]
    without an error, with paging on and the kernel's address map in place, interrupts
    enabled and the timer's line unmasked, a present gate for exactly the vectors with a
    handler, and the system call handler registered; the start-up code itself has become
    the first task of the scheduler, whose invariant holds, with 128 free threads and memory
    for 4900 more requests ([kernel_up]). The loader must leave CS at selector 8, since the
    kernel never loads it, and the value used as GDT limit must cover the kernel's segments. *)
Theorem kernel_boots ra fuel n s a0 es :
  compliant fuel s a0 es -> (n <= 4900)%nat ->
  exists s' x q h l t p A, runs (start ra fuel) s None s' /\ kernel_up fuel n s' x q h l t p A.
Proof. apply boots. Qed.

(** C24: which interrupts the processor takes once the kernel is up. On such a machine, for every
    vector, whatever the error code: without a handler the gate is not present and the
    processor raises exception 11 instead; the system call vector has its handler and a present
    gate, but in kernel mode, the only mode the kernel runs code in, the processor refuses it
    with a general protection exception, because the gate names the ring 3 code segment; every
    other vector with a handler, the timer's among them, has a gate that passes all checks and
    leads to the stub of its vector. *)
Theorem vectors_after_boot ra fuel s a0 es :
  compliant fuel s a0 es ->
  exists s', runs (start ra fuel) s None s' /\
    intr_handler (intr s') !! kSyscallVec = Some SyscallId /\ intr_handler (intr s') !! kTimerVec = Some TimerHandlerId /\
    forall ra' scratch fuel' v err, 0 <= v < kIdtEntryNum ->
      match intr_handler (intr s') !! v with
      | None => interrupt ra' scratch fuel' v err s' = Fault NP
      | Some _ =>
          if v =? kSyscallVec then interrupt ra' scratch fuel' v err s' = Fault GP
          else gate_check (cpu s') (mem s') v = None /\ gate_offset (mem s') v = u32 (intr_vec v)
      end.
Proof.
  intros C. destruct (boots ra fuel 0 s a0 es C ltac:(lia)) as (s' & x & q & h & l & t & p & A & Hr & U).
  pose proof (up_vectors _ _ _ _ _ _ _ _ _ _ U) as Hv. exists s'. split_and!; [exact Hr|apply U| |].
  - exact (sc_handler _ _ _ _ _ _ (la_sched _ _ _ _ _ _ _ _ _ _ _ (up_threads _ _ _ _ _ _ _ _ _ _ U))).
  - intros ra' scratch fuel' v err Hr'. pose proof (gate_check_installed s' v Hv Hr') as Hc.
    destruct (intr_handler (intr s') !! v) as [hd|]; [|exact (interrupt_refused _ _ _ _ _ _ _ Hc)].
    destruct (v =? kSyscallVec); [exact (interrupt_refused _ _ _ _ _ _ _ Hc)|].
    split; [exact Hc|]. apply (vd_gates _ Hv v Hr').
Qed.

(** C3: from power-on to running threads. On such a machine the kernel boots, up to 128
    threads can be created and started for any functions, and the timer interrupts that
    follow enter these functions, the first with the first 15 interrupts and each of the
    others 15 later, in distinct threads, with registers 0 and interrupts enabled. *)
Theorem boot_to_threads ra ra' scratch fuel s a0 es fns :
  compliant fuel s a0 es -> 0 <= ThreadSwitch_ret < W32 -> (length fns <= 128)%nat -> Forall start_ok fns ->
  exists s1 s2 ts, runs (start ra fuel) s None s1 /\ runs (start_threads fuel fns) s1 tt s2 /\
    timer s2 = 15 /\ length ts = length fns /\ NoDup ts /\ run_in_turn ra' scratch fuel s2 0 ts fns.
Proof.
  intros C Hra Hl Hok. destruct (boots ra fuel (length fns + 0) s a0 es C ltac:(lia)) as (s1 & x & q & h & l & t & p & A & Hr & U).
  pose proof (up_threads _ _ _ _ _ _ _ _ _ _ U) as HL. rewrite <- (take_drop (length fns) (pool_threads t 128)) in HL.
  assert (length (take (length fns) (pool_threads t 128)) = length fns) as Ht.
  { rewrite length_take, pool_threads_length. lia. }
  destruct (launch_all _ _ _ _ _ _ _ _ _ _ _ _ _ HL (up_proc _ _ _ _ _ _ _ _ _ _ U) Ht Hok) as (s2 & ys & A' & Hr2 & HL' & Et & Hys).
  exists s1, s2, (take (length fns) (pool_threads t 128)).
  split_and!; [exact Hr|exact Hr2|rewrite Et; apply U|exact Ht| |exact (turns ra' scratch _ _ _ _ _ _ _ [] _ _ _ _ _ _ HL' Hys Hra)].
  eapply sublist_NoDup; [apply (pool_threads_nodup t 128)|apply sublist_take].
Qed.
End KernelBoots.

(** ** An example *)

(** A PC without a disk: the keyboard controller is always ready and its self tests succeed, the
    interrupt controllers read back their masks, the other ports read 0. *)
Definition pc_device (h : list IoEvent) (port : Z) : Z :=
  if (port =? kMPicData) || (port =? kSPicData) then imr port h
  else if port =? 100 then 1
  else if port =? 96 then
    match imr 100 h with
    | 170 => 85
    | 174 => 170
    | _ => 0
    end
  else 0.

Definition pc_platform : Platform := {|
  K_END := 1572864;
  intr_vec := fun i => 1048576 + 16 * i;
  GdtLimit_fn := 1050000;
  RunIde_fn := 1060000;
  ThreadSwitch_ret := 1070000;
  device := pc_device;
|}.

(** The boot loader's state, with the structures of [boot_example]. *)
Definition pc_example : kstate :=
  set_cpu (set_eax MULTIBOOT_BOOTLOADER_MAGIC (set_ebx 32768 (set_cs 8 zero_cpu))) boot_example.

Lemma pc_compliant : @compliant pc_platform (Z.to_nat 1048580) pc_example 36864 boot_map.
Proof.
  split.
  - split; [split_and!; [reflexivity|by left..]|]. repeat constructor; vm_compute; discriminate.
  - reflexivity.
  - split; [|split; [|split]]; unfold lspan, apart; vm_compute; first [split; discriminate|left; discriminate|right; discriminate].
  - vm_compute. reflexivity.
  - vm_compute. discriminate.
  - split; [|split; [|split; [|split]]].
    + vm_compute. repeat split; discriminate.
    + vm_compute. repeat split; discriminate.
    + left. vm_compute. discriminate.
    + left. vm_compute. discriminate.
    + right. vm_compute. discriminate.
  - split; [|split]; [repeat constructor; discriminate|repeat constructor; vm_compute; discriminate|vm_compute; discriminate].
  - vm_compute. discriminate.
  - vm_compute. split; discriminate.
  - vm_compute. discriminate.
  - split; [split|]; reflexivity.
  - split; [lia|cbn [length boot_map]; lia].
  - split; [|split].
    + intros h. split; reflexivity.
    + intros h. split; exists 0%nat; (split; [lia|]); (split; [intros k Hk; lia|vm_compute; reflexivity]).
    + intros h port [-> | ->]; reflexivity.
Qed.

Lemma kernel_boots_witness :
  exists s', runs (@start pc_platform 1048600 (Z.to_nat 1048580)) pc_example None s' /\
    Z.testbit (eflags (cpu s')) 9 = true /\ masked kTimerVec (io s') = false.
Proof.
  destruct (@kernel_boots pc_platform 1048600 (Z.to_nat 1048580) 4900 pc_example 36864 boot_map pc_compliant ltac:(lia))
    as (s' & x & q & h & l & t & p & A & Hr & U).
  exists s'. split; [exact Hr|]. split; [exact (up_enabled _ _ _ _ _ _ _ _ _ _ U)|exact (up_unmasked _ _ _ _ _ _ _ _ _ _ U)].
Defined.

(** [int $0x80] after the boot. *)
Lemma vectors_after_boot_witness :
  exists s', runs (@start pc_platform 1048600 (Z.to_nat 1048580)) pc_example None s' /\
    @interrupt pc_platform 1048900 (1, 2, 3) 1 128 0 s' = Fault 13.
Proof.
  destruct (@vectors_after_boot pc_platform 1048600 (Z.to_nat 1048580) pc_example 36864 boot_map pc_compliant) as (s' & Hr & Hs & _ & Hv).
  exists s'. split; [exact Hr|]. specialize (Hv 1048900 (1, 2, 3) 1%nat 128 0 ltac:(unfold kIdtEntryNum; lia)).
  change (intr_handler (intr s') !! 128 = Some SyscallId) in Hs. rewrite Hs in Hv. exact Hv.
Defined.

(** Two threads, started at 1080000 and 1090000. *)
Lemma boot_to_threads_witness :
  exists s1 s2 ts, runs (@start pc_platform 1048600 (Z.to_nat 1048580)) pc_example None s1 /\
    runs (start_threads (Z.to_nat 1048580) [1080000; 1090000]) s1 tt s2 /\
    @run_in_turn pc_platform 1048900 (1, 2, 3) (Z.to_nat 1048580) s2 0 ts [1080000; 1090000] /\ length ts = 2%nat.
Proof.
  destruct (@boot_to_threads pc_platform 1048600 1048900 (1, 2, 3) (Z.to_nat 1048580) pc_example 36864 boot_map [1080000; 1090000] pc_compliant)
    as (s1 & s2 & ts & Hr1 & Hr2 & _ & Hl & _ & Hrun).
  - vm_compute. split; [discriminate|reflexivity].
  - cbn [length]. lia.
  - repeat constructor; vm_compute; discriminate.
  - exists s1, s2, ts. split; [exact Hr1|]. split; [exact Hr2|]. split; [exact Hrun|exact Hl].
Defined.

(** The theorem on starting threads, in the state after the boot. *)
Lemma threads_start_witness :
  exists s1 s2 ts, runs (@start pc_platform 1048600 (Z.to_nat 1048580)) pc_example None s1 /\
    runs (start_threads (Z.to_nat 1048580) [1080000]) s1 tt s2 /\
    @run_in_turn pc_platform 1048900 (1, 2, 3) (Z.to_nat 1048580) s2 0 ts [1080000].
Proof.
  destruct (@boots pc_platform 1048600 (Z.to_nat 1048580) 1 pc_example 36864 boot_map pc_compliant ltac:(lia))
    as (s1 & x & q & h & l & t & p & A & Hr & U).
  destruct (@threads_start pc_platform _ _ 1048900 (1, 2, 3) (Z.to_nat 1048580) 0 s1 q h p (mk_task x 48044 48124 (cpu s1) None) [] l [t + 24 * 127] (pool_threads t 127) A [1080000])
    as (s2 & Hr2 & _ & Hrun).
  - exact (up_threads _ _ _ _ _ _ _ _ _ _ U).
  - exact (up_proc _ _ _ _ _ _ _ _ _ _ U).
  - reflexivity.
  - repeat constructor; vm_compute; discriminate.
  - vm_compute. split; [discriminate|reflexivity].
  - exists s1, s2, [t + 24 * 127]. split; [exact Hr|]. split; [exact Hr2|exact Hrun].
Defined.
